(* ===== verification/_CoqProject ===== *)
-Q . S2P
Prelude.v
Sdk.v
SdkDec.v
SdkModel.v
GoStd.v
Bank.v
Bep3Types.v
Bep3Keeper.v
Bep3Inv.v
Bep3Safety.v
Bep3Theorems.v
Bep3Msg.v
Bep3Genesis.v
Bep3Witness.v
Evmutil.v
EvmutilTheorems.v
EvmutilWitness.v
Issuance.v
IssuanceTheorems.v
IssuanceMsg.v
IssuanceWitness.v
Bn254.v
Dasigners.v
DasignersTheorems.v
DasignersSigning.v
DasignersWitness.v
Contracts.v
ContractsWitness.v
EvmConvert.v
EvmConvertSpec.v
EvmConvertTheorems.v
EvmConvertMsg.v
EvmConvertWitness.v
Pricefeed.v
PricefeedTheorems.v
PricefeedWitness.v
CommitteePerm.v
Committee.v
CommitteeTheorems.v
CommitteeBlock.v
CommitteeGov.v
CommitteeWitness.v
Ante.v
AnteTheorems.v
AnteApp.v
AnteWitness.v
Tally.v
TallyTheorems.v
TallyDecision.v
TallyWitness.v
Council.v
CouncilTheorems.v
CouncilWitness.v
DasignersPrecompile.v
PrecompileTheorems.v
PrecompileWitness.v
Vesting.v
VestingTheorems.v
VestingWitness.v
Chaincfg.v
ChaincfgTheorems.v
ChaincfgWitness.v
Paging.v
Bep3Query.v
Bep3QueryTheorems.v
CommitteeQuery.v
CommitteeQueryTheorems.v
CommitteeQueryWitness.v
EvmConvertQuery.v
PeriodicVesting.v
PeriodicVestingTheorems.v
PeriodicVestingWitness.v
Upgrade.v
PricefeedQuery.v
Vrf.v
App.v
AppTheorems.v
AppBridge.v
AppGenesis.v
AppWitness.v
