(* ===== verification/Prelude.v ===== *)
(** * 0g-chain: a verification library for the chain's own modules

    0g-chain is a Cosmos SDK application with an EVM.  Most of it wires modules
    of the SDK and of ethermint together; the logic of its own is in the modules
    under [x/], in [app/] (ante, tally and upgrade handlers, the composition of the
    modules), in [chaincfg], [crypto/] and [migrate], in the precompiled contract under
    [precompiles/], and in the contract and script under [contracts/].  This library
    models that logic as functions and proves what makes it correct.

    ** How the code is modelled

    A keeper function becomes a function on an explicit state, with the guards
    and calls of the source in the source's order.  It ends in an [outcome]:
    [Ok], [Err] for a returned Go error, [Panic] for a panic.  A message handler
    runs in a transaction, so a failed call leaves the state of the caller as it
    was; a begin blocker that panics stops the chain.  Stores are finite maps
    keyed by the bytes or strings of the source; iterators list them in key
    order.  Go's fixed-width integers are in [Z] with their wrap-around written
    out ([u64], [i64]); [math.Int] is in [Z] with the overflow panic ([int_chk]).
    Events, logs, gas and telemetry are left out.

    Code outside the repository is an argument: a type class of operations,
    with a second class of the laws the theorems rely on.  Every such pair has a
    concrete instance, used by the witnesses.

    ** Files

    - [Prelude]: outcomes, loops, machine integers, sums over maps, tactics
      ([go_inv] takes a successful run apart; [gobool] turns tests into
      propositions).
    - [Sdk]: byte strings, the ordered store, coins; [SdkConfig]/[SdkLaws] are
      the coin arithmetic, denominations and bech32 of the SDK.  [SdkModel] is an
      instance.  [SdkDec]: decimals as [DecConfig]/[DecLaws] and
      [DecMore]/[DecRound], and the instance [DecModel].  [GoStd]:
      [encoding/hex] and strings.  [Bank]: the bank keeper as
      [BankKeeper]/[BankLaws], and the instance [Ledger].  [Paging]: the
      pagination of queries as [PagingEnv]/[PagingLaws], and an instance.
    - x/bep3, cross-chain atomic swaps.  [Bep3Types] (types/: swaps, supplies,
      parameters, hashes, keys), [Bep3Keeper] (keeper/keeper.go, swap.go,
      asset.go, params.go, abci.go), [Bep3Msg] (types/msg.go,
      keeper/msg_server.go), [Bep3Genesis] (genesis.go, types/genesis.go);
      [Bep3Inv] (invariants and the effect of each operation), [Bep3Safety]
      (each operation keeps each invariant), [Bep3Theorems], [Bep3Witness].
      Its queries (keeper/grpc_query.go, keeper/querier.go): [Bep3Query],
      [Bep3QueryTheorems].
    - x/evmutil, the EVM's 18-decimal balances over the 6-decimal bank coin.
      [Evmutil] (keeper/keeper.go, keeper/bank_keeper.go, keeper/invariants.go),
      [EvmutilTheorems], [EvmutilWitness].  Its conversions between coins and
      ERC20 tokens: [EvmConvert] (keeper/conversion_evm_native.go,
      conversion_cosmos_native.go, erc20.go, evm.go, params.go, invariants.go,
      types/, genesis.go), [EvmConvertSpec] (the laws of the EVM and the tokens,
      the abstract ledger), [EvmConvertTheorems], [EvmConvertMsg] (types/msg.go,
      keeper/msg_server.go), [EvmConvertWitness], [EvmConvertQuery]
      (keeper/grpc_query.go, migrations/).
    - x/issuance, assets issued by an owner.  [Issuance] (keeper/, abci.go,
      genesis.go, types/), [IssuanceMsg] (types/msg.go, keeper/msg_server.go),
      [IssuanceTheorems], [IssuanceWitness].
    - crypto/bn254util: [Bn254].  x/dasigners/v1, the signers of the data
      availability layer: [Dasigners] (keeper/, genesis.go, types/),
      [DasignersTheorems] (quorums, epochs, genesis), [DasignersSigning]
      (registration, aggregate keys), [DasignersWitness].  The precompiled
      contract that gives the EVM access to it, precompiles/dasigners:
      [DasignersPrecompile], over the state and the operations of [Dasigners],
      [PrecompileTheorems], [PrecompileWitness].
    - x/council/v1, the council elected by votes: [Council] (keeper/, genesis.go,
      types/), [CouncilTheorems], [CouncilWitness].
    - x/pricefeed, prices posted by oracles: [Pricefeed] (keeper/, abci.go,
      genesis.go, types/), [PricefeedTheorems], [PricefeedWitness],
      [PricefeedQuery] (keeper/querier.go).
    - x/committee, groups that enact proposals: [CommitteePerm]
      (types/permissions.go), [Committee] (keeper/, abci.go, genesis.go,
      proposal_handler.go, types/), [CommitteeTheorems] (keys, invariants,
      tallies), [CommitteeBlock] (the begin blocker and its specification),
      [CommitteeGov] (every step of the module), [CommitteeWitness].  Its queries:
      [CommitteeQuery], [CommitteeQueryTheorems], [CommitteeQueryWitness].
    - x/validator-vesting, supplies by schedule: [Vesting] (querier.go),
      [VestingTheorems], [VestingWitness].
    - app/ante: [Ante] (ante.go, authz.go, authorized.go, vesting.go,
      min_gas_filter.go), [AnteTheorems], [AnteApp] (the sources of authorized
      addresses in app.go, over x/bep3 and x/pricefeed), [AnteWitness].
    - app/tally_handler.go, the votes of x/gov: [Tally], [TallyTheorems] (what
      the loops count), [TallyDecision], [TallyWitness].
    - app/upgrades.go: [Upgrade] (model, theorem and witness).
    - app/app.go and the module.go of the modules: [App] (the state of the chain, the
      module manager's orders, begin and end blockers, genesis, routing of messages),
      [AppTheorems], [AppBridge], [AppGenesis], [AppWitness].  [App] composes the models above: the
      stores of the modules over one bank, one account keeper and one staking keeper;
      each module works on its [Part] of it.
    - chaincfg: [Chaincfg] (mint.go, coin_helper.go, denoms.go, prefix.go, coin.go,
      config.go, homedir.go), [ChaincfgTheorems], [ChaincfgWitness].
    - crypto/vrf: [Vrf] (model and theorems).
    - migrate/utils/periodic_vesting.go: [PeriodicVesting],
      [PeriodicVestingTheorems], [PeriodicVestingWitness].
    - contracts/: [Contracts] (hardhat.config.ts, .eslintrc.cjs,
      scripts/deploy.ts, the wrapped coin contract), [ContractsWitness].

    ** What the theorems show

    - bep3: every interleaving of swap operations, blocks, parameter changes by
      governance and foreign bank activity keeps the invariants ([reachable_inv]):
      the height indexes hold exactly the open and the completed swaps, the incoming
      and outgoing supplies are the sums over the pending swaps, outgoing swaps are
      escrowed; the supply limits hold until the parameters change.  The begin blocker never fails and acts as the abstract
      [block_view] ([BeginBlocker_refines]).  Swaps follow their state machine
      ([trace_advances]), are paid at most once ([paid_once]), can be claimed or
      refunded whenever the bank executes the payment ([claim_succeeds],
      [refund_succeeds]; a lowered limit refuses the claim of an incoming swap) and
      pay exactly their amount ([claim_payment],
      [refund_payment]).  The tracked supply moves
      with the bank's ([supply_in_step]).  Messages decode
      ([claim_msg_roundtrip], [create_msg_decodes]); export and import are inverse
      ([export_import]) and the import establishes the invariants
      ([InitGenesis_inv]).  The gRPC and the older queries list the same swaps
      and their pages cover them ([swap_queries_agree]); a listed swap is found by
      the identifier it is shown with ([listed_swap_reads_back]).
      [incoming_span_wraps] and [created_swap_validates] state two behaviours that
      look unintended.
    - evmutil: the EVM bank keeper refines a ledger of [neuron] balances
      ([evm_bank_refines]); fractions stay below one [ua0gi] ([evm_run_small]);
      the backing changes exactly by fractions burned minus minted
      ([evm_run_reserve]); the registered checks ([invariant_checks_correct]) and
      the balance query ([EvmBank_GetBalance_correct]) are exact.
    - conversions: the four conversions refine a ledger of coins and tokens
      ([conv_refines]); over every trace both invariants on backing hold
      ([conv_run_backed], [backing_checks]; the source registers only the one on
      wrapped coins); a wrapped coin can be redeemed ([always_redeemable]).  These
      three are for tokens that keep to ERC20, and for parameter changes that list a
      pair or a coin only with its backing in place ([listable]).  A
      conversion and its inverse cancel ([conversions_cancel]); validated parameters have one pair for each
      coin and contract ([valid_params_lookup]); only the signer pays
      ([signer_pays]); the queries for contracts agree ([contract_queries_agree]).
      [fee_token_unbacked], [gas_coin_breaks_check] and
      [export_import_conversions] show where backing or export fall short.
    - issuance: issue and redeem ([issue_correct], [redeem_correct]), block and
      unblock ([block_unblock], [unblock_removes]), seizure in the begin blocker
      ([begin_block_seizes]), the rate limit over every trace
      ([rate_limit_respected]), ownership ([only_owner]); [locked_coins_halt] and
      [block_owner_panics] are error paths.
    - dasigners: quorum formation equals a definition by chunks
      ([form_quorums_chunks]); the begin blocker stores quorums of registered
      accounts with stake, empty only when no account is entitled to a seat
      ([begin_block_quorums]), and cannot stop the chain under
      workable parameters ([begin_block_total]); an honest operator is accepted
      ([honest_operator_registers], against the laws of a bilinear pairing); the
      aggregate key is the sum of the marked keys ([aggregate_key_correct]); the
      map to the curve ends ([MapToCurve_total]); [export_not_importable] and
      [unchecked_params_halt] are defects of the genesis.
    - precompile: a call changes only the records of the account that signed the
      transaction ([call_touches_origin], whatever the method and the input); a
      signer reads back as registered ([registered_signer_reads_back]);
      [unknown_signer_panics], [short_input_panics] and [epoch_cut] are inputs
      that are handled badly.
    - council: the votes for a council are kept apart ([votes_by_council]); the
      members are the voters of the smallest distinct ballots ([elect_correct]).  But
      from a genesis no election ever takes place ([council_frozen]), and where a
      voting period is stored the first one stops the chain ([election_halts]).
    - pricefeed: the end blocker gives each active market the median of its
      unexpired prices and ends for every workable store ([end_block_prices]); a
      majority of honest oracles bounds the price ([majority_price]); only the
      oracles of a market post, each its own price ([post_price_correct]); the
      older query for a price is the gRPC one ([price_queries_agree]); export
      and import keep the prices ([prices_export_import]); [end_block_halts]
      shows inputs that stop the chain.
    - committee: the begin blocker refines a declarative account of which
      proposals pass, fail and are closed ([begin_block_refines]) and ends where
      the accounts it reads exist ([begin_block_ends]); every step keeps the
      invariants on committees, proposals and votes ([committee_run_inv]); a
      change is enacted only with a permission for it ([permission_sound]);
      changing a committee closes its proposals ([committee_change_closes]);
      export and import are inverse ([committee_export_import]); a vote that is
      accepted is the one that the queries show, once ([cast_vote_shown]).
      [abstentions_pass], [attribute_replaced] and [record_replaced] are
      behaviours that look unintended.
    - ante: an accepted transaction neither executes nor grants a disabled
      message through authz at any depth ([accepted_tx], [authz_limiter_exact]);
      with an authenticated mempool the ante handler refuses every Cosmos transaction
      that no configured address, deputy of x/bep3 or oracle of x/pricefeed signs, and
      treats all others, and Ethereum transactions, as without authentication
      ([mempool_admission]);
      the filter drops exactly the EVM's gas price ([min_gas_filter_exact]).
    - tally: a consistent proposal has one result, whatever the order in which
      Go visits its map, and no panic ([tally_deterministic]); it passes only
      with quorum, majority and without veto ([passed_has_majority]); every share
      counts at most once ([shares_count_once]).
    - validator-vesting: the supply of HARD is that of its schedule until the last
      date, after which the query panics ([hard_supply_exact]); that of SWP is the
      sum of the months released ([swp_supply_exact]); the gas coin's is rounded to
      the nearest ([circulating_supply_rounds], [total_supply_truncates]).
    - chaincfg: the yield stays between 4.98% and 15%, with the end points where
      they are meant to be ([inflation_bounds], from the documented precision of the
      library of decimals, against the exponential of the real numbers); [no_circulating_supply] is an error
      path; the units of the denominations fit together ([RegisterDenoms_units]); the
      prefixes of addresses differ ([prefixes_distinct]).
    - migrate: the reset of a vesting account releases from the new start on what the
      old schedule does, and loses no delegated coin ([reset_keeps_schedule]).
    - upgrade: every validator gets at least the minimum commission, and only those
      below it change ([minimum_commission]).
    - application: seen from a module every run of the application, with whole blocks,
      the messages of all modules and the parameter changes that governance and the
      committees enact, is a run of this module ([app_refines]), so the invariants of
      bep3, council and committee and the books of issuance hold together over the shared
      bank ([app_invariants]).  The SDK's modules and proposal handlers are only assumed
      to act as these steps allow ([AppLaws]): they may move coins and set any
      parameters that validate.  While proposals keep the denominations of evmutil's pairs and of
      the assets of bep3 and issuance apart ([prudent]), the coins of the pairs stay
      backed over these runs ([app_backed]), and one issue of such an asset breaks the
      backing ([issue_unbacks]); from an accepted genesis on, the invariants of bep3 hold
      in every state ([genesis_run_inv]); no swap is for an account that the bank refuses
      to pay ([recipients_not_blocked]).  The begin blocker of issuance is not wired: the
      period of a rate limit is never renewed ([issuance_window_frozen]) and blocked
      accounts keep their coins ([blocked_keep_coins]), which [begin_block_seizes] and the
      other theorems on this begin blocker, about the function alone, do not show.
    - vrf keys: encodings are inverse ([amino_roundtrip]), equality is of all bytes
      ([key_equality]); mnemonics have no effect ([mnemonic_ignored]).
    - contracts: the token's supply is what its owner minted minus burned
      ([token_supply]); a success that the deployment script prints is true of the
      contract on the chain, a failure is an error of the libraries, and a promise that
      never settles leaves the script silent ([script_reports]).

    ** Bounds

    Only two loops of the source have no structural bound: the search of
    [MapToCurve] and the loop over full quorums.  Both run as [loop] with an
    iteration count that is shown to suffice: one more than the field modulus
    ([MapToCurve_total]), and the number of ballots plus [MaxQuorums] plus two
    ([form_quorums_chunks]).  [make]
    panics for lengths that are negative or beyond the allocation limit of Go's runtime
    ([make_check]); running out of the memory of a machine is not modelled.

    ** Not modelled

    Generated protobuf code and codec registration, command line, REST and gRPC
    plumbing, simulation and tests have no logic of the chain.  The construction of
    the keepers in [NewApp] only passes arguments on.  The export for height zero
    (app/export.go) is a sequence of calls of SDK keepers.  The modules of the SDK,
    ethermint and IBC, the EVM and the libraries for curves and random functions are
    code of others: the models take them as arguments with the laws they rely on. *)

From Stdlib Require Export ZArith Lia.
From stdpp Require Export base tactics numbers sorting strings gmap.
From stdpp Require Export list.

Global Open Scope Z_scope.

(** ** Errors and outcomes

    A keeper function of the chain ends in one of three ways: it returns, it
    returns a Go [error], or it panics.  A registered error
    ([errorsmod.Register(codespace, code, _)]) is identified by its codespace
    and code; an error made by [errors.New]/[fmt.Errorf] carries only text. *)
Inductive error : Type :=
| Registered (codespace : string) (code : Z)
| Plain (msg : string).

#[export] Instance error_eq_dec : EqDecision error.
Proof. solve_decision. Defined.

Inductive outcome (A : Type) : Type :=
| Ok (a : A)
| Err (e : error)
| Panic (why : string).
Arguments Ok {A} a.
Arguments Err {A} e.
Arguments Panic {A} why.

Definition obind {A B : Type} (c : outcome A) (k : A -> outcome B) : outcome B :=
  match c with
  | Ok a => k a
  | Err e => Err e
  | Panic w => Panic w
  end.

Declare Scope go_scope.
Delimit Scope go_scope with go.
Notation "'let!' x := c 'in' k" := (obind c (fun x => k))
  (at level 10, x name, c at level 100, k at level 200) : go_scope.
Notation "'let!' ' p := c 'in' k" := (obind c (fun p => k))
  (at level 10, p strict pattern, c at level 100, k at level 200) : go_scope.
Global Open Scope go_scope.

Definition isOk {A} (o : outcome A) : bool :=
  match o with Ok _ => true | _ => false end.
Definition isPanic {A} (o : outcome A) : bool :=
  match o with Panic _ => true | _ => false end.

(** A Go [if err := f(); err != nil { panic(...) }]: an error becomes a panic. *)
Definition must {A} (o : outcome A) : outcome A :=
  match o with Err _ => Panic "unexpected error" | o => o end.

(** [for _, x := range l { s = f(x, s) }] with early exit on error or panic. *)
Fixpoint ofold {A S : Type} (f : A -> S -> outcome S) (l : list A) (s : S) : outcome S :=
  match l with
  | [] => Ok s
  | x :: l => let! s := f x s in ofold f l s
  end.

Lemma obind_Ok {A B} (c : outcome A) (k : A -> outcome B) b :
  obind c k = Ok b <-> exists a, c = Ok a /\ k a = Ok b.
Proof.
  split; [destruct c; simpl; naive_solver|]. intros (a & -> & H). exact H.
Qed.

Lemma obind_ret {A} (o : outcome A) : obind o Ok = o.
Proof. by destruct o. Qed.

Section LoopLemmas.
  Context {A S : Type}.

Lemma ofold_app (f : A -> S -> outcome S) l1 l2 s :
    ofold f (l1 ++ l2) s = obind (ofold f l1 s) (ofold f l2).
Proof.
    revert s; induction l1 as [|x l1 IH]; intros s; simpl; [done|].
    destruct (f x s); simpl; auto.
Qed.

  (** Rule for loops: an invariant kept by every iteration holds at the end. *)
Lemma ofold_inv (P : S -> Prop) (f : A -> S -> outcome S) l s s' :
    (forall x s1 s2, x ∈ l -> P s1 -> f x s1 = Ok s2 -> P s2) ->
    P s -> ofold f l s = Ok s' -> P s'.
Proof.
    revert s; induction l as [|x l IH]; intros s Hf HP H; simpl in H; [naive_solver|].
    apply obind_Ok in H as (s1 & H1 & H2).
    eapply IH; [|eapply Hf; [left|exact HP|exact H1]|exact H2].
    intros; eapply Hf; [right; eassumption|eassumption|eassumption].
Qed.

  (** A loop none of whose iterations fails runs to its end. *)
Lemma ofold_total (P : S -> Prop) (f : A -> S -> outcome S) l s :
    (forall x s1, x ∈ l -> P s1 -> exists s2, f x s1 = Ok s2 /\ P s2) ->
    P s -> exists s', ofold f l s = Ok s' /\ P s'.
Proof.
    revert s; induction l as [|x l IH]; intros s Hf HP; simpl; [eauto|].
    destruct (Hf x s) as (s2 & -> & H2); [left|done|].
    simpl. apply IH; [|done]. intros; apply Hf; [by right|done].
Qed.
End LoopLemmas.

(** A loop that collects one value per element. *)
Fixpoint omap_list {A B : Type} (f : A -> outcome B) (l : list A) : outcome (list B) :=
  match l with
  | [] => Ok []
  | x :: l => let! y := f x in let! ys := omap_list f l in Ok (y :: ys)
  end.

Lemma omap_list_Ok {A B} (f : A -> outcome B) (g : A -> B) l :
  (forall x, x ∈ l -> f x = Ok (g x)) -> omap_list f l = Ok (map g l).
Proof.
  induction l as [|x l IH]; intros Hf; simpl; [done|]. rewrite (Hf x) by left. simpl.
  rewrite IH; [done|]. intros y Hy. apply Hf. by right.
Qed.

Lemma omap_list_lookup {A B} (f : A -> outcome B) l r :
  omap_list f l = Ok r -> length r = length l
  /\ forall i x, l !! i = Some x -> exists y, r !! i = Some y /\ f x = Ok y.
Proof.
  revert r. induction l as [|x l IH]; intros r Hr; simpl in Hr; [by injection Hr as <-|].
  apply obind_Ok in Hr as (y & Hy & Hr). apply obind_Ok in Hr as (ys & Hys & [= <-]).
  destruct (IH _ Hys) as [Hlen Hl]. split; [simpl; by rewrite Hlen|].
  intros [|i] z Hz; simpl in *; [|by apply Hl]. injection Hz as <-. by exists y.
Qed.

(** ** Loops with an explicit exit

    [for { ... }]: [step] runs one iteration and either continues with a new
    state or leaves the loop with a result.  [loop n] allows [n] iterations; the
    count is binary, so a bound as large as a 256-bit number costs nothing. *)
Section Loop.
  Context {S R : Type} (step : S -> S + R).

Fixpoint loop (n : positive) (s : S) : S + R :=
  match n with
  | xH => step s
  | xO n => match loop n s with inl s => loop n s | inr r => inr r end
  | xI n =>
      match step s with
      | inl s => match loop n s with inl s => loop n s | inr r => inr r end
      | inr r => inr r
      end
  end.

Fixpoint iterations (n : nat) (s : S) : S + R :=
  match n with
  | O => inl s
  | Datatypes.S n => match step s with inl s => iterations n s | inr r => inr r end
  end.

Lemma iterations_add n m s :
  iterations (n + m) s
  = match iterations n s with inl s => iterations m s | inr r => inr r end.
Proof. revert s. induction n as [|n IH]; intros s; simpl; [done|]. by destruct (step s). Qed.

Lemma loop_iterations n s : loop n s = iterations (Pos.to_nat n) s.
Proof.
  revert s. induction n as [n IH|n IH|]; intros s; simpl loop.
  - rewrite Pos2Nat.inj_xI. simpl. rewrite Nat.add_0_r. destruct (step s) as [s1|r]; [|done].
    rewrite iterations_add, IH. destruct (iterations _ s1); [apply IH|done].
  - rewrite Pos2Nat.inj_xO. simpl. rewrite Nat.add_0_r, iterations_add, IH.
    destruct (iterations _ s); [apply IH|done].
  - rewrite Pos2Nat.inj_1. simpl. by destruct (step s).
Qed.

Lemma iterations_mono n m s r :
  (n <= m)%nat -> iterations n s = inr r -> iterations m s = inr r.
Proof.
  intros Hle Hr. replace m with (n + (m - n))%nat by lia. by rewrite iterations_add, Hr.
Qed.

  (** Rule for loops with an exit: an invariant that every iteration keeps, and
      that gives the postcondition at the exit. *)
Lemma iterations_inv (P : S -> Prop) (Q : R -> Prop) n s r :
  (forall s1 s2, P s1 -> step s1 = inl s2 -> P s2) ->
  (forall s1 r, P s1 -> step s1 = inr r -> Q r) ->
  P s -> iterations n s = inr r -> Q r.
Proof.
  intros Hc Hx. revert s. induction n as [|n IH]; intros s HP Hr; simpl in Hr; [discriminate|].
  destruct (step s) as [s1|r1] eqn:E; [eauto|]. injection Hr as <-. eauto.
Qed.

  (** A measure that every iteration decreases bounds the number of them. *)
Lemma iterations_measure (P : S -> Prop) (f : S -> nat) n s :
  (forall s1 s2, P s1 -> step s1 = inl s2 -> P s2 /\ (f s2 < f s1)%nat) ->
  P s -> (f s < n)%nat -> exists r, iterations n s = inr r.
Proof.
  intros Hd. revert s. induction n as [|n IH]; intros s HP Hn; simpl; [lia|].
  destruct (step s) as [s1|r1] eqn:E; [|by exists r1].
  destruct (Hd _ _ HP E). apply IH; [done|lia].
Qed.
End Loop.

(** [go_inv H] takes apart a successful run [H : body = Ok r]: one case per
    test that the run passed, one equation per call it made. *)
Ltac go_step H :=
  lazymatch type of H with
  | obind _ _ = Ok _ =>
      let x := fresh "r" in let Hx := fresh "Hcall" in
      apply obind_Ok in H as (x & Hx & H)
  | (if ?b then _ else _) = Ok _ => destruct b eqn:?; try discriminate H
  | (let (_, _) := ?b in _) = Ok _ => destruct b eqn:?
  | match ?b with _ => _ end = Ok _ => destruct b eqn:?; try discriminate H
  | Ok _ = Ok _ => injection H as H
  end.
Ltac go_inv H := repeat (go_step H; try (cbn beta iota zeta in H)).

(** [by_call lem as p] applies the specification [lem] of an operation to the
    successful call of it among the hypotheses. *)
Tactic Notation "by_call" uconstr(lem) "as" simple_intropattern(p) :=
  match goal with Hc : _ = Ok _ |- _ => apply lem in Hc as p end.

(** Boolean tests of the code, as propositions. *)
Create Rewrite HintDb gobool.
#[export] Hint Rewrite Bool.orb_true_iff Bool.orb_false_iff Bool.andb_true_iff
  Bool.andb_false_iff Bool.negb_true_iff Bool.negb_false_iff
  Z.ltb_lt Z.ltb_ge Z.leb_le Z.leb_gt Z.eqb_eq Z.eqb_neq
  bool_decide_eq_true bool_decide_eq_false : gobool.
Ltac gobool := rewrite ?Z.gtb_ltb, ?Z.geb_leb in *; autorewrite with gobool in *.

Lemma bool_decide_cons `{EqDecision A} (i x : A) l :
  bool_decide (i ∈ x :: l) = bool_decide (x = i) || bool_decide (i ∈ l).
Proof.
  rewrite <- bool_decide_or. apply bool_decide_ext. rewrite elem_of_cons. naive_solver.
Qed.

(** Values that determine their keys differ when the keys differ. *)
Lemma keyed_NoDup {K V X} (f : V -> X) (key : X -> K) (l : list (K * V)) :
  NoDup l.*1 -> (forall k v, (k, v) ∈ l -> k = key (f v)) -> NoDup (f <$> l.*2).
Proof.
  induction l as [|[k v] l IH]; intros Hnd Hin; simpl in *; [constructor|].
  apply NoDup_cons in Hnd as [Hn Hnd]. constructor.
  - intros Hv. apply Hn. rewrite <- list_fmap_compose in Hv. apply list_elem_of_fmap in Hv as ([k' v'] & Ev & Hl).
    simpl in Ev. apply list_elem_of_fmap. exists (k', v'). split; [|done]. simpl.
    rewrite (Hin k v) by left. rewrite (Hin k' v') by (by right). by rewrite Ev.
  - apply IH; [done|]. intros k' v' Hl. apply Hin. by right.
Qed.

Lemma filter_ext_elem {A} (P Q : A -> Prop) `{forall x, Decision (P x)} `{forall x, Decision (Q x)}
    (l : list A) :
  (forall x, x ∈ l -> P x <-> Q x) -> filter P l = filter Q l.
Proof.
  induction l as [|x l IH]; intros E; [done|]. rewrite !filter_cons.
  rewrite IH by (intros y Hy; apply E; by right). specialize (E x (list_elem_of_here _ _)).
  by destruct (decide (P x)), (decide (Q x)); try tauto.
Qed.

(** ** Machine integers

    Go's fixed-width integers are values of [Z]; arithmetic that can leave the
    range is followed by the wrap-around of its type. *)
Definition u64 (z : Z) : Z := z mod 2 ^ 64.
Definition i64 (z : Z) : Z := (z + 2 ^ 63) mod 2 ^ 64 - 2 ^ 63.
Definition is_u64 (z : Z) : Prop := 0 <= z < 2 ^ 64.
Definition is_i64 (z : Z) : Prop := - 2 ^ 63 <= z < 2 ^ 63.

(** [make([]T, n)], for a length given as uint64 and elements of [elem] bytes: Go panics on
    a negative length and on one that needs more memory than can be addressed (the limit of
    linux/amd64). *)
Definition maxAlloc : Z := 2 ^ 48.
Definition make_check (elem n : Z) : outcome unit :=
  if (i64 n <? 0) || (maxAlloc <? elem * i64 n) then Panic "makeslice: len out of range" else Ok tt.
Lemma make_check_fits elem n : 0 < elem -> 0 <= n -> elem * n <= maxAlloc -> make_check elem n = Ok tt.
Proof.
  unfold make_check, maxAlloc. intros He Hn Hm.
  assert (i64 n = n) as -> by (unfold i64; rewrite Z.mod_small; nia).
  by rewrite (proj2 (Z.ltb_ge n 0)), (proj2 (Z.ltb_ge _ _)).
Qed.

Lemma u64_range z : is_u64 (u64 z).
Proof. unfold is_u64, u64. apply Z.mod_pos_bound. lia. Qed.
Lemma u64_id z : is_u64 z -> u64 z = z.
Proof. unfold is_u64, u64. intros. apply Z.mod_small. lia. Qed.
Lemma i64_range z : is_i64 (i64 z).
Proof. unfold is_i64, i64. pose proof (Z.mod_pos_bound (z + 2 ^ 63) (2 ^ 64)). lia. Qed.
Lemma i64_id z : is_i64 z -> i64 z = z.
Proof. unfold is_i64, i64. intros. rewrite Z.mod_small; lia. Qed.

(** ** Sums over finite maps *)
Definition map_sum `{Countable K} {V} (f : V -> Z) (m : gmap K V) : Z :=
  map_fold (fun _ v acc => f v + acc) 0 m.

Section MapSum.
  Context `{Countable K} {V : Type} (f : V -> Z).
  Implicit Types m : gmap K V.

Lemma map_sum_empty : map_sum f (∅ : gmap K V) = 0.
Proof. apply map_fold_empty. Qed.

Lemma map_sum_insert_new m k v :
  m !! k = None -> map_sum f (<[k := v]> m) = f v + map_sum f m.
Proof.
  intros Hk. unfold map_sum. rewrite map_fold_insert_L; [done| |done].
  intros; lia.
Qed.

Lemma map_sum_delete m k v :
  m !! k = Some v -> map_sum f (delete k m) = map_sum f m - f v.
Proof.
  intros Hk. rewrite <- (insert_delete_id m k v Hk) at 2.
  rewrite map_sum_insert_new by apply lookup_delete_eq. lia.
Qed.

Lemma map_sum_insert m k v :
  map_sum f (<[k := v]> m) = map_sum f m + f v - from_option f 0 (m !! k).
Proof.
  destruct (m !! k) as [w|] eqn:Hk; simpl.
  - rewrite <- insert_delete_eq. rewrite map_sum_insert_new by apply lookup_delete_eq.
    rewrite (map_sum_delete _ _ w) by done. lia.
  - rewrite map_sum_insert_new by done. lia.
Qed.

Lemma map_sum_delete_opt m k :
  map_sum f (delete k m) = map_sum f m - from_option f 0 (m !! k).
Proof.
  destruct (m !! k) as [w|] eqn:Hk; simpl.
  - by apply map_sum_delete.
  - rewrite delete_id by done. lia.
Qed.

Lemma map_sum_nonneg m :
  (forall k v, m !! k = Some v -> 0 <= f v) -> 0 <= map_sum f m.
Proof.
  induction m as [|k v m Hk IH] using map_ind; intros Hf.
  - by rewrite map_sum_empty.
  - rewrite map_sum_insert_new by done.
    assert (0 <= f v) by (eapply (Hf k); apply lookup_insert_eq).
    assert (0 <= map_sum f m); [|lia].
    apply IH. intros k' v' Hk'. apply (Hf k' v').
    rewrite lookup_insert_ne; [done|congruence].
Qed.

Lemma map_sum_lookup_le m k v :
  (forall k v, m !! k = Some v -> 0 <= f v) -> m !! k = Some v -> f v <= map_sum f m.
Proof.
  intros Hf Hk. pose proof (map_sum_delete m k v Hk).
  assert (0 <= map_sum f (delete k m)); [|lia].
  apply map_sum_nonneg. intros k' v' Hk'. apply (Hf k').
  by apply lookup_delete_Some in Hk' as [_ ?].
Qed.
End MapSum.

Lemma map_sum_ext `{Countable K} {V} (f g : V -> Z) (m : gmap K V) :
  (forall k v, m !! k = Some v -> f v = g v) -> map_sum f m = map_sum g m.
Proof.
  induction m as [|k v m Hk IH] using map_ind; intros Hfg; [done|].
  rewrite !map_sum_insert_new by done. rewrite (Hfg k v) by apply lookup_insert_eq.
  f_equal. apply IH. intros k' v' Hk'. apply (Hfg k').
  rewrite lookup_insert_ne; [done|congruence].
Qed.

Lemma map_sum_zero `{Countable K} {V} (f : V -> Z) (m : gmap K V) :
  (forall k v, m !! k = Some v -> f v = 0) -> map_sum f m = 0.
Proof.
  induction m as [|k v m Hk IH] using map_ind; intros Hf; [done|].
  rewrite map_sum_insert_new by done. rewrite (Hf k v) by apply lookup_insert_eq.
  rewrite IH; [done|]. intros k' v' Hk'. apply (Hf k'). rewrite lookup_insert_ne; [done|congruence].
Qed.

(** A map changed entry by entry, dropping only entries of weight zero. *)
Lemma map_sum_omap `{Countable K} {V} (f : V -> Z) (g : V -> option V) (m : gmap K V) :
  (forall k v, m !! k = Some v -> from_option f 0 (g v) = f v) ->
  map_sum f (omap g m) = map_sum f m.
Proof.
  induction m as [|k v m Hk IH] using map_ind; intros Hfg; [by rewrite omap_empty|].
  pose proof (Hfg k v (lookup_insert_eq _ _ _)) as Hv.
  assert (map_sum f (omap g m) = map_sum f m) as Hm.
  { apply IH. intros k' v' Hk'. apply (Hfg k'). rewrite lookup_insert_ne; [done|congruence]. }
  rewrite (map_sum_insert_new _ m) by done.
  destruct (g v) as [w|] eqn:Hg; simpl in Hv.
  - rewrite (omap_insert_Some _ m k v w Hg), map_sum_insert_new by (by rewrite lookup_omap, Hk). lia.
  - rewrite omap_insert_None, delete_id by (by rewrite ?lookup_omap, ?Hk). lia.
Qed.

(** Sums over lists, and over the entries of a map. *)
Definition list_sum {V} (f : V -> Z) (l : list V) : Z := foldr (fun v acc => f v + acc) 0 l.

Lemma list_sum_nonneg {V} (f : V -> Z) l : (forall v, v ∈ l -> 0 <= f v) -> 0 <= list_sum f l.
Proof.
  induction l as [|v l IH]; simpl; [lia|]. intros Hf.
  pose proof (Hf v (list_elem_of_here _ _)). assert (0 <= list_sum f l); [|unfold list_sum in *; lia].
  apply IH. intros w Hw. apply Hf. by right.
Qed.

#[export] Instance list_sum_Permutation {V} (f : V -> Z) : Proper ((≡ₚ) ==> (=)) (list_sum f).
Proof. induction 1; simpl; unfold list_sum in *; lia. Qed.

Lemma list_sum_app {V} (f : V -> Z) l k : list_sum f (l ++ k) = list_sum f l + list_sum f k.
Proof. unfold list_sum. induction l as [|x l IH]; simpl; lia. Qed.
Lemma list_sum_ext {V} (f g : V -> Z) l : (forall x, x ∈ l -> f x = g x) -> list_sum f l = list_sum g l.
Proof.
  unfold list_sum. induction l as [|x l IH]; intros H; simpl; [done|].
  rewrite (H x) by left. rewrite IH; [done|]. intros y Hy. apply H. by right.
Qed.
Lemma list_sum_le {V} (f g : V -> Z) l : (forall x, x ∈ l -> f x <= g x) -> list_sum f l <= list_sum g l.
Proof.
  unfold list_sum. induction l as [|x l IH]; intros H; simpl; [lia|].
  apply Z.add_le_mono; [apply H; left|apply IH; intros y Hy; apply H; by right].
Qed.
Lemma list_sum_add {V} (f g : V -> Z) l : list_sum (fun x => f x + g x) l = list_sum f l + list_sum g l.
Proof. unfold list_sum. induction l as [|x l IH]; simpl; lia. Qed.
Lemma list_sum_zero {V} (l : list V) : list_sum (fun _ => 0) l = 0.
Proof. unfold list_sum. by induction l. Qed.
Lemma list_sum_scale {V} (f : V -> Z) c l : list_sum (fun x => c * f x) l = c * list_sum f l.
Proof. unfold list_sum. induction l as [|x l IH]; simpl; lia. Qed.
Lemma list_sum_fmap {A B} (h : A -> B) (f : B -> Z) l : list_sum f (h <$> l) = list_sum (fun x => f (h x)) l.
Proof. unfold list_sum. induction l as [|x l IH]; simpl; [done|]. by rewrite <- IH. Qed.

Lemma map_sum_list_sum `{Countable K} {V} (f : V -> Z) (m : gmap K V) :
  map_sum f m = list_sum f (map_to_list m).*2.
Proof.
  unfold map_sum. rewrite map_fold_foldr. induction (map_to_list m) as [|[k v] l IH]; simpl; [done|].
  unfold list_sum in *. simpl. by rewrite IH.
Qed.
