(* ===== verification/Sdk.v ===== *)
(** * Values of the Cosmos SDK the modules compute with

    Byte strings and addresses, [sdk.Coin] and [sdk.Coins] as their
    documentation describes them, the block context, and the ordered
    key-value store with its range iterator.  The denomination grammar and
    the bech32 codec are not fixed here: they are arguments ([SdkConfig]). *)

From S2P Require Import Prelude.

(** ** Byte strings *)
Abbreviation bytes := (list Z).
Abbreviation AccAddress := (list Z) (only parsing).

Definition is_byte (b : Z) : Prop := 0 <= b < 256.
Definition byte (z : Z) : Z := Z.land z 255.

(** [binary.BigEndian.PutUint64]: eight bytes, the most significant first. *)
Definition Uint64ToBigEndian (v : Z) : bytes :=
  [byte (Z.shiftr v 56); byte (Z.shiftr v 48); byte (Z.shiftr v 40); byte (Z.shiftr v 32);
   byte (Z.shiftr v 24); byte (Z.shiftr v 16); byte (Z.shiftr v 8); byte v].

(** [bytes.Compare(a, b) < 0] and [<= 0]: the store's lexicographic key order. *)
Fixpoint bytes_ltb (a b : bytes) : bool :=
  match a, b with
  | _, [] => false
  | [], _ :: _ => true
  | x :: a, y :: b => (x <? y) || ((x =? y) && bytes_ltb a b)
  end.
Definition bytes_le (a b : bytes) : Prop := bytes_ltb b a = false.

#[export] Instance bytes_le_dec : RelDecision bytes_le.
Proof. unfold bytes_le; intros a b; apply _. Defined.

(** ** The ordered key-value store

    [store.Iterator(nil, end)] yields the entries whose key is below [end], in
    ascending key order. *)
Definition below (e : option bytes) (k : bytes) : bool :=
  match e with None => true | Some e => bytes_ltb k e end.
Definition key_le {V} (a b : bytes * V) : Prop := bytes_le a.1 b.1.
#[export] Instance key_le_dec {V} : RelDecision (@key_le V).
Proof. unfold key_le; intros a b; apply _. Defined.
Definition iterator {V} (m : gmap bytes V) (e : option bytes) : list (bytes * V) :=
  merge_sort key_le (filter (fun kv => below e kv.1 = true) (map_to_list m)).

(** [sdk.KVStorePrefixIterator]: the entries whose key has the prefix, in key order. *)
Definition prefix_iterator {V} (m : gmap bytes V) (p : bytes) : list (bytes * V) :=
  filter (fun kv => p `prefix_of` kv.1) (iterator m None).

(** ** Errors of the SDK *)
Definition ErrUnauthorized : error := Registered "sdk" 4.
Definition ErrInsufficientFunds : error := Registered "sdk" 5.
Definition ErrInvalidAddress : error := Registered "sdk" 7.
Definition ErrInvalidCoins : error := Registered "sdk" 10.

(** ** The block context: height (int64) and time in nanoseconds *)
Record Ctx : Type := mkCtx { BlockHeight : Z; BlockTime : Z }.

(** [t.Unix()] *)
Definition Unix (t : Z) : Z := t / 1000000000.
(** [t.Sub(u)], which saturates at the limits of [time.Duration]. *)
Definition time_Sub (t u : Z) : Z := Z.max (- 2 ^ 63) (Z.min (2 ^ 63 - 1) (t - u)).

(** ** Coins

    [sdk.Coin] is a denomination and a [math.Int]; [AmountOf] is the amount of a
    denomination in a list of coins. *)
Record Coin : Type := mkCoin { Denom : string; Amount : Z }.
Abbreviation Coins := (list Coin).

#[export] Instance coin_eq_dec : EqDecision Coin.
Proof. solve_decision. Defined.

Fixpoint AmountOf (cs : Coins) (d : string) : Z :=
  match cs with
  | [] => 0
  | c :: cs => if bool_decide (Denom c = d) then Amount c else AmountOf cs d
  end.

(** ** The SDK's operations on values

    They are not part of the repository: the models take them as arguments. *)
Class SdkConfig : Type := {
  ValidateDenom : string -> bool;
  AccAddress_String : AccAddress -> string;
  AccAddressFromBech32 : string -> outcome AccAddress;
  (** The end of the range of keys with a given prefix; [None] when it has none. *)
  PrefixEndBytes : bytes -> option bytes;
  (** The range check on the result of an operation of [math.Int]. *)
  int_chk : Z -> outcome Z;
  NewCoin : string -> Z -> outcome Coin;
  Coin_IsValid : Coin -> bool;
  Coin_Add : Coin -> Coin -> outcome Coin;
  Coin_Sub : Coin -> Coin -> outcome Coin;
  Coin_IsLT : Coin -> Coin -> outcome bool;
  (** [sdk.NewCoins] of one coin. *)
  NewCoins1 : Coin -> outcome Coins;
  Coins_Add : Coins -> Coins -> outcome Coins;
  Coins_IsValid : Coins -> bool;
  IsAllPositive : Coins -> bool
}.

(** What their documentation says of them. *)
Class SdkLaws `{SdkConfig} : Prop := {
  (** A key is inside the range that ends at [PrefixEndBytes p] exactly when its
      first [length p] bytes are not above [p]. *)
  below_PrefixEndBytes p k :
    Forall is_byte p -> Forall is_byte (take (length p) k) -> (length p <= length k)%nat ->
    below (PrefixEndBytes p) k = negb (bytes_ltb p (take (length p) k));
  (** [math.Int] holds 256 bits besides the sign and panics on overflow. *)
  int_chk_Ok z r : int_chk z = Ok r -> r = z /\ Z.abs z < 2 ^ 256;
  int_chk_fits z : Z.abs z < 2 ^ 256 -> int_chk z = Ok z;
  (** [NewCoin] panics on an invalid denomination or a negative amount. *)
  NewCoin_Ok d a c : NewCoin d a = Ok c -> c = mkCoin d a /\ 0 <= a /\ ValidateDenom d = true;
  NewCoin_total d a : ValidateDenom d = true -> 0 <= a -> NewCoin d a = Ok (mkCoin d a);
  Coin_IsValid_iff c : Coin_IsValid c = true <-> ValidateDenom (Denom c) = true /\ 0 <= Amount c;
  (** [Add], [Sub] and [IsLT] panic when the denominations differ; [Sub] panics
      when the result is negative. *)
  Coin_Add_Ok a b c : Coin_Add a b = Ok c ->
    Denom a = Denom b /\ c = mkCoin (Denom a) (Amount a + Amount b)
    /\ Z.abs (Amount a + Amount b) < 2 ^ 256;
  Coin_Add_total a b : Denom a = Denom b -> Z.abs (Amount a + Amount b) < 2 ^ 256 ->
    Coin_Add a b = Ok (mkCoin (Denom a) (Amount a + Amount b));
  Coin_Sub_Ok a b c : Coin_Sub a b = Ok c ->
    Denom a = Denom b /\ c = mkCoin (Denom a) (Amount a - Amount b) /\ Amount b <= Amount a;
  Coin_Sub_total a b : Denom a = Denom b -> 0 <= Amount b <= Amount a -> Amount a < 2 ^ 256 ->
    Coin_Sub a b = Ok (mkCoin (Denom a) (Amount a - Amount b));
  Coin_IsLT_Ok a b r : Coin_IsLT a b = Ok r -> Denom a = Denom b /\ r = (Amount a <? Amount b);
  Coin_IsLT_total a b : Denom a = Denom b -> Coin_IsLT a b = Ok (Amount a <? Amount b);
  (** [NewCoins] drops a zero coin. *)
  NewCoins1_Ok c cs : NewCoins1 c = Ok cs -> 0 <= Amount c /\ forall d, AmountOf cs d = AmountOf [c] d;
  NewCoins1_total c : Coin_IsValid c = true -> exists cs, NewCoins1 c = Ok cs;
  (** The coins of valid lists have distinct denominations and positive amounts. *)
  Coins_IsValid_Ok cs : Coins_IsValid cs = true ->
    Forall (fun c => ValidateDenom (Denom c) = true /\ 0 < Amount c) cs /\ NoDup (Denom <$> cs);
  IsAllPositive_iff cs : IsAllPositive cs = true <-> cs <> [] /\ Forall (fun c => 0 < Amount c) cs;
  (** [Add] of valid lists is valid and adds per denomination. *)
  Coins_Add_Ok a b c : Coins_IsValid a = true -> Coins_IsValid b = true -> Coins_Add a b = Ok c ->
    Coins_IsValid c = true /\ forall d, AmountOf c d = AmountOf a d + AmountOf b d;
  Coins_Add_total a b : Coins_IsValid a = true -> Coins_IsValid b = true ->
    (forall d, AmountOf a d + AmountOf b d < 2 ^ 256) -> exists c, Coins_Add a b = Ok c;
  Coins_IsValid_nil : Coins_IsValid [] = true
}.

(** The bech32 codec reads back what it writes, and no address it reads is empty. *)
Class Bech32Laws `{SdkConfig} : Prop := {
  bech32_roundtrip : forall a, Forall is_byte a -> a <> [] -> AccAddressFromBech32 (AccAddress_String a) = Ok a;
  bech32_nonempty : forall t a, AccAddressFromBech32 t = Ok a -> a <> []
}.

Lemma AmountOf_singleton d a d' :
  AmountOf [mkCoin d a] d' = if bool_decide (d = d') then a else 0.
Proof. reflexivity. Qed.

(** ** The order of byte strings *)
Lemma bytes_ltb_asym a : forall b, bytes_ltb a b = true -> bytes_ltb b a = false.
Proof.
  induction a as [|x a IH]; intros [|y b]; simpl; try done.
  rewrite orb_true_iff, andb_true_iff, orb_false_iff, andb_false_iff, Z.ltb_lt, Z.ltb_ge, Z.eqb_eq, Z.eqb_neq.
  intros [Hlt|[-> Hlt]]; [split; [lia|left; lia]|]. split; [lia|]. right. by apply IH.
Qed.
Lemma bytes_ltb_cotrans a : forall b c, bytes_ltb b a = false -> bytes_ltb c b = false -> bytes_ltb c a = false.
Proof.
  induction a as [|x a IH]; intros [|y b] [|z c]; simpl; try done.
  rewrite !orb_false_iff, !andb_false_iff, !Z.ltb_ge, !Z.eqb_neq. intros [H1 H2] [H3 H4].
  split; [lia|]. destruct (decide (z = x)) as [->|]; [right|by left].
  assert (y = x) as -> by lia. apply (IH b); naive_solver.
Qed.

#[export] Instance bytes_le_trans : Transitive bytes_le.
Proof. intros a b c. apply bytes_ltb_cotrans. Qed.
#[export] Instance bytes_le_total : Total bytes_le.
Proof.
  intros a b. unfold bytes_le. destruct (bytes_ltb b a) eqn:E; [|by left]. right. by apply bytes_ltb_asym.
Qed.

(** ** Lemmas on the store *)
Lemma byte_is_byte z : is_byte (byte z).
Proof.
  unfold is_byte, byte. change 255 with (Z.ones 8). rewrite Z.land_ones by lia.
  apply Z.mod_pos_bound. lia.
Qed.

Lemma Uint64ToBigEndian_bytes v : Forall is_byte (Uint64ToBigEndian v).
Proof. unfold Uint64ToBigEndian. repeat constructor; apply byte_is_byte. Qed.

(** The number a big-endian byte string stands for. *)
Fixpoint be_val (l : bytes) : Z :=
  match l with [] => 0 | x :: l => x * 256 ^ Z.of_nat (length l) + be_val l end.

Lemma be_val_range l : Forall is_byte l -> 0 <= be_val l < 256 ^ Z.of_nat (length l).
Proof.
  induction 1 as [|x l Hx Hl IH]; simpl; [lia|].
  unfold is_byte in Hx. rewrite Nat2Z.inj_succ, Z.pow_succ_r by lia. nia.
Qed.

Lemma bytes_ltb_be_val a b :
  length a = length b -> Forall is_byte a -> Forall is_byte b ->
  bytes_ltb a b = (be_val a <? be_val b).
Proof.
  revert b; induction a as [|x a IH]; intros [|y b] Hlen Ha Hb; try discriminate; [done|].
  apply Forall_cons_1 in Ha as [Hx Ha]. apply Forall_cons_1 in Hb as [Hy Hb].
  simpl in Hlen. injection Hlen as Hlen. simpl. rewrite (IH b) by done.
  pose proof (be_val_range a Ha) as Ra. pose proof (be_val_range b Hb) as Rb.
  rewrite Hlen in *. set (B := 256 ^ Z.of_nat (length b)) in *.
  destruct (Z.ltb_spec x y), (Z.eqb_spec x y), (Z.ltb_spec (be_val a) (be_val b));
    simpl; symmetry; (apply Z.ltb_lt || apply Z.ltb_ge); nia.
Qed.

Lemma byte_mod z : byte z = z mod 256.
Proof. unfold byte. change 255 with (Z.ones 8). by rewrite Z.land_ones by lia. Qed.

Lemma be_val_Uint64ToBigEndian v : is_u64 v -> be_val (Uint64ToBigEndian v) = v.
Proof.
  unfold is_u64. intros Hv. unfold Uint64ToBigEndian. cbn [be_val length].
  rewrite !byte_mod, !Z.shiftr_div_pow2 by lia.
  change (256 ^ Z.of_nat 7) with (2 ^ 56). change (256 ^ Z.of_nat 6) with (2 ^ 48).
  change (256 ^ Z.of_nat 5) with (2 ^ 40). change (256 ^ Z.of_nat 4) with (2 ^ 32).
  change (256 ^ Z.of_nat 3) with (2 ^ 24). change (256 ^ Z.of_nat 2) with (2 ^ 16).
  change (256 ^ Z.of_nat 1) with (2 ^ 8). change (256 ^ Z.of_nat 0) with 1.
  Z.div_mod_to_equations. lia.
Qed.

Lemma Uint64ToBigEndian_inj v w :
  is_u64 v -> is_u64 w -> Uint64ToBigEndian v = Uint64ToBigEndian w -> v = w.
Proof.
  intros Hv Hw E. by rewrite <- (be_val_Uint64ToBigEndian v), E, be_val_Uint64ToBigEndian.
Qed.

(** The height indexes of the modules: a key is a big-endian height followed by
    an identifier, and the iterator up to a cutoff sees exactly the heights
    that are not above it. *)
Lemma below_height_cutoff `{SdkLaws} c h id :
  is_u64 c -> is_u64 h ->
  below (PrefixEndBytes (Uint64ToBigEndian c)) (Uint64ToBigEndian h ++ id) = (h <=? c).
Proof.
  intros Hc Hh. rewrite below_PrefixEndBytes.
  - rewrite take_app_length' by reflexivity.
    rewrite bytes_ltb_be_val by (reflexivity || apply Uint64ToBigEndian_bytes).
    rewrite !be_val_Uint64ToBigEndian by done. by rewrite Z.leb_antisym.
  - apply Uint64ToBigEndian_bytes.
  - rewrite take_app_length' by reflexivity. apply Uint64ToBigEndian_bytes.
  - rewrite length_app. simpl. lia.
Qed.

Lemma elem_of_iterator {V} (m : gmap bytes V) e k v :
  (k, v) ∈ iterator m e <-> m !! k = Some v /\ below e k = true.
Proof.
  unfold iterator. rewrite merge_sort_Permutation, list_elem_of_filter, elem_of_map_to_list.
  naive_solver.
Qed.

Lemma iterator_NoDup {V} (m : gmap bytes V) e : NoDup (iterator m e).*1.
Proof.
  unfold iterator. rewrite merge_sort_Permutation.
  apply (sublist_NoDup _ (map_to_list m).*1); [apply NoDup_fst_map_to_list|].
  apply fmap_sublist, sublist_filter.
Qed.

Lemma elem_of_prefix_iterator {V} (m : gmap bytes V) p k v :
  (k, v) ∈ prefix_iterator m p <-> p `prefix_of` k /\ m !! k = Some v.
Proof. unfold prefix_iterator. rewrite list_elem_of_filter, elem_of_iterator. simpl. naive_solver. Qed.

Lemma prefix_iterator_NoDup {V} (m : gmap bytes V) p : NoDup (prefix_iterator m p).*1.
Proof.
  apply (sublist_NoDup _ (iterator m None).*1); [apply iterator_NoDup|]. apply fmap_sublist, sublist_filter.
Qed.

(** [coin_inv] turns the successful coin operations among the hypotheses into
    the facts about denominations and amounts they establish. *)
Ltac coin_inv :=
  repeat match goal with
  | Hc : NewCoin _ _ = Ok _ |- _ => apply NewCoin_Ok in Hc as (-> & ? & ?)
  | Hc : Coin_Add _ _ = Ok _ |- _ => apply Coin_Add_Ok in Hc as (? & -> & ?)
  | Hc : Coin_Sub _ _ = Ok _ |- _ => apply Coin_Sub_Ok in Hc as (? & -> & ?)
  | Hc : Coin_IsLT _ _ = Ok _ |- _ => apply Coin_IsLT_Ok in Hc as (? & Hc)
  | Hc : int_chk _ = Ok _ |- _ => apply int_chk_Ok in Hc as (-> & ?)
  end; cbn [Denom Amount] in *.
