(* ===== verification/SdkDec.v ===== *)
(** * Decimals of the SDK

    [sdk.Dec] is an integer in units of 10^-18.  Its operations are not part of the
    repository: the models take them as arguments ([DecConfig]) with what their
    documentation says of them ([DecLaws]); [DecModel] is one implementation. *)

From S2P Require Import Prelude.

Abbreviation Dec := Z (only parsing).

Definition NewDec (n : Z) : Dec := n * 10 ^ 18.

Class DecConfig : Type := {
  Dec_Add : Dec -> Dec -> outcome Dec;
  Dec_Mul : Dec -> Dec -> outcome Dec;
  Dec_Quo : Dec -> Dec -> outcome Dec
}.

Definition dec_fits (d : Dec) : Prop := Z.abs d < 2 ^ 315.

#[export] Instance dec_fits_dec d : Decision (dec_fits d).
Proof. unfold dec_fits. apply _. Defined.

(** A decimal holds 315 bits besides the sign, and the operations panic when the
    result needs more. *)
Class DecLaws {dc : DecConfig} : Prop := {
  Dec_Add_Ok a b : dec_fits (a + b) -> Dec_Add a b = Ok (a + b);
  Dec_Add_overflow a b : ~ dec_fits (a + b) -> exists w, Dec_Add a b = Panic w;
  (** The product with a whole number is exact. *)
  Dec_Mul_whole a n : dec_fits (a * n) -> Dec_Mul a (NewDec n) = Ok (a * n);
  Dec_whole_Mul a n : dec_fits (a * n) -> Dec_Mul (NewDec n) a = Ok (a * n);
  Dec_Mul_whole_overflow a n : ~ dec_fits (a * n) -> exists w, Dec_Mul a (NewDec n) = Panic w;
  Dec_whole_Mul_overflow a n : ~ dec_fits (a * n) -> exists w, Dec_Mul (NewDec n) a = Panic w;
  (** Division by two rounds to the nearest multiple of 10^-18. *)
  Dec_half a : dec_fits a -> exists m, Dec_Quo a (NewDec 2) = Ok m /\ Z.abs (2 * m - a) <= 1
}.

Lemma Dec_Add_inv `{DecLaws} a b r : Dec_Add a b = Ok r -> r = a + b.
Proof.
  intros Hr. destruct (decide (dec_fits (a + b))) as [Hf|Hf].
  - rewrite (Dec_Add_Ok _ _ Hf) in Hr. congruence.
  - destruct (Dec_Add_overflow _ _ Hf) as [w Hw]. congruence.
Qed.

Lemma Dec_Mul_whole_inv `{DecLaws} a n r : Dec_Mul a (NewDec n) = Ok r -> r = a * n.
Proof.
  intros Hr. destruct (decide (dec_fits (a * n))) as [Hf|Hf].
  - rewrite (Dec_Mul_whole _ _ Hf) in Hr. congruence.
  - destruct (Dec_Mul_whole_overflow _ _ Hf) as [w Hw]. congruence.
Qed.

Lemma Dec_whole_Mul_inv `{DecLaws} a n r : Dec_Mul (NewDec n) a = Ok r -> r = a * n.
Proof.
  intros Hr. destruct (decide (dec_fits (a * n))) as [Hf|Hf].
  - rewrite (Dec_whole_Mul _ _ Hf) in Hr. congruence.
  - destruct (Dec_whole_Mul_overflow _ _ Hf) as [w Hw]. congruence.
Qed.

(** Subtraction, the product with an integer, and how products and quotients round: the
    product to the nearest multiple of 10^-18, the quotient to less than 10^-18 off. *)
Class DecMore : Type := {
  Dec_Sub : Dec -> Dec -> outcome Dec;
  Dec_MulInt : Dec -> Z -> outcome Dec
}.
Class DecRound {dc : DecConfig} {dm : DecMore} : Prop := {
  Dec_Sub_Ok a b : dec_fits (a - b) -> Dec_Sub a b = Ok (a - b);
  Dec_MulInt_Ok a n : dec_fits (a * n) -> Dec_MulInt a n = Ok (a * n);
  Dec_Mul_round a b : Z.abs (a * b) < 2 ^ 314 * 10 ^ 18 ->
    exists r, Dec_Mul a b = Ok r /\ 2 * Z.abs (r * 10 ^ 18 - a * b) <= 10 ^ 18;
  Dec_Quo_round a b : b <> 0 -> Z.abs a * 10 ^ 18 < 2 ^ 314 * Z.abs b ->
    exists r, Dec_Quo a b = Ok r /\ Z.abs (r * b - a * 10 ^ 18) < Z.abs b;
  Dec_Quo_zero a : exists w, Dec_Quo a 0 = Panic w
}.

(** Conversions to integers: [RoundInt] to the nearest, [TruncateInt64] towards zero with
    a panic when the result is no [int64]. *)
Class DecInts : Type := {
  Dec_RoundInt : Dec -> outcome Z;
  Dec_TruncateInt64 : Dec -> outcome Z
}.
Class DecIntsLaws {di : DecInts} : Prop := {
  Dec_RoundInt_near d : Z.abs d < 2 ^ 255 * 10 ^ 18 ->
    exists r, Dec_RoundInt d = Ok r /\ 2 * Z.abs (r * 10 ^ 18 - d) <= 10 ^ 18;
  Dec_TruncateInt64_fits d : is_i64 (Z.quot d (10 ^ 18)) -> Dec_TruncateInt64 d = Ok (Z.quot d (10 ^ 18));
  Dec_TruncateInt64_overflow d : ~ is_i64 (Z.quot d (10 ^ 18)) -> exists w, Dec_TruncateInt64 d = Panic w
}.

(** ** An implementation *)
Module DecModel.
Definition checked (d : Z) : outcome Z :=
  if Z.abs d <? 2 ^ 315 then Ok d else Panic "Int overflow".
(** [chopPrecisionAndRound] on a non-negative number: to the nearest, ties to even. *)
Definition chop (d : Z) : Z :=
  let q := d / 10 ^ 18 in let r := d mod 10 ^ 18 in
  if r <? 5 * 10 ^ 17 then q else if 5 * 10 ^ 17 <? r then q + 1 else if Z.even q then q else q + 1.
Definition chop_signed (d : Z) : Z := if d <? 0 then - chop (- d) else chop d.

#[export] Instance dec : DecConfig := {|
  Dec_Add a b := checked (a + b);
  Dec_Mul a b := checked (chop_signed (a * b));
  Dec_Quo a b := if b =? 0 then Panic "division by zero" else checked (chop_signed (Z.quot (a * 10 ^ 36) b))
|}.

Lemma checked_fits d : dec_fits d -> checked d = Ok d.
Proof. unfold dec_fits, checked. intros H. by rewrite (proj2 (Z.ltb_lt _ _) H). Qed.

Lemma chop_whole a : chop (a * 10 ^ 18) = a.
Proof. unfold chop. rewrite Z.div_mul, Z.mod_mul by lia. reflexivity. Qed.

Lemma chop_signed_whole a : chop_signed (a * 10 ^ 18) = a.
Proof.
  unfold chop_signed. destruct (Z.ltb_spec (a * 10 ^ 18) 0); [|apply chop_whole].
  rewrite <- Z.mul_opp_l, chop_whole. lia.
Qed.

Lemma chop_half a : 0 <= a -> Z.abs (2 * chop (a * (5 * 10 ^ 17)) - a) <= 1 /\ 0 <= chop (a * (5 * 10 ^ 17)) <= a.
Proof.
  intros Ha. unfold chop. assert (10 ^ 18 = 2 * (5 * 10 ^ 17)) as -> by (vm_compute; reflexivity).
  assert (0 < 5 * 10 ^ 17) as Hh by lia. revert Hh. generalize (5 * 10 ^ 17). intros h Hh.
  rewrite (Z.mul_comm a h), (Z.mul_comm 2 h), Z.div_mul_cancel_l, Z.mul_mod_distr_l by lia.
  pose proof (Z.div_mod a 2 ltac:(lia)). pose proof (Z.mod_pos_bound a 2 ltac:(lia)).
  assert (a mod 2 = 0 \/ a mod 2 = 1) as [E|E] by lia; rewrite E, ?Z.mul_0_r, ?Z.mul_1_r.
  - rewrite (proj2 (Z.ltb_lt _ _) Hh). lia.
  - rewrite Z.ltb_irrefl. destruct (Z.even (a / 2)); lia.
Qed.

Lemma chop_signed_half a : Z.abs (2 * chop_signed (a * (5 * 10 ^ 17)) - a) <= 1
  /\ Z.abs (chop_signed (a * (5 * 10 ^ 17))) <= Z.abs a.
Proof.
  unfold chop_signed. destruct (Z.ltb_spec (a * (5 * 10 ^ 17)) 0).
  - rewrite <- Z.mul_opp_l. pose proof (chop_half (- a)). lia.
  - pose proof (chop_half a). lia.
Qed.

Lemma checked_overflow d : ~ dec_fits d -> exists w, checked d = Panic w.
Proof. unfold dec_fits, checked. intros H. rewrite (proj2 (Z.ltb_ge _ _)); [eauto|lia]. Qed.

#[export] Instance dec_laws : DecLaws.
Proof.
  split; unfold NewDec.
  - intros a b H. by apply checked_fits.
  - intros a b H. by apply checked_overflow.
  - intros a n H. cbn [Dec_Mul dec]. rewrite Z.mul_assoc, chop_signed_whole. by apply checked_fits.
  - intros a n H. cbn [Dec_Mul dec]. rewrite (Z.mul_comm _ a), Z.mul_assoc, chop_signed_whole. by apply checked_fits.
  - intros a n H. cbn [Dec_Mul dec]. rewrite Z.mul_assoc, chop_signed_whole. by apply checked_overflow.
  - intros a n H. cbn [Dec_Mul dec]. rewrite (Z.mul_comm _ a), Z.mul_assoc, chop_signed_whole. by apply checked_overflow.
  - intros a Ha. pose proof (chop_signed_half a) as [H1 H2]. exists (chop_signed (a * (5 * 10 ^ 17))).
    split; [|done]. cbn [Dec_Quo dec].
    assert ((2 * 10 ^ 18 =? 0) = false) as -> by (vm_compute; reflexivity).
    replace (a * 10 ^ 36) with ((a * (5 * 10 ^ 17)) * (2 * 10 ^ 18)) by lia.
    rewrite Z.quot_mul by lia. apply checked_fits. unfold dec_fits in *. lia.
Qed.

#[export] Instance more : DecMore := {|
  Dec_Sub a b := checked (a - b);
  Dec_MulInt a n := checked (a * n)
|}.

Lemma chop_near d : 0 <= d -> 2 * Z.abs (chop d * 10 ^ 18 - d) <= 10 ^ 18.
Proof.
  intros Hd. unfold chop. pose proof (Z.div_mod d (10 ^ 18) ltac:(lia)) as E.
  pose proof (Z.mod_pos_bound d (10 ^ 18) ltac:(lia)) as Hr. revert E Hr.
  generalize (d / 10 ^ 18) (d mod 10 ^ 18). intros q r -> Hr.
  destruct (Z.ltb_spec r (5 * 10 ^ 17)); [lia|]. destruct (Z.ltb_spec (5 * 10 ^ 17) r); [lia|]. destruct (Z.even q); lia.
Qed.

Lemma chop_signed_near d : 2 * Z.abs (chop_signed d * 10 ^ 18 - d) <= 10 ^ 18.
Proof. unfold chop_signed. destruct (Z.ltb_spec d 0); [pose proof (chop_near (- d))|pose proof (chop_near d)]; lia. Qed.

#[export] Instance dec_round : DecRound.
Proof.
  split.
  - intros a b H. by apply checked_fits.
  - intros a n H. by apply checked_fits.
  - intros a b H. exists (chop_signed (a * b)). pose proof (chop_signed_near (a * b)). split; [|done].
    apply checked_fits. unfold dec_fits. lia.
  - intros a b Hb H. set (q := Z.quot (a * 10 ^ 36) b). exists (chop_signed q). pose proof (chop_signed_near q) as Hn.
    assert (Z.abs (q * b - a * 10 ^ 36) < Z.abs b) as Hq.
    { pose proof (Z.quot_rem' (a * 10 ^ 36) b) as E. pose proof (Z.rem_bound_abs (a * 10 ^ 36) b Hb) as Hr.
      change (Z.quot (a * 10 ^ 36) b) with q in E. revert E Hr. generalize q (Z.rem (a * 10 ^ 36) b). intros q' r E Hr. lia. }
    assert (Z.abs (chop_signed q * b - a * 10 ^ 18) < Z.abs b) as Hr.
    { revert Hn Hq. generalize (chop_signed q). intros r Hn Hq.
      assert (2 * (Z.abs (r * 10 ^ 18 - q) * Z.abs b) <= 10 ^ 18 * Z.abs b) by (rewrite Z.mul_assoc; apply Z.mul_le_mono_nonneg_r; lia).
      rewrite <- Z.abs_mul, Z.mul_sub_distr_r in *. lia. }
    split; [|done]. cbn [Dec_Quo dec]. rewrite (proj2 (Z.eqb_neq _ _) Hb). apply checked_fits. unfold dec_fits.
    assert (Z.abs (chop_signed q) * Z.abs b < (2 ^ 314 + 1) * Z.abs b) as Hm.
    { rewrite <- Z.abs_mul. lia. }
    apply Z.mul_lt_mono_pos_r in Hm; lia.
  - intros a. by eexists.
Qed.

#[export] Instance is_i64_dec z : Decision (is_i64 z).
Proof. unfold is_i64. apply _. Defined.

#[export] Instance ints : DecInts := {|
  Dec_RoundInt d := if Z.abs (chop_signed d) <? 2 ^ 256 then Ok (chop_signed d) else Panic "Int overflow";
  Dec_TruncateInt64 d :=
    if decide (is_i64 (Z.quot d (10 ^ 18))) then Ok (Z.quot d (10 ^ 18)) else Panic "Int64() out of bound"
|}.

#[export] Instance ints_laws : DecIntsLaws.
Proof.
  split; cbn [Dec_RoundInt Dec_TruncateInt64 ints]; intros d Hd.
  - pose proof (chop_signed_near d) as Hn. exists (chop_signed d). split; [|done].
    rewrite (proj2 (Z.ltb_lt _ _)); [done|lia].
  - by rewrite decide_True.
  - rewrite decide_False by done. eauto.
Qed.
End DecModel.
