(* ===== verification/SdkModel.v ===== *)
(** * An instance of the SDK's operations

    Functions that satisfy [SdkLaws], computed with in the witnesses: the theorems
    that assume the laws apply to them.  Lists of coins are not kept
    sorted, every denomination that is not blank is valid, and the address
    codec is the identity on bytes. *)

From S2P Require Import Prelude Sdk.

Module SdkModel.

(** [sdk.PrefixEndBytes]: the end of the range of keys with the given prefix,
    [None] (no end) when the prefix is empty or all 0xff. *)
Fixpoint prefix_end (p : bytes) : option bytes :=
  match p with
  | [] => None
  | x :: p =>
      match prefix_end p with
      | Some q => Some (x :: q)
      | None => if x =? 255 then None else Some [x + 1]
      end
  end.


(** A key is inside the range that ends at [prefix_end p] exactly when its
    first [length p] bytes are not above [p]. *)
Lemma prefix_end_below p k :
  Forall is_byte p -> Forall is_byte (take (length p) k) -> (length p <= length k)%nat ->
  below (prefix_end p) k = negb (bytes_ltb p (take (length p) k)).
Proof.
  revert k; induction p as [|x p IH]; intros k Hp Hk Hlen; [by destruct k|].
  destruct k as [|y k]; simpl in Hlen; [lia|].
  simpl in Hk. apply Forall_cons_1 in Hp as [Hx Hp]. apply Forall_cons_1 in Hk as [Hy Hk].
  specialize (IH k Hp Hk ltac:(lia)). unfold is_byte in *. simpl.
  destruct (prefix_end p) as [q|]; simpl in IH |- *.
  - rewrite IH. destruct (bytes_ltb p (take (length p) k)); simpl;
    destruct (Z.ltb_spec y x), (Z.eqb_spec y x), (Z.ltb_spec x y), (Z.eqb_spec x y); simpl; lia || done.
  - assert (bytes_ltb p (take (length p) k) = false) as ->
      by (destruct (bytes_ltb _ _); [discriminate IH|done]).
    destruct (Z.eqb_spec x 255); simpl;
    destruct (Z.ltb_spec x y), (Z.eqb_spec x y); simpl; try lia; try done;
    destruct (Z.ltb_spec y (x + 1)), (Z.eqb_spec y (x + 1)); simpl; try lia; try done;
    by destruct k.
Qed.


Definition valid_denom (d : string) : bool := negb (bool_decide (d = "")).
Definition check (z : Z) : outcome Z := if Z.abs z <? 2 ^ 256 then Ok z else Panic "Int overflow".
Definition new_coin (d : string) (z : Z) : outcome Coin :=
  if valid_denom d && (0 <=? z) then Ok (mkCoin d z) else Panic "invalid coin".
Definition valid_coin (c : Coin) : bool := valid_denom (Denom c) && (0 <=? Amount c).
Definition same_denom {A} (a b : Coin) (k : outcome A) : outcome A :=
  if bool_decide (Denom a = Denom b) then k else Panic "invalid coin denominations".
Definition coin_add (a b : Coin) : outcome Coin :=
  same_denom a b (let! z := check (Amount a + Amount b) in Ok (mkCoin (Denom a) z)).
Definition coin_sub (a b : Coin) : outcome Coin :=
  same_denom a b (let! z := check (Amount a - Amount b) in
                  if z <? 0 then Panic "negative coin amount" else Ok (mkCoin (Denom a) z)).
Definition coin_lt (a b : Coin) : outcome bool := same_denom a b (Ok (Amount a <? Amount b)).
Definition new_coins (c : Coin) : outcome Coins :=
  if valid_coin c then Ok (if Amount c =? 0 then [] else [c]) else Panic "invalid coins".
Definition positive_coin (c : Coin) : bool := valid_denom (Denom c) && (0 <? Amount c).
Definition valid_coins (cs : Coins) : bool :=
  forallb positive_coin cs && bool_decide (NoDup (Denom <$> cs)).
Fixpoint insert_coin (c : Coin) (cs : Coins) : outcome Coins :=
  match cs with
  | [] => Ok [c]
  | x :: cs =>
      if bool_decide (Denom x = Denom c)
      then let! z := check (Amount x + Amount c) in Ok (mkCoin (Denom x) z :: cs)
      else let! r := insert_coin c cs in Ok (x :: r)
  end.
Definition coins_add (a b : Coins) : outcome Coins := ofold insert_coin b a.
Definition all_positive (cs : Coins) : bool :=
  match cs with [] => false | _ => forallb (fun c => 0 <? Amount c) cs end.

(** Addresses as text: one character per byte. *)
Definition address_string (a : AccAddress) : string :=
  String.string_of_list_ascii (map (fun z => Ascii.ascii_of_N (Z.to_N z)) a).
Definition string_address (s : string) : outcome AccAddress :=
  match s with
  | EmptyString => Err (Plain "empty address string is not allowed")
  | _ => Ok (map (fun c => Z.of_N (Ascii.N_of_ascii c)) (String.list_ascii_of_string s))
  end.

#[export] Instance model : SdkConfig := {|
  ValidateDenom := valid_denom;
  AccAddress_String := address_string;
  AccAddressFromBech32 := string_address;
  PrefixEndBytes := prefix_end;
  int_chk := check;
  NewCoin := new_coin;
  Coin_IsValid := valid_coin;
  Coin_Add := coin_add;
  Coin_Sub := coin_sub;
  Coin_IsLT := coin_lt;
  NewCoins1 := new_coins;
  Coins_Add := coins_add;
  Coins_IsValid := valid_coins;
  IsAllPositive := all_positive
|}.

Lemma check_Ok z r : check z = Ok r -> r = z /\ Z.abs z < 2 ^ 256.
Proof. unfold check. case_match; [|done]. intros [= <-]. gobool; lia. Qed.
Lemma check_fits z : Z.abs z < 2 ^ 256 -> check z = Ok z.
Proof. unfold check. intros H. apply Z.ltb_lt in H. by rewrite H. Qed.

Lemma coin_add_Ok a b c : coin_add a b = Ok c ->
  Denom a = Denom b /\ c = mkCoin (Denom a) (Amount a + Amount b)
  /\ Z.abs (Amount a + Amount b) < 2 ^ 256.
Proof.
  unfold coin_add, same_denom. intros Hc. go_inv Hc. subst. apply check_Ok in Hcall as [-> ?].
  gobool. done.
Qed.

Lemma valid_coins_Ok cs : valid_coins cs = true ->
  Forall (fun c => valid_denom (Denom c) = true /\ 0 < Amount c) cs /\ NoDup (Denom <$> cs).
Proof.
  unfold valid_coins. intros [Hp Hn]%andb_prop. gobool. split; [|done].
  apply List.Forall_forall. intros c Hc. rewrite forallb_forall in Hp. specialize (Hp c Hc).
  unfold positive_coin in Hp. by gobool.
Qed.

Lemma AmountOf_absent cs d : d ∉ (Denom <$> cs) -> AmountOf cs d = 0.
Proof.
  induction cs as [|c cs IH]; simpl; [done|]. intros Hd. apply not_elem_of_cons in Hd as [Hne Hd].
  case_bool_decide; [congruence|]. by apply IH.
Qed.

Lemma insert_coin_Ok c cs r : valid_coins cs = true -> positive_coin c = true -> insert_coin c cs = Ok r ->
  valid_coins r = true /\ (forall d, AmountOf r d = AmountOf cs d + AmountOf [c] d)
  /\ (forall d, d ∈ (Denom <$> r) <-> d ∈ (Denom <$> cs) \/ d = Denom c).
Proof.
  intros Hv Hc. revert r Hv. induction cs as [|x cs IH]; intros r Hv Hr; simpl in Hr.
  { injection Hr as <-. split_and!.
    - apply andb_true_intro. split; [by simpl; rewrite Hc|apply bool_decide_eq_true, NoDup_singleton].
    - intros d. simpl. case_bool_decide; lia.
    - intros d. simpl. rewrite list_elem_of_singleton, elem_of_nil. tauto. }
  unfold valid_coins in Hv. simpl in Hv. apply andb_prop in Hv as [[Hx Hp]%andb_prop Hn].
  rewrite bool_decide_eq_true, NoDup_cons in Hn. destruct Hn as [Hnx Hn].
  case_bool_decide as Hd.
  - go_inv Hr. subst. apply check_Ok in Hcall as [-> _]. unfold valid_coins. simpl. split_and!.
    + rewrite Hp. unfold positive_coin in *. simpl. gobool. rewrite NoDup_cons. split_and!; naive_solver lia.
    + intros d. rewrite Hd. case_bool_decide; [lia|]. lia.
    + intros d. rewrite Hd, !elem_of_cons. tauto.
  - go_inv Hr. subst. destruct (IH r0) as (Hv' & Ha & He).
    { unfold valid_coins. rewrite Hp. simpl. by apply bool_decide_eq_true. }
    { done. }
    unfold valid_coins in Hv' |- *. simpl. apply andb_prop in Hv' as [Hp' Hn']. split_and!.
    + rewrite Hx, Hp'. simpl. rewrite bool_decide_eq_true in Hn' |- *. rewrite NoDup_cons, He. naive_solver.
    + intros d. rewrite Ha. simpl. repeat case_bool_decide; try lia; congruence.
    + intros d. rewrite !elem_of_cons, He. tauto.
Qed.

Lemma insert_coin_total c cs : AmountOf cs (Denom c) + Amount c < 2 ^ 256 ->
  valid_coins cs = true -> positive_coin c = true -> exists r, insert_coin c cs = Ok r.
Proof.
  intros Hm Hv Hc. induction cs as [|x cs IH]; simpl; [eauto|].
  unfold valid_coins in Hv. simpl in Hv, Hm. apply andb_prop in Hv as [[Hx Hp]%andb_prop Hn].
  rewrite bool_decide_eq_true, NoDup_cons in Hn. destruct Hn as [Hnx Hn].
  unfold positive_coin in Hx, Hc. gobool.
  case_bool_decide.
  - rewrite check_fits by lia. simpl. eauto.
  - destruct IH as (r & ->); [done| |simpl; eauto].
    apply andb_true_intro. split; [done|by apply bool_decide_eq_true].
Qed.

Lemma valid_coins_cons c cs : valid_coins (c :: cs) = true ->
  positive_coin c = true /\ valid_coins cs = true /\ AmountOf cs (Denom c) = 0.
Proof.
  unfold valid_coins. simpl. intros [[Hc Hp]%andb_prop Hn]%andb_prop.
  rewrite bool_decide_eq_true, NoDup_cons in Hn. destruct Hn as [Hd Hn].
  rewrite Hp, bool_decide_eq_true_2 by done. split_and!; [done|done|]. by apply AmountOf_absent.
Qed.

Lemma coins_add_Ok a b c : valid_coins a = true -> valid_coins b = true -> coins_add a b = Ok c ->
  valid_coins c = true /\ forall d, AmountOf c d = AmountOf a d + AmountOf b d.
Proof.
  unfold coins_add. revert a. induction b as [|x b IH]; intros a Ha Hb Hc; simpl in Hc.
  { injection Hc as <-. split; [done|]. intros d. simpl. lia. }
  apply obind_Ok in Hc as (r & Hr & Hc). apply valid_coins_cons in Hb as (Hx & Hb & Hz).
  destruct (insert_coin_Ok _ _ _ Ha Hx Hr) as (Hvr & Har & _).
  destruct (IH r Hvr Hb Hc) as [Hvc Hac]. split; [done|].
  intros d. rewrite Hac, Har. simpl. case_bool_decide; [subst d|]; lia.
Qed.

Lemma coins_add_total a b : valid_coins a = true -> valid_coins b = true ->
  (forall d, AmountOf a d + AmountOf b d < 2 ^ 256) -> exists c, coins_add a b = Ok c.
Proof.
  unfold coins_add. revert a. induction b as [|x b IH]; intros a Ha Hb Hm; simpl; [eauto|].
  apply valid_coins_cons in Hb as (Hx & Hb & Hz).
  destruct (insert_coin_total x a) as (r & Hr); [|done|done|].
  { specialize (Hm (Denom x)). simpl in Hm. rewrite bool_decide_eq_true_2 in Hm by done. lia. }
  rewrite Hr. simpl. destruct (insert_coin_Ok _ _ _ Ha Hx Hr) as (Hvr & Har & _).
  apply IH; [done|done|]. intros d. rewrite Har. specialize (Hm d). simpl in *.
  case_bool_decide; [subst d|]; lia.
Qed.

Lemma all_positive_iff cs :
  all_positive cs = true <-> cs <> [] /\ Forall (fun c => 0 < Amount c) cs.
Proof.
  assert (forallb (fun c => 0 <? Amount c) cs = true <-> Forall (fun c => 0 < Amount c) cs) as E.
  { rewrite forallb_forall, List.Forall_forall. split; intros Hc x Hx; apply Z.ltb_lt; auto. }
  destruct cs as [|c cs]; [naive_solver|]. unfold all_positive. rewrite E. naive_solver.
Qed.

#[export] Instance laws : SdkLaws.
Proof.
  split; simpl.
  - apply prefix_end_below.
  - apply check_Ok.
  - apply check_fits.
  - unfold new_coin. intros d a c Hc. go_inv Hc. subst. gobool. naive_solver.
  - intros d a Hd Ha. unfold new_coin. by rewrite Hd, (proj2 (Z.leb_le _ _)).
  - intros c. unfold valid_coin. by gobool.
  - apply coin_add_Ok.
  - intros a b Hd Hz. unfold coin_add, same_denom. by rewrite bool_decide_eq_true_2, check_fits.
  - unfold coin_sub, same_denom. intros a b c Hc. go_inv Hc. subst.
    apply check_Ok in Hcall as [-> ?]. gobool. split_and!; done || lia.
  - intros a b Hd Hz Hm. unfold coin_sub, same_denom. rewrite bool_decide_eq_true_2, check_fits by (done || lia).
    simpl. by rewrite (proj2 (Z.ltb_ge _ _)) by lia.
  - unfold coin_lt, same_denom. intros a b r Hc. go_inv Hc. subst. by gobool.
  - intros a b Hd. unfold coin_lt, same_denom. by rewrite bool_decide_eq_true_2.
  - unfold new_coins, valid_coin. intros c cs Hc. go_inv Hc. subst. gobool. split; [naive_solver|].
    intros d. destruct (Amount c =? 0) eqn:Ez; simpl; gobool; case_bool_decide; done || lia.
  - intros c Hc. unfold new_coins. rewrite Hc. eauto.
  - apply valid_coins_Ok.
  - apply all_positive_iff.
  - apply coins_add_Ok.
  - apply coins_add_total.
  - done.
Qed.

#[export] Instance bech32_laws : Bech32Laws.
Proof.
  split; [|intros [|c t] a; [done|by intros [= <-]]].
  intros a Hb Hne. cbn [AccAddressFromBech32 AccAddress_String model].
  assert (map (fun c => Z.of_N (Ascii.N_of_ascii c)) (String.list_ascii_of_string (address_string a)) = a) as E.
  { unfold address_string. rewrite String.list_ascii_of_string_of_list_ascii. clear Hne.
    induction Hb as [|x l Hx Hl IH]; simpl; [done|].
    unfold is_byte in Hx. rewrite Ascii.N_ascii_embedding by lia. f_equal; [lia|exact IH]. }
  unfold string_address. destruct (address_string a) as [|c r] eqn:Hs; [by subst a|]. by rewrite E.
Qed.
End SdkModel.
