(* ===== verification/GoStd.v ===== *)
(** * The parts of Go's standard library the modules use

    [encoding/hex] is defined here and shown to round trip; the Unicode-aware
    functions of [strings] stay arguments of the models ([GoStrings]). *)

From S2P Require Import Prelude Sdk.

Class GoStrings : Type := {
  ToLower : string -> string;
  TrimSpace : string -> string
}.

(** ** encoding/hex *)
Definition hex_digit (n : Z) : Ascii.ascii :=
  Ascii.ascii_of_N (Z.to_N (if n <? 10 then 48 + n else 87 + n)).

(** [fromHexChar] *)
Definition hex_value (c : Ascii.ascii) : option Z :=
  let n := Z.of_N (Ascii.N_of_ascii c) in
  if (48 <=? n) && (n <=? 57) then Some (n - 48)
  else if (97 <=? n) && (n <=? 102) then Some (n - 87)
  else if (65 <=? n) && (n <=? 70) then Some (n - 55)
  else None.

Fixpoint hex_EncodeToString (b : bytes) : string :=
  match b with
  | [] => ""
  | x :: b => String (hex_digit (x / 16)) (String (hex_digit (x mod 16)) (hex_EncodeToString b))
  end.

Fixpoint hex_DecodeString (s : string) : outcome bytes :=
  match s with
  | EmptyString => Ok []
  | String _ EmptyString => Err (Plain "encoding/hex: odd length hex string")
  | String a (String b s) =>
      match hex_value a, hex_value b with
      | Some x, Some y => let! r := hex_DecodeString s in Ok (16 * x + y :: r)
      | _, _ => Err (Plain "encoding/hex: invalid byte")
      end
  end.

(** [[]byte(s)] *)
Definition string_bytes (s : string) : bytes :=
  map (fun c => Z.of_N (Ascii.N_of_ascii c)) (String.list_ascii_of_string s).

(** A store keyed by strings, iterated in the order of the key bytes. *)
Definition string_key_le {V} (a b : string * V) : Prop :=
  bytes_le (string_bytes a.1) (string_bytes b.1).
#[export] Instance string_key_le_dec {V} : RelDecision (@string_key_le V).
Proof. unfold string_key_le; intros a b; apply _. Defined.
Definition string_iterator {V} (m : gmap string V) : list (string * V) :=
  merge_sort string_key_le (map_to_list m).

Lemma string_iterator_Permutation {V} (m : gmap string V) : string_iterator m ≡ₚ map_to_list m.
Proof. apply merge_sort_Permutation. Qed.

Lemma hex_value_digit n : 0 <= n < 16 -> hex_value (hex_digit n) = Some n.
Proof.
  intros Hn. assert (Forall (fun k => hex_value (hex_digit k) = Some k) (seqZ 0 16)) as Hall
    by (repeat constructor).
  rewrite List.Forall_forall in Hall. apply Hall, list_elem_of_In, elem_of_seqZ. lia.
Qed.

Lemma hex_roundtrip b : Forall is_byte b -> hex_DecodeString (hex_EncodeToString b) = Ok b.
Proof.
  induction 1 as [|x b Hx Hb IH]; [done|]. unfold is_byte in Hx. cbn [hex_EncodeToString hex_DecodeString].
  rewrite !hex_value_digit by (Z.div_mod_to_equations; lia). rewrite IH. cbn [obind].
  do 2 f_equal. Z.div_mod_to_equations; lia.
Qed.

Lemma hex_EncodeToString_inj a b :
  Forall is_byte a -> Forall is_byte b -> hex_EncodeToString a = hex_EncodeToString b -> a = b.
Proof.
  intros Ha Hb E. apply hex_roundtrip in Ha, Hb. rewrite E, Hb in Ha. by injection Ha.
Qed.

Lemma hex_value_range c v : hex_value c = Some v -> 0 <= v < 16.
Proof. unfold hex_value. repeat case_match; intros [= <-]; gobool; lia. Qed.

Lemma hex_DecodeString_bytes s b : hex_DecodeString s = Ok b -> Forall is_byte b.
Proof.
  revert b. induction s as [s IH] using (induction_ltof1 _ String.length).
  destruct s as [|a [|c s]]; intros b Hb; cbn [hex_DecodeString] in Hb.
  - injection Hb as <-. constructor.
  - discriminate.
  - destruct (hex_value a) as [x|] eqn:Ha; [|discriminate].
    destruct (hex_value c) as [y|] eqn:Hc; [|discriminate].
    apply obind_Ok in Hb as (r & Hr & [= <-]).
    constructor; [|eapply IH; [|exact Hr]; unfold ltof; simpl; lia].
    apply hex_value_range in Ha, Hc. unfold is_byte. lia.
Qed.
