(* ===== verification/Bank.v ===== *)
(** * Interfaces to the SDK's bank and account keepers

    The modules call the bank and auth modules of the SDK through the
    interfaces of their [expected_keepers.go].  Those modules are not part of
    the repository, so every model takes the bank as an argument: its state
    type, its operations ([BankKeeper]) and, where a theorem needs them, the
    documented effect of a successful call ([BankLaws]).  [Ledger] is one bank
    that satisfies the laws. *)

From S2P Require Import Prelude Sdk.

Class BankKeeper (B : Type) : Type := {
  (** The address of a module account; [None] for an unknown module. *)
  GetModuleAddress : string -> option AccAddress;
  GetBalance : B -> AccAddress -> string -> Z;
  GetSupply : B -> string -> Z;
  (** Balance of an account in a denomination that is not locked by vesting. *)
  Spendable : B -> AccAddress -> string -> Z;
  SendCoins : AccAddress -> AccAddress -> Coins -> B -> outcome B;
  SendCoinsFromAccountToModule : AccAddress -> string -> Coins -> B -> outcome B;
  SendCoinsFromModuleToAccount : string -> AccAddress -> Coins -> B -> outcome B;
  MintCoins : string -> Coins -> B -> outcome B;
  BurnCoins : string -> Coins -> B -> outcome B
}.

(** What a list of coins adds to an account in denomination [d], if the account
    [a] is the one that receives it. *)
Definition credit (a x : AccAddress) (cs : Coins) (d : string) : Z :=
  if bool_decide (a = x) then AmountOf cs d else 0.

(** The effect of moving [cs] from [from] to [to]. *)
Definition moved {B} `{BankKeeper B} (from to : AccAddress) (cs : Coins) (b b' : B) : Prop :=
  (forall x d, GetBalance b' x d = GetBalance b x d - credit from x cs d + credit to x cs d)
  /\ (forall d, GetSupply b' d = GetSupply b d)
  /\ (forall d, AmountOf cs d <= Spendable b from d).

Class BankLaws (B : Type) `{BankKeeper B} : Prop := {
  spendable_range b a d : 0 <= Spendable b a d <= GetBalance b a d;
  send_moved b b' x y cs : SendCoins x y cs b = Ok b' -> moved x y cs b b';
  send_to_module b b' x m cs : SendCoinsFromAccountToModule x m cs b = Ok b' ->
    exists y, GetModuleAddress m = Some y /\ moved x y cs b b';
  send_from_module b b' m y cs : SendCoinsFromModuleToAccount m y cs b = Ok b' ->
    exists x, GetModuleAddress m = Some x /\ moved x y cs b b';
  mint_effect b b' m cs : MintCoins m cs b = Ok b' ->
    exists x, GetModuleAddress m = Some x
    /\ (forall y d, GetBalance b' y d = GetBalance b y d + credit x y cs d)
    /\ (forall d, GetSupply b' d = GetSupply b d + AmountOf cs d);
  burn_effect b b' m cs : BurnCoins m cs b = Ok b' ->
    exists x, GetModuleAddress m = Some x
    /\ (forall y d, GetBalance b' y d = GetBalance b y d - credit x y cs d)
    /\ (forall d, GetSupply b' d = GetSupply b d - AmountOf cs d)
}.

(** ** A ledger bank

    Balances per account and denomination, no vesting, no permissions: a model
    of the interface that is computed with in the witnesses. *)
Module Ledger.

Record t : Type := mk {
  balances : gmap (AccAddress * string) Z;
  supplies : gmap string Z
}.

Definition module_address (m : string) : option AccAddress :=
  Some (map (fun c => Z.of_N (Ascii.N_of_ascii c)) (String.list_ascii_of_string m)).

Definition balance (b : t) (a : AccAddress) (d : string) : Z :=
  Z.max 0 (default 0 (balances b !! (a, d))).
Definition supply (b : t) (d : string) : Z := default 0 (supplies b !! d).

Definition set_balance (a : AccAddress) (d : string) (z : Z) (b : t) : t :=
  mk (<[(a, d) := z]> (balances b)) (supplies b).
Definition set_supply (d : string) (z : Z) (b : t) : t :=
  mk (balances b) (<[d := z]> (supplies b)).

(** Only lists of one coin of nonnegative amount, or none, are moved. *)
Definition move (x y : AccAddress) (cs : Coins) (b : t) : outcome t :=
  match cs with
  | [] => Ok b
  | [c] =>
      if (Amount c <? 0) || (balance b x (Denom c) <? Amount c) then Err ErrInsufficientFunds
      else
        let b := set_balance x (Denom c) (balance b x (Denom c) - Amount c) b in
        Ok (set_balance y (Denom c) (balance b y (Denom c) + Amount c) b)
  | _ => Err ErrInvalidCoins
  end.

Definition with_module {A} (m : string) (k : AccAddress -> outcome A) : outcome A :=
  match module_address m with Some a => k a | None => Panic "module account does not exist" end.

Definition mint (m : string) (cs : Coins) (b : t) : outcome t :=
  with_module m (fun x =>
  match cs with
  | [] => Ok b
  | [c] =>
      if Amount c <? 0 then Err ErrInvalidCoins
      else Ok (set_supply (Denom c) (supply b (Denom c) + Amount c)
                 (set_balance x (Denom c) (balance b x (Denom c) + Amount c) b))
  | _ => Err ErrInvalidCoins
  end).

Definition burn (m : string) (cs : Coins) (b : t) : outcome t :=
  with_module m (fun x =>
  match cs with
  | [] => Ok b
  | [c] =>
      if (Amount c <? 0) || (balance b x (Denom c) <? Amount c) then Err ErrInsufficientFunds
      else Ok (set_supply (Denom c) (supply b (Denom c) - Amount c)
                 (set_balance x (Denom c) (balance b x (Denom c) - Amount c) b))
  | _ => Err ErrInvalidCoins
  end).

#[export] Instance keeper : BankKeeper t := {|
  GetModuleAddress := module_address;
  GetBalance := balance;
  GetSupply := supply;
  Spendable := balance;
  SendCoins := move;
  SendCoinsFromAccountToModule x m cs b := with_module m (fun y => move x y cs b);
  SendCoinsFromModuleToAccount m y cs b := with_module m (fun x => move x y cs b);
  MintCoins := mint;
  BurnCoins := burn
|}.

Lemma balance_set_balance b a d z x e :
  0 <= z ->
  balance (set_balance a d z b) x e = if bool_decide (a = x /\ d = e) then z else balance b x e.
Proof.
  intros Hz. unfold balance, set_balance; simpl.
  destruct (decide (a = x /\ d = e)) as [[-> ->]|Hne].
  - rewrite bool_decide_eq_true_2, lookup_insert_eq by done. simpl. lia.
  - rewrite bool_decide_eq_false_2, lookup_insert_ne by naive_solver. done.
Qed.

Lemma balance_nonneg b a d : 0 <= balance b a d.
Proof. unfold balance. lia. Qed.

Lemma move_moved b b' x y cs : move x y cs b = Ok b' -> moved x y cs b b'.
Proof.
  unfold move. intros Hm. destruct cs as [|c [|??]]; [| |discriminate].
  - injection Hm as <-. unfold moved, credit; simpl. split_and!; [|done|apply balance_nonneg].
    intros; repeat case_bool_decide; lia.
  - destruct (_ || _) eqn:Hg; [discriminate|]. injection Hm as <-. gobool. destruct Hg as [Hp Hb].
    pose proof (balance_nonneg b) as Hn. destruct c as [d amt]; simpl in *.
    unfold moved, credit; simpl; split_and!.
    + intros z e. rewrite !balance_set_balance by
        (rewrite ?balance_set_balance by lia; try case_bool_decide; specialize (Hn y d); lia).
      repeat case_bool_decide; naive_solver lia.
    + done.
    + intros e. case_bool_decide; [subst; lia|apply Hn].
Qed.

(** One coin added to (or taken from) one account, and to the supply. *)
Definition adjust (x : AccAddress) (d : string) (delta : Z) (b : t) : t :=
  set_supply d (supply b d + delta) (set_balance x d (balance b x d + delta) b).

Lemma adjust_effect b x d delta :
  0 <= balance b x d + delta ->
  (forall y e, balance (adjust x d delta b) y e
     = balance b y e + if bool_decide (x = y) then if bool_decide (d = e) then delta else 0 else 0)
  /\ (forall e, supply (adjust x d delta b) e = supply b e + if bool_decide (d = e) then delta else 0).
Proof.
  intros Hn. split.
  - intros y e. change (balance (adjust x d delta b) y e) with
      (balance (set_balance x d (balance b x d + delta) b) y e).
    rewrite balance_set_balance by done. repeat case_bool_decide; naive_solver lia.
  - intros e. unfold supply, adjust, set_supply; simpl. case_bool_decide; subst.
    + by rewrite lookup_insert_eq.
    + rewrite lookup_insert_ne by done. lia.
Qed.

#[export] Instance laws : BankLaws t.
Proof.
  split; simpl.
  - intros b a d. pose proof (balance_nonneg b a d). lia.
  - apply move_moved.
  - intros b b' x m cs Hm. eexists; split; [done|]. by apply move_moved.
  - intros b b' m y cs Hm. eexists; split; [done|]. by apply move_moved.
  - intros b b' m cs Hm. eexists; split; [done|].
    unfold mint, with_module in Hm; simpl in Hm. set (x := map _ _) in *.
    destruct cs as [|[d amt] [|??]]; simpl in Hm; [| |discriminate].
    + injection Hm as <-. unfold credit; simpl. split; intros; repeat case_bool_decide; lia.
    + destruct (_ <? _) eqn:Hg; [discriminate|]. injection Hm as <-. gobool.
      pose proof (balance_nonneg b x d). apply (adjust_effect b x d amt). lia.
  - intros b b' m cs Hm. eexists; split; [done|].
    unfold burn, with_module in Hm; simpl in Hm. set (x := map _ _) in *.
    destruct cs as [|[d amt] [|??]]; simpl in Hm; [| |discriminate].
    + injection Hm as <-. unfold credit; simpl. split; intros; repeat case_bool_decide; lia.
    + destruct (_ || _) eqn:Hg; [discriminate|]. injection Hm as <-. gobool.
      destruct (adjust_effect b x d (- amt)) as [H1 H2]; [lia|].
      split.
      * intros y e. specialize (H1 y e). unfold credit; simpl. rewrite <- Z.add_opp_r.
        change (set_supply _ _ _) with (adjust x d (- amt) b).
        rewrite H1. repeat case_bool_decide; lia.
      * intros e. specialize (H2 e). simpl. change (set_supply _ _ _) with (adjust x d (- amt) b).
        rewrite H2. repeat case_bool_decide; lia.
Qed.

(** The same ledger with one account [v] all of whose coins are locked. *)
Section Locked.
  Context (v : AccAddress).

Definition move_locked (x y : AccAddress) (cs : Coins) (b : t) : outcome t :=
  if bool_decide (x = v /\ cs <> []) then Err ErrInsufficientFunds else move x y cs b.

Definition locked_keeper : BankKeeper t := {|
  GetModuleAddress := module_address;
  GetBalance := balance;
  GetSupply := supply;
  Spendable b a d := if bool_decide (a = v) then 0 else balance b a d;
  SendCoins := move_locked;
  SendCoinsFromAccountToModule x m cs b := with_module m (fun y => move_locked x y cs b);
  SendCoinsFromModuleToAccount m y cs b := with_module m (fun x => move_locked x y cs b);
  MintCoins := mint;
  BurnCoins := burn
|}.

Lemma move_locked_moved b b' x y cs :
  move_locked x y cs b = Ok b' -> @moved t locked_keeper x y cs b b'.
Proof.
  unfold move_locked. intros Hm. destruct (bool_decide (x = v /\ _)) eqn:E; [discriminate|]. gobool.
  apply move_moved in Hm as (H1 & H2 & H3). split_and!; [exact H1|exact H2|]. simpl in *. intros d.
  destruct (decide (x = v)) as [->|Hx]; [|by rewrite bool_decide_eq_false_2].
  rewrite bool_decide_eq_true_2 by done. destruct cs; [done|]. destruct E. by split.
Qed.

Lemma locked_laws : @BankLaws t locked_keeper.
Proof.
  split; simpl.
  - intros b a d. pose proof (balance_nonneg b a d). case_bool_decide; lia.
  - apply move_locked_moved.
  - intros b b' x m cs Hm. eexists; split; [done|]. by apply move_locked_moved.
  - intros b b' m y cs Hm. eexists; split; [done|]. by apply move_locked_moved.
  - exact (@mint_effect t keeper laws).
  - exact (@burn_effect t keeper laws).
Qed.
End Locked.
End Ledger.
