(* ===== verification/Bep3Types.v ===== *)
(** * x/bep3/types: atomic swaps, asset supplies and parameters

    Data of the bep3 module with its validation ([types/swap.go],
    [types/supply.go], [types/params.go]), the swap identifier ([types/hash.go])
    and the keys of the height indexes ([types/keys.go]). *)

From S2P Require Import Prelude Sdk GoStd.

(** ** Errors ([types/errors.go]) *)
Definition ErrInvalidTimestamp : error := Registered "bep3" 2.
Definition ErrInvalidHeightSpan : error := Registered "bep3" 3.
Definition ErrInsufficientAmount : error := Registered "bep3" 4.
Definition ErrAssetNotSupported : error := Registered "bep3" 5.
Definition ErrAssetNotActive : error := Registered "bep3" 6.
Definition ErrExceedsSupplyLimit : error := Registered "bep3" 8.
Definition ErrExceedsAvailableSupply : error := Registered "bep3" 9.
Definition ErrInvalidCurrentSupply : error := Registered "bep3" 10.
Definition ErrInvalidIncomingSupply : error := Registered "bep3" 11.
Definition ErrInvalidOutgoingSupply : error := Registered "bep3" 12.
Definition ErrInvalidClaimSecret : error := Registered "bep3" 13.
Definition ErrAtomicSwapAlreadyExists : error := Registered "bep3" 14.
Definition ErrAtomicSwapNotFound : error := Registered "bep3" 15.
Definition ErrSwapNotRefundable : error := Registered "bep3" 16.
Definition ErrSwapNotClaimable : error := Registered "bep3" 17.
Definition ErrInvalidAmount : error := Registered "bep3" 18.
Definition ErrInvalidSwapAccount : error := Registered "bep3" 19.
Definition ErrExceedsTimeBasedSupplyLimit : error := Registered "bep3" 20.

(** ** Constants ([types/keys.go], [types/msg.go]) *)
Definition ModuleName : string := "bep3".
Definition DefaultLongtermStorageDuration : Z := 86400.
Definition Int64Size : nat := 8.
Definition RandomNumberHashLength : nat := 32.
Definition RandomNumberLength : nat := 32.
Definition MaxOtherChainAddrLength : nat := 64.
Definition SwapIDLength : nat := 32.

(** ** Swap status and direction

    The protobuf enums are open: a number outside the declared values is kept. *)
Inductive SwapStatus : Type :=
| SWAP_STATUS_UNSPECIFIED
| SWAP_STATUS_OPEN
| SWAP_STATUS_COMPLETED
| SWAP_STATUS_EXPIRED
| SWAP_STATUS_OTHER (n : Z).

Inductive SwapDirection : Type :=
| SWAP_DIRECTION_UNSPECIFIED
| SWAP_DIRECTION_INCOMING
| SWAP_DIRECTION_OUTGOING
| SWAP_DIRECTION_OTHER (n : Z).

#[export] Instance SwapStatus_eq_dec : EqDecision SwapStatus.
Proof. solve_decision. Defined.
#[export] Instance SwapDirection_eq_dec : EqDecision SwapDirection.
Proof. solve_decision. Defined.

Definition SwapStatus_num (s : SwapStatus) : Z :=
  match s with
  | SWAP_STATUS_UNSPECIFIED => 0 | SWAP_STATUS_OPEN => 1
  | SWAP_STATUS_COMPLETED => 2 | SWAP_STATUS_EXPIRED => 3 | SWAP_STATUS_OTHER n => n
  end.
Definition SwapDirection_num (d : SwapDirection) : Z :=
  match d with
  | SWAP_DIRECTION_UNSPECIFIED => 0 | SWAP_DIRECTION_INCOMING => 1
  | SWAP_DIRECTION_OUTGOING => 2 | SWAP_DIRECTION_OTHER n => n
  end.

Definition SwapStatus_IsValid (s : SwapStatus) : bool :=
  bool_decide (s = SWAP_STATUS_OPEN) || bool_decide (s = SWAP_STATUS_COMPLETED)
  || bool_decide (s = SWAP_STATUS_EXPIRED).
Definition SwapDirection_IsValid (d : SwapDirection) : bool :=
  bool_decide (d = SWAP_DIRECTION_INCOMING) || bool_decide (d = SWAP_DIRECTION_OUTGOING).

Definition NewSwapStatusFromString (str : string) : SwapStatus :=
  if bool_decide (str ∈ ["Open"; "open"]) then SWAP_STATUS_OPEN
  else if bool_decide (str ∈ ["Completed"; "completed"]) then SWAP_STATUS_COMPLETED
  else if bool_decide (str ∈ ["Expired"; "expired"]) then SWAP_STATUS_EXPIRED
  else SWAP_STATUS_UNSPECIFIED.

Definition NewSwapDirectionFromString (str : string) : SwapDirection :=
  if bool_decide (str ∈ ["Incoming"; "incoming"; "inc"; "I"; "i"]) then SWAP_DIRECTION_INCOMING
  else if bool_decide (str ∈ ["Outgoing"; "outgoing"; "out"; "O"; "o"]) then SWAP_DIRECTION_OUTGOING
  else SWAP_DIRECTION_UNSPECIFIED.

(** ** Atomic swaps *)
Record AtomicSwap : Type := NewAtomicSwap {
  swAmount : Coins;
  swRandomNumberHash : bytes;
  swExpireHeight : Z;
  swTimestamp : Z;
  swSender : AccAddress;
  swRecipient : AccAddress;
  swSenderOtherChain : string;
  swRecipientOtherChain : string;
  swClosedBlock : Z;
  swStatus : SwapStatus;
  swCrossChain : bool;
  swDirection : SwapDirection
}.

Definition set_status (st : SwapStatus) (a : AtomicSwap) : AtomicSwap :=
  NewAtomicSwap (swAmount a) (swRandomNumberHash a) (swExpireHeight a) (swTimestamp a)
    (swSender a) (swRecipient a) (swSenderOtherChain a) (swRecipientOtherChain a)
    (swClosedBlock a) st (swCrossChain a) (swDirection a).
Definition set_closed (h : Z) (a : AtomicSwap) : AtomicSwap :=
  NewAtomicSwap (swAmount a) (swRandomNumberHash a) (swExpireHeight a) (swTimestamp a)
    (swSender a) (swRecipient a) (swSenderOtherChain a) (swRecipientOtherChain a)
    h (swStatus a) (swCrossChain a) (swDirection a).

(** ** Identifiers ([types/hash.go]); the hash function is an argument *)
Class TmHash : Type := { tmhash_Sum : bytes -> bytes }.
Class TmHashLaws `{TmHash} : Prop := { tmhash_bytes : forall x, Forall is_byte (tmhash_Sum x) }.

Section Hash.
  Context `{TmHash, GoStrings}.

Definition CalculateRandomHash (randomNumber : bytes) (timestamp : Z) : bytes :=
  let copied := take RandomNumberLength randomNumber in
  let data := copied ++ replicate (RandomNumberLength - length copied) 0
              ++ Uint64ToBigEndian (u64 timestamp) in
  tmhash_Sum data.

Definition CalculateSwapID (randomNumberHash : bytes) (sender : AccAddress)
    (senderOtherChain : string) : bytes :=
  let senderOtherChain := ToLower senderOtherChain in
  let data := randomNumberHash in
  let data := data ++ sender in
  let data := data ++ string_bytes senderOtherChain in
  tmhash_Sum data.

Definition GetSwapID (a : AtomicSwap) : bytes :=
  CalculateSwapID (swRandomNumberHash a) (swSender a) (swSenderOtherChain a).

Definition GetAtomicSwapByHeightKey (height : Z) (swapID : bytes) : bytes :=
  Uint64ToBigEndian height ++ swapID.
End Hash.

(** ** Asset supply ([types/supply.go]) *)
Record AssetSupply : Type := NewAssetSupply {
  IncomingSupply : Coin;
  OutgoingSupply : Coin;
  CurrentSupply : Coin;
  TimeLimitedCurrentSupply : Coin;
  TimeElapsed : Z
}.

Definition AssetSupply_GetDenom (a : AssetSupply) : string := Denom (CurrentSupply a).

Definition AssetSupply_Equal (a b : AssetSupply) : bool :=
  if negb (bool_decide (AssetSupply_GetDenom a = AssetSupply_GetDenom b)) then false
  else bool_decide (IncomingSupply a = IncomingSupply b)
       && bool_decide (CurrentSupply a = CurrentSupply b)
       && bool_decide (OutgoingSupply a = OutgoingSupply b)
       && bool_decide (TimeLimitedCurrentSupply a = TimeLimitedCurrentSupply b)
       && (TimeElapsed a =? TimeElapsed b).

Definition set_IncomingSupply (c : Coin) (s : AssetSupply) : AssetSupply :=
  NewAssetSupply c (OutgoingSupply s) (CurrentSupply s) (TimeLimitedCurrentSupply s) (TimeElapsed s).
Definition set_OutgoingSupply (c : Coin) (s : AssetSupply) : AssetSupply :=
  NewAssetSupply (IncomingSupply s) c (CurrentSupply s) (TimeLimitedCurrentSupply s) (TimeElapsed s).
Definition set_CurrentSupply (c : Coin) (s : AssetSupply) : AssetSupply :=
  NewAssetSupply (IncomingSupply s) (OutgoingSupply s) c (TimeLimitedCurrentSupply s) (TimeElapsed s).
Definition set_TimeLimited (c : Coin) (s : AssetSupply) : AssetSupply :=
  NewAssetSupply (IncomingSupply s) (OutgoingSupply s) (CurrentSupply s) c (TimeElapsed s).
Definition set_TimeElapsed (t : Z) (s : AssetSupply) : AssetSupply :=
  NewAssetSupply (IncomingSupply s) (OutgoingSupply s) (CurrentSupply s) (TimeLimitedCurrentSupply s) t.

(** ** Parameters ([types/params.go]) *)
Record SupplyLimit : Type := mkSupplyLimit {
  Limit : Z;
  TimeLimited : bool;
  TimePeriod : Z;
  TimeBasedLimit : Z
}.

Definition SupplyLimit_Equals (a b : SupplyLimit) : bool :=
  (Limit a =? Limit b) && Bool.eqb (TimeLimited a) (TimeLimited b)
  && (TimePeriod a =? TimePeriod b) && (TimeBasedLimit a =? TimeBasedLimit b).

Record AssetParam : Type := NewAssetParam {
  apDenom : string;
  apCoinID : Z;
  apSupplyLimit : SupplyLimit;
  apActive : bool;
  apDeputyAddress : AccAddress;
  apFixedFee : Z;
  apMinSwapAmount : Z;
  apMaxSwapAmount : Z;
  apMinBlockLock : Z;
  apMaxBlockLock : Z
}.

Record Params : Type := NewParams { AssetParams : list AssetParam }.
Definition DefaultParams : Params := NewParams [].

Section Validation.
  Context `{SdkConfig, GoStrings, TmHash}.

Definition AtomicSwap_Validate (a : AtomicSwap) : outcome unit :=
  if negb (Coins_IsValid (swAmount a)) then Err (Plain "invalid amount")
  else if negb (IsAllPositive (swAmount a)) then Err (Plain "the swapped out coin must be positive")
  else if negb (Nat.eqb (length (swRandomNumberHash a)) RandomNumberHashLength)
       then Err (Plain "the length of random number hash should be 32")
  else if swExpireHeight a =? 0 then Err (Plain "expire height cannot be 0")
  else if swTimestamp a =? 0 then Err (Plain "timestamp cannot be 0")
  else if bool_decide (swSender a = []) then Err ErrInvalidAddress
  else if bool_decide (swRecipient a = []) then Err ErrInvalidAddress
  else if bool_decide (TrimSpace (swSenderOtherChain a) = "") then Err ErrInvalidAddress
  else if bool_decide (TrimSpace (swRecipientOtherChain a) = "") then Err ErrInvalidAddress
  else if bool_decide (swStatus a = SWAP_STATUS_COMPLETED) && (swClosedBlock a =? 0)
       then Err (Plain "closed block cannot be 0")
  else if bool_decide (swStatus a = SWAP_STATUS_UNSPECIFIED) || (3 <? SwapStatus_num (swStatus a))
       then Err (Plain "invalid swap status")
  else if bool_decide (swDirection a = SWAP_DIRECTION_UNSPECIFIED)
          || (2 <? SwapDirection_num (swDirection a))
       then Err (Plain "invalid swap direction")
  else Ok tt.

Definition AssetSupply_Validate (a : AssetSupply) : outcome unit :=
  if negb (Coin_IsValid (IncomingSupply a)) then Err ErrInvalidCoins
  else if negb (Coin_IsValid (OutgoingSupply a)) then Err ErrInvalidCoins
  else if negb (Coin_IsValid (CurrentSupply a)) then Err ErrInvalidCoins
  else if negb (Coin_IsValid (TimeLimitedCurrentSupply a)) then Err ErrInvalidCoins
  else
    let denom := Denom (CurrentSupply a) in
    if negb (bool_decide (Denom (IncomingSupply a) = denom))
       || negb (bool_decide (Denom (OutgoingSupply a) = denom))
       || negb (bool_decide (Denom (TimeLimitedCurrentSupply a) = denom))
    then Err (Plain "asset supply denoms do not match")
    else Ok tt.

(** One iteration of the loop of [validateAssetParams]; the state is the set
    of denominations seen ([coinDenoms]). *)
Definition validateAssetParam (asset : AssetParam) (coinDenoms : gset string)
    : outcome (gset string) :=
  let limit := apSupplyLimit asset in
  if negb (ValidateDenom (apDenom asset)) then Err (Plain "asset denom invalid")
  else if apCoinID asset <? 0 then Err (Plain "coin id must be a non negative integer")
  else if Limit limit <? 0 then Err (Plain "invalid (negative) supply limit")
  else if TimeBasedLimit limit <? 0 then Err (Plain "invalid (negative) supply time limit")
  else if TimeBasedLimit limit >? Limit limit then Err (Plain "supply time limit > supply limit")
  else if bool_decide (apDenom asset ∈ coinDenoms) then Err (Plain "duplicate denom")
  else
    let coinDenoms := {[apDenom asset]} ∪ coinDenoms in
    if bool_decide (apDeputyAddress asset = []) then Err (Plain "deputy address cannot be empty")
    else if apFixedFee asset <? 0 then Err (Plain "negative fixed fee")
    else if apMinBlockLock asset >? apMaxBlockLock asset
         then Err (Plain "minimum block lock > maximum block lock")
    else if negb (0 <? apMinSwapAmount asset) then Err (Plain "must have a positive minimum swap amount")
    else if negb (0 <? apMaxSwapAmount asset) then Err (Plain "must have a positive maximum swap amount")
    else if apMinSwapAmount asset >? apMaxSwapAmount asset
         then Err (Plain "minimum swap amount > maximum swap amount")
    else Ok coinDenoms.

Definition validateAssetParams (ps : list AssetParam) : outcome unit :=
  let! _ := ofold validateAssetParam ps ∅ in Ok tt.

Definition Params_Validate (p : Params) : outcome unit := validateAssetParams (AssetParams p).
End Validation.

(** ** What the validated parameters satisfy *)
Record asset_ok `{SdkConfig} (a : AssetParam) : Prop := {
  ok_denom : ValidateDenom (apDenom a) = true;
  ok_limit : 0 <= TimeBasedLimit (apSupplyLimit a) <= Limit (apSupplyLimit a);
  ok_deputy : apDeputyAddress a <> [];
  ok_fee : 0 <= apFixedFee a;
  ok_lock : apMinBlockLock a <= apMaxBlockLock a;
  ok_amounts : 0 < apMinSwapAmount a <= apMaxSwapAmount a
}.

Section ValidationLemmas.
  Context `{SdkConfig}.

Lemma validateAssetParam_Ok a seen seen' :
  validateAssetParam a seen = Ok seen' ->
  asset_ok a /\ (apDenom a ∉ seen) /\ seen' = {[apDenom a]} ∪ seen.
Proof.
  unfold validateAssetParam. intros Hv. cbn zeta in Hv. go_inv Hv. subst. gobool.
  split_and!; [constructor; done || lia|done|done].
Qed.

Lemma validateAssetParams_fold ps seen seen' :
  ofold validateAssetParam ps seen = Ok seen' ->
  Forall asset_ok ps /\ NoDup (apDenom <$> ps) /\ (forall p, p ∈ ps -> apDenom p ∉ seen).
Proof.
  revert seen; induction ps as [|p ps IH]; intros seen Hv; simpl in Hv.
  { split_and!; [constructor|constructor|]. intros p Hp. by apply elem_of_nil in Hp. }
  apply obind_Ok in Hv as (s1 & H1 & H2). apply validateAssetParam_Ok in H1 as (Hok & Hnew & ->).
  destruct (IH _ H2) as (IHf & IHn & IHs). split_and!.
  - by constructor.
  - simpl. constructor; [|done]. rewrite list_elem_of_fmap. intros (q & Hq & Hin).
    apply (IHs q Hin). set_solver.
  - intros q [->|Hin]%elem_of_cons; [done|]. specialize (IHs q Hin). set_solver.
Qed.

Lemma Params_Validate_Ok p :
  Params_Validate p = Ok tt -> Forall asset_ok (AssetParams p) /\ NoDup (apDenom <$> AssetParams p).
Proof.
  unfold Params_Validate, validateAssetParams. intros Hv.
  apply obind_Ok in Hv as (s & Hv & _). apply validateAssetParams_fold in Hv. naive_solver.
Qed.
End ValidationLemmas.
