(* ===== verification/Bep3Keeper.v ===== *)
(** * x/bep3/keeper: the bep3 store and its operations

    The module's store ([State]) holds the swaps, the two height indexes, the
    asset supplies, the previous block time and the parameters; [bank] and
    [accounts] are the states of the SDK keepers the module calls.  Events and
    telemetry are left out; marshalling is the identity.  A failing message
    leaves no trace in the store (the SDK discards its branch), so [Err] and
    [Panic] carry no state. *)

From S2P Require Import Prelude Sdk GoStd Bank Bep3Types.

(** The account keeper, as far as bep3 uses it. *)
Class AccountKeeper (A : Type) : Type := {
  HasAccount : A -> AccAddress -> bool;
  AddNewAccount : AccAddress -> A -> A;
  (** The permissions of a module account, created on first use; [None] for an
      unknown module. *)
  GetModuleAccount : string -> A -> option (list string) * A
}.

Record State (B A : Type) : Type := mkState {
  AtomicSwaps : gmap bytes AtomicSwap;
  AtomicSwapByBlock : gmap bytes bytes;
  AtomicSwapLongtermStorage : gmap bytes bytes;
  AssetSupplies : gmap string AssetSupply;
  PreviousBlockTime : option Z;
  params : Params;
  bank : B;
  accounts : A
}.
Arguments mkState {B A}.
Arguments AtomicSwaps {B A}.
Arguments AtomicSwapByBlock {B A}.
Arguments AtomicSwapLongtermStorage {B A}.
Arguments AssetSupplies {B A}.
Arguments PreviousBlockTime {B A}.
Arguments params {B A}.
Arguments bank {B A}.
Arguments accounts {B A}.

Section Keeper.
  Context {cfg : SdkConfig} {gostr : GoStrings} {hash : TmHash} {B A : Type}
    {bk : BankKeeper B} {ak : AccountKeeper A}.
  (** [Keeper.Maccs]: the module accounts, by bech32 address. *)
  Context (Maccs : gmap string bool).
  Implicit Types s : State B A.

(** ** Store accessors ([keeper.go]) *)
Definition with_swaps (m : gmap bytes AtomicSwap) s : State B A :=
  mkState m (AtomicSwapByBlock s) (AtomicSwapLongtermStorage s) (AssetSupplies s)
    (PreviousBlockTime s) (params s) (bank s) (accounts s).
Definition with_byblock (m : gmap bytes bytes) s : State B A :=
  mkState (AtomicSwaps s) m (AtomicSwapLongtermStorage s) (AssetSupplies s)
    (PreviousBlockTime s) (params s) (bank s) (accounts s).
Definition with_longterm (m : gmap bytes bytes) s : State B A :=
  mkState (AtomicSwaps s) (AtomicSwapByBlock s) m (AssetSupplies s)
    (PreviousBlockTime s) (params s) (bank s) (accounts s).
Definition with_supplies (m : gmap string AssetSupply) s : State B A :=
  mkState (AtomicSwaps s) (AtomicSwapByBlock s) (AtomicSwapLongtermStorage s) m
    (PreviousBlockTime s) (params s) (bank s) (accounts s).
Definition with_bank (b : B) s : State B A :=
  mkState (AtomicSwaps s) (AtomicSwapByBlock s) (AtomicSwapLongtermStorage s) (AssetSupplies s)
    (PreviousBlockTime s) (params s) b (accounts s).
Definition with_accounts (a : A) s : State B A :=
  mkState (AtomicSwaps s) (AtomicSwapByBlock s) (AtomicSwapLongtermStorage s) (AssetSupplies s)
    (PreviousBlockTime s) (params s) (bank s) a.

(** A call of the bank keeper. *)
Definition bank_call (f : B -> outcome B) s : outcome (State B A) :=
  let! b := f (bank s) in Ok (with_bank b s).

Definition SetAtomicSwap (sw : AtomicSwap) s : State B A :=
  with_swaps (<[GetSwapID sw := sw]> (AtomicSwaps s)) s.
Definition GetAtomicSwap s (swapID : bytes) : option AtomicSwap := AtomicSwaps s !! swapID.
Definition RemoveAtomicSwap (swapID : bytes) s : State B A :=
  with_swaps (delete swapID (AtomicSwaps s)) s.

(** All swaps, in the order of their identifiers. *)
Definition GetAllAtomicSwaps s : list AtomicSwap := (iterator (AtomicSwaps s) None).*2.

Definition InsertIntoByBlockIndex (sw : AtomicSwap) s : State B A :=
  with_byblock (<[GetAtomicSwapByHeightKey (swExpireHeight sw) (GetSwapID sw) := GetSwapID sw]>
                  (AtomicSwapByBlock s)) s.
Definition RemoveFromByBlockIndex (sw : AtomicSwap) s : State B A :=
  with_byblock (delete (GetAtomicSwapByHeightKey (swExpireHeight sw) (GetSwapID sw))
                  (AtomicSwapByBlock s)) s.

(** [IterateAtomicSwapsByBlock] never stops early in this module: the callback
    runs on every identifier in the range, read before the first call. *)
Definition IterateAtomicSwapsByBlock s (inclusiveCutoff : Z)
    (cb : bytes -> State B A -> State B A) : State B A :=
  foldl (fun s kv => cb kv.2 s) s
    (iterator (AtomicSwapByBlock s) (PrefixEndBytes (Uint64ToBigEndian inclusiveCutoff))).

Definition deletionHeight (sw : AtomicSwap) : Z :=
  u64 (u64 (swClosedBlock sw) + DefaultLongtermStorageDuration).
Definition InsertIntoLongtermStorage (sw : AtomicSwap) s : State B A :=
  with_longterm (<[GetAtomicSwapByHeightKey (deletionHeight sw) (GetSwapID sw) := GetSwapID sw]>
                   (AtomicSwapLongtermStorage s)) s.
Definition RemoveFromLongtermStorage (sw : AtomicSwap) s : State B A :=
  with_longterm (delete (GetAtomicSwapByHeightKey (deletionHeight sw) (GetSwapID sw))
                   (AtomicSwapLongtermStorage s)) s.
Definition IterateAtomicSwapsLongtermStorage s (inclusiveCutoff : Z)
    (cb : bytes -> State B A -> State B A) : State B A :=
  foldl (fun s kv => cb kv.2 s) s
    (iterator (AtomicSwapLongtermStorage s) (PrefixEndBytes (Uint64ToBigEndian inclusiveCutoff))).

Definition GetAssetSupply s (denom : string) : option AssetSupply := AssetSupplies s !! denom.
Definition SetAssetSupply (supply : AssetSupply) (denom : string) s : State B A :=
  with_supplies (<[denom := supply]> (AssetSupplies s)) s.

(** All supplies, in the order of their denominations. *)
Definition GetAllAssetSupplies s : list AssetSupply := (string_iterator (AssetSupplies s)).*2.

Definition GetPreviousBlockTime s : option Z := PreviousBlockTime s.
Definition SetPreviousBlockTime (t : Z) s : State B A :=
  mkState (AtomicSwaps s) (AtomicSwapByBlock s) (AtomicSwapLongtermStorage s) (AssetSupplies s)
    (Some t) (params s) (bank s) (accounts s).

(** ** Parameters ([params.go]) *)
(** [paramSubspace.SetParamSet] runs the registered validator and panics when
    it rejects the value. *)
Definition SetParams (p : Params) s : outcome (State B A) :=
  match Params_Validate p with
  | Ok _ => Ok (mkState (AtomicSwaps s) (AtomicSwapByBlock s) (AtomicSwapLongtermStorage s)
                  (AssetSupplies s) (PreviousBlockTime s) p (bank s) (accounts s))
  | _ => Panic "value from ParamSetPair is invalid"
  end.

Definition find_asset (denom : string) (l : list AssetParam) : option AssetParam :=
  List.find (fun a => bool_decide (denom = apDenom a)) l.

Definition GetAsset s (denom : string) : outcome AssetParam :=
  match find_asset denom (AssetParams (params s)) with
  | Some asset => Ok asset
  | None => Err ErrAssetNotSupported
  end.

Definition SetAsset (asset : AssetParam) s : outcome (State B A) :=
  SetParams (NewParams ((fun a => if bool_decide (apDenom a = apDenom asset) then asset else a)
                          <$> AssetParams (params s))) s.

Definition GetAssets s : list AssetParam * bool :=
  (AssetParams (params s), bool_decide (0 < length (AssetParams (params s)))%nat).

Definition GetDeputyAddress s (denom : string) : outcome AccAddress :=
  let! asset := GetAsset s denom in Ok (apDeputyAddress asset).
Definition GetFixedFee s (denom : string) : outcome Z :=
  let! asset := GetAsset s denom in Ok (apFixedFee asset).
Definition GetMinSwapAmount s (denom : string) : outcome Z :=
  let! asset := GetAsset s denom in Ok (apMinSwapAmount asset).
Definition GetMaxSwapAmount s (denom : string) : outcome Z :=
  let! asset := GetAsset s denom in Ok (apMaxSwapAmount asset).
Definition GetMinBlockLock s (denom : string) : outcome Z :=
  let! asset := GetAsset s denom in Ok (apMinBlockLock asset).
Definition GetMaxBlockLock s (denom : string) : outcome Z :=
  let! asset := GetAsset s denom in Ok (apMaxBlockLock asset).

Definition GetAssetByCoinID s (coinID : Z) : option AssetParam :=
  List.find (fun a => apCoinID a =? coinID) (AssetParams (params s)).

Definition ValidateLiveAsset s (coin : Coin) : outcome unit :=
  let! asset := GetAsset s (Denom coin) in
  if negb (apActive asset) then Err ErrAssetNotActive else Ok tt.

Definition GetSupplyLimit s (denom : string) : outcome SupplyLimit :=
  let! asset := GetAsset s denom in Ok (apSupplyLimit asset).

(** Deputies without repetition, in the order of the parameters. *)
Definition GetAuthorizedAddresses s : list AccAddress :=
  (foldl (fun '(addresses, unique) ap =>
            let a := apDeputyAddress ap in
            (if bool_decide (AccAddress_String a ∈ (unique : gset string))
             then addresses else addresses ++ [a],
             {[AccAddress_String a]} ∪ unique))
         ([], ∅) (AssetParams (params s))).1.

(** ** Asset supplies ([asset.go]) *)
Definition IncrementCurrentAssetSupply (coin : Coin) s : outcome (State B A) :=
  match GetAssetSupply s (Denom coin) with
  | None => Err ErrAssetNotSupported
  | Some supply =>
      let! limit := GetSupplyLimit s (Denom coin) in
      let! supplyLimit := NewCoin (Denom coin) (Limit limit) in
      let! total := Coin_Add (CurrentSupply supply) coin in
      let! over := Coin_IsLT supplyLimit total in
      if (over : bool) then Err ErrExceedsSupplyLimit
      else
        let! supply :=
          (if TimeLimited limit then
             let! timeBasedSupplyLimit := NewCoin (Denom coin) (TimeBasedLimit limit) in
             let! timeTotal := Coin_Add (TimeLimitedCurrentSupply supply) coin in
             let! over := Coin_IsLT timeBasedSupplyLimit timeTotal in
             if (over : bool) then Err ErrExceedsTimeBasedSupplyLimit
             else Ok (set_TimeLimited timeTotal supply)
           else Ok supply) in
        let! newCurrent := Coin_Add (CurrentSupply supply) coin in
        Ok (SetAssetSupply (set_CurrentSupply newCurrent supply) (Denom coin) s)
  end.

Definition DecrementCurrentAssetSupply (coin : Coin) s : outcome (State B A) :=
  match GetAssetSupply s (Denom coin) with
  | None => Err ErrAssetNotSupported
  | Some supply =>
      let! diff := int_chk (Amount (CurrentSupply supply) - Amount coin) in
      if diff <? 0 then Err ErrInvalidCurrentSupply
      else
        let! c := Coin_Sub (CurrentSupply supply) coin in
        Ok (SetAssetSupply (set_CurrentSupply c supply) (Denom coin) s)
  end.

Definition IncrementIncomingAssetSupply (coin : Coin) s : outcome (State B A) :=
  match GetAssetSupply s (Denom coin) with
  | None => Err ErrAssetNotSupported
  | Some supply =>
      let! totalSupply := Coin_Add (CurrentSupply supply) (IncomingSupply supply) in
      let! limit := GetSupplyLimit s (Denom coin) in
      let! supplyLimit := NewCoin (Denom coin) (Limit limit) in
      let! total := Coin_Add totalSupply coin in
      let! over := Coin_IsLT supplyLimit total in
      if (over : bool) then Err ErrExceedsSupplyLimit
      else
        let! _ :=
          (if TimeLimited limit then
             let! timeLimitedTotalSupply :=
               Coin_Add (TimeLimitedCurrentSupply supply) (IncomingSupply supply) in
             let! timeBasedSupplyLimit := NewCoin (Denom coin) (TimeBasedLimit limit) in
             let! timeTotal := Coin_Add timeLimitedTotalSupply coin in
             let! over := Coin_IsLT timeBasedSupplyLimit timeTotal in
             if (over : bool) then Err ErrExceedsTimeBasedSupplyLimit else Ok tt
           else Ok tt) in
        let! c := Coin_Add (IncomingSupply supply) coin in
        Ok (SetAssetSupply (set_IncomingSupply c supply) (Denom coin) s)
  end.

Definition DecrementIncomingAssetSupply (coin : Coin) s : outcome (State B A) :=
  match GetAssetSupply s (Denom coin) with
  | None => Err ErrAssetNotSupported
  | Some supply =>
      let! diff := int_chk (Amount (IncomingSupply supply) - Amount coin) in
      if diff <? 0 then Err ErrInvalidIncomingSupply
      else
        let! c := Coin_Sub (IncomingSupply supply) coin in
        Ok (SetAssetSupply (set_IncomingSupply c supply) (Denom coin) s)
  end.

Definition IncrementOutgoingAssetSupply (coin : Coin) s : outcome (State B A) :=
  match GetAssetSupply s (Denom coin) with
  | None => Err ErrAssetNotSupported
  | Some supply =>
      let! total := Coin_Add (OutgoingSupply supply) coin in
      let! over := Coin_IsLT (CurrentSupply supply) total in
      if (over : bool) then Err ErrExceedsAvailableSupply
      else
        let! c := Coin_Add (OutgoingSupply supply) coin in
        Ok (SetAssetSupply (set_OutgoingSupply c supply) (Denom coin) s)
  end.

Definition DecrementOutgoingAssetSupply (coin : Coin) s : outcome (State B A) :=
  match GetAssetSupply s (Denom coin) with
  | None => Err ErrAssetNotSupported
  | Some supply =>
      let! diff := int_chk (Amount (OutgoingSupply supply) - Amount coin) in
      if diff <? 0 then Err ErrInvalidOutgoingSupply
      else
        let! c := Coin_Sub (OutgoingSupply supply) coin in
        Ok (SetAssetSupply (set_OutgoingSupply c supply) (Denom coin) s)
  end.

Definition CreateNewAssetSupply (denom : string) s : outcome (AssetSupply * State B A) :=
  let! zero := NewCoin denom 0 in
  let supply := NewAssetSupply zero zero zero zero 0 in
  Ok (supply, SetAssetSupply supply denom s).

(** One iteration of the loop of [UpdateTimeBasedSupplyLimits]. *)
Definition updateTimeBasedSupply (timeElapsed : Z) (asset : AssetParam) s : outcome (State B A) :=
  let! '(supply, s) :=
    match GetAssetSupply s (apDenom asset) with
    | Some supply => Ok (supply, s)
    | None => CreateNewAssetSupply (apDenom asset) s
    end in
  let newTimeElapsed := i64 (TimeElapsed supply + timeElapsed) in
  if TimeLimited (apSupplyLimit asset) && (newTimeElapsed <? TimePeriod (apSupplyLimit asset)) then
    Ok (SetAssetSupply (set_TimeElapsed newTimeElapsed supply) (apDenom asset) s)
  else
    let! zero := NewCoin (apDenom asset) 0 in
    Ok (SetAssetSupply (set_TimeLimited zero (set_TimeElapsed 0 supply)) (apDenom asset) s).

Definition UpdateTimeBasedSupplyLimits (ctx : Ctx) s : outcome (State B A) :=
  let '(assets, found) := GetAssets s in
  if negb found then Ok s
  else
    let '(previousBlockTime, s) :=
      match GetPreviousBlockTime s with
      | Some t => (t, s)
      | None => (BlockTime ctx, SetPreviousBlockTime (BlockTime ctx) s)
      end in
    let timeElapsed := time_Sub (BlockTime ctx) previousBlockTime in
    let! s := ofold (updateTimeBasedSupply timeElapsed) assets s in
    Ok (SetPreviousBlockTime (BlockTime ctx) s).

(** ** Swaps ([swap.go]) *)
(** The direction of a swap: incoming when the deputy sends it, outgoing when
    the deputy receives it. *)
Definition swap_direction (asset : AssetParam) (sender recipient : AccAddress)
    : outcome SwapDirection :=
  if bool_decide (sender = apDeputyAddress asset) then
    if bool_decide (recipient = apDeputyAddress asset) then Err ErrInvalidSwapAccount
    else Ok SWAP_DIRECTION_INCOMING
  else
    if negb (bool_decide (recipient = apDeputyAddress asset)) then Err ErrInvalidSwapAccount
    else Ok SWAP_DIRECTION_OUTGOING.

Definition CreateAtomicSwap (ctx : Ctx) (randomNumberHash : bytes) (timestamp heightSpan : Z)
    (sender recipient : AccAddress) (senderOtherChain recipientOtherChain : string)
    (amount : Coins) (crossChain : bool) s : outcome (State B A) :=
  let swapID := CalculateSwapID randomNumberHash sender senderOtherChain in
  match GetAtomicSwap s swapID with
  | Some _ => Err ErrAtomicSwapAlreadyExists
  | None =>
  if default false (Maccs !! AccAddress_String recipient) then Err ErrUnauthorized else
  match amount with
  | [coin] =>
    let! asset := GetAsset s (Denom coin) in
    let! _ := ValidateLiveAsset s coin in
    if (Amount coin <? apMinSwapAmount asset) || (Amount coin >? apMaxSwapAmount asset)
    then Err ErrInvalidAmount else
    let pastTimestampLimit := Unix (BlockTime ctx - 15 * 60 * 1000000000) in
    let futureTimestampLimit := Unix (BlockTime ctx + 30 * 60 * 1000000000) in
    if (timestamp <? pastTimestampLimit) || (timestamp >=? futureTimestampLimit)
    then Err ErrInvalidTimestamp else
    let! direction := swap_direction asset sender recipient in
    let! s :=
      match direction with
      | SWAP_DIRECTION_INCOMING =>
          let s := if HasAccount (accounts s) recipient then s
                   else with_accounts (AddNewAccount recipient (accounts s)) s in
          IncrementIncomingAssetSupply coin s
      | SWAP_DIRECTION_OUTGOING =>
          if (heightSpan <? apMinBlockLock asset) || (heightSpan >? apMaxBlockLock asset)
          then Err ErrInvalidHeightSpan else
          let! fee := int_chk (apFixedFee asset + apMinSwapAmount asset) in
          if Amount coin <=? fee then Err ErrInsufficientAmount else
          let! s := IncrementOutgoingAssetSupply coin s in
          bank_call (SendCoinsFromAccountToModule sender ModuleName amount) s
      | _ => Err (Plain "invalid swap direction")
      end in
    let expireHeight := u64 (u64 (BlockHeight ctx) + heightSpan) in
    let atomicSwap := NewAtomicSwap amount randomNumberHash expireHeight timestamp sender recipient
                        senderOtherChain recipientOtherChain 0 SWAP_STATUS_OPEN crossChain direction in
    Ok (InsertIntoByBlockIndex atomicSwap (SetAtomicSwap atomicSwap s))
  | _ => Err (Plain "amount must contain exactly one coin")
  end
  end.

(** [atomicSwap.Amount[0]]: an empty list is an index out of range. *)
Definition first_coin (cs : Coins) : outcome Coin :=
  match cs with c :: _ => Ok c | [] => Panic "index out of range" end.

Definition ClaimAtomicSwap (ctx : Ctx) (from : AccAddress) (swapID randomNumber : bytes) s
    : outcome (State B A) :=
  match GetAtomicSwap s swapID with
  | None => Err ErrAtomicSwapNotFound
  | Some atomicSwap =>
    if negb (bool_decide (swStatus atomicSwap = SWAP_STATUS_OPEN)) then Err ErrSwapNotClaimable else
    let hashedSubmittedNumber := CalculateRandomHash randomNumber (swTimestamp atomicSwap) in
    let hashedSecret := CalculateSwapID hashedSubmittedNumber (swSender atomicSwap)
                          (swSenderOtherChain atomicSwap) in
    if negb (bool_decide (hashedSecret = GetSwapID atomicSwap)) then Err ErrInvalidClaimSecret else
    let! s :=
      match swDirection atomicSwap with
      | SWAP_DIRECTION_INCOMING =>
          let! coin := first_coin (swAmount atomicSwap) in
          let! s := DecrementIncomingAssetSupply coin s in
          let! s := IncrementCurrentAssetSupply coin s in
          let! s := bank_call (MintCoins ModuleName (swAmount atomicSwap)) s in
          bank_call (SendCoinsFromModuleToAccount ModuleName (swRecipient atomicSwap)
                       (swAmount atomicSwap)) s
      | SWAP_DIRECTION_OUTGOING =>
          let! coin := first_coin (swAmount atomicSwap) in
          let! s := DecrementOutgoingAssetSupply coin s in
          let! s := DecrementCurrentAssetSupply coin s in
          bank_call (BurnCoins ModuleName (swAmount atomicSwap)) s
      | _ => Err (Plain "invalid swap direction")
      end in
    let atomicSwap := set_closed (BlockHeight ctx) (set_status SWAP_STATUS_COMPLETED atomicSwap) in
    let s := SetAtomicSwap atomicSwap s in
    let s := RemoveFromByBlockIndex atomicSwap s in
    Ok (InsertIntoLongtermStorage atomicSwap s)
  end.

Definition RefundAtomicSwap (ctx : Ctx) (from : AccAddress) (swapID : bytes) s
    : outcome (State B A) :=
  match GetAtomicSwap s swapID with
  | None => Err ErrAtomicSwapNotFound
  | Some atomicSwap =>
    if negb (bool_decide (swStatus atomicSwap = SWAP_STATUS_EXPIRED)) then Err ErrSwapNotRefundable else
    let! s :=
      match swDirection atomicSwap with
      | SWAP_DIRECTION_INCOMING =>
          let! coin := first_coin (swAmount atomicSwap) in
          DecrementIncomingAssetSupply coin s
      | SWAP_DIRECTION_OUTGOING =>
          let! coin := first_coin (swAmount atomicSwap) in
          let! s := DecrementOutgoingAssetSupply coin s in
          bank_call (SendCoinsFromModuleToAccount ModuleName (swSender atomicSwap)
                       (swAmount atomicSwap)) s
      | _ => Err (Plain "invalid swap direction")
      end in
    let atomicSwap := set_closed (BlockHeight ctx) (set_status SWAP_STATUS_COMPLETED atomicSwap) in
    let s := SetAtomicSwap atomicSwap s in
    Ok (InsertIntoLongtermStorage atomicSwap s)
  end.

Definition expire_swap (id : bytes) s : State B A :=
  match GetAtomicSwap s id with
  | None => s
  | Some atomicSwap =>
      let atomicSwap := set_status SWAP_STATUS_EXPIRED atomicSwap in
      let s := RemoveFromByBlockIndex atomicSwap s in
      SetAtomicSwap atomicSwap s
  end.
Definition UpdateExpiredAtomicSwaps (ctx : Ctx) s : State B A :=
  IterateAtomicSwapsByBlock s (u64 (BlockHeight ctx)) expire_swap.

Definition delete_swap (id : bytes) s : State B A :=
  match GetAtomicSwap s id with
  | None => s
  | Some swap => RemoveFromLongtermStorage swap (RemoveAtomicSwap (GetSwapID swap) s)
  end.
Definition DeleteClosedAtomicSwapsFromLongtermStorage (ctx : Ctx) s : State B A :=
  IterateAtomicSwapsLongtermStorage s (u64 (BlockHeight ctx)) delete_swap.

(** ** BeginBlocker ([abci.go]) *)
Definition BeginBlocker (ctx : Ctx) s : outcome (State B A) :=
  let! s := UpdateTimeBasedSupplyLimits ctx s in
  let s := UpdateExpiredAtomicSwaps ctx s in
  Ok (DeleteClosedAtomicSwapsFromLongtermStorage ctx s).
End Keeper.
