(* ===== verification/Bep3Inv.v ===== *)
(** * x/bep3: invariants of the store

    The indexes point exactly at the open and the completed swaps, and the
    incoming and outgoing supplies are the sums of the amounts of the pending
    swaps.  Every operation of the module keeps both. *)

From S2P Require Import Prelude Sdk GoStd Bank Bep3Types Bep3Keeper.

Section Inv.
  Context {cfg : SdkConfig} {sdk : SdkLaws} {gostr : GoStrings} {hash : TmHash} {B A : Type}
    {bk : BankKeeper B} {ak : AccountKeeper A}.
  Context (Maccs : gmap string bool).
  Implicit Types s : State B A.

(** ** The invariants *)

(** A swap holds its amount until it is completed. *)
Definition pending (st : SwapStatus) : bool :=
  bool_decide (st = SWAP_STATUS_OPEN) || bool_decide (st = SWAP_STATUS_EXPIRED).

Definition weight (dir : SwapDirection) (d : string) (sw : AtomicSwap) : Z :=
  if bool_decide (swDirection sw = dir) && pending (swStatus sw) then AmountOf (swAmount sw) d else 0.
Definition pending_sum (dir : SwapDirection) (d : string) (m : gmap bytes AtomicSwap) : Z :=
  map_sum (weight dir d) m.

Definition supply_amount (f : AssetSupply -> Coin) (u : gmap string AssetSupply) (d : string) : Z :=
  from_option (fun sup => Amount (f sup)) 0 (u !! d).

Record swap_ok (id : bytes) (sw : AtomicSwap) : Prop := {
  sok_id : GetSwapID sw = id;
  sok_coin : exists coin, swAmount sw = [coin] /\ 0 < Amount coin;
  sok_height : is_u64 (swExpireHeight sw);
  sok_status : SwapStatus_IsValid (swStatus sw) = true;
  sok_direction : SwapDirection_IsValid (swDirection sw) = true
}.

(** [I] indexes exactly the swaps of status [st] in [m], at the height [h]. *)
Definition index_ok (st : SwapStatus) (h : AtomicSwap -> Z) (m : gmap bytes AtomicSwap)
    (I : gmap bytes bytes) : Prop :=
  forall k id, I !! k = Some id <->
    exists sw, m !! id = Some sw /\ swStatus sw = st /\ k = GetAtomicSwapByHeightKey (h sw) id.

Record store_ok s : Prop := {
  st_swaps : forall id sw, AtomicSwaps s !! id = Some sw -> swap_ok id sw;
  st_byblock : index_ok SWAP_STATUS_OPEN swExpireHeight (AtomicSwaps s) (AtomicSwapByBlock s);
  st_longterm : index_ok SWAP_STATUS_COMPLETED deletionHeight (AtomicSwaps s)
                  (AtomicSwapLongtermStorage s)
}.

Record coins_ok (d : string) (sup : AssetSupply) : Prop := {
  cok_in : Denom (IncomingSupply sup) = d /\ 0 <= Amount (IncomingSupply sup) < 2 ^ 256;
  cok_out : Denom (OutgoingSupply sup) = d /\ 0 <= Amount (OutgoingSupply sup) < 2 ^ 256;
  cok_cur : Denom (CurrentSupply sup) = d /\ 0 <= Amount (CurrentSupply sup) < 2 ^ 256;
  cok_tl : Denom (TimeLimitedCurrentSupply sup) = d
           /\ 0 <= Amount (TimeLimitedCurrentSupply sup) < 2 ^ 256
}.

Record sums_ok (m : gmap bytes AtomicSwap) (u : gmap string AssetSupply) : Prop := {
  su_coins : forall d sup, u !! d = Some sup -> coins_ok d sup;
  su_in : forall d, supply_amount IncomingSupply u d = pending_sum SWAP_DIRECTION_INCOMING d m;
  su_out : forall d, supply_amount OutgoingSupply u d = pending_sum SWAP_DIRECTION_OUTGOING d m;
  su_avail : forall d, supply_amount OutgoingSupply u d <= supply_amount CurrentSupply u d
}.
Definition supply_ok s : Prop := sums_ok (AtomicSwaps s) (AssetSupplies s).

(** The supply stays within the limits of the parameters. *)
Definition limits_ok s : Prop :=
  forall d sup asset, AssetSupplies s !! d = Some sup ->
    find_asset d (AssetParams (params s)) = Some asset ->
    Amount (CurrentSupply sup) + Amount (IncomingSupply sup) <= Limit (apSupplyLimit asset)
    /\ (TimeLimited (apSupplyLimit asset) = true ->
        Amount (TimeLimitedCurrentSupply sup) + Amount (IncomingSupply sup)
          <= TimeBasedLimit (apSupplyLimit asset)).

(** The coins of the outgoing swaps are in the module account. *)
Definition escrow_ok s : Prop :=
  forall x d, GetModuleAddress ModuleName = Some x ->
    supply_amount OutgoingSupply (AssetSupplies s) d <= GetBalance (bank s) x d.

(** Validated parameters whose limits are values of [sdk.Int]. *)
Definition params_ok s : Prop :=
  Params_Validate (params s) = Ok tt
  /\ Forall (fun a => Limit (apSupplyLimit a) < 2 ^ 256) (AssetParams (params s)).

(** ** Index lemmas *)
Lemma height_key_inj h h' id id' :
  GetAtomicSwapByHeightKey h id = GetAtomicSwapByHeightKey h' id' -> id = id'.
Proof. unfold GetAtomicSwapByHeightKey. intros E. by apply app_inj_1 in E as [_ ?]. Qed.

Section Index.
  Context (st : SwapStatus) (h : AtomicSwap -> Z) (m : gmap bytes AtomicSwap) (I : gmap bytes bytes).
  Context (Hidx : index_ok st h m I).

Lemma index_untouched id sw :
  (forall sw0, m !! id = Some sw0 -> swStatus sw0 <> st) -> swStatus sw <> st ->
  index_ok st h (<[id := sw]> m) I.
Proof.
  intros Hold Hnew k id'. rewrite (Hidx k id'). split.
  - intros (sw' & Hsw' & Hst & ->). exists sw'. split_and!; [|done|done].
    rewrite lookup_insert_ne; [done|]. intros ->. by apply (Hold sw').
  - intros (sw' & Hsw' & Hst & ->). exists sw'. split_and!; [|done|done].
    apply lookup_insert_Some in Hsw' as [[_ ->]|[_ ?]]; done.
Qed.

Lemma index_insert id sw :
  (forall sw0, m !! id = Some sw0 -> swStatus sw0 <> st) -> swStatus sw = st ->
  index_ok st h (<[id := sw]> m) (<[GetAtomicSwapByHeightKey (h sw) id := id]> I).
Proof.
  intros Hold Hnew k id'. destruct (decide (id = id')) as [<-|Hne].
  - setoid_rewrite lookup_insert_eq. split.
    + intros [[<- _]|[_ HI]]%lookup_insert_Some; [eauto|].
      apply Hidx in HI as (sw0 & H0 & Hst & _). by apply Hold in H0.
    + intros (sw' & [= <-] & _ & ->). apply lookup_insert_eq.
  - setoid_rewrite (lookup_insert_ne m); [|done]. rewrite <- (Hidx k id').
    rewrite lookup_insert_Some. split; [naive_solver|]. intros HI. right. split; [|done].
    intros <-. apply Hidx in HI as (sw' & _ & _ & E). by apply height_key_inj in E.
Qed.

Lemma index_leave id sw0 sw :
  m !! id = Some sw0 -> swStatus sw0 = st -> swStatus sw <> st ->
  index_ok st h (<[id := sw]> m) (delete (GetAtomicSwapByHeightKey (h sw0) id) I).
Proof.
  intros H0 Hst Hnew k id'. rewrite lookup_delete_Some, (Hidx k id'). split.
  - intros (Hk & sw' & Hsw' & Hst' & ->). exists sw'. split_and!; [|done|done].
    rewrite lookup_insert_ne; [done|]. intros ->. naive_solver.
  - intros (sw' & [[<- ->]|[Hne Hsw']]%lookup_insert_Some & Hst' & ->); [done|].
    split; [|eauto]. intros E. by apply height_key_inj in E.
Qed.

Lemma index_delete_at id sw0 :
  m !! id = Some sw0 -> swStatus sw0 = st ->
  index_ok st h (delete id m) (delete (GetAtomicSwapByHeightKey (h sw0) id) I).
Proof.
  intros H0 Hst k id'. rewrite lookup_delete_Some, (Hidx k id').
  setoid_rewrite lookup_delete_Some. split.
  - intros (Hk & sw' & Hsw' & Hst' & ->). exists sw'. split_and!; try done.
    intros ->. naive_solver.
  - intros (sw' & [Hne Hsw'] & Hst' & ->). split; [|eauto].
    intros E. by apply height_key_inj in E.
Qed.

Lemma index_delete_other id :
  (forall sw0, m !! id = Some sw0 -> swStatus sw0 <> st) -> index_ok st h (delete id m) I.
Proof.
  intros Hold k id'. rewrite (Hidx k id'). setoid_rewrite lookup_delete_Some. split.
  - intros (sw' & Hsw' & Hst & ->). exists sw'. split_and!; try done.
    intros ->. by apply (Hold sw').
  - naive_solver.
Qed.
End Index.

(** ** What the supply operations do when they succeed *)
Lemma GetAsset_Ok s d a :
  GetAsset s d = Ok a -> find_asset d (AssetParams (params s)) = Some a.
Proof. unfold GetAsset. by case_match; [intros [= <-]|]. Qed.

Lemma GetSupplyLimit_Ok s d l :
  GetSupplyLimit s d = Ok l ->
  exists a, find_asset d (AssetParams (params s)) = Some a /\ apSupplyLimit a = l.
Proof.
  unfold GetSupplyLimit. intros Hr. go_inv Hr. apply GetAsset_Ok in Hcall. eauto.
Qed.

Definition add_amount (c : Coin) (z : Z) : Coin := mkCoin (Denom c) (Amount c + z).

Lemma IncrementIncoming_Ok coin s s' :
  IncrementIncomingAssetSupply coin s = Ok s' ->
  exists sup a, AssetSupplies s !! Denom coin = Some sup
    /\ find_asset (Denom coin) (AssetParams (params s)) = Some a
    /\ s' = SetAssetSupply (set_IncomingSupply (add_amount (IncomingSupply sup) (Amount coin)) sup)
              (Denom coin) s
    /\ Z.abs (Amount (IncomingSupply sup) + Amount coin) < 2 ^ 256
    /\ Amount (CurrentSupply sup) + Amount (IncomingSupply sup) + Amount coin <= Limit (apSupplyLimit a)
    /\ (TimeLimited (apSupplyLimit a) = true ->
        Amount (TimeLimitedCurrentSupply sup) + Amount (IncomingSupply sup) + Amount coin
          <= TimeBasedLimit (apSupplyLimit a)).
Proof.
  unfold IncrementIncomingAssetSupply. intros Hr. go_inv Hr. subst.
  by_call GetSupplyLimit_Ok as (a0 & Ha & <-).
  exists a, a0. split_and!; [done|done|by coin_inv|by coin_inv|coin_inv; gobool; lia|].
  intros Htl. rewrite Htl in Hcall4. clear Hcall3. go_inv Hcall4. coin_inv. subst. gobool. lia.
Qed.

Lemma DecrementIncoming_Ok coin s s' :
  DecrementIncomingAssetSupply coin s = Ok s' ->
  exists sup, AssetSupplies s !! Denom coin = Some sup
    /\ s' = SetAssetSupply (set_IncomingSupply (add_amount (IncomingSupply sup) (- Amount coin)) sup)
              (Denom coin) s
    /\ Amount coin <= Amount (IncomingSupply sup).
Proof.
  unfold DecrementIncomingAssetSupply. intros Hr. go_inv Hr. subst. coin_inv. eauto.
Qed.

Lemma IncrementOutgoing_Ok coin s s' :
  IncrementOutgoingAssetSupply coin s = Ok s' ->
  exists sup, AssetSupplies s !! Denom coin = Some sup
    /\ s' = SetAssetSupply (set_OutgoingSupply (add_amount (OutgoingSupply sup) (Amount coin)) sup)
              (Denom coin) s
    /\ Z.abs (Amount (OutgoingSupply sup) + Amount coin) < 2 ^ 256
    /\ Amount (OutgoingSupply sup) + Amount coin <= Amount (CurrentSupply sup).
Proof.
  unfold IncrementOutgoingAssetSupply. intros Hr. go_inv Hr. subst. coin_inv. gobool.
  exists a. split_and!; (done || lia).
Qed.

Lemma DecrementOutgoing_Ok coin s s' :
  DecrementOutgoingAssetSupply coin s = Ok s' ->
  exists sup, AssetSupplies s !! Denom coin = Some sup
    /\ s' = SetAssetSupply (set_OutgoingSupply (add_amount (OutgoingSupply sup) (- Amount coin)) sup)
              (Denom coin) s
    /\ Amount coin <= Amount (OutgoingSupply sup).
Proof.
  unfold DecrementOutgoingAssetSupply. intros Hr. go_inv Hr. subst. coin_inv. eauto.
Qed.

Lemma DecrementCurrent_Ok coin s s' :
  DecrementCurrentAssetSupply coin s = Ok s' ->
  exists sup, AssetSupplies s !! Denom coin = Some sup
    /\ s' = SetAssetSupply (set_CurrentSupply (add_amount (CurrentSupply sup) (- Amount coin)) sup)
              (Denom coin) s
    /\ Amount coin <= Amount (CurrentSupply sup).
Proof.
  unfold DecrementCurrentAssetSupply. intros Hr. go_inv Hr. subst. coin_inv. eauto.
Qed.

(** The time-limited part of the supply after an increase of the current one. *)
Definition time_limited_after (a : AssetParam) (coin : Coin) (sup : AssetSupply) : AssetSupply :=
  if TimeLimited (apSupplyLimit a)
  then set_TimeLimited (add_amount (TimeLimitedCurrentSupply sup) (Amount coin)) sup else sup.

Lemma IncrementCurrent_Ok coin s s' :
  IncrementCurrentAssetSupply coin s = Ok s' ->
  exists sup a, AssetSupplies s !! Denom coin = Some sup
    /\ find_asset (Denom coin) (AssetParams (params s)) = Some a
    /\ s' = SetAssetSupply (set_CurrentSupply (add_amount (CurrentSupply sup) (Amount coin))
              (time_limited_after a coin sup)) (Denom coin) s
    /\ Z.abs (Amount (CurrentSupply sup) + Amount coin) < 2 ^ 256
    /\ Amount (CurrentSupply sup) + Amount coin <= Limit (apSupplyLimit a)
    /\ (TimeLimited (apSupplyLimit a) = true ->
        Amount (TimeLimitedCurrentSupply sup) + Amount coin <= TimeBasedLimit (apSupplyLimit a)
        /\ Z.abs (Amount (TimeLimitedCurrentSupply sup) + Amount coin) < 2 ^ 256).
Proof.
  unfold IncrementCurrentAssetSupply. intros Hr. go_inv Hr. subst.
  by_call GetSupplyLimit_Ok as (a0 & Ha & <-).
  assert (r3 = time_limited_after a0 coin a /\ (TimeLimited (apSupplyLimit a0) = true ->
    Amount (TimeLimitedCurrentSupply a) + Amount coin <= TimeBasedLimit (apSupplyLimit a0)
    /\ Z.abs (Amount (TimeLimitedCurrentSupply a) + Amount coin) < 2 ^ 256)) as [-> Htl].
  { unfold time_limited_after. clear -Hcall3 sdk. destruct (TimeLimited (apSupplyLimit a0)).
    - go_inv Hcall3. subst. coin_inv. gobool. split; [done|lia].
    - go_inv Hcall3. subst. split; [done|done]. }
  assert (CurrentSupply (time_limited_after a0 coin a) = CurrentSupply a) as Hcur
    by (unfold time_limited_after; by destruct (TimeLimited _)).
  rewrite Hcur in Hcall4. exists a, a0.
  split_and!; [done|done|by coin_inv|by coin_inv|coin_inv; gobool; lia|done].
Qed.

(** ** What the handlers do when they succeed *)
Lemma with_accounts_id s : with_accounts (accounts s) s = s.
Proof. by destruct s. Qed.
Lemma with_bank_id s : with_bank (bank s) s = s.
Proof. by destruct s. Qed.
Lemma bank_call_Ok f s s' :
  bank_call f s = Ok s' -> exists b, f (bank s) = Ok b /\ s' = with_bank b s.
Proof. unfold bank_call. intros Hr. go_inv Hr. eauto. Qed.
Lemma with_accounts_if (c : bool) a s :
  (if c then s else with_accounts a s) = with_accounts (if c then accounts s else a) s.
Proof. destruct c; [by rewrite with_accounts_id|done]. Qed.
Lemma SetAssetSupply_twice sup1 sup2 d s :
  SetAssetSupply sup2 d (SetAssetSupply sup1 d s) = SetAssetSupply sup2 d s.
Proof. unfold SetAssetSupply, with_supplies; simpl. by rewrite insert_insert_eq. Qed.

(** The swap a create message stores. *)
Definition created_swap (ctx : Ctx) rnh timestamp heightSpan sender recipient soc roc amount cc dir
    : AtomicSwap :=
  NewAtomicSwap amount rnh (u64 (u64 (BlockHeight ctx) + heightSpan)) timestamp sender recipient
    soc roc 0 SWAP_STATUS_OPEN cc dir.

(** Supply and bank after the direction-specific part of a create. *)
Definition create_effect (a : AssetParam) (sender : AccAddress) (span : Z) (coin : Coin)
    (dir : SwapDirection) (sup sup' : AssetSupply) (b b' : B) : Prop :=
  (dir = SWAP_DIRECTION_INCOMING /\ b' = b
   /\ sup' = set_IncomingSupply (add_amount (IncomingSupply sup) (Amount coin)) sup
   /\ Z.abs (Amount (IncomingSupply sup) + Amount coin) < 2 ^ 256
   /\ Amount (CurrentSupply sup) + Amount (IncomingSupply sup) + Amount coin <= Limit (apSupplyLimit a)
   /\ (TimeLimited (apSupplyLimit a) = true ->
        Amount (TimeLimitedCurrentSupply sup) + Amount (IncomingSupply sup) + Amount coin
          <= TimeBasedLimit (apSupplyLimit a)))
  \/ (dir = SWAP_DIRECTION_OUTGOING
   /\ SendCoinsFromAccountToModule sender ModuleName [coin] b = Ok b'
   /\ sup' = set_OutgoingSupply (add_amount (OutgoingSupply sup) (Amount coin)) sup
   /\ Z.abs (Amount (OutgoingSupply sup) + Amount coin) < 2 ^ 256
   /\ Amount (OutgoingSupply sup) + Amount coin <= Amount (CurrentSupply sup)
   /\ apMinBlockLock a <= span <= apMaxBlockLock a
   /\ apFixedFee a + apMinSwapAmount a < Amount coin).

Lemma CreateAtomicSwap_Ok ctx rnh ts span sender recipient soc roc amount cc s s' :
  CreateAtomicSwap Maccs ctx rnh ts span sender recipient soc roc amount cc s = Ok s' ->
  exists coin a dir sup sup' b' acc',
    let sw := created_swap ctx rnh ts span sender recipient soc roc [coin] cc dir in
    amount = [coin]
    /\ AtomicSwaps s !! GetSwapID sw = None
    /\ find_asset (Denom coin) (AssetParams (params s)) = Some a
    /\ apMinSwapAmount a <= Amount coin <= apMaxSwapAmount a
    /\ swap_direction a sender recipient = Ok dir
    /\ AssetSupplies s !! Denom coin = Some sup
    /\ create_effect a sender span coin dir sup sup' (bank s) b'
    /\ s' = InsertIntoByBlockIndex sw (SetAtomicSwap sw
              (with_accounts acc' (with_bank b' (SetAssetSupply sup' (Denom coin) s)))).
Proof.
  unfold CreateAtomicSwap, GetAtomicSwap. intros Hr.
  destruct (AtomicSwaps s !! _) eqn:Hnone; [discriminate|]. go_inv Hr. subst.
  rename Hcall into Hasset. apply GetAsset_Ok in Hasset. gobool.
  assert (r1 = SWAP_DIRECTION_INCOMING \/ r1 = SWAP_DIRECTION_OUTGOING) as [-> | ->]
    by (clear -Hcall1; unfold swap_direction in Hcall1; go_inv Hcall1; auto).
  - rewrite with_accounts_if in Hcall2.
    by_call IncrementIncoming_Ok as (sup & a' & Hsup & Ha' & -> & Habs & Hlim & Htl).
    assert (a' = r) as -> by (simpl in Ha'; congruence).
    exists c, r, SWAP_DIRECTION_INCOMING, sup,
      (set_IncomingSupply (add_amount (IncomingSupply sup) (Amount c)) sup), (bank s),
      (if HasAccount (accounts s) recipient then accounts s else AddNewAccount recipient (accounts s)).
    cbn zeta. split_and!; try done; try lia. left. split_and!; done.
  - go_inv Hcall2. by_call IncrementOutgoing_Ok as (sup & Hsup & -> & Habs & Hlim).
    by_call bank_call_Ok as (b1 & Hb & ->). coin_inv. gobool.
    exists c, r, SWAP_DIRECTION_OUTGOING, sup,
      (set_OutgoingSupply (add_amount (OutgoingSupply sup) (Amount c)) sup), b1, (accounts s). cbn zeta.
    split_and!; try done; try lia. right. split_and!; done || lia.
Qed.

(** The swap after it is closed at the height of [ctx]. *)
Definition closed_swap (ctx : Ctx) (sw : AtomicSwap) : AtomicSwap :=
  set_closed (BlockHeight ctx) (set_status SWAP_STATUS_COMPLETED sw).

(** Supply and bank after the direction-specific part of a claim. *)
Definition claim_effect (ps : Params) (sw : AtomicSwap) (coin : Coin)
    (sup sup' : AssetSupply) (b b' : B) : Prop :=
  (swDirection sw = SWAP_DIRECTION_INCOMING
   /\ exists a b1, find_asset (Denom coin) (AssetParams ps) = Some a
   /\ sup' = set_CurrentSupply (add_amount (CurrentSupply sup) (Amount coin))
                (time_limited_after a coin
                   (set_IncomingSupply (add_amount (IncomingSupply sup) (- Amount coin)) sup))
   /\ Amount coin <= Amount (IncomingSupply sup)
   /\ Z.abs (Amount (CurrentSupply sup) + Amount coin) < 2 ^ 256
   /\ Amount (CurrentSupply sup) + Amount coin <= Limit (apSupplyLimit a)
   /\ (TimeLimited (apSupplyLimit a) = true ->
        Amount (TimeLimitedCurrentSupply sup) + Amount coin <= TimeBasedLimit (apSupplyLimit a)
        /\ Z.abs (Amount (TimeLimitedCurrentSupply sup) + Amount coin) < 2 ^ 256)
   /\ MintCoins ModuleName (swAmount sw) b = Ok b1
   /\ SendCoinsFromModuleToAccount ModuleName (swRecipient sw) (swAmount sw) b1 = Ok b')
  \/ (swDirection sw = SWAP_DIRECTION_OUTGOING
   /\ sup' = set_CurrentSupply (add_amount (CurrentSupply sup) (- Amount coin))
               (set_OutgoingSupply (add_amount (OutgoingSupply sup) (- Amount coin)) sup)
   /\ Amount coin <= Amount (OutgoingSupply sup)
   /\ Amount coin <= Amount (CurrentSupply sup)
   /\ BurnCoins ModuleName (swAmount sw) b = Ok b').

Lemma ClaimAtomicSwap_Ok ctx from swapID rn s s' :
  ClaimAtomicSwap ctx from swapID rn s = Ok s' ->
  exists sw coin rest sup sup' b',
    AtomicSwaps s !! swapID = Some sw
    /\ swStatus sw = SWAP_STATUS_OPEN
    /\ CalculateSwapID (CalculateRandomHash rn (swTimestamp sw)) (swSender sw) (swSenderOtherChain sw)
       = GetSwapID sw
    /\ swAmount sw = coin :: rest
    /\ AssetSupplies s !! Denom coin = Some sup
    /\ claim_effect (params s) sw coin sup sup' (bank s) b'
    /\ s' = InsertIntoLongtermStorage (closed_swap ctx sw)
              (RemoveFromByBlockIndex (closed_swap ctx sw)
                (SetAtomicSwap (closed_swap ctx sw)
                  (with_bank b' (SetAssetSupply sup' (Denom coin) s)))).
Proof.
  unfold ClaimAtomicSwap, GetAtomicSwap. intros Hr. go_inv Hr. subst. gobool.
  rename a into sw. destruct (swDirection sw) eqn:Hdir; try discriminate Hcall; go_inv Hcall;
    (destruct (swAmount sw) as [|coin rest] eqn:Hamt; [discriminate|]);
    match goal with Hc : first_coin _ = Ok _ |- _ => injection Hc as <- end;
    unfold bank_call in *.
  - by_call DecrementIncoming_Ok as (sup & Hsup & -> & Hle).
    by_call IncrementCurrent_Ok as (sup1 & a & Hsup1 & Ha & -> & Habs & Hlim & Htl).
    simpl in Hsup1. rewrite lookup_insert_eq in Hsup1. injection Hsup1 as <-.
    by_call bank_call_Ok as (b2 & Hsend & ->). by_call bank_call_Ok as (b1 & Hmint & ->). simpl in *.
    exists sw, coin, rest, sup, (set_CurrentSupply (add_amount (CurrentSupply sup) (Amount coin))
      (time_limited_after a coin
         (set_IncomingSupply (add_amount (IncomingSupply sup) (- Amount coin)) sup))), b2.
    split_and!; try done; [|rewrite SetAssetSupply_twice; done].
    left. split; [done|]. exists a, b1. by rewrite Hamt.
  - by_call DecrementOutgoing_Ok as (sup & Hsup & -> & Hle).
    by_call DecrementCurrent_Ok as (sup1 & Hsup1 & -> & Hle2).
    simpl in Hsup1. rewrite lookup_insert_eq in Hsup1. injection Hsup1 as <-.
    by_call bank_call_Ok as (b1 & Hburn & ->). simpl in *.
    exists sw, coin, rest, sup, (set_CurrentSupply (add_amount (CurrentSupply sup) (- Amount coin))
      (set_OutgoingSupply (add_amount (OutgoingSupply sup) (- Amount coin)) sup)), b1.
    split_and!; try done; [|rewrite SetAssetSupply_twice; done].
    right. rewrite Hamt. done.
Qed.

(** Supply and bank after the direction-specific part of a refund. *)
Definition refund_effect (sw : AtomicSwap) (coin : Coin) (sup sup' : AssetSupply) (b b' : B) : Prop :=
  (swDirection sw = SWAP_DIRECTION_INCOMING /\ b' = b
   /\ sup' = set_IncomingSupply (add_amount (IncomingSupply sup) (- Amount coin)) sup
   /\ Amount coin <= Amount (IncomingSupply sup))
  \/ (swDirection sw = SWAP_DIRECTION_OUTGOING
   /\ sup' = set_OutgoingSupply (add_amount (OutgoingSupply sup) (- Amount coin)) sup
   /\ Amount coin <= Amount (OutgoingSupply sup)
   /\ SendCoinsFromModuleToAccount ModuleName (swSender sw) (swAmount sw) b = Ok b').

Lemma RefundAtomicSwap_Ok ctx from swapID s s' :
  RefundAtomicSwap ctx from swapID s = Ok s' ->
  exists sw coin rest sup sup' b',
    AtomicSwaps s !! swapID = Some sw
    /\ swStatus sw = SWAP_STATUS_EXPIRED
    /\ swAmount sw = coin :: rest
    /\ AssetSupplies s !! Denom coin = Some sup
    /\ refund_effect sw coin sup sup' (bank s) b'
    /\ s' = InsertIntoLongtermStorage (closed_swap ctx sw)
              (SetAtomicSwap (closed_swap ctx sw)
                (with_bank b' (SetAssetSupply sup' (Denom coin) s))).
Proof.
  unfold RefundAtomicSwap, GetAtomicSwap. intros Hr. go_inv Hr. subst. gobool.
  rename a into sw. destruct (swDirection sw) eqn:Hdir; try discriminate Hcall; go_inv Hcall;
    (destruct (swAmount sw) as [|coin rest] eqn:Hamt; [discriminate|]);
    match goal with Hc : first_coin _ = Ok _ |- _ => injection Hc as <- end;
    unfold bank_call in *.
  - by_call DecrementIncoming_Ok as (sup & Hsup & -> & Hle).
    exists sw, coin, rest, sup, (set_IncomingSupply
      (add_amount (IncomingSupply sup) (- Amount coin)) sup), (bank s).
    split_and!; try done. by left.
  - by_call DecrementOutgoing_Ok as (sup & Hsup & -> & Hle).
    by_call bank_call_Ok as (b1 & Hsend & ->). simpl in *.
    exists sw, coin, rest, sup, (set_OutgoingSupply
      (add_amount (OutgoingSupply sup) (- Amount coin)) sup), b1.
    split_and!; try done. right. by rewrite Hamt.
Qed.
End Inv.
