(* ===== verification/Bep3Safety.v ===== *)
(** * x/bep3: every operation keeps the invariants

    Preservation of the store, supply, limit and escrow invariants by
    [CreateAtomicSwap], [ClaimAtomicSwap], [RefundAtomicSwap] and the three
    parts of [BeginBlocker]. *)

From S2P Require Import Prelude Sdk GoStd Bank Bep3Types Bep3Keeper Bep3Inv.

Section Safety.
  Context {cfg : SdkConfig} {sdk : SdkLaws} {gostr : GoStrings} {hash : TmHash} {B A : Type}
    {bk : BankKeeper B} {ak : AccountKeeper A}.
  Context (Maccs : gmap string bool).
  Implicit Types s : State B A.
  Implicit Types m : gmap bytes AtomicSwap.
  Implicit Types u : gmap string AssetSupply.

(** ** Parameters *)
Lemma find_asset_ok s d a :
  params_ok s -> find_asset d (AssetParams (params s)) = Some a -> asset_ok a /\ apDenom a = d.
Proof.
  intros [Hp _] Hf. apply Params_Validate_Ok in Hp as [Hall _].
  apply List.find_some in Hf as [Hin ->%bool_decide_eq_true]. split; [|done].
  rewrite List.Forall_forall in Hall. by apply Hall.
Qed.

Lemma find_asset_elem s a :
  params_ok s -> a ∈ AssetParams (params s) ->
  find_asset (apDenom a) (AssetParams (params s)) = Some a.
Proof.
  intros [Hp _] Hin. apply Params_Validate_Ok in Hp as [_ Hnd].
  induction (AssetParams (params s)) as [|b l IH]; [by apply elem_of_nil in Hin|].
  apply NoDup_cons in Hnd as [Hb Hnd]. unfold find_asset; simpl.
  apply elem_of_cons in Hin as [->|Hin]; [by rewrite bool_decide_eq_true_2|].
  rewrite bool_decide_eq_false_2; [by apply IH|]. intros E. apply Hb. rewrite <- E.
  by apply list_elem_of_fmap_2.
Qed.

Lemma swap_direction_Ok a x y dir :
  swap_direction a x y = Ok dir -> dir = SWAP_DIRECTION_INCOMING \/ dir = SWAP_DIRECTION_OUTGOING.
Proof. unfold swap_direction. intros Hr. go_inv Hr; auto. Qed.

(** ** Sums *)
Lemma supply_amount_insert f u d sup d' :
  supply_amount f (<[d := sup]> u) d' =
  if bool_decide (d = d') then Amount (f sup) else supply_amount f u d'.
Proof.
  unfold supply_amount. case_bool_decide; subst.
  - by rewrite lookup_insert_eq.
  - by rewrite lookup_insert_ne.
Qed.

Lemma supply_amount_lookup f u d sup : u !! d = Some sup -> supply_amount f u d = Amount (f sup).
Proof. unfold supply_amount. by intros ->. Qed.

(** How much a swap's weight changes when [old] is replaced by [sw]. *)
Definition weight_change (dir : SwapDirection) (d : string) (old : option AtomicSwap)
    (sw : AtomicSwap) : Z :=
  weight dir d sw - from_option (weight dir d) 0 old.

Lemma sums_update m u id sw d sup sup' :
  sums_ok m u -> u !! d = Some sup -> coins_ok d sup' ->
  Amount (OutgoingSupply sup') <= Amount (CurrentSupply sup') ->
  (forall d', weight_change SWAP_DIRECTION_INCOMING d' (m !! id) sw
     = if bool_decide (d = d') then Amount (IncomingSupply sup') - Amount (IncomingSupply sup) else 0) ->
  (forall d', weight_change SWAP_DIRECTION_OUTGOING d' (m !! id) sw
     = if bool_decide (d = d') then Amount (OutgoingSupply sup') - Amount (OutgoingSupply sup) else 0) ->
  sums_ok (<[id := sw]> m) (<[d := sup']> u).
Proof.
  intros [Hc Hi Ho Ha] Hsup Hc' Ha' Hin Hout. unfold weight_change in *. split.
  - intros d' sup'' [[<- <-]|[_ ?]]%lookup_insert_Some; auto.
  - intros d'. unfold pending_sum. rewrite map_sum_insert, supply_amount_insert.
    specialize (Hin d'). specialize (Hi d'). unfold pending_sum in Hi.
    case_bool_decide; [subst d'|lia].
    rewrite (supply_amount_lookup _ _ _ _ Hsup) in Hi. lia.
  - intros d'. unfold pending_sum. rewrite map_sum_insert, supply_amount_insert.
    specialize (Hout d'). specialize (Ho d'). unfold pending_sum in Ho.
    case_bool_decide; [subst d'|lia].
    rewrite (supply_amount_lookup _ _ _ _ Hsup) in Ho. lia.
  - intros d'. rewrite !supply_amount_insert. case_bool_decide; auto.
Qed.

(** A change that leaves every weight alone keeps the sums. *)
Lemma sums_same_weight m u id sw :
  sums_ok m u -> (forall dir d, weight_change dir d (m !! id) sw = 0) ->
  sums_ok (<[id := sw]> m) u.
Proof.
  intros [Hc Hi Ho Ha] Hw. unfold weight_change in Hw. split; [done| | |done].
  - intros d. rewrite Hi. unfold pending_sum. rewrite map_sum_insert.
    specialize (Hw SWAP_DIRECTION_INCOMING d). lia.
  - intros d. rewrite Ho. unfold pending_sum. rewrite map_sum_insert.
    specialize (Hw SWAP_DIRECTION_OUTGOING d). lia.
Qed.

Lemma weight_one dir d sw coin :
  swAmount sw = [coin] ->
  weight dir d sw = if bool_decide (swDirection sw = dir) && pending (swStatus sw)
                    then if bool_decide (Denom coin = d) then Amount coin else 0 else 0.
Proof. intros E. unfold weight. by rewrite E. Qed.

(** ** Create *)
Lemma create_swap_ok ctx rnh ts span sender recipient soc roc coin cc dir :
  0 < Amount coin -> (dir = SWAP_DIRECTION_INCOMING \/ dir = SWAP_DIRECTION_OUTGOING) ->
  let sw := created_swap ctx rnh ts span sender recipient soc roc [coin] cc dir in
  swap_ok (GetSwapID sw) sw.
Proof.
  intros Hpos Hdir sw. split; simpl; [done|eauto|apply u64_range|done|].
  by destruct Hdir as [-> | ->].
Qed.

Lemma create_store_ok ctx rnh ts span sender recipient soc roc amount cc s s' :
  params_ok s -> store_ok s ->
  CreateAtomicSwap Maccs ctx rnh ts span sender recipient soc roc amount cc s = Ok s' ->
  store_ok s'.
Proof.
  intros Hp [Hs Hb Hl] Hr.
  apply CreateAtomicSwap_Ok in Hr as (coin & a & dir & sup & sup' & b' & acc' & Hr).
  cbn zeta in Hr. destruct Hr as (-> & Hnone & Ha & Hrange & Hdir & _ & _ & ->).
  apply (find_asset_ok s) in Ha as [Ha _]; [|done]. pose proof (ok_amounts _ Ha).
  apply swap_direction_Ok in Hdir.
  set (sw := created_swap _ _ _ _ _ _ _ _ _ _ _) in *. split; simpl.
  - intros id sw' [[<- <-]|[_ ?]]%lookup_insert_Some; [|auto].
    apply create_swap_ok; [lia|done].
  - apply (index_insert _ swExpireHeight); [done| |done]. rewrite Hnone. done.
  - apply index_untouched; [done| |done]. rewrite Hnone. done.
Qed.

Lemma create_supply_ok ctx rnh ts span sender recipient soc roc amount cc s s' :
  params_ok s -> supply_ok s ->
  CreateAtomicSwap Maccs ctx rnh ts span sender recipient soc roc amount cc s = Ok s' ->
  supply_ok s'.
Proof.
  intros Hp Hs Hr.
  apply CreateAtomicSwap_Ok in Hr as (coin & a & dir & sup & sup' & b' & acc' & Hr).
  cbn zeta in Hr. destruct Hr as (-> & Hnone & Ha & Hrange & Hdir & Hsup & Heff & ->).
  apply (find_asset_ok s) in Ha as [Ha _]; [|done]. pose proof (ok_amounts _ Ha) as Hmin.
  pose proof (su_coins _ _ Hs _ _ Hsup) as [Hcin Hcout Hccur Hctl].
  pose proof (su_avail _ _ Hs (Denom coin)) as Hav. rewrite !(supply_amount_lookup _ _ _ _ Hsup) in Hav.
  unfold supply_ok; simpl. eapply sums_update; [done|done| | | |]; rewrite ?Hnone;
    destruct Heff as [(-> & -> & -> & Habs & Hlim & Htl)|(-> & Hsend & -> & Habs & Hlim & _)];
    simpl; try (split; simpl; naive_solver lia); try lia;
    intros d'; unfold weight_change; erewrite weight_one by done; simpl; case_bool_decide; lia.
Qed.

Lemma create_limits_ok ctx rnh ts span sender recipient soc roc amount cc s s' :
  limits_ok s ->
  CreateAtomicSwap Maccs ctx rnh ts span sender recipient soc roc amount cc s = Ok s' ->
  limits_ok s'.
Proof.
  intros Hl Hr.
  apply CreateAtomicSwap_Ok in Hr as (coin & a & dir & sup & sup' & b' & acc' & Hr).
  cbn zeta in Hr. destruct Hr as (-> & Hnone & Ha & Hrange & Hdir & Hsup & Heff & ->).
  intros d sup1 a1 Hsup1 Ha1. simpl in *.
  apply lookup_insert_Some in Hsup1 as [[<- <-]|[_ Hsup1]]; [|eauto].
  assert (a1 = a) as -> by congruence. destruct (Hl _ _ _ Hsup Ha) as [Hlim Htl].
  destruct Heff as [(-> & -> & -> & Habs & Hlim' & Htl')|(-> & Hsend & -> & Habs & Hlim' & _)];
    simpl; [|done]. split; [lia|]. intros E. specialize (Htl' E). lia.
Qed.

(** ** Claim and refund *)

(** A swap that is found satisfies [swap_ok]; its amount is one coin. *)
Lemma swap_one_coin s id sw coin rest :
  store_ok s -> AtomicSwaps s !! id = Some sw -> swAmount sw = coin :: rest ->
  GetSwapID sw = id /\ swAmount sw = [coin] /\ 0 < Amount coin.
Proof.
  intros Hs Hsw Hamt. destruct (st_swaps _ Hs _ _ Hsw) as [Hid (c & Hc & Hpos) _ _ _].
  rewrite Hc in Hamt. injection Hamt as <- <-. done.
Qed.

Lemma closed_swap_ok ctx id sw : swap_ok id sw -> swap_ok id (closed_swap ctx sw).
Proof. intros [Hid Hc Hh Hst Hdir]. by split. Qed.

Lemma claim_store_ok ctx from id rn s s' :
  store_ok s -> ClaimAtomicSwap ctx from id rn s = Ok s' -> store_ok s'.
Proof.
  intros Hst Hr.
  apply ClaimAtomicSwap_Ok in Hr as (sw & coin & rest & sup & sup' & b' & Hsw & Hopen & _ & Hamt & _ & _ & ->).
  pose proof (st_swaps _ Hst _ _ Hsw) as Hok. pose proof (sok_id _ _ Hok) as Hid.
  destruct Hst as [Hs Hb Hl].
  split; simpl; change (GetSwapID (closed_swap ctx sw)) with (GetSwapID sw); rewrite Hid.
  - intros id' sw' [[<- <-]|[_ ?]]%lookup_insert_Some; [by apply closed_swap_ok|auto].
  - apply (index_leave _ swExpireHeight _ _ Hb); done.
  - apply (index_insert _ deletionHeight _ _ Hl); [|done]. intros sw0. rewrite Hsw.
    intros [= <-]. by rewrite Hopen.
Qed.

Lemma refund_store_ok ctx from id s s' :
  store_ok s -> RefundAtomicSwap ctx from id s = Ok s' -> store_ok s'.
Proof.
  intros Hst Hr.
  apply RefundAtomicSwap_Ok in Hr as (sw & coin & rest & sup & sup' & b' & Hsw & Hexp & Hamt & _ & _ & ->).
  pose proof (st_swaps _ Hst _ _ Hsw) as Hok. pose proof (sok_id _ _ Hok) as Hid.
  destruct Hst as [Hs Hb Hl].
  assert (forall st sw0, st <> SWAP_STATUS_EXPIRED -> AtomicSwaps s !! id = Some sw0 -> swStatus sw0 <> st)
    as Hne by (intros st sw0 Hst; rewrite Hsw; intros [= <-]; congruence).
  split; simpl; change (GetSwapID (closed_swap ctx sw)) with (GetSwapID sw); rewrite Hid.
  - intros id' sw' [[<- <-]|[_ ?]]%lookup_insert_Some; [by apply closed_swap_ok|auto].
  - apply (index_untouched _ _ _ _ Hb); [|done]. intros. by eapply Hne.
  - apply (index_insert _ deletionHeight _ _ Hl); [|done]. intros. by eapply Hne.
Qed.

Lemma weight_closed ctx dir d sw : weight dir d (closed_swap ctx sw) = 0.
Proof. unfold weight, closed_swap; simpl. unfold pending. by rewrite andb_false_r. Qed.

Lemma time_limited_after_fields a coin sup :
  IncomingSupply (time_limited_after a coin sup) = IncomingSupply sup
  /\ OutgoingSupply (time_limited_after a coin sup) = OutgoingSupply sup
  /\ CurrentSupply (time_limited_after a coin sup) = CurrentSupply sup
  /\ TimeLimitedCurrentSupply (time_limited_after a coin sup)
     = if TimeLimited (apSupplyLimit a) then add_amount (TimeLimitedCurrentSupply sup) (Amount coin)
       else TimeLimitedCurrentSupply sup.
Proof. unfold time_limited_after. by destruct (TimeLimited _). Qed.

Lemma claim_coins_ok ps sw coin sup sup' (b b' : B) :
  coins_ok (Denom coin) sup -> 0 < Amount coin -> claim_effect ps sw coin sup sup' b b' ->
  coins_ok (Denom coin) sup'.
Proof.
  intros [Hcin Hcout Hccur Hctl] Hpos
    [(_ & a & b1 & _ & -> & Hle & Habs & _ & Htl & _)|(_ & -> & Hle & Hle2 & _)].
  - destruct (time_limited_after_fields a coin (set_IncomingSupply
      (add_amount (IncomingSupply sup) (- Amount coin)) sup)) as (Ei & Eo & Ec & Et).
    split; simpl; rewrite ?Ei, ?Eo, ?Et; simpl; try lia; try naive_solver lia.
    destruct (TimeLimited _); simpl; [specialize (Htl eq_refl)|]; naive_solver lia.
  - split; simpl; naive_solver lia.
Qed.

Lemma claim_supply_ok ctx from id rn s s' :
  store_ok s -> supply_ok s -> ClaimAtomicSwap ctx from id rn s = Ok s' -> supply_ok s'.
Proof.
  intros Hst Hs Hr.
  apply ClaimAtomicSwap_Ok in Hr as (sw & coin & rest & sup & sup' & b' & Hsw & Hopen & _ & Hamt & Hsup & Heff & ->).
  destruct (swap_one_coin _ _ _ _ _ Hst Hsw Hamt) as (Hid & Hone & Hpos).
  pose proof (su_coins _ _ Hs _ _ Hsup) as Hc.
  pose proof (su_avail _ _ Hs (Denom coin)) as Hav. rewrite !(supply_amount_lookup _ _ _ _ Hsup) in Hav.
  pose proof (claim_coins_ok _ _ _ _ _ _ _ Hc Hpos Heff) as Hc'.
  unfold supply_ok; simpl. change (GetSwapID (closed_swap ctx sw)) with (GetSwapID sw). rewrite Hid.
  destruct Heff as [(Hd & a & b1 & _ & -> & Hle & _)|(Hd & -> & Hle & Hle2 & _)];
    (eapply sums_update; [done|done|done| | |]); rewrite ?Hsw; simpl;
    rewrite ?(proj1 (time_limited_after_fields _ _ _)),
            ?(proj1 (proj2 (time_limited_after_fields _ _ _))); simpl; try lia;
    intros d'; unfold weight_change; simpl; rewrite weight_closed, (weight_one _ _ sw coin Hone), Hd, Hopen;
    simpl; case_bool_decide; lia.
Qed.

Lemma refund_supply_ok ctx from id s s' :
  store_ok s -> supply_ok s -> RefundAtomicSwap ctx from id s = Ok s' -> supply_ok s'.
Proof.
  intros Hst Hs Hr.
  apply RefundAtomicSwap_Ok in Hr as (sw & coin & rest & sup & sup' & b' & Hsw & Hexp & Hamt & Hsup & Heff & ->).
  destruct (swap_one_coin _ _ _ _ _ Hst Hsw Hamt) as (Hid & Hone & Hpos).
  pose proof (su_coins _ _ Hs _ _ Hsup) as [Hcin Hcout Hccur Hctl].
  pose proof (su_avail _ _ Hs (Denom coin)) as Hav. rewrite !(supply_amount_lookup _ _ _ _ Hsup) in Hav.
  unfold supply_ok; simpl. change (GetSwapID (closed_swap ctx sw)) with (GetSwapID sw). rewrite Hid.
  destruct Heff as [(Hd & -> & -> & Hle)|(Hd & -> & Hle & _)];
    (eapply sums_update; [done|done| | | |]); rewrite ?Hsw; simpl;
    try (split; simpl; naive_solver lia); try lia;
    intros d'; unfold weight_change; simpl; rewrite weight_closed, (weight_one _ _ sw coin Hone), Hd, Hexp;
    simpl; case_bool_decide; lia.
Qed.

Lemma claim_limits_ok ctx from id rn s s' :
  store_ok s -> limits_ok s -> ClaimAtomicSwap ctx from id rn s = Ok s' -> limits_ok s'.
Proof.
  intros Hst Hl Hr.
  apply ClaimAtomicSwap_Ok in Hr as (sw & coin & rest & sup & sup' & b' & Hsw & Hopen & _ & Hamt & Hsup & Heff & ->).
  destruct (swap_one_coin _ _ _ _ _ Hst Hsw Hamt) as (_ & _ & Hpos).
  intros d sup1 a1 Hsup1 Ha1. simpl in *.
  apply lookup_insert_Some in Hsup1 as [[<- <-]|[_ Hsup1]]; [|eauto].
  destruct (Hl _ _ _ Hsup Ha1) as [Hlim Htl].
  destruct Heff as [(Hd & a & b1 & Ha & -> & Hle & _)|(Hd & -> & Hle & Hle2 & _)]; simpl.
  - assert (a1 = a) as -> by congruence.
    destruct (time_limited_after_fields a coin (set_IncomingSupply
      (add_amount (IncomingSupply sup) (- Amount coin)) sup)) as (Ei & Eo & Ec & Et).
    rewrite Ei, Et. simpl. split; [lia|]. intros E. rewrite E. simpl. specialize (Htl E). lia.
  - split; [lia|done].
Qed.

Lemma refund_limits_ok ctx from id s s' :
  store_ok s -> limits_ok s -> RefundAtomicSwap ctx from id s = Ok s' -> limits_ok s'.
Proof.
  intros Hst Hl Hr.
  apply RefundAtomicSwap_Ok in Hr as (sw & coin & rest & sup & sup' & b' & Hsw & Hexp & Hamt & Hsup & Heff & ->).
  destruct (swap_one_coin _ _ _ _ _ Hst Hsw Hamt) as (_ & _ & Hpos).
  intros d sup1 a1 Hsup1 Ha1. simpl in *.
  apply lookup_insert_Some in Hsup1 as [[<- <-]|[_ Hsup1]]; [|eauto].
  destruct (Hl _ _ _ Hsup Ha1) as [Hlim Htl].
  destruct Heff as [(Hd & -> & -> & Hle)|(Hd & -> & Hle & _)]; simpl; split; try lia.
  - intros E. specialize (Htl E). lia.
  - done.
Qed.

(** ** Escrow: the outgoing coins are in the module account *)
Section Escrow.
  Context {laws : BankLaws B}.

Lemma create_escrow_ok ctx rnh ts span sender recipient soc roc amount cc s s' :
  GetModuleAddress ModuleName <> Some sender -> escrow_ok s ->
  CreateAtomicSwap Maccs ctx rnh ts span sender recipient soc roc amount cc s = Ok s' ->
  escrow_ok s'.
Proof.
  intros Hsender He Hr.
  apply CreateAtomicSwap_Ok in Hr as (coin & a & dir & sup & sup' & b' & acc' & Hr).
  cbn zeta in Hr. destruct Hr as (-> & Hnone & Ha & Hrange & Hdir & Hsup & Heff & ->).
  intros x d Hx. specialize (He x d Hx). simpl. rewrite supply_amount_insert.
  destruct Heff as [(-> & -> & -> & _)|(-> & Hsend & -> & _)]; simpl.
  - case_bool_decide; [subst|done]. by rewrite (supply_amount_lookup _ _ _ _ Hsup) in He.
  - apply send_to_module in Hsend as (y & Hy & Hmv & _). rewrite Hx in Hy. injection Hy as <-.
    rewrite Hmv. unfold credit. rewrite (bool_decide_eq_false_2 (sender = x)) by congruence.
    rewrite (bool_decide_eq_true_2 (x = x)) by done. destruct coin as [dc ac].
    rewrite AmountOf_singleton. simpl in *. case_bool_decide; [subst|lia].
    rewrite (supply_amount_lookup _ _ _ _ Hsup) in He. lia.
Qed.

Lemma claim_escrow_ok ctx from id rn s s' :
  store_ok s -> escrow_ok s -> ClaimAtomicSwap ctx from id rn s = Ok s' -> escrow_ok s'.
Proof.
  intros Hst He Hr.
  apply ClaimAtomicSwap_Ok in Hr as (sw & coin & rest & sup & sup' & b' & Hsw & Hopen & _ & Hamt & Hsup & Heff & ->).
  destruct (swap_one_coin _ _ _ _ _ Hst Hsw Hamt) as (_ & Hone & Hpos). destruct coin as [dc ac].
  intros x d Hx. specialize (He x d Hx). simpl in *. rewrite supply_amount_insert.
  destruct Heff as [(Hd & a & b1 & Ha & -> & _ & _ & _ & _ & Hmint & Hsend)|(Hd & -> & Hle & Hle2 & Hburn)]; simpl.
  - apply mint_effect in Hmint as (y & Hy & Hbal & _). rewrite Hx in Hy. injection Hy as <-.
    apply send_from_module in Hsend as (y & Hy & Hmv & _). rewrite Hx in Hy. injection Hy as <-.
    rewrite Hmv, Hbal, Hone. unfold credit. rewrite (bool_decide_eq_true_2 (x = x)) by done.
    rewrite AmountOf_singleton, (proj1 (proj2 (time_limited_after_fields _ _ _))). simpl.
    destruct (decide (dc = d)) as [->|Hdc].
    + rewrite (supply_amount_lookup _ _ _ _ Hsup) in He. repeat case_bool_decide; done || lia.
    + rewrite !(bool_decide_eq_false_2 (dc = d)) by done. case_bool_decide; lia.
  - apply burn_effect in Hburn as (y & Hy & Hbal & _). rewrite Hx in Hy. injection Hy as <-.
    rewrite Hbal, Hone. unfold credit. rewrite (bool_decide_eq_true_2 (x = x)) by done.
    rewrite AmountOf_singleton. case_bool_decide as Hdc; [subst dc|lia].
    rewrite (supply_amount_lookup _ _ _ _ Hsup) in *. simpl in *. lia.
Qed.

Lemma refund_escrow_ok ctx from id s s' :
  store_ok s -> escrow_ok s -> RefundAtomicSwap ctx from id s = Ok s' -> escrow_ok s'.
Proof.
  intros Hst He Hr.
  apply RefundAtomicSwap_Ok in Hr as (sw & coin & rest & sup & sup' & b' & Hsw & Hexp & Hamt & Hsup & Heff & ->).
  destruct (swap_one_coin _ _ _ _ _ Hst Hsw Hamt) as (_ & Hone & Hpos). destruct coin as [dc ac].
  intros x d Hx. specialize (He x d Hx). simpl in *. rewrite supply_amount_insert.
  destruct Heff as [(Hd & -> & -> & Hle)|(Hd & -> & Hle & Hsend)]; simpl.
  - case_bool_decide; [subst|done]. by rewrite (supply_amount_lookup _ _ _ _ Hsup) in He.
  - apply send_from_module in Hsend as (y & Hy & Hmv & _). rewrite Hx in Hy. injection Hy as <-.
    rewrite Hmv, Hone. unfold credit. rewrite (bool_decide_eq_true_2 (x = x)) by done.
    rewrite AmountOf_singleton. simpl in *.
    destruct (decide (dc = d)) as [->|Hdc].
    + rewrite (supply_amount_lookup _ _ _ _ Hsup) in He. repeat case_bool_decide; done || lia.
    + rewrite !(bool_decide_eq_false_2 (dc = d)) by done. case_bool_decide; lia.
Qed.
End Escrow.

(** ** BeginBlocker: expiry and deletion

    One call of the callbacks, then the whole iteration. *)
Definition is_pending s (id : bytes) : Prop :=
  forall sw, AtomicSwaps s !! id = Some sw -> pending (swStatus sw) = true.

Lemma expire_swap_fields id s :
  store_ok s ->
  AtomicSwaps (expire_swap id s) = alter (set_status SWAP_STATUS_EXPIRED) id (AtomicSwaps s)
  /\ AtomicSwapLongtermStorage (expire_swap id s) = AtomicSwapLongtermStorage s
  /\ AssetSupplies (expire_swap id s) = AssetSupplies s
  /\ PreviousBlockTime (expire_swap id s) = PreviousBlockTime s
  /\ params (expire_swap id s) = params s /\ bank (expire_swap id s) = bank s
  /\ accounts (expire_swap id s) = accounts s.
Proof.
  intros Hst. unfold expire_swap, GetAtomicSwap. destruct (AtomicSwaps s !! id) as [sw|] eqn:Hsw; simpl.
  - pose proof (sok_id _ _ (st_swaps _ Hst _ _ Hsw)) as Hid.
    change (GetSwapID (set_status SWAP_STATUS_EXPIRED sw)) with (GetSwapID sw). rewrite Hid.
    split_and!; try done. apply map_eq. intros i. rewrite lookup_alter, lookup_insert.
    case_decide; [|done]. subst. by rewrite Hsw.
  - split_and!; try done. apply map_eq. intros i. rewrite lookup_alter.
    case_decide; [|done]. subst. by rewrite Hsw.
Qed.

(** What the callbacks do not touch. *)
Definition frame s s' : Prop :=
  AssetSupplies s' = AssetSupplies s /\ PreviousBlockTime s' = PreviousBlockTime s
  /\ params s' = params s /\ bank s' = bank s /\ accounts s' = accounts s.

Lemma expire_store_ok id s : store_ok s -> is_pending s id -> store_ok (expire_swap id s).
Proof.
  intros Hst Hpend. unfold expire_swap, GetAtomicSwap.
  destruct (AtomicSwaps s !! id) as [sw|] eqn:Hsw; [|done].
  pose proof (st_swaps _ Hst _ _ Hsw) as Hok. pose proof (sok_id _ _ Hok) as Hid.
  specialize (Hpend _ Hsw). destruct Hst as [Hs Hb Hl].
  split; simpl; change (GetSwapID (set_status SWAP_STATUS_EXPIRED sw)) with (GetSwapID sw); rewrite Hid.
  - intros id' sw' [[<- <-]|[_ ?]]%lookup_insert_Some; [|auto]. destruct Hok. by split.
  - unfold pending in Hpend. gobool. destruct Hpend as [Hopen|Hexp].
    + by apply (index_leave _ swExpireHeight _ _ Hb).
    + rewrite delete_id.
      * apply (index_untouched _ _ _ _ Hb); [|done]. intros sw0. rewrite Hsw. intros [= <-]. congruence.
      * destruct (AtomicSwapByBlock s !! _) as [id'|] eqn:HI; [|done].
        pose proof HI as HI2. apply Hb in HI as (sw0 & Hsw0 & Hst0 & E).
        apply height_key_inj in E as <-. rewrite Hsw in Hsw0. congruence.
  - apply (index_untouched _ _ _ _ Hl); [|done]. intros sw0. rewrite Hsw. intros [= <-].
    unfold pending in Hpend. gobool. destruct Hpend; congruence.
Qed.

Lemma expire_fold (l : list (bytes * bytes)) s :
  store_ok s -> (forall id, id ∈ l.*2 -> is_pending s id) ->
  let s' := foldl (fun s kv => expire_swap kv.2 s) s l in
  store_ok s' /\ frame s s'
  /\ AtomicSwapLongtermStorage s' = AtomicSwapLongtermStorage s
  /\ forall i, AtomicSwaps s' !! i =
       if bool_decide (i ∈ l.*2) then set_status SWAP_STATUS_EXPIRED <$> AtomicSwaps s !! i
       else AtomicSwaps s !! i.
Proof.
  revert s; induction l as [|[k id] l IH]; intros s Hst Hpend; simpl.
  { split_and!; done. }
  destruct (expire_swap_fields id s Hst) as (Hsw & Hlt & Hsup & Hpbt & Hpar & Hbank & Hacc).
  destruct (IH (expire_swap id s)) as (Hst' & (F1 & F2 & F3 & F4 & F5) & Hlt' & Hsw').
  { apply expire_store_ok; [done|]. apply Hpend. left. }
  { intros id' Hid' sw. rewrite Hsw. rewrite lookup_alter_Some.
    intros [(-> & sw0 & _ & ->)|(_ & H0)]; [done|]. apply (Hpend id'); [by right|done]. }
  split_and!; [done|unfold frame; split_and!; congruence|congruence|].
  intros i. rewrite Hsw', Hsw, lookup_alter, bool_decide_cons.
  destruct (decide (id = i)) as [->|Hne].
  - rewrite (bool_decide_eq_true_2 (i = i)) by done. simpl.
    case_bool_decide; [|done]. by destruct (AtomicSwaps s !! i).
  - by rewrite (bool_decide_eq_false_2 (id = i)).
Qed.

Lemma UpdateExpired_spec ctx s :
  store_ok s -> is_i64 (BlockHeight ctx) ->
  let s' := UpdateExpiredAtomicSwaps ctx s in
  store_ok s' /\ frame s s'
  /\ AtomicSwapLongtermStorage s' = AtomicSwapLongtermStorage s
  /\ forall i, AtomicSwaps s' !! i =
       (fun sw => if bool_decide (swStatus sw = SWAP_STATUS_OPEN)
                     && (swExpireHeight sw <=? u64 (BlockHeight ctx))
                  then set_status SWAP_STATUS_EXPIRED sw else sw) <$> AtomicSwaps s !! i.
Proof.
  intros Hst Hh s'. unfold s', UpdateExpiredAtomicSwaps, IterateAtomicSwapsByBlock.
  set (l := iterator _ _).
  assert (Hl : forall id, id ∈ l.*2 <-> exists sw, AtomicSwaps s !! id = Some sw
    /\ swStatus sw = SWAP_STATUS_OPEN /\ swExpireHeight sw <= u64 (BlockHeight ctx)).
  { intros id. rewrite list_elem_of_fmap. split.
    - intros ([k id'] & -> & Hin). apply elem_of_iterator in Hin as [Hin Hbelow].
      apply (st_byblock _ Hst) in Hin as (sw & Hsw & Hopen & ->). exists sw. split_and!; try done.
      unfold GetAtomicSwapByHeightKey in Hbelow. rewrite below_height_cutoff in Hbelow.
      + by gobool.
      + apply u64_range.
      + apply (st_swaps _ Hst _ _ Hsw).
    - intros (sw & Hsw & Hopen & Hle). exists (GetAtomicSwapByHeightKey (swExpireHeight sw) id, id).
      split; [done|]. apply elem_of_iterator. split; [apply (st_byblock _ Hst); eauto|].
      unfold GetAtomicSwapByHeightKey. rewrite below_height_cutoff; [by gobool|apply u64_range|].
      apply (st_swaps _ Hst _ _ Hsw). }
  destruct (expire_fold l s Hst) as (Hst' & Hf & Hlt & Hsw').
  { intros id (sw & Hsw & Hopen & _)%Hl sw'. rewrite Hsw. intros [= <-]. by rewrite Hopen. }
  split_and!; [done|done|done|]. intros i. rewrite Hsw'.
  destruct (AtomicSwaps s !! i) as [sw|] eqn:Hsw; simpl; [|by case_bool_decide].
  case_bool_decide as Hin.
  - apply Hl in Hin as (sw0 & H0 & Hopen & Hle). rewrite Hsw in H0. injection H0 as <-.
    rewrite bool_decide_eq_true_2 by done. simpl. by rewrite (proj2 (Z.leb_le _ _)).
  - destruct (bool_decide _ && _) eqn:E; [|done]. exfalso. gobool. destruct E as [Ho Hle].
    apply Hin, Hl. by exists sw.
Qed.

(** Deletion from longterm storage. *)
Definition is_completed s (id : bytes) : Prop :=
  forall sw, AtomicSwaps s !! id = Some sw -> swStatus sw = SWAP_STATUS_COMPLETED.

Lemma delete_swap_fields id s :
  store_ok s ->
  AtomicSwaps (delete_swap id s) = delete id (AtomicSwaps s)
  /\ AtomicSwapByBlock (delete_swap id s) = AtomicSwapByBlock s /\ frame s (delete_swap id s).
Proof.
  intros Hst. unfold delete_swap, GetAtomicSwap. destruct (AtomicSwaps s !! id) as [sw|] eqn:Hsw; simpl.
  - pose proof (sok_id _ _ (st_swaps _ Hst _ _ Hsw)) as Hid. by rewrite Hid.
  - split_and!; [by rewrite delete_id|done|done].
Qed.

Lemma delete_store_ok id s : store_ok s -> is_completed s id -> store_ok (delete_swap id s).
Proof.
  intros Hst Hcomp. unfold delete_swap, GetAtomicSwap.
  destruct (AtomicSwaps s !! id) as [sw|] eqn:Hsw; [|done].
  pose proof (sok_id _ _ (st_swaps _ Hst _ _ Hsw)) as Hid.
  specialize (Hcomp _ Hsw). destruct Hst as [Hs Hb Hl].
  split; simpl; rewrite Hid.
  - intros id' sw' [_ ?]%lookup_delete_Some. auto.
  - apply (index_delete_other _ _ _ _ Hb). intros sw0. rewrite Hsw. intros [= <-]. congruence.
  - by apply (index_delete_at _ deletionHeight _ _ Hl).
Qed.

Lemma delete_fold (l : list (bytes * bytes)) s :
  store_ok s -> (forall id, id ∈ l.*2 -> is_completed s id) ->
  let s' := foldl (fun s kv => delete_swap kv.2 s) s l in
  store_ok s' /\ frame s s' /\ AtomicSwapByBlock s' = AtomicSwapByBlock s
  /\ forall i, AtomicSwaps s' !! i = if bool_decide (i ∈ l.*2) then None else AtomicSwaps s !! i.
Proof.
  revert s; induction l as [|[k id] l IH]; intros s Hst Hcomp; simpl; [done|].
  destruct (delete_swap_fields id s Hst) as (Hsw & Hbb & (G1 & G2 & G3 & G4 & G5)).
  destruct (IH (delete_swap id s)) as (Hst' & (F1 & F2 & F3 & F4 & F5) & Hbb' & Hsw').
  { apply delete_store_ok; [done|]. apply Hcomp. left. }
  { intros id' Hid' sw. rewrite Hsw. intros [_ Hlk]%lookup_delete_Some.
    by apply (Hcomp id'); [right|]. }
  split_and!; [done|unfold frame; split_and!; congruence|congruence|].
  intros i. rewrite Hsw', Hsw, lookup_delete, bool_decide_cons.
  destruct (decide (id = i)) as [->|Hne].
  - rewrite (bool_decide_eq_true_2 (i = i)) by done. simpl. by case_bool_decide.
  - by rewrite (bool_decide_eq_false_2 (id = i)).
Qed.

Lemma DeleteClosed_spec ctx s :
  store_ok s ->
  let s' := DeleteClosedAtomicSwapsFromLongtermStorage ctx s in
  store_ok s' /\ frame s s' /\ AtomicSwapByBlock s' = AtomicSwapByBlock s
  /\ forall i, AtomicSwaps s' !! i =
       (sw ← AtomicSwaps s !! i;
        if bool_decide (swStatus sw = SWAP_STATUS_COMPLETED)
           && (deletionHeight sw <=? u64 (BlockHeight ctx))
        then None else Some sw).
Proof.
  intros Hst s'. unfold s', DeleteClosedAtomicSwapsFromLongtermStorage, IterateAtomicSwapsLongtermStorage.
  set (l := iterator _ _).
  assert (Hl : forall id, id ∈ l.*2 <-> exists sw, AtomicSwaps s !! id = Some sw
    /\ swStatus sw = SWAP_STATUS_COMPLETED /\ deletionHeight sw <= u64 (BlockHeight ctx)).
  { intros id. rewrite list_elem_of_fmap. split.
    - intros ([k id'] & -> & Hin). apply elem_of_iterator in Hin as [Hin Hbelow].
      apply (st_longterm _ Hst) in Hin as (sw & Hsw & Hopen & ->). exists sw. split_and!; try done.
      unfold GetAtomicSwapByHeightKey in Hbelow.
      rewrite below_height_cutoff in Hbelow by apply u64_range. by gobool.
    - intros (sw & Hsw & Hopen & Hle). exists (GetAtomicSwapByHeightKey (deletionHeight sw) id, id).
      split; [done|]. apply elem_of_iterator. split; [apply (st_longterm _ Hst); eauto|].
      unfold GetAtomicSwapByHeightKey. rewrite below_height_cutoff by apply u64_range. by gobool. }
  destruct (delete_fold l s Hst) as (Hst' & Hf & Hbb & Hsw').
  { intros id (sw & Hsw & Hopen & _)%Hl sw'. rewrite Hsw. intros [= <-]. done. }
  split_and!; [done|done|done|]. intros i. rewrite Hsw'.
  destruct (AtomicSwaps s !! i) as [sw|] eqn:Hsw; simpl; [|by case_bool_decide].
  case_bool_decide as Hin.
  - apply Hl in Hin as (sw0 & Hsw0 & Hopen & Hle). rewrite Hsw in Hsw0. injection Hsw0 as <-.
    rewrite bool_decide_eq_true_2 by done. simpl. by rewrite (proj2 (Z.leb_le _ _)).
  - destruct (bool_decide _ && _) eqn:E; [|done]. exfalso. gobool. destruct E as [Ho Hle].
    apply Hin, Hl. by exists sw.
Qed.

(** ** BeginBlocker: time-based limits *)
Definition zero_supply (d : string) : AssetSupply :=
  NewAssetSupply (mkCoin d 0) (mkCoin d 0) (mkCoin d 0) (mkCoin d 0) 0.

Lemma updateTimeBasedSupply_spec elapsed asset s :
  ValidateDenom (apDenom asset) = true ->
  let d := apDenom asset in
  let sup := default (zero_supply d) (AssetSupplies s !! d) in
  exists sup', updateTimeBasedSupply elapsed asset s = Ok (SetAssetSupply sup' d s)
    /\ IncomingSupply sup' = IncomingSupply sup /\ OutgoingSupply sup' = OutgoingSupply sup
    /\ CurrentSupply sup' = CurrentSupply sup
    /\ (TimeLimitedCurrentSupply sup' = TimeLimitedCurrentSupply sup
        \/ TimeLimitedCurrentSupply sup' = mkCoin d 0).
Proof.
  intros Hd d sup. assert (NewCoin d 0 = Ok (mkCoin d 0)) as Hz
    by (by apply NewCoin_total).
  assert (exists s1, match GetAssetSupply s d with Some sup0 => Ok (sup0, s)
      | None => CreateNewAssetSupply d s end = Ok (sup, s1)
      /\ forall sup', SetAssetSupply sup' d s1 = SetAssetSupply sup' d s) as (s1 & E & Hs1).
  { unfold GetAssetSupply, CreateNewAssetSupply, sup. destruct (AssetSupplies s !! d); simpl; [eauto|].
    rewrite Hz. simpl. eexists. split; [done|]. intros. apply SetAssetSupply_twice. }
  unfold updateTimeBasedSupply. fold d. rewrite E. simpl. rewrite Hz. simpl.
  destruct (TimeLimited _ && _); simpl; rewrite Hs1; (eexists; split; [reflexivity|]); simpl; split_and!; auto.
Qed.

Lemma supply_amount_refresh (f : AssetSupply -> Coin) u d sup' :
  Amount (f (zero_supply d)) = 0 -> f sup' = f (default (zero_supply d) (u !! d)) ->
  forall d', supply_amount f (<[d := sup']> u) d' = supply_amount f u d'.
Proof.
  intros Hz E d'. rewrite supply_amount_insert. case_bool_decide; [subst d'|done].
  rewrite E. unfold supply_amount. by destruct (u !! d).
Qed.

(** The part of the state the loop keeps, with the invariants it preserves. *)
Definition time_inv s0 s : Prop :=
  AtomicSwaps s = AtomicSwaps s0 /\ AtomicSwapByBlock s = AtomicSwapByBlock s0
  /\ AtomicSwapLongtermStorage s = AtomicSwapLongtermStorage s0
  /\ params s = params s0 /\ bank s = bank s0 /\ accounts s = accounts s0
  /\ (forall d, supply_amount IncomingSupply (AssetSupplies s) d = supply_amount IncomingSupply (AssetSupplies s0) d)
  /\ (forall d, supply_amount OutgoingSupply (AssetSupplies s) d = supply_amount OutgoingSupply (AssetSupplies s0) d)
  /\ (forall d, supply_amount CurrentSupply (AssetSupplies s) d = supply_amount CurrentSupply (AssetSupplies s0) d)
  /\ ((forall d sup, AssetSupplies s0 !! d = Some sup -> coins_ok d sup) ->
      (forall d sup, AssetSupplies s !! d = Some sup -> coins_ok d sup)
      /\ (params_ok s0 -> limits_ok s0 -> limits_ok s)).

Lemma time_inv_refl s : time_inv s s.
Proof. unfold time_inv. split_and!; done. Qed.

Lemma time_inv_step elapsed asset s0 s :
  ValidateDenom (apDenom asset) = true -> asset ∈ AssetParams (params s0) -> time_inv s0 s ->
  exists s', updateTimeBasedSupply elapsed asset s = Ok s' /\ time_inv s0 s'.
Proof.
  intros Hd Hin (E1 & E2 & E3 & E4 & E5 & E6 & Hi & Ho & Hc & Hk).
  destruct (updateTimeBasedSupply_spec elapsed asset s Hd) as (sup' & -> & Ei & Eo & Ec & Et).
  eexists; split; [done|]. unfold time_inv; simpl.
  split_and!; try done; try (intros d; rewrite (supply_amount_refresh _ _ _ sup'); done).
  intros Hc0. destruct (Hk Hc0) as [Hcs Hls].
  assert (Hsup' : coins_ok (apDenom asset) sup').
  { destruct (AssetSupplies s !! apDenom asset) as [sup|] eqn:Hsup; simpl in *.
    - destruct (Hcs _ _ Hsup) as [? ? ? ?]. split; rewrite ?Ei, ?Eo, ?Ec; try done.
      destruct Et as [-> | ->]; [done|split; [done|simpl; lia]].
    - destruct Et as [Et | Et]; split; rewrite ?Ei, ?Eo, ?Ec, ?Et; (split; [done|simpl; lia]). }
  split; [intros d sup [[<- <-]|[_ ?]]%lookup_insert_Some; auto|].
  intros Hp Hl. intros d sup a Hlk Ha. simpl in *.
  apply lookup_insert_Some in Hlk as [[<- <-]|[_ Hlk]]; [|by eapply (Hls Hp Hl)].
  rewrite E4 in Ha. pose proof (find_asset_elem _ _ Hp Hin) as Ha'. rewrite Ha in Ha'. injection Ha' as ->.
  destruct (find_asset_ok _ _ _ Hp Ha) as [Hok _]. pose proof (ok_limit _ Hok).
  destruct (AssetSupplies s !! apDenom asset) as [sup|] eqn:Hsup; simpl in *.
  - destruct (Hls Hp Hl _ _ asset Hsup) as [Hlim Htl]; [by rewrite E4|].
    destruct (cok_tl _ _ (Hcs _ _ Hsup)). rewrite Ei, Ec. split; [done|]. intros E. specialize (Htl E).
    destruct Et as [-> | ->]; simpl; lia.
  - rewrite Ei, Ec. simpl. split; [lia|]. intros E. destruct Et as [-> | ->]; simpl; lia.
Qed.

Lemma UpdateTimeBased_total ctx s :
  params_ok s -> exists s', UpdateTimeBasedSupplyLimits ctx s = Ok s' /\ time_inv s s'.
Proof.
  intros Hp. unfold UpdateTimeBasedSupplyLimits, GetAssets.
  case_bool_decide; simpl; [|eexists; split; [done|apply time_inv_refl]].
  assert (exists t s1, match GetPreviousBlockTime s with Some t => (t, s)
    | None => (BlockTime ctx, SetPreviousBlockTime (BlockTime ctx) s) end = (t, s1) /\ time_inv s s1)
    as (t & s1 & -> & H1).
  { unfold GetPreviousBlockTime. destruct (PreviousBlockTime s); eexists _, _; (split; [done|]);
      [apply time_inv_refl|unfold time_inv; simpl; split_and!; done]. }
  destruct (ofold_total (time_inv s) (updateTimeBasedSupply (time_Sub (BlockTime ctx) t))
    (AssetParams (params s)) s1) as (s2 & -> & H2); [|done|].
  - intros asset s2 Hin H2. apply time_inv_step; [|done|done].
    pose proof (find_asset_elem _ _ Hp Hin) as Ha. by apply (find_asset_ok _ _ _ Hp) in Ha as [[] _].
  - simpl. eexists; split; [done|]. exact H2.
Qed.
End Safety.
