(* ===== verification/Bep3Theorems.v ===== *)
(** * x/bep3: the correctness theorems

    Reachability of the module's states, the reference definition of what a
    block does to the swaps, and the theorems on the atomic-swap protocol:
    the invariants hold in every reachable state, a swap moves through its
    statuses only forward and is paid out at most once, an open incoming swap
    can be claimed with its secret, an expired swap can be refunded, and the
    begin blocker never halts the chain. *)

From S2P Require Import Prelude Sdk GoStd Bank Bep3Types Bep3Keeper Bep3Inv Bep3Safety.

Section Theorems.
  Context {cfg : SdkConfig} {sdk : SdkLaws} {gostr : GoStrings} {hash : TmHash} {B A : Type}
    {bk : BankKeeper B} {ak : AccountKeeper A} {laws : BankLaws B}.
  Context (Maccs : gmap string bool).
  Implicit Types s : State B A.

(** ** Steps of the module *)
Inductive op : Type :=
| OpCreate (randomNumberHash : bytes) (timestamp heightSpan : Z) (sender recipient : AccAddress)
    (senderOtherChain recipientOtherChain : string) (amount : Coins) (crossChain : bool)
| OpClaim (from : AccAddress) (swapID randomNumber : bytes)
| OpRefund (from : AccAddress) (swapID : bytes)
| OpBeginBlock.

Definition exec (ctx : Ctx) (o : op) s : outcome (State B A) :=
  match o with
  | OpCreate rnh ts span x y soc roc amt cc => CreateAtomicSwap Maccs ctx rnh ts span x y soc roc amt cc s
  | OpClaim from id rn => ClaimAtomicSwap ctx from id rn s
  | OpRefund from id => RefundAtomicSwap ctx from id s
  | OpBeginBlock => BeginBlocker ctx s
  end.

(** The module account has no key: it does not send create messages. *)
Definition signed_by_user (o : op) : Prop :=
  match o with
  | OpCreate _ _ _ x _ _ _ _ _ => GetModuleAddress ModuleName <> Some x
  | _ => True
  end.

(** A step is an operation of the module that succeeds, activity of other
    modules, which cannot take coins out of the bep3 module account, or a change
    of the parameters by governance: the parameter subspace takes any value that
    the registered validation accepts ([sdk.Int] has at most 256 bits). *)
Inductive step : State B A -> State B A -> Prop :=
| step_op ctx o s s' : is_i64 (BlockHeight ctx) -> signed_by_user o ->
    exec ctx o s = Ok s' -> step s s'
| step_env s b acc :
    (forall x d, GetModuleAddress ModuleName = Some x -> GetBalance (bank s) x d <= GetBalance b x d) ->
    step s (with_accounts acc (with_bank b s))
| step_params p s s' : Forall (fun a => Limit (apSupplyLimit a) < 2 ^ 256) (AssetParams p) ->
    SetParams p s = Ok s' -> step s s'.

(** A step that leaves the parameters as they are. *)
Definition quiet_step s s' : Prop := step s s' /\ params s' = params s.

(** What holds whatever parameters governance sets; the limits ([limits_ok]) hold
    only until a limit is lowered below the supply. *)
Record inv s : Prop := {
  inv_params : params_ok s;
  inv_store : store_ok s;
  inv_supply : supply_ok s;
  inv_escrow : escrow_ok s
}.

(** ** The begin blocker *)

(** What one block at height [h] does to a stored swap. *)
Definition block_view (h : Z) (sw : AtomicSwap) : option AtomicSwap :=
  if bool_decide (swStatus sw = SWAP_STATUS_OPEN) && (swExpireHeight sw <=? h)
  then Some (set_status SWAP_STATUS_EXPIRED sw)
  else if bool_decide (swStatus sw = SWAP_STATUS_COMPLETED) && (deletionHeight sw <=? h)
  then None else Some sw.

Lemma BeginBlocker_spec ctx s :
  params_ok s -> store_ok s -> is_i64 (BlockHeight ctx) ->
  exists s1 s', BeginBlocker ctx s = Ok s' /\ time_inv s s1 /\ frame s1 s' /\ store_ok s'
    /\ forall i, AtomicSwaps s' !! i = AtomicSwaps s !! i ≫= block_view (u64 (BlockHeight ctx)).
Proof.
  intros Hp Hst Hh. unfold BeginBlocker.
  destruct (UpdateTimeBased_total ctx s Hp) as (s1 & -> & Ht). simpl.
  assert (Hst1 : store_ok s1).
  { destruct Ht as (E1 & E2 & E3 & _), Hst. split; rewrite ?E1, ?E2, ?E3; done. }
  destruct (UpdateExpired_spec ctx s1 Hst1 Hh) as (Hst2 & F2 & _ & Hsw2).
  destruct (DeleteClosed_spec ctx _ Hst2) as (Hst3 & F3 & _ & Hsw3).
  eexists s1, _. split_and!; [done|done| |done|].
  - destruct F2 as (?&?&?&?&?), F3 as (?&?&?&?&?). unfold frame. split_and!; congruence.
  - intros i. rewrite Hsw3, Hsw2. destruct Ht as (-> & _).
    destruct (AtomicSwaps s !! i) as [sw|]; simpl; [|done]. unfold block_view.
    destruct (bool_decide (swStatus sw = SWAP_STATUS_OPEN) && _) eqn:E; simpl; done.
Qed.

(** A block changes no weight of a swap: expiry keeps it, only completed swaps
    are deleted. *)
Lemma block_pending_sum (h : Z) (dir : SwapDirection) (d : string) (m m' : gmap bytes AtomicSwap) :
  (forall i, m' !! i = m !! i ≫= block_view h) -> pending_sum dir d m' = pending_sum dir d m.
Proof.
  intros Hm. assert (m' = omap (block_view h) m) as ->
    by (apply map_eq; intros i; by rewrite lookup_omap).
  apply map_sum_omap. intros _ sw _. unfold block_view, weight.
  destruct (bool_decide (swStatus sw = SWAP_STATUS_OPEN)) eqn:Ho;
    [|destruct (bool_decide (swStatus sw = SWAP_STATUS_COMPLETED)) eqn:Hc]; simpl; gobool;
    [rewrite Ho| rewrite Hc|done]; destruct (_ <=? _); simpl; by rewrite ?andb_false_r, ?Ho, ?Hc, ?andb_false_r.
Qed.

Lemma BeginBlocker_inv ctx s s' :
  inv s -> is_i64 (BlockHeight ctx) -> BeginBlocker ctx s = Ok s' -> inv s' /\ (limits_ok s -> limits_ok s').
Proof.
  intros [Hp Hst Hsu He] Hh Hx.
  destruct (BeginBlocker_spec ctx s Hp Hst Hh) as (s1 & s2 & Hb & Ht & F & Hst' & Hv).
  rewrite Hx in Hb. injection Hb as <-.
  destruct Ht as (_ & _ & _ & E4 & E5 & _ & Ein & Eout & Ecur & Hk).
  destruct F as (F1 & _ & F3 & F4 & _). destruct (Hk (su_coins _ _ Hsu)) as [Hc Hl'].
  split; [split|].
  - unfold params_ok in *. by rewrite F3, E4.
  - done.
  - split; rewrite F1.
    + done.
    + intros d. rewrite Ein, (block_pending_sum _ _ _ _ _ Hv). apply Hsu.
    + intros d. rewrite Eout, (block_pending_sum _ _ _ _ _ Hv). apply Hsu.
    + intros d. rewrite Eout, Ecur. apply Hsu.
  - intros x d Hx'. rewrite F1, F4, Eout, E5. by apply He.
  - intros Hl. specialize (Hl' Hp Hl). unfold limits_ok in *. by rewrite F1, F3.
Qed.

Lemma create_inv ctx rnh ts span x y soc roc amt cc s s' :
  inv s -> GetModuleAddress ModuleName <> Some x ->
  CreateAtomicSwap Maccs ctx rnh ts span x y soc roc amt cc s = Ok s' -> inv s' /\ (limits_ok s -> limits_ok s').
Proof.
  intros [Hp Hst Hsu He] Hu Hx. split; [split|];
    eauto using create_store_ok, create_supply_ok, create_limits_ok, create_escrow_ok.
  apply CreateAtomicSwap_Ok in Hx as (? & ? & ? & ? & ? & ? & ? & Hx). cbn zeta in Hx.
  by destruct Hx as (_ & _ & _ & _ & _ & _ & _ & ->).
Qed.

Lemma claim_inv ctx from id rn s s' :
  inv s -> ClaimAtomicSwap ctx from id rn s = Ok s' -> inv s' /\ (limits_ok s -> limits_ok s').
Proof.
  intros [Hp Hst Hsu He] Hx. split; [split|];
    eauto using claim_store_ok, claim_supply_ok, claim_limits_ok, claim_escrow_ok.
  apply ClaimAtomicSwap_Ok in Hx as (? & ? & ? & ? & ? & ? & Hx).
  by destruct Hx as (_ & _ & _ & _ & _ & _ & ->).
Qed.

Lemma refund_inv ctx from id s s' :
  inv s -> RefundAtomicSwap ctx from id s = Ok s' -> inv s' /\ (limits_ok s -> limits_ok s').
Proof.
  intros [Hp Hst Hsu He] Hx. split; [split|];
    eauto using refund_store_ok, refund_supply_ok, refund_limits_ok, refund_escrow_ok.
  apply RefundAtomicSwap_Ok in Hx as (? & ? & ? & ? & ? & ? & Hx).
  by destruct Hx as (_ & _ & _ & _ & _ & ->).
Qed.

Lemma exec_inv ctx o s s' : is_i64 (BlockHeight ctx) -> signed_by_user o -> exec ctx o s = Ok s' ->
  inv s -> inv s' /\ (limits_ok s -> limits_ok s').
Proof. destruct o; simpl; eauto using create_inv, claim_inv, refund_inv, BeginBlocker_inv. Qed.

Lemma SetParams_Ok p s s' : SetParams p s = Ok s' -> Params_Validate p = Ok tt /\ params s' = p
  /\ AtomicSwaps s' = AtomicSwaps s /\ AtomicSwapByBlock s' = AtomicSwapByBlock s
  /\ AtomicSwapLongtermStorage s' = AtomicSwapLongtermStorage s /\ AssetSupplies s' = AssetSupplies s
  /\ bank s' = bank s.
Proof. unfold SetParams. destruct (Params_Validate p) as [[]| |]; [|done..]. by intros [= <-]. Qed.

Lemma step_inv s s' : step s s' -> inv s -> inv s'.
Proof.
  intros [ctx o s1 s2 Hh Hu Hx|s1 b acc Hb|p s1 s2 Hf Hx] Hi.
  - by apply (exec_inv _ _ _ _ Hh Hu Hx).
  - destruct Hi as [Hp Hst Hsu He].
    split; [done|destruct Hst; by split|done|intros x d Hx; simpl; etrans; [by apply He|by apply Hb]].
  - destruct Hi as [Hp [H1 H2 H3] Hsu He]. apply SetParams_Ok in Hx as (Hv & Ep & E1 & E2 & E3 & E4 & E5).
    split; [split; by rewrite Ep|split; rewrite ?E1, ?E2, ?E3; done|unfold supply_ok; by rewrite E1, E4|].
    intros x d. rewrite E4, E5. apply He.
Qed.

Lemma quiet_limits s s' : quiet_step s s' -> inv s -> limits_ok s -> limits_ok s'.
Proof.
  intros [[ctx o s1 s2 Hh Hu Hx|s1 b acc Hb|p s1 s2 Hf Hx] Ep] Hi Hl; [by apply (exec_inv _ _ _ _ Hh Hu Hx)|done|].
  apply SetParams_Ok in Hx as (_ & _ & _ & _ & _ & E & _). unfold limits_ok. by rewrite E, Ep.
Qed.
Lemma quiet_run_limits s s' : inv s -> limits_ok s -> rtc quiet_step s s' -> limits_ok s'.
Proof.
  intros Hi Hl Hr. induction Hr as [|s1 s2 s3 Hs _ IH]; [done|].
  apply IH; [by eapply step_inv; [apply Hs|]|by eapply quiet_limits].
Qed.

(** C1: every state reachable from one that satisfies the invariants, by any
    interleaving of create, claim, refund and begin-block operations with
    activity of other modules and with parameters set by governance, satisfies
    them: the indexes hold exactly the open and the completed swaps, the incoming
    and outgoing supplies equal the sums over the pending swaps, and outgoing
    supply is covered by the current supply and by coins in the module account.
    When the supplies are within their limits in such a state, they stay within
    them until the parameters are changed. *)
Theorem reachable_inv s s' : inv s -> rtc step s s' ->
  inv s' /\ forall s'', limits_ok s' -> rtc quiet_step s' s'' -> limits_ok s''.
Proof.
  intros Hi Hr. assert (inv s') as Hi' by (clear -Hi Hr laws sdk; induction Hr; eauto using step_inv).
  split; [done|]. intros s'' Hl. by apply quiet_run_limits.
Qed.

(** C3: in a state that satisfies the invariants the begin blocker never fails or
    panics; it moves no coins and changes the swaps exactly as [block_view] says:
    open swaps at or past their expiry height become expired, completed swaps at
    or past their deletion height are removed, all others stay as they are. *)
Theorem BeginBlocker_refines ctx s :
  inv s -> is_i64 (BlockHeight ctx) ->
  exists s', BeginBlocker ctx s = Ok s'
    /\ AtomicSwaps s' = omap (block_view (u64 (BlockHeight ctx))) (AtomicSwaps s)
    /\ bank s' = bank s.
Proof.
  intros [Hp Hst _ _] Hh.
  destruct (BeginBlocker_spec ctx s Hp Hst Hh) as (s1 & s' & Hb & Ht & F & _ & Hv).
  exists s'. split_and!; [done| |].
  - apply map_eq. intros i. by rewrite lookup_omap, Hv.
  - destruct Ht as (_ & _ & _ & _ & E5 & _), F as (_ & _ & _ & F4 & _). congruence.
Qed.

(** ** The life of a swap *)

(** What a swap may become in one step of the module. *)
Inductive evolves : option AtomicSwap -> option AtomicSwap -> Prop :=
| ev_same o : evolves o o
| ev_create sw : swStatus sw = SWAP_STATUS_OPEN -> evolves None (Some sw)
| ev_expire sw : swStatus sw = SWAP_STATUS_OPEN ->
    evolves (Some sw) (Some (set_status SWAP_STATUS_EXPIRED sw))
| ev_close ctx sw : pending (swStatus sw) = true -> evolves (Some sw) (Some (closed_swap ctx sw))
| ev_delete sw : swStatus sw = SWAP_STATUS_COMPLETED -> evolves (Some sw) None.

Lemma evolves_insert (m : gmap bytes AtomicSwap) id sw i :
  evolves (m !! id) (Some sw) -> evolves (m !! i) (<[id := sw]> m !! i).
Proof. intros He. rewrite lookup_insert. case_decide; [by subst|constructor]. Qed.

Lemma evolves_block h o : evolves o (o ≫= block_view h).
Proof.
  destruct o as [sw|]; simpl; [|constructor]. unfold block_view.
  destruct (bool_decide (swStatus sw = SWAP_STATUS_OPEN)) eqn:Ho;
    [|destruct (bool_decide (swStatus sw = SWAP_STATUS_COMPLETED)) eqn:Hc]; gobool;
    simpl; try destruct (_ <=? _); simpl; try rewrite Ho; constructor; done.
Qed.

Lemma step_evolves s s' id :
  inv s -> step s s' -> evolves (AtomicSwaps s !! id) (AtomicSwaps s' !! id).
Proof.
  intros Hi Hs. destruct Hs as [ctx o s s' Hh _ Hx|s b acc _|p s s' _ Hx]; [|constructor|].
  2: { apply SetParams_Ok in Hx as (_ & _ & -> & _). constructor. }
  destruct o as [rnh ts span x y soc roc amt cc|from id' rn|from id'|]; simpl in Hx.
  - apply CreateAtomicSwap_Ok in Hx as (c & a & dir & sup & sup' & b' & acc & Hx). cbn zeta in Hx.
    destruct Hx as (_ & Hnone & _ & _ & _ & _ & _ & ->). simpl.
    apply evolves_insert. rewrite Hnone. by constructor.
  - apply ClaimAtomicSwap_Ok in Hx as (sw & c & r & sup & sup' & b' & Hsw & Hst & _ & _ & _ & _ & ->).
    simpl. change (GetSwapID (closed_swap ctx sw)) with (GetSwapID sw).
    rewrite (sok_id _ _ (st_swaps _ (inv_store _ Hi) _ _ Hsw)).
    apply evolves_insert. rewrite Hsw. constructor. by rewrite Hst.
  - apply RefundAtomicSwap_Ok in Hx as (sw & c & r & sup & sup' & b' & Hsw & Hst & _ & _ & _ & ->).
    simpl. change (GetSwapID (closed_swap ctx sw)) with (GetSwapID sw).
    rewrite (sok_id _ _ (st_swaps _ (inv_store _ Hi) _ _ Hsw)).
    apply evolves_insert. rewrite Hsw. constructor. by rewrite Hst.
  - destruct (BeginBlocker_spec ctx s (inv_params _ Hi) (inv_store _ Hi) Hh)
      as (s1 & s2 & Hb & _ & _ & _ & Hv).
    rewrite Hx in Hb. injection Hb as <-. rewrite Hv. apply evolves_block.
Qed.

(** Steps in which the swap [id] stays in the store. *)
Definition keeps (id : bytes) s s' : Prop := step s s' /\ is_Some (AtomicSwaps s' !! id).

(** The stored swap [sw] has become [sw']: unchanged, expired, or closed. *)
Definition advances (sw sw' : AtomicSwap) : Prop :=
  sw' = sw
  \/ (swStatus sw = SWAP_STATUS_OPEN /\ sw' = set_status SWAP_STATUS_EXPIRED sw)
  \/ (pending (swStatus sw) = true /\ exists ctx, sw' = closed_swap ctx sw).

Lemma advances_evolves sw sw' sw'' :
  advances sw sw' -> evolves (Some sw') (Some sw'') -> advances sw sw''.
Proof.
  unfold advances. intros Ha He. inversion He as [|?|? Ho|ctx ? Hp|?]; subst; simpl in *; [done| |].
  - destruct Ha as [->|[[_ ->]|[_ [ctx ->]]]]; [auto|discriminate|discriminate].
  - right; right. destruct Ha as [->|[[Ho ->]|[_ [ctx' ->]]]];
      [eauto|rewrite Ho; eauto|discriminate].
Qed.

Lemma trace_advances_from id s1 s2 sw sw1 :
  inv s1 -> advances sw sw1 -> AtomicSwaps s1 !! id = Some sw1 -> rtc (keeps id) s1 s2 ->
  exists sw2, AtomicSwaps s2 !! id = Some sw2 /\ advances sw sw2.
Proof.
  intros Hi Ha Hsw1 Hr. revert sw1 Ha Hsw1.
  induction Hr as [|s1 s2 s3 [Hs [sw2 Hsw2]] _ IH]; intros sw1 Ha Hsw1; [eauto|].
  apply (IH (step_inv _ _ Hs Hi) sw2); [|done].
  pose proof (step_evolves _ _ id Hi Hs) as He. rewrite Hsw1, Hsw2 in He.
  by eapply advances_evolves.
Qed.

(** Along every trace in which a swap stays in the store it follows its state
    machine: an open swap may expire, an open or expired swap may be closed, a
    closed swap never changes again; its amount, parties, hash, heights and
    direction never change at all. *)
Theorem trace_advances id s s' sw :
  inv s -> AtomicSwaps s !! id = Some sw -> rtc (keeps id) s s' ->
  exists sw', AtomicSwaps s' !! id = Some sw' /\ advances sw sw'.
Proof. intros Hi Hsw Hr. eapply trace_advances_from; eauto. by left. Qed.

(** A claim or a refund, the two operations that pay a swap out. *)
Definition pays (id : bytes) (o : op) : Prop :=
  match o with
  | OpClaim _ id' _ => id' = id
  | OpRefund _ id' => id' = id
  | _ => False
  end.

Lemma pays_completes ctx o id s s' :
  inv s -> pays id o -> exec ctx o s = Ok s' ->
  exists sw, AtomicSwaps s !! id = Some sw /\ AtomicSwaps s' !! id = Some (closed_swap ctx sw).
Proof.
  intros Hi Hp Hx. destruct o as [|from id' rn|from id'|]; simpl in Hp, Hx; try done; subst id'.
  - apply ClaimAtomicSwap_Ok in Hx as (sw & c & r & sup & sup' & b' & Hsw & Hst & _ & _ & _ & _ & ->).
    exists sw. split; [done|]. simpl. change (GetSwapID (closed_swap ctx sw)) with (GetSwapID sw).
    rewrite (sok_id _ _ (st_swaps _ (inv_store _ Hi) _ _ Hsw)). apply lookup_insert_eq.
  - apply RefundAtomicSwap_Ok in Hx as (sw & c & r & sup & sup' & b' & Hsw & Hst & _ & _ & _ & ->).
    exists sw. split; [done|]. simpl. change (GetSwapID (closed_swap ctx sw)) with (GetSwapID sw).
    rewrite (sok_id _ _ (st_swaps _ (inv_store _ Hi) _ _ Hsw)). apply lookup_insert_eq.
Qed.

(** C2: a swap is paid out at most once: after a successful claim or refund, as
    long as the swap is in the store, every further claim of it fails with
    [ErrSwapNotClaimable] and every refund with [ErrSwapNotRefundable]. *)
Theorem paid_once ctx o id s s1 s2 ctx' from rn :
  inv s -> is_i64 (BlockHeight ctx) -> pays id o -> exec ctx o s = Ok s1 -> rtc (keeps id) s1 s2 ->
  ClaimAtomicSwap ctx' from id rn s2 = Err ErrSwapNotClaimable
  /\ RefundAtomicSwap ctx' from id s2 = Err ErrSwapNotRefundable.
Proof.
  intros Hi Hh Hp Hx Hr. destruct (pays_completes _ _ _ _ _ Hi Hp Hx) as (sw & _ & Hsw1).
  assert (Hi1 : inv s1).
  { eapply step_inv; [|exact Hi]. eapply step_op; [exact Hh| |exact Hx]. by destruct o. }
  destruct (trace_advances_from id s1 s2 _ _ Hi1 (or_introl eq_refl) Hsw1 Hr) as (sw2 & Hsw2 & Ha).
  destruct Ha as [->|[[H0 _]|[H0 _]]]; [|discriminate H0|discriminate H0].
  unfold ClaimAtomicSwap, RefundAtomicSwap, GetAtomicSwap. by rewrite Hsw2.
Qed.

(** ** Liveness: a swap can be claimed, and refunded once it has expired *)

(** A pending swap's amount is part of the supply counter of its direction. *)
Lemma pending_counted s id sw (f : AssetSupply -> Coin) :
  inv s -> AtomicSwaps s !! id = Some sw -> pending (swStatus sw) = true ->
  (forall d, supply_amount f (AssetSupplies s) d = pending_sum (swDirection sw) d (AtomicSwaps s)) ->
  exists coin sup, swAmount sw = [coin] /\ 0 < Amount coin
    /\ AssetSupplies s !! Denom coin = Some sup /\ coins_ok (Denom coin) sup
    /\ Amount coin <= Amount (f sup).
Proof.
  intros Hi Hsw Hp Hf. destruct (sok_coin _ _ (st_swaps _ (inv_store _ Hi) _ _ Hsw)) as (coin & Hc & Hpos).
  assert (Amount coin <= pending_sum (swDirection sw) (Denom coin) (AtomicSwaps s)) as Hle.
  { etrans; [|eapply (map_sum_lookup_le (weight _ _) _ id sw); [|done]].
    - rewrite (weight_one _ _ _ _ Hc), Hp, !bool_decide_eq_true_2 by done. simpl. lia.
    - intros i sw' Hsw'. destruct (sok_coin _ _ (st_swaps _ (inv_store _ Hi) _ _ Hsw')) as (c' & Hc' & Hpos').
      rewrite (weight_one _ _ _ _ Hc'). repeat case_match; lia. }
  rewrite <- Hf in Hle. unfold supply_amount in Hle.
  destruct (AssetSupplies s !! Denom coin) as [sup|] eqn:Hsup; simpl in Hle; [|lia].
  exists coin, sup. split_and!; try done. by apply (su_coins _ _ (inv_supply _ Hi)).
Qed.

Lemma DecrementIncoming_total coin sup s :
  AssetSupplies s !! Denom coin = Some sup -> coins_ok (Denom coin) sup ->
  0 <= Amount coin <= Amount (IncomingSupply sup) ->
  DecrementIncomingAssetSupply coin s = Ok (SetAssetSupply
    (set_IncomingSupply (add_amount (IncomingSupply sup) (- Amount coin)) sup) (Denom coin) s).
Proof.
  intros Hsup [[Hd Hr] _ _ _] Ha. unfold DecrementIncomingAssetSupply, GetAssetSupply.
  rewrite Hsup, int_chk_fits by lia. simpl. rewrite (proj2 (Z.ltb_ge _ _)) by lia.
  by rewrite Coin_Sub_total by (done || lia).
Qed.

Lemma DecrementOutgoing_total coin sup s :
  AssetSupplies s !! Denom coin = Some sup -> coins_ok (Denom coin) sup ->
  0 <= Amount coin <= Amount (OutgoingSupply sup) ->
  DecrementOutgoingAssetSupply coin s = Ok (SetAssetSupply
    (set_OutgoingSupply (add_amount (OutgoingSupply sup) (- Amount coin)) sup) (Denom coin) s).
Proof.
  intros Hsup [_ [Hd Hr] _ _] Ha. unfold DecrementOutgoingAssetSupply, GetAssetSupply.
  rewrite Hsup, int_chk_fits by lia. simpl. rewrite (proj2 (Z.ltb_ge _ _)) by lia.
  by rewrite Coin_Sub_total by (done || lia).
Qed.

Lemma DecrementCurrent_total coin sup s :
  AssetSupplies s !! Denom coin = Some sup -> coins_ok (Denom coin) sup ->
  0 <= Amount coin <= Amount (CurrentSupply sup) ->
  DecrementCurrentAssetSupply coin s = Ok (SetAssetSupply
    (set_CurrentSupply (add_amount (CurrentSupply sup) (- Amount coin)) sup) (Denom coin) s).
Proof.
  intros Hsup [_ _ [Hd Hr] _] Ha. unfold DecrementCurrentAssetSupply, GetAssetSupply.
  rewrite Hsup, int_chk_fits by lia. simpl. rewrite (proj2 (Z.ltb_ge _ _)) by lia.
  by rewrite Coin_Sub_total by (done || lia).
Qed.

Lemma IncrementCurrent_total coin sup a s :
  params_ok s -> AssetSupplies s !! Denom coin = Some sup -> coins_ok (Denom coin) sup ->
  find_asset (Denom coin) (AssetParams (params s)) = Some a -> 0 <= Amount coin ->
  Amount (CurrentSupply sup) + Amount coin <= Limit (apSupplyLimit a) ->
  (TimeLimited (apSupplyLimit a) = true ->
     Amount (TimeLimitedCurrentSupply sup) + Amount coin <= TimeBasedLimit (apSupplyLimit a)) ->
  exists s', IncrementCurrentAssetSupply coin s = Ok s' /\ bank s' = bank s.
Proof.
  intros Hp Hsup [_ _ [Hdc Hrc] [Hdt Hrt]] Hfind Hpos Hlim Htl.
  destruct (find_asset_ok _ _ _ Hp Hfind) as [Ha Had]. pose proof (ok_limit _ Ha) as Hl.
  assert (Limit (apSupplyLimit a) < 2 ^ 256) as Hmax.
  { destruct Hp as [_ Hall]. rewrite List.Forall_forall in Hall.
    apply List.find_some in Hfind as [Hin _]. by apply Hall. }
  assert (ValidateDenom (Denom coin) = true) as Hvd by (rewrite <- Had; apply (ok_denom _ Ha)).
  unfold IncrementCurrentAssetSupply, GetAssetSupply, GetSupplyLimit, GetAsset.
  rewrite Hsup, Hfind. simpl. rewrite NewCoin_total by (done || lia). simpl.
  rewrite Coin_Add_total by (done || lia). simpl.
  rewrite Coin_IsLT_total by done. simpl. rewrite (proj2 (Z.ltb_ge _ _)) by lia.
  destruct (TimeLimited (apSupplyLimit a)) eqn:Etl; simpl.
  - specialize (Htl eq_refl). rewrite NewCoin_total by (done || lia). simpl.
    rewrite Coin_Add_total by (done || lia). simpl. rewrite Coin_IsLT_total by done. simpl.
    rewrite (proj2 (Z.ltb_ge _ _)) by lia. simpl. rewrite Coin_Add_total by (done || lia). simpl. eauto.
  - rewrite Coin_Add_total by (done || lia). simpl. eauto.
Qed.

(** The secret of a swap: a number that hashes to its identifier. *)
Definition unlocks (rn : bytes) (sw : AtomicSwap) : Prop :=
  CalculateSwapID (CalculateRandomHash rn (swTimestamp sw)) (swSender sw) (swSenderOtherChain sw)
  = GetSwapID sw.

(** The bank calls a claim or a refund of [sw] makes succeed. *)
Definition bank_pays_claim (sw : AtomicSwap) (b : B) : Prop :=
  match swDirection sw with
  | SWAP_DIRECTION_INCOMING => exists b1 b2, MintCoins ModuleName (swAmount sw) b = Ok b1
      /\ SendCoinsFromModuleToAccount ModuleName (swRecipient sw) (swAmount sw) b1 = Ok b2
  | _ => exists b1, BurnCoins ModuleName (swAmount sw) b = Ok b1
  end.

(** The amount fits under the limits of the asset. *)
Definition fits (coin : Coin) (a : AssetParam) (sup : AssetSupply) : Prop :=
  Amount (CurrentSupply sup) + Amount coin <= Limit (apSupplyLimit a)
  /\ (TimeLimited (apSupplyLimit a) = true ->
      Amount (TimeLimitedCurrentSupply sup) + Amount coin <= TimeBasedLimit (apSupplyLimit a)).

(** Until a limit is lowered, the amount of every open incoming swap fits. *)
Lemma pending_fits s id sw a coin sup : inv s -> limits_ok s -> AtomicSwaps s !! id = Some sw ->
  swStatus sw = SWAP_STATUS_OPEN -> swDirection sw = SWAP_DIRECTION_INCOMING -> swAmount sw = [coin] ->
  find_asset (Denom coin) (AssetParams (params s)) = Some a -> AssetSupplies s !! Denom coin = Some sup ->
  fits coin a sup.
Proof.
  intros Hi Hl Hsw Hst Hd Hamt Hfind Hsup.
  destruct (pending_counted s id sw IncomingSupply Hi Hsw) as (c & sup' & Hc & Hpos & Hsup' & Hok & Hle);
    [by rewrite Hst|rewrite Hd; apply (inv_supply _ Hi)|]. rewrite Hamt in Hc. injection Hc as <-.
  rewrite Hsup in Hsup'. injection Hsup' as <-. destruct (Hl _ _ _ Hsup Hfind) as [H1 H2].
  split; [lia|]. intros E. specialize (H2 E). lia.
Qed.

Lemma claim_outgoing_succeeds ctx from id rn s sw coin :
  inv s -> AtomicSwaps s !! id = Some sw -> swStatus sw = SWAP_STATUS_OPEN -> unlocks rn sw ->
  swAmount sw = [coin] -> bank_pays_claim sw (bank s) -> swDirection sw = SWAP_DIRECTION_OUTGOING ->
  exists s', ClaimAtomicSwap ctx from id rn s = Ok s'.
Proof.
  intros Hi Hsw Hst Hun Hamt Hbank Hd. destruct (inv_supply _ Hi) as [_ _ Hout Hav].
  unfold ClaimAtomicSwap, GetAtomicSwap. rewrite Hsw, bool_decide_eq_true_2 by done. simpl.
  rewrite bool_decide_eq_true_2 by done. simpl. unfold bank_pays_claim in Hbank. rewrite Hd in *.
  destruct (pending_counted s id sw OutgoingSupply Hi Hsw) as (c & sup & Hc & Hpos & Hsup & Hok & Hle);
    [by rewrite Hst|by rewrite Hd|]. rewrite Hamt in Hc. injection Hc as <-.
  rewrite Hamt in *. simpl. rewrite (DecrementOutgoing_total _ sup) by (done || lia). simpl.
  specialize (Hav (Denom coin)). rewrite !(supply_amount_lookup _ _ _ _ Hsup) in Hav.
  erewrite DecrementCurrent_total; [|apply lookup_insert_eq| |simpl; lia].
  - destruct Hbank as (b1 & Hburn). simpl. unfold bank_call. simpl. rewrite Hburn. simpl. eauto.
  - destruct Hok. split; simpl; (done || (split; [naive_solver|lia])).
Qed.

Lemma claim_incoming_succeeds ctx from id rn s sw a coin sup :
  inv s -> AtomicSwaps s !! id = Some sw -> swStatus sw = SWAP_STATUS_OPEN -> unlocks rn sw ->
  swAmount sw = [coin] -> bank_pays_claim sw (bank s) -> swDirection sw = SWAP_DIRECTION_INCOMING ->
  find_asset (Denom coin) (AssetParams (params s)) = Some a -> AssetSupplies s !! Denom coin = Some sup ->
  fits coin a sup -> exists s', ClaimAtomicSwap ctx from id rn s = Ok s'.
Proof.
  intros Hi Hsw Hst Hun Hamt Hbank Hd Hfind Hsup [Hlim Htl]. destruct (inv_supply _ Hi) as [_ Hin _ _].
  unfold ClaimAtomicSwap, GetAtomicSwap. rewrite Hsw, bool_decide_eq_true_2 by done. simpl.
  rewrite bool_decide_eq_true_2 by done. simpl. unfold bank_pays_claim in Hbank. rewrite Hd in *.
  destruct (pending_counted s id sw IncomingSupply Hi Hsw) as (c & sup' & Hc & Hpos & Hsup' & Hok & Hle);
    [by rewrite Hst|by rewrite Hd|]. rewrite Hamt in Hc. injection Hc as <-.
  rewrite Hsup in Hsup'. injection Hsup' as <-. rewrite Hamt in *. simpl.
  rewrite (DecrementIncoming_total _ sup) by (done || lia). simpl.
  edestruct (IncrementCurrent_total coin) as (s1 & -> & Hb1);
    [apply (inv_params _ Hi)|apply lookup_insert_eq| |exact Hfind|lia|done|done|].
  - destruct Hok. split; simpl; (done || (split; [naive_solver|lia])).
  - destruct Hbank as (b1 & b2 & Hmint & Hsend). simpl. unfold bank_call.
    rewrite Hb1. simpl. rewrite Hmint. simpl. rewrite Hsend. simpl. eauto.
Qed.

(** A claim past a lowered limit fails. *)
Lemma claim_over_limit ctx from id rn s sw a coin sup :
  inv s -> AtomicSwaps s !! id = Some sw -> swStatus sw = SWAP_STATUS_OPEN -> unlocks rn sw ->
  swAmount sw = [coin] -> swDirection sw = SWAP_DIRECTION_INCOMING ->
  find_asset (Denom coin) (AssetParams (params s)) = Some a -> AssetSupplies s !! Denom coin = Some sup ->
  Limit (apSupplyLimit a) < Amount (CurrentSupply sup) + Amount coin ->
  forall s', ClaimAtomicSwap ctx from id rn s <> Ok s'.
Proof.
  intros Hi Hsw Hst Hun Hamt Hd Hfind Hsup Hlt s' Hx.
  apply ClaimAtomicSwap_Ok in Hx as (sw' & c & r & sup1 & sup2 & b' & Hsw' & _ & _ & Ham & Hs1 & He & _).
  assert (sw' = sw) as -> by congruence. assert (c = coin) as -> by congruence.
  destruct He as [(_ & a' & b1 & Hf & _ & _ & _ & Hl & _)|(E & _)]; [|congruence].
  assert (a' = a) as -> by congruence. assert (sup1 = sup) as -> by congruence. lia.
Qed.

(** C19: an open swap can be claimed: whoever presents the secret succeeds, when the bank
    executes the payment.  An outgoing swap needs nothing more.  An incoming one needs its
    asset to be listed still and its amount to fit under the supply limits of the asset:
    as long as the supplies are within the limits this is always so, whatever else is
    pending, and once governance has lowered the limit below the current supply plus the
    amount the claim is refused. *)
Theorem claim_succeeds ctx from id rn s sw coin :
  inv s -> AtomicSwaps s !! id = Some sw -> swStatus sw = SWAP_STATUS_OPEN -> unlocks rn sw ->
  swAmount sw = [coin] -> bank_pays_claim sw (bank s) ->
  (swDirection sw = SWAP_DIRECTION_OUTGOING -> exists s', ClaimAtomicSwap ctx from id rn s = Ok s')
  /\ (forall a sup, swDirection sw = SWAP_DIRECTION_INCOMING ->
       find_asset (Denom coin) (AssetParams (params s)) = Some a -> AssetSupplies s !! Denom coin = Some sup ->
       (fits coin a sup -> exists s', ClaimAtomicSwap ctx from id rn s = Ok s')
       /\ (limits_ok s -> fits coin a sup)
       /\ (Limit (apSupplyLimit a) < Amount (CurrentSupply sup) + Amount coin ->
            forall s', ClaimAtomicSwap ctx from id rn s <> Ok s')).
Proof.
  intros Hi Hsw Hst Hun Hamt Hbank. split; [by eapply claim_outgoing_succeeds|].
  intros a sup Hd Hfind Hsup. split_and!.
  - by eapply claim_incoming_succeeds.
  - intros Hl. by eapply pending_fits.
  - by eapply claim_over_limit.
Qed.

(** C20: an expired swap can be refunded: an incoming one always, an outgoing one
    when the bank returns the escrowed coins to the sender. *)
Theorem refund_succeeds ctx from id s sw :
  inv s -> AtomicSwaps s !! id = Some sw -> swStatus sw = SWAP_STATUS_EXPIRED ->
  (swDirection sw = SWAP_DIRECTION_OUTGOING ->
     exists b, SendCoinsFromModuleToAccount ModuleName (swSender sw) (swAmount sw) (bank s) = Ok b) ->
  exists s', RefundAtomicSwap ctx from id s = Ok s'.
Proof.
  intros Hi Hsw Hst Hbank. unfold RefundAtomicSwap, GetAtomicSwap.
  rewrite Hsw, bool_decide_eq_true_2 by done. simpl.
  pose proof (sok_direction _ _ (st_swaps _ (inv_store _ Hi) _ _ Hsw)) as Hdir.
  destruct (inv_supply _ Hi) as [_ Hin Hout _].
  destruct (swDirection sw) eqn:Hd; try discriminate Hdir.
  - destruct (pending_counted s id sw IncomingSupply Hi Hsw) as (c & sup & Hc & Hpos & Hsup & Hok & Hle);
      [by rewrite Hst|by rewrite Hd|]. rewrite Hc. simpl.
    rewrite (DecrementIncoming_total _ sup) by (done || lia). simpl. eauto.
  - destruct (pending_counted s id sw OutgoingSupply Hi Hsw) as (c & sup & Hc & Hpos & Hsup & Hok & Hle);
      [by rewrite Hst|by rewrite Hd|]. destruct (Hbank eq_refl) as (b & Hb). rewrite Hc in *. simpl.
    rewrite (DecrementOutgoing_total _ sup) by (done || lia). simpl.
    unfold bank_call. simpl. rewrite Hb. simpl. eauto.
Qed.

(** ** Payments *)

(** What a successful claim pays: for an incoming swap exactly the recipient
    is credited with the swap's amount, newly minted; for an outgoing swap the
    escrowed amount leaves the module account and the supply. *)
Theorem claim_payment ctx from id rn s s' :
  ClaimAtomicSwap ctx from id rn s = Ok s' ->
  exists sw, AtomicSwaps s !! id = Some sw /\ unlocks rn sw
  /\ ((swDirection sw = SWAP_DIRECTION_INCOMING
       /\ (forall x d, GetBalance (bank s') x d
             = GetBalance (bank s) x d + credit (swRecipient sw) x (swAmount sw) d)
       /\ (forall d, GetSupply (bank s') d = GetSupply (bank s) d + AmountOf (swAmount sw) d))
   \/ (swDirection sw = SWAP_DIRECTION_OUTGOING
       /\ exists y, GetModuleAddress ModuleName = Some y
       /\ (forall x d, GetBalance (bank s') x d
             = GetBalance (bank s) x d - credit y x (swAmount sw) d)
       /\ (forall d, GetSupply (bank s') d = GetSupply (bank s) d - AmountOf (swAmount sw) d))).
Proof.
  intros Hx. apply ClaimAtomicSwap_Ok in Hx
    as (sw & c & r & sup & sup' & b' & Hsw & _ & Hun & _ & _ & Heff & ->).
  exists sw. split_and!; [done|done|]. simpl.
  destruct Heff as [(Hd & a & b1 & _ & _ & _ & _ & _ & _ & Hmint & Hsend)|(Hd & _ & _ & _ & Hburn)].
  - left. split; [done|]. apply mint_effect in Hmint as (y & Hy & Hbal & Hsup).
    apply send_from_module in Hsend as (y' & Hy' & Hmv & Hs & _).
    rewrite Hy in Hy'. injection Hy' as <-.
    split; intros; [rewrite Hmv, Hbal; lia|by rewrite Hs, Hsup].
  - right. split; [done|]. apply burn_effect in Hburn. done.
Qed.

(** What a successful refund pays: nothing for an incoming swap; for an
    outgoing swap the escrowed amount goes from the module account to the
    swap's sender. *)
Theorem refund_payment ctx from id s s' :
  RefundAtomicSwap ctx from id s = Ok s' ->
  exists sw, AtomicSwaps s !! id = Some sw
  /\ ((swDirection sw = SWAP_DIRECTION_INCOMING /\ bank s' = bank s)
   \/ (swDirection sw = SWAP_DIRECTION_OUTGOING
       /\ exists y, GetModuleAddress ModuleName = Some y
       /\ moved y (swSender sw) (swAmount sw) (bank s) (bank s'))).
Proof.
  intros Hx. apply RefundAtomicSwap_Ok in Hx
    as (sw & c & r & sup & sup' & b' & Hsw & _ & _ & _ & Heff & ->).
  exists sw. split; [done|]. simpl. destruct Heff as [(Hd & -> & _)|(Hd & _ & _ & Hsend)]; [auto|].
  right. split; [done|]. by apply send_from_module in Hsend.
Qed.

(** The tracked current supply moves with the bank's supply: no operation
    of the module changes their difference, in any denomination. *)
Theorem supply_in_step ctx o s s' d :
  inv s -> is_i64 (BlockHeight ctx) -> exec ctx o s = Ok s' ->
  GetSupply (bank s') d - supply_amount CurrentSupply (AssetSupplies s') d
  = GetSupply (bank s) d - supply_amount CurrentSupply (AssetSupplies s) d.
Proof.
  intros Hi Hh Hx. destruct o as [rnh ts span x y soc roc amt cc|from id rn|from id|]; simpl in Hx.
  - apply CreateAtomicSwap_Ok in Hx as (c & a & dir & sup & sup' & b' & acc & Hx). cbn zeta in Hx.
    destruct Hx as (_ & _ & _ & _ & _ & Hsup & Heff & ->). simpl. rewrite supply_amount_insert.
    destruct Heff as [(_ & -> & -> & _)|(_ & Hsend & -> & _)]; simpl.
    + case_bool_decide; [subst|done]. by rewrite (supply_amount_lookup _ _ _ _ Hsup).
    + apply send_to_module in Hsend as (z & _ & _ & Hs & _). rewrite Hs.
      case_bool_decide; [subst|done]. by rewrite (supply_amount_lookup _ _ _ _ Hsup).
  - apply ClaimAtomicSwap_Ok in Hx
      as (sw & c & r & sup & sup' & b' & Hsw & _ & _ & Hamt & Hsup & Heff & ->).
    destruct (swap_one_coin _ _ _ _ _ (inv_store _ Hi) Hsw Hamt) as (_ & Hone & _).
    destruct c as [dc ac]. simpl in *. rewrite supply_amount_insert.
    destruct Heff as [(_ & a & b1 & _ & -> & _ & _ & _ & _ & Hmint & Hsend)|(_ & -> & _ & _ & Hburn)];
      simpl.
    + apply mint_effect in Hmint as (z & _ & _ & Hs1). apply send_from_module in Hsend as (z' & _ & _ & Hs2 & _).
      rewrite Hs2, Hs1, Hone, AmountOf_singleton. case_bool_decide; [subst|lia].
      rewrite (supply_amount_lookup _ _ _ _ Hsup). lia.
    + apply burn_effect in Hburn as (z & _ & _ & Hs1).
      rewrite Hs1, Hone, AmountOf_singleton. case_bool_decide; [subst|lia].
      rewrite (supply_amount_lookup _ _ _ _ Hsup). lia.
  - apply RefundAtomicSwap_Ok in Hx
      as (sw & c & r & sup & sup' & b' & Hsw & _ & Hamt & Hsup & Heff & ->).
    simpl. rewrite supply_amount_insert.
    destruct Heff as [(_ & -> & -> & _)|(_ & -> & _ & Hsend)]; simpl.
    + case_bool_decide; [subst|done]. by rewrite (supply_amount_lookup _ _ _ _ Hsup).
    + apply send_from_module in Hsend as (z & _ & _ & Hs & _). rewrite Hs.
      case_bool_decide; [subst|done]. by rewrite (supply_amount_lookup _ _ _ _ Hsup).
  - destruct (BeginBlocker_spec ctx s (inv_params _ Hi) (inv_store _ Hi) Hh)
      as (s1 & s2 & Hb & Ht & F & _). rewrite Hx in Hb. injection Hb as <-.
    destruct Ht as (_ & _ & _ & _ & E5 & _ & _ & _ & Ecur & _), F as (F1 & _ & _ & F4 & _).
    by rewrite F1, F4, Ecur, E5.
Qed.

(** ** Height spans *)

(** The height span of an outgoing swap is inside the asset's range, so at
    heights where the sum fits 64 bits the swap stays open, and can be claimed,
    through every block below creation height plus span. *)
Theorem outgoing_stays_open ctx ctx' rnh ts span x y soc roc coin cc s s' id sw :
  CreateAtomicSwap Maccs ctx rnh ts span x y soc roc [coin] cc s = Ok s' ->
  AtomicSwaps s' !! id = Some sw -> AtomicSwaps s !! id = None ->
  swDirection sw = SWAP_DIRECTION_OUTGOING ->
  0 <= BlockHeight ctx -> BlockHeight ctx + span < 2 ^ 64 -> 0 <= span ->
  0 <= BlockHeight ctx' < BlockHeight ctx + span ->
  block_view (u64 (BlockHeight ctx')) sw = Some sw
  /\ exists a, find_asset (Denom coin) (AssetParams (params s)) = Some a
     /\ apMinBlockLock a <= swExpireHeight sw - BlockHeight ctx <= apMaxBlockLock a.
Proof.
  intros Hx Hsw Hnew Hdir Hh Hfit Hspan Hh'.
  apply CreateAtomicSwap_Ok in Hx as (c & a & dir & sup & sup' & b' & acc & Hx). cbn zeta in Hx.
  destruct Hx as ([= <-] & _ & Ha & _ & _ & _ & Heff & ->). simpl in Hsw.
  apply lookup_insert_Some in Hsw as [[_ <-]|[_ Hsw]]; [|congruence]. simpl in Hdir. subst dir.
  destruct Heff as [[Hd _]|(_ & _ & _ & _ & _ & Hrange & _)]; [discriminate|].
  assert (u64 (u64 (BlockHeight ctx) + span) = BlockHeight ctx + span) as Eh
    by (rewrite !u64_id; unfold is_u64; rewrite ?u64_id; unfold is_u64; lia).
  split.
  - unfold block_view, created_swap; simpl. rewrite Eh, u64_id by (unfold is_u64; lia).
    by rewrite (proj2 (Z.leb_gt _ _)) by lia.
  - exists a. split; [done|]. unfold created_swap; simpl. rewrite Eh. lia.
Qed.


End Theorems.
