(* ===== verification/Bep3Msg.v ===== *)
(** * x/bep3: messages and their handlers

    The three messages with their stateless validation ([types/msg.go]) and the
    message server that decodes them and calls the keeper
    ([keeper/msg_server.go]). *)

From S2P Require Import Prelude Sdk GoStd Bank Bep3Types Bep3Keeper Bep3Inv.

Record MsgCreateAtomicSwap : Type := NewMsgCreateAtomicSwap {
  mcFrom : string;
  mcTo : string;
  mcRecipientOtherChain : string;
  mcSenderOtherChain : string;
  mcRandomNumberHash : string;
  mcTimestamp : Z;
  mcAmount : Coins;
  mcHeightSpan : Z
}.
Record MsgClaimAtomicSwap : Type := NewMsgClaimAtomicSwap {
  mlFrom : string;
  mlSwapID : string;
  mlRandomNumber : string
}.
Record MsgRefundAtomicSwap : Type := NewMsgRefundAtomicSwap {
  mrFrom : string;
  mrSwapID : string
}.

Section Msg.
  Context {cfg : SdkConfig} {gostr : GoStrings} {hash : TmHash} {B A : Type}
    {bk : BankKeeper B} {ak : AccountKeeper A}.
  Context (Maccs : gmap string bool).
  Implicit Types s : State B A.

(** [errorsmod.Wrap(e, err.Error())] *)
Definition wrap {T} (e : error) (o : outcome T) : outcome T :=
  match o with Err _ => Err e | o => o end.

(** ** Stateless validation *)
Definition MsgCreateAtomicSwap_ValidateBasic (msg : MsgCreateAtomicSwap) : outcome unit :=
  let! from := wrap ErrInvalidAddress (AccAddressFromBech32 (mcFrom msg)) in
  let! to := wrap ErrInvalidAddress (AccAddressFromBech32 (mcTo msg)) in
  if bool_decide (from = []) then Err ErrInvalidAddress else
  if bool_decide (to = []) then Err ErrInvalidAddress else
  if bool_decide (TrimSpace (mcRecipientOtherChain msg) = "")
  then Err (Plain "missing recipient address on other chain") else
  if (MaxOtherChainAddrLength <? String.length (mcRecipientOtherChain msg))%nat
  then Err (Plain "the length of recipient address on other chain should be less than 64") else
  if (MaxOtherChainAddrLength <? String.length (mcSenderOtherChain msg))%nat
  then Err (Plain "the length of sender address on other chain should be less than 64") else
  let! randomNumberHash := wrap (Plain "random number hash should be valid hex")
                             (hex_DecodeString (mcRandomNumberHash msg)) in
  if negb (Nat.eqb (length randomNumberHash) RandomNumberHashLength)
  then Err (Plain "the length of random number hash should be 32") else
  if mcTimestamp msg <=? 0 then Err (Plain "timestamp must be positive") else
  if Nat.eqb (length (mcAmount msg)) 0 then Err ErrInvalidCoins else
  if negb (Coins_IsValid (mcAmount msg)) then Err ErrInvalidCoins else
  if mcHeightSpan msg <=? 0 then Err (Plain "height span must be positive") else
  Ok tt.

Definition MsgClaimAtomicSwap_ValidateBasic (msg : MsgClaimAtomicSwap) : outcome unit :=
  let! from := wrap ErrInvalidAddress (AccAddressFromBech32 (mlFrom msg)) in
  if bool_decide (from = []) then Err ErrInvalidAddress else
  let! swapID := wrap (Plain "swap id should be valid hex") (hex_DecodeString (mlSwapID msg)) in
  if negb (Nat.eqb (length swapID) SwapIDLength)
  then Err (Plain "the length of swapID should be 32") else
  let! randomNumber := wrap (Plain "random number should be valid hex")
                         (hex_DecodeString (mlRandomNumber msg)) in
  if negb (Nat.eqb (length randomNumber) RandomNumberLength)
  then Err (Plain "the length of random number should be 32") else
  Ok tt.

Definition MsgRefundAtomicSwap_ValidateBasic (msg : MsgRefundAtomicSwap) : outcome unit :=
  let! from := wrap ErrInvalidAddress (AccAddressFromBech32 (mrFrom msg)) in
  if bool_decide (from = []) then Err ErrInvalidAddress else
  let! swapID := wrap (Plain "swap id should be valid hex") (hex_DecodeString (mrSwapID msg)) in
  if negb (Nat.eqb (length swapID) SwapIDLength)
  then Err (Plain "the length of swapID should be 32") else
  Ok tt.

(** [GetSigners] panics on an address that does not parse. *)
Definition GetSigners (from : string) : outcome (list AccAddress) :=
  let! from := must (AccAddressFromBech32 from) in Ok [from].

(** ** Message server *)
Definition msgServer_CreateAtomicSwap (ctx : Ctx) (msg : MsgCreateAtomicSwap) s : outcome (State B A) :=
  let! from := AccAddressFromBech32 (mcFrom msg) in
  let! to := AccAddressFromBech32 (mcTo msg) in
  let! randomNumberHash := hex_DecodeString (mcRandomNumberHash msg) in
  CreateAtomicSwap Maccs ctx randomNumberHash (mcTimestamp msg) (mcHeightSpan msg) from to
    (mcSenderOtherChain msg) (mcRecipientOtherChain msg) (mcAmount msg) true s.

Definition msgServer_ClaimAtomicSwap (ctx : Ctx) (msg : MsgClaimAtomicSwap) s : outcome (State B A) :=
  let! from := AccAddressFromBech32 (mlFrom msg) in
  let! swapID := hex_DecodeString (mlSwapID msg) in
  let! randomNumber := hex_DecodeString (mlRandomNumber msg) in
  ClaimAtomicSwap ctx from swapID randomNumber s.

Definition msgServer_RefundAtomicSwap (ctx : Ctx) (msg : MsgRefundAtomicSwap) s : outcome (State B A) :=
  let! from := AccAddressFromBech32 (mrFrom msg) in
  let! swapID := hex_DecodeString (mrSwapID msg) in
  RefundAtomicSwap ctx from swapID s.

(** ** Theorems *)
Lemma wrap_Ok {T} e (o : outcome T) r : wrap e o = Ok r -> o = Ok r.
Proof. by destruct o. Qed.

(** A claim message made from an identifier and a number decodes to them. *)
Definition claim_msg (from : string) (swapID randomNumber : bytes) : MsgClaimAtomicSwap :=
  NewMsgClaimAtomicSwap from (hex_EncodeToString swapID) (hex_EncodeToString randomNumber).

(** A claim message written from a swap identifier and a random number of 32
    bytes each passes the stateless validation, has exactly the sender as signer,
    and its handler is the keeper's claim at that identifier and number. *)
Theorem claim_msg_roundtrip ctx from a swapID rn s :
  AccAddressFromBech32 from = Ok a -> a <> [] ->
  Forall is_byte swapID -> Forall is_byte rn -> length swapID = 32%nat -> length rn = 32%nat ->
  MsgClaimAtomicSwap_ValidateBasic (claim_msg from swapID rn) = Ok tt
  /\ GetSigners from = Ok [a]
  /\ msgServer_ClaimAtomicSwap ctx (claim_msg from swapID rn) s = ClaimAtomicSwap ctx a swapID rn s.
Proof.
  intros Ha Hne Hid Hrn Li Lr.
  unfold MsgClaimAtomicSwap_ValidateBasic, GetSigners, msgServer_ClaimAtomicSwap, claim_msg; simpl.
  rewrite Ha; simpl. rewrite !hex_roundtrip by done. simpl.
  rewrite bool_decide_eq_false_2 by done. by rewrite Li, Lr.
Qed.

(** A create message that passes the stateless validation is decoded without
    error: the handler is the keeper's create at the decoded arguments, its hash
    has 32 bytes, its amounts are positive and its timestamp and span are too. *)
Theorem create_msg_decodes {sdk : SdkLaws} ctx msg s :
  MsgCreateAtomicSwap_ValidateBasic msg = Ok tt ->
  exists from to rnh,
    GetSigners (mcFrom msg) = Ok [from] /\ from <> [] /\ to <> []
    /\ length rnh = RandomNumberHashLength /\ Forall is_byte rnh
    /\ 0 < mcTimestamp msg /\ 0 < mcHeightSpan msg /\ Forall (fun c => 0 < Amount c) (mcAmount msg)
    /\ msgServer_CreateAtomicSwap ctx msg s
       = CreateAtomicSwap Maccs ctx rnh (mcTimestamp msg) (mcHeightSpan msg) from to
           (mcSenderOtherChain msg) (mcRecipientOtherChain msg) (mcAmount msg) true s.
Proof.
  unfold MsgCreateAtomicSwap_ValidateBasic. intros Hv. go_inv Hv. gobool.
  apply wrap_Ok in Hcall, Hcall0, Hcall1. exists r, r0, r1.
  unfold GetSigners, msgServer_CreateAtomicSwap. rewrite Hcall, Hcall0, Hcall1. simpl.
  split_and!; try done.
  - by apply Nat.eqb_eq.
  - by eapply hex_DecodeString_bytes.
  - destruct (Coins_IsValid_Ok (mcAmount msg)) as [Hf _]; [done|].
    eapply List.Forall_impl; [|exact Hf]. simpl. tauto.
Qed.

(** The swap that a valid create message stores passes the swap validation of
    the genesis import if its expiry height is not zero and the message names a
    sender on the other chain; a message without one is accepted all the same, and
    the stored swap then fails that validation. *)
Theorem created_swap_validates {sdk : SdkLaws} ctx msg s s' :
  MsgCreateAtomicSwap_ValidateBasic msg = Ok tt ->
  msgServer_CreateAtomicSwap ctx msg s = Ok s' ->
  exists id sw, AtomicSwaps s' !! id = Some sw /\ AtomicSwaps s !! id = None
  /\ (swExpireHeight sw <> 0 ->
      AtomicSwap_Validate sw
      = if bool_decide (TrimSpace (mcSenderOtherChain msg) = "") then Err ErrInvalidAddress else Ok tt).
Proof.
  intros Hv Hx. unfold MsgCreateAtomicSwap_ValidateBasic in Hv. go_inv Hv. gobool.
  apply wrap_Ok in Hcall, Hcall0, Hcall1.
  unfold msgServer_CreateAtomicSwap in Hx. rewrite Hcall, Hcall0, Hcall1 in Hx. simpl in Hx.
  apply CreateAtomicSwap_Ok in Hx as (c & a & dir & sup & sup' & b' & acc & Hx). cbn zeta in Hx.
  destruct Hx as (Hamt & Hnone & _ & _ & Hdir & _ & Heff & ->).
  eexists _, _. simpl. split_and!; [apply lookup_insert_eq|done|]. intros He. simpl in He.
  assert (IsAllPositive [c] = true) as Hpos.
  { apply IsAllPositive_iff. split; [done|]. rewrite <- Hamt.
    destruct (Coins_IsValid_Ok (mcAmount msg)) as [Hf _]; [done|].
    eapply List.Forall_impl; [|exact Hf]. simpl. tauto. }
  unfold AtomicSwap_Validate; simpl. rewrite Hamt in *.
  repeat match goal with
  | Hb : ?b = true |- context[?b] => rewrite Hb
  | Hb : ?b = false |- context[?b] => rewrite Hb
  end; simpl.
  rewrite (proj2 (Z.eqb_neq _ _) He), (proj2 (Z.eqb_neq (mcTimestamp msg) 0)) by lia.
  rewrite !(bool_decide_eq_false_2 (_ = [])) by done.
  rewrite (bool_decide_eq_false_2 (TrimSpace (mcRecipientOtherChain msg) = "")) by done.
  case_bool_decide; [done|]. by destruct Heff as [(-> & _)|(-> & _)].
Qed.
End Msg.
