(* ===== verification/Bep3Genesis.v ===== *)
(** * x/bep3: genesis

    The genesis state with its validation ([types/genesis.go]), its import and
    its export ([genesis.go]).  A state that the module can reach is restored by
    importing its export. *)

From S2P Require Import Prelude Sdk GoStd Bank Bep3Types Bep3Keeper Bep3Inv Bep3Safety Bep3Theorems.

Record GenesisState : Type := NewGenesisState {
  gsParams : Params;
  gsAtomicSwaps : list AtomicSwap;
  gsSupplies : list AssetSupply;
  gsPreviousBlockTime : Z
}.

(** [tmtime.Canonical(time.Unix(1, 0))], in nanoseconds. *)
Definition DefaultPreviousBlockTime : Z := 1000000000.
Definition DefaultGenesisState : GenesisState :=
  NewGenesisState DefaultParams [] [] DefaultPreviousBlockTime.

Section Genesis.
  Context {cfg : SdkConfig} {sdk : SdkLaws} {gostr : GoStrings} {hash : TmHash} {B A : Type}
    {bk : BankKeeper B} {ak : AccountKeeper A}.
  Implicit Types s : State B A.

(** ** Validation *)
Definition validate_swap (swap : AtomicSwap) (ids : gset string) : outcome (gset string) :=
  if bool_decide (hex_EncodeToString (GetSwapID swap) ∈ ids)
  then Err (Plain "found duplicate atomic swap ID") else
  let! _ := AtomicSwap_Validate swap in
  Ok ({[hex_EncodeToString (GetSwapID swap)]} ∪ ids).

Definition validate_supply (supply : AssetSupply) (supplyDenoms : gset string) : outcome (gset string) :=
  let! _ := AssetSupply_Validate supply in
  if bool_decide (AssetSupply_GetDenom supply ∈ supplyDenoms)
  then Err (Plain "found duplicate denom in asset supplies") else
  Ok ({[AssetSupply_GetDenom supply]} ∪ supplyDenoms).

Definition GenesisState_Validate (gs : GenesisState) : outcome unit :=
  let! _ := Params_Validate (gsParams gs) in
  let! _ := ofold validate_swap (gsAtomicSwaps gs) ∅ in
  let! _ := ofold validate_supply (gsSupplies gs) ∅ in
  Ok tt.

(** ** Import *)

(** One iteration of the loop over the swaps; the loop carries the state and the
    coins of the incoming and of the outgoing pending swaps. *)
Definition init_swap (swap : AtomicSwap) (st : State B A * Coins * Coins)
    : outcome (State B A * Coins * Coins) :=
  let '(s, incomingSupplies, outgoingSupplies) := st in
  let! _ := must (AtomicSwap_Validate swap) in
  let! coin := first_coin (swAmount swap) in
  let! _ := must (ValidateLiveAsset s coin) in
  let s := SetAtomicSwap swap s in
  match swDirection swap with
  | SWAP_DIRECTION_INCOMING =>
      match swStatus swap with
      | SWAP_STATUS_OPEN =>
          let s := InsertIntoByBlockIndex swap s in
          let! incomingSupplies := Coins_Add incomingSupplies (swAmount swap) in
          Ok (s, incomingSupplies, outgoingSupplies)
      | SWAP_STATUS_EXPIRED =>
          let! incomingSupplies := Coins_Add incomingSupplies (swAmount swap) in
          Ok (s, incomingSupplies, outgoingSupplies)
      | SWAP_STATUS_COMPLETED =>
          Ok (InsertIntoLongtermStorage swap s, incomingSupplies, outgoingSupplies)
      | _ => Panic "swap has invalid status"
      end
  | SWAP_DIRECTION_OUTGOING =>
      match swStatus swap with
      | SWAP_STATUS_OPEN =>
          let s := InsertIntoByBlockIndex swap s in
          let! outgoingSupplies := Coins_Add outgoingSupplies (swAmount swap) in
          Ok (s, incomingSupplies, outgoingSupplies)
      | SWAP_STATUS_EXPIRED =>
          let! outgoingSupplies := Coins_Add outgoingSupplies (swAmount swap) in
          Ok (s, incomingSupplies, outgoingSupplies)
      | SWAP_STATUS_COMPLETED =>
          Ok (InsertIntoLongtermStorage swap s, incomingSupplies, outgoingSupplies)
      | _ => Panic "swap has invalid status"
      end
  | _ => Panic "swap has invalid direction"
  end.

(** One iteration of the loop over the stored supplies. *)
Definition check_supply (incomingSupplies outgoingSupplies : Coins) s (supply : AssetSupply)
    (_ : unit) : outcome unit :=
  let denom := AssetSupply_GetDenom supply in
  if negb (Amount (IncomingSupply supply) =? AmountOf incomingSupplies denom)
  then Panic "asset's incoming supply does not match amount in incoming atomic swaps" else
  if negb (Amount (OutgoingSupply supply) =? AmountOf outgoingSupplies denom)
  then Panic "asset's outgoing supply does not match amount in outgoing atomic swaps" else
  let! limit := must (GetSupplyLimit s denom) in
  if Amount (CurrentSupply supply) >? Limit limit
  then Panic "asset's current supply is over the supply limit" else
  if Amount (IncomingSupply supply) >? Limit limit
  then Panic "asset's incoming supply is over the supply limit" else
  let! total := int_chk (Amount (IncomingSupply supply) + Amount (CurrentSupply supply)) in
  if total >? Limit limit
  then Panic "asset's incoming supply + current supply is over the supply limit" else
  if Amount (OutgoingSupply supply) >? Limit limit
  then Panic "asset's outgoing supply is over the supply limit" else
  Ok tt.

Definition InitGenesis (gs : GenesisState) s : outcome (State B A) :=
  let '(moduleAcc, acc) := GetModuleAccount ModuleName (accounts s) in
  let s := with_accounts acc s in
  match moduleAcc with
  | None => Panic "module account has not been set"
  | Some permissions =>
  if negb (bool_decide ("burner" ∈ permissions))
  then Panic "module account does not have burn permissions" else
  if negb (bool_decide ("minter" ∈ permissions))
  then Panic "module account does not have mint permissions" else
  let! _ := must (GenesisState_Validate gs) in
  let s := SetPreviousBlockTime (gsPreviousBlockTime gs) s in
  let! s := SetParams (gsParams gs) s in
  let s := foldl (fun s supply => SetAssetSupply supply (AssetSupply_GetDenom supply) s) s (gsSupplies gs) in
  let! '(s, incomingSupplies, outgoingSupplies) := ofold init_swap (gsAtomicSwaps gs) (s, [], []) in
  let! _ := ofold (check_supply incomingSupplies outgoingSupplies s) (GetAllAssetSupplies s) tt in
  Ok s
  end.

(** ** Export *)
Definition ExportGenesis s : GenesisState :=
  NewGenesisState (params s) (GetAllAtomicSwaps s) (GetAllAssetSupplies s)
    (default DefaultPreviousBlockTime (GetPreviousBlockTime s)).

(** ** The loop over the swaps *)

(** After the swaps of [m] have been imported into the state [s0]. *)
Record imported s0 (m : gmap bytes AtomicSwap) (st : State B A * Coins * Coins) : Prop := {
  im_swaps : AtomicSwaps st.1.1 = m;
  im_byblock : index_ok SWAP_STATUS_OPEN swExpireHeight m (AtomicSwapByBlock st.1.1);
  im_longterm : index_ok SWAP_STATUS_COMPLETED deletionHeight m (AtomicSwapLongtermStorage st.1.1);
  im_frame : frame s0 st.1.1;
  im_valid : Coins_IsValid st.1.2 = true /\ Coins_IsValid st.2 = true;
  im_in : forall d, AmountOf st.1.2 d = pending_sum SWAP_DIRECTION_INCOMING d m;
  im_out : forall d, AmountOf st.2 d = pending_sum SWAP_DIRECTION_OUTGOING d m
}.

Lemma Validate_coins sw : AtomicSwap_Validate sw = Ok tt -> Coins_IsValid (swAmount sw) = true.
Proof. unfold AtomicSwap_Validate. intros Hv. go_inv Hv. by gobool. Qed.

Lemma must_Ok {T} (o : outcome T) r : must o = Ok r -> o = Ok r.
Proof. by destruct o. Qed.

Lemma weight_pending dir d sw :
  weight dir d sw = if bool_decide (swDirection sw = dir)
                    then if pending (swStatus sw) then AmountOf (swAmount sw) d else 0 else 0.
Proof. unfold weight. by destruct (bool_decide _), (pending _). Qed.

(** The index that an imported swap enters. *)
Definition index_swap (sw : AtomicSwap) s : State B A :=
  match swStatus sw with
  | SWAP_STATUS_OPEN => InsertIntoByBlockIndex sw s
  | SWAP_STATUS_COMPLETED => InsertIntoLongtermStorage sw s
  | _ => s
  end.

(** [c'] is [c] with the weight of [sw] in the direction [dir] added. *)
Definition counts (dir : SwapDirection) (sw : AtomicSwap) (c c' : Coins) : Prop :=
  Coins_IsValid c = true ->
  Coins_IsValid c' = true /\ forall d, AmountOf c' d = AmountOf c d + weight dir d sw.

Lemma counts_none dir sw c : (forall d, weight dir d sw = 0) -> counts dir sw c c.
Proof. intros Hw Hv. split; [done|]. intros d. rewrite Hw. lia. Qed.

Lemma counts_add dir sw c c' :
  Coins_IsValid (swAmount sw) = true -> swDirection sw = dir -> pending (swStatus sw) = true ->
  Coins_Add c (swAmount sw) = Ok c' -> counts dir sw c c'.
Proof.
  intros Hv Hd Hp Ha Hc. destruct (Coins_Add_Ok _ _ _ Hc Hv Ha) as [Hv' Hs]. split; [done|].
  intros d. by rewrite Hs, weight_pending, Hp, bool_decide_eq_true_2.
Qed.

Lemma init_swap_Ok sw s inc out s' inc' out' :
  init_swap sw (s, inc, out) = Ok (s', inc', out') ->
  AtomicSwap_Validate sw = Ok tt /\ s' = index_swap sw (SetAtomicSwap sw s)
  /\ counts SWAP_DIRECTION_INCOMING sw inc inc' /\ counts SWAP_DIRECTION_OUTGOING sw out out'
  /\ (SwapStatus_IsValid (swStatus sw) = true /\ SwapDirection_IsValid (swDirection sw) = true)
  /\ exists coin rest, swAmount sw = coin :: rest /\ ValidateLiveAsset s coin = Ok tt.
Proof.
  unfold init_swap. intros Hx. apply obind_Ok in Hx as ([] & Hv%must_Ok & Hx).
  apply obind_Ok in Hx as (coin & Hc & Hx). apply obind_Ok in Hx as ([] & Hlive%must_Ok & Hx).
  pose proof (Validate_coins _ Hv) as Hvc.
  assert (exists coin rest, swAmount sw = coin :: rest /\ ValidateLiveAsset s coin = Ok tt) as Hcoin.
  { destruct (swAmount sw) as [|c r]; [discriminate|]. injection Hc as ->. eauto. }
  split; [done|]. unfold index_swap.
  destruct (swDirection sw) eqn:Hd; try discriminate Hx;
    destruct (swStatus sw) eqn:Hs; try discriminate Hx; go_inv Hx; subst;
    (split_and!; [done| | |done|done|done]);
    first [eapply counts_add; by rewrite ?Hs
          |apply counts_none; intros d; by rewrite weight_pending, Hd, Hs].
Qed.

Lemma init_swap_imported s0 m sw st st' :
  imported s0 m st -> m !! GetSwapID sw = None -> init_swap sw st = Ok st' ->
  imported s0 (<[GetSwapID sw := sw]> m) st'.
Proof.
  destruct st as [[s inc] out], st' as [[s' inc'] out'].
  intros [Hm Hb Hl Hf [Hvi Hvo] Hin Hout] Hnew Hx. simpl in *.
  apply init_swap_Ok in Hx as (_ & -> & Hci & Hco & [Hs _] & _).
  destruct (Hci Hvi) as [Hvi' Hi'], (Hco Hvo) as [Hvo' Ho'].
  assert (forall st sw0, m !! GetSwapID sw = Some sw0 -> swStatus sw0 <> st) as Hfresh
    by (rewrite Hnew; done).
  assert (forall dir d, pending_sum dir d (<[GetSwapID sw := sw]> m) = weight dir d sw + pending_sum dir d m)
    as Hsum by (intros; unfold pending_sum; by rewrite map_sum_insert_new).
  assert (index_ok SWAP_STATUS_OPEN swExpireHeight (<[GetSwapID sw := sw]> m)
            (AtomicSwapByBlock (index_swap sw (SetAtomicSwap sw s)))) as Hb'.
  { unfold index_swap. destruct (swStatus sw) eqn:Est; simpl; try discriminate Hs.
    - apply (index_insert _ swExpireHeight _ _ Hb); [apply Hfresh|done].
    - apply (index_untouched _ _ _ _ Hb); [apply Hfresh|by rewrite Est].
    - apply (index_untouched _ _ _ _ Hb); [apply Hfresh|by rewrite Est]. }
  assert (index_ok SWAP_STATUS_COMPLETED deletionHeight (<[GetSwapID sw := sw]> m)
            (AtomicSwapLongtermStorage (index_swap sw (SetAtomicSwap sw s)))) as Hl'.
  { unfold index_swap. destruct (swStatus sw) eqn:Est; simpl; try discriminate Hs.
    - apply (index_untouched _ _ _ _ Hl); [apply Hfresh|by rewrite Est].
    - apply (index_insert _ deletionHeight _ _ Hl); [apply Hfresh|done].
    - apply (index_untouched _ _ _ _ Hl); [apply Hfresh|by rewrite Est]. }
  split; simpl; [|done|done| |done|intros d; rewrite Hsum, Hi', Hin; lia|intros d; rewrite Hsum, Ho', Hout; lia];
    unfold index_swap; by destruct (swStatus sw); simpl; rewrite ?Hm.
Qed.

Lemma init_swaps_imported s0 l m st st' :
  imported s0 m st -> NoDup (GetSwapID <$> l) -> (forall sw, sw ∈ l -> m !! GetSwapID sw = None) ->
  ofold init_swap l st = Ok st' ->
  imported s0 (list_to_map ((fun sw => (GetSwapID sw, sw)) <$> l) ∪ m) st'.
Proof.
  revert m st. induction l as [|sw l IH]; intros m st Hi Hnd Hnew Hx; simpl in Hx.
  { injection Hx as <-. simpl. by rewrite map_empty_union. }
  apply obind_Ok in Hx as (st1 & H1 & Hx). apply NoDup_cons in Hnd as [Hd Hnd].
  eapply (IH (<[GetSwapID sw := sw]> m)) in Hx; [|by eapply init_swap_imported; [|apply Hnew; left|]|done|].
  - simpl. rewrite <- insert_union_l, insert_union_r; [done|].
    apply not_elem_of_list_to_map_1. rewrite <- list_fmap_compose. done.
  - intros sw' Hin. rewrite lookup_insert_ne; [apply Hnew; by right|].
    intros E. apply Hd. rewrite E. by apply list_elem_of_fmap_2.
Qed.

(** ** A run that does not fail *)

(** What the import of one swap needs. *)
Definition importable (ps : Params) (sw : AtomicSwap) : Prop :=
  AtomicSwap_Validate sw = Ok tt
  /\ SwapStatus_IsValid (swStatus sw) = true /\ SwapDirection_IsValid (swDirection sw) = true
  /\ exists coin a, swAmount sw = [coin] /\ 0 < Amount coin
     /\ find_asset (Denom coin) (AssetParams ps) = Some a /\ apActive a = true.

Lemma importable_weight ps sw dir d : importable ps sw -> 0 <= weight dir d sw.
Proof.
  intros (_ & _ & _ & c & a & Hc & Hpos & _). rewrite (weight_one _ _ _ _ Hc). repeat case_match; lia.
Qed.

Lemma init_swap_total s0 m sw st :
  imported s0 m st -> importable (params s0) sw ->
  (forall dir d, pending_sum dir d m + weight dir d sw < 2 ^ 256) ->
  exists st', init_swap sw st = Ok st'.
Proof.
  destruct st as [[s inc] out]. intros [Hm Hb Hl Hf [Hvi Hvo] Hin Hout] (Hv & Hst & Hdir & c & a & Hc & Hpos & Ha & Hact) Hfit.
  simpl in *. destruct Hf as (_ & _ & Hps & _).
  unfold init_swap. rewrite Hv, Hc. simpl. unfold ValidateLiveAsset, GetAsset. rewrite Hps, Ha. simpl.
  rewrite Hact. simpl. pose proof (Validate_coins _ Hv) as Hvc. rewrite Hc in Hvc.
  assert (forall c0 dir, Coins_IsValid c0 = true -> swDirection sw = dir -> pending (swStatus sw) = true ->
    (forall d, AmountOf c0 d = pending_sum dir d m) -> exists r, Coins_Add c0 [c] = Ok r) as Hadd.
  { intros c0 dir Hv0 Hd Hp Hs. apply Coins_Add_total; [done|done|]. intros d. rewrite Hs.
    specialize (Hfit dir d). rewrite weight_pending, Hp, bool_decide_eq_true_2, Hc in Hfit by done. done. }
  destruct (swDirection sw) eqn:Hd; try discriminate Hdir;
    destruct (swStatus sw) eqn:Hs; try discriminate Hst; try (eexists; reflexivity).
  1,2: edestruct (Hadd inc) as (r & ->); eauto; simpl; eauto.
  all: edestruct (Hadd out) as (r & ->); eauto; simpl; eauto.
Qed.

Lemma init_swaps_total s0 l m st :
  imported s0 m st -> NoDup (GetSwapID <$> l) -> (forall sw, sw ∈ l -> m !! GetSwapID sw = None) ->
  (forall sw, sw ∈ l -> importable (params s0) sw) ->
  (forall dir d, pending_sum dir d m + list_sum (weight dir d) l < 2 ^ 256) ->
  exists st', ofold init_swap l st = Ok st'.
Proof.
  revert m st. induction l as [|sw l IH]; intros m st Hi Hnd Hnew Himp Hfit; simpl; [eauto|].
  apply NoDup_cons in Hnd as [Hd Hnd].
  assert (Hnn : forall dir d, 0 <= list_sum (weight dir d) l).
  { intros dir d. apply list_sum_nonneg. intros sw' Hsw'. eapply importable_weight, Himp. by right. }
  destruct (init_swap_total s0 m sw st Hi) as (st1 & H1); [apply Himp; left| |].
  { intros dir d. specialize (Hfit dir d). specialize (Hnn dir d). unfold list_sum in *. simpl in Hfit. lia. }
  rewrite H1. simpl. apply (IH (<[GetSwapID sw := sw]> m)).
  - eapply init_swap_imported; [exact Hi|apply Hnew; left|exact H1].
  - done.
  - intros sw' Hin. rewrite lookup_insert_ne; [apply Hnew; by right|].
    intros E. apply Hd. rewrite E. by apply list_elem_of_fmap_2.
  - intros sw' Hin. apply Himp. by right.
  - intros dir d. unfold pending_sum. rewrite map_sum_insert_new by (apply Hnew; left).
    specialize (Hfit dir d). unfold list_sum, pending_sum in *. simpl in Hfit. lia.
Qed.

(** The index of a set of swaps is determined by them. *)
Lemma index_unique (st : SwapStatus) (h : AtomicSwap -> Z) (m : gmap bytes AtomicSwap) (I J : gmap bytes bytes) :
  index_ok st h m I -> index_ok st h m J -> I = J.
Proof.
  intros HI HJ. apply map_eq. intros k. destruct (I !! k) as [id|] eqn:E.
  - symmetry. by apply HJ, HI.
  - destruct (J !! k) as [id|] eqn:F; [|done]. apply HJ, HI in F. congruence.
Qed.

(** ** Validation of an exported state *)
Section Export.
  Context {hlaws : TmHashLaws}.

Lemma validate_swaps_total l (ids : gset string) :
  (forall sw, sw ∈ l -> AtomicSwap_Validate sw = Ok tt) -> NoDup (GetSwapID <$> l) ->
  (forall sw, sw ∈ l -> hex_EncodeToString (GetSwapID sw) ∉ ids) ->
  exists ids', ofold validate_swap l ids = Ok ids'.
Proof.
  revert ids. induction l as [|sw l IH]; intros ids Hv Hnd Hnew; simpl; [eauto|].
  apply NoDup_cons in Hnd as [Hd Hnd]. unfold validate_swap at 1.
  rewrite bool_decide_eq_false_2 by (apply Hnew; left). rewrite Hv by left. simpl.
  apply IH; [intros; apply Hv; by right|done|]. intros sw' Hin.
  rewrite not_elem_of_union, not_elem_of_singleton. split; [|apply Hnew; by right].
  intros E. apply hex_EncodeToString_inj in E; [|apply tmhash_bytes|apply tmhash_bytes].
  apply Hd. rewrite <- E. by apply list_elem_of_fmap_2.
Qed.
End Export.

Lemma validate_supplies_total (l : list AssetSupply) (ds : gset string) :
  (forall sup, sup ∈ l -> AssetSupply_Validate sup = Ok tt) -> NoDup (AssetSupply_GetDenom <$> l) ->
  (forall sup, sup ∈ l -> AssetSupply_GetDenom sup ∉ ds) ->
  exists ds', ofold validate_supply l ds = Ok ds'.
Proof.
  revert ds. induction l as [|sup l IH]; intros ds Hv Hnd Hnew; simpl; [eauto|].
  apply NoDup_cons in Hnd as [Hd Hnd]. unfold validate_supply at 1. rewrite Hv by left. simpl.
  rewrite bool_decide_eq_false_2 by (apply Hnew; left). simpl.
  apply IH; [intros; apply Hv; by right|done|]. intros sup' Hin.
  rewrite not_elem_of_union, not_elem_of_singleton. split; [|apply Hnew; by right].
  intros E. apply Hd. rewrite <- E. by apply list_elem_of_fmap_2.
Qed.

Lemma coins_ok_Validate d sup :
  ValidateDenom d = true -> coins_ok d sup -> AssetSupply_Validate sup = Ok tt.
Proof.
  intros Hd [[E1 ?] [E2 ?] [E3 ?] [E4 ?]]. unfold AssetSupply_Validate.
  rewrite !(proj2 (Coin_IsValid_iff _)) by (split; [congruence|lia]). simpl.
  by rewrite E1, E2, E3, E4, bool_decide_eq_true_2.
Qed.

(** ** The whole import *)

(** A state in which the module has stored nothing yet. *)
Record fresh s : Prop := {
  fr_swaps : AtomicSwaps s = ∅;
  fr_byblock : AtomicSwapByBlock s = ∅;
  fr_longterm : AtomicSwapLongtermStorage s = ∅;
  fr_supplies : AssetSupplies s = ∅
}.

Lemma index_empty st h : index_ok st h ∅ ∅.
Proof.
  intros k id. rewrite lookup_empty. split; [done|]. intros (sw & Hsw & _). by rewrite lookup_empty in Hsw.
Qed.

(** The state before the loop over the swaps. *)
Definition prepared (acc : A) (gs : GenesisState) s : State B A :=
  mkState (AtomicSwaps s) (AtomicSwapByBlock s) (AtomicSwapLongtermStorage s)
    (foldl (fun u supply => <[AssetSupply_GetDenom supply := supply]> u) (AssetSupplies s) (gsSupplies gs))
    (Some (gsPreviousBlockTime gs)) (gsParams gs) (bank s) acc.

Lemma foldl_SetAssetSupply l s :
  foldl (fun s supply => SetAssetSupply supply (AssetSupply_GetDenom supply) s) s l
  = with_supplies (foldl (fun u supply => <[AssetSupply_GetDenom supply := supply]> u) (AssetSupplies s) l) s.
Proof.
  revert s. induction l as [|x l IH]; intros s; simpl; [by destruct s|]. rewrite IH. by destruct s.
Qed.

Lemma prepared_imported acc gs s : fresh s -> imported (prepared acc gs s) ∅ (prepared acc gs s, [], []).
Proof.
  intros [E1 E2 E3 E4]. split; simpl; rewrite ?E1, ?E2, ?E3; try done;
    try apply index_empty; try (split; apply Coins_IsValid_nil).
Qed.

(** The successful import, without its checks. *)
Lemma InitGenesis_unfold gs s perms acc :
  GetModuleAccount ModuleName (accounts s) = (Some perms, acc) ->
  "burner" ∈ perms -> "minter" ∈ perms -> GenesisState_Validate gs = Ok tt ->
  InitGenesis gs s =
    let! '(s1, inc, out) := ofold init_swap (gsAtomicSwaps gs) (prepared acc gs s, [], []) in
    let! _ := ofold (check_supply inc out s1) (GetAllAssetSupplies s1) tt in
    Ok s1.
Proof.
  intros Hacc Hb Hm Hv. unfold InitGenesis. rewrite Hacc, !bool_decide_eq_true_2 by done. simpl.
  rewrite Hv. simpl. unfold SetParams. unfold GenesisState_Validate in Hv.
  apply obind_Ok in Hv as ([] & -> & _). simpl. rewrite foldl_SetAssetSupply. done.
Qed.

(** The supplies listed by denomination, read back. *)
Lemma foldl_supplies (u : gmap string AssetSupply) (l : list (string * AssetSupply)) :
  l ≡ₚ map_to_list u -> (forall d sup, u !! d = Some sup -> AssetSupply_GetDenom sup = d) ->
  foldl (fun u supply => <[AssetSupply_GetDenom supply := supply]> u) ∅ l.*2 = u.
Proof.
  intros Hl Hd.
  assert (forall (l : list (string * AssetSupply)) (u0 : gmap string AssetSupply),
    (forall kv, kv ∈ l -> AssetSupply_GetDenom kv.2 = kv.1) -> NoDup l.*1 ->
    foldl (fun u supply => <[AssetSupply_GetDenom supply := supply]> u) u0 l.*2 = list_to_map l ∪ u0) as Hf.
  { clear. induction l as [|[k v] l IH]; intros u0 Hk Hnd; simpl; [by rewrite map_empty_union|].
    apply NoDup_cons in Hnd as [Hni Hnd]. rewrite IH; [|intros; apply Hk; by right|done].
    assert (AssetSupply_GetDenom v = k) as -> by (apply (Hk (k, v)); left). rewrite <- insert_union_l, insert_union_r; [done|].
    by apply not_elem_of_list_to_map_1. }
  rewrite Hf.
  - rewrite (right_id_L ∅ (∪)). etrans; [|apply (list_to_map_to_list u)].
    apply list_to_map_proper; [|done]. rewrite Hl. apply NoDup_fst_map_to_list.
  - intros [k v] Hin. simpl. apply Hd. rewrite Hl in Hin. by apply elem_of_map_to_list.
  - rewrite Hl. apply NoDup_fst_map_to_list.
Qed.

(** The exported swaps, read back. *)
Lemma exported_swaps s :
  store_ok s ->
  NoDup (GetSwapID <$> GetAllAtomicSwaps s)
  /\ list_to_map ((fun sw => (GetSwapID sw, sw)) <$> GetAllAtomicSwaps s) = AtomicSwaps s
  /\ (forall sw, sw ∈ GetAllAtomicSwaps s <-> exists id, AtomicSwaps s !! id = Some sw)
  /\ (forall dir d, list_sum (weight dir d) (GetAllAtomicSwaps s) = pending_sum dir d (AtomicSwaps s)).
Proof.
  intros Hst. unfold GetAllAtomicSwaps, iterator. set (l := merge_sort _ _).
  assert (Hl : l ≡ₚ map_to_list (AtomicSwaps s)).
  { unfold l. rewrite merge_sort_Permutation.
    induction (map_to_list (AtomicSwaps s)) as [|x r IH]; [done|]. rewrite filter_cons_True by done. by constructor. }
  assert (E : (fun sw => (GetSwapID sw, sw)) <$> l.*2 = l).
  { rewrite <- list_fmap_compose. rewrite <- (list_fmap_id l) at 2. apply list_fmap_ext.
    intros i [k v] Hi. apply list_elem_of_lookup_2 in Hi. rewrite Hl in Hi.
    apply elem_of_map_to_list in Hi. simpl. by rewrite (sok_id _ _ (st_swaps _ Hst _ _ Hi)). }
  split_and!.
  - assert (GetSwapID <$> l.*2 = l.*1) as ->.
    { rewrite <- E at 2. by rewrite <- (list_fmap_compose _ fst). }
    rewrite Hl. apply NoDup_fst_map_to_list.
  - rewrite E. etrans; [|apply (list_to_map_to_list (AtomicSwaps s))].
    apply list_to_map_proper; [|done]. rewrite Hl. apply NoDup_fst_map_to_list.
  - intros sw. rewrite Hl. rewrite list_elem_of_fmap. split.
    + intros ([k v] & -> & Hin). apply elem_of_map_to_list in Hin. eauto.
    + intros (id & Hid). exists (id, sw). split; [done|]. by apply elem_of_map_to_list.
  - intros dir d. rewrite Hl. unfold pending_sum. by rewrite map_sum_list_sum.
Qed.

Lemma check_supplies_total inc out s l :
  (forall sup, sup ∈ l -> check_supply inc out s sup tt = Ok tt) ->
  ofold (check_supply inc out s) l tt = Ok tt.
Proof.
  induction l as [|sup l IH]; intros Hc; simpl; [done|]. rewrite Hc by left. simpl.
  apply IH. intros. apply Hc. by right.
Qed.

(** What an export must satisfy to be imported again, beyond the invariants: the
    swaps pass their validation, their assets are listed and active, and every
    supply is of a listed asset and within its limits. *)
Definition exportable s : Prop :=
  (forall id sw, AtomicSwaps s !! id = Some sw -> importable (params s) sw)
  /\ (forall d sup, AssetSupplies s !! d = Some sup ->
       exists a, find_asset d (AssetParams (params s)) = Some a)
  /\ limits_ok s.

Lemma elem_of_supplies s sup :
  sup ∈ GetAllAssetSupplies s <-> exists d, AssetSupplies s !! d = Some sup.
Proof.
  unfold GetAllAssetSupplies. rewrite (string_iterator_Permutation (AssetSupplies s)), list_elem_of_fmap. split.
  - intros ([k v] & -> & Hin). apply elem_of_map_to_list in Hin. eauto.
  - intros (d & Hsup). exists (d, sup). split; [done|]. by apply elem_of_map_to_list.
Qed.

Lemma exported_supplies s :
  supply_ok s ->
  NoDup (AssetSupply_GetDenom <$> GetAllAssetSupplies s)
  /\ foldl (fun u supply => <[AssetSupply_GetDenom supply := supply]> u) ∅ (GetAllAssetSupplies s)
     = AssetSupplies s.
Proof.
  intros Hs. unfold GetAllAssetSupplies. pose proof (string_iterator_Permutation (AssetSupplies s)) as Hl.
  assert (Hd : forall d sup, AssetSupplies s !! d = Some sup -> AssetSupply_GetDenom sup = d).
  { intros d sup Hsup. apply (su_coins _ _ Hs) in Hsup as [_ _ [? _] _]. done. }
  split_and!.
  - rewrite Hl. assert (AssetSupply_GetDenom <$> (map_to_list (AssetSupplies s)).*2 = (map_to_list (AssetSupplies s)).*1) as ->.
    { rewrite <- list_fmap_compose. apply list_fmap_ext. intros i [k v] Hi.
      apply list_elem_of_lookup_2, elem_of_map_to_list in Hi. simpl. by apply Hd. }
    apply NoDup_fst_map_to_list.
  - by apply foldl_supplies.
Qed.

Lemma exported_valid {hlaws : TmHashLaws} s :
  inv s -> exportable s -> GenesisState_Validate (ExportGenesis s) = Ok tt.
Proof.
  intros [[Hp _] Hst Hsu _] (Hsw & Hsup & _).
  destruct (exported_swaps s Hst) as (Hnd & _ & Hin & _).
  destruct (exported_supplies s Hsu) as (Hnd' & _).
  unfold GenesisState_Validate; simpl. rewrite Hp. simpl.
  destruct (validate_swaps_total (GetAllAtomicSwaps s) ∅) as (ids & ->); [|done|set_solver|].
  { intros sw [id Hid]%Hin. apply (Hsw _ _ Hid). }
  simpl. destruct (validate_supplies_total (GetAllAssetSupplies s) ∅) as (ds & ->); [|done|set_solver|done].
  intros sup [d Hd]%elem_of_supplies. destruct (Hsup _ _ Hd) as (a & Ha).
  apply (coins_ok_Validate d); [|by apply (su_coins _ _ Hsu)].
  apply Params_Validate_Ok in Hp as [Hall _]. apply List.find_some in Ha as [Hina E].
  rewrite List.Forall_forall in Hall. gobool. subst d. apply (ok_denom _ (Hall _ Hina)).
Qed.

Lemma exported_supply_checks s s1 inc out sup :
  inv s -> exportable s -> params s1 = params s ->
  (forall d, AmountOf inc d = pending_sum SWAP_DIRECTION_INCOMING d (AtomicSwaps s)) ->
  (forall d, AmountOf out d = pending_sum SWAP_DIRECTION_OUTGOING d (AtomicSwaps s)) ->
  sup ∈ GetAllAssetSupplies s -> check_supply inc out s1 sup tt = Ok tt.
Proof.
  intros Hi (_ & Hlisted & Hl) Hps Hinc Hout Hin. pose proof (inv_supply _ Hi) as Hsu.
  apply elem_of_supplies in Hin as [d Hd]. destruct (Hlisted _ _ Hd) as (a & Ha).
  pose proof (su_coins _ _ Hsu _ _ Hd) as [[? Ri] [? Ro] [Ed Rc] _].
  pose proof (su_in _ _ Hsu d) as Ein. pose proof (su_out _ _ Hsu d) as Eout.
  pose proof (su_avail _ _ Hsu d) as Hav. rewrite !(supply_amount_lookup _ _ _ _ Hd) in *.
  destruct (Hl _ _ _ Hd Ha) as [Hlim _].
  assert (Limit (apSupplyLimit a) < 2 ^ 256) as Hmax.
  { destruct (inv_params _ Hi) as [_ Hall]. rewrite List.Forall_forall in Hall.
    apply List.find_some in Ha as [Hina _]. by apply Hall. }
  unfold check_supply, AssetSupply_GetDenom. rewrite Ed, Hinc, Hout, <- Ein, <- Eout, !Z.eqb_refl. simpl.
  unfold GetSupplyLimit, GetAsset. rewrite Hps, Ha. simpl. rewrite !Z.gtb_ltb.
  rewrite int_chk_fits by lia. rewrite !(proj2 (Z.ltb_ge _ _)) by lia. simpl.
  rewrite Z.gtb_ltb, !(proj2 (Z.ltb_ge _ _)) by lia. done.
Qed.

Lemma pending_sum_bound s dir (d : string) : inv s -> pending_sum dir d (AtomicSwaps s) < 2 ^ 256.
Proof.
  intros [_ Hst Hsu _].
  assert (forall f, (forall sup, AssetSupplies s !! d = Some sup -> Amount (f sup) < 2 ^ 256) ->
    supply_amount f (AssetSupplies s) d < 2 ^ 256) as Hb.
  { intros f Hf. unfold supply_amount. destruct (AssetSupplies s !! d) as [sup|]; simpl; [by apply Hf|lia]. }
  destruct (decide (dir = SWAP_DIRECTION_INCOMING)) as [->|H1];
    [|destruct (decide (dir = SWAP_DIRECTION_OUTGOING)) as [->|H2]].
  - rewrite <- (su_in _ _ Hsu d). apply Hb. intros sup Hsup. apply (su_coins _ _ Hsu) in Hsup as [[_ ?] _ _ _]. lia.
  - rewrite <- (su_out _ _ Hsu d). apply Hb. intros sup Hsup. apply (su_coins _ _ Hsu) in Hsup as [_ [_ ?] _ _]. lia.
  - unfold pending_sum. rewrite map_sum_zero; [lia|]. intros id sw Hsw. rewrite weight_pending.
    pose proof (sok_direction _ _ (st_swaps _ Hst _ _ Hsw)) as Hd.
    rewrite bool_decide_eq_false_2; [done|]. intros E. destruct (swDirection sw); subst; done.
Qed.

(** C30: export and import are inverse: for a state that satisfies the invariants
    and whose swaps and assets the import accepts, importing the export into an
    empty store succeeds and restores the swaps, both height indexes, the
    supplies, the parameters and the block time. *)
Theorem export_import {hlaws : TmHashLaws} s s0 perms acc :
  inv s -> exportable s -> fresh s0 ->
  GetModuleAccount ModuleName (accounts s0) = (Some perms, acc) ->
  "burner" ∈ perms -> "minter" ∈ perms ->
  InitGenesis (ExportGenesis s) s0
  = Ok (mkState (AtomicSwaps s) (AtomicSwapByBlock s) (AtomicSwapLongtermStorage s) (AssetSupplies s)
          (Some (default DefaultPreviousBlockTime (PreviousBlockTime s))) (params s) (bank s0) acc).
Proof.
  intros Hi He Hfr Hacc Hb Hm.
  rewrite (InitGenesis_unfold _ _ _ _ Hacc Hb Hm (exported_valid s Hi He)).
  destruct (exported_swaps s (inv_store _ Hi)) as (Hnd & Hmap & Hin & Hsum).
  destruct (exported_supplies s (inv_supply _ Hi)) as (_ & Hsup).
  pose proof (prepared_imported acc (ExportGenesis s) s0 Hfr) as Hprep.
  set (p := prepared acc (ExportGenesis s) s0) in *.
  edestruct (init_swaps_total p (GetAllAtomicSwaps s)) as ([[s1 inc] out] & Hrun); [exact Hprep|done|done| | |].
  { intros sw [id Hid]%Hin. by apply (proj1 He id). }
  { intros dir d. rewrite Hsum. unfold pending_sum at 1. rewrite map_sum_empty.
    pose proof (pending_sum_bound s dir d Hi). lia. }
  change (gsAtomicSwaps (ExportGenesis s)) with (GetAllAtomicSwaps s).
  rewrite Hrun. simpl. eapply init_swaps_imported in Hrun; [|exact Hprep|done|done].
  rewrite Hmap, (right_id_L ∅ (∪)) in Hrun.
  destruct Hrun as [Hs Hbb Hlt (F1 & F2 & F3 & F4 & F5) _ Hinc Hout]. simpl in *.
  assert (AssetSupplies s1 = AssetSupplies s) as Eu by (rewrite F1, (fr_supplies _ Hfr); exact Hsup).
  assert (GetAllAssetSupplies s1 = GetAllAssetSupplies s) as -> by (unfold GetAllAssetSupplies; by rewrite Eu).
  rewrite check_supplies_total by (intros sup Hsup'; by eapply (exported_supply_checks s)). simpl. f_equal.
  destruct Hi as [_ [_ Hb1 Hl1] _ _].
  pose proof (index_unique _ _ _ _ _ Hbb Hb1). pose proof (index_unique _ _ _ _ _ Hlt Hl1).
  subst p. destruct s1; simpl in *. by f_equal.
Qed.

(** ** The import establishes the invariants *)

(** Conditions that the import does not check: every swap is of one coin whose
    asset has a supply entry, outgoing supplies are covered by current ones and
    time limits are respected.  The bounds are those of the Go types. *)
Record adequate (gs : GenesisState) : Prop := {
  ad_swaps : Forall (fun sw => is_u64 (swExpireHeight sw) /\ exists coin, swAmount sw = [coin]
               /\ Denom coin ∈ (AssetSupply_GetDenom <$> gsSupplies gs)) (gsAtomicSwaps gs);
  ad_supplies : Forall (fun sup => Amount (OutgoingSupply sup) <= Amount (CurrentSupply sup)
               /\ Amount (TimeLimitedCurrentSupply sup) < 2 ^ 256
               /\ forall a, find_asset (AssetSupply_GetDenom sup) (AssetParams (gsParams gs)) = Some a ->
                    TimeLimited (apSupplyLimit a) = true ->
                    Amount (TimeLimitedCurrentSupply sup) + Amount (IncomingSupply sup)
                      <= TimeBasedLimit (apSupplyLimit a)) (gsSupplies gs);
  ad_params : Forall (fun a => Limit (apSupplyLimit a) < 2 ^ 256) (AssetParams (gsParams gs))
}.

Lemma InitGenesis_Ok gs s s' :
  InitGenesis gs s = Ok s' ->
  GenesisState_Validate gs = Ok tt
  /\ exists acc inc out,
       ofold init_swap (gsAtomicSwaps gs) (prepared acc gs s, [], []) = Ok (s', inc, out)
       /\ forall sup, sup ∈ GetAllAssetSupplies s' -> check_supply inc out s' sup tt = Ok tt.
Proof.
  intros Hx. pose proof Hx as Hx0. unfold InitGenesis in Hx.
  destruct (GetModuleAccount _ _) as [[perms|] acc] eqn:Hacc; [|discriminate].
  destruct (negb _) eqn:Hb in Hx; [discriminate|]. destruct (negb _) eqn:Hm in Hx; [discriminate|].
  apply obind_Ok in Hx as ([] & Hv%must_Ok & _). gobool. split; [done|].
  rewrite (InitGenesis_unfold _ _ _ _ Hacc Hb Hm Hv) in Hx0.
  apply obind_Ok in Hx0 as ([[s1 inc] out] & Hrun & Hx0).
  apply obind_Ok in Hx0 as ([] & Hc & [= <-]). exists acc, inc, out. split; [done|].
  induction (GetAllAssetSupplies s1) as [|sup l IH]; [by intros ? ?%elem_of_nil|].
  simpl in Hc. apply obind_Ok in Hc as ([] & H1 & H2).
  intros sup' [->|Hin]%elem_of_cons; [done|]. by apply IH.
Qed.

Lemma validate_swaps_Ok l ids ids' :
  ofold validate_swap l ids = Ok ids' ->
  Forall (fun sw => AtomicSwap_Validate sw = Ok tt) l /\ NoDup (GetSwapID <$> l)
  /\ (forall sw, sw ∈ l -> hex_EncodeToString (GetSwapID sw) ∉ ids).
Proof.
  revert ids. induction l as [|sw l IH]; intros ids Hx; simpl in Hx.
  { split_and!; [constructor|constructor|]. by intros ? ?%elem_of_nil. }
  apply obind_Ok in Hx as (ids1 & H1 & Hx). unfold validate_swap in H1. go_inv H1. subst ids1. gobool.
  destruct r. destruct (IH _ Hx) as (Hf & Hnd & Hnew). split_and!.
  - by constructor.
  - simpl. constructor; [|done]. rewrite list_elem_of_fmap. intros (sw' & E & Hin).
    apply (Hnew sw' Hin). rewrite <- E. set_solver.
  - intros sw' [->|Hin]%elem_of_cons; [done|]. specialize (Hnew sw' Hin). set_solver.
Qed.

Lemma validate_supplies_Ok l ds ds' :
  ofold validate_supply l ds = Ok ds' ->
  Forall (fun sup => AssetSupply_Validate sup = Ok tt) l.
Proof.
  revert ds. induction l as [|sup l IH]; intros ds Hx; simpl in Hx; [constructor|].
  apply obind_Ok in Hx as (ds1 & H1 & Hx). unfold validate_supply in H1. go_inv H1.
  constructor; [by destruct r|by eapply IH].
Qed.

Lemma AssetSupply_Validate_Ok sup :
  AssetSupply_Validate sup = Ok tt ->
  let d := AssetSupply_GetDenom sup in
  (Denom (IncomingSupply sup) = d /\ 0 <= Amount (IncomingSupply sup))
  /\ (Denom (OutgoingSupply sup) = d /\ 0 <= Amount (OutgoingSupply sup))
  /\ 0 <= Amount (CurrentSupply sup)
  /\ (Denom (TimeLimitedCurrentSupply sup) = d /\ 0 <= Amount (TimeLimitedCurrentSupply sup)).
Proof.
  unfold AssetSupply_Validate. intros Hv. go_inv Hv. gobool.
  repeat match goal with Hc : Coin_IsValid _ = true |- _ => apply Coin_IsValid_iff in Hc end.
  unfold AssetSupply_GetDenom. naive_solver.
Qed.

(** Where the entries of a table of supplies come from. *)
Lemma prepared_lookup l (u : gmap string AssetSupply) d sup :
  foldl (fun u supply => <[AssetSupply_GetDenom supply := supply]> u) u l !! d = Some sup ->
  (sup ∈ l /\ AssetSupply_GetDenom sup = d) \/ u !! d = Some sup.
Proof.
  revert u. induction l as [|x l IH]; intros u Hx; simpl in Hx; [auto|].
  apply IH in Hx as [[Hin E]|Hx]; [left; split; [by right|done]|].
  apply lookup_insert_Some in Hx as [[<- <-]|[_ ?]]; [left; split; [left|done]|auto].
Qed.
Lemma prepared_listed l (u : gmap string AssetSupply) d :
  d ∈ (AssetSupply_GetDenom <$> l) \/ is_Some (u !! d) ->
  is_Some (foldl (fun u supply => <[AssetSupply_GetDenom supply := supply]> u) u l !! d).
Proof.
  revert u. induction l as [|x l IH]; intros u Hx; simpl.
  { destruct Hx as [Hx|Hx]; [by apply elem_of_nil in Hx|done]. }
  apply IH. rewrite lookup_insert. case_decide; [by right|].
  destruct Hx as [Hx|Hx]; [|by right]. simpl in Hx. apply elem_of_cons in Hx as [->|Hx]; [done|by left].
Qed.

Lemma check_supply_Ok inc out s sup :
  check_supply inc out s sup tt = Ok tt ->
  let d := AssetSupply_GetDenom sup in
  Amount (IncomingSupply sup) = AmountOf inc d /\ Amount (OutgoingSupply sup) = AmountOf out d
  /\ exists a, find_asset d (AssetParams (params s)) = Some a
     /\ Amount (CurrentSupply sup) <= Limit (apSupplyLimit a)
     /\ Amount (IncomingSupply sup) <= Limit (apSupplyLimit a)
     /\ Amount (CurrentSupply sup) + Amount (IncomingSupply sup) <= Limit (apSupplyLimit a)
     /\ Amount (OutgoingSupply sup) <= Limit (apSupplyLimit a).
Proof.
  unfold check_supply. intros Hx. go_inv Hx.
  apply must_Ok, GetSupplyLimit_Ok in Hcall as (a & Ha & <-). coin_inv. gobool.
  split_and!; [done|done|]. exists a. split_and!; done || lia.
Qed.

Lemma init_swaps_valid l st st' sw :
  ofold init_swap l st = Ok st' -> In sw l ->
  SwapStatus_IsValid (swStatus sw) = true /\ SwapDirection_IsValid (swDirection sw) = true.
Proof.
  revert st. induction l as [|x l IH]; intros st Hx Hin; [done|]. simpl in Hx.
  apply obind_Ok in Hx as ([[s1 i1] o1] & H1 & Hx). destruct Hin as [->|Hin]; [|by eapply IH].
  destruct st as [[s0 i0] o0]. apply init_swap_Ok in H1 as (_ & _ & _ & _ & Hv & _). done.
Qed.

Lemma imported_swap_ok gs s' inc out acc s id sw :
  adequate gs -> Forall (fun sw => AtomicSwap_Validate sw = Ok tt) (gsAtomicSwaps gs) ->
  ofold init_swap (gsAtomicSwaps gs) (prepared acc gs s, [], []) = Ok (s', inc, out) ->
  (list_to_map ((fun sw => (GetSwapID sw, sw)) <$> gsAtomicSwaps gs) : gmap bytes AtomicSwap) !! id
    = Some sw ->
  swap_ok id sw /\ exists coin, swAmount sw = [coin] /\ Denom coin ∈ (AssetSupply_GetDenom <$> gsSupplies gs).
Proof.
  intros [Had _ _] Hval Hrun Hsw. apply elem_of_list_to_map_2 in Hsw.
  apply list_elem_of_fmap in Hsw as (sw' & [= -> ->] & Hin).
  rewrite List.Forall_forall in Hval, Had. apply list_elem_of_In in Hin.
  specialize (Hval _ Hin). destruct (Had _ Hin) as (Hh & coin & Hc & Hd). split; [|eauto].
  assert (SwapStatus_IsValid (swStatus sw') = true /\ SwapDirection_IsValid (swDirection sw') = true) as [Hs Hdir].
  { by eapply init_swaps_valid. }
  split; [done| |done|done|done]. exists coin. split; [done|].
  pose proof (Validate_coins _ Hval) as Hv. apply Coins_IsValid_Ok in Hv as [Hf _]. rewrite Hc in Hf.
  inversion Hf as [|? ? [_ Hp] _]. done.
Qed.

(** The import establishes the invariants on the stores, whatever the bank holds. *)
Lemma InitGenesis_stores gs s s' : fresh s -> adequate gs -> InitGenesis gs s = Ok s' ->
  params_ok s' /\ store_ok s' /\ supply_ok s' /\ limits_ok s'.
Proof.
  intros Hfr Had Hx. apply InitGenesis_Ok in Hx as (Hv & acc & inc & out & Hrun & Hchk).
  unfold GenesisState_Validate in Hv. apply obind_Ok in Hv as ([] & Hp & Hv).
  apply obind_Ok in Hv as (ids & Hvs & Hv). apply obind_Ok in Hv as (ds & Hvu & _).
  apply validate_swaps_Ok in Hvs as (Hval & Hnd & _). apply validate_supplies_Ok in Hvu.
  pose proof (fun id sw => imported_swap_ok _ _ _ _ _ _ id sw Had Hval Hrun) as Hsw.
  eapply init_swaps_imported in Hrun; [|by apply prepared_imported|done|done].
  rewrite (right_id_L ∅ (∪)) in Hrun.
  destruct Hrun as [Hm Hbb Hlt (F1 & F2 & F3 & F4 & F5) _ Hinc Hout]. simpl in *.
  rewrite <- Hm in *. rewrite (fr_supplies _ Hfr) in F1.
  assert (forall d sup, AssetSupplies s' !! d = Some sup ->
    sup ∈ gsSupplies gs /\ AssetSupply_GetDenom sup = d /\ check_supply inc out s' sup tt = Ok tt) as Hsup.
  { intros d sup Hd. pose proof Hd as Hd0. rewrite F1 in Hd0. apply prepared_lookup in Hd0 as [[Hin E]|Hd0].
    - split_and!; [done|done|]. apply Hchk, elem_of_supplies. eauto.
    - by rewrite lookup_empty in Hd0. }
  assert (forall d sup, AssetSupplies s' !! d = Some sup -> coins_ok d sup) as Hcoins.
  { intros d sup Hd. destruct (Hsup d sup Hd) as (Hin & <- & Hc). apply check_supply_Ok in Hc as (_ & _ & a & Ha & Hc).
    apply list_elem_of_In in Hin. destruct Had as [_ Hs Hl]. rewrite List.Forall_forall in Hs, Hl, Hvu.
    specialize (Hvu _ Hin). apply AssetSupply_Validate_Ok in Hvu. destruct (Hs _ Hin) as (_ & Htl & _).
    apply List.find_some in Ha as [Ha _]. rewrite F3 in Ha. specialize (Hl _ Ha). split; naive_solver lia. }
  assert (forall d dir, AssetSupplies s' !! d = None -> pending_sum dir d (AtomicSwaps s') = 0) as Hnone.
  { intros d dir Hd. apply map_sum_zero. intros id sw Hid. destruct (Hsw id sw Hid) as (_ & c & Hc & Hin).
    rewrite (weight_one _ _ _ _ Hc), (bool_decide_eq_false_2 (Denom c = d)); [by destruct (_ && _)|].
    intros <-. destruct (prepared_listed (gsSupplies gs) ∅ (Denom c)) as [sup Hs]; [by left|].
    rewrite F1, Hs in Hd. done. }
  split_and!; [split; [by rewrite F3|rewrite F3; apply Had]| |split; [done| | |]|].
  - split; [intros id sw Hid; by apply Hsw|done|done].
  - intros d. unfold supply_amount. destruct (AssetSupplies s' !! d) as [sup|] eqn:Hd; [|by rewrite Hnone].
    destruct (Hsup d sup Hd) as (_ & <- & Hc). apply check_supply_Ok in Hc as (E & _). simpl. by rewrite E.
  - intros d. unfold supply_amount. destruct (AssetSupplies s' !! d) as [sup|] eqn:Hd; [|by rewrite Hnone].
    destruct (Hsup d sup Hd) as (_ & <- & Hc). apply check_supply_Ok in Hc as (_ & E & _). simpl. by rewrite E.
  - intros d. unfold supply_amount. destruct (AssetSupplies s' !! d) as [sup|] eqn:Hd; [simpl|done].
    destruct (Hsup d sup Hd) as (Hin & _ & _). apply list_elem_of_In in Hin.
    pose proof (ad_supplies _ Had) as Hs. rewrite List.Forall_forall in Hs. apply (Hs _ Hin).
  - intros d sup a Hd Ha. destruct (Hsup d sup Hd) as (Hin & <- & Hc).
    apply check_supply_Ok in Hc as (_ & _ & a' & Ha' & Hc). rewrite Ha in Ha'. injection Ha' as <-.
    split; [lia|]. intros Htl. apply list_elem_of_In in Hin. pose proof (ad_supplies _ Had) as Hs.
    rewrite List.Forall_forall in Hs. rewrite F3 in Ha. by apply (Hs _ Hin).
Qed.

(** The genesis import establishes the invariants: a state imported from an
    adequate genesis into an empty store satisfies all of them and is within the
    limits, as soon as the module account holds the coins of the outgoing swaps. *)
Theorem InitGenesis_inv gs s s' :
  fresh s -> adequate gs -> InitGenesis gs s = Ok s' -> escrow_ok s' -> inv s' /\ limits_ok s'.
Proof. intros Hf Ha Hx He. destruct (InitGenesis_stores gs s s' Hf Ha Hx) as (? & ? & ? & ?). by split. Qed.
End Genesis.
