(* ===== verification/Bep3Witness.v ===== *)
(** * x/bep3: the theorems at work on a concrete chain

    One asset, its deputy and a user, the ledger bank and the SDK instance of
    [SdkModel]; the hash keeps the first 32 bytes of its input.  Each witness
    applies one theorem of the module to states of this chain. *)

From S2P Require Import Prelude Sdk SdkModel GoStd Bank Bep3Types Bep3Keeper Bep3Inv Bep3Safety.
From S2P Require Import Bep3Theorems Bep3Msg Bep3Genesis.

Module Bep3Chain.

#[export] Existing Instances SdkModel.model SdkModel.laws Ledger.keeper Ledger.laws.

#[export] Instance go_strings : GoStrings := {| ToLower := id; TrimSpace := id |}.
#[export] Instance hash : TmHash := {| tmhash_Sum x := take 32 (map byte x ++ replicate 32 0) |}.
#[export] Instance hash_laws : TmHashLaws.
Proof.
  split. intros x. simpl. apply Forall_take, Forall_app. split.
  - apply List.Forall_forall. intros b (y & <- & _)%in_map_iff. apply byte_is_byte.
  - repeat constructor; lia.
Qed.

(** Accounts that exist; the bep3 module account may mint and burn. *)
#[export] Instance auth : AccountKeeper (list AccAddress) := {|
  HasAccount l a := bool_decide (a ∈ l);
  AddNewAccount a l := a :: l;
  GetModuleAccount m l := (if bool_decide (m = "bep3") then Some ["minter"; "burner"] else None, l)
|}.

Definition deputy : AccAddress := [1].
Definition user : AccAddress := [2].
Definition asset : AssetParam :=
  NewAssetParam "bnb" 714 (mkSupplyLimit 1000 true 3600000000000 500) true deputy 2 5 100 10 50.
Definition number : bytes := replicate 32 7.
Definition now : Z := 1700000000.
Definition at_height (h : Z) : Ctx := mkCtx h (now * 1000000000).

Definition Chain : Type := State Ledger.t (list AccAddress).
Definition empty : Chain :=
  mkState ∅ ∅ ∅ ∅ None (NewParams []) (Ledger.set_supply "bnb" 40 (Ledger.set_balance user "bnb" 40
    (Ledger.mk ∅ ∅))) [].
(** Forty coins are in circulation, held by the user. *)
Definition start : Chain :=
  mkState ∅ ∅ ∅ {["bnb" := NewAssetSupply (mkCoin "bnb" 0) (mkCoin "bnb" 0) (mkCoin "bnb" 40)
                             (mkCoin "bnb" 0) 0]} None (NewParams [asset]) (bank empty) [].

Definition run (o : outcome Chain) (s : Chain) : Chain := match o with Ok s => s | _ => s end.
Definition hashed : bytes := CalculateRandomHash number now.
Definition incoming_id : bytes := CalculateSwapID hashed deputy "there".
Definition outgoing_id : bytes := CalculateSwapID hashed user "there".

Definition create_in : op :=
  OpCreate hashed now 20 deputy user "there" "here" [mkCoin "bnb" 30] true.
Definition create_out : op :=
  OpCreate hashed now 20 user deputy "there" "here" [mkCoin "bnb" 30] true.

Definition exec' (h : Z) (o : op) (s : Chain) : Chain := run (exec ∅ (at_height h) o s) s.
Definition with_in : Chain := exec' 100 create_in start.
Definition with_out : Chain := exec' 100 create_out start.
Definition claimed_in : Chain := exec' 110 (OpClaim user incoming_id number) with_in.
Definition expired_out : Chain := exec' 120 OpBeginBlock with_out.

Lemma start_supply d :
  AssetSupplies start !! d = if decide ("bnb" = d) then Some (NewAssetSupply (mkCoin "bnb" 0)
    (mkCoin "bnb" 0) (mkCoin "bnb" 40) (mkCoin "bnb" 0) 0) else None.
Proof. exact (lookup_singleton _ _ _). Qed.

Lemma start_inv : inv start.
Proof.
  split.
  - split; [vm_compute; reflexivity|]. repeat constructor.
  - split; simpl; [intros id sw; by rewrite lookup_empty| |];
      intros k id; rewrite lookup_empty; split; [done| |done|];
      intros (sw & Hsw & _); by rewrite lookup_empty in Hsw.
  - split; unfold supply_amount; intros d; rewrite start_supply; case_decide; try done.
    intros sup [= <-]. subst d. by split.
  - intros x d Hx. apply (Z.le_trans _ 0); [|apply Ledger.balance_nonneg].
    unfold supply_amount. rewrite start_supply. by case_decide.
Qed.

Lemma start_limits : limits_ok start.
Proof.
  intros d sup a. rewrite start_supply. case_decide; [|done]. subst d. intros [= <-].
  unfold find_asset; simpl. intros [= <-]. by split.
Qed.

Lemma signed o : o = create_in \/ o = create_out -> signed_by_user (bk := Ledger.keeper) o.
Proof. by intros [-> | ->]. Qed.

Lemma with_in_step : step ∅ start with_in.
Proof.
  eapply (step_op ∅ (at_height 100) create_in); [done|by apply signed; left|]. vm_compute. reflexivity.
Qed.
Lemma with_out_step : step ∅ start with_out.
Proof.
  eapply (step_op ∅ (at_height 100) create_out); [done|by apply signed; right|]. vm_compute. reflexivity.
Qed.
Lemma expired_out_step : step ∅ with_out expired_out.
Proof. eapply (step_op ∅ (at_height 120) OpBeginBlock); [done|done|]. vm_compute. reflexivity. Qed.

Lemma with_in_inv : inv with_in.
Proof. exact (step_inv _ _ _ with_in_step start_inv). Qed.
Lemma with_out_inv : inv with_out.
Proof. exact (step_inv _ _ _ with_out_step start_inv). Qed.
Lemma expired_out_inv : inv expired_out.
Proof. exact (step_inv _ _ _ expired_out_step with_out_inv). Qed.

Definition out_swap : AtomicSwap :=
  created_swap (at_height 100) hashed now 20 user deputy "there" "here" [mkCoin "bnb" 30] true
    SWAP_DIRECTION_OUTGOING.
Definition in_swap : AtomicSwap :=
  created_swap (at_height 100) hashed now 20 deputy user "there" "here" [mkCoin "bnb" 30] true
    SWAP_DIRECTION_INCOMING.

Lemma with_in_limits : limits_ok with_in.
Proof. refine (quiet_limits _ _ _ _ start_inv start_limits). split; [exact with_in_step|vm_compute; reflexivity]. Qed.
Lemma with_in_swap : AtomicSwaps with_in !! incoming_id = Some in_swap.
Proof. vm_compute. reflexivity. Qed.
Lemma with_out_swap : AtomicSwaps with_out !! outgoing_id = Some out_swap.
Proof. vm_compute. reflexivity. Qed.

(** ** Witnesses *)
(** Governance lowers the limit of the asset below what is in circulation and pending: sixty
    of the forty there are and the thirty that come. *)
Definition low_asset : AssetParam :=
  NewAssetParam "bnb" 714 (mkSupplyLimit 60 true 3600000000000 50) true deputy 2 5 100 10 50.
Definition lowered : Chain := run (SetParams (NewParams [low_asset]) with_in) with_in.
Lemma lowered_step : step ∅ with_in lowered.
Proof. apply (step_params ∅ (NewParams [low_asset])); [repeat constructor|vm_compute; reflexivity]. Qed.
Lemma start_lowered : rtc (step ∅) start lowered.
Proof. eapply rtc_l; [exact with_in_step|]. apply rtc_once, lowered_step. Qed.

Lemma reachable_inv_witness : inv lowered
  /\ forall s'', limits_ok lowered -> rtc (quiet_step ∅) lowered s'' -> limits_ok s''.
Proof. apply (reachable_inv ∅ start lowered start_inv). exact start_lowered. Defined.

Lemma BeginBlocker_refines_witness :
  exists s', BeginBlocker (at_height 120) with_out = Ok s'
    /\ AtomicSwaps s' = omap (block_view 120) (AtomicSwaps with_out) /\ bank s' = bank with_out.
Proof. apply (BeginBlocker_refines (at_height 120) with_out with_out_inv). done. Defined.

Lemma trace_advances_witness :
  exists sw', AtomicSwaps expired_out !! outgoing_id = Some sw' /\ advances out_swap sw'.
Proof.
  apply (trace_advances ∅ outgoing_id with_out expired_out out_swap with_out_inv with_out_swap).
  apply rtc_once. split; [exact expired_out_step|]. vm_compute. eauto.
Defined.

Lemma paid_once_witness :
  ClaimAtomicSwap (at_height 111) deputy incoming_id number claimed_in = Err ErrSwapNotClaimable
  /\ RefundAtomicSwap (at_height 111) deputy incoming_id claimed_in = Err ErrSwapNotRefundable.
Proof.
  apply (paid_once ∅ (at_height 110) (OpClaim user incoming_id number) incoming_id with_in claimed_in
           claimed_in (at_height 111) deputy number with_in_inv); [done|done| |apply rtc_refl].
  vm_compute. reflexivity.
Defined.

Definition bank_run (o : outcome Ledger.t) (b : Ledger.t) : Ledger.t := match o with Ok b => b | _ => b end.
Definition paid1 : Ledger.t :=
  bank_run (MintCoins ModuleName [mkCoin "bnb" 30] (bank with_in)) (bank with_in).
Definition paid2 : Ledger.t :=
  bank_run (SendCoinsFromModuleToAccount ModuleName user [mkCoin "bnb" 30] paid1) paid1.
Definition in_supply : AssetSupply := NewAssetSupply (mkCoin "bnb" 30) (mkCoin "bnb" 0) (mkCoin "bnb" 40) (mkCoin "bnb" 0) 0.
Lemma claim_succeeds_witness :
  (exists s', ClaimAtomicSwap (at_height 110) user incoming_id number with_in = Ok s')
  /\ forall s', ClaimAtomicSwap (at_height 110) user incoming_id number lowered <> Ok s'.
Proof.
  split.
  - destruct (claim_succeeds (at_height 110) user incoming_id number with_in in_swap (mkCoin "bnb" 30)
      with_in_inv with_in_swap) as [_ H]; [done|vm_compute; reflexivity|done| |].
    + exists paid1, paid2. split; vm_compute; reflexivity.
    + destruct (H asset in_supply) as (H1 & H2 & _); [done|vm_compute; reflexivity|vm_compute; reflexivity|].
      apply H1, H2, with_in_limits.
  - destruct (claim_succeeds (at_height 110) user incoming_id number lowered in_swap (mkCoin "bnb" 30)) as [_ H];
      [exact (step_inv _ _ _ lowered_step with_in_inv)|vm_compute; reflexivity|done|vm_compute; reflexivity|done| |].
    + exists paid1, paid2. split; vm_compute; reflexivity.
    + destruct (H low_asset in_supply) as (_ & _ & H3); [done|vm_compute; reflexivity|vm_compute; reflexivity|].
      apply H3. done.
Defined.

Definition refunded_out : Chain := exec' 121 (OpRefund deputy outgoing_id) expired_out.
Lemma refund_succeeds_witness :
  exists s', RefundAtomicSwap (at_height 121) deputy outgoing_id expired_out = Ok s'.
Proof.
  apply (refund_succeeds (at_height 121) deputy outgoing_id expired_out
           (set_status SWAP_STATUS_EXPIRED out_swap) expired_out_inv); [vm_compute; reflexivity|done|].
  intros _. exists (bank refunded_out). vm_compute. reflexivity.
Defined.

Lemma claim_payment_witness :
  exists sw, AtomicSwaps with_in !! incoming_id = Some sw /\ unlocks number sw
  /\ ((swDirection sw = SWAP_DIRECTION_INCOMING
       /\ (forall x d, GetBalance (bank claimed_in) x d
             = GetBalance (bank with_in) x d + credit (swRecipient sw) x (swAmount sw) d)
       /\ (forall d, GetSupply (bank claimed_in) d = GetSupply (bank with_in) d + AmountOf (swAmount sw) d))
   \/ (swDirection sw = SWAP_DIRECTION_OUTGOING
       /\ exists y, GetModuleAddress ModuleName = Some y
       /\ (forall x d, GetBalance (bank claimed_in) x d
             = GetBalance (bank with_in) x d - credit y x (swAmount sw) d)
       /\ (forall d, GetSupply (bank claimed_in) d = GetSupply (bank with_in) d - AmountOf (swAmount sw) d))).
Proof.
  apply (claim_payment (at_height 110) user incoming_id number with_in claimed_in).
  vm_compute. reflexivity.
Defined.

Lemma refund_payment_witness :
  exists sw, AtomicSwaps expired_out !! outgoing_id = Some sw
  /\ ((swDirection sw = SWAP_DIRECTION_INCOMING /\ bank refunded_out = bank expired_out)
   \/ (swDirection sw = SWAP_DIRECTION_OUTGOING
       /\ exists y, GetModuleAddress ModuleName = Some y
       /\ moved y (swSender sw) (swAmount sw) (bank expired_out) (bank refunded_out))).
Proof.
  apply (refund_payment (at_height 121) deputy outgoing_id expired_out refunded_out).
  vm_compute. reflexivity.
Defined.

Lemma supply_in_step_witness :
  GetSupply (bank claimed_in) "bnb" - supply_amount CurrentSupply (AssetSupplies claimed_in) "bnb"
  = GetSupply (bank with_in) "bnb" - supply_amount CurrentSupply (AssetSupplies with_in) "bnb".
Proof.
  apply (supply_in_step ∅ (at_height 110) (OpClaim user incoming_id number) with_in claimed_in "bnb"
           with_in_inv); [done|]. vm_compute. reflexivity.
Defined.

Lemma outgoing_stays_open_witness :
  block_view (u64 119) out_swap = Some out_swap
  /\ exists a, find_asset "bnb" (AssetParams (params start)) = Some a
     /\ apMinBlockLock a <= swExpireHeight out_swap - 100 <= apMaxBlockLock a.
Proof.
  apply (outgoing_stays_open ∅ (at_height 100) (at_height 119) hashed now 20 user deputy "there" "here"
           (mkCoin "bnb" 30) true start with_out outgoing_id out_swap);
    [vm_compute; reflexivity|exact with_out_swap|done|done|done|done|done|done].
Defined.


(** Messages *)
Definition create_msg (soc : string) : MsgCreateAtomicSwap :=
  NewMsgCreateAtomicSwap (AccAddress_String deputy) (AccAddress_String user) "here" soc
    (hex_EncodeToString hashed) now [mkCoin "bnb" 30] 20.

Lemma claim_msg_roundtrip_witness :
  MsgClaimAtomicSwap_ValidateBasic (claim_msg (AccAddress_String user) incoming_id number) = Ok tt
  /\ GetSigners (AccAddress_String user) = Ok [user]
  /\ msgServer_ClaimAtomicSwap (at_height 110) (claim_msg (AccAddress_String user) incoming_id number) with_in
     = ClaimAtomicSwap (at_height 110) user incoming_id number with_in.
Proof.
  apply (claim_msg_roundtrip (at_height 110) (AccAddress_String user) user incoming_id number with_in);
    [vm_compute; reflexivity|done| | |vm_compute; reflexivity|vm_compute; reflexivity].
  - apply tmhash_bytes.
  - repeat constructor; lia.
Defined.

Lemma create_msg_decodes_witness :
  exists from to rnh,
    GetSigners (AccAddress_String deputy) = Ok [from] /\ from <> [] /\ to <> []
    /\ length rnh = RandomNumberHashLength /\ Forall is_byte rnh
    /\ 0 < now /\ 0 < 20 /\ Forall (fun c => 0 < Amount c) [mkCoin "bnb" 30]
    /\ msgServer_CreateAtomicSwap ∅ (at_height 100) (create_msg "there") start
       = CreateAtomicSwap ∅ (at_height 100) rnh now 20 from to "there" "here" [mkCoin "bnb" 30] true start.
Proof. apply (create_msg_decodes ∅ (at_height 100) (create_msg "there") start). vm_compute. reflexivity. Defined.

Definition nameless : Chain :=
  exec' 100 (OpCreate hashed now 20 deputy user "" "here" [mkCoin "bnb" 30] true) start.
Lemma created_swap_validates_witness :
  exists id sw, AtomicSwaps nameless !! id = Some sw /\ AtomicSwaps start !! id = None
  /\ (swExpireHeight sw <> 0 ->
      AtomicSwap_Validate sw
      = if bool_decide (TrimSpace (mcSenderOtherChain (create_msg "")) = "")
        then Err ErrInvalidAddress else Ok tt).
Proof.
  apply (created_swap_validates ∅ (at_height 100) (create_msg "") start nameless); vm_compute; reflexivity.
Defined.

(** Genesis *)
Lemma export_import_witness :
  InitGenesis (ExportGenesis with_in) empty
  = Ok (mkState (AtomicSwaps with_in) (AtomicSwapByBlock with_in) (AtomicSwapLongtermStorage with_in)
          (AssetSupplies with_in) (Some DefaultPreviousBlockTime) (params with_in) (bank empty) []).
Proof.
  apply (export_import with_in empty ["minter"; "burner"] [] with_in_inv); [|by split|done|set_solver|set_solver].
  split_and!.
  - intros id sw Hsw.
    assert (AtomicSwaps with_in = {[incoming_id := in_swap]}) as E by (vm_compute; reflexivity).
    rewrite E in Hsw. apply lookup_singleton_Some in Hsw as [<- <-].
    split; [vm_compute; reflexivity|]. split; [done|]. split; [done|].
    exists (mkCoin "bnb" 30), asset. split_and!; done.
  - intros d sup Hsup. exists asset.
    assert (d = "bnb") as ->; [|vm_compute; reflexivity].
    assert (dom (AssetSupplies with_in) = {["bnb"]}) as E by (vm_compute; reflexivity).
    apply elem_of_dom_2 in Hsup. rewrite E in Hsup. by apply elem_of_singleton in Hsup.
  - exact with_in_limits.
Defined.

Definition genesis : GenesisState :=
  NewGenesisState (NewParams [asset]) [in_swap]
    [NewAssetSupply (mkCoin "bnb" 30) (mkCoin "bnb" 0) (mkCoin "bnb" 40) (mkCoin "bnb" 0) 0] 5.
Definition from_genesis : Chain := run (InitGenesis genesis empty) empty.
Lemma from_genesis_out d : supply_amount OutgoingSupply (AssetSupplies from_genesis) d = 0.
Proof.
  assert (AssetSupplies from_genesis = {["bnb" := NewAssetSupply (mkCoin "bnb" 30) (mkCoin "bnb" 0)
    (mkCoin "bnb" 40) (mkCoin "bnb" 0) 0]}) as -> by (vm_compute; reflexivity).
  unfold supply_amount. rewrite lookup_singleton. by case_decide.
Qed.

Lemma InitGenesis_inv_witness : inv from_genesis /\ limits_ok from_genesis.
Proof.
  apply (InitGenesis_inv genesis empty from_genesis); [by split| |vm_compute; reflexivity|].
  - split; (constructor; [|constructor]).
    + split; [vm_compute; split; congruence|]. exists (mkCoin "bnb" 30). split; [done|left].
    + split_and!; [done|done|]. intros a Ha _. vm_compute in Ha. injection Ha as <-. done.
    + done.
  - intros x d _. rewrite from_genesis_out. apply Ledger.balance_nonneg.
Defined.
End Bep3Chain.
