(* ===== verification/Evmutil.v ===== *)
(** * x/evmutil: the 18-decimal balances of the EVM

    The evmutil keeper stores the part of an account's EVM balance that is
    smaller than one [ua0gi] ([keeper/keeper.go]); the EVM's bank keeper
    combines it with the account's [ua0gi] in the SDK's bank
    ([keeper/bank_keeper.go]).  The evmutil module account holds the [ua0gi]
    that back the fractions ([keeper/invariants.go]). *)

From S2P Require Import Prelude Sdk Bank.

(** ** Denominations ([chaincfg/denoms.go]) *)
Definition GasDenom : string := "ua0gi".
Definition EvmDenom : string := "neuron".
Definition ConversionMultiplier : Z := 1000000000000.
Definition EvmutilName : string := "evmutil".

Record Account : Type := NewAccount { acAddress : AccAddress; acBalance : Z }.

Definition Account_Validate (b : Account) : outcome unit :=
  if bool_decide (acAddress b = []) then Err (Plain "address cannot be empty") else
  if acBalance b <? 0 then Err (Plain "balance amount cannot be negative") else Ok tt.

(** The store of the evmutil keeper, and the bank it works on. *)
Record EvmState (B : Type) : Type := mkEvmState {
  evAccounts : gmap AccAddress Account;
  evBank : B
}.
Arguments mkEvmState {B}.
Arguments evAccounts {B}.
Arguments evBank {B}.

Section Evmutil.
  Context {cfg : SdkConfig} {B : Type} {bk : BankKeeper B}.
  Implicit Types s : EvmState B.

(** ** keeper/keeper.go *)
Definition GetAllAccounts s : list Account := (iterator (evAccounts s) None).*2.

Definition GetAccount s (addr : AccAddress) : option Account := evAccounts s !! addr.

(** Accounts with zero balance are removed. *)
Definition SetAccount (account : Account) s : outcome (EvmState B) :=
  let! _ := Account_Validate account in
  if negb (0 <? acBalance account)
  then Ok (mkEvmState (delete (acAddress account) (evAccounts s)) (evBank s))
  else Ok (mkEvmState (<[acAddress account := account]> (evAccounts s)) (evBank s)).

Definition evm_GetBalance s (addr : AccAddress) : Z :=
  match GetAccount s addr with None => 0 | Some account => acBalance account end.

Definition SetBalance (addr : AccAddress) (bal : Z) s : outcome (EvmState B) :=
  let account := match GetAccount s addr with
                 | None => NewAccount addr bal
                 | Some account => NewAccount (acAddress account) bal
                 end in
  let! _ := Account_Validate account in
  SetAccount account s.

Definition SendBalance (senderAddr recipientAddr : AccAddress) (amt : Z) s : outcome (EvmState B) :=
  if amt <? 0 then Err (Plain "cannot send a negative amount of evm denom") else
  if amt =? 0 then Ok s else
  let senderBal := evm_GetBalance s senderAddr in
  if senderBal <? amt then Err ErrInsufficientFunds else
  let! newSenderBal := int_chk (senderBal - amt) in
  let! s := SetBalance senderAddr newSenderBal s in
  let! receiverBal := int_chk (evm_GetBalance s recipientAddr + amt) in
  SetBalance recipientAddr receiverBal s.

Definition AddBalance (addr : AccAddress) (amt : Z) s : outcome (EvmState B) :=
  let bal := evm_GetBalance s addr in
  let! newBal := int_chk (amt + bal) in
  SetBalance addr newBal s.

Definition RemoveBalance (addr : AccAddress) (amt : Z) s : outcome (EvmState B) :=
  if amt <? 0 then Err (Plain "cannot remove a negative amount from balance") else
  if amt =? 0 then Ok s else
  let bal := evm_GetBalance s addr in
  let! finalBal := int_chk (bal - amt) in
  if finalBal <? 0 then Err ErrInsufficientFunds else
  SetBalance addr finalBal s.

(** ** keeper/bank_keeper.go *)
Definition evm_bank (f : B -> outcome B) s : outcome (EvmState B) :=
  let! b := f (evBank s) in Ok (mkEvmState (evAccounts s) b).

(** [k.GetModuleAddress] panics when the module account does not exist. *)
Definition module_addr (moduleName : string) : outcome AccAddress :=
  match GetModuleAddress moduleName with
  | Some addr => Ok addr
  | None => Panic "module account does not exist"
  end.

Definition ValidateEvmCoins (coins : Coins) : outcome unit :=
  match coins with
  | [] => Ok tt
  | _ =>
      if negb (Coins_IsValid coins) then Err ErrInvalidCoins else
      match coins with
      | [coin] => if bool_decide (Denom coin = EvmDenom) then Ok tt else Err ErrInvalidCoins
      | _ => Err ErrInvalidCoins
      end
  end.

Definition SplitEvmDenomCoins (coins : Coins) : outcome (Coin * Z) :=
  let baseDemonCnt := 0 in
  let! gasDenomAmt := NewCoin GasDenom 0 in
  match coins with
  | [] => Ok (gasDenomAmt, baseDemonCnt)
  | coin :: _ =>
      let! _ := ValidateEvmCoins coins in
      let remainingBalance := Amount coin mod ConversionMultiplier in
      let baseDemonCnt := if 0 <? remainingBalance then remainingBalance else baseDemonCnt in
      let gasDenomAmount := Amount coin ÷ ConversionMultiplier in
      let! gasDenomAmt := if 0 <? gasDenomAmount then NewCoin GasDenom gasDenomAmount else Ok gasDenomAmt in
      Ok (gasDenomAmt, baseDemonCnt)
  end.

(** The total spendable balance in the EVM's denomination. *)
Definition EvmBank_GetBalance s (addr : AccAddress) (denom : string) : outcome Coin :=
  if negb (bool_decide (denom = EvmDenom)) then Panic "only evm denom is supported by EvmBankKeeper" else
  let gasDenomFromBank := Spendable (evBank s) addr GasDenom in
  let evmDenomFromBank := Spendable (evBank s) addr EvmDenom in
  let evmDenomFromEvmBank := evm_GetBalance s addr in
  let! total :=
    if 0 <? gasDenomFromBank then
      let! g := int_chk (gasDenomFromBank * ConversionMultiplier) in
      let! g := int_chk (g + evmDenomFromBank) in
      int_chk (g + evmDenomFromEvmBank)
    else int_chk (evmDenomFromBank + evmDenomFromEvmBank) in
  NewCoin EvmDenom total.

Definition EvmBank_SendCoins (senderAddr recipientAddr : AccAddress) (amt : Coins) s
    : outcome (EvmState B) := Panic "not implemented".

Definition ConvertOneGasDenomToEvmDenomIfNeeded (addr : AccAddress) (evmDenomCnt : Z) s
    : outcome (EvmState B) :=
  let evmDenomBal := evm_GetBalance s addr in
  if evmDenomBal >=? evmDenomCnt then Ok s else
  let! one := NewCoin GasDenom 1 in
  let! gasDenomToStore := NewCoins1 one in
  let! s := evm_bank (SendCoinsFromAccountToModule addr EvmutilName gasDenomToStore) s in
  let evmDenomToReceive := ConversionMultiplier in
  AddBalance addr evmDenomToReceive s.

Definition ConvertEvmDenomToGasDenom (addr : AccAddress) s : outcome (EvmState B) :=
  let totalEvmDenom := evm_GetBalance s addr in
  let! c := NewCoin EvmDenom totalEvmDenom in
  let! cs := NewCoins1 c in
  let! '(gasDenomCoin, _) := SplitEvmDenomCoins cs in
  let gasDenomToReceive := Amount gasDenomCoin in
  if negb (0 <? gasDenomToReceive) then Ok s else
  let! evmDenomToBurn := int_chk (gasDenomToReceive * ConversionMultiplier) in
  let! finalBal := int_chk (totalEvmDenom - evmDenomToBurn) in
  let! s := SetBalance addr finalBal s in
  let! fromAddr := module_addr EvmutilName in
  let! coins := NewCoins1 gasDenomCoin in
  evm_bank (SendCoins fromAddr addr coins) s.

Definition EvmBank_SendCoinsFromModuleToAccount (senderModule : string) (recipientAddr : AccAddress)
    (amt : Coins) s : outcome (EvmState B) :=
  let! '(gasDenomCoin, baseDemonCnt) := SplitEvmDenomCoins amt in
  let! s :=
    if 0 <? Amount gasDenomCoin then
      let! coins := NewCoins1 gasDenomCoin in
      evm_bank (SendCoinsFromModuleToAccount senderModule recipientAddr coins) s
    else Ok s in
  let! senderAddr := module_addr senderModule in
  let! s := ConvertOneGasDenomToEvmDenomIfNeeded senderAddr baseDemonCnt s in
  let! s := SendBalance senderAddr recipientAddr baseDemonCnt s in
  ConvertEvmDenomToGasDenom recipientAddr s.

Definition EvmBank_SendCoinsFromAccountToModule (senderAddr : AccAddress) (recipientModule : string)
    (amt : Coins) s : outcome (EvmState B) :=
  let! '(gasDenomCoin, evmDenomCnt) := SplitEvmDenomCoins amt in
  let! s :=
    if 0 <? Amount gasDenomCoin then
      let! coins := NewCoins1 gasDenomCoin in
      evm_bank (SendCoinsFromAccountToModule senderAddr recipientModule coins) s
    else Ok s in
  let! s := ConvertOneGasDenomToEvmDenomIfNeeded senderAddr evmDenomCnt s in
  let! recipientAddr := module_addr recipientModule in
  let! s := SendBalance senderAddr recipientAddr evmDenomCnt s in
  ConvertEvmDenomToGasDenom recipientAddr s.

Definition EvmBank_MintCoins (moduleName : string) (amt : Coins) s : outcome (EvmState B) :=
  let! '(gasDenomCoin, baseDemonCnt) := SplitEvmDenomCoins amt in
  let! s :=
    if 0 <? Amount gasDenomCoin then
      let! coins := NewCoins1 gasDenomCoin in
      evm_bank (MintCoins moduleName coins) s
    else Ok s in
  let! recipientAddr := module_addr moduleName in
  let! s := AddBalance recipientAddr baseDemonCnt s in
  ConvertEvmDenomToGasDenom recipientAddr s.

Definition EvmBank_BurnCoins (moduleName : string) (amt : Coins) s : outcome (EvmState B) :=
  let! '(gasDenomCoin, baseDemonCnt) := SplitEvmDenomCoins amt in
  let! s :=
    if 0 <? Amount gasDenomCoin then
      let! coins := NewCoins1 gasDenomCoin in
      evm_bank (BurnCoins moduleName coins) s
    else Ok s in
  let! moduleAddr := module_addr moduleName in
  let! s := ConvertOneGasDenomToEvmDenomIfNeeded moduleAddr baseDemonCnt s in
  RemoveBalance moduleAddr baseDemonCnt s.

(** ** keeper/invariants.go

    [authtypes.NewModuleAddress] is [GetModuleAddress] of an existing module. *)
Definition FullyBackedInvariant (bankAddr : AccAddress) s : outcome bool :=
  let! totalMinorBalances := ofold (fun acc t => int_chk (t + acBalance acc)) (GetAllAccounts s) 0 in
  let! bankBalance := int_chk (GetBalance (evBank s) bankAddr GasDenom * ConversionMultiplier) in
  Ok (totalMinorBalances >? bankBalance).

(** The variable [broken] belongs to the closure: it is set, never reset, by the
    calls of one registered invariant. *)
Definition SmallBalancesInvariant (broken : bool) s : bool :=
  broken || existsb (fun account => acBalance account >=? ConversionMultiplier) (GetAllAccounts s).
End Evmutil.
