(* ===== verification/EvmutilTheorems.v ===== *)
(** * x/evmutil: the EVM sees one ledger of 18 decimals

    The specification of the EVM's bank keeper is a ledger with one balance per
    account, counted in [neuron].  Its operations implement it: an account's
    [neuron] balance is its [ua0gi] times the multiplier plus its stored fraction.
    The reserve, the module account's [ua0gi] that no fraction claims, changes
    only by what is minted and burned in fractions. *)

From S2P Require Import Prelude Sdk Bank Evmutil.

Section Proofs.
  Context {cfg : SdkConfig} {sdk : SdkLaws} {B : Type} {bk : BankKeeper B} {laws : BankLaws B}.
  (** The evmutil module account. *)
  Context (U : AccAddress) (HU : GetModuleAddress EvmutilName = Some U).
  Implicit Types s : EvmState B.

(** ** Invariant and abstraction *)
Definition accounts_ok s : Prop :=
  forall a acc, evAccounts s !! a = Some acc -> acAddress acc = a /\ 0 < acBalance acc.

(** Every stored fraction is less than one [ua0gi]. *)
Definition small s : Prop := forall x, evm_GetBalance s x < ConversionMultiplier.

Definition minor_sum s : Z := map_sum acBalance (evAccounts s).

(** The balance of an account in [neuron]. *)
Definition neurons s (x : AccAddress) : Z :=
  GetBalance (evBank s) x GasDenom * ConversionMultiplier + evm_GetBalance s x.

(** The backing of the fractions beyond their sum. *)
Definition reserve s : Z := GetBalance (evBank s) U GasDenom * ConversionMultiplier - minor_sum s.

(** What [n] paid to [a] adds to the balance of [x]. *)
Definition pay (a : AccAddress) (n : Z) (x : AccAddress) : Z := if bool_decide (a = x) then n else 0.

(** The step from [s] to [s'] changes balances by [delta] and the reserve by [rho]. *)
Record shift (delta : AccAddress -> Z) (rho : Z) s s' : Prop := {
  sh_ok : accounts_ok s';
  sh_neurons : forall x, x <> U -> neurons s' x = neurons s x + delta x;
  sh_reserve : reserve s' = reserve s + rho
}.

Lemma shift_refl s : accounts_ok s -> shift (fun _ => 0) 0 s s.
Proof. intros Ha. split; [done|intros; lia|lia]. Qed.

Lemma shift_trans d1 r1 d2 r2 s1 s2 s3 :
  shift d1 r1 s1 s2 -> shift d2 r2 s2 s3 -> shift (fun x => d1 x + d2 x) (r1 + r2) s1 s3.
Proof.
  intros [A1 N1 R1] [A2 N2 R2]. split; [done| |lia]. intros x Hx. rewrite (N2 x Hx), (N1 x Hx). lia.
Qed.

Lemma shift_eq d1 r1 d2 r2 s s' :
  shift d1 r1 s s' -> (forall x, x <> U -> d1 x = d2 x) -> r1 = r2 -> shift d2 r2 s s'.
Proof. intros [A N R] Ed Er. split; [done| |lia]. intros x Hx. rewrite <- Ed by done. by apply N. Qed.

(** ** The fractions *)
Lemma Account_Validate_Ok a u :
  Account_Validate a = Ok u -> acAddress a <> [] /\ 0 <= acBalance a.
Proof. unfold Account_Validate. intros Hx. go_inv Hx. by gobool. Qed.

Lemma SetBalance_Ok addr bal s s' :
  accounts_ok s -> SetBalance addr bal s = Ok s' ->
  0 <= bal /\ accounts_ok s' /\ evBank s' = evBank s
  /\ (forall x, evm_GetBalance s' x = if bool_decide (addr = x) then bal else evm_GetBalance s x)
  /\ minor_sum s' = minor_sum s + bal - evm_GetBalance s addr.
Proof.
  intros Hok Hx. unfold SetBalance in Hx.
  assert (match GetAccount s addr with None => NewAccount addr bal
    | Some account => NewAccount (acAddress account) bal end = NewAccount addr bal) as E.
  { unfold GetAccount. destruct (evAccounts s !! addr) as [acc|] eqn:Ha; [|done].
    by destruct (Hok _ _ Ha) as [-> _]. }
  rewrite E in Hx. clear E.
  assert (minor_sum s + bal - evm_GetBalance s addr
          = map_sum acBalance (evAccounts s) + bal - from_option acBalance 0 (evAccounts s !! addr)) as ->.
  { unfold minor_sum, evm_GetBalance, GetAccount. by destruct (evAccounts s !! addr). }
  unfold SetAccount in Hx. go_inv Hx; subst; simpl in *; gobool;
    apply Account_Validate_Ok in Hcall as [_ Hpos]; simpl in Hpos;
    (split; [done|split; [|split; [done|split]]]).
  - intros a acc; simpl. intros [_ ?]%lookup_delete_Some. by apply Hok.
  - intros x. unfold evm_GetBalance, GetAccount; simpl. destruct (decide (addr = x)) as [->|Hne].
    + rewrite lookup_delete_eq, bool_decide_eq_true_2 by done. lia.
    + by rewrite lookup_delete_ne, bool_decide_eq_false_2 by done.
  - unfold minor_sum; simpl. rewrite map_sum_delete_opt. lia.
  - intros a acc; simpl. intros [[<- <-]|[_ ?]]%lookup_insert_Some; [by split|by apply Hok].
  - intros x. unfold evm_GetBalance, GetAccount; simpl. destruct (decide (addr = x)) as [->|Hne].
    + by rewrite lookup_insert_eq, bool_decide_eq_true_2 by done.
    + by rewrite lookup_insert_ne, bool_decide_eq_false_2 by done.
  - unfold minor_sum; simpl. rewrite map_sum_insert. done.
Qed.

Lemma minor_nonneg s x : accounts_ok s -> 0 <= evm_GetBalance s x.
Proof.
  intros Hok. unfold evm_GetBalance, GetAccount. destruct (evAccounts s !! x) as [acc|] eqn:Ha; [|done].
  apply Hok in Ha. lia.
Qed.

(** Replacing a fraction moves the balance and the reserve by the difference. *)
Lemma SetBalance_shift addr bal s s' :
  accounts_ok s -> SetBalance addr bal s = Ok s' ->
  shift (pay addr (bal - evm_GetBalance s addr)) (evm_GetBalance s addr - bal) s s'.
Proof.
  intros Hok Hx. destruct (SetBalance_Ok _ _ _ _ Hok Hx) as (_ & Hok' & Hb & Hg & Hs). split; [done| |].
  - intros x _. unfold neurons, pay. rewrite Hb, Hg. case_bool_decide; [subst|]; lia.
  - unfold reserve. rewrite Hb, Hs. lia.
Qed.

Lemma AddBalance_Ok addr amt s s' :
  AddBalance addr amt s = Ok s' -> SetBalance addr (evm_GetBalance s addr + amt) s = Ok s'.
Proof. unfold AddBalance. intros Hx. go_inv Hx. coin_inv. by rewrite Z.add_comm. Qed.

Lemma RemoveBalance_Ok addr amt s s' :
  RemoveBalance addr amt s = Ok s' ->
  0 <= amt /\ ((amt = 0 /\ s' = s)
    \/ (amt <= evm_GetBalance s addr /\ SetBalance addr (evm_GetBalance s addr - amt) s = Ok s')).
Proof.
  unfold RemoveBalance. intros Hx. go_inv Hx; gobool; [split; [done|left; done]|]. coin_inv.
  split; [done|right]. split; [lia|done].
Qed.

Lemma SendBalance_Ok x y amt s s' :
  SendBalance x y amt s = Ok s' ->
  0 <= amt /\ ((amt = 0 /\ s' = s)
    \/ (amt <= evm_GetBalance s x /\ exists s1, SetBalance x (evm_GetBalance s x - amt) s = Ok s1
        /\ SetBalance y (evm_GetBalance s1 y + amt) s1 = Ok s')).
Proof.
  unfold SendBalance. intros Hx. go_inv Hx; gobool; [split; [done|left; done]|]. coin_inv.
  split; [done|right]. split; [done|]. eauto.
Qed.

Lemma SendBalance_shift x y amt s s' :
  accounts_ok s -> SendBalance x y amt s = Ok s' ->
  shift (fun z => pay x (- amt) z + pay y amt z) 0 s s'.
Proof.
  intros Hok Hx. apply SendBalance_Ok in Hx as [_ [[-> ->]|(_ & s1 & H1 & H2)]].
  - eapply shift_eq; [by apply shift_refl| |done]. intros z ?. unfold pay. repeat case_bool_decide; lia.
  - apply SetBalance_shift in H1; [|done]. apply SetBalance_shift in H2; [|apply H1].
    eapply shift_eq; [by eapply shift_trans| |lia].
    intros z ?. unfold pay. repeat case_bool_decide; lia.
Qed.

(** ** The bank *)
Definition M : Z := ConversionMultiplier.

Lemma bank_shift (f : AccAddress -> Z) (b' : B) s :
  accounts_ok s ->
  (forall x, GetBalance b' x GasDenom = GetBalance (evBank s) x GasDenom + f x) ->
  shift (fun x => f x * M) (f U * M) s (mkEvmState (evAccounts s) b').
Proof.
  intros Hok Hf. split; [done| |].
  - intros x _. unfold neurons, M; simpl. rewrite Hf. unfold evm_GetBalance, GetAccount; simpl. lia.
  - unfold reserve, M, minor_sum; simpl. rewrite Hf. lia.
Qed.

(** The coins are [q] of the gas denomination. *)
Definition gas (q : Z) (cs : Coins) : Prop := AmountOf cs GasDenom = q.

Lemma NewCoins1_gas q cs : NewCoins1 (mkCoin GasDenom q) = Ok cs -> gas q cs.
Proof.
  intros Hc. apply NewCoins1_Ok in Hc as [_ Ha]. unfold gas. rewrite Ha, AmountOf_singleton.
  by rewrite bool_decide_eq_true_2.
Qed.

Lemma moved_shift x y q cs (b' : B) s :
  accounts_ok s -> gas q cs -> moved x y cs (evBank s) b' ->
  shift (fun z => pay x (- q * M) z + pay y (q * M) z) (pay x (- q * M) U + pay y (q * M) U)
    s (mkEvmState (evAccounts s) b').
Proof.
  intros Hok Hg (Hm & _).
  eapply shift_eq; [apply (bank_shift (fun z => pay x (- q) z + pay y q z)); [done|]| |].
  - intros z. rewrite Hm. unfold credit, pay. rewrite Hg. repeat case_bool_decide; lia.
  - intros z ?. unfold pay. repeat case_bool_decide; lia.
  - unfold pay. repeat case_bool_decide; lia.
Qed.

(** ** Splitting *)
Lemma SplitEvmDenomCoins_Ok cs g r :
  SplitEvmDenomCoins cs = Ok (g, r) ->
  let n := AmountOf cs EvmDenom in
  0 <= n /\ g = mkCoin GasDenom (n / M) /\ r = n mod M.
Proof.
  unfold SplitEvmDenomCoins. intros Hx. destruct cs as [|c cs].
  { go_inv Hx. subst. coin_inv. done. }
  go_inv Hx. destruct r1.
  assert (cs = [] /\ Denom c = EvmDenom /\ Coins_IsValid [c] = true) as (-> & Hd & Hv).
  { unfold ValidateEvmCoins in Hcall0. go_inv Hcall0. subst. by gobool. }
  apply Coins_IsValid_Ok in Hv as [Hv _]. inversion Hv as [|? ? [_ Hpos] _]. subst.
  cbn [AmountOf]. rewrite bool_decide_eq_true_2 by done. coin_inv.
  assert (0 < M) as HM by done.
  pose proof (Z.mod_pos_bound (Amount c) M HM) as Hmod.
  rewrite Z.quot_div_nonneg in * by (unfold M, ConversionMultiplier in *; lia).
  change ConversionMultiplier with M in *. simpl. split_and!; [lia| |].
  - destruct (0 <? Amount c / M) eqn:Hq; gobool.
    + by coin_inv.
    + injection Hcall1 as <-. f_equal. pose proof (Z.div_pos (Amount c) M). lia.
  - destruct (Z.ltb_spec 0 (Amount c mod M)); lia.
Qed.

Lemma split_total n : 0 <= n -> n / M * M + n mod M = n.
Proof. intros _. pose proof (Z.div_mod n M). unfold M, ConversionMultiplier in *. lia. Qed.

(** ** Conversions *)
Lemma evm_bank_Ok f s s' :
  evm_bank f s = Ok s' -> exists b, f (evBank s) = Ok b /\ s' = mkEvmState (evAccounts s) b.
Proof. unfold evm_bank. intros Hx. go_inv Hx. eauto. Qed.

(** Decides equalities of addresses in the amounts of a shift. *)
Ltac shift_amounts := unfold pay; repeat case_bool_decide; try congruence; try lia.

Lemma ConvertOne_shift addr cnt s s' :
  addr <> U -> accounts_ok s -> ConvertOneGasDenomToEvmDenomIfNeeded addr cnt s = Ok s' ->
  shift (fun _ => 0) 0 s s'.
Proof.
  intros Hne Hok Hx. unfold ConvertOneGasDenomToEvmDenomIfNeeded in Hx. go_inv Hx.
  { subst. by apply shift_refl. }
  coin_inv. by_call evm_bank_Ok as (b & Hb & ->). by_call NewCoins1_gas as Hg.
  apply send_to_module in Hb as (y & Hy & Hm). rewrite HU in Hy. injection Hy as <-.
  pose proof (moved_shift _ _ _ _ _ _ Hok Hg Hm) as H1.
  apply AddBalance_Ok, SetBalance_shift in Hx; [|apply H1].
  change ConversionMultiplier with M in *.
  eapply shift_eq; [by eapply shift_trans| |]; [intros z ?|]; shift_amounts.
Qed.

Lemma module_addr_Ok m a : module_addr m = Ok a -> GetModuleAddress m = Some a.
Proof. unfold module_addr. case_match; [by intros [= <-]|done]. Qed.

Lemma ConvertToGas_Ok addr s s' :
  accounts_ok s -> ConvertEvmDenomToGasDenom addr s = Ok s' ->
  let q := evm_GetBalance s addr / M in
  (q = 0 /\ s' = s)
  \/ (0 < q /\ exists s1 cs b, SetBalance addr (evm_GetBalance s addr mod M) s = Ok s1
      /\ gas q cs /\ moved U addr cs (evBank s1) b /\ s' = mkEvmState (evAccounts s1) b).
Proof.
  intros Hok Hx. unfold ConvertEvmDenomToGasDenom in Hx. go_inv Hx; simplify_eq.
  all: coin_inv.
  all: pose proof (NewCoins1_Ok _ _ Hcall0) as [_ Ha].
  all: apply SplitEvmDenomCoins_Ok in Hcall1 as (_ & -> & _); rewrite Ha, AmountOf_singleton in *;
       rewrite bool_decide_eq_true_2 in * by done; simpl in *; gobool.
  - left. split; [|done]. pose proof (minor_nonneg _ addr Hok) as Hn. apply (Z.div_pos _ M) in Hn; [|done]. lia.
  - right. split; [done|]. by_call evm_bank_Ok as (b & Hb & ->).
    apply module_addr_Ok in Hcall5. rewrite HU in Hcall5. injection Hcall5 as <-.
    apply send_moved in Hb. by_call NewCoins1_gas as Hg.
    eexists _, _, _. split_and!; [|done|done|done].
    replace (evm_GetBalance s addr mod M) with (evm_GetBalance s addr - evm_GetBalance s addr / M * M); [done|].
    pose proof (Z.div_mod (evm_GetBalance s addr) M). unfold M, ConversionMultiplier in *. lia.
Qed.

Lemma ConvertToGas_shift addr s s' :
  addr <> U -> accounts_ok s -> ConvertEvmDenomToGasDenom addr s = Ok s' ->
  shift (fun _ => 0) 0 s s'.
Proof.
  intros Hne Hok Hx. apply ConvertToGas_Ok in Hx as [[_ ->]|(_ & s1 & cs & b & H1 & Hg & Hm & ->)];
    [by apply shift_refl| |done].
  apply SetBalance_shift in H1; [|done].
  pose proof (moved_shift _ _ _ _ _ _ (sh_ok _ _ _ _ H1) Hg Hm) as H2.
  assert (evm_GetBalance s addr = evm_GetBalance s addr / M * M + evm_GetBalance s addr mod M) as Ed
    by (pose proof (Z.div_mod (evm_GetBalance s addr) M); unfold M, ConversionMultiplier in *; lia).
  eapply shift_eq; [by eapply shift_trans| |]; [intros z ?|]; shift_amounts.
Qed.

(** ** The operations of the EVM's bank keeper *)
Inductive evm_op : Type :=
| EvToModule (x : AccAddress) (m : string) (amt : Coins)
| EvToAccount (m : string) (x : AccAddress) (amt : Coins)
| EvMint (m : string) (amt : Coins)
| EvBurn (m : string) (amt : Coins).

Definition evm_exec (o : evm_op) s : outcome (EvmState B) :=
  match o with
  | EvToModule x m amt => EvmBank_SendCoinsFromAccountToModule x m amt s
  | EvToAccount m x amt => EvmBank_SendCoinsFromModuleToAccount m x amt s
  | EvMint m amt => EvmBank_MintCoins m amt s
  | EvBurn m amt => EvmBank_BurnCoins m amt s
  end.

(** The specification: what an operation does to the ledger of [neuron]. *)
Definition pay_module (m : string) (n : Z) (z : AccAddress) : Z :=
  match GetModuleAddress m with Some y => pay y n z | None => 0 end.
Definition ledger_delta (o : evm_op) (z : AccAddress) : Z :=
  match o with
  | EvToModule x m amt => pay x (- AmountOf amt EvmDenom) z + pay_module m (AmountOf amt EvmDenom) z
  | EvToAccount m x amt => pay_module m (- AmountOf amt EvmDenom) z + pay x (AmountOf amt EvmDenom) z
  | EvMint m amt => pay_module m (AmountOf amt EvmDenom) z
  | EvBurn m amt => pay_module m (- AmountOf amt EvmDenom) z
  end.
(** ... and to the reserve: minted fractions use it, burned fractions return to it. *)
Definition reserve_delta (o : evm_op) : Z :=
  match o with
  | EvMint _ amt => - (AmountOf amt EvmDenom mod M)
  | EvBurn _ amt => AmountOf amt EvmDenom mod M
  | _ => 0
  end.

(** The evmutil module account takes no part in the operations of the EVM. *)
Definition outside (o : evm_op) : Prop :=
  match o with
  | EvToModule x m _ => x <> U /\ GetModuleAddress m <> Some U
  | EvToAccount m x _ => x <> U /\ GetModuleAddress m <> Some U
  | EvMint m _ | EvBurn m _ => GetModuleAddress m <> Some U
  end.

(** Moving the whole part in the bank, if there is one. *)
Lemma gas_part_shift (q : Z) (f : Coins -> B -> outcome B) (d : AccAddress -> Z) s s' :
  accounts_ok s -> 0 <= q -> d U = 0 ->
  (forall cs b', gas q cs -> f cs (evBank s) = Ok b' ->
     forall x, GetBalance b' x GasDenom = GetBalance (evBank s) x GasDenom + d x * q) ->
  (if 0 <? q then let! coins := NewCoins1 (mkCoin GasDenom q) in evm_bank (f coins) s else Ok s) = Ok s' ->
  shift (fun x => d x * (q * M)) 0 s s'.
Proof.
  intros Hok Hq HdU Hf Hx. destruct (Z.ltb_spec 0 q).
  - apply obind_Ok in Hx as (cs & Hcs & Hx). apply NewCoins1_gas in Hcs.
    apply evm_bank_Ok in Hx as (b & Hb & ->).
    eapply shift_eq; [apply (bank_shift (fun x => d x * q)); [done|by apply (Hf cs)]| |].
    + intros x _. ring.
    + rewrite HdU. ring.
  - injection Hx as <-. eapply shift_eq; [by apply shift_refl| |done]. intros x _. assert (q = 0) as -> by lia. ring.
Qed.

Lemma sign_pay a (n x : Z) z : pay a n z * x = pay a (n * x) z.
Proof. unfold pay. case_bool_decide; lia. Qed.

Lemma to_module_shift x m amt s s' :
  outside (EvToModule x m amt) -> accounts_ok s -> evm_exec (EvToModule x m amt) s = Ok s' ->
  shift (ledger_delta (EvToModule x m amt)) 0 s s'.
Proof.
  simpl. intros [Hx Hm] Hok Hr. unfold EvmBank_SendCoinsFromAccountToModule in Hr.
  apply obind_Ok in Hr as ([g r] & Hsplit & Hr). apply SplitEvmDenomCoins_Ok in Hsplit as (Hn & -> & ->).
  set (n := AmountOf amt EvmDenom) in *. pose proof (split_total n Hn) as En. cbn [Amount] in Hr.
  apply obind_Ok in Hr as (s1 & H1 & Hr). apply obind_Ok in Hr as (s2 & H2 & Hr).
  apply obind_Ok in Hr as (y & Hy & Hr). apply obind_Ok in Hr as (s3 & H3 & H4).
  apply module_addr_Ok in Hy.
  assert (y <> U) as HyU by congruence.
  eapply (gas_part_shift _ _ (fun z => pay x (-1) z + pay y 1 z)) in H1;
    [|done|by apply Z.div_pos|shift_amounts|].
  - apply ConvertOne_shift in H2; [|done|apply H1]. apply SendBalance_shift in H3; [|apply H2].
    apply ConvertToGas_shift in H4; [|done|apply H3].
    eapply shift_eq; [eapply shift_trans; [eapply shift_trans; [eapply shift_trans|]|]; eassumption| |lia].
    intros z _. simpl. unfold pay_module. rewrite Hy. fold n. shift_amounts.
  - intros cs b' Hg Hb z. apply send_to_module in Hb as (y' & Hy' & Hmv & _).
    rewrite Hy in Hy'. injection Hy' as <-. rewrite Hmv. unfold credit. rewrite Hg. shift_amounts.
Qed.

Lemma to_account_shift m x amt s s' :
  outside (EvToAccount m x amt) -> accounts_ok s -> evm_exec (EvToAccount m x amt) s = Ok s' ->
  shift (ledger_delta (EvToAccount m x amt)) 0 s s'.
Proof.
  simpl. intros [Hx Hm] Hok Hr. unfold EvmBank_SendCoinsFromModuleToAccount in Hr.
  apply obind_Ok in Hr as ([g r] & Hsplit & Hr). apply SplitEvmDenomCoins_Ok in Hsplit as (Hn & -> & ->).
  set (n := AmountOf amt EvmDenom) in *. pose proof (split_total n Hn) as En. cbn [Amount] in Hr.
  apply obind_Ok in Hr as (s1 & H1 & Hr). apply obind_Ok in Hr as (y & Hy & Hr).
  apply obind_Ok in Hr as (s2 & H2 & Hr). apply obind_Ok in Hr as (s3 & H3 & H4).
  apply module_addr_Ok in Hy.
  assert (y <> U) as HyU by congruence.
  eapply (gas_part_shift _ _ (fun z => pay y (-1) z + pay x 1 z)) in H1;
    [|done|by apply Z.div_pos|shift_amounts|].
  - apply ConvertOne_shift in H2; [|done|apply H1]. apply SendBalance_shift in H3; [|apply H2].
    apply ConvertToGas_shift in H4; [|done|apply H3].
    eapply shift_eq; [eapply shift_trans; [eapply shift_trans; [eapply shift_trans|]|]; eassumption| |lia].
    intros z _. simpl. unfold pay_module. rewrite Hy. fold n. shift_amounts.
  - intros cs b' Hg Hb z. apply send_from_module in Hb as (y' & Hy' & Hmv & _).
    rewrite Hy in Hy'. injection Hy' as <-. rewrite Hmv. unfold credit. rewrite Hg. shift_amounts.
Qed.

Lemma mint_shift m amt s s' :
  outside (EvMint m amt) -> accounts_ok s -> evm_exec (EvMint m amt) s = Ok s' ->
  shift (ledger_delta (EvMint m amt)) (reserve_delta (EvMint m amt)) s s'.
Proof.
  simpl. intros Hm Hok Hr. unfold EvmBank_MintCoins in Hr.
  apply obind_Ok in Hr as ([g r] & Hsplit & Hr). apply SplitEvmDenomCoins_Ok in Hsplit as (Hn & -> & ->).
  set (n := AmountOf amt EvmDenom) in *. pose proof (split_total n Hn) as En. cbn [Amount] in Hr.
  apply obind_Ok in Hr as (s1 & H1 & Hr). apply obind_Ok in Hr as (y & Hy & Hr).
  apply obind_Ok in Hr as (s2 & H2 & H3).
  apply module_addr_Ok in Hy.
  assert (y <> U) as HyU by congruence.
  eapply (gas_part_shift _ _ (fun z => pay y 1 z)) in H1; [|done|by apply Z.div_pos|shift_amounts|].
  - apply AddBalance_Ok, SetBalance_shift in H2; [|apply H1]. apply ConvertToGas_shift in H3; [|done|apply H2].
    eapply shift_eq; [eapply shift_trans; [eapply shift_trans|]; eassumption| |lia].
    intros z _. simpl. unfold pay_module. rewrite Hy. fold n. shift_amounts.
  - intros cs b' Hg Hb z. apply mint_effect in Hb as (y' & Hy' & Hmv & _).
    rewrite Hy in Hy'. injection Hy' as <-. rewrite Hmv. unfold credit. rewrite Hg. shift_amounts.
Qed.

Lemma burn_shift m amt s s' :
  outside (EvBurn m amt) -> accounts_ok s -> evm_exec (EvBurn m amt) s = Ok s' ->
  shift (ledger_delta (EvBurn m amt)) (reserve_delta (EvBurn m amt)) s s'.
Proof.
  simpl. intros Hm Hok Hr. unfold EvmBank_BurnCoins in Hr.
  apply obind_Ok in Hr as ([g r] & Hsplit & Hr). apply SplitEvmDenomCoins_Ok in Hsplit as (Hn & -> & ->).
  set (n := AmountOf amt EvmDenom) in *. pose proof (split_total n Hn) as En. cbn [Amount] in Hr.
  apply obind_Ok in Hr as (s1 & H1 & Hr). apply obind_Ok in Hr as (y & Hy & Hr).
  apply obind_Ok in Hr as (s2 & H2 & H3).
  apply module_addr_Ok in Hy.
  assert (y <> U) as HyU by congruence.
  eapply (gas_part_shift _ _ (fun z => pay y (-1) z)) in H1; [|done|by apply Z.div_pos|shift_amounts|].
  - apply ConvertOne_shift in H2; [|done|apply H1].
    assert (shift (pay y (- (n mod M))) (n mod M) s2 s') as H4.
    { apply RemoveBalance_Ok in H3 as [_ [[E ->]|[_ H3]]].
      - eapply shift_eq; [apply shift_refl, H2| |lia]. intros z _. rewrite E. shift_amounts.
      - apply SetBalance_shift in H3; [|apply H2]. eapply shift_eq; [exact H3| |lia]. intros z _. shift_amounts. }
    eapply shift_eq; [eapply shift_trans; [eapply shift_trans|]; eassumption| |lia].
    intros z _. simpl. unfold pay_module. rewrite Hy. fold n. shift_amounts.
  - intros cs b' Hg Hb z. apply burn_effect in Hb as (y' & Hy' & Hmv & _).
    rewrite Hy in Hy'. injection Hy' as <-. rewrite Hmv. unfold credit. rewrite Hg. shift_amounts.
Qed.

Lemma evm_exec_shift o s s' :
  outside o -> accounts_ok s -> evm_exec o s = Ok s' -> shift (ledger_delta o) (reserve_delta o) s s'.
Proof. destruct o; [apply to_module_shift|apply to_account_shift|apply mint_shift|apply burn_shift]. Qed.

(** ** Small balances *)
Definition small_except (y : AccAddress) s : Prop := forall x, x <> y -> evm_GetBalance s x < M.

Lemma gas_part_accounts (q : Z) (f : Coins -> B -> outcome B) s s' :
  (if 0 <? q then let! coins := NewCoins1 (mkCoin GasDenom q) in evm_bank (f coins) s else Ok s) = Ok s' ->
  evAccounts s' = evAccounts s.
Proof.
  intros Hx. destruct (0 <? q); [|by injection Hx as <-].
  apply obind_Ok in Hx as (cs & _ & Hx). by apply evm_bank_Ok in Hx as (b & _ & ->).
Qed.

Lemma same_accounts_small s s' : evAccounts s' = evAccounts s -> small s -> small s'.
Proof. intros E Hs x. unfold evm_GetBalance, GetAccount. rewrite E. apply Hs. Qed.
Lemma same_accounts_ok s s' : evAccounts s' = evAccounts s -> accounts_ok s -> accounts_ok s'.
Proof. unfold accounts_ok. by intros ->. Qed.

Lemma ConvertOne_small addr cnt s s' :
  accounts_ok s -> small s -> 0 <= cnt -> ConvertOneGasDenomToEvmDenomIfNeeded addr cnt s = Ok s' ->
  accounts_ok s' /\ small_except addr s' /\ evm_GetBalance s' addr < cnt + M.
Proof.
  intros Hok Hs Hc Hx. unfold ConvertOneGasDenomToEvmDenomIfNeeded in Hx. go_inv Hx.
  { subst. split_and!; [done|intros x _; apply Hs|]. pose proof (Hs addr). unfold M. lia. }
  by_call evm_bank_Ok as (b & _ & ->). apply AddBalance_Ok, SetBalance_Ok in Hx as (_ & Hok' & _ & Hg & _); [|done].
  split_and!; [done| |].
  - intros x Hne. rewrite Hg, bool_decide_eq_false_2 by congruence. apply Hs.
  - rewrite Hg, bool_decide_eq_true_2 by done. gobool.
    change (evm_GetBalance (mkEvmState (evAccounts s) b) addr) with (evm_GetBalance s addr). unfold M. lia.
Qed.

Lemma SendBalance_small x y cnt s s' :
  accounts_ok s -> small_except x s -> evm_GetBalance s x < cnt + M -> SendBalance x y cnt s = Ok s' ->
  accounts_ok s' /\ small_except y s'.
Proof.
  intros Hok Hs Hx Hr. apply SendBalance_Ok in Hr as [_ [[-> ->]|(_ & s1 & H1 & H2)]].
  - split; [done|]. intros z _. destruct (decide (z = x)) as [->|Hz]; [lia|by apply Hs].
  - apply SetBalance_Ok in H1 as (_ & Hok1 & _ & Hg1 & _); [|done].
    apply SetBalance_Ok in H2 as (_ & Hok2 & _ & Hg2 & _); [|done]. split; [done|].
    intros z Hz. rewrite Hg2, bool_decide_eq_false_2, Hg1 by congruence.
    case_bool_decide; [lia|]. apply Hs. congruence.
Qed.

Lemma ConvertToGas_small y s s' :
  accounts_ok s -> small_except y s -> ConvertEvmDenomToGasDenom y s = Ok s' -> accounts_ok s' /\ small s'.
Proof.
  intros Hok Hs Hx. apply ConvertToGas_Ok in Hx as [[Hq ->]|(_ & s1 & cs & b & H1 & _ & _ & ->)]; [| |done].
  - split; [done|]. intros x. destruct (decide (x = y)) as [->|Hne]; [|by apply Hs].
    apply Z.div_small_iff in Hq; [|done]. pose proof (minor_nonneg s y Hok). unfold M, ConversionMultiplier in *. lia.
  - apply SetBalance_Ok in H1 as (_ & Hok1 & _ & Hg1 & _); [|done].
    split; [by eapply same_accounts_ok; [|exact Hok1]|]. apply (same_accounts_small s1); [done|].
    intros x. rewrite Hg1. case_bool_decide; [|apply Hs; congruence].
    by apply Z.mod_pos_bound.
Qed.

(** The common end of the two transfers. *)
Lemma transfer_small x y n s s1 s2 s3 s4 :
  evAccounts s1 = evAccounts s -> accounts_ok s -> small s ->
  ConvertOneGasDenomToEvmDenomIfNeeded x (n mod M) s1 = Ok s2 -> SendBalance x y (n mod M) s2 = Ok s3 ->
  ConvertEvmDenomToGasDenom y s3 = Ok s4 -> small s4.
Proof.
  intros E Hok Hs H2 H3 H4.
  apply ConvertOne_small in H2 as (Hok2 & Hs2 & Hx2);
    [|by eapply same_accounts_ok|by eapply same_accounts_small|by apply Z.mod_pos_bound].
  apply SendBalance_small in H3 as [Hok3 Hs3]; [|done|done|done].
  by apply ConvertToGas_small in H4 as [_ ?].
Qed.

Lemma evm_exec_small o s s' :
  accounts_ok s -> small s -> evm_exec o s = Ok s' -> small s'.
Proof.
  intros Hok Hs Hr. assert (0 < M) as HM by done.
  destruct o as [x m amt|m x amt|m amt|m amt]; simpl in Hr.
  - unfold EvmBank_SendCoinsFromAccountToModule in Hr.
    apply obind_Ok in Hr as ([g r] & Hsplit & Hr). apply SplitEvmDenomCoins_Ok in Hsplit as (_ & -> & ->).
    apply obind_Ok in Hr as (s1 & H1%gas_part_accounts & Hr). apply obind_Ok in Hr as (s2 & H2 & Hr).
    apply obind_Ok in Hr as (y & Hy & Hr). apply obind_Ok in Hr as (s3 & H3 & H4).
    exact (transfer_small _ _ _ _ _ _ _ _ H1 Hok Hs H2 H3 H4).
  - unfold EvmBank_SendCoinsFromModuleToAccount in Hr.
    apply obind_Ok in Hr as ([g r] & Hsplit & Hr). apply SplitEvmDenomCoins_Ok in Hsplit as (_ & -> & ->).
    apply obind_Ok in Hr as (s1 & H1%gas_part_accounts & Hr). apply obind_Ok in Hr as (y & Hy & Hr).
    apply obind_Ok in Hr as (s2 & H2 & Hr). apply obind_Ok in Hr as (s3 & H3 & H4).
    exact (transfer_small _ _ _ _ _ _ _ _ H1 Hok Hs H2 H3 H4).
  - unfold EvmBank_MintCoins in Hr.
    apply obind_Ok in Hr as ([g r] & Hsplit & Hr). apply SplitEvmDenomCoins_Ok in Hsplit as (_ & -> & ->).
    apply obind_Ok in Hr as (s1 & H1%gas_part_accounts & Hr). apply obind_Ok in Hr as (y & Hy & Hr).
    apply obind_Ok in Hr as (s2 & H2 & H3). pose proof (same_accounts_small _ _ H1 Hs) as Hs1.
    apply AddBalance_Ok, SetBalance_Ok in H2 as (_ & Hok2 & _ & Hg2 & _); [|by eapply same_accounts_ok].
    apply ConvertToGas_small in H3 as [_ ?]; [done|done|].
    intros x Hne. rewrite Hg2, bool_decide_eq_false_2 by congruence. apply Hs1.
  - unfold EvmBank_BurnCoins in Hr.
    apply obind_Ok in Hr as ([g r] & Hsplit & Hr). apply SplitEvmDenomCoins_Ok in Hsplit as (_ & -> & ->).
    apply obind_Ok in Hr as (s1 & H1%gas_part_accounts & Hr). apply obind_Ok in Hr as (y & Hy & Hr).
    apply obind_Ok in Hr as (s2 & H2 & H3).
    apply ConvertOne_small in H2 as (Hok2 & Hs2 & Hx2);
      [|by eapply same_accounts_ok|by eapply same_accounts_small|by apply Z.mod_pos_bound].
    apply RemoveBalance_Ok in H3 as [_ [[E ->]|[_ H3]]].
    + intros x. destruct (decide (x = y)) as [->|Hne]; [unfold M in *; lia|by apply Hs2].
    + apply SetBalance_Ok in H3 as (_ & _ & _ & Hg & _); [|done]. intros x. rewrite Hg.
      case_bool_decide; [unfold M in *; lia|]. apply Hs2. congruence.
Qed.

(** ** Other denominations

    The EVM's bank keeper moves, mints and burns [ua0gi] only. *)
Definition gas_only s s' : Prop := forall d, d <> GasDenom ->
  (forall a, GetBalance (evBank s') a d = GetBalance (evBank s) a d)
  /\ GetSupply (evBank s') d = GetSupply (evBank s) d.

Lemma gas_only_bank s s' : evBank s' = evBank s -> gas_only s s'.
Proof. intros E d _. by rewrite E. Qed.
Lemma gas_only_trans s1 s2 s3 : gas_only s1 s2 -> gas_only s2 s3 -> gas_only s1 s3.
Proof.
  intros H1 H2 d Hd. destruct (H1 d Hd) as [B1 S1], (H2 d Hd) as [B2 S2].
  split; [intros a; by rewrite B2, B1|by rewrite S2, S1].
Qed.

Lemma gas_coins_other q cs d : NewCoins1 (mkCoin GasDenom q) = Ok cs -> d <> GasDenom -> AmountOf cs d = 0.
Proof.
  intros [_ Ha]%NewCoins1_Ok Hd. rewrite Ha, AmountOf_singleton. by rewrite bool_decide_eq_false_2 by congruence.
Qed.

(** A bank operation with effects on each denomination given by the coins. *)
Lemma evm_bank_gas_only f q cs s s' :
  NewCoins1 (mkCoin GasDenom q) = Ok cs -> evm_bank f s = Ok s' ->
  (forall b b' d, f b = Ok b' -> AmountOf cs d = 0 ->
     (forall a, GetBalance b' a d = GetBalance b a d) /\ GetSupply b' d = GetSupply b d) ->
  gas_only s s'.
Proof.
  intros Hc (b & Hb & ->)%evm_bank_Ok Hf d Hd. apply (Hf _ _ d Hb). by eapply gas_coins_other.
Qed.

Lemma moved_other x y cs (b b' : B) d : moved x y cs b b' -> AmountOf cs d = 0 ->
  (forall a, GetBalance b' a d = GetBalance b a d) /\ GetSupply b' d = GetSupply b d.
Proof.
  intros (Hm & Hs & _) Hz. split; [|done]. intros a. rewrite Hm. unfold credit. rewrite Hz. repeat case_bool_decide; lia.
Qed.

Lemma SetBalance_bank addr bal s s' : SetBalance addr bal s = Ok s' -> evBank s' = evBank s.
Proof. unfold SetBalance, SetAccount. intros Hx. go_inv Hx; by subst. Qed.
Lemma SendBalance_bank x y amt s s' : SendBalance x y amt s = Ok s' -> evBank s' = evBank s.
Proof.
  intros [_ [[_ ->]|(_ & s1 & H1%SetBalance_bank & H2%SetBalance_bank)]]%SendBalance_Ok; congruence.
Qed.
Lemma RemoveBalance_bank x amt s s' : RemoveBalance x amt s = Ok s' -> evBank s' = evBank s.
Proof. by intros [_ [[_ ->]|[_ H1%SetBalance_bank]]]%RemoveBalance_Ok. Qed.

Lemma ConvertOne_gas_only addr cnt s s' :
  ConvertOneGasDenomToEvmDenomIfNeeded addr cnt s = Ok s' -> gas_only s s'.
Proof.
  unfold ConvertOneGasDenomToEvmDenomIfNeeded. intros Hx. go_inv Hx; [subst; by apply gas_only_bank|]. coin_inv.
  apply AddBalance_Ok, SetBalance_bank in Hx. eapply gas_only_trans; [|by apply gas_only_bank].
  eapply evm_bank_gas_only; [eassumption..|]. intros b b' d (y & _ & Hm)%send_to_module. by eapply moved_other.
Qed.

Lemma ConvertToGas_gas_only addr s s' : ConvertEvmDenomToGasDenom addr s = Ok s' -> gas_only s s'.
Proof.
  unfold ConvertEvmDenomToGasDenom. intros Hx.
  apply obind_Ok in Hx as (c & Hc & Hx). apply obind_Ok in Hx as (cs & Hcs & Hx).
  apply obind_Ok in Hx as ([g r] & Hsp & Hx). apply SplitEvmDenomCoins_Ok in Hsp as (_ & -> & _). cbn [Amount] in Hx.
  go_inv Hx; [subst; by apply gas_only_bank|].
  repeat match goal with Hs : SetBalance _ _ _ = Ok _ |- _ => apply SetBalance_bank in Hs end.
  eapply gas_only_trans; [by apply gas_only_bank|].
  eapply evm_bank_gas_only; [eassumption..|]. intros b b' d Hm%send_moved. by eapply moved_other.
Qed.

(** The part in whole [ua0gi] of an operation. *)
Lemma gas_part_only q (f : Coins -> B -> outcome B) s s' :
  (forall cs b b' d, f cs b = Ok b' -> AmountOf cs d = 0 ->
     (forall a, GetBalance b' a d = GetBalance b a d) /\ GetSupply b' d = GetSupply b d) ->
  (if 0 <? q then let! coins := NewCoins1 (mkCoin GasDenom q) in evm_bank (f coins) s else Ok s) = Ok s' ->
  gas_only s s'.
Proof.
  intros Hf Hx. destruct (0 <? q); [|injection Hx as <-; by apply gas_only_bank].
  apply obind_Ok in Hx as (cs & Hc & Hx). eapply evm_bank_gas_only; [exact Hc|exact Hx|apply Hf].
Qed.

Lemma evm_exec_gas_only o s s' : evm_exec o s = Ok s' -> gas_only s s'.
Proof.
  destruct o; simpl; unfold EvmBank_SendCoinsFromAccountToModule, EvmBank_SendCoinsFromModuleToAccount,
    EvmBank_MintCoins, EvmBank_BurnCoins; intros Hx; apply obind_Ok in Hx as ([g r] & Hsp & Hx);
    apply SplitEvmDenomCoins_Ok in Hsp as (_ & -> & _); cbn [Amount] in Hx;
    apply obind_Ok in Hx as (s1 & H1 & Hx); apply gas_part_only in H1;
    try (eapply gas_only_trans; [exact H1|]; clear H1).
  - go_inv Hx. apply ConvertToGas_gas_only in Hx. apply ConvertOne_gas_only in Hcall.
    apply SendBalance_bank, gas_only_bank in Hcall1. eauto using gas_only_trans.
  - intros cs b b' d (y & _ & Hm)%send_to_module. by eapply moved_other.
  - go_inv Hx. apply ConvertToGas_gas_only in Hx. apply ConvertOne_gas_only in Hcall0.
    apply SendBalance_bank, gas_only_bank in Hcall1. eauto using gas_only_trans.
  - intros cs b b' d (y & _ & Hm)%send_from_module. by eapply moved_other.
  - go_inv Hx. apply ConvertToGas_gas_only in Hx.
    apply AddBalance_Ok, SetBalance_bank, gas_only_bank in Hcall0. eauto using gas_only_trans.
  - intros cs b b' d (y & _ & Hm & Hs)%mint_effect Hz. rewrite Hs, Hz. split; [|lia].
    intros a. rewrite Hm. unfold credit. rewrite Hz. case_bool_decide; lia.
  - go_inv Hx. apply ConvertOne_gas_only in Hcall0. apply RemoveBalance_bank, gas_only_bank in Hx.
    eauto using gas_only_trans.
  - intros cs b b' d (y & _ & Hm & Hs)%burn_effect Hz. rewrite Hs, Hz. split; [|lia].
    intros a. rewrite Hm. unfold credit. rewrite Hz. case_bool_decide; lia.
Qed.

(** ** Theorems *)

(** C4: the EVM's bank keeper implements a ledger of [neuron]: a successful
    transfer, mint or burn changes the balance of every account but the module
    account exactly by the amount of the operation, although the code splits it
    into [ua0gi] and a fraction and converts between the two. *)
Theorem evm_bank_refines o s s' :
  outside o -> accounts_ok s -> evm_exec o s = Ok s' ->
  accounts_ok s' /\ forall x, x <> U -> neurons s' x = neurons s x + ledger_delta o x.
Proof. intros Ho Hok Hr. destruct (evm_exec_shift o s s' Ho Hok Hr). done. Qed.

(** Sequences of operations. *)
Inductive evm_run : list evm_op -> EvmState B -> EvmState B -> Prop :=
| run_nil s : evm_run [] s s
| run_cons o l s s1 s2 : outside o -> evm_exec o s = Ok s1 -> evm_run l s1 s2 -> evm_run (o :: l) s s2.

(** Through every sequence of operations the stored fractions stay positive
    and below one [ua0gi]: the small-balances invariant is never broken. *)
Theorem evm_run_small l s s' :
  accounts_ok s -> small s -> evm_run l s s' -> accounts_ok s' /\ small s'.
Proof.
  intros Hok Hs Hr. induction Hr as [|o l s s1 s2 Ho Hx _ IH]; [done|]. apply IH.
  - apply (evm_exec_shift _ _ _ Ho Hok Hx).
  - by eapply evm_exec_small.
Qed.

(** Through every sequence of operations the backing of the fractions changes
    exactly by the fractions burned minus the fractions minted; transfers never
    touch it. *)
Theorem evm_run_reserve l s s' :
  accounts_ok s -> evm_run l s s' -> reserve s' = reserve s + list_sum reserve_delta l.
Proof.
  intros Hok Hr. induction Hr as [|o l s s1 s2 Ho Hx _ IH]; [simpl; lia|].
  destruct (evm_exec_shift _ _ _ Ho Hok Hx) as [Hok1 _ Hres]. rewrite IH, Hres by done.
  unfold list_sum. simpl. lia.
Qed.

(** ** The registered invariants *)
Lemma elem_of_accounts s acc : acc ∈ GetAllAccounts s <-> exists a, evAccounts s !! a = Some acc.
Proof.
  unfold GetAllAccounts. rewrite list_elem_of_fmap. split.
  - intros ([k v] & -> & Hin). apply elem_of_iterator in Hin as [Hin _]. eauto.
  - intros (a & Ha). exists (a, acc). split; [done|]. by apply elem_of_iterator.
Qed.

Lemma accounts_sum s : list_sum acBalance (GetAllAccounts s) = minor_sum s.
Proof.
  unfold GetAllAccounts, iterator, minor_sum. rewrite map_sum_list_sum, merge_sort_Permutation.
  f_equal. f_equal. induction (map_to_list (evAccounts s)) as [|x l IH]; [done|].
  rewrite filter_cons_True by done. by rewrite IH.
Qed.

Lemma sum_accounts l t :
  0 <= t -> (forall acc, acc ∈ l -> 0 < acBalance acc) -> t + list_sum acBalance l < 2 ^ 256 ->
  ofold (fun acc t => int_chk (t + acBalance acc)) l t = Ok (t + list_sum acBalance l).
Proof.
  revert t. induction l as [|acc l IH]; intros t Ht Hl Hfit; simpl; [f_equal; lia|].
  pose proof (Hl acc (list_elem_of_here _ _)) as Hpos. unfold list_sum in Hfit. simpl in Hfit.
  fold (list_sum acBalance l) in Hfit.
  assert (0 <= list_sum acBalance l).
  { apply list_sum_nonneg. intros v Hv. specialize (Hl v (list_elem_of_further _ _ _ Hv)). lia. }
  rewrite int_chk_fits by lia. simpl. rewrite IH; [f_equal; unfold list_sum; simpl; lia|lia| |lia].
  intros v Hv. apply Hl. by right.
Qed.

Lemma FullyBacked_eq s :
  accounts_ok s -> minor_sum s < 2 ^ 256 ->
  Z.abs (GetBalance (evBank s) U GasDenom * ConversionMultiplier) < 2 ^ 256 ->
  FullyBackedInvariant U s = Ok (bool_decide (reserve s < 0)).
Proof.
  intros Hok Hs Hb. unfold FullyBackedInvariant. rewrite sum_accounts; [|done| |].
  - simpl. rewrite int_chk_fits by done. simpl. rewrite accounts_sum. f_equal. unfold reserve.
    rewrite Z.gtb_ltb. apply Bool.eq_iff_eq_true. rewrite Z.ltb_lt, bool_decide_eq_true. lia.
  - intros acc [a Ha]%elem_of_accounts. by apply Hok in Ha as [_ ?].
  - rewrite accounts_sum. lia.
Qed.

Lemma small_check s : accounts_ok s ->
  existsb (fun account => acBalance account >=? ConversionMultiplier) (GetAllAccounts s) = false <-> small s.
Proof.
  intros Hok. rewrite <- not_true_iff_false, existsb_exists. split.
  - intros Hn x. unfold evm_GetBalance, GetAccount. destruct (evAccounts s !! x) as [acc|] eqn:Ha; [|done].
    apply Z.nle_gt. intros Hle. apply Hn. exists acc. split; [|by apply Z.geb_le].
    apply list_elem_of_In, elem_of_accounts. eauto.
  - intros Hs (acc & Hin & Hge%Z.geb_le). apply list_elem_of_In, elem_of_accounts in Hin as [a Ha].
    specialize (Hs a). unfold evm_GetBalance, GetAccount in Hs. rewrite Ha in Hs. lia.
Qed.

(** The registered invariant checks compute what they promise: as long as the
    sums fit the integers of the SDK, the fully-backed check reports a broken
    invariant exactly when the fractions exceed the module account's [ua0gi], and
    a fresh small-balances check exactly when some fraction is not small; but once
    the small-balances check has reported a violation it reports one in every
    later state, also where every fraction is small. *)
Theorem invariant_checks_correct s :
  accounts_ok s -> minor_sum s < 2 ^ 256 ->
  Z.abs (GetBalance (evBank s) U GasDenom * ConversionMultiplier) < 2 ^ 256 ->
  FullyBackedInvariant U s = Ok (bool_decide (reserve s < 0))
  /\ (SmallBalancesInvariant false s = false <-> small s) /\ SmallBalancesInvariant true s = true.
Proof.
  intros Hok Hs Hb. split; [by apply FullyBacked_eq|]. split; [|done].
  unfold SmallBalancesInvariant. simpl. by apply small_check.
Qed.

(** The balance the EVM reads is the spendable [ua0gi] times the multiplier
    plus the spendable [neuron] of the bank plus the fraction, whenever these fit
    the integers of the SDK; other denominations panic. *)
Theorem EvmBank_GetBalance_correct s x denom :
  accounts_ok s -> ValidateDenom EvmDenom = true ->
  Spendable (evBank s) x GasDenom * ConversionMultiplier + Spendable (evBank s) x EvmDenom
    + evm_GetBalance s x < 2 ^ 256 ->
  EvmBank_GetBalance s x denom
  = if bool_decide (denom = EvmDenom)
    then Ok (mkCoin EvmDenom (Spendable (evBank s) x GasDenom * ConversionMultiplier
               + Spendable (evBank s) x EvmDenom + evm_GetBalance s x))
    else Panic "only evm denom is supported by EvmBankKeeper".
Proof.
  intros Hok Hd Hfit. unfold EvmBank_GetBalance. case_bool_decide; simpl; [|done].
  pose proof (spendable_range (evBank s) x GasDenom) as Hg.
  pose proof (spendable_range (evBank s) x EvmDenom) as He. pose proof (minor_nonneg s x Hok) as Hm.
  set (g := Spendable _ _ GasDenom) in *. set (e := Spendable _ _ EvmDenom) in *.
  set (f := evm_GetBalance s x) in *. unfold ConversionMultiplier in *.
  destruct (Z.ltb_spec 0 g).
  - rewrite int_chk_fits by lia. simpl. rewrite int_chk_fits by lia. simpl. rewrite int_chk_fits by lia. simpl.
    apply NewCoin_total; [done|lia].
  - assert (g = 0) as -> by lia. rewrite int_chk_fits by lia. simpl. apply NewCoin_total; [done|lia].
Qed.
End Proofs.
