(* ===== verification/EvmutilWitness.v ===== *)
(** * x/evmutil: the theorems at work on a concrete ledger

    A user with five [ua0gi] pays fees of one and a half [ua0gi] to the EVM's
    module account; the EVM mints and burns. *)

From S2P Require Import Prelude Sdk SdkModel Bank Evmutil EvmutilTheorems.

Module EvmChain.
#[export] Existing Instances SdkModel.model SdkModel.laws Ledger.keeper Ledger.laws.

Definition user : AccAddress := [2].
Definition U : AccAddress := default [] (Ledger.module_address "evmutil").
Definition evm : AccAddress := default [] (Ledger.module_address "evm").
Definition half : Z := 500000000000.
Definition start : EvmState Ledger.t :=
  mkEvmState ∅ (Ledger.set_balance user GasDenom 5 (Ledger.mk ∅ ∅)).
Definition fee : evm_op := EvToModule user "evm" [mkCoin EvmDenom (3 * half)].
Definition refund : evm_op := EvToAccount "evm" user [mkCoin EvmDenom half].
Definition mint : evm_op := EvMint "evm" [mkCoin EvmDenom (4 * half + 7)].
Definition burn : evm_op := EvBurn "evm" [mkCoin EvmDenom (half + 9)].

Definition run (o : evm_op) (s : EvmState Ledger.t) : EvmState Ledger.t :=
  match evm_exec o s with Ok s => s | _ => s end.
Definition after_fee := run fee start.
Definition after_refund := run refund after_fee.
Definition after_mint := run mint after_refund.
Definition after_burn := run burn after_mint.

Lemma module_account : GetModuleAddress EvmutilName = Some U.
Proof. reflexivity. Qed.
Lemma start_ok : accounts_ok start.
Proof. intros a acc. simpl. by rewrite lookup_empty. Qed.
Lemma start_small : small start.
Proof. intros x. unfold evm_GetBalance, GetAccount. simpl. by rewrite lookup_empty. Qed.

Lemma whole_run : evm_run U [fee; refund; mint; burn] start after_burn.
Proof.
  eapply run_cons; [by split|instantiate (1 := after_fee); vm_compute; reflexivity|].
  eapply run_cons; [by split|instantiate (1 := after_refund); vm_compute; reflexivity|].
  eapply run_cons; [done|instantiate (1 := after_mint); vm_compute; reflexivity|].
  eapply run_cons; [done|instantiate (1 := after_burn); vm_compute; reflexivity|].
  apply run_nil.
Qed.

Lemma evm_bank_refines_witness :
  accounts_ok after_fee
  /\ forall x, x <> U -> neurons after_fee x = neurons start x + ledger_delta fee x.
Proof.
  apply (evm_bank_refines U module_account fee start after_fee); [by split|exact start_ok|vm_compute; reflexivity].
Defined.

Lemma evm_run_small_witness : accounts_ok after_burn /\ small after_burn.
Proof.
  apply (evm_run_small U module_account [fee; refund; mint; burn] start after_burn start_ok start_small whole_run).
Defined.

Lemma evm_run_reserve_witness :
  reserve U after_burn = reserve U start + list_sum reserve_delta [fee; refund; mint; burn].
Proof. apply (evm_run_reserve U module_account _ start after_burn start_ok whole_run). Defined.

Lemma invariant_checks_correct_witness :
  FullyBackedInvariant U after_fee = Ok (bool_decide (reserve U after_fee < 0))
  /\ (SmallBalancesInvariant false after_fee = false <-> small after_fee)
  /\ SmallBalancesInvariant true after_fee = true.
Proof.
  apply (invariant_checks_correct U after_fee); [|vm_compute; done|vm_compute; done].
  intros a acc Ha.
  assert (evAccounts after_fee = {[user := NewAccount user half; evm := NewAccount evm half]}) as E
    by (vm_compute; reflexivity).
  rewrite E in Ha. apply lookup_insert_Some in Ha as [[<- <-]|[_ Ha]];
    [split; [reflexivity|vm_compute; reflexivity]|].
  apply lookup_singleton_Some in Ha as [<- <-]. split; [reflexivity|vm_compute; reflexivity].
Defined.

Lemma EvmBank_GetBalance_correct_witness :
  EvmBank_GetBalance start user EvmDenom
  = if bool_decide (EvmDenom = EvmDenom)
    then Ok (mkCoin EvmDenom (Spendable (evBank start) user GasDenom * ConversionMultiplier
               + Spendable (evBank start) user EvmDenom + evm_GetBalance start user))
    else Panic "only evm denom is supported by EvmBankKeeper".
Proof.
  apply (EvmBank_GetBalance_correct start user EvmDenom start_ok); [reflexivity|vm_compute; done].
Defined.
End EvmChain.
