(* ===== verification/Issuance.v ===== *)
(** * x/issuance: assets issued by an owner

    An owner mints and burns an asset, pauses it, and keeps a list of blocked
    addresses whose coins the begin blocker returns to the owner.  The issue of
    an asset can be limited per period of time. *)

From S2P Require Import Prelude Sdk GoStd Bank.

(** ** Errors ([types/errors.go]) *)
Definition ErrAssetNotFound : error := Registered "issuance" 2.
Definition ErrNotAuthorized : error := Registered "issuance" 3.
Definition ErrAssetPaused : error := Registered "issuance" 4.
Definition ErrAccountBlocked : error := Registered "issuance" 5.
Definition ErrAccountAlreadyBlocked : error := Registered "issuance" 6.
Definition ErrAccountAlreadyUnblocked : error := Registered "issuance" 7.
Definition ErrIssueToModuleAccount : error := Registered "issuance" 8.
Definition ErrExceedsSupplyLimit : error := Registered "issuance" 9.
Definition ErrAssetUnblockable : error := Registered "issuance" 10.
Definition ErrAccountNotFound : error := Registered "issuance" 11.
Definition ModuleAccountName : string := "issuance".

(** ** Data ([types/params.go], [types/supply.go]) *)
Record RateLimit : Type := NewRateLimit { Active : bool; Limit : Z; TimePeriod : Z }.
Record Asset : Type := NewAsset {
  asOwner : string;
  asDenom : string;
  asBlockedAddresses : list string;
  asPaused : bool;
  asBlockable : bool;
  asRateLimit : RateLimit
}.
Definition set_blocked (l : list string) (a : Asset) : Asset :=
  NewAsset (asOwner a) (asDenom a) l (asPaused a) (asBlockable a) (asRateLimit a).
Definition set_paused (p : bool) (a : Asset) : Asset :=
  NewAsset (asOwner a) (asDenom a) (asBlockedAddresses a) p (asBlockable a) (asRateLimit a).

Record AssetSupply : Type := NewAssetSupply { CurrentSupply : Coin; TimeElapsed : Z }.
Definition GetDenom (a : AssetSupply) : string := Denom (CurrentSupply a).

(** The account keeper, as far as issuance uses it. *)
Class AuthKeeper (A : Type) : Type := {
  (** [GetAccount(addr) != nil] *)
  HasAccount : A -> AccAddress -> bool;
  (** The account found is a module account. *)
  IsModuleAccount : A -> AccAddress -> bool;
  (** Whether the module account exists; it is created on first use. *)
  GetModuleAccount : string -> A -> bool * A
}.

Record State (B A : Type) : Type := mkState {
  Assets : list Asset;
  AssetSupplies : gmap string AssetSupply;
  PreviousBlockTime : option Z;
  bank : B;
  accounts : A
}.
Arguments mkState {B A}.
Arguments Assets {B A}.
Arguments AssetSupplies {B A}.
Arguments PreviousBlockTime {B A}.
Arguments bank {B A}.
Arguments accounts {B A}.

Section Issuance.
  Context {cfg : SdkConfig} {B A : Type} {bk : BankKeeper B} {ak : AuthKeeper A}.
  Implicit Types s : State B A.

(** ** Validation *)
Definition validate_blocked (owner : string) (address : string) (u : unit) : outcome unit :=
  if bool_decide (address = "") then Err (Plain "blocked address must not be empty") else
  if bool_decide (owner = address) then Err (Plain "asset owner cannot be blocked") else Ok u.

Definition Asset_Validate (a : Asset) : outcome unit :=
  if bool_decide (asOwner a = "") then Err (Plain "owner must not be empty") else
  if negb (asBlockable a) && negb (bool_decide (asBlockedAddresses a = []))
  then Err (Plain "asset does not support blocking, blocked-list should be empty") else
  let! _ := ofold (validate_blocked (asOwner a)) (asBlockedAddresses a) tt in
  if ValidateDenom (asDenom a) then Ok tt else Err (Plain "invalid denom").

Definition validate_asset (a : Asset) (assetDenoms : gset string) : outcome (gset string) :=
  if bool_decide (asDenom a ∈ assetDenoms) then Err (Plain "cannot have duplicate asset denoms") else
  let! _ := Asset_Validate a in
  Ok ({[asDenom a]} ∪ assetDenoms).
Definition ValidateAssets (l : list Asset) : outcome unit :=
  let! _ := ofold validate_asset l ∅ in Ok tt.

Definition AssetSupply_Validate (a : AssetSupply) : outcome unit :=
  if negb (Coin_IsValid (CurrentSupply a)) then Err ErrInvalidCoins else Ok tt.

(** ** Store and parameters ([keeper.go], [params.go]) *)
Definition bank_call (f : B -> outcome B) s : outcome (State B A) :=
  let! b := f (bank s) in
  Ok (mkState (Assets s) (AssetSupplies s) (PreviousBlockTime s) b (accounts s)).
Definition GetAssetSupply s (denom : string) : option AssetSupply := AssetSupplies s !! denom.
Definition SetAssetSupply (supply : AssetSupply) (denom : string) s : State B A :=
  mkState (Assets s) (<[denom := supply]> (AssetSupplies s)) (PreviousBlockTime s) (bank s) (accounts s).
Definition GetAllAssetSupplies s : list AssetSupply := (string_iterator (AssetSupplies s)).*2.
Definition SetPreviousBlockTime (t : Z) s : State B A :=
  mkState (Assets s) (AssetSupplies s) (Some t) (bank s) (accounts s).

(** [SetParamSet] panics when the validation of the parameters fails. *)
Definition SetParams (assets : list Asset) s : outcome (State B A) :=
  match ValidateAssets assets with
  | Ok _ => Ok (mkState assets (AssetSupplies s) (PreviousBlockTime s) (bank s) (accounts s))
  | _ => Panic "value from ParamSetPair is invalid"
  end.

Definition find_asset (denom : string) (l : list Asset) : option Asset :=
  List.find (fun a => bool_decide (asDenom a = denom)) l.
Definition GetAsset s (denom : string) : option Asset := find_asset denom (Assets s).

Definition replace_asset (asset : Asset) (l : list Asset) : list Asset :=
  (fun a => if bool_decide (asDenom a = asDenom asset) then asset else a) <$> l.
Definition SetAsset (asset : Asset) s : outcome (State B A) :=
  SetParams (replace_asset asset (Assets s)) s.

(** The error of a missing asset is built and dropped: the zero rate limit is
    returned instead. *)
Definition GetRateLimit s (denom : string) : RateLimit :=
  match GetAsset s denom with
  | Some asset => asRateLimit asset
  | None => NewRateLimit false 0 0
  end.

Definition sync_asset (asset : Asset) s : outcome (State B A) :=
  if negb (asBlockable asset) && negb (bool_decide (asBlockedAddresses asset = []))
  then SetAsset (set_blocked [] asset) s else Ok s.
Definition SynchronizeBlockList s : outcome (State B A) := ofold sync_asset (Assets s) s.

(** ** Supply limits ([supply.go]) *)
Definition CreateNewAssetSupply (denom : string) s : outcome (AssetSupply * State B A) :=
  let! zero := NewCoin denom 0 in
  let supply := NewAssetSupply zero 0 in
  Ok (supply, SetAssetSupply supply denom s).

Definition IncrementCurrentAssetSupply (coin : Coin) s : outcome (State B A) :=
  match GetAssetSupply s (Denom coin) with
  | None => Err ErrAssetNotFound
  | Some supply =>
      let limit := GetRateLimit s (Denom coin) in
      if Active limit then
        let! supplyLimit := NewCoin (Denom coin) (Limit limit) in
        let! total := Coin_Add (CurrentSupply supply) coin in
        let! over := Coin_IsLT supplyLimit total in
        if (over : bool) then Err ErrExceedsSupplyLimit else
        Ok (SetAssetSupply (NewAssetSupply total (TimeElapsed supply)) (Denom coin) s)
      else Ok s
  end.

Definition update_supply (timeElapsed : Z) (asset : Asset) s : outcome (State B A) :=
  let! '(supply, s) :=
    match GetAssetSupply s (asDenom asset) with
    | Some supply => Ok (supply, s)
    | None => CreateNewAssetSupply (asDenom asset) s
    end in
  if negb (Active (asRateLimit asset)) then
    let! zero := NewCoin (asDenom asset) 0 in
    Ok (SetAssetSupply (NewAssetSupply zero 0) (asDenom asset) s)
  else if TimePeriod (asRateLimit asset) >? i64 (TimeElapsed supply + timeElapsed) then
    Ok (SetAssetSupply (NewAssetSupply (CurrentSupply supply) (i64 (TimeElapsed supply + timeElapsed)))
          (asDenom asset) s)
  else
    let! zero := NewCoin (asDenom asset) 0 in
    Ok (SetAssetSupply (NewAssetSupply zero 0) (asDenom asset) s).

Definition UpdateTimeBasedSupplyLimits (ctx : Ctx) s : outcome (State B A) :=
  let '(previousBlockTime, s) :=
    match PreviousBlockTime s with
    | Some t => (t, s)
    | None => (BlockTime ctx, SetPreviousBlockTime (BlockTime ctx) s)
    end in
  let timeElapsed := time_Sub (BlockTime ctx) previousBlockTime in
  let! s := ofold (update_supply timeElapsed) (Assets s) s in
  Ok (SetPreviousBlockTime (BlockTime ctx) s).

(** ** Operations ([issuance.go]) *)
Fixpoint check_blocked (l : list string) (checkAddress : string) : option nat :=
  match l with
  | [] => None
  | address :: l => if bool_decide (address = checkAddress) then Some 0%nat
                    else S <$> check_blocked l checkAddress
  end.
Definition checkBlockedAddress (asset : Asset) (checkAddress : string) : bool * nat :=
  match check_blocked (asBlockedAddresses asset) checkAddress with
  | Some i => (true, i)
  | None => (false, 0%nat)
  end.

(** The last address takes the place of the removed one. *)
Definition removeBlockedAddress (blockedAddrs : list string) (i : nat) : list string :=
  let n := length blockedAddrs in
  take (n - 1) (<[i := default "" (blockedAddrs !! (n - 1)%nat)]> blockedAddrs).

Definition IssueTokens (tokens : Coin) (owner receiver : AccAddress) s : outcome (State B A) :=
  match GetAsset s (Denom tokens) with
  | None => Err ErrAssetNotFound
  | Some asset =>
    if negb (bool_decide (AccAddress_String owner = asOwner asset)) then Err ErrNotAuthorized else
    if asPaused asset then Err ErrAssetPaused else
    if asBlockable asset && (checkBlockedAddress asset (AccAddress_String receiver)).1
    then Err ErrAccountBlocked else
    if IsModuleAccount (accounts s) receiver then Err ErrIssueToModuleAccount else
    let! s := if Active (asRateLimit asset) then IncrementCurrentAssetSupply tokens s else Ok s in
    let! coins := NewCoins1 tokens in
    let! s := bank_call (MintCoins ModuleAccountName coins) s in
    bank_call (SendCoinsFromModuleToAccount ModuleAccountName receiver coins) s
  end.

Definition RedeemTokens (tokens : Coin) (owner : AccAddress) s : outcome (State B A) :=
  match GetAsset s (Denom tokens) with
  | None => Err ErrAssetNotFound
  | Some asset =>
    if negb (bool_decide (AccAddress_String owner = asOwner asset)) then Err ErrNotAuthorized else
    if asPaused asset then Err ErrAssetPaused else
    let! coins := NewCoins1 tokens in
    let! s := bank_call (SendCoinsFromAccountToModule owner ModuleAccountName coins) s in
    bank_call (BurnCoins ModuleAccountName coins) s
  end.

Definition BlockAddress (denom : string) (owner blockedAddress : AccAddress) s : outcome (State B A) :=
  match GetAsset s denom with
  | None => Err ErrAssetNotFound
  | Some asset =>
    if negb (asBlockable asset) then Err ErrAssetUnblockable else
    if negb (bool_decide (AccAddress_String owner = asOwner asset)) then Err ErrNotAuthorized else
    if (checkBlockedAddress asset (AccAddress_String blockedAddress)).1 then Err ErrAccountAlreadyBlocked else
    if negb (HasAccount (accounts s) blockedAddress) then Err ErrAccountNotFound else
    SetAsset (set_blocked (asBlockedAddresses asset ++ [AccAddress_String blockedAddress]) asset) s
  end.

Definition UnblockAddress (denom : string) (owner addr : AccAddress) s : outcome (State B A) :=
  match GetAsset s denom with
  | None => Err ErrAssetNotFound
  | Some asset =>
    if negb (asBlockable asset) then Err ErrAssetUnblockable else
    if negb (bool_decide (AccAddress_String owner = asOwner asset)) then Err ErrNotAuthorized else
    let '(blocked, i) := checkBlockedAddress asset (AccAddress_String addr) in
    if negb blocked then Err ErrAccountAlreadyUnblocked else
    SetAsset (set_blocked (removeBlockedAddress (asBlockedAddresses asset) i) asset) s
  end.

Definition SetPauseStatus (owner : AccAddress) (denom : string) (status : bool) s : outcome (State B A) :=
  match GetAsset s denom with
  | None => Err ErrAssetNotFound
  | Some asset =>
    if negb (bool_decide (AccAddress_String owner = asOwner asset)) then Err ErrNotAuthorized else
    if Bool.eqb (asPaused asset) status then Ok s else
    SetAsset (set_paused (negb (asPaused asset)) asset) s
  end.

(** One iteration of [SeizeCoinsFromBlockedAddresses]. *)
Definition seize (asset : Asset) (denom : string) (address : string) s : outcome (State B A) :=
  let! addrBech32 := AccAddressFromBech32 address in
  if negb (HasAccount (accounts s) addrBech32) then Ok s else
  let coinsAmount := GetBalance (bank s) addrBech32 denom in
  if negb (0 <? coinsAmount) then Ok s else
  let! coin := NewCoin denom coinsAmount in
  let! coins := NewCoins1 coin in
  let! s := bank_call (SendCoinsFromAccountToModule addrBech32 ModuleAccountName coins) s in
  let! ownerBech32 := AccAddressFromBech32 (asOwner asset) in
  bank_call (SendCoinsFromModuleToAccount ModuleAccountName ownerBech32 coins) s.

Definition SeizeCoinsFromBlockedAddresses (denom : string) s : outcome (State B A) :=
  match GetAsset s denom with
  | None => Err ErrAssetNotFound
  | Some asset => ofold (seize asset denom) (asBlockedAddresses asset) s
  end.

Definition SeizeCoinsForBlockableAssets s : outcome (State B A) :=
  ofold (fun asset s => if asBlockable asset then SeizeCoinsFromBlockedAddresses (asDenom asset) s else Ok s)
    (Assets s) s.

(** ** BeginBlocker ([abci.go]) *)
Definition BeginBlocker (ctx : Ctx) s : outcome (State B A) :=
  let! s := must (SeizeCoinsForBlockableAssets s) in
  let! s := SynchronizeBlockList s in
  UpdateTimeBasedSupplyLimits ctx s.

(** ** Genesis ([genesis.go], [types/genesis.go]) *)
Record GenesisState : Type := NewGenesisState { gsAssets : list Asset; gsSupplies : list AssetSupply }.

Definition GenesisState_Validate (gs : GenesisState) : outcome unit :=
  let! _ := ofold (fun supply (_ : unit) => AssetSupply_Validate supply) (gsSupplies gs) tt in
  ValidateAssets (gsAssets gs).

Definition init_supply (asset : Asset) s : outcome (State B A) :=
  if Active (asRateLimit asset) then
    match GetAssetSupply s (asDenom asset) with
    | Some _ => Ok s
    | None => let! '(_, s) := CreateNewAssetSupply (asDenom asset) s in Ok s
    end
  else Ok s.

Definition InitGenesis (gs : GenesisState) s : outcome (State B A) :=
  let! _ := must (GenesisState_Validate gs) in
  let '(found, acc) := GetModuleAccount ModuleAccountName (accounts s) in
  let s := mkState (Assets s) (AssetSupplies s) (PreviousBlockTime s) (bank s) acc in
  if negb found then Panic "module account has not been set" else
  let! s := SetParams (gsAssets gs) s in
  let s := foldl (fun s supply => SetAssetSupply supply (GetDenom supply) s) s (gsSupplies gs) in
  ofold init_supply (gsAssets gs) s.

Definition ExportGenesis s : GenesisState := NewGenesisState (Assets s) (GetAllAssetSupplies s).
End Issuance.
