(* ===== verification/IssuanceTheorems.v ===== *)
(** * x/issuance: the correctness theorems

    Issuing and redeeming move exactly the tokens named, only for the owner;
    the block list behaves as a set; the begin blocker returns the coins of every
    blocked account to the owner; the issue of a rate-limited asset never exceeds
    its limit. *)

From S2P Require Import Prelude Sdk GoStd Bank Issuance.

Section Proofs.
  Context {cfg : SdkConfig} {sdk : SdkLaws} {B A : Type} {bk : BankKeeper B} {laws : BankLaws B}
    {ak : AuthKeeper A}.
  Implicit Types s : State B A.

(** ** Parameters *)
Lemma validate_assets_Ok l seen seen' :
  ofold validate_asset l seen = Ok seen' ->
  Forall (fun a => Asset_Validate a = Ok tt) l /\ NoDup (asDenom <$> l)
  /\ (forall a, a ∈ l -> asDenom a ∉ seen).
Proof.
  revert seen. induction l as [|a l IH]; intros seen Hx; simpl in Hx.
  { split_and!; [constructor|constructor|]. by intros ? ?%elem_of_nil. }
  apply obind_Ok in Hx as (s1 & H1 & Hx). unfold validate_asset in H1. go_inv H1. subst s1. gobool.
  destruct r, (IH _ Hx) as (Hf & Hn & Hs). split_and!.
  - by constructor.
  - simpl. constructor; [|done]. rewrite list_elem_of_fmap. intros (b & E & Hin).
    apply (Hs b Hin). set_solver.
  - intros b [->|Hin]%elem_of_cons; [done|]. specialize (Hs b Hin). set_solver.
Qed.

Lemma ValidateAssets_Ok l :
  ValidateAssets l = Ok tt -> Forall (fun a => Asset_Validate a = Ok tt) l /\ NoDup (asDenom <$> l).
Proof.
  unfold ValidateAssets. intros Hx. apply obind_Ok in Hx as (seen & Hx & _).
  apply validate_assets_Ok in Hx. tauto.
Qed.

Lemma find_asset_Some d l a : find_asset d l = Some a -> a ∈ l /\ asDenom a = d.
Proof.
  unfold find_asset. intros Hf. apply List.find_some in Hf as [Hin E]. gobool.
  split; [by apply list_elem_of_In|done].
Qed.

Lemma iss_find_asset_elem a l : NoDup (asDenom <$> l) -> a ∈ l -> find_asset (asDenom a) l = Some a.
Proof.
  induction l as [|b l IH]; [by intros _ ?%elem_of_nil|]. unfold find_asset; simpl.
  intros [Hb Hn]%NoDup_cons [->|Hin]%elem_of_cons; [by rewrite bool_decide_eq_true_2|].
  rewrite bool_decide_eq_false_2; [by apply IH|]. intros E. apply Hb. rewrite E. by apply list_elem_of_fmap_2.
Qed.

Lemma find_replace a l d :
  find_asset d (replace_asset a l)
  = if bool_decide (asDenom a = d) then (fun _ => a) <$> find_asset d l else find_asset d l.
Proof.
  induction l as [|b l IH]; unfold find_asset in *; simpl; [by case_bool_decide|].
  destruct (decide (asDenom b = asDenom a)) as [E|E].
  - rewrite (bool_decide_eq_true_2 (asDenom b = asDenom a)), E by done.
    destruct (decide (asDenom a = d)) as [Hd|Hd].
    + by rewrite !bool_decide_eq_true_2 by done.
    + rewrite !(bool_decide_eq_false_2 (asDenom a = d)) in * by done. done.
  - rewrite (bool_decide_eq_false_2 (asDenom b = asDenom a)) by done. rewrite IH.
    destruct (decide (asDenom b = d)) as [Hd|Hd].
    + rewrite !(bool_decide_eq_true_2 (asDenom b = d)) by done.
      by rewrite bool_decide_eq_false_2 by congruence.
    + by rewrite !(bool_decide_eq_false_2 (asDenom b = d)) by done.
Qed.

Lemma SetAsset_Ok a s s' :
  SetAsset a s = Ok s' ->
  ValidateAssets (replace_asset a (Assets s)) = Ok tt
  /\ s' = mkState (replace_asset a (Assets s)) (AssetSupplies s) (PreviousBlockTime s) (bank s) (accounts s).
Proof.
  unfold SetAsset, SetParams. intros Hx. destruct (ValidateAssets _) as [[]| |]; try discriminate.
  by injection Hx as <-.
Qed.

Lemma iss_bank_call_Ok f s s' :
  bank_call f s = Ok s' ->
  exists b, f (bank s) = Ok b /\ s' = mkState (Assets s) (AssetSupplies s) (PreviousBlockTime s) b (accounts s).
Proof. unfold bank_call. intros Hx. go_inv Hx. eauto. Qed.

(** ** The block list as a set *)
Lemma check_blocked_Some l x i : check_blocked l x = Some i -> l !! i = Some x.
Proof.
  revert i. induction l as [|y l IH]; intros i; simpl; [done|]. case_bool_decide as E.
  - intros [= <-]. by rewrite E.
  - destruct (check_blocked l x) as [j|]; [|done]. intros [= <-]. simpl. by apply IH.
Qed.
Lemma check_blocked_None l x : check_blocked l x = None <-> x ∉ l.
Proof.
  induction l as [|y l IH]; simpl; [split; [intros _; apply not_elem_of_nil|done]|].
  rewrite not_elem_of_cons. case_bool_decide as E; [naive_solver|].
  destruct (check_blocked l x); naive_solver.
Qed.
Lemma checkBlocked_spec a x : (checkBlockedAddress a x).1 = bool_decide (x ∈ asBlockedAddresses a).
Proof.
  unfold checkBlockedAddress. destruct (check_blocked _ x) as [i|] eqn:E.
  - rewrite bool_decide_eq_true_2; [done|]. apply check_blocked_Some in E. by eapply list_elem_of_lookup_2.
  - rewrite bool_decide_eq_false_2; [done|]. by apply check_blocked_None.
Qed.

Lemma check_blocked_last l x : x ∉ l -> check_blocked (l ++ [x]) x = Some (length l).
Proof.
  induction l as [|y l IH]; simpl; intros Hx; [by rewrite bool_decide_eq_true_2|].
  apply not_elem_of_cons in Hx as [Hne Hx]. rewrite bool_decide_eq_false_2 by congruence. by rewrite IH.
Qed.

Lemma remove_last l x : removeBlockedAddress (l ++ [x]) (length l) = l.
Proof.
  unfold removeBlockedAddress. rewrite length_app. simpl. rewrite Nat.add_sub, lookup_app_r, Nat.sub_diag by lia.
  simpl. rewrite list_insert_id by (by rewrite lookup_app_r, Nat.sub_diag by lia). by rewrite take_app_length.
Qed.

Lemma remove_Permutation l i x : l !! i = Some x -> x :: removeBlockedAddress l i ≡ₚ l.
Proof.
  intros Hi. destruct (nil_or_length_pos l) as [->|Hl]; [done|].
  destruct (exists_last (l := l)) as (l0 & y & ->); [by destruct l|].
  unfold removeBlockedAddress. rewrite length_app. simpl.
  rewrite Nat.add_sub, (lookup_app_r l0 [y] (length l0)), Nat.sub_diag by lia. simpl.
  destruct (decide (i < length l0)%nat) as [Hlt|Hge].
  - rewrite lookup_app_l in Hi by done. rewrite insert_app_l, take_app_length' by (done || by rewrite length_insert).
    apply list_elem_of_split_length in Hi as (l1 & l2 & -> & ->).
    rewrite insert_app_r_alt, Nat.sub_diag by lia. simpl.
    rewrite <- !app_assoc. simpl. rewrite <- (Permutation_middle l1 (l2 ++ [y]) x). constructor.
    apply Permutation_app_head, Permutation_cons_append.
  - assert (i = length l0) as ->.
    { apply lookup_lt_Some in Hi. rewrite length_app in Hi. simpl in Hi. lia. }
    rewrite lookup_app_r, Nat.sub_diag in Hi by lia. injection Hi as ->.
    rewrite list_insert_id by (by rewrite lookup_app_r, Nat.sub_diag by lia).
    rewrite take_app_length. by rewrite Permutation_app_comm.
Qed.

(** ** Issue and redeem *)
Lemma credit_NewCoins1 c cs (x y : AccAddress) d :
  NewCoins1 c = Ok cs -> credit x y cs d = credit x y [c] d.
Proof. intros Hc. apply NewCoins1_Ok in Hc as [_ Ha]. unfold credit. by rewrite Ha. Qed.

Lemma IncrementCurrent_frame c s s' :
  IncrementCurrentAssetSupply c s = Ok s' ->
  Assets s' = Assets s /\ bank s' = bank s /\ accounts s' = accounts s /\ PreviousBlockTime s' = PreviousBlockTime s.
Proof. unfold IncrementCurrentAssetSupply. intros Hx. by go_inv Hx; subst. Qed.

(** The conditions under which tokens are issued. *)
Definition may_issue s (tokens : Coin) (owner receiver : AccAddress) : Prop :=
  exists asset, GetAsset s (Denom tokens) = Some asset /\ asOwner asset = AccAddress_String owner
  /\ asPaused asset = false
  /\ (asBlockable asset = true -> AccAddress_String receiver ∉ asBlockedAddresses asset)
  /\ IsModuleAccount (accounts s) receiver = false.

(** Tokens are issued only by the owner of an asset that is not paused, to an
    account that is neither blocked nor a module account; exactly the receiver is
    credited, and the supply grows by the tokens. *)
Theorem issue_correct tokens owner receiver s s' :
  IssueTokens tokens owner receiver s = Ok s' ->
  may_issue s tokens owner receiver
  /\ (forall x d, GetBalance (bank s') x d = GetBalance (bank s) x d + credit receiver x [tokens] d)
  /\ (forall d, GetSupply (bank s') d = GetSupply (bank s) d + AmountOf [tokens] d).
Proof.
  unfold IssueTokens. intros Hx. go_inv Hx. rename a into asset.
  assert (bank r = bank s) as Eb by (clear Hx; go_inv Hcall; [by apply IncrementCurrent_frame in Hcall as (_ & ? & _)|by subst]).
  by_call iss_bank_call_Ok as (b2 & Hsend & ->). by_call iss_bank_call_Ok as (b1 & Hmint & ->). simpl in *.
  apply mint_effect in Hmint as (y & Hy & Hb1 & Hs1).
  apply send_from_module in Hsend as (y' & Hy' & Hmv & Hs2 & _). rewrite Hy in Hy'. injection Hy' as <-.
  pose proof (NewCoins1_Ok _ _ Hcall0) as [_ Ha]. gobool. split_and!.
  - exists asset. split_and!; try done. intros Hbl. rewrite Hbl in *. rewrite checkBlocked_spec in *.
    match goal with Hc : _ \/ _ |- _ => destruct Hc as [Hc|Hc]; [done|] end. by gobool.
  - intros x d. rewrite Hmv, Hb1, !(credit_NewCoins1 _ _ _ _ _ Hcall0), Eb. lia.
  - intros d. by rewrite Hs2, Hs1, Ha, Eb.
Qed.

(** Tokens are redeemed only by the owner of an asset that is not paused;
    exactly the owner is debited and the supply shrinks by the tokens. *)
Theorem redeem_correct tokens owner s s' :
  RedeemTokens tokens owner s = Ok s' ->
  (exists asset, GetAsset s (Denom tokens) = Some asset /\ asOwner asset = AccAddress_String owner
     /\ asPaused asset = false)
  /\ (forall x d, GetBalance (bank s') x d = GetBalance (bank s) x d - credit owner x [tokens] d)
  /\ (forall d, GetSupply (bank s') d = GetSupply (bank s) d - AmountOf [tokens] d).
Proof.
  unfold RedeemTokens. intros Hx. go_inv Hx. rename a into asset.
  by_call iss_bank_call_Ok as (b2 & Hburn & ->). by_call iss_bank_call_Ok as (b1 & Hsend & ->). simpl in *.
  apply burn_effect in Hburn as (y & Hy & Hb1 & Hs1).
  apply send_to_module in Hsend as (y' & Hy' & Hmv & Hs2 & _). rewrite Hy in Hy'. injection Hy' as <-.
  pose proof (NewCoins1_Ok _ _ Hcall) as [_ Ha]. gobool. split_and!.
  - by exists asset.
  - intros x d. rewrite Hb1, Hmv, !(credit_NewCoins1 _ _ _ _ _ Hcall). lia.
  - intros d. by rewrite Hs1, Hs2, Ha.
Qed.

(** ** Block and unblock *)
Lemma replace_twice a b l : asDenom a = asDenom b -> replace_asset b (replace_asset a l) = replace_asset b l.
Proof.
  intros E. unfold replace_asset. rewrite <- list_fmap_compose. apply list_fmap_ext. intros i x _. simpl.
  destruct (decide (asDenom x = asDenom a)) as [Hx|Hx].
  - rewrite (bool_decide_eq_true_2 (asDenom x = asDenom a)), !bool_decide_eq_true_2 by congruence. done.
  - by rewrite (bool_decide_eq_false_2 (asDenom x = asDenom a)).
Qed.
Lemma replace_same a l : NoDup (asDenom <$> l) -> a ∈ l -> replace_asset a l = l.
Proof.
  intros Hn Ha. unfold replace_asset. rewrite <- (list_fmap_id l) at 2. apply list_fmap_ext. intros i x Hx. simpl.
  case_bool_decide as E; [|done]. apply list_elem_of_lookup_2 in Hx.
  pose proof (iss_find_asset_elem x l Hn Hx) as H1. pose proof (iss_find_asset_elem a l Hn Ha) as H2.
  rewrite E in H1. congruence.
Qed.

(** Unblocking undoes blocking: after an owner has blocked an account,
    unblocking it succeeds and restores the parameters exactly. *)
Theorem block_unblock denom owner addr s s1 :
  ValidateAssets (Assets s) = Ok tt -> BlockAddress denom owner addr s = Ok s1 ->
  exists s2, UnblockAddress denom owner addr s1 = Ok s2 /\ Assets s2 = Assets s.
Proof.
  intros Hv Hx. unfold BlockAddress in Hx. go_inv Hx. rename a into asset. gobool.
  apply SetAsset_Ok in Hx as [_ ->]. rewrite checkBlocked_spec in *. gobool.
  apply ValidateAssets_Ok in Hv as Hv'. destruct Hv' as [_ Hn].
  unfold GetAsset in *. match goal with Hf : find_asset _ _ = Some _ |- _ => rename Hf into Hfind end.
  destruct (find_asset_Some _ _ _ Hfind) as [Hin Hd].
  set (blk := set_blocked _ asset). unfold UnblockAddress, GetAsset. cbn [Assets].
  rewrite find_replace, bool_decide_eq_true_2, Hfind by done. simpl.
  match goal with Hb : asBlockable _ = true |- _ => rewrite Hb end. simpl.
  rewrite bool_decide_eq_true_2 by done. simpl.
  unfold checkBlockedAddress. simpl. rewrite check_blocked_last by done. simpl. rewrite remove_last.
  assert (set_blocked (asBlockedAddresses asset) blk = asset) as -> by (by destruct asset).
  unfold SetAsset, SetParams. cbn [Assets].
  rewrite replace_twice, replace_same, Hv by done. simpl. eauto.
Qed.

(** Unblocking removes exactly one occurrence of the address from the asset's
    list, whatever its position, and leaves the other assets alone. *)
Theorem unblock_removes denom owner addr s s' :
  UnblockAddress denom owner addr s = Ok s' ->
  exists a a', GetAsset s denom = Some a /\ GetAsset s' denom = Some a'
  /\ AccAddress_String addr :: asBlockedAddresses a' ≡ₚ asBlockedAddresses a
  /\ (forall d, d <> denom -> GetAsset s' d = GetAsset s d).
Proof.
  unfold UnblockAddress. intros Hx. go_inv Hx. rename a into asset. gobool.
  apply SetAsset_Ok in Hx as [_ ->].
  match goal with Hf : GetAsset _ _ = Some _ |- _ => rename Hf into Hfind end.
  destruct (find_asset_Some _ _ _ Hfind) as [Hin Hd].
  unfold GetAsset in *. cbn [Assets]. eexists asset, _. split; [done|]. split_and!.
  - rewrite find_replace, bool_decide_eq_true_2, Hfind by done. reflexivity.
  - simpl. apply remove_Permutation. unfold checkBlockedAddress in *.
    destruct (check_blocked _ _) as [j|] eqn:E; simplify_eq. by apply check_blocked_Some.
  - intros d Hne. rewrite find_replace, bool_decide_eq_false_2; [done|]. simpl. congruence.
Qed.

(** ** Seizing *)

(** What does not change while coins are seized. *)
Definition same_store s s' : Prop :=
  Assets s' = Assets s /\ AssetSupplies s' = AssetSupplies s /\ PreviousBlockTime s' = PreviousBlockTime s
  /\ accounts s' = accounts s.

(** Coins of [d] go from the accounts of [P] to [w]; nothing else moves. *)
Record seized (d : string) (w : AccAddress) (P : AccAddress -> Prop) s s' : Prop := {
  sz_store : same_store s s';
  sz_supply : forall e, GetSupply (bank s') e = GetSupply (bank s) e;
  sz_other : forall z e, e <> d -> GetBalance (bank s') z e = GetBalance (bank s) z e;
  sz_le : forall z, z <> w -> GetBalance (bank s') z d <= GetBalance (bank s) z d;
  sz_out : forall z, z <> w -> ~ P z -> GetBalance (bank s') z d = GetBalance (bank s) z d
}.

Lemma seized_refl d w P s : seized d w P s s.
Proof. by split. Qed.
Lemma seized_trans d w P Q s1 s2 s3 :
  seized d w P s1 s2 -> seized d w Q s2 s3 -> seized d w (fun z => P z \/ Q z) s1 s3.
Proof.
  intros [(A1 & A2 & A3 & A4) S1 O1 L1 U1] [(B1 & B2 & B3 & B4) S2 O2 L2 U2]. split.
  - unfold same_store. split_and!; congruence.
  - intros e. by rewrite S2.
  - intros z e He. by rewrite O2, O1.
  - intros z Hz. etrans; eauto.
  - intros z Hz Hn. rewrite U2, U1; tauto.
Qed.

Lemma iss_balance_nonneg (b : B) x d : 0 <= GetBalance b x d.
Proof. pose proof (spendable_range b x d). lia. Qed.

Lemma seize_Ok a d str w s s' :
  AccAddressFromBech32 (asOwner a) = Ok w -> seize a d str s = Ok s' ->
  exists x, AccAddressFromBech32 str = Ok x /\ seized d w (eq x) s s'
  /\ (HasAccount (accounts s) x = true -> x <> w -> GetBalance (bank s') x d = 0).
Proof.
  intros Hw Hx. unfold seize in Hx. go_inv Hx; gobool; exists r; (split; [done|]).
  - subst. split; [apply seized_refl|congruence].
  - subst. split; [apply seized_refl|]. intros _ _. pose proof (iss_balance_nonneg (bank s') r d). lia.
  - coin_inv. match goal with Ho : AccAddressFromBech32 (asOwner a) = Ok _ |- _ =>
      rewrite Hw in Ho; injection Ho as <- end.
    match goal with Hc : NewCoins1 _ = Ok _ |- _ => rename Hc into Hcs end.
    by_call iss_bank_call_Ok as (b2 & Hs2 & ->). by_call iss_bank_call_Ok as (b1 & Hs1 & ->). simpl in *.
    apply send_to_module in Hs1 as (y & Hy & Hm1 & Hp1 & _).
    apply send_from_module in Hs2 as (y' & Hy' & Hm2 & Hp2 & _). rewrite Hy in Hy'. injection Hy' as <-.
    set (n := GetBalance (bank s) r d) in *.
    assert (forall z e, GetBalance b2 z e = GetBalance (bank s) z e
      - credit r z [mkCoin d n] e + credit w z [mkCoin d n] e) as Hb
      by (intros z e; rewrite Hm2, Hm1, !(credit_NewCoins1 _ _ _ _ _ Hcs); lia).
    unfold credit in Hb. simpl in Hb. split; [split; simpl|].
    + done.
    + intros e. by rewrite Hp2, Hp1.
    + intros z e He. rewrite Hb. rewrite !(bool_decide_eq_false_2 (d = e)) by congruence.
      repeat case_bool_decide; lia.
    + intros z Hz. rewrite Hb, !(bool_decide_eq_true_2 (d = d)) by done. repeat case_bool_decide; congruence || lia.
    + intros z Hz Hn. rewrite Hb, !(bool_decide_eq_true_2 (d = d)) by done. repeat case_bool_decide; congruence || lia.
    + intros _ Hne. simpl. rewrite Hb, !(bool_decide_eq_true_2 (d = d)), (bool_decide_eq_true_2 (r = r)) by done.
      rewrite bool_decide_eq_false_2 by congruence. lia.
Qed.

(** The accounts named by a list of addresses. *)
Definition named (l : list string) (z : AccAddress) : Prop :=
  exists str, str ∈ l /\ AccAddressFromBech32 str = Ok z.

Lemma seized_weaken d w (P Q : AccAddress -> Prop) s s' :
  (forall z, P z -> Q z) -> seized d w P s s' -> seized d w Q s s'.
Proof. intros HPQ [S1 S2 S3 S4 S5]. split; try done. intros z Hz Hn. apply S5; auto. Qed.

Lemma seize_loop a d w l s s' :
  AccAddressFromBech32 (asOwner a) = Ok w -> ofold (seize a d) l s = Ok s' ->
  seized d w (named l) s s'
  /\ forall x, named l x -> HasAccount (accounts s) x = true -> x <> w -> GetBalance (bank s') x d = 0.
Proof.
  intros Hw. revert s. induction l as [|str l IH]; intros s Hx; simpl in Hx.
  { injection Hx as <-. split; [apply seized_refl|]. intros x (str & Hin & _). by apply elem_of_nil in Hin. }
  apply obind_Ok in Hx as (s1 & H1 & Hx). apply (seize_Ok _ _ _ _ _ _ Hw) in H1 as (x & Ex & Sz1 & Hzero).
  destruct (IH _ Hx) as [Sz2 Hrest].
  destruct (sz_store _ _ _ _ _ Sz1) as (_ & _ & _ & Eacc). split.
  - eapply seized_weaken; [|by eapply seized_trans]. intros z [<-|(str' & Hin & E)].
    + exists str. split; [left|done].
    + exists str'. split; [by right|done].
  - intros z (str' & [->|Hin]%elem_of_cons & E) Hacc Hne.
    + rewrite Ex in E. injection E as <-. specialize (Hzero Hacc Hne).
      pose proof (sz_le _ _ _ _ _ Sz2 x Hne). pose proof (iss_balance_nonneg (bank s') x d). lia.
    + apply Hrest; [by exists str'|by rewrite Eacc|done].
Qed.

(** Seizing one denomination leaves the others alone. *)
Definition untouched (e : string) s s' : Prop :=
  same_store s s' /\ (forall d, GetSupply (bank s') d = GetSupply (bank s) d)
  /\ forall z, GetBalance (bank s') z e = GetBalance (bank s) z e.

Lemma untouched_trans e s1 s2 s3 : untouched e s1 s2 -> untouched e s2 s3 -> untouched e s1 s3.
Proof.
  intros ((A1 & A2 & A3 & A4) & S1 & U1) ((B1 & B2 & B3 & B4) & S2 & U2).
  unfold untouched, same_store. split_and!; try congruence; intros; by rewrite ?S2, ?U2.
Qed.

Lemma seize_untouched a d e str s s' : e <> d -> seize a d str s = Ok s' -> untouched e s s'.
Proof.
  intros He Hx. destruct (AccAddressFromBech32 (asOwner a)) as [w| |] eqn:Hw.
  1: { destruct (seize_Ok _ _ _ _ _ _ Hw Hx) as (x & _ & [St Su O _ _] & _). by split_and!; auto. }
  all: unfold seize in Hx; go_inv Hx; subst; try done; congruence.
Qed.

Lemma seize_loop_untouched a d e l s s' :
  e <> d -> ofold (seize a d) l s = Ok s' -> untouched e s s'.
Proof.
  intros He. revert s. induction l as [|str l IH]; intros s Hx; simpl in Hx; [by injection Hx as <-|].
  apply obind_Ok in Hx as (s1 & H1 & Hx). eapply untouched_trans; [by eapply seize_untouched|by apply IH].
Qed.

(** One iteration of the loop over the assets. *)
Definition seize_asset (asset : Asset) s : outcome (State B A) :=
  if asBlockable asset then SeizeCoinsFromBlockedAddresses (asDenom asset) s else Ok s.

Lemma seize_asset_untouched a e s s' :
  e <> asDenom a -> seize_asset a s = Ok s' -> untouched e s s'.
Proof.
  unfold seize_asset, SeizeCoinsFromBlockedAddresses. intros He Hx. go_inv Hx.
  - by eapply seize_loop_untouched.
  - by subst.
Qed.

Lemma seize_assets_untouched e l s s' :
  e ∉ (asDenom <$> l) -> ofold seize_asset l s = Ok s' -> untouched e s s'.
Proof.
  revert s. induction l as [|a l IH]; intros s He Hx; simpl in Hx; [by injection Hx as <-|].
  simpl in He. apply not_elem_of_cons in He as [Hne He].
  apply obind_Ok in Hx as (s1 & H1 & Hx).
  eapply untouched_trans; [by eapply seize_asset_untouched|by apply IH].
Qed.

(** What the loop does in the denomination of one of its assets. *)
Lemma seize_assets_one a w l s s' :
  NoDup (asDenom <$> l) -> a ∈ l -> asBlockable a = true -> GetAsset s (asDenom a) = Some a ->
  AccAddressFromBech32 (asOwner a) = Ok w -> ofold seize_asset l s = Ok s' ->
  same_store s s' /\ (forall d, GetSupply (bank s') d = GetSupply (bank s) d)
  /\ (forall z, z <> w -> ~ named (asBlockedAddresses a) z ->
        GetBalance (bank s') z (asDenom a) = GetBalance (bank s) z (asDenom a))
  /\ (forall x, named (asBlockedAddresses a) x -> HasAccount (accounts s) x = true -> x <> w ->
        GetBalance (bank s') x (asDenom a) = 0).
Proof.
  intros Hn Hin Hb Hget Hw Hx. apply list_elem_of_split in Hin as (l1 & l2 & ->).
  rewrite fmap_app in Hn. simpl in Hn. apply NoDup_app in Hn as (_ & Hd & [Hn2 _]%NoDup_cons).
  rewrite ofold_app in Hx. apply obind_Ok in Hx as (s1 & H1 & Hx). simpl in Hx.
  apply obind_Ok in Hx as (s2 & H2 & H3).
  apply (seize_assets_untouched (asDenom a)) in H1 as ((A1 & A2 & A3 & A4) & S1 & U1);
    [|intros Hi; apply (Hd _ Hi); left].
  apply (seize_assets_untouched (asDenom a)) in H3 as ((B1 & B2 & B3 & B4) & S3 & U3); [|done].
  unfold seize_asset, SeizeCoinsFromBlockedAddresses in H2. rewrite Hb in H2.
  unfold GetAsset in *. rewrite A1, Hget in H2.
  destruct (seize_loop _ _ _ _ _ _ Hw H2) as [[(C1 & C2 & C3 & C4) S2 _ _ U2] Hz]. split_and!.
  - unfold same_store. split_and!; congruence.
  - intros d. by rewrite S3, S2.
  - intros z Hz1 Hz2. by rewrite U3, U2, U1.
  - intros x Hx1 Hx2 Hx3. rewrite U3. apply Hz; [done|by rewrite A4|done].
Qed.

(** ** The begin blocker *)
Lemma Asset_Validate_Ok a :
  Asset_Validate a = Ok tt ->
  ValidateDenom (asDenom a) = true /\ (asBlockable a = false -> asBlockedAddresses a = []).
Proof.
  unfold Asset_Validate. intros Hx. go_inv Hx. split; [done|]. intros Hb. rewrite Hb in *. simpl in *.
  by gobool.
Qed.

(** The block lists of validated parameters need no repair. *)
Lemma Synchronize_valid s : ValidateAssets (Assets s) = Ok tt -> SynchronizeBlockList s = Ok s.
Proof.
  intros [Hv _]%ValidateAssets_Ok. unfold SynchronizeBlockList.
  induction (Assets s) as [|a l IH]; simpl; [done|].
  apply Forall_cons in Hv as [Ha Hv]. apply Asset_Validate_Ok in Ha as [_ Ha]. unfold sync_asset at 1.
  destruct (asBlockable a); simpl; [by apply IH|]. rewrite Ha by done. by apply IH.
Qed.

(** The supply after one block: kept within the period, else reset. *)
Definition next_supply (elapsed : Z) (a : Asset) (old : option AssetSupply) : AssetSupply :=
  let sup := default (NewAssetSupply (mkCoin (asDenom a) 0) 0) old in
  if Active (asRateLimit a) && (i64 (TimeElapsed sup + elapsed) <? TimePeriod (asRateLimit a))
  then NewAssetSupply (CurrentSupply sup) (i64 (TimeElapsed sup + elapsed))
  else NewAssetSupply (mkCoin (asDenom a) 0) 0.

Lemma update_supply_total elapsed a s :
  ValidateDenom (asDenom a) = true ->
  update_supply elapsed a s
  = Ok (SetAssetSupply (next_supply elapsed a (AssetSupplies s !! asDenom a)) (asDenom a) s).
Proof.
  intros Hd. unfold update_supply, GetAssetSupply, CreateNewAssetSupply, next_supply.
  rewrite !NewCoin_total by done. simpl.
  destruct (AssetSupplies s !! asDenom a) as [sup|]; simpl; rewrite Z.gtb_ltb;
    destruct (Active _), (_ <? _); simpl; try done; unfold SetAssetSupply; simpl; by rewrite insert_insert_eq.
Qed.

Lemma update_supplies_total elapsed l s :
  Forall (fun a => Asset_Validate a = Ok tt) l ->
  exists s', ofold (update_supply elapsed) l s = Ok s'
    /\ Assets s' = Assets s /\ bank s' = bank s /\ accounts s' = accounts s.
Proof.
  intros Hv. destruct (ofold_total (fun s' => Assets s' = Assets s /\ bank s' = bank s /\ accounts s' = accounts s)
    (update_supply elapsed) l s) as (s' & Hs & HP); [|done|eauto].
  intros a s1 Hin HP. rewrite List.Forall_forall in Hv. apply list_elem_of_In, Hv, Asset_Validate_Ok in Hin as [Hd _].
  rewrite update_supply_total by done. eauto.
Qed.

Lemma iss_UpdateTimeBased_total ctx s :
  ValidateAssets (Assets s) = Ok tt ->
  exists s', UpdateTimeBasedSupplyLimits ctx s = Ok s'
    /\ Assets s' = Assets s /\ bank s' = bank s /\ accounts s' = accounts s.
Proof.
  intros [Hv _]%ValidateAssets_Ok. unfold UpdateTimeBasedSupplyLimits.
  destruct (PreviousBlockTime s) as [t|]; simpl.
  - destruct (update_supplies_total (time_Sub (BlockTime ctx) t) (Assets s) s Hv) as (s' & -> & HP). simpl. eauto.
  - destruct (update_supplies_total (time_Sub (BlockTime ctx) (BlockTime ctx)) (Assets s)
      (SetPreviousBlockTime (BlockTime ctx) s) Hv) as (s' & -> & HP). simpl. eauto.
Qed.

(** A begin blocker that succeeds returns the coins of every blocked account to
    the owner of the asset: after it, no blocked account but the owner holds coins
    of the asset, accounts that are not blocked keep theirs, and the supply is
    unchanged. *)
Theorem begin_block_seizes ctx s s' a w :
  ValidateAssets (Assets s) = Ok tt -> BeginBlocker ctx s = Ok s' ->
  a ∈ Assets s -> asBlockable a = true -> AccAddressFromBech32 (asOwner a) = Ok w ->
  (forall d, GetSupply (bank s') d = GetSupply (bank s) d)
  /\ (forall z, z <> w -> ~ named (asBlockedAddresses a) z ->
        GetBalance (bank s') z (asDenom a) = GetBalance (bank s) z (asDenom a))
  /\ (forall x, named (asBlockedAddresses a) x -> HasAccount (accounts s) x = true -> x <> w ->
        GetBalance (bank s') x (asDenom a) = 0).
Proof.
  intros Hv Hx Hin Hb Hw. unfold BeginBlocker in Hx.
  destruct (SeizeCoinsForBlockableAssets s) as [s1| |] eqn:Hsz; try discriminate. simpl in Hx.
  destruct (ValidateAssets_Ok _ Hv) as [_ Hn].
  destruct (seize_assets_one a w (Assets s) s s1) as ((E1 & _ & _ & _) & S & U & Z); try done.
  { by apply iss_find_asset_elem. }
  rewrite Synchronize_valid in Hx by (by rewrite E1). simpl in Hx.
  destruct (iss_UpdateTimeBased_total ctx s1) as (s2 & Hs2 & _ & Eb & _); [by rewrite E1|].
  rewrite Hx in Hs2. injection Hs2 as <-. by rewrite Eb.
Qed.

(** A blocked account whose coins cannot all be spent stops the chain: when the
    first blocked account of the first asset, if blockable, holds coins of it that
    are locked, as in a vesting account, the begin blocker panics. *)
Theorem locked_coins_halt ctx s a rest str more x :
  Assets s = a :: rest -> ValidateAssets (Assets s) = Ok tt -> asBlockable a = true ->
  asBlockedAddresses a = str :: more ->
  AccAddressFromBech32 str = Ok x -> HasAccount (accounts s) x = true ->
  Spendable (bank s) x (asDenom a) < GetBalance (bank s) x (asDenom a) ->
  isPanic (BeginBlocker ctx s) = true.
Proof.
  intros Ha Hv Hb Hl Hx Hacc Hlocked. unfold BeginBlocker.
  enough (isOk (SeizeCoinsForBlockableAssets s) = false) as Hno
    by (by destruct (SeizeCoinsForBlockableAssets s)).
  unfold SeizeCoinsForBlockableAssets. rewrite Ha. simpl. rewrite Hb.
  unfold SeizeCoinsFromBlockedAddresses, GetAsset, find_asset. rewrite Ha. simpl.
  rewrite bool_decide_eq_true_2, Hl by done. simpl.
  enough (isOk (seize a (asDenom a) str s) = false) as Hno by (by destruct (seize a (asDenom a) str s)).
  unfold seize. rewrite Hx. simpl. rewrite Hacc. simpl.
  pose proof (spendable_range (bank s) x (asDenom a)).
  rewrite (proj2 (Z.ltb_lt _ _)) by lia. simpl.
  destruct (NewCoin _ _) as [c| |] eqn:Ec; simpl; try done. apply NewCoin_Ok in Ec as (-> & _ & _).
  destruct (NewCoins1 _) as [cs| |] eqn:Ecs; simpl; try done. apply NewCoins1_Ok in Ecs as [_ Ea].
  unfold bank_call at 1. destruct (SendCoinsFromAccountToModule _ _ _ _) as [b| |] eqn:Es; simpl; try done.
  apply send_to_module in Es as (y & _ & _ & _ & Hsp). specialize (Hsp (asDenom a)).
  rewrite Ea, AmountOf_singleton, bool_decide_eq_true_2 in Hsp by done. lia.
Qed.

(** ** Rate limits *)
Lemma same_store_trans s1 s2 s3 : same_store s1 s2 -> same_store s2 s3 -> same_store s1 s3.
Proof. intros (A1 & A2 & A3 & A4) (B1 & B2 & B3 & B4). unfold same_store. split_and!; congruence. Qed.

Lemma seize_store a d str s s' : seize a d str s = Ok s' -> same_store s s'.
Proof.
  unfold seize. intros Hx. go_inv Hx; subst; try done.
  by_call iss_bank_call_Ok as (b2 & _ & ->). by_call iss_bank_call_Ok as (b1 & _ & ->). done.
Qed.

Lemma seize_all_store s s' : SeizeCoinsForBlockableAssets s = Ok s' -> same_store s s'.
Proof.
  unfold SeizeCoinsForBlockableAssets. intros Hx.
  eapply (ofold_inv (same_store s)); [|done|exact Hx]. intros a s1 s2 _ H1 H2.
  eapply same_store_trans; [exact H1|]. unfold SeizeCoinsFromBlockedAddresses in H2.
  go_inv H2; [|by subst].
  eapply (ofold_inv (same_store s1)); [|done|exact H2]. intros str s3 s4 _ H3 H4.
  eapply same_store_trans; [exact H3|by eapply seize_store].
Qed.

(** What has been issued in the current period is within the limit. *)
Definition rate_ok s : Prop :=
  forall a sup, a ∈ Assets s -> Active (asRateLimit a) = true -> AssetSupplies s !! asDenom a = Some sup ->
    Denom (CurrentSupply sup) = asDenom a
    /\ 0 <= Amount (CurrentSupply sup) <= Limit (asRateLimit a).

Record inv s : Prop := {
  inv_assets : ValidateAssets (Assets s) = Ok tt;
  inv_limits : forall a, a ∈ Assets s -> Active (asRateLimit a) = true -> 0 <= Limit (asRateLimit a);
  inv_rate : rate_ok s
}.

Inductive op : Type :=
| OpIssue (tokens : Coin) (owner receiver : AccAddress)
| OpRedeem (tokens : Coin) (owner : AccAddress)
| OpBlock (denom : string) (owner addr : AccAddress)
| OpUnblock (denom : string) (owner addr : AccAddress)
| OpPause (owner : AccAddress) (denom : string) (status : bool)
| OpBeginBlock (ctx : Ctx).
Definition exec (o : op) s : outcome (State B A) :=
  match o with
  | OpIssue c x y => IssueTokens c x y s
  | OpRedeem c x => RedeemTokens c x s
  | OpBlock d x y => BlockAddress d x y s
  | OpUnblock d x y => UnblockAddress d x y s
  | OpPause x d b => SetPauseStatus x d b s
  | OpBeginBlock ctx => BeginBlocker ctx s
  end.
(** Other modules change the bank and the accounts, not this store. *)
Inductive step : State B A -> State B A -> Prop :=
| step_op o s s' : exec o s = Ok s' -> step s s'
| step_env s b acc : step s (mkState (Assets s) (AssetSupplies s) (PreviousBlockTime s) b acc).

Lemma inv_supplies s s' :
  inv s -> Assets s' = Assets s -> AssetSupplies s' = AssetSupplies s -> inv s'.
Proof. intros [Hv Hl Hr] E1 E2. split; unfold rate_ok in *; rewrite ?E1, ?E2; done. Qed.

Lemma inv_set_supply sup d s :
  inv s ->
  (forall a, a ∈ Assets s -> Active (asRateLimit a) = true -> asDenom a = d ->
     Denom (CurrentSupply sup) = d /\ 0 <= Amount (CurrentSupply sup) <= Limit (asRateLimit a)) ->
  inv (SetAssetSupply sup d s).
Proof.
  intros [Hv Hl Hr] Hs. split; [done|done|]. intros a sup' Hin Hact Hlk. simpl in *.
  apply lookup_insert_Some in Hlk as [[E <-]|[_ Hlk]]; [|by apply (Hr a)].
  rewrite <- E. by apply (Hs a).
Qed.

Lemma issue_inv c x y s s' : inv s -> IssueTokens c x y s = Ok s' -> inv s'.
Proof.
  intros Hi Hx. unfold IssueTokens in Hx. go_inv Hx. rename a into asset.
  match goal with Hf : GetAsset _ _ = Some _ |- _ => destruct (find_asset_Some _ _ _ Hf) as [Hin Hd]; rename Hf into Hget end.
  by_call iss_bank_call_Ok as (b2 & _ & ->). by_call iss_bank_call_Ok as (b1 & _ & ->).
  apply NewCoins1_Ok in Hcall0 as [Hpos _]. apply (inv_supplies r); [|done|done].
  destruct (Active (asRateLimit asset)) eqn:Hact; [|by simplify_eq].
  unfold IncrementCurrentAssetSupply, GetRateLimit in Hcall. rewrite Hget, Hact in Hcall. go_inv Hcall.
  subst r. coin_inv. subst. gobool.
  match goal with Hs : GetAssetSupply _ _ = Some _ |- _ => unfold GetAssetSupply in Hs;
    rewrite <- Hd in Hs; destruct (inv_rate _ Hi asset _ Hin Hact Hs) as [Ed Hr] end.
  apply inv_set_supply; [done|]. intros b Hb _ Eb. simpl.
  assert (b = asset) as ->; [|simpl; split; [congruence|lia]].
  destruct (ValidateAssets_Ok _ (inv_assets _ Hi)) as [_ Hn].
  pose proof (iss_find_asset_elem _ _ Hn Hb) as Hfb. unfold GetAsset in Hget. rewrite Eb in Hfb. congruence.
Qed.

Lemma set_asset_inv a a' s s' :
  inv s -> a ∈ Assets s -> asDenom a' = asDenom a -> asRateLimit a' = asRateLimit a ->
  SetAsset a' s = Ok s' -> inv s'.
Proof.
  intros [Hv Hl Hr] Hin Ed Er Hx. apply SetAsset_Ok in Hx as [Hv' ->].
  assert (forall b, b ∈ replace_asset a' (Assets s) ->
    exists c, c ∈ Assets s /\ asDenom c = asDenom b /\ asRateLimit c = asRateLimit b) as Hb.
  { intros b Hb. unfold replace_asset in Hb. apply list_elem_of_fmap in Hb as (c & -> & Hc).
    case_bool_decide; [exists a|exists c]; done. }
  split; [done| |]; simpl.
  - intros b Hin' Hact. destruct (Hb b Hin') as (c & Hc & _ & Ec). rewrite <- Ec in *. by apply Hl.
  - intros b sup Hin' Hact Hs. destruct (Hb b Hin') as (c & Hc & Ed' & Ec). simpl in *.
    rewrite <- Ec, <- Ed' in *. by apply (Hr c).
Qed.

Lemma begin_inv ctx s s' : inv s -> BeginBlocker ctx s = Ok s' -> inv s'.
Proof.
  intros Hi Hx. unfold BeginBlocker in Hx.
  destruct (SeizeCoinsForBlockableAssets s) as [s1| |] eqn:Hsz; try discriminate. simpl in Hx.
  apply seize_all_store in Hsz as (E1 & E2 & _ & _).
  assert (inv s1) as Hi1 by (by eapply inv_supplies).
  rewrite Synchronize_valid in Hx by apply Hi1. simpl in Hx. unfold UpdateTimeBasedSupplyLimits in Hx.
  set (p := match PreviousBlockTime s1 with Some t => (t, s1) | None => _ end) in Hx.
  assert (inv p.2 /\ Assets p.2 = Assets s1) as [Hi2 E].
  { unfold p. destruct (PreviousBlockTime s1); simpl; (split; [by eapply inv_supplies|done]). }
  destruct p as [t s2]. simpl in *. apply obind_Ok in Hx as (s3 & H3 & [= <-]).
  enough (Assets s3 = Assets s2 /\ inv s3) as [_ ?] by (by eapply inv_supplies).
  destruct (ValidateAssets_Ok _ (inv_assets _ Hi2)) as [Hv Hn].
  refine (ofold_inv (fun s => Assets s = Assets s2 /\ inv s) _ _ s2 s3 _ _ H3); [|done].
  intros a s4 s5 Hin [E4 Hi4] H5. rewrite List.Forall_forall in Hv.
  pose proof (Asset_Validate_Ok _ (Hv _ (proj1 (list_elem_of_In _ _) Hin))) as [Hd _].
  rewrite update_supply_total in H5 by done. injection H5 as <-. split; [done|].
  apply inv_set_supply; [done|]. intros b Hb Hact Eb.
  assert (b = a) as ->.
  { rewrite E4 in Hb. pose proof (iss_find_asset_elem _ _ Hn Hb) as F1. pose proof (iss_find_asset_elem _ _ Hn Hin) as F2.
    rewrite Eb in F1. congruence. }
  pose proof (inv_limits _ Hi4 a Hb Hact) as Hlim. unfold next_supply.
  destruct (_ && _); simpl; [|split; [done|lia]].
  destruct (AssetSupplies s4 !! asDenom a) as [sup|] eqn:Hsup; simpl; [|split; [done|lia]].
  by apply (inv_rate _ Hi4 a).
Qed.

Lemma iss_step_inv s s' : step s s' -> inv s -> inv s'.
Proof.
  intros [o s1 s2 Hx|s1 b acc] Hi; [|by eapply inv_supplies].
  destruct o as [c x y|c x|d x y|d x y|x d st|ctx]; simpl in Hx.
  - by eapply issue_inv.
  - unfold RedeemTokens in Hx. go_inv Hx.
    by_call iss_bank_call_Ok as (b2 & _ & ->). by_call iss_bank_call_Ok as (b1 & _ & ->). by eapply inv_supplies.
  - unfold BlockAddress in Hx. go_inv Hx. rename Heqo into Hf. apply find_asset_Some in Hf as [Hin _].
    by apply (set_asset_inv _ _ _ _ Hi Hin) in Hx.
  - unfold UnblockAddress in Hx. go_inv Hx. rename Heqo into Hf. apply find_asset_Some in Hf as [Hin _].
    by apply (set_asset_inv _ _ _ _ Hi Hin) in Hx.
  - unfold SetPauseStatus in Hx. go_inv Hx; [by subst|].
    rename Heqo into Hf. apply find_asset_Some in Hf as [Hin _]. by apply (set_asset_inv _ _ _ _ Hi Hin) in Hx.
  - by eapply begin_inv.
Qed.

(** In every state reachable from one that satisfies it, by any interleaving
    of issues, redemptions, changes of the block lists and of the pause status,
    blocks and activity of other modules, the amount issued of a rate-limited
    asset in the current period is within its limit.  (No step is a proposal that
    sets other limits; with those, see [AppTheorems].) *)
Theorem rate_limit_respected s s' : inv s -> rtc step s s' -> inv s'.
Proof. intros Hi Hr. induction Hr; eauto using iss_step_inv. Qed.

(** ** The owner cannot be blocked *)
Lemma validate_blocked_Ok ow l u : ofold (validate_blocked ow) l tt = Ok u -> ow ∉ l.
Proof.
  induction l as [|x l IH]; intros Hx; simpl in Hx; [apply not_elem_of_nil|].
  apply obind_Ok in Hx as ([] & H1 & H2). unfold validate_blocked in H1. go_inv H1. gobool.
  apply not_elem_of_cons. split; [congruence|by apply IH].
Qed.

(** An owner who asks to block the owner's own account gets a panic from the
    validation of the parameters instead of one of the module's errors. *)
Theorem block_owner_panics denom owner s a :
  GetAsset s denom = Some a -> asBlockable a = true -> AccAddress_String owner = asOwner a ->
  asOwner a ∉ asBlockedAddresses a -> HasAccount (accounts s) owner = true ->
  isPanic (BlockAddress denom owner owner s) = true.
Proof.
  intros Hget Hb Ho Hn Hacc. unfold BlockAddress. rewrite Hget, Hb. simpl.
  rewrite bool_decide_eq_true_2, checkBlocked_spec, Ho, bool_decide_eq_false_2, Hacc by done. simpl.
  unfold SetAsset, SetParams. destruct (ValidateAssets _) as [[]| |] eqn:Hv; try done. exfalso.
  apply ValidateAssets_Ok in Hv as [Hv _]. rewrite List.Forall_forall in Hv.
  destruct (find_asset_Some _ _ _ Hget) as [Hin _].
  set (a' := set_blocked _ a) in Hv. specialize (Hv a').
  assert (In a' (replace_asset a' (Assets s))) as Hin'.
  { apply list_elem_of_In. unfold replace_asset. apply list_elem_of_fmap. exists a. split; [|done].
    by rewrite bool_decide_eq_true_2. }
  specialize (Hv Hin'). unfold Asset_Validate in Hv. go_inv Hv. apply validate_blocked_Ok in Hcall.
  apply Hcall. simpl. apply elem_of_app. right. left.
Qed.
End Proofs.
