(* ===== verification/IssuanceMsg.v ===== *)
(** * x/issuance: messages and their handlers

    The five messages with their stateless validation ([types/msg.go]), the
    message server ([keeper/msg_server.go]) and the queries for the parameters. *)

From S2P Require Import Prelude Sdk GoStd Bank Issuance.

Inductive Msg : Type :=
| MsgIssueTokens (Sender : string) (Tokens : Coin) (Receiver : string)
| MsgRedeemTokens (Sender : string) (Tokens : Coin)
| MsgBlockAddress (Sender : string) (Denom BlockedAddress : string)
| MsgUnblockAddress (Sender : string) (Denom BlockedAddress : string)
| MsgSetPauseStatus (Sender : string) (Denom : string) (Status : bool).

Section Msg.
  Context {cfg : SdkConfig} {B A : Type} {bk : BankKeeper B} {ak : AuthKeeper A}.
  Implicit Types s : State B A.

Definition msg_Sender (m : Msg) : string :=
  match m with
  | MsgIssueTokens x _ _ | MsgRedeemTokens x _ | MsgBlockAddress x _ _ | MsgUnblockAddress x _ _
  | MsgSetPauseStatus x _ _ => x
  end.
Definition msg_Denom (m : Msg) : string :=
  match m with
  | MsgIssueTokens _ c _ | MsgRedeemTokens _ c => Denom c
  | MsgBlockAddress _ d _ | MsgUnblockAddress _ d _ | MsgSetPauseStatus _ d _ => d
  end.

(** The test all five messages begin with. *)
Definition check_address (address : string) : outcome unit :=
  if bool_decide (address = "") then Err ErrInvalidAddress else
  match AccAddressFromBech32 address with
  | Ok _ => Ok tt
  | Err _ => Err ErrInvalidAddress
  | Panic w => Panic w
  end.
Definition check_tokens (c : Coin) : outcome unit :=
  if (Amount c =? 0) || negb (Coin_IsValid c) then Err ErrInvalidCoins else Ok tt.
Definition check_denom (d : string) : outcome unit :=
  if ValidateDenom d then Ok tt else Err (Plain "invalid denom").

Definition MsgIssueTokens_ValidateBasic (sender : string) (tokens : Coin) (receiver : string)
    : outcome unit :=
  let! _ := check_address sender in
  let! _ := check_tokens tokens in
  check_address receiver.

Definition MsgRedeemTokens_ValidateBasic (sender : string) (tokens : Coin) : outcome unit :=
  let! _ := check_address sender in
  check_tokens tokens.

Definition MsgBlockAddress_ValidateBasic (sender denom blockedAddress : string) : outcome unit :=
  let! _ := check_address sender in
  if bool_decide (blockedAddress = "") then Err ErrInvalidAddress else
  check_denom denom.

Definition MsgUnblockAddress_ValidateBasic (sender denom blockedAddress : string) : outcome unit :=
  let! _ := check_address sender in
  if bool_decide (blockedAddress = "") then Err ErrInvalidAddress else
  check_denom denom.

Definition MsgSetPauseStatus_ValidateBasic (sender denom : string) : outcome unit :=
  let! _ := check_address sender in
  check_denom denom.

Definition ValidateBasic (m : Msg) : outcome unit :=
  match m with
  | MsgIssueTokens sender tokens receiver => MsgIssueTokens_ValidateBasic sender tokens receiver
  | MsgRedeemTokens sender tokens => MsgRedeemTokens_ValidateBasic sender tokens
  | MsgBlockAddress sender denom blockedAddress =>
      MsgBlockAddress_ValidateBasic sender denom blockedAddress
  | MsgUnblockAddress sender denom blockedAddress =>
      MsgUnblockAddress_ValidateBasic sender denom blockedAddress
  | MsgSetPauseStatus sender denom _ => MsgSetPauseStatus_ValidateBasic sender denom
  end.

Definition GetSigners (m : Msg) : outcome (list AccAddress) :=
  let! sender := must (AccAddressFromBech32 (msg_Sender m)) in Ok [sender].

(** ** Message server *)
Definition msgServer (m : Msg) s : outcome (State B A) :=
  match m with
  | MsgIssueTokens sender tokens receiver =>
      let! sender := AccAddressFromBech32 sender in
      let! receiver := AccAddressFromBech32 receiver in
      IssueTokens tokens sender receiver s
  | MsgRedeemTokens sender tokens =>
      let! sender := AccAddressFromBech32 sender in
      RedeemTokens tokens sender s
  | MsgBlockAddress sender denom blockedAddress =>
      let! sender := AccAddressFromBech32 sender in
      let! blockedAddress := AccAddressFromBech32 blockedAddress in
      BlockAddress denom sender blockedAddress s
  | MsgUnblockAddress sender denom blockedAddress =>
      let! sender := AccAddressFromBech32 sender in
      let! blockedAddress := AccAddressFromBech32 blockedAddress in
      UnblockAddress denom sender blockedAddress s
  | MsgSetPauseStatus sender denom status =>
      let! sender := AccAddressFromBech32 sender in
      SetPauseStatus sender denom status s
  end.

(** Only the owner acts on an asset: whatever the message, when its handler
    succeeds its single signer is the owner of the asset it names. *)
Theorem only_owner m s s' :
  msgServer m s = Ok s' ->
  exists signer asset, GetSigners m = Ok [signer]
  /\ GetAsset s (msg_Denom m) = Some asset /\ AccAddress_String signer = asOwner asset.
Proof.
  intros Hx. destruct m as [x c y|x c|x d y|x d y|x d b]; simpl in Hx; unfold GetSigners; simpl;
    apply obind_Ok in Hx as (sender & -> & Hx); simpl;
    try (apply obind_Ok in Hx as (other & _ & Hx));
    unfold IssueTokens, RedeemTokens, BlockAddress, UnblockAddress, SetPauseStatus in Hx;
    (destruct (GetAsset s _) as [asset|] eqn:Hget; [|discriminate]);
    exists sender, asset; (split; [done|split; [done|]]);
    (destruct (decide (AccAddress_String sender = asOwner asset)) as [E|E]; [exact E|exfalso]);
    rewrite (bool_decide_eq_false_2 _ E) in Hx; simpl in Hx; try discriminate Hx;
    by destruct (negb (asBlockable asset)).
Qed.
End Msg.

(** ** Queries ([keeper/gprc_query.go], [keeper/querier.go])

    The parameters are the assets; the JSON codec is an argument. *)
Section Queries.
  Context {B A : Type} (MarshalJSONIndent : list Asset -> option bytes).

Definition grpc_Params (s : State B A) (req : option unit) : outcome (list Asset) :=
  match req with
  | None => Err (Plain "empty request")
  | Some _ => Ok (Assets s)
  end.
Definition queryGetParams (s : State B A) : outcome bytes :=
  match MarshalJSONIndent (Assets s) with
  | Some bz => Ok bz
  | None => Err (Registered "sdk" 16)
  end.
Definition NewQuerier (s : State B A) (path : list string) : outcome bytes :=
  match path with
  | [] => Panic "index out of range"
  | p :: _ => if bool_decide (p = "parameters") then queryGetParams s else Err (Registered "sdk" 6)
  end.
End Queries.
