(* ===== verification/IssuanceWitness.v ===== *)
(** * x/issuance: the theorems at work on a concrete chain

    One asset that its owner may block and whose issue is limited, with one
    blocked holder. *)

From S2P Require Import Prelude Sdk SdkModel GoStd Bank Issuance IssuanceTheorems IssuanceMsg.

Module IssuanceChain.
#[export] Existing Instances SdkModel.model SdkModel.laws Ledger.keeper Ledger.laws.
#[export] Instance auth : AuthKeeper (list AccAddress) := {|
  HasAccount l a := bool_decide (a ∈ l);
  IsModuleAccount l a := false;
  GetModuleAccount m l := (true, l)
|}.

Definition owner : AccAddress := [65].
Definition holder : AccAddress := [66].
Definition thief : AccAddress := [67].
Definition Chain : Type := State Ledger.t (list AccAddress).
Definition usd (blocked : list string) : Asset :=
  NewAsset (AccAddress_String owner) "usd" blocked false true (NewRateLimit true 100 3600).
Definition start : Chain :=
  mkState [usd [AccAddress_String thief]] {["usd" := NewAssetSupply (mkCoin "usd" 10) 0]} (Some 0)
    (Ledger.set_supply "usd" 50 (Ledger.set_balance thief "usd" 20 (Ledger.set_balance owner "usd" 30
       (Ledger.mk ∅ ∅)))) [owner; holder; thief].
Definition run (o : outcome Chain) : Chain := match o with Ok s => s | _ => start end.

Definition issued : Chain := run (IssueTokens (mkCoin "usd" 40) owner holder start).
Definition redeemed : Chain := run (RedeemTokens (mkCoin "usd" 5) owner start).
Definition blocked : Chain := run (BlockAddress "usd" owner holder start).
Definition unblocked : Chain := run (UnblockAddress "usd" owner thief blocked).
Definition block : Ctx := mkCtx 7 1000.
Definition next : Chain := run (BeginBlocker block start).

Lemma issue_correct_witness :
  may_issue start (mkCoin "usd" 40) owner holder
  /\ (forall x d, GetBalance (bank issued) x d
        = GetBalance (bank start) x d + credit holder x [mkCoin "usd" 40] d)
  /\ (forall d, GetSupply (bank issued) d = GetSupply (bank start) d + AmountOf [mkCoin "usd" 40] d).
Proof. apply (issue_correct (mkCoin "usd" 40) owner holder start issued). vm_compute. reflexivity. Defined.

Lemma redeem_correct_witness :
  (exists asset, GetAsset start "usd" = Some asset /\ asOwner asset = AccAddress_String owner
     /\ asPaused asset = false)
  /\ (forall x d, GetBalance (bank redeemed) x d
        = GetBalance (bank start) x d - credit owner x [mkCoin "usd" 5] d)
  /\ (forall d, GetSupply (bank redeemed) d = GetSupply (bank start) d - AmountOf [mkCoin "usd" 5] d).
Proof. apply (redeem_correct (mkCoin "usd" 5) owner start redeemed). vm_compute. reflexivity. Defined.

Lemma block_unblock_witness :
  exists s2, UnblockAddress "usd" owner holder blocked = Ok s2 /\ Assets s2 = Assets start.
Proof. apply (block_unblock "usd" owner holder start blocked); vm_compute; reflexivity. Defined.

Lemma unblock_removes_witness :
  exists a a', GetAsset blocked "usd" = Some a /\ GetAsset unblocked "usd" = Some a'
  /\ AccAddress_String thief :: asBlockedAddresses a' ≡ₚ asBlockedAddresses a
  /\ (forall d, d <> "usd" -> GetAsset unblocked d = GetAsset blocked d).
Proof. apply (unblock_removes "usd" owner thief blocked unblocked). vm_compute. reflexivity. Defined.

Lemma begin_block_seizes_witness :
  (forall d, GetSupply (bank next) d = GetSupply (bank start) d)
  /\ (forall z, z <> owner -> ~ named [AccAddress_String thief] z ->
        GetBalance (bank next) z "usd" = GetBalance (bank start) z "usd")
  /\ (forall x, named [AccAddress_String thief] x -> HasAccount (accounts start) x = true -> x <> owner ->
        GetBalance (bank next) x "usd" = 0).
Proof.
  apply (begin_block_seizes block start next (usd [AccAddress_String thief]) owner);
    [vm_compute; reflexivity|vm_compute; reflexivity|left|reflexivity|vm_compute; reflexivity].
Defined.

(** The same chain on a bank where the thief's coins are locked. *)
Lemma locked_coins_halt_witness :
  isPanic (@BeginBlocker SdkModel.model _ _ (Ledger.locked_keeper thief) auth block start) = true.
Proof.
  apply (@locked_coins_halt _ _ _ _ (Ledger.locked_keeper thief) (Ledger.locked_laws thief) auth block start
           (usd [AccAddress_String thief]) [] (AccAddress_String thief) [] thief);
    vm_compute; reflexivity.
Defined.

Lemma issuance_start_inv : inv start.
Proof.
  split; [vm_compute; reflexivity| |].
  - intros a ->%list_elem_of_singleton _. vm_compute. discriminate.
  - intros a sup ->%list_elem_of_singleton _ Hs. vm_compute in Hs. injection Hs as <-.
    split; [reflexivity|]. simpl. lia.
Qed.
Lemma rate_limit_respected_witness : inv issued.
Proof.
  apply (rate_limit_respected start issued issuance_start_inv), rtc_once.
  apply (step_op (OpIssue (mkCoin "usd" 40) owner holder)). vm_compute. reflexivity.
Defined.

Lemma block_owner_panics_witness : isPanic (BlockAddress "usd" owner owner start) = true.
Proof.
  apply (block_owner_panics "usd" owner start (usd [AccAddress_String thief]));
    [reflexivity|reflexivity|reflexivity| |vm_compute; reflexivity].
  intros Hin. apply list_elem_of_singleton in Hin. discriminate.
Defined.

Definition pause : Msg := MsgSetPauseStatus (AccAddress_String owner) "usd" true.
Lemma only_owner_witness :
  exists signer asset, GetSigners pause = Ok [signer]
  /\ GetAsset start "usd" = Some asset /\ AccAddress_String signer = asOwner asset.
Proof. apply (only_owner pause start (run (msgServer pause start))). vm_compute. reflexivity. Defined.
End IssuanceChain.
