(* ===== verification/Bn254.v ===== *)
(** * crypto/bn254util: points of the BN254 curve and their encodings

    The utilities of [crypto/bn254util/bn254util.go].  Field elements are
    residues of the base field's modulus; the group operations and the pairing
    belong to gnark-crypto and are arguments ([Gnark]), as is [big.Int.ModSqrt]. *)

From S2P Require Import Prelude Sdk.

(** ** Points ([bn254.G1Affine], [bn254.G2Affine]) *)
Record G1Affine : Type := mkG1 { G1X : Z; G1Y : Z }.
Record E2 : Type := mkE2 { A0 : Z; A1 : Z }.
Record G2Affine : Type := mkG2 { G2X : E2; G2Y : E2 }.

#[export] Instance G1Affine_eq_dec : EqDecision G1Affine.
Proof. solve_decision. Defined.

Class Gnark : Type := {
  (** [fp.Modulus()] *)
  fp_Modulus : Z;
  (** [x.ModSqrt(x, fp.Modulus())], [None] for nil *)
  ModSqrt : Z -> option Z;
  G1_Add : G1Affine -> G1Affine -> G1Affine;
  G1_ScalarMultiplication : G1Affine -> Z -> G1Affine;
  G1_Neg : G1Affine -> G1Affine;
  G2_ScalarMultiplication : G2Affine -> Z -> G2Affine;
  G2_Neg : G2Affine -> G2Affine;
  PairingCheck : list G1Affine -> list G2Affine -> outcome bool;
  (** [crypto.Keccak256] of go-ethereum *)
  Keccak256 : bytes -> bytes
}.

(** What the field arithmetic relies on: the modulus fits 32 bytes, and
    [ModSqrt] returns a square root exactly when there is one. *)
Class FieldLaws `{Gnark} : Prop := {
  fp_range : 4 < fp_Modulus < 256 ^ 32;
  ModSqrt_Some : forall x y, ModSqrt x = Some y ->
    0 <= y < fp_Modulus /\ (y * y) mod fp_Modulus = x mod fp_Modulus;
  ModSqrt_None : forall x y, ModSqrt x = None -> (y * y) mod fp_Modulus <> x mod fp_Modulus
}.

Definition G1PointSize : nat := 64.
Definition G2PointSize : nat := 128.
Definition FR_MODULUS : Z :=
  21888242871839275222246405745257275088548364400416034343698204186575808495617.

Section Bn254.
  Context {gk : Gnark}.

(** [fp.Element]: values are reduced when they are set. *)
Definition fp (z : Z) : Z := z mod fp_Modulus.

(** [e.SetBytes(b)] *)
Definition fp_SetBytes (b : bytes) : Z := fp (be_val b).

(** [n] bytes of a number, the most significant first. *)
Fixpoint be_bytes (n : nat) (v : Z) : bytes :=
  match n with
  | O => []
  | S n => byte (Z.shiftr v (8 * Z.of_nat n)) :: be_bytes n v
  end.
(** [e.Bytes()] *)
Definition fp_Bytes (z : Z) : bytes := be_bytes 32 z.

(** [b[lo:hi]], a panic when the slice is too short; the slices here have no
    spare capacity, their lengths are checked by the messages' validation *)
Definition slice (b : bytes) (lo hi : nat) : outcome bytes :=
  if (hi <=? length b)%nat then Ok (take (hi - lo) (drop lo b))
  else Panic "slice bounds out of range".

(** ** MapToCurve *)
Definition map_step (x : Z) : Z + G1Affine :=
  let xP3 := (x ^ 3) mod fp_Modulus in
  let y := (xP3 + 3) mod fp_Modulus in
  match ModSqrt y with
  | None => inl ((x + 1) mod fp_Modulus)
  | Some y => inr (mkG1 (fp x) (fp y))
  end.

(** The loop of [MapToCurve] has no bound; [fp_Modulus + 1] iterations are
    enough ([MapToCurve_total]). *)
Definition MapToCurve (digest : bytes) : outcome G1Affine :=
  match loop map_step (Z.to_pos (fp_Modulus + 1)) (be_val digest) with
  | inr p => Ok p
  | inl _ => Panic "out of iterations"
  end.

(** ** Generators *)
Definition GetG1Generator : G1Affine := mkG1 (fp 1) (fp 2).
Definition GetG2Generator : G2Affine :=
  mkG2 (mkE2 (fp 10857046999023057135944570762232829481370756359578518086990519993285655852781)
             (fp 11559732032986387107991004021392285783925812861821192530917403151452391805634))
       (mkE2 (fp 8495653923123431417604973247489272438418190587263600148770280649306958101930)
             (fp 4082367875863433681332203403145435568316851327593401208105741076214120093531)).

Definition MulByGeneratorG1 (a : Z) : G1Affine := G1_ScalarMultiplication GetG1Generator a.
Definition MulByGeneratorG2 (a : Z) : G2Affine := G2_ScalarMultiplication GetG2Generator a.

(** ** Encodings *)
Definition SerializeG1 (p : G1Affine) : bytes := fp_Bytes (G1X p) ++ fp_Bytes (G1Y p).

Definition DeserializeG1 (b : bytes) : outcome G1Affine :=
  let! x := slice b 0 32 in
  let! y := slice b 32 64 in
  Ok (mkG1 (fp_SetBytes x) (fp_SetBytes y)).

Definition SerializeG2 (p : G2Affine) : bytes :=
  fp_Bytes (A0 (G2X p)) ++ fp_Bytes (A1 (G2X p)) ++ fp_Bytes (A0 (G2Y p)) ++ fp_Bytes (A1 (G2Y p)).

Definition DeserializeG2 (b : bytes) : outcome G2Affine :=
  let! x0 := slice b 0 32 in
  let! x1 := slice b 32 64 in
  let! y0 := slice b 64 96 in
  let! y1 := slice b 96 128 in
  Ok (mkG2 (mkE2 (fp_SetBytes x0) (fp_SetBytes x1)) (mkE2 (fp_SetBytes y0) (fp_SetBytes y1))).

(** ** Signatures *)
Definition VerifySig (sig : G1Affine) (pubkey : G2Affine) (msgBytes : bytes) : outcome bool :=
  let! msgPoint := MapToCurve msgBytes in
  match PairingCheck [msgPoint; G1_Neg sig] [pubkey; GetG2Generator] with
  | Err _ => Ok false
  | r => r
  end.

Definition CheckG1AndG2DiscreteLogEquality (pointG1 : G1Affine) (pointG2 : G2Affine) : outcome bool :=
  PairingCheck [pointG1; G1_Neg GetG1Generator] [GetG2Generator; pointG2].

Definition Gamma (hash signature pkG1 : G1Affine) (pkG2 : G2Affine) : Z :=
  let toHash := SerializeG1 hash ++ SerializeG1 signature ++ SerializeG1 pkG1 ++ SerializeG2 pkG2 in
  be_val (Keccak256 toHash) mod FR_MODULUS.

(** ** The curve *)
Definition on_curve (p : G1Affine) : Prop :=
  0 <= G1X p < fp_Modulus /\ 0 <= G1Y p < fp_Modulus
  /\ (G1Y p * G1Y p) mod fp_Modulus = (G1X p ^ 3 + 3) mod fp_Modulus.

Definition G1_reduced (p : G1Affine) : Prop :=
  0 <= G1X p < fp_Modulus /\ 0 <= G1Y p < fp_Modulus.
Definition E2_reduced (x : E2) : Prop := 0 <= A0 x < fp_Modulus /\ 0 <= A1 x < fp_Modulus.
Definition G2_reduced (p : G2Affine) : Prop := E2_reduced (G2X p) /\ E2_reduced (G2Y p).

(** ** Encodings round trip *)
Lemma length_be_bytes n v : length (be_bytes n v) = n.
Proof. induction n as [|n IH]; simpl; congruence. Qed.

Lemma be_val_be_bytes n v : 0 <= v -> be_val (be_bytes n v) = v mod 256 ^ Z.of_nat n.
Proof.
  intros Hv. induction n as [|n IH]; cbn [be_bytes be_val]; [by rewrite Z.mod_1_r|].
  rewrite length_be_bytes, IH, byte_mod, Z.shiftr_div_pow2 by lia.
  replace (2 ^ (8 * Z.of_nat n)) with (256 ^ Z.of_nat n) by (rewrite Z.pow_mul_r by lia; done).
  rewrite Nat2Z.inj_succ, Z.pow_succ_r by lia. set (B := 256 ^ Z.of_nat n).
  assert (0 < B) by (apply Z.pow_pos_nonneg; lia).
  rewrite (Z.mul_comm 256 B), Z.rem_mul_r by lia. lia.
Qed.

Lemma slice_app b lo hi a c :
  b = a ++ c -> length a = lo -> (hi <= length b)%nat -> slice b lo hi = Ok (take (hi - lo) c).
Proof.
  intros -> <- Hle. unfold slice. rewrite (proj2 (Nat.leb_le _ _) Hle). by rewrite drop_app_length.
Qed.

Context {laws : FieldLaws}.

Lemma fp_id z : 0 <= z < fp_Modulus -> fp z = z.
Proof. intros Hz. by apply Z.mod_small. Qed.

Lemma fp_bounds z : 0 <= fp z < fp_Modulus.
Proof. apply Z.mod_pos_bound. pose proof fp_range. lia. Qed.

Lemma fp_roundtrip z : 0 <= z < fp_Modulus -> fp_SetBytes (fp_Bytes z) = z.
Proof.
  intros Hz. unfold fp_SetBytes, fp_Bytes. rewrite be_val_be_bytes by lia.
  pose proof fp_range. change (Z.of_nat 32) with 32.
  rewrite (Z.mod_small z) by lia. by apply fp_id.
Qed.

Lemma length_fp_Bytes z : length (fp_Bytes z) = 32%nat.
Proof. apply length_be_bytes. Qed.

Lemma take_fp z l : take 32 (fp_Bytes z ++ l) = fp_Bytes z.
Proof. apply take_app_length'. symmetry. apply length_fp_Bytes. Qed.

(** The serialized form of a reduced point reads back as the point. *)
Lemma G1_roundtrip p : G1_reduced p -> DeserializeG1 (SerializeG1 p) = Ok p.
Proof.
  intros [Hx Hy]. unfold DeserializeG1, SerializeG1.
  rewrite (slice_app _ 0 32 [] (fp_Bytes (G1X p) ++ fp_Bytes (G1Y p))), (slice_app _ 32 64 (fp_Bytes (G1X p)) (fp_Bytes (G1Y p)));
    try (reflexivity || apply length_fp_Bytes || (rewrite ?length_app, ?length_fp_Bytes; simpl; lia)).
  change (32 - 0)%nat with 32%nat. change (64 - 32)%nat with 32%nat. cbn [obind].
  rewrite take_fp. rewrite <- (app_nil_r (fp_Bytes (G1Y p))), take_fp, !fp_roundtrip by done. by destruct p.
Qed.

Lemma G2_roundtrip p : G2_reduced p -> DeserializeG2 (SerializeG2 p) = Ok p.
Proof.
  destruct p as [[x0 x1] [y0 y1]]. intros [[H0 H1] [H2 H3]]. simpl in *.
  unfold DeserializeG2, SerializeG2. cbn [G2X G2Y A0 A1].
  rewrite (slice_app _ 0 32 [] (fp_Bytes x0 ++ fp_Bytes x1 ++ fp_Bytes y0 ++ fp_Bytes y1)),
    (slice_app _ 32 64 (fp_Bytes x0) (fp_Bytes x1 ++ fp_Bytes y0 ++ fp_Bytes y1)),
    (slice_app _ 64 96 (fp_Bytes x0 ++ fp_Bytes x1) (fp_Bytes y0 ++ fp_Bytes y1)),
    (slice_app _ 96 128 (fp_Bytes x0 ++ fp_Bytes x1 ++ fp_Bytes y0) (fp_Bytes y1));
    try (reflexivity || by rewrite <- ?(assoc_L (++)) || (rewrite ?length_app, ?length_fp_Bytes; simpl; lia)).
  change (32 - 0)%nat with 32%nat. change (64 - 32)%nat with 32%nat.
  change (96 - 64)%nat with 32%nat. change (128 - 96)%nat with 32%nat. cbn [obind].
  rewrite !take_fp. rewrite <- (app_nil_r (fp_Bytes y1)), take_fp, !fp_roundtrip by done. done.
Qed.

(** ** MapToCurve ends on the curve *)
Lemma map_step_exit x p : map_step x = inr p -> on_curve p.
Proof.
  unfold map_step. destruct (ModSqrt _) as [y|] eqn:E; [|discriminate]. intros [= <-].
  apply ModSqrt_Some in E as [Hy E]. split; [apply fp_bounds|split; [apply fp_bounds|]].
  cbn [G1X G1Y]. pose proof fp_range. rewrite (fp_id y) by done. rewrite E. unfold fp.
  rewrite Zmod_mod. rewrite !Zplus_mod_idemp_l. rewrite (Zplus_mod (x ^ 3)), (Zplus_mod ((_ mod _) ^ 3)).
  by rewrite <- Z.mod_pow_l.
Qed.

(** The abscissa 1 is on the curve ([1 + 3 = 2 * 2]), and the search visits the
    residues in order, so it ends before it returns to where it started. *)
Lemma map_step_one : exists p, map_step 1 = inr p.
Proof.
  unfold map_step. destruct (ModSqrt _) as [y|] eqn:E; [by eexists|].
  exfalso. apply (ModSqrt_None _ 2) in E. apply E. pose proof fp_range.
  rewrite (Z.mod_small (1 ^ 3)), Zmod_mod by lia. done.
Qed.

Lemma map_reaches n x : 0 <= x < fp_Modulus -> x + Z.of_nat n < fp_Modulus ->
  (exists p, iterations map_step n x = inr p) \/ iterations map_step n x = inl (x + Z.of_nat n).
Proof.
  revert x. induction n as [|n IH]; intros x Hx Hn; [right; simpl; f_equal; lia|]. cbn [iterations].
  unfold map_step at 1 3. destruct (ModSqrt _) as [y|]; [left; by eexists|].
  rewrite Z.mod_small by lia. replace (x + Z.of_nat (S n)) with (x + 1 + Z.of_nat n) by lia.
  apply IH; lia.
Qed.

Lemma map_from_one n : (1 <= n)%nat -> exists p, iterations map_step n 1 = inr p.
Proof.
  intros Hn. destruct map_step_one as [p Hp]. exists p.
  apply (iterations_mono _ 1); [done|]. simpl. by rewrite Hp.
Qed.

Lemma map_from x : 0 <= x < fp_Modulus ->
  exists p, iterations map_step (Z.to_nat fp_Modulus) x = inr p.
Proof.
  intros Hx. pose proof fp_range. destruct (decide (x <= 1)) as [Hle|Hgt].
  - destruct (map_reaches (Z.to_nat (1 - x)) x) as [[p Hp]|Hr]; [done|lia| |].
    + exists p. eapply iterations_mono; [|exact Hp]. lia.
    + replace (Z.to_nat fp_Modulus) with (Z.to_nat (1 - x) + Z.to_nat (fp_Modulus - (1 - x)))%nat by lia.
      rewrite iterations_add, Hr. replace (x + Z.of_nat (Z.to_nat (1 - x))) with 1 by lia.
      apply map_from_one. lia.
  - destruct (map_reaches (Z.to_nat (fp_Modulus - 1 - x)) x) as [[p Hp]|Hr]; [done|lia| |].
    + exists p. eapply iterations_mono; [|exact Hp]. lia.
    + replace (Z.to_nat fp_Modulus)
        with (Z.to_nat (fp_Modulus - 1 - x) + (1 + (1 + Z.to_nat (x - 1))))%nat by lia.
      rewrite iterations_add, Hr. replace (x + Z.of_nat _) with (fp_Modulus - 1) by lia.
      rewrite (iterations_add _ 1). cbn [iterations]. unfold map_step at 1.
      destruct (ModSqrt _) as [y|]; [by eexists|].
      replace (fp_Modulus - 1 + 1) with fp_Modulus by lia. rewrite Z_mod_same_full.
      rewrite (iterations_add _ 1). cbn [iterations]. unfold map_step at 1.
      destruct (ModSqrt _) as [y|]; [by eexists|]. rewrite (Z.mod_small (0 + 1)) by lia.
      apply map_from_one. lia.
Qed.

Lemma MapToCurve_Ok digest : exists p, MapToCurve digest = Ok p /\ on_curve p.
Proof.
  pose proof fp_range. unfold MapToCurve. rewrite loop_iterations, Z2Pos.inj_add by lia.
  assert (exists p, iterations map_step (Pos.to_nat (Z.to_pos fp_Modulus + 1)) (be_val digest) = inr p)
    as [p Hp].
  { rewrite Pos2Nat.inj_add, Nat.add_comm. simpl. rewrite <- Z2Nat.inj_pos, Z2Pos.id by lia.
    unfold map_step at 1. destruct (ModSqrt _); [by eexists|]. apply map_from, Z.mod_pos_bound. lia. }
  change (Z.to_pos 1) with 1%positive. rewrite Hp. exists p. split; [done|].
  eapply (iterations_inv map_step (fun _ => True) on_curve); [done|eauto using map_step_exit|done|exact Hp].
Qed.

(** The search for a curve point always ends: for every digest the loop finds,
    within one pass over the field, an abscissa whose cube plus three is a square,
    and the point it returns is on the curve. *)
Theorem MapToCurve_total digest : exists p, MapToCurve digest = Ok p /\ on_curve p.
Proof. apply MapToCurve_Ok. Qed.
End Bn254.
