(* ===== verification/Dasigners.v ===== *)
(** * x/dasigners/v1: the signers of the data availability layer

    Operators register a BLS key ([keeper/msg_server.go]); those who register
    for the next epoch receive ballots in proportion to their bonded tokens, and
    the first block of the epoch groups the ballots into quorums
    ([keeper/abci.go]).  The staking module, the sorting routine and the hash
    are arguments. *)

From S2P Require Import Prelude Sdk GoStd Bn254.

(** ** Errors ([types/errors.go]) *)
Definition ErrSignerExists : error := Registered "da-signers" 1.
Definition ErrEpochNumberNotSet : error := Registered "da-signers" 2.
Definition ErrSignerNotFound : error := Registered "da-signers" 3.
Definition ErrInvalidSignature : error := Registered "da-signers" 4.
Definition ErrQuorumNotFound : error := Registered "da-signers" 5.
Definition ErrQuorumIdOutOfBound : error := Registered "da-signers" 6.
Definition ErrQuorumBitmapLengthMismatch : error := Registered "da-signers" 7.
Definition ErrInsufficientBonded : error := Registered "da-signers" 8.
Definition ErrRowIndexOutOfBound : error := Registered "da-signers" 9.

(** ** Data *)
Record Params : Type := mkParams {
  TokensPerVote : Z;
  MaxVotesPerSigner : Z;
  MaxQuorums : Z;
  EpochBlocks : Z;
  EncodedSlices : Z
}.
Record Signer : Type := mkSigner {
  sgAccount : string;
  sgSocket : string;
  sgPubkeyG1 : bytes;
  sgPubkeyG2 : bytes
}.
Record Quorum : Type := mkQuorum { Signers : list string }.
Record Ballot : Type := mkBallot { account : string; content : bytes }.

Record MsgRegisterSigner : Type := mkRegisterSigner { mrSigner : Signer; mrSignature : bytes }.
Record MsgUpdateSocket : Type := mkUpdateSocket { muAccount : string; muSocket : string }.
Record MsgRegisterNextEpoch : Type := mkRegisterNextEpoch { mnAccount : string; mnSignature : bytes }.

(** ** What the module uses of other code *)
(** The staking keeper; decimals ([sdk.Dec]) are integers scaled by 10^18. *)
Record Delegation : Type := mkDelegation { ValidatorAddress : string; Shares : Z }.
Class StakingKeeper (K V : Type) : Type := {
  DelegatorDelegations : K -> AccAddress -> list Delegation;
  GetValidator : K -> bytes -> option V;
  TokensFromSharesTruncated : V -> Z -> outcome Z
}.

Class DaEnv : Type := {
  AccAddressFromHexUnsafe : string -> outcome AccAddress;
  ValAddressFromBech32 : string -> outcome bytes;
  Dec_Add : Z -> Z -> outcome Z;
  RoundInt : Z -> outcome Z;
  (** [etherminttypes.ParseChainID] *)
  ParseChainID : string -> outcome Z;
  (** [common.HexToAddress(s).Bytes()] *)
  HexToAddress : string -> bytes;
  (** [sort.Slice] with the comparison of contents *)
  sort_Slice : list Ballot -> list Ballot
}.

(** The documented behaviour of [sort.Slice], which is not stable, and of
    [AccAddressFromHexUnsafe]. *)
Class DaLaws `{DaEnv} : Prop := {
  sort_Permutation : forall l, sort_Slice l ≡ₚ l;
  sort_Sorted : forall l, StronglySorted (fun a b => bytes_le (content a) (content b)) (sort_Slice l);
  AccAddressFromHex_hex : forall s b, s <> "" -> hex_DecodeString s = Ok b -> AccAddressFromHexUnsafe s = Ok b
}.

(** ** State

    The sub-stores of the module, keyed by the bytes that follow the prefix. *)
Record State (K : Type) : Type := mkState {
  params : option Params;
  epochNumber : option Z;
  signers : gmap bytes Signer;
  epochQuorums : gmap bytes Quorum;
  quorumCounts : gmap bytes Z;
  registrations : gmap bytes bytes;
  staking : K
}.
Arguments mkState {K}.
Arguments params {K}.
Arguments epochNumber {K}.
Arguments signers {K}.
Arguments epochQuorums {K}.
Arguments quorumCounts {K}.
Arguments registrations {K}.
Arguments staking {K}.

(** ** Keys ([types/keys.go]) *)
Definition GetSignerKeyFromAccount (account : string) : outcome bytes := hex_DecodeString account.
Definition GetEpochQuorumKey (epoch quorumId : Z) : bytes :=
  Uint64ToBigEndian epoch ++ Uint64ToBigEndian quorumId.
Definition GetQuorumCountKey (epoch : Z) : bytes := Uint64ToBigEndian epoch.
Definition GetEpochRegistrationKeyPrefix (epoch : Z) : bytes := Uint64ToBigEndian epoch.
Definition GetRegistrationKey (account : string) : outcome bytes := hex_DecodeString account.

(** ** Signers ([types/signer.go]) *)
Definition ValidateHexAddress (account : string) : outcome unit :=
  let! addr := hex_DecodeString account in
  if (length addr =? 20)%nat then Ok tt else Err (Plain "invalid address length").

Definition Signer_Validate (s : Signer) : outcome unit :=
  if negb (length (sgPubkeyG1 s) =? G1PointSize)%nat then Err (Plain "invalid G1 pubkey length") else
  if negb (length (sgPubkeyG2 s) =? G2PointSize)%nat then Err (Plain "invalid G2 pubkey length") else
  ValidateHexAddress (sgAccount s).

Definition BondedConversionRate : Z := 10 ^ 6.
Definition zeroParams : Params := mkParams 0 0 0 0 0.

Section Dasigners.
  Context {gk : Gnark} {env : DaEnv} {K V : Type} {sk : StakingKeeper K V}.
  Implicit Types s : State K.

Definition ValidateSignature (signer : Signer) (hash signature : G1Affine) : outcome bool :=
  let! pubkeyG1 := DeserializeG1 (sgPubkeyG1 signer) in
  let! pubkeyG2 := DeserializeG2 (sgPubkeyG2 signer) in
  let gamma := Gamma hash signature pubkeyG1 pubkeyG2 in
  match PairingCheck
          [G1_Add signature (G1_ScalarMultiplication pubkeyG1 gamma);
           G1_Add hash (G1_ScalarMultiplication GetG1Generator gamma)]
          [G2_Neg GetG2Generator; pubkeyG2] with
  | Err _ => Ok false
  | r => r
  end.

(** ** Hashes to sign ([types/hash.go]) *)
(** [common.LeftPadBytes(chainId.Bytes(), 32)], for a chain id of at most 32 bytes *)
Definition padded_chain_id (chainId : Z) : bytes := be_bytes 32 chainId.

Definition PubkeyRegistrationHash (operatorAddress : bytes) (chainId : Z) : outcome G1Affine :=
  let toHash := operatorAddress ++ padded_chain_id chainId
                ++ string_bytes "0G_BN254_Pubkey_Registration" in
  MapToCurve (Keccak256 toHash).

Definition EpochRegistrationHash (operatorAddress : bytes) (epoch chainId : Z) : outcome G1Affine :=
  let toHash := operatorAddress ++ Uint64ToBigEndian epoch ++ padded_chain_id chainId in
  MapToCurve (Keccak256 toHash).

(** ** Store ([keeper/keeper.go]) *)
(** An absent value unmarshals to the zero parameters. *)
Definition GetParams s : Params := default zeroParams (params s).
Definition SetParams (p : Params) s : State K :=
  mkState (Some p) (epochNumber s) (signers s) (epochQuorums s) (quorumCounts s) (registrations s)
    (staking s).

Definition GetEpochNumber s : outcome Z :=
  match epochNumber s with Some e => Ok e | None => Err ErrEpochNumberNotSet end.
Definition SetEpochNumber (epoch : Z) s : State K :=
  mkState (params s) (Some epoch) (signers s) (epochQuorums s) (quorumCounts s) (registrations s)
    (staking s).

Definition GetQuorumCount s (epoch : Z) : outcome Z :=
  match quorumCounts s !! GetQuorumCountKey epoch with
  | Some n => Ok n
  | None => Err ErrQuorumNotFound
  end.
Definition SetQuorumCount (epoch quorums : Z) s : State K :=
  mkState (params s) (epochNumber s) (signers s) (epochQuorums s)
    (<[GetQuorumCountKey epoch := quorums]> (quorumCounts s)) (registrations s) (staking s).

Definition GetSigner s (account : string) : outcome (option Signer) :=
  let! key := GetSignerKeyFromAccount account in Ok (signers s !! key).
Definition SetSigner (signer : Signer) s : outcome (State K) :=
  let! key := GetSignerKeyFromAccount (sgAccount signer) in
  Ok (mkState (params s) (epochNumber s) (<[key := signer]> (signers s)) (epochQuorums s)
        (quorumCounts s) (registrations s) (staking s)).

(** [IterateSigners] with a callback that collects every signer. *)
Definition AllSigners s : list Signer := (iterator (signers s) None).*2.

Definition GetEpochQuorum s (epoch quorumId : Z) : outcome Quorum :=
  let! quorumCount := GetQuorumCount s epoch in
  if quorumCount <=? quorumId then Err ErrQuorumIdOutOfBound else
  match epochQuorums s !! GetEpochQuorumKey epoch quorumId with
  | Some q => Ok q
  | None => Err ErrQuorumNotFound
  end.

Definition set_quorum (epoch : Z) (iq : nat * Quorum) (m : gmap bytes Quorum) : gmap bytes Quorum :=
  <[GetEpochQuorumKey epoch (Z.of_nat iq.1) := iq.2]> m.
Definition SetEpochQuorums (epoch : Z) (quorums : list Quorum) s : State K :=
  let m := foldl (fun m iq => set_quorum epoch iq m) (epochQuorums s) (imap pair quorums) in
  SetQuorumCount epoch (Z.of_nat (length quorums))
    (mkState (params s) (epochNumber s) (signers s) m (quorumCounts s) (registrations s) (staking s)).

Definition GetRegistration s (epoch : Z) (account : string) : outcome (option bytes) :=
  let! key := GetRegistrationKey account in
  Ok (registrations s !! (GetEpochRegistrationKeyPrefix epoch ++ key)).

(** [IterateRegistrations] with a callback that collects every registration:
    the entries under the prefix, in the order of their keys. *)
Definition IterateRegistrations s (epoch : Z) : list Ballot :=
  let prefix := GetEpochRegistrationKeyPrefix epoch in
  map (fun kv => mkBallot (hex_EncodeToString (drop (length prefix) kv.1)) kv.2)
    (filter (fun kv => take (length prefix) kv.1 = prefix) (iterator (registrations s) None)).

Definition SetRegistration (epoch : Z) (account : string) (signature : bytes) s : outcome (State K) :=
  let! key := GetRegistrationKey account in
  Ok (mkState (params s) (epochNumber s) (signers s) (epochQuorums s) (quorumCounts s)
        (<[GetEpochRegistrationKeyPrefix epoch ++ key := signature]> (registrations s)) (staking s)).

(** The callback of [GetDelegatorBonded] stops the iteration after eleven
    delegations. *)
Fixpoint bonded_loop s (l : list Delegation) (bonded cnt : Z) : outcome Z :=
  match l with
  | [] => Ok bonded
  | d :: l =>
      let! validatorAddr := must (ValAddressFromBech32 (ValidatorAddress d)) in
      let! bonded :=
        match GetValidator (staking s) validatorAddr with
        | Some validator =>
            let! tokens := TokensFromSharesTruncated validator (Shares d) in Dec_Add bonded tokens
        | None => Ok bonded
        end in
      let cnt := cnt + 1 in
      if cnt >? 10 then Ok bonded else bonded_loop s l bonded cnt
  end.
Definition GetDelegatorBonded s (delegator : AccAddress) : outcome Z :=
  let! bonded := bonded_loop s (DelegatorDelegations (staking s) delegator) 0 0 in
  RoundInt bonded.

(** [x.Quo(y)] of [math.Int] *)
Definition Int_Quo (x y : Z) : outcome Z :=
  if y =? 0 then Panic "division by zero" else Ok (Z.quot x y).

(** [bonded.Quo(BondedConversionRate).Quo(tokensPerVote).Abs()] *)
Definition vote_num (p : Params) (bonded : Z) : outcome Z :=
  let! q := Int_Quo bonded BondedConversionRate in
  let! n := Int_Quo q (TokensPerVote p) in
  Ok (Z.abs n).

Definition CheckDelegations s (account : string) : outcome unit :=
  let! accAddr := AccAddressFromHexUnsafe account in
  let! bonded := GetDelegatorBonded s accAddr in
  let! num := vote_num (GetParams s) bonded in
  if num <=? 0 then Err ErrInsufficientBonded else Ok tt.

(** ** Messages ([types/msg.go], [keeper/msg_server.go]) *)
Definition MsgRegisterSigner_ValidateBasic (msg : MsgRegisterSigner) : outcome unit :=
  let! _ := Signer_Validate (mrSigner msg) in
  if negb (length (mrSignature msg) =? G1PointSize)%nat then Err (Plain "invalid signature") else Ok tt.
Definition MsgUpdateSocket_ValidateBasic (msg : MsgUpdateSocket) : outcome unit :=
  ValidateHexAddress (muAccount msg).
Definition MsgRegisterNextEpoch_ValidateBasic (msg : MsgRegisterNextEpoch) : outcome unit :=
  let! _ := ValidateHexAddress (mnAccount msg) in
  if negb (length (mnSignature msg) =? G1PointSize)%nat then Err (Plain "invalid signature") else Ok tt.

Definition RegisterSigner (chain : string) (msg : MsgRegisterSigner) s : outcome (State K) :=
  let signer := mrSigner msg in
  let! _ := CheckDelegations s (sgAccount signer) in
  let! found := GetSigner s (sgAccount signer) in
  match found with
  | Some _ => Err ErrSignerExists
  | None =>
      let! chainID := ParseChainID chain in
      let! hash := PubkeyRegistrationHash (HexToAddress (sgAccount signer)) chainID in
      let! signature := DeserializeG1 (mrSignature msg) in
      let! valid := ValidateSignature signer hash signature in
      if negb valid then Err ErrInvalidSignature else
      SetSigner signer s
  end.

Definition UpdateSocket (msg : MsgUpdateSocket) s : outcome (State K) :=
  let! found := GetSigner s (muAccount msg) in
  match found with
  | None => Err ErrSignerNotFound
  | Some signer =>
      SetSigner (mkSigner (sgAccount signer) (muSocket msg) (sgPubkeyG1 signer) (sgPubkeyG2 signer)) s
  end.

(** The error of [SetRegistration] is dropped. *)
Definition RegisterNextEpoch (chain : string) (msg : MsgRegisterNextEpoch) s : outcome (State K) :=
  let! _ := CheckDelegations s (mnAccount msg) in
  let! found := GetSigner s (mnAccount msg) in
  match found with
  | None => Err ErrSignerNotFound
  | Some signer =>
      let! epochNumber := GetEpochNumber s in
      let! chainID := ParseChainID chain in
      let! hash := EpochRegistrationHash (HexToAddress (mnAccount msg)) (u64 (epochNumber + 1)) chainID in
      let! signature := DeserializeG1 (mnSignature msg) in
      let! valid := ValidateSignature signer hash signature in
      if negb valid then Err ErrInvalidSignature else
      match SetRegistration (u64 (epochNumber + 1)) (mnAccount msg) (mnSignature msg) s with
      | Ok s => Ok s
      | Err _ => Ok s
      | Panic w => Panic w
      end
  end.

(** ** The begin blocker ([keeper/abci.go]) *)
(** [ballotNum] ballots of one registration, each with the hash of the last. *)
Fixpoint cast (account : string) (content : bytes) (ballotNum : nat) : list Ballot :=
  match ballotNum with
  | O => []
  | S n => mkBallot account content :: cast account (Keccak256 content) n
  end.

(** The number of ballots of a registration; [int64(params.MaxVotesPerSigner)]
    and [int(ballotNum)] are 64-bit. *)
Definition ballot_num (p : Params) (bonded : Z) : outcome Z :=
  let! num := vote_num p bonded in
  Ok (if num >? i64 (MaxVotesPerSigner p) then i64 (MaxVotesPerSigner p) else num).

(** A registration whose account does not parse is skipped. *)
Definition collect s (registration : Ballot) (ballots : list Ballot) : outcome (list Ballot) :=
  match AccAddressFromHexUnsafe (account registration) with
  | Ok accAddr =>
      let! bonded := GetDelegatorBonded s accAddr in
      let! num := ballot_num (GetParams s) bonded in
      Ok (ballots ++ cast (account registration) (content registration) (Z.to_nat num))
  | Err _ => Ok ballots
  | Panic w => Panic w
  end.

(** [ballots[k].account] *)
Definition account_at (ballots : list Ballot) (k : Z) : outcome string :=
  if k <? 0 then Panic "index out of range" else
  match ballots !! Z.to_nat k with
  | Some b => Ok (account b)
  | None => Panic "index out of range"
  end.

(** One iteration of the loop over full quorums; the state is [i] and the
    quorums formed so far, the exit is the list of quorums. *)
Definition quorum_step (p : Params) (ballots : list Ballot) (st : Z * list Quorum)
    : (Z * list Quorum) + outcome (list Quorum) :=
  let '(i, quorums) := st in
  let size := i64 (EncodedSlices p) in
  if i + size <=? Z.of_nat (length ballots) then
    if i64 (MaxQuorums p) <? Z.of_nat (length quorums) then inr (Ok quorums) else
    match (let! _ := make_check 16 (EncodedSlices p) in
           omap_list (fun j => account_at ballots (i + j)) (seqZ 0 size)) with
    | Ok accounts => inl (i + size, quorums ++ [mkQuorum accounts])
    | Err e => inr (Err e)
    | Panic w => inr (Panic w)
    end
  else inr (Ok quorums).

(** Enough iterations: the loop leaves at the end of the ballots or, when the
    quorum size is zero, at the limit on the number of quorums. *)
Definition quorum_iterations (p : Params) (ballots : list Ballot) : positive :=
  Z.to_pos (Z.of_nat (length ballots) + Z.max 0 (i64 (MaxQuorums p)) + 2).

Definition full_quorums (p : Params) (ballots : list Ballot) : outcome (list Quorum) :=
  match loop (quorum_step p ballots) (quorum_iterations p ballots) (0, []) with
  | inr r => r
  | inl _ => Panic "out of iterations"
  end.

Definition form_quorums (p : Params) (ballots : list Ballot) : outcome (list Quorum) :=
  let n := Z.of_nat (length ballots) in
  let size := i64 (EncodedSlices p) in
  if size <=? n then
    let! quorums := full_quorums p ballots in
    if size =? 0 then Panic "integer divide by zero" else
    if negb (Z.rem n size =? 0) && (i64 (MaxQuorums p) >? Z.of_nat (length quorums)) then
      let! accounts := omap_list (account_at ballots) (seqZ (n - size) size) in
      Ok (quorums ++ [mkQuorum accounts])
    else Ok quorums
  else if 0 <? n then
    let! _ := make_check 16 (EncodedSlices p) in
    let! accounts := omap_list (fun i => account_at ballots (Z.rem i n)) (seqZ 0 size) in
    Ok [mkQuorum accounts]
  else Ok [mkQuorum []].

Definition BeginBlock (ctx : Ctx) s : outcome (State K) :=
  let! epochNumber := must (GetEpochNumber s) in
  let params := GetParams s in
  if EpochBlocks params =? 0 then Panic "integer divide by zero" else
  let expectedEpoch := u64 (BlockHeight ctx) / EpochBlocks params in
  if expectedEpoch =? epochNumber then Ok s else
  if (expectedEpoch >? u64 (epochNumber + 1)) || (expectedEpoch <? epochNumber)
  then Panic "block height is not continuous" else
  let registrations := IterateRegistrations s expectedEpoch in
  let! ballots := ofold (collect s) registrations [] in
  let! quorums := form_quorums params (sort_Slice ballots) in
  Ok (SetEpochNumber expectedEpoch (SetEpochQuorums expectedEpoch quorums s)).

(** ** Genesis ([genesis.go], [types/genesis.go]) *)
Record GenesisState : Type := NewGenesisState {
  gsParams : Params;
  gsEpochNumber : Z;
  gsSigners : list Signer;
  gsQuorumsByEpoch : list (list Quorum)
}.

Definition DefaultGenesisState : GenesisState :=
  NewGenesisState (mkParams 10 1024 10 5760 3072) 0 [] [[]].

Definition validate_signer (signer : Signer) (registered : gset string) : outcome (gset string) :=
  let! _ := Signer_Validate signer in Ok ({[sgAccount signer]} ∪ registered).
Definition validate_quorum (registered : gset string) (q : Quorum) (u : unit) : outcome unit :=
  ofold (fun signer (_ : unit) =>
           let! _ := ValidateHexAddress signer in
           if bool_decide (signer ∈ registered) then Ok tt
           else Err (Plain "historical signer detail missing")) (Signers q) u.
Definition GenesisState_Validate (gs : GenesisState) : outcome unit :=
  let! registered := ofold validate_signer (gsSigners gs) ∅ in
  if negb (Z.of_nat (length (gsQuorumsByEpoch gs)) =? i64 (i64 (gsEpochNumber gs) + 1))
  then Err (Plain "epoch history missing") else
  ofold (fun quorums => ofold (validate_quorum registered) quorums) (gsQuorumsByEpoch gs) tt.

Definition InitGenesis (gs : GenesisState) s : outcome (State K) :=
  let! _ := must (GenesisState_Validate gs) in
  let s := SetEpochNumber (gsEpochNumber gs) s in
  let! s := must (ofold SetSigner (gsSigners gs) s) in
  let s := foldl (fun s eq => SetEpochQuorums (Z.of_nat eq.1) eq.2 s) s (imap pair (gsQuorumsByEpoch gs)) in
  Ok (SetParams (gsParams gs) s).

Definition export_epoch s (i : Z) : outcome (list Quorum) :=
  let! quorumCnt := must (GetQuorumCount s i) in
  omap_list (fun quorumId => must (GetEpochQuorum s i quorumId)) (seqZ 0 quorumCnt).
Definition ExportGenesis s : outcome GenesisState :=
  let! epochNumber := must (GetEpochNumber s) in
  let! epochQuorums := omap_list (export_epoch s) (seqZ 0 (i64 epochNumber)) in
  Ok (NewGenesisState (GetParams s) epochNumber (AllSigners s) epochQuorums).

(** ** Queries ([keeper/grpc_query.go]) *)
(** [Signer] answers nil, without error, when an account is not registered. *)
Fixpoint query_signers s (accounts : list string) (response : list Signer)
    : outcome (option (list Signer)) :=
  match accounts with
  | [] => Ok (Some response)
  | a :: accounts =>
      let! found := GetSigner s a in
      match found with
      | None => Ok None
      | Some signer => query_signers s accounts (response ++ [signer])
      end
  end.
Definition query_Signer s (accounts : list string) : outcome (option (list Signer)) :=
  query_signers s accounts [].

Definition EpochQuorumRow s (epoch quorumId rowIndex : Z) : outcome string :=
  let! quorum := GetEpochQuorum s epoch quorumId in
  if Z.of_nat (length (Signers quorum)) <=? rowIndex then Err ErrRowIndexOutOfBound else
  match Signers quorum !! Z.to_nat rowIndex with
  | Some signer => Ok signer
  | None => Panic "index out of range"
  end.

(** [request.QuorumBitmap[i/8] & (1 << (i % 8))] *)
Definition bitmap_at (bitmap : bytes) (i : Z) : outcome Z :=
  match bitmap !! Z.to_nat (i / 8) with
  | Some b => Ok (Z.land b (Z.shiftl 1 (i mod 8)))
  | None => Panic "index out of range"
  end.

Record Aggregate : Type := mkAggregate { agKey : G1Affine; agHit : Z; agAdded : gset string }.

Definition aggregate_row s (bitmap : bytes) (row : Z * string) (st : Aggregate) : outcome Aggregate :=
  let '(i, signer) := row in
  if bool_decide (signer ∈ agAdded st) then Ok (mkAggregate (agKey st) (agHit st + 1) (agAdded st)) else
  let! b := bitmap_at bitmap i in
  if b =? 0 then Ok st else
  let! found := GetSigner s signer in
  match found with
  | None => Err ErrSignerNotFound
  | Some details =>
      let! key := DeserializeG1 (sgPubkeyG1 details) in
      Ok (mkAggregate (G1_Add (agKey st) key) (agHit st + 1) ({[signer]} ∪ agAdded st))
  end.

(** The response: the serialized aggregate key, the number of rows and the
    number of rows whose signer took part. *)
Definition AggregatePubkeyG1 s (epoch quorumId : Z) (bitmap : bytes) : outcome (bytes * Z * Z) :=
  let! quorum := GetEpochQuorum s epoch quorumId in
  let n := Z.of_nat (length (Signers quorum)) in
  if negb ((n + 7) / 8 =? Z.of_nat (length bitmap)) then Err ErrQuorumBitmapLengthMismatch else
  let! st := ofold (aggregate_row s bitmap) (zip (seqZ 0 n) (Signers quorum))
               (mkAggregate (mkG1 0 0) 0 ∅) in
  Ok (SerializeG1 (agKey st), n, agHit st).
End Dasigners.
