(* ===== verification/DasignersTheorems.v ===== *)
(** * x/dasigners/v1: quorums, epochs and genesis

    The loop of the begin blocker equals a reference definition by chunks; the
    quorums it stores hold registered accounts only; epochs advance one at a
    time; the export of the module fails its own validation. *)

From S2P Require Import Prelude Sdk GoStd Bn254 Dasigners.

(** Parameters the begin blocker can work with: a quorum is a list of [EncodedSlices] strings,
    of 16 bytes each. *)
Record good_params (p : Params) : Prop := {
  gp_tokens : 0 < TokensPerVote p;
  gp_votes : 0 <= MaxVotesPerSigner p < 2 ^ 63;
  gp_quorums : 0 <= MaxQuorums p < 2 ^ 63;
  gp_blocks : 0 < EpochBlocks p;
  gp_slices : 0 < EncodedSlices p /\ 16 * EncodedSlices p <= maxAlloc
}.

(** ** Quorums by chunks *)
Definition chunk (size : nat) (ballots : list Ballot) (k : nat) : Quorum :=
  mkQuorum (map account (take size (drop (k * size) ballots))).

(** What the begin blocker is meant to compute: full quorums of consecutive
    ballots, up to one more than [MaxQuorums]; if ballots are left over and there
    are fewer than [MaxQuorums] quorums, one more quorum of the last ballots; too
    few ballots for one quorum are repeated in turn. *)
Definition reference_quorums (p : Params) (ballots : list Ballot) : list Quorum :=
  let n := length ballots in
  let size := Z.to_nat (EncodedSlices p) in
  let full := Nat.min (n / size) (Z.to_nat (MaxQuorums p) + 1) in
  if decide (n = 0%nat) then [mkQuorum []]
  else if decide (n < size)%nat then
    [mkQuorum (map (fun i => from_option account "" (ballots !! (i mod n)%nat)) (seq 0 size))]
  else map (chunk size ballots) (seq 0 full)
       ++ (if decide ((n mod size)%nat <> 0%nat /\ (full < Z.to_nat (MaxQuorums p))%nat)
           then [mkQuorum (map account (drop (n - size) ballots))] else []).

Section Quorums.
  Context (p : Params) (ballots : list Ballot) (Hp : good_params p).
Let size := Z.to_nat (EncodedSlices p).

Lemma size_i64 : i64 (EncodedSlices p) = Z.of_nat size /\ (0 < size)%nat.
Proof.
  destruct Hp as [_ _ _ _ [Hs Hm]]. unfold maxAlloc in Hm. subst size. rewrite i64_id by (unfold is_i64; lia). lia.
Qed.

Lemma quorums_i64 : i64 (MaxQuorums p) = MaxQuorums p /\ 0 <= MaxQuorums p.
Proof. destruct Hp as [_ _ Hq _ _]. rewrite i64_id by (unfold is_i64; lia). lia. Qed.

Lemma account_at_nat k b : ballots !! k = Some b -> account_at ballots (Z.of_nat k) = Ok (account b).
Proof.
  intros Hb. unfold account_at. rewrite (proj2 (Z.ltb_ge _ _)) by lia. by rewrite Nat2Z.id, Hb.
Qed.

(** Reading consecutive ballots. *)
Lemma read_rows k m : (k + m <= length ballots)%nat ->
  omap_list (account_at ballots) (seqZ (Z.of_nat k) (Z.of_nat m))
  = Ok (map account (take m (drop k ballots))).
Proof.
  revert k. induction m as [|m IH]; intros k Hm; [by rewrite seqZ_nil by lia|].
  destruct (lookup_lt_is_Some_2 ballots k) as [b Hb]; [lia|].
  rewrite seqZ_cons by lia. cbn [omap_list]. rewrite (account_at_nat _ _ Hb). cbn [obind].
  replace (Z.succ (Z.of_nat k)) with (Z.of_nat (S k)) by lia.
  replace (Z.pred (Z.of_nat (S m))) with (Z.of_nat m) by lia. rewrite IH by lia. cbn [obind].
  by rewrite (drop_S _ _ _ Hb).
Qed.

Lemma omap_list_shift (f : Z -> outcome string) a m :
  omap_list (fun j => f (a + j)) (seqZ 0 m) = omap_list f (seqZ a m).
Proof.
  replace (seqZ a m) with (Z.add a <$> seqZ 0 m) by (rewrite fmap_add_seqZ; f_equal; lia).
  induction (seqZ 0 m) as [|x l IH]; simpl; [done|].
  destruct (f (a + x)) as [y| |]; simpl; [|done|done]. by rewrite IH.
Qed.

Lemma make_check_ok : make_check 16 (EncodedSlices p) = Ok tt.
Proof. destruct Hp as [_ _ _ _ [Hs Hm]]. apply make_check_fits; lia. Qed.

(** The loop after [k] iterations. *)
Definition loop_state (k : nat) : Z * list Quorum :=
  (Z.of_nat (k * size), map (chunk size ballots) (seq 0 k)).
Definition full_count : nat := Nat.min (length ballots / size) (Z.to_nat (MaxQuorums p) + 1).

Lemma quorum_step_state k : (k <= full_count)%nat ->
  quorum_step p ballots (loop_state k)
  = if decide (k < full_count)%nat then inl (loop_state (S k))
    else inr (Ok (map (chunk size ballots) (seq 0 k))).
Proof.
  intros Hk. destruct size_i64 as [Hs Hpos], quorums_i64 as [Hq Hq0].
  unfold quorum_step, loop_state. rewrite Hs, Hq, length_map, length_seq.
  assert ((k * size + size <= length ballots)%nat <-> (k < length ballots / size)%nat) as Hfit.
  { pose proof (Nat.div_mod_eq (length ballots) size).
    pose proof (Nat.mod_upper_bound (length ballots) size). split; nia. }
  unfold full_count in *. clearbody size. revert Hk Hfit. generalize (length ballots / size)%nat as d.
  intros d Hk Hfit. destruct (decide (k < _)%nat) as [Hlt|Hge].
  - assert (k < d)%nat as Hin%Hfit by (clear -Hlt; lia).
    assert (Z.of_nat k <= MaxQuorums p) as Hroom by (clear -Hlt Hq0; lia).
    rewrite (proj2 (Z.leb_le _ _)), (proj2 (Z.ltb_ge _ _)) by (exact Hroom || (clear -Hin; lia)).
    rewrite make_check_ok. cbn [obind]. rewrite (omap_list_shift (account_at ballots)).
    rewrite read_rows by exact Hin. by rewrite seq_S, map_app, Nat.mul_succ_l, Nat2Z.inj_add.
  - destruct (decide (k < d)%nat) as [Hin|Hout].
    + assert (MaxQuorums p < Z.of_nat k) as Hfull by (clear -Hge Hin Hq0; lia). apply Hfit in Hin.
      by rewrite (proj2 (Z.leb_le _ _)), (proj2 (Z.ltb_lt _ _)) by (exact Hfull || (clear -Hin; lia)).
    + assert (length ballots < k * size + size)%nat as Hend.
      { apply Nat.nle_gt. intros Hle%Hfit. by apply Hout. }
      by rewrite (proj2 (Z.leb_gt _ _)) by (clear -Hend; lia).
Qed.

Lemma iterations_state k m : (k + m = full_count)%nat ->
  iterations (quorum_step p ballots) (S m) (loop_state k)
  = inr (Ok (map (chunk size ballots) (seq 0 full_count))).
Proof.
  revert k. induction m as [|m IH]; intros k Hk; cbn [iterations].
  - rewrite quorum_step_state by lia. rewrite decide_False by lia.
    by replace k with full_count by lia.
  - rewrite quorum_step_state by lia. rewrite decide_True by lia. apply IH. lia.
Qed.

Lemma full_quorums_chunks :
  full_quorums p ballots = Ok (map (chunk size ballots) (seq 0 full_count)).
Proof.
  unfold full_quorums. rewrite loop_iterations. destruct quorums_i64 as [Hq Hq0].
  change (0, []) with (loop_state 0).
  rewrite (iterations_mono _ (S full_count) _ _ (Ok (map (chunk size ballots) (seq 0 full_count)))); [done| |].
  - unfold quorum_iterations, full_count. rewrite Hq, Z.max_r by lia. lia.
  - by apply iterations_state.
Qed.

Lemma form_quorums_reference : form_quorums p ballots = Ok (reference_quorums p ballots).
Proof.
  destruct size_i64 as [Hs Hpos], quorums_i64 as [Hq Hq0].
  unfold form_quorums, reference_quorums. rewrite Hs, Hq. fold size.
  destruct (decide (length ballots = 0)%nat) as [H0|H0].
  { rewrite H0, (proj2 (Z.leb_gt _ _)) by lia. done. }
  destruct (decide (length ballots < size)%nat) as [Hlt|Hge].
  - rewrite (proj2 (Z.leb_gt _ _)), (proj2 (Z.ltb_lt _ _)), make_check_ok by lia. cbn [obind].
    rewrite (omap_list_Ok _ (fun i => from_option account "" (ballots !! (Z.to_nat i mod length ballots)%nat))).
    + cbn [obind]. do 3 f_equal. apply list_eq. intros i. rewrite !list_lookup_fmap.
      destruct (decide (i < size)%nat) as [Hi|Hi].
      * rewrite lookup_seqZ_lt, lookup_seq_lt by lia. cbn -[Z.to_nat Nat.modulo].
        by rewrite Z.add_0_l, Nat2Z.id.
      * rewrite lookup_seqZ_ge, lookup_seq_ge by lia. done.
    + intros i Hi%elem_of_seqZ. rewrite Z.rem_mod_nonneg by lia.
      destruct (lookup_lt_is_Some_2 ballots (Z.to_nat i mod length ballots)) as [b Hb];
        [apply Nat.mod_upper_bound; lia|].
      rewrite Hb. cbn [from_option]. rewrite <- (account_at_nat _ _ Hb). f_equal.
      by rewrite Nat2Z.inj_mod, Z2Nat.id by lia.
  - rewrite (proj2 (Z.leb_le _ _)), full_quorums_chunks by lia. cbn [obind].
    rewrite (proj2 (Z.eqb_neq _ _)), length_map, length_seq, Z.rem_mod_nonneg by lia.
    fold full_count. rewrite <- Nat2Z.inj_mod. case_decide as Hd.
    + rewrite (proj2 (Z.eqb_neq _ _)), (proj2 (Z.gtb_lt _ _)) by lia. simpl.
      replace (Z.of_nat (length ballots) - Z.of_nat size) with (Z.of_nat (length ballots - size)) by lia.
      rewrite read_rows by lia. cbn [obind]. do 4 f_equal. rewrite take_ge; [done|]. rewrite length_drop. lia.
    + rewrite app_nil_r. destruct (Z.eqb_spec (Z.of_nat (length ballots mod size)) 0) as [E|E]; [done|].
      simpl. destruct (Z.gtb_spec (MaxQuorums p) (Z.of_nat full_count)) as [G|G]; [|done].
      exfalso. apply Hd. lia.
Qed.

(** The quorums formed from sorted ballots are those of the reference
    definition: the loops never run out of range and never fail. *)
Theorem form_quorums_chunks : form_quorums p ballots = Ok (reference_quorums p ballots).
Proof. apply form_quorums_reference. Qed.

Lemma full_count_pos : (size <= length ballots)%nat -> (1 <= full_count)%nat.
Proof.
  intros Hle. destruct size_i64 as [_ Hpos]. unfold full_count.
  assert (1 <= length ballots / size)%nat by (apply Nat.div_le_lower_bound; lia).
  apply Nat.min_glb; [done|]. apply Nat.le_add_l.
Qed.

Lemma reference_count :
  1 <= Z.of_nat (length (reference_quorums p ballots)) <= MaxQuorums p + 1.
Proof.
  destruct quorums_i64 as [_ Hq0]. unfold reference_quorums. fold size.
  case_decide; [simpl; lia|]. case_decide as Hlt; [simpl; lia|].
  apply Nat.nlt_ge, full_count_pos in Hlt. fold full_count.
  assert (full_count <= Z.to_nat (MaxQuorums p) + 1)%nat as Hcap by apply Nat.le_min_r.
  clear -Hlt Hq0 Hcap. rewrite length_app, length_map, length_seq. case_decide; simpl; lia.
Qed.

Lemma chunk_lookup k a : a ∈ Signers (chunk size ballots k) -> exists b, b ∈ ballots /\ account b = a.
Proof.
  intros (b & -> & Hb)%list_elem_of_fmap. exists b. split; [|done].
  eapply elem_of_subseteq; [|exact Hb]. intros c Hc%elem_of_take. destruct Hc as (i & Hi & _).
  rewrite lookup_drop in Hi. by apply list_elem_of_lookup_2 in Hi.
Qed.

(** Every quorum has exactly [EncodedSlices] rows, each of them the account of
    a ballot; only without any ballot is there one empty quorum. *)
Lemma reference_members q : q ∈ reference_quorums p ballots ->
  (ballots = [] /\ q = mkQuorum [])
  \/ (length (Signers q) = size /\ forall a, a ∈ Signers q -> exists b, b ∈ ballots /\ account b = a).
Proof.
  destruct size_i64 as [_ Hpos]. unfold reference_quorums. fold size.
  case_decide as H0; [|case_decide as Hlt].
  - intros ->%list_elem_of_singleton. left. split; [by apply nil_length_inv|done].
  - intros ->%list_elem_of_singleton. right. simpl. rewrite length_map, length_seq. split; [done|].
    intros a (i & -> & Hi)%list_elem_of_fmap.
    destruct (lookup_lt_is_Some_2 ballots (i mod length ballots)) as [b Hb];
      [by apply Nat.mod_upper_bound|].
    rewrite Hb. exists b. split; [by apply list_elem_of_lookup_2 in Hb|done].
  - fold full_count. apply Nat.nlt_ge in Hlt. intros Hq. right. apply elem_of_app in Hq as [Hq|Hq].
    + apply list_elem_of_fmap in Hq as (k & -> & Hk%elem_of_seq). split; [|by apply chunk_lookup].
      assert (k < length ballots / size)%nat as Hk'.
      { unfold full_count in Hk. clear -Hk. revert Hk. generalize (length ballots / size)%nat. lia. }
      simpl. rewrite length_map, length_take, length_drop.
      pose proof (Nat.Div0.mul_div_le (length ballots) size). nia.
    + case_decide; [|by apply not_elem_of_nil in Hq]. apply list_elem_of_singleton in Hq as ->. simpl.
      rewrite length_map, length_drop. split; [lia|]. intros a (b & -> & Hb)%list_elem_of_fmap.
      exists b. split; [|done]. apply list_elem_of_lookup in Hb as [i Hi]. rewrite lookup_drop in Hi.
      by apply list_elem_of_lookup_2 in Hi.
Qed.

(** Ballots that fit into [MaxQuorums] quorums are all seated. *)
Lemma reference_seats b : Z.of_nat (length ballots) <= EncodedSlices p * MaxQuorums p -> b ∈ ballots ->
  exists q, q ∈ reference_quorums p ballots /\ account b ∈ Signers q.
Proof.
  intros Hfit Hb. destruct size_i64 as [_ Hpos]. destruct quorums_i64 as [_ Hq0].
  assert (length ballots <= size * Z.to_nat (MaxQuorums p))%nat as Hfit'.
  { destruct Hp as [_ _ _ _ [Hs _]]. subst size. nia. }
  apply list_elem_of_lookup in Hb as [i Hi]. pose proof (lookup_lt_Some _ _ _ Hi) as Hlt.
  unfold reference_quorums. fold size. rewrite decide_False by lia.
  destruct (decide (length ballots < size)%nat) as [Hsm|Hge].
  - eexists. split; [left|]. simpl. apply list_elem_of_fmap. exists i. split; [|apply elem_of_seq; lia].
    by rewrite Nat.mod_small, Hi by lia.
  - pose proof (Nat.div_mod_eq (length ballots) size) as Hdm. pose proof (Nat.mod_upper_bound (length ballots) size ltac:(lia)) as Hmb.
    set (d := (length ballots / size)%nat) in *. set (r := (length ballots mod size)%nat) in *.
    assert (d <= Z.to_nat (MaxQuorums p))%nat as Hd by nia. rewrite Nat.min_l by lia.
    destruct (decide (i < size * d)%nat) as [Hin|Hout].
    + exists (chunk size ballots (i / size)). split.
      * apply elem_of_app. left. apply list_elem_of_fmap_2, elem_of_seq. split; [lia|]. apply Nat.Div0.div_lt_upper_bound. lia.
      * unfold chunk. simpl. apply list_elem_of_fmap_2. apply list_elem_of_lookup. exists (i mod size)%nat.
        rewrite lookup_take_lt, lookup_drop by (apply Nat.mod_upper_bound; lia).
        rewrite <- Hi. f_equal. pose proof (Nat.div_mod_eq i size). lia.
    + exists (mkQuorum (map account (drop (length ballots - size) ballots))). split.
      * apply elem_of_app. right. rewrite decide_True; [left|]. split; [lia|]. apply Nat.nle_gt. intros Hle. nia.
      * simpl. apply list_elem_of_fmap_2, list_elem_of_lookup. exists (i - (length ballots - size))%nat.
        rewrite lookup_drop, <- Hi. f_equal. lia.
Qed.
End Quorums.

Section Store.
  Context {gk : Gnark} {env : DaEnv} {K V : Type} {sk : StakingKeeper K V}.
  Implicit Types s : State K.

(** ** The quorum store *)
Lemma quorum_key_inj e i e' i' : is_u64 e -> is_u64 i -> is_u64 e' -> is_u64 i' ->
  GetEpochQuorumKey e i = GetEpochQuorumKey e' i' -> e = e' /\ i = i'.
Proof.
  intros He Hi He' Hi' E. unfold GetEpochQuorumKey in E. apply app_inj_1 in E as [E1 E2]; [|done].
  split; by apply Uint64ToBigEndian_inj.
Qed.

Definition stored_quorums (e : Z) (qs : list Quorum) (m : gmap bytes Quorum) : gmap bytes Quorum :=
  foldl (fun m iq => set_quorum e iq m) m (imap pair qs).

Lemma stored_quorums_snoc e qs q m :
  stored_quorums e (qs ++ [q]) m
  = <[GetEpochQuorumKey e (Z.of_nat (length qs)) := q]> (stored_quorums e qs m).
Proof.
  unfold stored_quorums. rewrite imap_app, foldl_app. simpl. unfold set_quorum at 1. simpl.
  by rewrite Nat.add_0_r.
Qed.

Lemma stored_quorums_lookup e qs m k :
  is_u64 e -> Z.of_nat (length qs) < 2 ^ 64 -> (k < length qs)%nat ->
  stored_quorums e qs m !! GetEpochQuorumKey e (Z.of_nat k) = qs !! k.
Proof.
  intros He. induction qs as [|q qs IH] using rev_ind; intros Hlen Hk; [simpl in Hk; lia|].
  rewrite length_app in *. simpl in *. rewrite stored_quorums_snoc.
  destruct (decide (k = length qs)) as [->|Hne].
  - by rewrite lookup_insert_eq, list_lookup_middle.
  - rewrite lookup_insert_ne; [rewrite lookup_app_l, IH by lia; done|].
    intros E. apply quorum_key_inj in E as [_ E]; unfold is_u64 in *; lia.
Qed.

Lemma stored_quorums_other e qs m e' k :
  is_u64 e -> is_u64 e' -> is_u64 k -> e' <> e -> Z.of_nat (length qs) < 2 ^ 64 ->
  stored_quorums e qs m !! GetEpochQuorumKey e' k = m !! GetEpochQuorumKey e' k.
Proof.
  intros He He' Hk Hne. induction qs as [|q qs IH] using rev_ind; intros Hlen; [done|].
  rewrite length_app in *. simpl in *. rewrite stored_quorums_snoc, lookup_insert_ne; [apply IH; lia|].
  intros E. apply quorum_key_inj in E as [E _]; unfold is_u64 in *; lia.
Qed.

(** ** Ballots come from registrations *)
(** A registration that is entitled to ballots. *)
Definition entitled s (e : Z) (a : string) : Prop :=
  exists key sig addr bonded n,
    registrations s !! (GetEpochRegistrationKeyPrefix e ++ key) = Some sig
    /\ a = hex_EncodeToString key /\ AccAddressFromHexUnsafe a = Ok addr
    /\ GetDelegatorBonded s addr = Ok bonded /\ ballot_num (GetParams s) bonded = Ok n /\ 0 < n.

Lemma elem_of_registrations s e b : b ∈ IterateRegistrations s e <->
  exists key sig, registrations s !! (GetEpochRegistrationKeyPrefix e ++ key) = Some sig
    /\ b = mkBallot (hex_EncodeToString key) sig.
Proof.
  unfold IterateRegistrations. rewrite list_elem_of_fmap. split.
  - intros ([k sig] & -> & Hk). apply list_elem_of_filter in Hk as [Hpre Hk].
    apply elem_of_iterator in Hk as [Hk _].
    cbn [fst snd] in *. exists (drop 8 k), sig. split; [|done].
    rewrite <- Hpre. change (length _) with 8%nat. by rewrite take_drop.
  - intros (key & sig & Hk & ->). exists (GetEpochRegistrationKeyPrefix e ++ key, sig). split; [done|].
    apply list_elem_of_filter. split; [done|]. by apply elem_of_iterator.
Qed.

Lemma cast_accounts a c n b : b ∈ cast a c n -> account b = a.
Proof.
  revert c. induction n as [|n IH]; intros c; simpl; [by intros ?%not_elem_of_nil|].
  intros [->|Hb]%elem_of_cons; [done|by eapply IH].
Qed.

Lemma ballots_entitled s e ballots :
  ofold (collect s) (IterateRegistrations s e) [] = Ok ballots ->
  forall b, b ∈ ballots -> entitled s e (account b).
Proof.
  intros Hx. eapply (ofold_inv (fun l => forall b, b ∈ l -> entitled s e (account b))); [| |exact Hx].
  2: by intros b ?%not_elem_of_nil.
  clear Hx ballots. intros reg l l' Hreg Hl Hx b Hb.
  apply elem_of_registrations in Hreg as (key & sig & Hk & ->). unfold collect in Hx. simpl in Hx.
  destruct (AccAddressFromHexUnsafe _) as [addr| |] eqn:Ha; [|injection Hx as <-; auto|discriminate].
  apply obind_Ok in Hx as (bonded & Hbo & Hx). apply obind_Ok in Hx as (n & Hn & [= <-]).
  apply elem_of_app in Hb as [Hb|Hb]; [auto|].
  assert (0 < n) as Hpos by (destruct (Z.to_nat n) eqn:E; [by apply not_elem_of_nil in Hb|lia]).
  rewrite (cast_accounts _ _ _ _ Hb). by exists key, sig, addr, bonded, n.
Qed.

(** ** The begin blocker *)
Definition expected_epoch (ctx : Ctx) s : Z := u64 (BlockHeight ctx) / EpochBlocks (GetParams s).

Lemma expected_epoch_range ctx s : good_params (GetParams s) -> is_u64 (expected_epoch ctx s).
Proof.
  intros Hp. pose proof (gp_blocks _ Hp). pose proof (u64_range (BlockHeight ctx)) as Hu.
  unfold is_u64, expected_epoch in *. split; [apply Z.div_pos; lia|].
  apply (Z.le_lt_trans _ (u64 (BlockHeight ctx))); [|lia]. apply Z.div_le_upper_bound; nia.
Qed.

(** The state after the first block of epoch [e]. *)
Definition enter_epoch (e : Z) (ballots : list Ballot) s : State K :=
  SetEpochNumber e (SetEpochQuorums e (reference_quorums (GetParams s) (sort_Slice ballots)) s).

Lemma BeginBlock_eq ctx s e : good_params (GetParams s) -> epochNumber s = Some e ->
  BeginBlock ctx s
  = let e' := expected_epoch ctx s in
    if e' =? e then Ok s else
    if (e' >? u64 (e + 1)) || (e' <? e) then Panic "block height is not continuous" else
    let! ballots := ofold (collect s) (IterateRegistrations s e') [] in Ok (enter_epoch e' ballots s).
Proof.
  intros Hp He. unfold BeginBlock, GetEpochNumber. rewrite He. cbn [must obind].
  rewrite (proj2 (Z.eqb_neq _ _)) by (pose proof (gp_blocks _ Hp); lia). fold (expected_epoch ctx s).
  cbn zeta. destruct (_ =? e); [done|]. destruct (_ || _); [done|].
  destruct (ofold _ _ _) as [ballots| |]; [|done|done]. cbn [obind].
  rewrite form_quorums_reference by done. done.
Qed.

Lemma GetEpochQuorum_enter e ballots s k q : good_params (GetParams s) -> is_u64 e ->
  reference_quorums (GetParams s) (sort_Slice ballots) !! k = Some q ->
  GetEpochQuorum (enter_epoch e ballots s) e (Z.of_nat k) = Ok q.
Proof.
  intros Hp He Hk. pose proof (reference_count _ (sort_Slice ballots) Hp) as Hc.
  pose proof (gp_quorums _ Hp) as Hq. pose proof (lookup_lt_Some _ _ _ Hk) as Hlt.
  unfold GetEpochQuorum, GetQuorumCount. simpl. rewrite lookup_insert_eq. cbn [obind].
  rewrite (proj2 (Z.leb_gt _ _)) by lia. fold (stored_quorums e (reference_quorums (GetParams s) (sort_Slice ballots)) (epochQuorums s)).
  by rewrite stored_quorums_lookup, Hk by (done || lia).
Qed.

Lemma GetEpochQuorum_other e ballots s e' id : good_params (GetParams s) ->
  is_u64 e -> is_u64 e' -> is_u64 id -> e' <> e ->
  GetEpochQuorum (enter_epoch e ballots s) e' id = GetEpochQuorum s e' id.
Proof.
  intros Hp He He' Hid Hne. pose proof (reference_count _ (sort_Slice ballots) Hp) as Hc.
  pose proof (gp_quorums _ Hp) as Hq. unfold GetEpochQuorum, GetQuorumCount. simpl.
  rewrite lookup_insert_ne by (intros E%Uint64ToBigEndian_inj; congruence).
  fold (stored_quorums e (reference_quorums (GetParams s) (sort_Slice ballots)) (epochQuorums s)).
  by rewrite stored_quorums_other by (done || lia).
Qed.

(** The votes of the registrations of an epoch: for an account that parses, its stake in
    votes, at most [MaxVotesPerSigner]. *)
Definition votes_of s (reg : Ballot) : nat :=
  match AccAddressFromHexUnsafe (account reg) with
  | Ok addr => match GetDelegatorBonded s addr with
               | Ok bonded => match ballot_num (GetParams s) bonded with Ok n => Z.to_nat n | _ => 0%nat end
               | _ => 0%nat
               end
  | _ => 0%nat
  end.
Definition total_votes s (e : Z) : Z := Z.of_nat (sum_list_with (votes_of s) (IterateRegistrations s e)).

Lemma cast_length a c n : length (cast a c n) = n.
Proof. revert c. induction n; intros c; simpl; auto. Qed.
Lemma cast_first a c n : (0 < n)%nat -> mkBallot a c ∈ cast a c n.
Proof. destruct n; [lia|]. intros _. left. Qed.

(** All votes are cast: as many ballots as votes, and one at least for every entitled
    account. *)
Lemma collect_all s regs : forall acc ballots, ofold (collect s) regs acc = Ok ballots ->
  length ballots = (length acc + sum_list_with (votes_of s) regs)%nat
  /\ (forall b, b ∈ acc -> b ∈ ballots)
  /\ forall reg, reg ∈ regs -> (0 < votes_of s reg)%nat -> mkBallot (account reg) (content reg) ∈ ballots.
Proof.
  induction regs as [|reg regs IH]; intros acc ballots Hx; cbn [ofold] in Hx.
  - injection Hx as <-. split_and!; [simpl; lia|done|]. by intros reg ?%elem_of_nil.
  - apply obind_Ok in Hx as (acc' & Hc & Hx). destruct (IH _ _ Hx) as (Hl & Hin & Hall).
    assert (acc' = acc ++ cast (account reg) (content reg) (votes_of s reg)) as ->.
    { unfold collect in Hc. unfold votes_of. destruct (AccAddressFromHexUnsafe _) as [addr| |]; [|by rewrite app_nil_r; injection Hc|done].
      apply obind_Ok in Hc as (bonded & -> & Hc). apply obind_Ok in Hc as (n & -> & [= <-]). done. }
    rewrite length_app, cast_length in Hl. simpl. split_and!; [lia|intros b Hb; apply Hin, elem_of_app; by left|].
    intros r [->|Hr]%elem_of_cons Hv; [|by apply Hall]. apply Hin, elem_of_app. right. by apply cast_first.
Qed.

Lemma entitled_ballot s e ballots a : ofold (collect s) (IterateRegistrations s e) [] = Ok ballots ->
  entitled s e a -> exists b, b ∈ ballots /\ account b = a.
Proof.
  intros Hx (key & sig & addr & bonded & n & Hk & -> & Ha & Hb & Hn & Hp).
  destruct (collect_all _ _ _ _ Hx) as (_ & _ & Hall).
  exists (mkBallot (hex_EncodeToString key) sig). split; [|done]. apply (Hall (mkBallot (hex_EncodeToString key) sig)).
  - apply elem_of_registrations. by exists key, sig.
  - unfold votes_of. simpl. rewrite Ha, Hb, Hn. lia.
Qed.

Context {laws : DaLaws}.

(** C16: the first block of a new epoch advances the epoch by exactly one and
    stores between one and [MaxQuorums + 1] quorums for it.  Every quorum has
    exactly [EncodedSlices] rows, all of them accounts that registered for this
    epoch with stake for at least one vote; only when there is no such account
    is there a single empty quorum.  Nobody is left out while there is room: when
    the votes of the epoch fit into [MaxQuorums] quorums, every such account has a
    row.  The quorums of other epochs stay. *)
Theorem begin_block_quorums ctx s s' e :
  good_params (GetParams s) -> 0 <= e < 2 ^ 64 - 1 -> epochNumber s = Some e ->
  expected_epoch ctx s <> e -> BeginBlock ctx s = Ok s' ->
  exists qs, epochNumber s' = Some (e + 1)
  /\ GetQuorumCount s' (e + 1) = Ok (Z.of_nat (length qs))
  /\ 1 <= Z.of_nat (length qs) <= MaxQuorums (GetParams s) + 1
  /\ (forall k q, qs !! k = Some q -> GetEpochQuorum s' (e + 1) (Z.of_nat k) = Ok q)
  /\ ((qs = [mkQuorum []] /\ forall a, ~ entitled s (e + 1) a)
      \/ Forall (fun q => Z.of_nat (length (Signers q)) = EncodedSlices (GetParams s)
                 /\ Forall (entitled s (e + 1)) (Signers q)) qs)
  /\ (total_votes s (e + 1) <= EncodedSlices (GetParams s) * MaxQuorums (GetParams s) ->
      forall a, entitled s (e + 1) a -> exists q, q ∈ qs /\ a ∈ Signers q)
  /\ (forall e' id, is_u64 e' -> is_u64 id -> e' <> e + 1 ->
        GetEpochQuorum s' e' id = GetEpochQuorum s e' id).
Proof.
  intros Hp He Hs Hne Hx. pose proof (expected_epoch_range ctx s Hp) as Hr.
  rewrite (BeginBlock_eq _ _ _ Hp Hs) in Hx. cbn zeta in Hx.
  rewrite (proj2 (Z.eqb_neq _ _) Hne), u64_id in Hx by (unfold is_u64; lia).
  destruct (_ || _) eqn:Hc in Hx; [discriminate|]. gobool.
  assert (expected_epoch ctx s = e + 1) as E by lia. rewrite E in *. clear Hc Hne E.
  apply obind_Ok in Hx as (ballots & Hb & [= <-]).
  exists (reference_quorums (GetParams s) (sort_Slice ballots)). split_and!.
  - done.
  - unfold GetQuorumCount. simpl. by rewrite lookup_insert_eq.
  - by apply reference_count.
  - by apply reference_count.
  - intros k q Hk. by apply GetEpochQuorum_enter.
  - destruct (sort_Slice ballots) as [|b0 bs] eqn:Es.
    { left. split; [done|]. intros a (b & Hin & _)%(entitled_ballot _ _ _ _ Hb). rewrite <- sort_Permutation, Es in Hin.
      by apply elem_of_nil in Hin. }
    right. rewrite <- Es. apply List.Forall_forall.
    intros q Hq%list_elem_of_In. apply (reference_members _ _ Hp) in Hq as [[E _]|[Hlen Hm]]; [congruence|].
    split; [rewrite Hlen; pose proof (gp_slices _ Hp); lia|]. apply List.Forall_forall.
    intros a Ha%list_elem_of_In. destruct (Hm a Ha) as (b & Hin & <-).
    rewrite sort_Permutation in Hin. by eapply ballots_entitled.
  - intros Hfit a (b & Hin & <-)%(entitled_ballot _ _ _ _ Hb). destruct (collect_all _ _ _ _ Hb) as (Hl & _).
    apply (reference_seats _ _ Hp); [|by rewrite sort_Permutation]. rewrite sort_Permutation, Hl. exact Hfit.
  - intros. by apply GetEpochQuorum_other.
Qed.

(** C32: with workable parameters and a staking module that answers, the begin
    blocker cannot stop the chain: at every height of the current or the next
    epoch it succeeds, sets the epoch of the height, and leaves the state alone
    for the rest of the epoch. *)
Theorem begin_block_total ctx s e :
  good_params (GetParams s) -> 0 <= e < 2 ^ 64 - 1 -> epochNumber s = Some e ->
  e <= expected_epoch ctx s <= e + 1 ->
  (forall a, exists bonded, GetDelegatorBonded s a = Ok bonded) ->
  (forall str, isPanic (AccAddressFromHexUnsafe str) = false) ->
  exists s', BeginBlock ctx s = Ok s' /\ epochNumber s' = Some (expected_epoch ctx s)
    /\ forall ctx', expected_epoch ctx' s = expected_epoch ctx s -> BeginBlock ctx' s' = Ok s'.
Proof.
  intros Hp He Hs Hr Hst Hhex.
  destruct (ofold_total (fun _ => True) (collect s) (IterateRegistrations s (expected_epoch ctx s)) [])
    as (ballots & Hb & _); [|done|].
  { intros reg l _ _. unfold collect. specialize (Hhex (account reg)).
    destruct (AccAddressFromHexUnsafe _) as [a| |]; [|by eexists|discriminate].
    destruct (Hst a) as [bonded ->]. cbn [obind]. unfold ballot_num, vote_num, Int_Quo.
    rewrite (proj2 (Z.eqb_neq (TokensPerVote _) 0)) by (pose proof (gp_tokens _ Hp); lia).
    simpl. by eexists. }
  assert (exists s', BeginBlock ctx s = Ok s' /\ epochNumber s' = Some (expected_epoch ctx s)
            /\ GetParams s' = GetParams s) as (s' & Hx & Hs' & Hps).
  { rewrite (BeginBlock_eq _ _ _ Hp Hs). cbn zeta. destruct (Z.eqb_spec (expected_epoch ctx s) e) as [E|E].
    - exists s. by rewrite E.
    - rewrite u64_id by (unfold is_u64; lia). rewrite Z.gtb_ltb, !(proj2 (Z.ltb_ge _ _)) by lia.
      rewrite Hb. by eexists. }
  exists s'. split; [done|split; [done|]]. intros ctx' E.
  rewrite (BeginBlock_eq _ _ _ ltac:(by rewrite Hps) Hs'). cbn zeta. unfold expected_epoch in *.
  by rewrite Hps, E, Z.eqb_refl.
Qed.

(** ** Genesis *)
Lemma InitGenesis_invalid gs s0 : isOk (GenesisState_Validate gs) = false -> isPanic (InitGenesis gs s0) = true.
Proof. unfold InitGenesis. by destruct (GenesisState_Validate gs). Qed.

(** What the module exports it cannot import: the export holds the quorums of
    the epochs before the current one only, and the validation asks for those of
    the current one too, so it rejects the export and the import panics. *)
Theorem export_not_importable s s0 gs e :
  epochNumber s = Some e -> 0 <= e < 2 ^ 63 - 1 -> ExportGenesis s = Ok gs ->
  isOk (GenesisState_Validate gs) = false /\ isPanic (InitGenesis gs s0) = true.
Proof.
  intros Hs He Hx. assert (isOk (GenesisState_Validate gs) = false) as Hv.
  { unfold ExportGenesis, GetEpochNumber in Hx. rewrite Hs in Hx. cbn [must obind] in Hx.
    apply obind_Ok in Hx as (qs & Hq & [= <-]). apply omap_list_lookup in Hq as [Hlen _].
    unfold GenesisState_Validate. cbn [gsSigners gsQuorumsByEpoch gsEpochNumber].
    destruct (ofold validate_signer _ _); [|done|done]. cbn [obind].
    rewrite Hlen, length_seqZ, !i64_id by (unfold is_i64; rewrite ?i64_id by (unfold is_i64; lia); lia).
    by rewrite (proj2 (Z.eqb_neq _ _)) by lia. }
  split; [done|by apply InitGenesis_invalid].
Qed.

(** The import of a valid genesis succeeds. *)
Lemma set_signers_Ok l : forall r r' s, ofold validate_signer l r = Ok r' ->
  exists s', ofold SetSigner l s = Ok s' /\ epochNumber s' = epochNumber s.
Proof.
  induction l as [|sg l IH]; intros r r' s Hv; simpl in *; [by exists s|].
  apply obind_Ok in Hv as (r1 & H1 & Hv). unfold validate_signer, Signer_Validate, ValidateHexAddress in H1.
  apply obind_Ok in H1 as ([] & H1 & _). go_inv H1. unfold SetSigner at 1, GetSignerKeyFromAccount.
  match goal with Hc : hex_DecodeString _ = Ok _ |- _ => rewrite Hc end. cbn [obind].
  match goal with |- exists s', ofold _ _ ?s1 = _ /\ _ => destruct (IH _ _ s1 Hv) as (s2 & Hs2 & He2) end.
  exists s2. by rewrite He2.
Qed.

Lemma set_epochs l : forall s, let f s (eq : nat * list Quorum) := SetEpochQuorums (Z.of_nat eq.1) eq.2 s in
  epochNumber (foldl f s l) = epochNumber s.
Proof. induction l as [|eq l IH]; intros s f; simpl; [done|]. by rewrite IH. Qed.

Lemma InitGenesis_valid gs s : GenesisState_Validate gs = Ok tt ->
  exists s', InitGenesis gs s = Ok s' /\ params s' = Some (gsParams gs)
    /\ epochNumber s' = Some (gsEpochNumber gs).
Proof.
  intros Hv. unfold InitGenesis. rewrite Hv. cbn [must obind].
  unfold GenesisState_Validate in Hv. apply obind_Ok in Hv as (r & Hr & _).
  destruct (set_signers_Ok _ _ _ (SetEpochNumber (gsEpochNumber gs) s) Hr) as (s1 & -> & He).
  cbn [must obind]. eexists. split; [reflexivity|]. split; [done|]. simpl. by rewrite set_epochs.
Qed.

(** The genesis validation does not look at the parameters, and some values
    stop the chain: with any parameters a valid genesis stays importable; if
    [EpochBlocks] is zero no block can begin after it, and if [EncodedSlices] is
    zero no block of another epoch can. *)
Theorem unchecked_params_halt gs p s :
  GenesisState_Validate gs = Ok tt ->
  exists s', InitGenesis (NewGenesisState p (gsEpochNumber gs) (gsSigners gs) (gsQuorumsByEpoch gs)) s = Ok s'
  /\ (EpochBlocks p = 0 -> forall ctx, isPanic (BeginBlock ctx s') = true)
  /\ (EncodedSlices p = 0 -> forall ctx, expected_epoch ctx s' <> gsEpochNumber gs ->
        isOk (BeginBlock ctx s') = false).
Proof.
  intros Hv. destruct (InitGenesis_valid (NewGenesisState p (gsEpochNumber gs) (gsSigners gs) (gsQuorumsByEpoch gs)) s)
    as (s' & Hx & Hp & He); [exact Hv|]. simpl in Hp, He. exists s'. split; [done|].
  unfold BeginBlock, GetEpochNumber, expected_epoch. rewrite He. unfold GetParams. rewrite Hp. simpl. split.
  - intros H0 ctx. by rewrite H0.
  - intros H0 ctx Hne. destruct (EpochBlocks p =? 0); [done|]. rewrite (proj2 (Z.eqb_neq _ _) Hne).
    destruct (_ || _); [done|]. destruct (ofold _ _ _) as [l| |]; [|done|done]. simpl.
    unfold form_quorums. rewrite H0. change (i64 0) with 0. rewrite (proj2 (Z.leb_le _ _)) by lia.
    by destruct (full_quorums p (sort_Slice l)).
Qed.
End Store.
