(* ===== verification/DasignersSigning.v ===== *)
(** * x/dasigners/v1: registration with BLS keys and aggregate keys

    Against the laws of a bilinear pairing, an operator who signs with the key
    it registers is always accepted; the aggregate key of a quorum is the sum of
    the keys of the marked signers, each counted once. *)

From S2P Require Import Prelude Sdk GoStd Bn254 Dasigners.

(** The pairing, by its logarithm in the target group of order [FR_MODULUS]:
    bilinear on the points of the two groups, which the operations preserve and
    whose coordinates are reduced.  Every curve point is in the first group (its
    cofactor is one). *)
Class PairingLaws `{Gnark} : Type := {
  G1_ok : G1Affine -> Prop;
  G2_ok : G2Affine -> Prop;
  e_log : G1Affine -> G2Affine -> Z;
  on_curve_ok : forall p, on_curve p -> G1_ok p;
  G1_ok_reduced : forall p, G1_ok p -> G1_reduced p;
  G2_ok_reduced : forall p, G2_ok p -> G2_reduced p;
  gen1_ok : G1_ok GetG1Generator;
  gen2_ok : G2_ok GetG2Generator;
  G1_Add_ok : forall p q, G1_ok p -> G1_ok q -> G1_ok (G1_Add p q);
  G1_mul_ok : forall p a, G1_ok p -> G1_ok (G1_ScalarMultiplication p a);
  G2_mul_ok : forall p a, G2_ok p -> G2_ok (G2_ScalarMultiplication p a);
  G2_Neg_ok : forall p, G2_ok p -> G2_ok (G2_Neg p);
  e_add : forall p q r, G1_ok p -> G1_ok q -> G2_ok r ->
    (FR_MODULUS | e_log (G1_Add p q) r - (e_log p r + e_log q r));
  e_mul1 : forall p a r, G1_ok p -> G2_ok r ->
    (FR_MODULUS | e_log (G1_ScalarMultiplication p a) r - a * e_log p r);
  e_mul2 : forall p r a, G1_ok p -> G2_ok r ->
    (FR_MODULUS | e_log p (G2_ScalarMultiplication r a) - a * e_log p r);
  e_neg2 : forall p r, G1_ok p -> G2_ok r -> (FR_MODULUS | e_log p (G2_Neg r) + e_log p r);
  (** The product of two pairings is one. *)
  PairingCheck_two : forall p q r t, G1_ok p -> G1_ok q -> G2_ok r -> G2_ok t ->
    PairingCheck [p; q] [r; t] = Ok ((e_log p r + e_log q t) mod FR_MODULUS =? 0)
}.

Section Signing.
  Context {gk : Gnark} {flaws : FieldLaws} {plaws : PairingLaws} {env : DaEnv} {K V : Type}
    {sk : StakingKeeper K V}.
  Implicit Types s : State K.

(** The record an operator with secret key [x] registers. *)
Definition operator (account socket : string) (x : Z) : Signer :=
  mkSigner account socket (SerializeG1 (MulByGeneratorG1 x)) (SerializeG2 (MulByGeneratorG2 x)).

(** The pairing equation of the signature check, in logarithms: [P] and [Q] are
    the two first arguments, [x * P' - x * Q'] is divisible when they agree. *)
Lemma honest_equation h x gamma : G1_ok h ->
  (FR_MODULUS | e_log (G1_Add (G1_ScalarMultiplication h x)
                         (G1_ScalarMultiplication (MulByGeneratorG1 x) gamma)) (G2_Neg GetG2Generator)
              + e_log (G1_Add h (G1_ScalarMultiplication GetG1Generator gamma)) (MulByGeneratorG2 x)).
Proof.
  intros Hh. unfold MulByGeneratorG1, MulByGeneratorG2.
  set (g1 := GetG1Generator). set (g2 := GetG2Generator).
  assert (G1_ok g1) as H1 by apply gen1_ok. assert (G2_ok g2) as H2 by apply gen2_ok.
  set (xh := G1_ScalarMultiplication h x). set (xg := G1_ScalarMultiplication g1 x).
  assert (G1_ok xh) as Hxh by by apply G1_mul_ok. assert (G1_ok xg) as Hxg by by apply G1_mul_ok.
  set (gxg := G1_ScalarMultiplication xg gamma). set (gg := G1_ScalarMultiplication g1 gamma).
  assert (G1_ok gxg) as Hgxg by by apply G1_mul_ok. assert (G1_ok gg) as Hgg by by apply G1_mul_ok.
  destruct (e_neg2 (G1_Add xh gxg) g2) as [a1 A1]; [by apply G1_Add_ok|done|].
  destruct (e_add xh gxg g2) as [a2 A2]; [done..|].
  destruct (e_mul1 h x g2) as [a3 A3]; [done..|]. fold xh in A3.
  destruct (e_mul1 xg gamma g2) as [a4 A4]; [done..|]. fold gxg in A4.
  destruct (e_mul1 g1 x g2) as [a5 A5]; [done..|]. fold xg in A5.
  destruct (e_mul2 (G1_Add h gg) g2 x) as [a6 A6]; [by apply G1_Add_ok|done|].
  destruct (e_add h gg g2) as [a7 A7]; [done..|].
  destruct (e_mul1 g1 gamma g2) as [a8 A8]; [done..|]. fold gg in A8.
  exists (a1 - a2 - a3 - a4 - gamma * a5 + a6 + x * a7 + x * a8).
  rewrite !Z.mul_add_distr_r, !Z.mul_sub_distr_r, <- !Z.mul_assoc, <- A1, <- A2, <- A3, <- A4, <- A5,
    <- A6, <- A7, <- A8. ring.
Qed.

Lemma honest_signature account socket x h : G1_ok h ->
  ValidateSignature (operator account socket x) h (G1_ScalarMultiplication h x) = Ok true.
Proof.
  intros Hh. pose proof gen1_ok as H1. pose proof gen2_ok as H2.
  unfold ValidateSignature, operator. cbn [sgPubkeyG1 sgPubkeyG2].
  rewrite G1_roundtrip by (by apply G1_ok_reduced, G1_mul_ok). cbn [obind].
  rewrite G2_roundtrip by (by apply G2_ok_reduced, G2_mul_ok). cbn [obind].
  rewrite PairingCheck_two; [|repeat (apply G1_Add_ok || apply G1_mul_ok); done
    |repeat (apply G1_Add_ok || apply G1_mul_ok); done|by apply G2_Neg_ok|by apply G2_mul_ok].
  by rewrite (proj2 (Z.mod_divide _ FR_MODULUS ltac:(done)) (honest_equation _ x _ Hh)).
Qed.

Lemma hash_ok (o : outcome G1Affine) digest : o = MapToCurve digest -> exists h, o = Ok h /\ G1_ok h.
Proof.
  intros ->. destruct (MapToCurve_Ok digest) as (h & -> & Hc). exists h. split; [done|by apply on_curve_ok].
Qed.

(** What [CheckDelegations] reads is not changed by registering a signer. *)
Lemma CheckDelegations_frame s m a :
  CheckDelegations (mkState (params s) (epochNumber s) m (epochQuorums s) (quorumCounts s)
                      (registrations s) (staking s)) a = CheckDelegations s a.
Proof.
  unfold CheckDelegations, GetDelegatorBonded, GetParams. cbn [params staking].
  destruct (AccAddressFromHexUnsafe a) as [addr| |]; [|done|done]. cbn [obind].
  assert (forall l b c, bonded_loop (mkState (params s) (epochNumber s) m (epochQuorums s)
            (quorumCounts s) (registrations s) (staking s)) l b c = bonded_loop s l b c) as E.
  { induction l as [|d l IH]; intros b c; simpl; [done|].
    destruct (must _) as [v| |]; [|done|done]. simpl. destruct (GetValidator _ v) as [val|]; simpl.
    - destruct (TokensFromSharesTruncated _ _); simpl; [|done|done]. destruct (Dec_Add _ _); simpl; [|done|done].
      by destruct (_ >? _).
    - by destruct (_ >? _). }
  by rewrite E.
Qed.

(** C17: an operator with enough stake is accepted when it signs with the key it
    registers: a first registration succeeds and stores its record, and it can
    then register for the next epoch, which stores its signature under that
    epoch. *)
Theorem honest_operator_registers chain chainID s account socket x key e :
  let signer := operator account socket x in
  CheckDelegations s account = Ok tt -> hex_DecodeString account = Ok key -> signers s !! key = None ->
  ParseChainID chain = Ok chainID -> epochNumber s = Some e ->
  exists h1 h2 s1 s2,
    PubkeyRegistrationHash (HexToAddress account) chainID = Ok h1
    /\ EpochRegistrationHash (HexToAddress account) (u64 (e + 1)) chainID = Ok h2
    /\ RegisterSigner chain (mkRegisterSigner signer (SerializeG1 (G1_ScalarMultiplication h1 x))) s = Ok s1
    /\ signers s1 = <[key := signer]> (signers s)
    /\ RegisterNextEpoch chain (mkRegisterNextEpoch account (SerializeG1 (G1_ScalarMultiplication h2 x))) s1
       = Ok s2
    /\ GetRegistration s2 (u64 (e + 1)) account
       = Ok (Some (SerializeG1 (G1_ScalarMultiplication h2 x))).
Proof.
  intros signer Hst Hkey Hnew Hchain He.
  destruct (hash_ok (PubkeyRegistrationHash (HexToAddress account) chainID) _ eq_refl) as (h1 & E1 & H1).
  destruct (hash_ok (EpochRegistrationHash (HexToAddress account) (u64 (e + 1)) chainID) _ eq_refl)
    as (h2 & E2 & H2).
  exists h1, h2. do 2 eexists. split; [done|]. split; [done|]. split.
  { unfold RegisterSigner. cbn [mrSigner mrSignature]. change (sgAccount signer) with account.
    rewrite Hst. cbn [obind]. unfold GetSigner, GetSignerKeyFromAccount. rewrite Hkey. cbn [obind].
    rewrite Hnew, Hchain. cbn [obind]. rewrite E1. cbn [obind].
    rewrite G1_roundtrip by (by apply G1_ok_reduced, G1_mul_ok). cbn [obind].
    unfold signer. rewrite honest_signature by done. simpl. unfold SetSigner, GetSignerKeyFromAccount. simpl.
    rewrite Hkey. reflexivity. }
  split; [done|]. split.
  { unfold RegisterNextEpoch. cbn [mnAccount mnSignature]. rewrite CheckDelegations_frame, Hst. cbn [obind].
    unfold GetSigner, GetSignerKeyFromAccount. rewrite Hkey. cbn [obind signers]. rewrite lookup_insert_eq.
    unfold GetEpochNumber. cbn [epochNumber]. rewrite He. cbn [obind]. rewrite Hchain. cbn [obind].
    rewrite E2. cbn [obind]. rewrite G1_roundtrip by (by apply G1_ok_reduced, G1_mul_ok). cbn [obind].
    unfold signer. rewrite honest_signature by done. simpl. unfold SetRegistration, GetRegistrationKey.
    rewrite Hkey. reflexivity. }
  unfold GetRegistration, GetRegistrationKey. rewrite Hkey. simpl. by rewrite lookup_insert_eq.
Qed.
End Signing.

(** ** Aggregate keys ([AggregatePubkeyG1]) *)
(** Row [i] of the quorum is marked in the bitmap. *)
Definition marked (bitmap : bytes) (i : nat) : bool :=
  match bitmap !! (i / 8)%nat with Some b => Z.testbit b (Z.of_nat (i mod 8)) | None => false end.

(** Row [i] is credited: the same signer is marked in this row or above. *)
Definition credited (bitmap : bytes) (rows : list string) (i : nat) : bool :=
  existsb (fun j => bool_decide (rows !! j = rows !! i) && marked bitmap j) (seq 0 (S i)).

Lemma bitmap_at_marked bitmap i b :
  bitmap_at bitmap (Z.of_nat i) = Ok b -> negb (b =? 0) = marked bitmap i.
Proof.
  unfold bitmap_at, marked. change 8 with (Z.of_nat 8). rewrite <- Nat2Z.inj_div, Nat2Z.id.
  destruct (bitmap !! _) as [c|]; [|discriminate]. intros [= <-]. rewrite <- Nat2Z.inj_mod.
  set (k := Z.of_nat (i mod 8)). assert (0 <= k) by lia.
  destruct (Z.testbit c k) eqn:Hb.
  - apply negb_true_iff, Z.eqb_neq. intros E. apply (f_equal (fun z => Z.testbit z k)) in E.
    rewrite Z.land_spec, Hb, Z.shiftl_spec, Z.sub_diag, Z.bits_0 in E by done. discriminate.
  - apply negb_false_iff, Z.eqb_eq, Z.bits_inj'. intros n Hn. rewrite Z.land_spec, Z.bits_0, Z.shiftl_spec by done.
    destruct (decide (n = k)) as [->|Hne]; [by rewrite Hb|].
    apply andb_false_intro2. destruct (decide (n < k)); [by rewrite Z.testbit_neg_r by lia|].
    rewrite Z.bits_above_log2; simpl; [done|lia|lia].
Qed.

Section Aggregate.
  Context {gk : Gnark} {K : Type}.
  Context (s : State K) (bitmap : bytes).

(** The registered key of a signer. *)
Definition signer_key (a : string) (k : G1Affine) : Prop :=
  exists details, GetSigner s a = Ok (Some details) /\ DeserializeG1 (sgPubkeyG1 details) = Ok k.

(** What the loop has computed after the given rows. *)
Record aggregated (rows : list string) (names : list string) (keys : list G1Affine) (st : Aggregate)
    : Prop := {
  ag_nodup : NoDup names;
  ag_names : forall a, a ∈ names <-> exists i, rows !! i = Some a /\ marked bitmap i = true;
  ag_keys : Forall2 signer_key names keys;
  ag_added : forall a, a ∈ agAdded st <-> a ∈ names;
  ag_sum : agKey st = foldl G1_Add (mkG1 0 0) keys;
  ag_hit : agHit st = Z.of_nat (length (filter (fun i => credited bitmap rows i = true) (seq 0 (length rows))))
}.

Lemma credited_app rows x i : (i < length rows)%nat ->
  credited bitmap (rows ++ [x]) i = credited bitmap rows i.
Proof.
  intros Hi. unfold credited. apply Bool.eq_iff_eq_true. rewrite !existsb_exists.
  split; intros (j & Hj%in_seq & Ej); exists j; rewrite in_seq, !lookup_app_l in * by lia; done.
Qed.

Lemma credited_last (rows : list string) (x : string) : credited bitmap (rows ++ [x]) (length rows) = true
  <-> marked bitmap (length rows) = true \/ exists i, rows !! i = Some x /\ marked bitmap i = true.
Proof.
  unfold credited. rewrite existsb_exists, list_lookup_middle by done. split.
  - intros (j & Hj%in_seq & [Ej%bool_decide_eq_true Hm]%andb_true_iff).
    destruct (decide (j = length rows)) as [->|Hne]; [by left|].
    rewrite lookup_app_l in Ej by lia. right. by exists j.
  - intros [Hm|(j & Ej & Hm)].
    + exists (length rows). rewrite in_seq, list_lookup_middle by done. split; [lia|].
      by rewrite bool_decide_eq_true_2, Hm by done.
    + pose proof (lookup_lt_Some _ _ _ Ej). exists j. rewrite in_seq, lookup_app_l by done. split; [lia|].
      by rewrite bool_decide_eq_true_2, Hm by done.
Qed.

Lemma marked_app (rows : list string) (x a : string) :
  (exists i, (rows ++ [x]) !! i = Some a /\ marked bitmap i = true)
  <-> (exists i, rows !! i = Some a /\ marked bitmap i = true)
      \/ (a = x /\ marked bitmap (length rows) = true).
Proof.
  split.
  - intros (i & Hi & Hm). apply lookup_app_Some in Hi as [Hi|[Hle Hi]]; [left; by exists i|right].
    apply list_lookup_singleton_Some in Hi as [Hi <-]. split; [done|].
    by replace (length rows) with i by lia.
  - intros [(i & Hi & Hm)|[-> Hm]].
    + exists i. split; [by apply lookup_app_l_Some|done].
    + exists (length rows). by rewrite list_lookup_middle.
Qed.

(** The count of credited rows, one row further. *)
Lemma credited_count rows x :
  length (filter (fun i => credited bitmap (rows ++ [x]) i = true) (seq 0 (length (rows ++ [x]))))
  = (length (filter (fun i => credited bitmap rows i = true) (seq 0 (length rows)))
     + if credited bitmap (rows ++ [x]) (length rows) then 1 else 0)%nat.
Proof.
  rewrite length_app, Nat.add_1_r, seq_S, filter_app, length_app. f_equal.
  - f_equal. apply filter_ext_elem. intros i Hi%elem_of_seq. by rewrite credited_app by lia.
  - rewrite filter_cons, filter_nil. simpl. by destruct (credited _ _ _).
Qed.

Lemma aggregated_step rows names keys x st st' :
  aggregated rows names keys st ->
  aggregate_row s bitmap (Z.of_nat (length rows), x) st = Ok st' ->
  exists names' keys', aggregated (rows ++ [x]) names' keys' st'.
Proof.
  intros [Hnd Hn Hk Hadd Hsum Hhit] Hx. unfold aggregate_row in Hx.
  assert (credited bitmap (rows ++ [x]) (length rows) = true <-> marked bitmap (length rows) = true \/ x ∈ names)
    as Hcr by (rewrite credited_last, Hn; done).
  case_bool_decide as Hin.
  { injection Hx as <-. apply Hadd in Hin. exists names, keys. split; [done| |done|done|done|].
    - intros a. rewrite marked_app, Hn. split; [by left|]. intros [?|[-> _]]; [done|by apply Hn].
    - cbn [agHit]. rewrite credited_count, (proj2 Hcr), Hhit by by right. lia. }
  rewrite Hadd in Hin. apply obind_Ok in Hx as (b & Hb & Hx). apply bitmap_at_marked in Hb.
  destruct (b =? 0); cbn [negb] in Hb.
  { injection Hx as <-. exists names, keys. split; [done| |done|done|done|].
    - intros a. rewrite marked_app, <- Hb, Hn. naive_solver.
    - rewrite credited_count. destruct (credited _ _ _); [|by rewrite Hhit, Nat.add_0_r].
      destruct (proj1 Hcr eq_refl); [congruence|done]. }
  apply obind_Ok in Hx as (found & Hf & Hx). destruct found as [d|]; [|discriminate].
  apply obind_Ok in Hx as (k & Hd & [= <-]). exists (names ++ [x]), (keys ++ [k]). split.
  - apply NoDup_app. split_and!; [done| |apply NoDup_singleton].
    intros a Ha ->%list_elem_of_singleton. done.
  - intros a. rewrite marked_app, <- Hb, elem_of_app, list_elem_of_singleton, Hn. naive_solver.
  - apply Forall2_app; [done|]. repeat constructor. by exists d.
  - intros a. cbn [agAdded]. rewrite elem_of_union, elem_of_singleton, Hadd, elem_of_app, list_elem_of_singleton.
    naive_solver.
  - cbn [agKey]. by rewrite foldl_app, Hsum.
  - cbn [agHit]. rewrite credited_count, (proj2 Hcr), Hhit by by left. lia.
Qed.

Lemma aggregated_rows rows st :
  ofold (aggregate_row s bitmap) (zip (seqZ 0 (Z.of_nat (length rows))) rows) (mkAggregate (mkG1 0 0) 0 ∅)
  = Ok st -> exists names keys, aggregated rows names keys st.
Proof.
  revert st. induction rows as [|x rows IH] using rev_ind; intros st Hx.
  - injection Hx as <-. exists [], []. split; [constructor| |constructor|set_solver|done|done].
    intros a. split; [by intros ?%not_elem_of_nil|]. intros (i & Hi & _). done.
  - rewrite length_app, Nat.add_1_r, seqZ_S, zip_with_app in Hx
      by (rewrite length_seqZ; lia).
    rewrite ofold_app in Hx. apply obind_Ok in Hx as (st1 & H1 & H2).
    destruct (IH _ H1) as (names & keys & Ha). cbn [zip_with ofold] in H2.
    apply obind_Ok in H2 as (st2 & H2 & [= <-]). by eapply aggregated_step.
Qed.

(** The aggregate key of a quorum is the sum of the registered keys of the
    signers marked in the bitmap, each added once however many rows it has; the
    reported hit count is the number of rows whose signer is marked in that row
    or in one above, so it is at most the number of rows. *)
Theorem aggregate_key_correct epoch quorumId key total hit :
  AggregatePubkeyG1 s epoch quorumId bitmap = Ok (key, total, hit) ->
  exists quorum names keys, GetEpochQuorum s epoch quorumId = Ok quorum
  /\ NoDup names
  /\ (forall a, a ∈ names <-> exists i, Signers quorum !! i = Some a /\ marked bitmap i = true)
  /\ Forall2 signer_key names keys /\ key = SerializeG1 (foldl G1_Add (mkG1 0 0) keys)
  /\ total = Z.of_nat (length (Signers quorum))
  /\ hit = Z.of_nat (length (filter (fun i => credited bitmap (Signers quorum) i = true)
                               (seq 0 (length (Signers quorum)))))
  /\ hit <= total.
Proof.
  unfold AggregatePubkeyG1. intros Hx. apply obind_Ok in Hx as (q & Hq & Hx). cbn zeta in Hx.
  destruct (negb _); [discriminate|]. apply obind_Ok in Hx as (st & Hst & [= <- <- <-]).
  apply aggregated_rows in Hst as (names & keys & [Hnd Hn Hk _ Hsum Hhit]).
  exists q, names, keys. rewrite <- Hsum, <- Hhit. split_and!; try done. rewrite Hhit.
  apply inj_le. rewrite length_filter, length_seq. done.
Qed.
End Aggregate.
