(* ===== verification/DasignersWitness.v ===== *)
(** * x/dasigners/v1: the theorems at work on a concrete chain

    A pairing on the residues of [FR_MODULUS], a square root by search, a hash
    that is constant, and a staking module with one delegation per account. *)

From S2P Require Import Prelude Sdk GoStd Bn254 Dasigners DasignersTheorems DasignersSigning.

Module DaChain.

(** ** Square roots by search *)
Section Search.
  Context (m : Z) (Hm : 0 < m) (x : Z).

Definition sqrt_step (y : Z) : Z + option Z :=
  if (y * y) mod m =? x mod m then inr (Some y)
  else if y + 1 =? m then inr None else inl (y + 1).
Definition sqrt_search : option Z :=
  match loop sqrt_step (Z.to_pos m) 0 with inr r => r | inl _ => None end.

Definition not_root (z : Z) : Prop := (z * z) mod m <> x mod m.
Definition searched (y : Z) : Prop := 0 <= y < m /\ forall z, 0 <= z < y -> not_root z.
Definition found (r : option Z) : Prop :=
  match r with
  | Some y => 0 <= y < m /\ (y * y) mod m = x mod m
  | None => forall z, 0 <= z < m -> not_root z
  end.

Lemma searched_next y z : searched y -> sqrt_step y = inl z -> z = y + 1 /\ searched z.
Proof.
  unfold sqrt_step, searched. intros [Hy Hz]. destruct (Z.eqb_spec ((y * y) mod m) (x mod m)); [done|].
  destruct (Z.eqb_spec (y + 1) m); [done|]. intros [= <-]. split; [done|]. split; [lia|]. intros w Hw.
  destruct (decide (w = y)) as [->|]; [done|apply Hz; lia].
Qed.

Lemma searched_found y r : searched y -> sqrt_step y = inr r -> found r.
Proof.
  unfold sqrt_step, searched, found. intros [Hy Hz].
  destruct (Z.eqb_spec ((y * y) mod m) (x mod m)); [by intros [= <-]|].
  destruct (Z.eqb_spec (y + 1) m); [|done]. intros [= <-] w Hw.
  destruct (decide (w = y)) as [->|]; [done|apply Hz; lia].
Qed.

Lemma sqrt_search_found : found sqrt_search.
Proof.
  assert (searched 0) as H0 by (split; [lia|intros; lia]).
  destruct (iterations_measure sqrt_step searched (fun y => Z.to_nat (m - 1 - y)) (Z.to_nat m) 0) as [r Hr].
  - intros y z Hy Hz. destruct (searched_next _ _ Hy Hz) as [-> H1]. split; [done|]. destruct H1, Hy. lia.
  - done.
  - lia.
  - unfold sqrt_search. rewrite loop_iterations, <- Z2Nat.inj_pos, Z2Pos.id, Hr by lia.
    eapply (iterations_inv sqrt_step searched found); [|exact searched_found|exact H0|exact Hr].
    intros y z Hy Hz. by apply (searched_next _ _ Hy Hz).
Qed.
End Search.

Lemma mod_cong m z : m <> 0 -> (m | z mod m - z).
Proof. intros Hm. exists (- (z / m)). rewrite (Z.mod_eq z m) by done. ring. Qed.
Lemma mod_cong_mul m z a w : m <> 0 -> z * a = w -> (m | (z mod m) * a - w).
Proof.
  intros Hm <-. replace ((z mod m) * a - z * a) with (a * (z mod m - z)) by ring.
  by apply Z.divide_mul_r, mod_cong.
Qed.

(** ** The instance *)
Abbreviation R := FR_MODULUS (only parsing).
Definition flat (z : Z) : G2Affine := mkG2 (mkE2 (z mod R) 0) (mkE2 0 0).
Definition log2 (q : G2Affine) : Z := A0 (G2X q).
Definition dlog (p : G1Affine) (q : G2Affine) : Z := G1X p * log2 q.

#[export] Instance gnark : Gnark := {|
  fp_Modulus := R;
  ModSqrt := sqrt_search R;
  G1_Add p q := mkG1 ((G1X p + G1X q) mod R) 0;
  G1_ScalarMultiplication p a := mkG1 ((a * G1X p) mod R) 0;
  G1_Neg p := mkG1 (- G1X p mod R) 0;
  G2_ScalarMultiplication q a := flat (a * log2 q);
  G2_Neg q := flat (- log2 q);
  PairingCheck ps qs :=
    match ps, qs with
    | [p; q], [r; t] => Ok ((dlog p r + dlog q t) mod R =? 0)
    | _, _ => Err (Plain "invalid inputs sizes")
    end;
  Keccak256 _ := [1]
|}.

Lemma R_pos : 0 < R.
Proof. reflexivity. Qed.

Lemma R_range : 4 < R < 256 ^ 32.
Proof. by vm_compute. Qed.
Lemma root_Some x y : sqrt_search R x = Some y -> 0 <= y < R /\ (y * y) mod R = x mod R.
Proof. intros Hy. pose proof (sqrt_search_found R R_pos x) as Hf. by rewrite Hy in Hf. Qed.
Lemma root_None x y : sqrt_search R x = None -> (y * y) mod R <> x mod R.
Proof.
  intros Hy. pose proof (sqrt_search_found R R_pos x) as Hf. rewrite Hy in Hf.
  specialize (Hf (y mod R) (Z.mod_pos_bound _ _ R_pos)). unfold not_root in Hf.
  by rewrite <- Zmult_mod in Hf.
Qed.
#[export] Instance field_laws : FieldLaws.
Proof. split; [exact R_range|exact root_Some|exact root_None]. Qed.

Lemma residue z : 0 <= z mod R < R.
Proof. apply Z.mod_pos_bound, R_pos. Qed.
Lemma zero_residue : 0 <= 0 < R.
Proof. done. Qed.
Lemma flat_reduced z : G2_reduced (flat z).
Proof. repeat split; apply residue || apply zero_residue. Qed.

#[export] Instance pairing_laws : PairingLaws.
Proof.
  refine {| G1_ok := G1_reduced; G2_ok := G2_reduced; e_log := dlog |}.
  - intros p (Hx & Hy & _). by split.
  - by intros p.
  - by intros p.
  - split; apply residue.
  - repeat split; apply residue.
  - intros p q _ _. split; [apply residue|apply zero_residue].
  - intros p a _. split; [apply residue|apply zero_residue].
  - intros p a _. apply flat_reduced.
  - intros p _. apply flat_reduced.
  - intros p q r _ _ _. apply mod_cong_mul; [done|]. unfold dlog. ring.
  - intros p a r _ _. apply mod_cong_mul; [done|]. unfold dlog. ring.
  - intros p r a _ _. unfold dlog. rewrite Z.mul_comm. apply mod_cong_mul; [done|]. ring.
  - intros p r _ _. unfold dlog. rewrite Z.mul_comm. rewrite <- (Z.sub_opp_r _ (_ * log2 r)).
    apply mod_cong_mul; [done|]. ring.
  - reflexivity.
Defined.

Definition ballot_le (a b : Ballot) : Prop := bytes_le (content a) (content b).
#[export] Instance ballot_le_dec : RelDecision ballot_le.
Proof. unfold ballot_le; intros a b; apply _. Defined.

#[export] Instance env : DaEnv := {|
  AccAddressFromHexUnsafe s :=
    if bool_decide (s = "") then Err (Plain "decoding address from hex string failed: empty address")
    else hex_DecodeString s;
  ValAddressFromBech32 s := Ok (string_bytes s);
  Dec_Add a b := Ok (a + b);
  RoundInt z := Ok (z / 10 ^ 18);
  ParseChainID _ := Ok 16600;
  HexToAddress s := match hex_DecodeString s with Ok b => b | _ => [] end;
  sort_Slice := merge_sort ballot_le
|}.

#[export] Instance ballot_le_trans : Transitive ballot_le.
Proof. intros a b c. apply (transitivity (R := bytes_le)). Qed.
#[export] Instance ballot_le_total : Total ballot_le.
Proof. intros a b. apply (total bytes_le). Qed.

#[export] Instance env_laws : DaLaws.
Proof.
  split.
  - intros l. apply merge_sort_Permutation.
  - intros l. apply (StronglySorted_merge_sort ballot_le).
  - intros s b Hs Hb. simpl. by rewrite bool_decide_eq_false_2.
Qed.

(** Bonded tokens by account, one validator. *)
#[export] Instance staked : StakingKeeper (gmap bytes Z) unit := {|
  DelegatorDelegations k a := [mkDelegation "v" (default 0 (k !! a))];
  GetValidator _ _ := Some tt;
  TokensFromSharesTruncated _ z := Ok z
|}.

(** ** The chain: two operators with three and five votes *)
Definition Chain : Type := State (gmap bytes Z).
Definition config : Params := mkParams 10 4 1 5 3.
Definition stake : gmap bytes Z := {[ [10] := 30 * 10 ^ 24; [11] := 50 * 10 ^ 24 ]}.
Definition alice : Signer := operator "0a" "socket" 5.
Definition bob : Signer := operator "0b" "socket" 7.
Definition start : Chain :=
  mkState (Some config) (Some 0) {[ [10] := alice; [11] := bob ]} ∅ {[ GetQuorumCountKey 0 := 0 ]}
    {[ GetEpochRegistrationKeyPrefix 1 ++ [10] := [3]; GetEpochRegistrationKeyPrefix 1 ++ [11] := [2] ]} stake.
Definition fresh : Chain := mkState (Some config) (Some 0) ∅ ∅ ∅ ∅ stake.
Definition first : Ctx := mkCtx 5 0.
Definition run (o : outcome Chain) : Chain := match o with Ok s => s | _ => start end.
Definition epoch1 : Chain := run (BeginBlock first start).

Lemma config_good : good_params config.
Proof. split; unfold maxAlloc; simpl; lia. Qed.

Definition seven : list Ballot := map (fun k => mkBallot "0a" [k]) [1; 2; 3; 4; 5; 6; 7].

Lemma form_quorums_chunks_witness : form_quorums config seven = Ok (reference_quorums config seven).
Proof. apply (form_quorums_chunks config seven config_good). Defined.

Lemma begin_block_quorums_witness :
  exists qs, epochNumber epoch1 = Some (0 + 1)
  /\ GetQuorumCount epoch1 (0 + 1) = Ok (Z.of_nat (length qs))
  /\ 1 <= Z.of_nat (length qs) <= MaxQuorums (GetParams start) + 1
  /\ (forall k q, qs !! k = Some q -> GetEpochQuorum epoch1 (0 + 1) (Z.of_nat k) = Ok q)
  /\ ((qs = [mkQuorum []] /\ forall a, ~ entitled start (0 + 1) a)
      \/ Forall (fun q => Z.of_nat (length (Signers q)) = EncodedSlices (GetParams start)
                 /\ Forall (entitled start (0 + 1)) (Signers q)) qs)
  /\ (total_votes start (0 + 1) <= EncodedSlices (GetParams start) * MaxQuorums (GetParams start) ->
      forall a, entitled start (0 + 1) a -> exists q, q ∈ qs /\ a ∈ Signers q)
  /\ (forall e' id, is_u64 e' -> is_u64 id -> e' <> 0 + 1 ->
        GetEpochQuorum epoch1 e' id = GetEpochQuorum start e' id).
Proof.
  apply (begin_block_quorums first start epoch1 0 config_good); [lia|reflexivity|discriminate|].
  vm_compute. reflexivity.
Defined.

Lemma staking_answers a : exists bonded, GetDelegatorBonded start a = Ok bonded.
Proof. unfold GetDelegatorBonded. simpl. by eexists. Qed.

Lemma hex_no_panic s : isPanic (hex_DecodeString s) = false.
Proof.
  induction s as [s IH] using (induction_ltof1 _ String.length).
  destruct s as [|a [|c s]]; cbn [hex_DecodeString]; [done|done|].
  destruct (hex_value a); [|done]. destruct (hex_value c); [|done].
  assert (isPanic (hex_DecodeString s) = false) as Hs by (apply IH; unfold ltof; simpl; lia).
  by destruct (hex_DecodeString s).
Qed.

Lemma begin_block_total_witness :
  exists s', BeginBlock first start = Ok s' /\ epochNumber s' = Some (expected_epoch first start)
    /\ forall ctx', expected_epoch ctx' start = expected_epoch first start -> BeginBlock ctx' s' = Ok s'.
Proof.
  apply (begin_block_total first start 0 config_good).
  - lia.
  - reflexivity.
  - vm_compute. split; discriminate.
  - exact staking_answers.
  - intros str. simpl. case_bool_decide; [done|apply hex_no_panic].
Defined.

Definition exported : GenesisState :=
  match ExportGenesis epoch1 with Ok gs => gs | _ => DefaultGenesisState end.

Lemma export_not_importable_witness :
  isOk (GenesisState_Validate exported) = false /\ isPanic (InitGenesis exported fresh) = true.
Proof.
  apply (export_not_importable epoch1 fresh exported 1); [vm_compute; reflexivity|lia|].
  vm_compute. reflexivity.
Defined.

Lemma unchecked_params_halt_witness :
  exists s', InitGenesis (NewGenesisState (mkParams 10 1024 10 0 3072) 0 [] [[]]) fresh = Ok s'
  /\ (EpochBlocks (mkParams 10 1024 10 0 3072) = 0 -> forall ctx, isPanic (BeginBlock ctx s') = true)
  /\ (EncodedSlices (mkParams 10 1024 10 0 3072) = 0 -> forall ctx, expected_epoch ctx s' <> 0 ->
        isOk (BeginBlock ctx s') = false).
Proof.
  apply (unchecked_params_halt DefaultGenesisState (mkParams 10 1024 10 0 3072) fresh). reflexivity.
Defined.

Lemma MapToCurve_total_witness : exists p, MapToCurve [0; 7] = Ok p /\ on_curve p.
Proof. apply (MapToCurve_total [0; 7]). Defined.

Lemma honest_operator_registers_witness :
  exists h1 h2 s1 s2,
    PubkeyRegistrationHash (HexToAddress "0a") 16600 = Ok h1
    /\ EpochRegistrationHash (HexToAddress "0a") (u64 (0 + 1)) 16600 = Ok h2
    /\ RegisterSigner "chain_16600-1" (mkRegisterSigner alice (SerializeG1 (G1_ScalarMultiplication h1 5))) fresh
       = Ok s1
    /\ signers s1 = <[ [10] := alice ]> (signers fresh)
    /\ RegisterNextEpoch "chain_16600-1" (mkRegisterNextEpoch "0a" (SerializeG1 (G1_ScalarMultiplication h2 5))) s1
       = Ok s2
    /\ GetRegistration s2 (u64 (0 + 1)) "0a" = Ok (Some (SerializeG1 (G1_ScalarMultiplication h2 5))).
Proof.
  apply (honest_operator_registers "chain_16600-1" 16600 fresh "0a" "socket" 5 [10] 0);
    vm_compute; reflexivity.
Defined.

(** Quorum 1 has the rows 0a, 0a, 0b; the bitmap marks the first of them, and
    the second is credited with it. *)
Definition aggregate : bytes * Z * Z :=
  match AggregatePubkeyG1 epoch1 1 1 [1] with Ok r => r | _ => ([], 0, 0) end.
Lemma aggregate_hits : aggregate.2 = 2 /\ aggregate.1.2 = 3.
Proof. vm_compute. split; reflexivity. Qed.

Lemma aggregate_key_correct_witness :
  exists quorum names keys, GetEpochQuorum epoch1 1 1 = Ok quorum
  /\ NoDup names
  /\ (forall a, a ∈ names <-> exists i, Signers quorum !! i = Some a /\ marked [1] i = true)
  /\ Forall2 (signer_key epoch1) names keys
  /\ aggregate.1.1 = SerializeG1 (foldl G1_Add (mkG1 0 0) keys)
  /\ aggregate.1.2 = Z.of_nat (length (Signers quorum))
  /\ aggregate.2 = Z.of_nat (length (filter (fun i => credited [1] (Signers quorum) i = true)
                               (seq 0 (length (Signers quorum)))))
  /\ aggregate.2 <= aggregate.1.2.
Proof.
  apply (aggregate_key_correct epoch1 [1] 1 1 aggregate.1.1 aggregate.1.2 aggregate.2).
  vm_compute. reflexivity.
Defined.
End DaChain.
