(* ===== verification/Contracts.v ===== *)
(** * contracts/: the wrapped-coin ERC20 contract and its deployment script

    [Config] is [contracts/hardhat.config.ts].  [Token] models the Solidity contract
    [ERC20ZgChainWrappedCosmosCoin]; the OpenZeppelin base contracts are arguments.
    [Deploy] models [contracts/scripts/deploy.ts]: an asynchronous function is a
    computation on the state of the process and of the chain that resolves, rejects
    or stays pending; hardhat and ethers are arguments. *)

From S2P Require Import Prelude Sdk GoStd.
From stdpp Require Import pretty.
#[local] Open Scope Z_scope.

(** ** contracts/hardhat.config.ts *)
Module Config.

Record Optimizer : Type := mkOptimizer { enabled : bool; runs : Z }.
Record Settings : Type := mkSettings { evmVersion : string; optimizer : Optimizer }.
Record Solidity : Type := mkSolidity { version : string; settings : Settings }.
Record Network : Type := mkNetwork { url : string; accounts : list string }.
Record HardhatUserConfig : Type := mkConfig { solidity : Solidity; networks : list (string * Network) }.

Definition config : HardhatUserConfig :=
  mkConfig
    (mkSolidity "0.8.18" (mkSettings "istanbul" (mkOptimizer true 1000)))
    [("chain", mkNetwork "http://127.0.0.1:8545"
        ["AA50F4C6C15190D9E18BF8B14FC09BFBA0E7306331A4F232D10A77C2879E7966"]);
     ("protonet", mkNetwork "https://evm.app.protonet.us-east.production.0g-chain.io:443"
        ["247069F0BC3A5914CB2FD41E4133BBDAA6DBED9F47A01B9F110B5602C6E4CDD9"]);
     ("internal_testnet", mkNetwork "https://evm.data.internal.testnet.us-east.production.0g-chain.io:443"
        ["247069F0BC3A5914CB2FD41E4133BBDAA6DBED9F47A01B9F110B5602C6E4CDD9"])].

(** ** contracts/.eslintrc.cjs *)
Record EslintConfig : Type := mkEslint {
  extends : list string;
  parser : string;
  plugins : list string;
  root : bool
}.
Definition eslintrc : EslintConfig :=
  mkEslint ["eslint:recommended"; "plugin:@typescript-eslint/recommended"; "plugin:prettier/recommended"]
    "@typescript-eslint/parser" ["@typescript-eslint"] true.

(** A key of an account is 32 bytes in hexadecimal. *)
Definition key_ok (k : string) : bool :=
  match hex_DecodeString k with Ok b => Nat.eqb (length b) 32 | _ => false end.

Lemma config_keys : forallb (fun n => forallb key_ok (accounts n.2)) (networks config) = true.
Proof. vm_compute. reflexivity. Qed.
End Config.

(** ** contracts/contracts/ERC20ZgChainWrappedCosmosCoin.sol *)
Module Token.

(** The state and the functions inherited from OpenZeppelin's ERC20 and Ownable;
    [None] is a revert. *)
Class OpenZeppelin (S : Type) : Type := {
  (** The state after the constructors, with the deployer as owner. *)
  oz_init : string -> string -> bytes -> S;
  owner : S -> bytes;
  _mint : bytes -> Z -> S -> option S;
  _burn : bytes -> Z -> S -> option S;
  balanceOf : S -> bytes -> Z;
  totalSupply : S -> Z;
  (** The other public functions, by call data: transfers, approvals, changes
      of the owner. *)
  inherited : bytes -> bytes -> S -> option S
}.

(** The documented effects. *)
Class OpenZeppelinLaws (S : Type) `{OpenZeppelin S} : Prop := {
  init_owner n sy d : owner (oz_init n sy d) = d;
  init_supply n sy d : totalSupply (oz_init n sy d) = 0;
  mint_owner s s' to amount : _mint to amount s = Some s' -> owner s' = owner s;
  burn_owner s s' from amount : _burn from amount s = Some s' -> owner s' = owner s;
  mint_supply s s' to amount : _mint to amount s = Some s' ->
    totalSupply s' = totalSupply s + amount
    /\ forall a, balanceOf s' a = balanceOf s a + if bool_decide (to = a) then amount else 0;
  burn_supply s s' from amount : _burn from amount s = Some s' ->
    totalSupply s' = totalSupply s - amount /\ amount <= balanceOf s from
    /\ forall a, balanceOf s' a = balanceOf s a - if bool_decide (from = a) then amount else 0;
  inherited_supply s s' sender data : inherited sender data s = Some s' -> totalSupply s' = totalSupply s
}.

(** The metadata of OpenZeppelin's ERC20: set by its constructor, never changed. *)
Class Metadata (S : Type) `{OpenZeppelin S} : Type := {
  name : S -> string;
  symbol : S -> string;
  init_metadata n sy d : name (oz_init n sy d) = n /\ symbol (oz_init n sy d) = sy;
  mint_metadata s s' to amount : _mint to amount s = Some s' -> name s' = name s /\ symbol s' = symbol s;
  burn_metadata s s' from amount : _burn from amount s = Some s' -> name s' = name s /\ symbol s' = symbol s;
  inherited_metadata s s' sender data :
    inherited sender data s = Some s' -> name s' = name s /\ symbol s' = symbol s
}.

Section Contract.
  Context {S : Type} {oz : OpenZeppelin S} {ozl : OpenZeppelinLaws S}.

Record ERC20 : Type := mkERC20 { base : S; _decimals : Z }.

Definition constructor (name_ symbol_ : string) (decimals_ : Z) (sender : bytes) : ERC20 :=
  mkERC20 (oz_init name_ symbol_ sender) decimals_.
Definition decimals (c : ERC20) : Z := _decimals c.

(** [onlyOwner] *)
Definition onlyOwner (sender : bytes) (c : ERC20) (k : option ERC20) : option ERC20 :=
  if bool_decide (owner (base c) = sender) then k else None.
Definition mint (sender to : bytes) (amount : Z) (c : ERC20) : option ERC20 :=
  onlyOwner sender c ((fun s => mkERC20 s (_decimals c)) <$> _mint to amount (base c)).
Definition burn (sender from : bytes) (amount : Z) (c : ERC20) : option ERC20 :=
  onlyOwner sender c ((fun s => mkERC20 s (_decimals c)) <$> _burn from amount (base c)).

Inductive tx : Type :=
| TxMint (to : bytes) (amount : Z)
| TxBurn (from : bytes) (amount : Z)
| TxInherited (data : bytes).
Definition apply (sender : bytes) (t : tx) (c : ERC20) : option ERC20 :=
  match t with
  | TxMint to amount => mint sender to amount c
  | TxBurn from amount => burn sender from amount c
  | TxInherited data => (fun s => mkERC20 s (_decimals c)) <$> inherited sender data (base c)
  end.

(** A transaction that reverts leaves the contract as it is. *)
Definition run_tx (c : ERC20) (st : bytes * tx) : ERC20 := default c (apply st.1 st.2 c).

(** What a transaction adds to the supply, if its sender is the owner. *)
Definition issued (c : ERC20) (st : bytes * tx) : Z :=
  match apply st.1 st.2 c, st.2 with
  | Some _, TxMint _ amount => amount
  | Some _, TxBurn _ amount => - amount
  | _, _ => 0
  end.
Fixpoint total_issued (c : ERC20) (l : list (bytes * tx)) : Z :=
  match l with [] => 0 | st :: l => issued c st + total_issued (run_tx c st) l end.

Lemma run_tx_supply c st :
  totalSupply (base (run_tx c st)) = totalSupply (base c) + issued c st
  /\ _decimals (run_tx c st) = _decimals c.
Proof.
  destruct st as [x t]. unfold run_tx, issued; simpl. destruct (apply x t c) as [c'|] eqn:E; simpl; [|lia].
  destruct t as [to amount|from amount|data]; simpl in E; unfold mint, burn, onlyOwner in E;
    try (case_bool_decide; [|discriminate]);
    match type of E with _ <$> ?o = _ => destruct o as [s'|] eqn:Hs; [|discriminate]; injection E as <- end; simpl.
  - apply mint_supply in Hs as [-> _]. lia.
  - apply burn_supply in Hs as [-> _]. lia.
  - apply inherited_supply in Hs as ->. lia.
Qed.

Lemma run_tx_metadata {meta : Metadata S} c st :
  name (base (run_tx c st)) = name (base c) /\ symbol (base (run_tx c st)) = symbol (base c).
Proof.
  destruct st as [x t]. unfold run_tx; simpl. destruct (apply x t c) as [c'|] eqn:E; simpl; [|done].
  destruct t as [to amount|from amount|data]; simpl in E; unfold mint, burn, onlyOwner in E;
    try (case_bool_decide; [|discriminate]);
    match type of E with _ <$> ?o = _ => destruct o as [s'|] eqn:Hs; [|discriminate]; injection E as <- end; simpl.
  - by eapply mint_metadata.
  - by eapply burn_metadata.
  - by eapply inherited_metadata.
Qed.

(** The name, the symbol and the decimals of a contract are those it was made with, whatever
    transactions it has seen. *)
Lemma token_metadata {meta : Metadata S} n sy d creator l :
  let c := foldl run_tx (constructor n sy d creator) l in
  name (base c) = n /\ symbol (base c) = sy /\ decimals c = d.
Proof.
  assert (forall c, name (base (foldl run_tx c l)) = name (base c) /\ symbol (base (foldl run_tx c l)) = symbol (base c)
          /\ _decimals (foldl run_tx c l) = _decimals c) as Hrun.
  { induction l as [|st l IH]; intros c; simpl; [done|]. destruct (IH (run_tx c st)) as (-> & -> & ->).
    destruct (run_tx_metadata c st) as [-> ->]. by destruct (run_tx_supply c st) as [_ ->]. }
  cbv zeta. unfold decimals. destruct (Hrun (constructor n sy d creator)) as (-> & -> & ->). simpl. destruct (init_metadata n sy creator) as [-> ->]. done.
Qed.

(** Over the whole life of the contract the total supply is what the owner
    minted minus what the owner burned, and the number of decimals is the one
    given at construction; calls of others never mint or burn. *)
Theorem token_supply n sy d creator l :
  let c := constructor n sy d creator in
  totalSupply (base (foldl run_tx c l)) = total_issued c l
  /\ decimals (foldl run_tx c l) = d
  /\ forall c' x t, owner (base c') <> x -> issued c' (x, t) = 0.
Proof.
  intros c.
  assert (forall c, totalSupply (base (foldl run_tx c l)) = totalSupply (base c) + total_issued c l
          /\ _decimals (foldl run_tx c l) = _decimals c) as Hrun.
  { clear c. induction l as [|st l IH]; intros c; simpl; [lia|].
    destruct (IH (run_tx c st)) as [-> ->]. destruct (run_tx_supply c st) as [-> ->]. lia. }
  destruct (Hrun c) as [-> Hd]. split_and!; [by unfold c; simpl; rewrite init_supply|done|].
  intros c' x t Hx. unfold issued; simpl.
  destruct t; simpl; unfold mint, burn, onlyOwner;
    rewrite ?(bool_decide_eq_false_2 (owner (base c') = x)) by done; try done. by destruct (_ <$> _).
Qed.
End Contract.
End Token.

(** ** contracts/scripts/deploy.ts *)
Module Deploy.
Import Token.

(** What becomes of a promise: an error is any thrown value, as its text; a promise may
    never settle, as when a transaction stays unmined. *)
Inductive promise (A : Type) : Type :=
| Resolved (a : A)
| Rejected (e : string)
| Pending.
Arguments Resolved {A}.
Arguments Rejected {A}.
Arguments Pending {A}.

(** Hardhat and ethers; a call acts on the chain [W]. *)
Class Hardhat (W Factory Contract : Type) : Type := {
  getContractFactory : string -> W -> promise Factory * W;
  factory_deploy : Factory -> string -> string -> Z -> W -> promise Contract * W;
  contract_deployed : Contract -> W -> promise unit * W;
  contract_address : Contract -> string
}.

(** The process that runs the script, with the chain it talks to. *)
Record Process (W : Type) : Type := mkProcess {
  stdout : list string;
  stderr : list string;
  exitCode : option Z;
  world : W
}.
Arguments mkProcess {W}.
Arguments stdout {W}.
Arguments stderr {W}.
Arguments exitCode {W}.
Arguments world {W}.

Section Script.
  Context {W Factory Contract : Type} {hh : Hardhat W Factory Contract}.

(** An asynchronous computation on the process. *)
Definition async (A : Type) : Type := Process W -> promise A * Process W.
(** [await]: a rejection is thrown at the point of the await; what comes after an await
    of a promise that does not settle never runs. *)
Definition await {A C} (c : async A) (k : A -> async C) : async C :=
  fun p => match c p with
           | (Resolved a, p) => k a p
           | (Rejected e, p) => (Rejected e, p)
           | (Pending, p) => (Pending, p)
           end.
(** [promise.catch(handler)] *)
Definition catch (c : async unit) (handler : string -> async unit) : async unit :=
  fun p => match c p with
           | (Rejected e, p) => handler e p
           | (r, p) => (r, p)
           end.
(** A call of the libraries acts on the chain only. *)
Definition call {A} (f : W -> promise A * W) : async A :=
  fun p => let '(r, w) := f (world p) in (r, mkProcess (stdout p) (stderr p) (exitCode p) w).
Definition console_log (s : string) : async unit :=
  fun p => (Resolved tt, mkProcess (stdout p ++ [s]) (stderr p) (exitCode p) (world p)).
Definition console_error (s : string) : async unit :=
  fun p => (Resolved tt, mkProcess (stdout p) (stderr p ++ [s]) (exitCode p) (world p)).
Definition set_exitCode (n : Z) : async unit :=
  fun p => (Resolved tt, mkProcess (stdout p) (stderr p) (Some n) (world p)).

Definition tokenName : string := "0g-chain-wrapped ATOM".
Definition tokenSymbol : string := "kATOM".
Definition tokenDecimals : Z := 6.

(** The double quotes of the template literal. *)
Definition quoted (s : string) : string :=
  String (Ascii.ascii_of_nat 34) (s ++ String (Ascii.ascii_of_nat 34) "").
(** The template literal. *)
Definition deployed_message (tokenName tokenSymbol : string) (tokenDecimals : Z) (address : string) : string :=
  "Token " ++ quoted tokenName ++ " (" ++ tokenSymbol ++ ") with " ++ pretty tokenDecimals
  ++ " decimals is deployed to " ++ address ++ "!".

Definition main : async unit :=
  await (call (getContractFactory "ERC20ZgChainWrappedCosmosCoin")) (fun factory =>
  await (call (factory_deploy factory tokenName tokenSymbol tokenDecimals)) (fun token =>
  await (call (contract_deployed token)) (fun _ =>
  console_log (deployed_message tokenName tokenSymbol tokenDecimals (contract_address token))))).

Definition script : async unit :=
  catch main (fun error => await (console_error error) (fun _ => set_exitCode 1)).

(** *** What is documented of the libraries

    A factory is of the artifact it was asked for, and signs with the first account of the
    network.  A deployment sends the creation with its arguments.  [deployed()] resolves
    only when the creation has run: then the contract of the artifact is at the address,
    made by its constructor, with the transactions that others have sent it since. *)
Class HardhatLaws {S : Type} `{oz : OpenZeppelin S} : Type := {
  artifact : Factory -> string;
  signer : Factory -> bytes;
  creation : Contract -> string * bytes * (string * string * Z);
  contract_at : W -> string -> option (@ERC20 S);
  factory_artifact a w f w' : getContractFactory a w = (Resolved f, w') -> artifact f = a;
  deploy_creation f n sy d w t w' : factory_deploy f n sy d w = (Resolved t, w') ->
    creation t = (artifact f, signer f, (n, sy, d));
  deployed_creation t w w' by_ n sy d : contract_deployed t w = (Resolved tt, w') ->
    creation t = ("ERC20ZgChainWrappedCosmosCoin", by_, (n, sy, d)) ->
    exists later, contract_at w' (contract_address t) = Some (foldl run_tx (constructor n sy d by_) later)
}.

(** Some call of the libraries, on some chain, comes to [r]. *)
Inductive library_gives : promise False -> Prop :=
| factory_throws a w e w' : getContractFactory a w = (Rejected e, w') -> library_gives (Rejected e)
| deploy_throws f n sy d w e w' : factory_deploy f n sy d w = (Rejected e, w') -> library_gives (Rejected e)
| deployed_throws t w e w' : contract_deployed t w = (Rejected e, w') -> library_gives (Rejected e)
| factory_hangs a w w' : getContractFactory a w = (Pending, w') -> library_gives Pending
| deploy_hangs f n sy d w w' : factory_deploy f n sy d w = (Pending, w') -> library_gives Pending
| deployed_hangs t w w' : contract_deployed t w = (Pending, w') -> library_gives Pending.

(** The line on the standard output is true of the contract on the chain. *)
Definition truthful {S} {oz : OpenZeppelin S} {meta : Metadata S} {laws : HardhatLaws} (w : W) (line : string) : Prop :=
  exists address c by_ later, contract_at w address = Some c
    /\ c = foldl run_tx (constructor tokenName tokenSymbol tokenDecimals by_) later
    /\ line = deployed_message (name (base c)) (symbol (base c)) (decimals c) address.

Lemma deployed_truthful {S} {oz : OpenZeppelin S} {ozl : OpenZeppelinLaws S} {meta : Metadata S} {laws : HardhatLaws}
    f t w1 w2 w3 w4 w5 :
  getContractFactory "ERC20ZgChainWrappedCosmosCoin" w1 = (Resolved f, w2) ->
  factory_deploy f tokenName tokenSymbol tokenDecimals w3 = (Resolved t, w4) ->
  contract_deployed t w4 = (Resolved tt, w5) ->
  truthful w5 (deployed_message tokenName tokenSymbol tokenDecimals (contract_address t)).
Proof.
  intros Hf%factory_artifact Ht%deploy_creation Hd. rewrite Hf in Ht.
  destruct (deployed_creation _ _ _ _ _ _ _ Hd Ht) as [later Hat].
  eexists _, _, (signer f), later. split; [exact Hat|]. split; [done|].
  by destruct (token_metadata tokenName tokenSymbol tokenDecimals (signer f) later) as (-> & -> & ->).
Qed.

(** C40: how the deployment script ends.  It never leaves a rejection uncaught.  When it
    reports a success, with one line on the standard output and the exit code untouched,
    the line is true: at the printed address of the chain there is a contract that the
    constructor of the wrapped coin made, and the printed name, symbol and decimals are the
    contract's own.  When it reports a failure, it is an error that a call of the libraries
    threw: this alone is on the standard error, the exit code is 1, and the standard output
    claims nothing.  And when it hangs, a call of the libraries does not settle, and nothing
    has been printed. *)
Theorem script_reports {S} {oz : OpenZeppelin S} {ozl : OpenZeppelinLaws S} {meta : Metadata S} {laws : HardhatLaws} p :
  let '(r, p') := script p in
  match r with
  | Resolved _ =>
      (exists line, truthful (world p') line
        /\ stdout p' = stdout p ++ [line] /\ stderr p' = stderr p /\ exitCode p' = exitCode p)
      \/ (exists e, library_gives (Rejected e)
        /\ stdout p' = stdout p /\ stderr p' = stderr p ++ [e] /\ exitCode p' = Some 1)
  | Rejected _ => False
  | Pending => library_gives Pending
      /\ stdout p' = stdout p /\ stderr p' = stderr p /\ exitCode p' = exitCode p
  end.
Proof.
  unfold script, catch, main, await, call. destruct p as [out err code w]; cbn [world].
  destruct (getContractFactory _ w) as [[f|e|] w1] eqn:E1; cbn.
  2: { right. exists e. split; [by eapply factory_throws|done]. }
  2: { split; [by eapply factory_hangs|done]. }
  destruct (factory_deploy f _ _ _ w1) as [[t|e|] w2] eqn:E2; cbn.
  2: { right. exists e. split; [by eapply deploy_throws|done]. }
  2: { split; [by eapply deploy_hangs|done]. }
  destruct (contract_deployed t w2) as [[[]|e|] w3] eqn:E3; cbn.
  - left. eexists. split; [by eapply deployed_truthful|done].
  - right. exists e. split; [by eapply deployed_throws|done].
  - split; [by eapply deployed_hangs|done].
Qed.
End Script.
End Deploy.
