(* ===== verification/ContractsWitness.v ===== *)
(** * contracts/: the theorems on a concrete base contract and a small network

    Balances in a map, no transfers: the inherited calls all revert.  A network is the
    contracts on it and whether it mines. *)

From S2P Require Import Prelude Sdk Contracts.

Module TokenChain.
Import Token.

Record ledger : Type := mkLedger {
  lName : string; lSymbol : string; lOwner : bytes; lBalances : gmap bytes Z; lSupply : Z }.
Definition bal (s : ledger) (a : bytes) : Z := default 0 (lBalances s !! a).
Definition move_in (to : bytes) (amount : Z) (s : ledger) : option ledger :=
  if amount <? 0 then None
  else Some (mkLedger (lName s) (lSymbol s) (lOwner s) (<[to := bal s to + amount]> (lBalances s)) (lSupply s + amount)).
Definition move_out (from : bytes) (amount : Z) (s : ledger) : option ledger :=
  if bal s from <? amount then None
  else Some (mkLedger (lName s) (lSymbol s) (lOwner s) (<[from := bal s from - amount]> (lBalances s)) (lSupply s - amount)).

#[export] Instance oz : OpenZeppelin ledger := {|
  oz_init n sy d := mkLedger n sy d ∅ 0;
  owner := lOwner;
  _mint := move_in;
  _burn := move_out;
  balanceOf := bal;
  totalSupply := lSupply;
  inherited _ _ _ := None
|}.

Lemma bal_insert (nm sy : string) (o : bytes) (m : gmap bytes Z) (k a : bytes) (v n : Z) :
  bal (mkLedger nm sy o (<[k := v]> m) n) a = if bool_decide (k = a) then v else default 0 (m !! a).
Proof.
  unfold bal; simpl. destruct (decide (k = a)) as [->|Hne].
  - by rewrite lookup_insert_eq, bool_decide_eq_true_2.
  - by rewrite lookup_insert_ne, bool_decide_eq_false_2.
Qed.

#[export] Instance oz_laws : OpenZeppelinLaws ledger.
Proof.
  split; simpl; try done.
  - unfold move_in. intros s s' to amount Hm. case_match; [done|]. by injection Hm as <-.
  - unfold move_out. intros s s' from amount Hm. case_match; [done|]. by injection Hm as <-.
  - unfold move_in. intros s s' to amount Hm. case_match; [done|]. injection Hm as <-. simpl.
    split; [done|]. intros a. rewrite bal_insert. case_bool_decide; [by subst|unfold bal; lia].
  - unfold move_out. intros s s' from amount Hm. case_match; [done|]. injection Hm as <-. simpl. gobool.
    split_and!; [done|lia|]. intros a. rewrite bal_insert. case_bool_decide; [by subst|unfold bal; lia].
Qed.

#[export] Instance ledger_metadata : Metadata ledger.
Proof.
  refine (Build_Metadata _ _ lName lSymbol _ _ _ _); try done.
  - intros s s' to amount Hm. cbn [_mint oz] in Hm. unfold move_in in Hm. case_match; [done|]. by injection Hm as <-.
  - intros s s' from amount Hm. cbn [_burn oz] in Hm. unfold move_out in Hm. case_match; [done|]. by injection Hm as <-.
Defined.

Definition module : bytes := [1].
Definition txs : list (bytes * tx) :=
  [(module, TxMint [2] 10); ([2], TxMint [2] 99); (module, TxBurn [2] 4)].
Definition token : ERC20 := constructor "wrapped" "W" 6 module.

Lemma token_supply_witness :
  totalSupply (base (foldl run_tx token txs)) = total_issued token txs
  /\ decimals (foldl run_tx token txs) = 6
  /\ forall c' x t, owner (base c') <> x -> issued c' (x, t) = 0.
Proof. exact (token_supply "wrapped" "W" 6 module txs). Defined.
End TokenChain.

Module Network.
Import Token Deploy.
#[export] Existing Instances TokenChain.oz TokenChain.oz_laws TokenChain.ledger_metadata.

Record Chain : Type := mkChain { mining : bool; artifacts : list string; code : gmap string (@ERC20 TokenChain.ledger) }.
(** The creation that was sent, and the address it has. *)
Record Sent : Type := mkSent { sArtifact : string; sArgs : string * string * Z }.
Definition account : bytes := [7].
Definition next_address : string := "0xC0FFEE".

Definition find_artifact (a : string) (w : Chain) : promise string * Chain :=
  if bool_decide (a ∈ artifacts w) then (Resolved a, w) else (Rejected "HH700: artifact not found", w).
Definition send_creation (f n sy : string) (d : Z) (w : Chain) : promise Sent * Chain :=
  (Resolved (mkSent f (n, sy, d)), w).
(** Waits for the block with the creation. *)
Definition mined (t : Sent) (w : Chain) : promise unit * Chain :=
  if mining w then
    let '(n, sy, d) := sArgs t in
    (Resolved tt, mkChain true (artifacts w) (<[next_address := constructor n sy d account]> (code w)))
  else (Pending, w).

#[export] Instance hardhat : Hardhat Chain string Sent := {|
  getContractFactory := find_artifact; factory_deploy := send_creation;
  contract_deployed := mined; contract_address _ := next_address
|}.

#[export] Instance hardhat_laws : HardhatLaws.
Proof.
  refine {| artifact := id; signer _ := account; creation t := (sArtifact t, account, sArgs t);
            contract_at w a := code w !! a |}.
  - intros a w f w' H. cbn in H. unfold find_artifact in H. case_bool_decide; [|done]. by injection H as <- _.
  - intros f n sy d w t w' [= <- _]. done.
  - intros [a x] w w' by_ n sy d H [= -> <- ->]. exists []. cbn in H. unfold mined in H.
    destruct (mining w); [|done]. injection H as <-. cbn. by rewrite lookup_insert_eq.
Defined.

Definition idle (w : Chain) : Process Chain := mkProcess [] [] None w.
Definition live : Chain := mkChain true ["ERC20ZgChainWrappedCosmosCoin"] ∅.
Definition stuck : Chain := mkChain false ["ERC20ZgChainWrappedCosmosCoin"] ∅.

(** On a network that mines: the token is there, and so is its line. *)
Lemma script_reports_witness : truthful (world (script (idle live)).2)
  (deployed_message "0g-chain-wrapped ATOM" "kATOM" 6 next_address).
Proof.
  pose proof (script_reports (idle live)) as H.
  change (script (idle live)) with (Resolved tt, mkProcess [deployed_message "0g-chain-wrapped ATOM" "kATOM" 6 next_address] []
    None (mkChain true ["ERC20ZgChainWrappedCosmosCoin"]
      (<[next_address := constructor "0g-chain-wrapped ATOM" "kATOM" 6 account]> ∅))) in *.
  cbv iota beta in H. destruct H as [(line & Ht & Hl & _)|(e & _ & Hl & _)]; [|discriminate Hl].
  injection Hl as ->. exact Ht.
Defined.

Example never_mined : script (idle stuck) = (Pending, idle stuck).
Proof. vm_compute. reflexivity. Qed.
Example not_compiled : script (idle (mkChain true [] ∅))
  = (Resolved tt, mkProcess [] ["HH700: artifact not found"] (Some 1) (mkChain true [] ∅)).
Proof. vm_compute. reflexivity. Qed.
Example printed : stdout (script (idle live)).2
  = [("Token " ++ quoted "0g-chain-wrapped ATOM" ++ " (kATOM) with 6 decimals is deployed to 0xC0FFEE!")%string].
Proof. vm_compute. reflexivity. Qed.
End Network.
