(* ===== verification/EvmConvert.v ===== *)
(** * x/evmutil: conversions between coins and ERC20 tokens

    [types/conversion_pair.go], [types/params.go], [types/address.go],
    [keeper/params.go], [keeper/evm.go], [keeper/erc20.go],
    [keeper/conversion_evm_native.go], [keeper/conversion_cosmos_native.go], the
    deployed contracts of [keeper/keeper.go], the invariants of
    [keeper/invariants.go] and [genesis.go].

    The EVM, go-ethereum's ABI coder and addresses, and the compiled contracts are
    arguments ([EthConfig], [EvmKeeper]).  A message executed by the EVM may act on
    everything the EVM can reach: its own state, with the accounts' sequence
    numbers, and, through the EVM's bank keeper, the bank and the stored fractions
    ([EvmWorld]). *)

From S2P Require Import Prelude Sdk GoStd Bank Evmutil.

(** ** types/errors.go *)
Definition ErrABIPack : error := Registered EvmutilName 2.
Definition ErrEVMCall : error := Registered EvmutilName 3.
Definition ErrEVMConversionNotEnabled : error := Registered EvmutilName 4.
Definition ErrBalanceInvariance : error := Registered EvmutilName 5.
Definition ErrUnexpectedContractEvent : error := Registered EvmutilName 6.
Definition ErrInvalidCosmosDenom : error := Registered EvmutilName 7.
Definition ErrSDKConversionNotEnabled : error := Registered EvmutilName 8.

(** ** Arguments: go-ethereum and the EVM keeper *)

(** Values of the arguments and results of a contract call. *)
Inductive AbiValue : Type :=
| AInt (z : Z)
| AAddress (a : bytes)
| AString (s : string)
| AUint8 (z : Z)
| AOther.

(** The two compiled contracts of [types/contract.go]. *)
Inductive CompiledContract : Type :=
| ERC20MintableBurnableContract
| ERC20ZgChainWrappedCosmosCoinContract.

Class EthConfig : Type := {
  ABI_Pack : CompiledContract -> string -> list AbiValue -> outcome bytes;
  ABI_Unpack : CompiledContract -> string -> bytes -> outcome (list AbiValue);
  Bin : CompiledContract -> bytes;
  BytesToAddress : bytes -> bytes;
  IsHexAddress : string -> bool;
  HexToAddress : string -> bytes;
  Address_Hex : bytes -> string;
  CreateAddress : bytes -> Z -> bytes;
  (** [crypto.Keccak256Hash(b).Hex()] *)
  Keccak256Hash_Hex : bytes -> string;
  (** [authtypes.NewModuleAddress(name)] *)
  NewModuleAddress : string -> AccAddress;
  (** [evmtypes.ErrVMExecution] *)
  ErrVMExecution : error
}.

Record EthLog : Type := mkLog { Topics : list string }.
Record MsgEthereumTxResponse : Type := mkResponse {
  VmError : string;
  Ret : bytes;
  Logs : list EthLog
}.
Definition Failed (res : MsgEthereumTxResponse) : bool := negb (bool_decide (VmError res = "")).

(** [ethtypes.NewMessage] of a call without value and fees, whose nonce is checked. *)
Record EthMessage : Type := NewMessage {
  mFrom : bytes;
  mTo : option bytes;
  mNonce : Z;
  mGasLimit : Z;
  mData : bytes
}.

Record EvmWorld (B W : Type) : Type := mkWorld {
  wState : EvmState B;
  wEvm : W
}.
Arguments mkWorld {B W}.
Arguments wState {B W}.
Arguments wEvm {B W}.

Class EvmKeeper (B W : Type) : Type := {
  (** The account keeper's sequence number; an error if there is no account. *)
  GetSequence : AccAddress -> W -> outcome Z;
  (** A query: it does not change the state. *)
  EstimateGas : bytes -> option bytes -> bytes -> EvmWorld B W -> outcome Z;
  ApplyMessage : EthMessage -> EvmWorld B W -> outcome (MsgEthereumTxResponse * EvmWorld B W)
}.

(** ** types/conversion_pair.go, types/params.go *)
Record ConversionPair : Type := mkPair { ZgChainERC20Address : bytes; cpDenom : string }.
Record AllowedCosmosCoinERC20Token : Type := NewAllowedCosmosCoinERC20Token {
  CosmosDenom : string;
  Name : string;
  Symbol : string;
  Decimals : Z
}.
Abbreviation ConversionPairs := (list ConversionPair).
Abbreviation AllowedCosmosCoinERC20Tokens := (list AllowedCosmosCoinERC20Token).
Record Params : Type := NewParams {
  EnabledConversionPairs : ConversionPairs;
  AllowedCosmosDenoms : AllowedCosmosCoinERC20Tokens
}.
Definition DefaultParams : Params := NewParams [] [].

#[export] Instance ConversionPair_eq_dec : EqDecision ConversionPair.
Proof. solve_decision. Defined.

(** [common.AddressLength], and the address [common.Address{}]. *)
Definition AddressLength : nat := 20.
Definition zero_address : bytes := repeat 0 AddressLength.

Section Types.
  Context {cfg : SdkConfig} {eth : EthConfig}.

(** [types.InternalEVMAddress] wraps a [common.Address]: its bytes. *)
Definition Address_IsNil (a : bytes) : bool := bool_decide (a = zero_address).
Definition BytesToInternalEVMAddress (bz : bytes) : bytes := BytesToAddress bz.
Definition NewInternalEVMAddressFromString (addrStr : string) : outcome bytes :=
  if negb (IsHexAddress addrStr) then Err (Plain "string is not a hex address")
  else Ok (HexToAddress addrStr).
Definition ModuleEVMAddress : bytes := BytesToAddress (NewModuleAddress EvmutilName).

Definition NewConversionPair (address : bytes) (denom : string) : ConversionPair := mkPair address denom.
Definition GetAddress (pair : ConversionPair) : bytes := BytesToAddress (ZgChainERC20Address pair).

Definition ConversionPair_Validate (pair : ConversionPair) : outcome unit :=
  if negb (ValidateDenom (cpDenom pair)) then Err (Plain "conversion pair denom invalid") else
  if negb (Nat.eqb (length (ZgChainERC20Address pair)) AddressLength)
  then Err (Plain "unexpected address length") else
  if bool_decide (ZgChainERC20Address pair = zero_address)
  then Err (Plain "address cannot be zero value") else Ok tt.

(** The loop keeps the addresses (in hexadecimal) and denominations seen. *)
Fixpoint ConversionPairs_Validate_from (addrs denoms : gset string) (pairs : ConversionPairs)
    : outcome unit :=
  match pairs with
  | [] => Ok tt
  | p :: pairs =>
      if bool_decide (hex_EncodeToString (ZgChainERC20Address p) ∈ addrs)
      then Err (Plain "found duplicate enabled conversion pair internal ERC20 address") else
      if bool_decide (cpDenom p ∈ denoms)
      then Err (Plain "found duplicate enabled conversion pair denom") else
      let! _ := ConversionPair_Validate p in
      ConversionPairs_Validate_from ({[hex_EncodeToString (ZgChainERC20Address p)]} ∪ addrs)
        ({[cpDenom p]} ∪ denoms) pairs
  end.
Definition ConversionPairs_Validate (pairs : ConversionPairs) : outcome unit :=
  ConversionPairs_Validate_from ∅ ∅ pairs.

Definition Token_Validate (token : AllowedCosmosCoinERC20Token) : outcome unit :=
  if negb (ValidateDenom (CosmosDenom token)) then Err (Plain "token's sdk denom is invalid") else
  if bool_decide (Name token = "") then Err (Plain "token's name cannot be empty") else
  if bool_decide (Symbol token = "") then Err (Plain "token's symbol cannot be empty") else
  if Decimals token >? 255 then Err (Plain "token's decimals must be less than 256") else Ok tt.

Fixpoint Tokens_Validate_from (denoms symbols : gset string) (tokens : AllowedCosmosCoinERC20Tokens)
    : outcome unit :=
  match tokens with
  | [] => Ok tt
  | t :: tokens =>
      match Token_Validate t with
      | Err _ => Err (Plain "invalid token")
      | Panic w => Panic w
      | Ok _ =>
          if bool_decide (CosmosDenom t ∈ denoms) then Err (Plain "found duplicate token with sdk denom") else
          if bool_decide (Symbol t ∈ symbols) then Err (Plain "found duplicate token with symbol") else
          Tokens_Validate_from ({[CosmosDenom t]} ∪ denoms) ({[Symbol t]} ∪ symbols) tokens
      end
  end.
Definition Tokens_Validate (tokens : AllowedCosmosCoinERC20Tokens) : outcome unit :=
  Tokens_Validate_from ∅ ∅ tokens.

Definition Params_Validate (p : Params) : outcome unit :=
  let! _ := ConversionPairs_Validate (EnabledConversionPairs p) in
  Tokens_Validate (AllowedCosmosDenoms p).
End Types.

(** ** State of the module *)
Record ConvState (B W : Type) : Type := mkConv {
  cvParams : Params;
  (** Stored bytes of the contract that wraps a denomination. *)
  cvContracts : gmap string bytes;
  cvWorld : EvmWorld B W
}.
Arguments mkConv {B W}.
Arguments cvParams {B W}.
Arguments cvContracts {B W}.
Arguments cvWorld {B W}.

(** [errorsmod.Wrapf(e, "...", err.Error())]: the error is replaced by [e]. *)
Definition rewrap {A} (e : error) (o : outcome A) : outcome A :=
  match o with Err _ => Err e | o => o end.

Section Keeper.
  Context {cfg : SdkConfig} {eth : EthConfig} {B W : Type} {bk : BankKeeper B} {evm : EvmKeeper B W}.
  Implicit Types s : ConvState B W.

Definition cv_bank s : B := evBank (wState (cvWorld s)).
Definition set_world (x : EvmWorld B W) s : ConvState B W := mkConv (cvParams s) (cvContracts s) x.
(** A call of the bank keeper. *)
Definition conv_bank (f : B -> outcome B) s : outcome (ConvState B W) :=
  let! b := f (cv_bank s) in
  Ok (set_world (mkWorld (mkEvmState (evAccounts (wState (cvWorld s))) b) (wEvm (cvWorld s))) s).

(** ** keeper/params.go *)

(** The parameter subspace runs the validation functions of [ParamSetPairs] and
    panics on an invalid value. *)
Definition SetParams (params : Params) s : outcome (ConvState B W) :=
  let! _ := must (ConversionPairs_Validate (EnabledConversionPairs params)) in
  let! _ := must (Tokens_Validate (AllowedCosmosDenoms params)) in
  Ok (mkConv params (cvContracts s) (cvWorld s)).

Definition GetAllowedTokenMetadata s (cosmosDenom : string) : option AllowedCosmosCoinERC20Token :=
  List.find (fun token => bool_decide (CosmosDenom token = cosmosDenom)) (AllowedCosmosDenoms (cvParams s)).

Definition GetEnabledConversionPairFromERC20Address s (address : bytes) : outcome ConversionPair :=
  match List.find (fun pair => bool_decide (ZgChainERC20Address pair = address))
          (EnabledConversionPairs (cvParams s)) with
  | Some p => Ok p
  | None => Err ErrEVMConversionNotEnabled
  end.

Definition GetEnabledConversionPairFromDenom s (denom : string) : outcome ConversionPair :=
  match List.find (fun pair => bool_decide (cpDenom pair = denom)) (EnabledConversionPairs (cvParams s)) with
  | Some p => Ok p
  | None => Err ErrEVMConversionNotEnabled
  end.

(** ** keeper/keeper.go: deployed contracts *)
Definition SetDeployedCosmosCoinContract (cosmosDenom : string) (contractAddress : bytes) s
    : outcome (ConvState B W) :=
  if negb (ValidateDenom cosmosDenom) then Err ErrInvalidCosmosDenom else
  if Address_IsNil contractAddress then Err ErrInvalidAddress else
  Ok (mkConv (cvParams s) (<[cosmosDenom := contractAddress]> (cvContracts s)) (cvWorld s)).

Definition GetDeployedCosmosCoinContract s (cosmosDenom : string) : bytes * bool :=
  let bz := default [] (cvContracts s !! cosmosDenom) in
  (BytesToInternalEVMAddress bz, negb (Nat.eqb (length bz) 0)).

(** The entries that [IterateAllDeployedCosmosCoinContracts] visits, in key order. *)
Definition deployed_contracts s : list (string * bytes) :=
  map (fun kv => (kv.1, BytesToInternalEVMAddress kv.2)) (string_iterator (cvContracts s)).

(** ** keeper/evm.go *)
Definition CallEVMWithData (from : bytes) (contract : option bytes) (data : bytes) s
    : outcome (MsgEthereumTxResponse * ConvState B W) :=
  let! nonce := GetSequence from (wEvm (cvWorld s)) in
  let! gas := rewrap ErrVMExecution (EstimateGas from contract data (cvWorld s)) in
  let! '(res, x) := ApplyMessage (NewMessage from contract nonce gas data) (cvWorld s) in
  if Failed res then Err ErrVMExecution else Ok (res, set_world x s).

Definition CallEVM (abi : CompiledContract) (from contract : bytes) (method : string)
    (args : list AbiValue) s : outcome (MsgEthereumTxResponse * ConvState B W) :=
  let! data := rewrap ErrABIPack (ABI_Pack abi method args) in
  CallEVMWithData from (Some contract) data s.

Definition logApprovalSigHash : string := Keccak256Hash_Hex (string_bytes "Approval(address,address,uint256)").

(** [log.Topics[0]] of a log without topics is out of range. *)
Fixpoint monitor_logs (logs : list EthLog) : outcome unit :=
  match logs with
  | [] => Ok tt
  | log :: logs =>
      match Topics log with
      | [] => Panic "index out of range"
      | topic :: _ =>
          if bool_decide (topic = logApprovalSigHash) then Err ErrUnexpectedContractEvent
          else monitor_logs logs
      end
  end.
Definition monitorApprovalEvent (res : MsgEthereumTxResponse) : outcome unit :=
  match Logs res with [] => Ok tt | logs => monitor_logs logs end.

(** ** keeper/erc20.go *)
Definition unpackERC20ResToBigInt (res : MsgEthereumTxResponse) (methodName : string) : outcome Z :=
  if Failed res then
    if bool_decide (VmError res = "execution reverted") then Err (Plain "execution reverted")
    else Err (Plain (VmError res))
  else if Nat.eqb (length (Ret res)) 0 then Err (Plain "expected response to be big.Int but found nil") else
  let! anyOutput := rewrap (Plain "failed to unpack method") (ABI_Unpack ERC20MintableBurnableContract methodName (Ret res)) in
  match anyOutput with
  | [AInt bal] => Ok bal
  | [_] => Err (Plain "invalid ERC20 return type")
  | _ => Err (Plain "invalid ERC20 call return outputs")
  end.

Definition QueryERC20BalanceOf (contractAddr account : bytes) s : outcome (Z * ConvState B W) :=
  let! '(res, s) := CallEVM ERC20MintableBurnableContract ModuleEVMAddress contractAddr "balanceOf"
                      [AAddress account] s in
  let! bal := unpackERC20ResToBigInt res "balanceOf" in
  Ok (bal, s).

Definition QueryERC20TotalSupply (contractAddr : bytes) s : outcome (Z * ConvState B W) :=
  let! '(res, s) := CallEVM ERC20ZgChainWrappedCosmosCoinContract ModuleEVMAddress contractAddr
                      "totalSupply" [] s in
  let! supply := unpackERC20ResToBigInt res "totalSupply" in
  Ok (supply, s).

Definition MintERC20 (contractAddr receiver : bytes) (amount : Z) s : outcome (ConvState B W) :=
  let! '(_, s) := CallEVM ERC20MintableBurnableContract ModuleEVMAddress contractAddr "mint"
                    [AAddress receiver; AInt amount] s in
  Ok s.

Definition BurnERC20 (contractAddr initiator : bytes) (amount : Z) s : outcome (ConvState B W) :=
  let! '(_, s) := CallEVM ERC20ZgChainWrappedCosmosCoinContract ModuleEVMAddress contractAddr "burn"
                    [AAddress initiator; AInt amount] s in
  Ok s.

(** The address of the new contract is computed from the nonce before it is
    created. *)
Definition DeployTestMintableERC20Contract (name symbol : string) (decimals : Z) s
    : outcome (bytes * ConvState B W) :=
  let! ctorArgs := ABI_Pack ERC20MintableBurnableContract ""
                     [AString name; AString symbol; AUint8 decimals] in
  let! nonce := GetSequence ModuleEVMAddress (wEvm (cvWorld s)) in
  let contractAddr := CreateAddress ModuleEVMAddress nonce in
  let! '(_, s) := CallEVMWithData ModuleEVMAddress None (Bin ERC20MintableBurnableContract ++ ctorArgs) s in
  Ok (contractAddr, s).

Definition DeployZgChainWrappedCosmosCoinERC20Contract (token : AllowedCosmosCoinERC20Token) s
    : outcome (bytes * ConvState B W) :=
  let! _ := Token_Validate token in
  let! packedAbi := ABI_Pack ERC20ZgChainWrappedCosmosCoinContract ""
                      [AString (Name token); AString (Symbol token); AUint8 (Z.land (Decimals token) 255)] in
  let! nonce := GetSequence ModuleEVMAddress (wEvm (cvWorld s)) in
  let contractAddr := CreateAddress ModuleEVMAddress nonce in
  let! '(_, s) := rewrap (Plain "failed to deploy ERC20")
                    (CallEVMWithData ModuleEVMAddress None
                       (Bin ERC20ZgChainWrappedCosmosCoinContract ++ packedAbi) s) in
  Ok (contractAddr, s).

Definition GetOrDeployCosmosCoinERC20Contract (tokenInfo : AllowedCosmosCoinERC20Token) s
    : outcome (bytes * ConvState B W) :=
  let '(contractAddress, found) := GetDeployedCosmosCoinContract s (CosmosDenom tokenInfo) in
  if found then Ok (contractAddress, s) else
  let! '(contractAddress, s) := DeployZgChainWrappedCosmosCoinERC20Contract tokenInfo s in
  let! s := SetDeployedCosmosCoinContract (CosmosDenom tokenInfo) contractAddress s in
  Ok (contractAddress, s).

(** ** keeper/conversion_evm_native.go *)
Definition MintConversionPairCoin (pair : ConversionPair) (amount : Z) (recipient : AccAddress) s
    : outcome (Coin * ConvState B W) :=
  let! amt := int_chk amount in
  let! coin := NewCoin (cpDenom pair) amt in
  let! coins := NewCoins1 coin in
  let! s := conv_bank (MintCoins EvmutilName coins) s in
  let! s := conv_bank (SendCoinsFromModuleToAccount EvmutilName recipient coins) s in
  Ok (coin, s).

Definition BurnConversionPairCoin (pair : ConversionPair) (coin : Coin) (account : AccAddress) s
    : outcome (ConvState B W) :=
  let! coins := NewCoins1 coin in
  let! s := conv_bank (SendCoinsFromAccountToModule account EvmutilName coins) s in
  conv_bank (BurnCoins EvmutilName coins) s.

Definition UnlockERC20Tokens (pair : ConversionPair) (amount : Z) (receiver : bytes) s
    : outcome (ConvState B W) :=
  let contractAddr := GetAddress pair in
  let! '(startBal, s) := rewrap ErrEVMCall (QueryERC20BalanceOf contractAddr receiver s) in
  let! '(res, s) := CallEVM ERC20MintableBurnableContract ModuleEVMAddress (GetAddress pair) "transfer"
                      [AAddress receiver; AInt amount] s in
  let! '(endBal, s) := rewrap ErrEVMCall (QueryERC20BalanceOf contractAddr receiver s) in
  let expectedEndBal := startBal + amount in
  if negb (expectedEndBal =? endBal) then Err ErrBalanceInvariance else
  let! _ := monitorApprovalEvent res in
  Ok s.

Definition LockERC20Tokens (pair : ConversionPair) (amount : Z) (initiator : bytes) s
    : outcome (ConvState B W) :=
  let contractAddr := GetAddress pair in
  let! '(initiatorStartBal, s) := rewrap ErrEVMCall (QueryERC20BalanceOf contractAddr initiator s) in
  let! '(res, s) := CallEVM ERC20MintableBurnableContract initiator contractAddr "transfer"
                      [AAddress ModuleEVMAddress; AInt amount] s in
  let! '(initiatorEndBal, s) := rewrap ErrEVMCall (QueryERC20BalanceOf contractAddr initiator s) in
  let expectedEndBal := initiatorStartBal - amount in
  if negb (expectedEndBal =? initiatorEndBal) then Err ErrBalanceInvariance else
  let! _ := monitorApprovalEvent res in
  Ok s.

Definition ConvertCoinToERC20 (initiatorAccount : AccAddress) (receiverAccount : bytes) (coin : Coin) s
    : outcome (ConvState B W) :=
  let! pair := GetEnabledConversionPairFromDenom s (Denom coin) in
  let! s := BurnConversionPairCoin pair coin initiatorAccount s in
  UnlockERC20Tokens pair (Amount coin) receiverAccount s.

Definition ConvertERC20ToCoin (initiator : bytes) (receiver : AccAddress) (contractAddr : bytes)
    (amount : Z) s : outcome (ConvState B W) :=
  let! pair := GetEnabledConversionPairFromERC20Address s contractAddr in
  let! s := LockERC20Tokens pair amount initiator s in
  let! '(_, s) := MintConversionPairCoin pair amount receiver s in
  Ok s.

(** ** keeper/conversion_cosmos_native.go *)
Definition ConvertCosmosCoinToERC20 (initiator : AccAddress) (receiver : bytes) (amount : Coin) s
    : outcome (ConvState B W) :=
  match GetAllowedTokenMetadata s (Denom amount) with
  | None => Err ErrSDKConversionNotEnabled
  | Some tokenInfo =>
      let! coins := NewCoins1 amount in
      let! s := conv_bank (SendCoinsFromAccountToModule initiator EvmutilName coins) s in
      let! '(contractAddress, s) := GetOrDeployCosmosCoinERC20Contract tokenInfo s in
      MintERC20 contractAddress receiver (Amount amount) s
  end.

Definition ConvertCosmosCoinFromERC20 (initiator : bytes) (receiver : AccAddress) (coin : Coin) s
    : outcome (ConvState B W) :=
  let amount := Amount coin in
  let '(contractAddress, found) := GetDeployedCosmosCoinContract s (Denom coin) in
  if negb found then Err ErrInvalidCosmosDenom else
  let! '(balance, s) := rewrap ErrEVMCall (QueryERC20BalanceOf contractAddress initiator s) in
  if balance <? amount then Err ErrInsufficientFunds else
  let! s := BurnERC20 contractAddress initiator amount s in
  let! coins := NewCoins1 coin in
  conv_bank (SendCoinsFromModuleToAccount EvmutilName receiver coins) s.

(** ** keeper/invariants.go

    An invariant returns whether it is broken, and the state after its queries;
    a failed query panics.  The variable [broken] belongs to the closure. *)
Fixpoint backed_coins_loop (pairs : ConversionPairs) (broken : bool) s : outcome (bool * ConvState B W) :=
  match pairs with
  | [] => Ok (broken, s)
  | p :: pairs =>
      let! '(erc20Balance, s) := must (QueryERC20BalanceOf (GetAddress p) ModuleEVMAddress s) in
      if GetSupply (cv_bank s) (cpDenom p) >? erc20Balance then Ok (true, s)
      else backed_coins_loop pairs broken s
  end.
Definition BackedCoinsInvariant (broken : bool) s : outcome (bool * ConvState B W) :=
  backed_coins_loop (EnabledConversionPairs (cvParams s)) broken s.

(** The callback stops the iteration as soon as [broken] is set, also by an earlier run. *)
Fixpoint fully_backed_loop (contracts : list (string * bytes)) (broken : bool) s
    : outcome (bool * ConvState B W) :=
  match contracts with
  | [] => Ok (broken, s)
  | c :: contracts =>
      let moduleBalance := GetBalance (cv_bank s) (NewModuleAddress EvmutilName) c.1 in
      let! '(totalSupply, s) := must (QueryERC20TotalSupply c.2 s) in
      let broken := broken || negb (totalSupply =? moduleBalance) in
      if broken then Ok (broken, s) else fully_backed_loop contracts broken s
  end.
Definition CosmosCoinsFullyBackedInvariant (broken : bool) s : outcome (bool * ConvState B W) :=
  fully_backed_loop (deployed_contracts s) broken s.

(** Each of the closures is new in [AllInvariants]. *)
Definition AllInvariants s : outcome (bool * ConvState B W) :=
  let! stop := FullyBackedInvariant (NewModuleAddress EvmutilName) (wState (cvWorld s)) in
  if stop then Ok (true, s) else
  let! '(stop, s) := BackedCoinsInvariant false s in
  if stop then Ok (true, s) else
  let! '(stop, s) := CosmosCoinsFullyBackedInvariant false s in
  if stop then Ok (true, s) else
  Ok (SmallBalancesInvariant false (wState (cvWorld s)), s).

(** ** keeper/grpc_query.go: contracts by denomination *)
Definition DefaultLimit : nat := 100.
Definition getDeployedCosmosCoinContractsByDenoms s (denoms : list string)
    : outcome (list (string * bytes)) :=
  if Nat.ltb DefaultLimit (length denoms) then Err (Plain "maximum of 100 denoms allowed per request") else
  Ok (omap (fun denom => let '(address, found) := GetDeployedCosmosCoinContract s denom in
                         if found then Some (denom, address) else None) denoms).

(** ** genesis.go, types/genesis.go *)
Record GenesisState : Type := NewGenesisState { gsAccounts : list Account; gsParams : Params }.
Definition DefaultGenesisState : GenesisState := NewGenesisState [] DefaultParams.

Fixpoint validate_accounts (seenAccounts : gset string) (accounts : list Account) : outcome unit :=
  match accounts with
  | [] => Ok tt
  | account :: accounts =>
      if bool_decide (AccAddress_String (acAddress account) ∈ seenAccounts)
      then Err (Plain "duplicate account for address") else
      let! _ := Account_Validate account in
      validate_accounts ({[AccAddress_String (acAddress account)]} ∪ seenAccounts) accounts
  end.
Definition GenesisState_Validate (gs : GenesisState) : outcome unit :=
  let! _ := validate_accounts ∅ (gsAccounts gs) in
  Params_Validate (gsParams gs).

(** [SetAccount]'s error is dropped: the account is then not stored. *)
Definition set_genesis_account (account : Account) (e : EvmState B) : outcome (EvmState B) :=
  match SetAccount account e with Err _ => Ok e | o => o end.

(** [moduleAccount] says whether the account keeper has the module account. *)
Definition InitGenesis (moduleAccount : bool) (gs : GenesisState) s : outcome (ConvState B W) :=
  let! _ := must (GenesisState_Validate gs) in
  let! s := SetParams (gsParams gs) s in
  if negb moduleAccount then Panic "module account has not been set" else
  let! e := ofold set_genesis_account (gsAccounts gs) (wState (cvWorld s)) in
  Ok (set_world (mkWorld e (wEvm (cvWorld s))) s).

Definition ExportGenesis s : GenesisState :=
  NewGenesisState (GetAllAccounts (wState (cvWorld s))) (cvParams s).
End Keeper.
