(* ===== verification/EvmConvertSpec.v ===== *)
(** * x/evmutil: what the conversions rely on, and what they do

    The contracts are seen through [Erc20View]: balances and supply of a token, and
    which addresses hold a standard token or a wrapped-coin contract owned by the
    module.  [Erc20Laws] is what the ERC20 standard and the wrapped-coin contract
    promise of an executed call, [Erc20Runs] which calls execute.  Against them
    every keeper function of the conversions gets its exact effect. *)

From S2P Require Import Prelude Sdk GoStd Bank Evmutil EvmutilTheorems EvmConvert.

(** The keeper's addresses are 20 bytes; the module account's is the account
    keeper's address of the module. *)
Class EthLaws {eth : EthConfig} (B : Type) {bk : BankKeeper B} : Prop := {
  BytesToAddress_length b : length (BytesToAddress b) = AddressLength;
  BytesToAddress_id b : length b = AddressLength -> BytesToAddress b = b;
  CreateAddress_length a n : length (CreateAddress a n) = AddressLength;
  HexToAddress_length h : length (HexToAddress h) = AddressLength;
  HexToAddress_Hex a : Forall is_byte a -> length a = AddressLength -> HexToAddress (Address_Hex a) = a;
  IsHexAddress_Hex a : Forall is_byte a -> length a = AddressLength -> IsHexAddress (Address_Hex a) = true;
  evmutil_nonzero : NewModuleAddress EvmutilName <> zero_address;
  NewModuleAddress_length m : length (NewModuleAddress m) = AddressLength;
  evmutil_account : GetModuleAddress EvmutilName = Some (NewModuleAddress EvmutilName)
}.

(** The bank refuses to send coins to the module account of evmutil: no module
    account is unblocked in [app.go]. *)
Class BankBlocks {eth : EthConfig} (B : Type) {bk : BankKeeper B} : Prop := {
  evmutil_blocked b b' cs :
    SendCoinsFromModuleToAccount EvmutilName (NewModuleAddress EvmutilName) cs b = Ok b' -> False
}.

(** What the bank executes: sends of spendable coins to the module, burns of the
    module's coins, sends of the module's coins to accounts that are not blocked. *)
Class BankTotal {cfg : SdkConfig} {eth : EthConfig} (B : Type) {bk : BankKeeper B} : Type := {
  BlockedAddr : AccAddress -> bool;
  to_evmutil_total b x coin cs : NewCoins1 coin = Ok cs -> Amount coin <= Spendable b x (Denom coin) ->
    exists b', SendCoinsFromAccountToModule x EvmutilName cs b = Ok b';
  evmutil_burn_total b coin cs : NewCoins1 coin = Ok cs ->
    Amount coin <= GetBalance b (NewModuleAddress EvmutilName) (Denom coin) ->
    exists b', BurnCoins EvmutilName cs b = Ok b';
  from_evmutil_total b y coin cs : NewCoins1 coin = Ok cs -> BlockedAddr y = false ->
    Amount coin <= GetBalance b (NewModuleAddress EvmutilName) (Denom coin) ->
    exists b', SendCoinsFromModuleToAccount EvmutilName y cs b = Ok b'
}.

Class Erc20View (W : Type) : Type := {
  tok_balance : W -> bytes -> bytes -> Z;
  tok_supply : W -> bytes -> Z;
  has_code : W -> bytes -> Prop;
  (** A token contract that follows the ERC20 standard. *)
  standard : W -> bytes -> Prop;
  (** The wrapped-coin contract, with the module as its owner. *)
  module_owned : W -> bytes -> Prop
}.

Section View.
  Context {cfg : SdkConfig} {eth : EthConfig} {B W : Type} {bk : BankKeeper B} {evm : EvmKeeper B W}.
  Context {view : Erc20View W}.
  Implicit Types x : EvmWorld B W.
  Implicit Types w : W.

(** A message that the keeper estimates, applies, and that does not fail. *)
Definition runs x (from : bytes) (to : option bytes) (data : bytes) (res : MsgEthereumTxResponse) x' : Prop :=
  exists nonce gas, GetSequence from (wEvm x) = Ok nonce /\ EstimateGas from to data x = Ok gas
  /\ ApplyMessage (NewMessage from to nonce gas data) x = Ok (res, x') /\ Failed res = false.

Definition has_account w (a : bytes) : Prop := exists n, GetSequence a w = Ok n.

(** Contracts and accounts stay. *)
Record kinds w w' : Prop := {
  kd_code : forall c, has_code w c -> has_code w' c;
  kd_standard : forall c, standard w c -> standard w' c;
  kd_owned : forall c, module_owned w c -> module_owned w' c;
  kd_account : forall a, has_account w a -> has_account w' a
}.

(** A call changes the balances of the token [c] by [delta], its supply by
    [sigma], and nothing else. *)
Record token_step (c : bytes) (delta : bytes -> Z) (sigma : Z) x x' : Prop := {
  ts_state : wState x' = wState x;
  ts_balance : forall c' a, tok_balance (wEvm x') c' a = tok_balance (wEvm x) c' a + pay c (delta a) c';
  ts_supply : forall c', tok_supply (wEvm x') c' = tok_supply (wEvm x) c' + pay c sigma c';
  ts_kinds : kinds (wEvm x) (wEvm x')
}.

(** Logs without an [Approval] event. *)
Definition clean_logs (res : MsgEthereumTxResponse) : Prop :=
  Forall (fun l => exists t ts, Topics l = t :: ts /\ t <> logApprovalSigHash) (Logs res).
End View.

Abbreviation no_change := (fun _ => 0).

Class Erc20Laws {cfg : SdkConfig} {eth : EthConfig} (B W : Type) {bk : BankKeeper B} {evm : EvmKeeper B W}
    {view : Erc20View W} : Prop := {
  owned_standard w c : module_owned w c -> standard w c;
  standard_code w c : standard w c -> has_code w c;
  tok_balance_nonneg w c a : 0 <= tok_balance w c a;
  (** The supply of a standard token is the sum of its balances. *)
  tok_balance_total w c a : standard w c -> tok_balance w c a <= tok_supply w c;
  (** Where there is no contract there are no tokens. *)
  no_code w c : ~ has_code w c -> tok_supply w c = 0 /\ forall a, tok_balance w c a = 0;
  (** Queries. *)
  balanceOf_effect x x' c a from data res : standard (wEvm x) c ->
    ABI_Pack ERC20MintableBurnableContract "balanceOf" [AAddress a] = Ok data ->
    runs x from (Some c) data res x' ->
    token_step c no_change 0 x x' /\ Ret res <> []
    /\ ABI_Unpack ERC20MintableBurnableContract "balanceOf" (Ret res) = Ok [AInt (tok_balance (wEvm x) c a)];
  totalSupply_effect x x' c from data res : standard (wEvm x) c ->
    ABI_Pack ERC20ZgChainWrappedCosmosCoinContract "totalSupply" [] = Ok data ->
    runs x from (Some c) data res x' ->
    token_step c no_change 0 x x' /\ Ret res <> []
    /\ ABI_Unpack ERC20MintableBurnableContract "totalSupply" (Ret res) = Ok [AInt (tok_supply (wEvm x) c)];
  (** [transfer] moves the sender's tokens. *)
  transfer_effect x x' c from to amt data res : standard (wEvm x) c -> 0 <= amt < 2 ^ 256 ->
    ABI_Pack ERC20MintableBurnableContract "transfer" [AAddress to; AInt amt] = Ok data ->
    runs x from (Some c) data res x' ->
    amt <= tok_balance (wEvm x) c from
    /\ token_step c (fun a => pay from (- amt) a + pay to amt a) 0 x x';
  (** [mint] and [burn] of the owner. *)
  mint_tokens x x' c to amt data res : module_owned (wEvm x) c -> 0 <= amt < 2 ^ 256 ->
    ABI_Pack ERC20MintableBurnableContract "mint" [AAddress to; AInt amt] = Ok data ->
    runs x ModuleEVMAddress (Some c) data res x' ->
    token_step c (pay to amt) amt x x';
  burn_tokens x x' c from amt data res : module_owned (wEvm x) c -> 0 <= amt < 2 ^ 256 ->
    ABI_Pack ERC20ZgChainWrappedCosmosCoinContract "burn" [AAddress from; AInt amt] = Ok data ->
    runs x ModuleEVMAddress (Some c) data res x' ->
    amt <= tok_balance (wEvm x) c from /\ token_step c (pay from (- amt)) (- amt) x x';
  (** Contract creation: at the address of sender and nonce, where no code was. *)
  deploy_effect x x' n name symbol dec packed res :
    ABI_Pack ERC20ZgChainWrappedCosmosCoinContract "" [AString name; AString symbol; AUint8 dec] = Ok packed ->
    GetSequence ModuleEVMAddress (wEvm x) = Ok n ->
    runs x ModuleEVMAddress None (Bin ERC20ZgChainWrappedCosmosCoinContract ++ packed) res x' ->
    ~ has_code (wEvm x) (CreateAddress ModuleEVMAddress n)
    /\ module_owned (wEvm x') (CreateAddress ModuleEVMAddress n)
    /\ token_step (CreateAddress ModuleEVMAddress n) no_change 0 x x'
}.

(** Calls that execute. *)
Class Erc20Runs {cfg : SdkConfig} {eth : EthConfig} (B W : Type) {bk : BankKeeper B} {evm : EvmKeeper B W}
    {view : Erc20View W} : Prop := {
  balanceOf_runs x c a : standard (wEvm x) c -> has_account (wEvm x) ModuleEVMAddress ->
    exists data res x', ABI_Pack ERC20MintableBurnableContract "balanceOf" [AAddress a] = Ok data
    /\ runs x ModuleEVMAddress (Some c) data res x';
  totalSupply_runs x c : standard (wEvm x) c -> has_account (wEvm x) ModuleEVMAddress ->
    exists data res x', ABI_Pack ERC20ZgChainWrappedCosmosCoinContract "totalSupply" [] = Ok data
    /\ runs x ModuleEVMAddress (Some c) data res x';
  transfer_runs x c from to amt : standard (wEvm x) c -> has_account (wEvm x) from -> from <> zero_address ->
    to <> zero_address -> 0 <= amt <= tok_balance (wEvm x) c from ->
    exists data res x', ABI_Pack ERC20MintableBurnableContract "transfer" [AAddress to; AInt amt] = Ok data
    /\ runs x from (Some c) data res x' /\ clean_logs res;
  mint_runs x c to amt : module_owned (wEvm x) c -> has_account (wEvm x) ModuleEVMAddress -> to <> zero_address ->
    0 <= amt -> tok_supply (wEvm x) c + amt < 2 ^ 256 ->
    exists data res x', ABI_Pack ERC20MintableBurnableContract "mint" [AAddress to; AInt amt] = Ok data
    /\ runs x ModuleEVMAddress (Some c) data res x';
  burn_runs x c from amt : module_owned (wEvm x) c -> has_account (wEvm x) ModuleEVMAddress -> from <> zero_address ->
    0 <= amt <= tok_balance (wEvm x) c from ->
    exists data res x', ABI_Pack ERC20ZgChainWrappedCosmosCoinContract "burn" [AAddress from; AInt amt] = Ok data
    /\ runs x ModuleEVMAddress (Some c) data res x'
}.

(** ** Effects on the whole state *)

(** [n] at [d], zero elsewhere. *)
Definition at_denom (d : string) (n : Z) (d' : string) : Z := if bool_decide (d = d') then n else 0.

(** Moving, minting and burning [n] of the token [c]. *)
Definition on_token (c : bytes) (delta : bytes -> Z) (c' a : bytes) : Z := pay c (delta a) c'.
Definition transfer_delta (from to : bytes) (n : Z) (a : bytes) : Z := pay from (- n) a + pay to n a.

(** Decides the equalities of addresses and denominations in the amounts of an effect. *)
Ltac amounts :=
  intros; cbv beta; unfold on_token, transfer_delta, at_denom, pay;
  repeat case_bool_decide; try congruence; try lia.

Section Effects.
  Context {cfg : SdkConfig} {sdk : SdkLaws} {eth : EthConfig} {B W : Type} {bk : BankKeeper B}
    {bankl : BankLaws B} {ethl : EthLaws B} {evm : EvmKeeper B W} {view : Erc20View W}
    {laws : Erc20Laws B W}.
  Implicit Types s : ConvState B W.

Abbreviation U := (NewModuleAddress EvmutilName).
Definition tokens s (c a : bytes) : Z := tok_balance (wEvm (cvWorld s)) c a.
Definition token_total s (c : bytes) : Z := tok_supply (wEvm (cvWorld s)) c.

(** The step from [s] to [s'] changes coin balances, coin supplies, token balances
    and token supplies by the given amounts, adds at most contracts, and leaves the
    parameters and the stored fractions alone. *)
Record effect (coin : AccAddress -> string -> Z) (supply : string -> Z) (tok : bytes -> bytes -> Z)
    (total : bytes -> Z) s s' : Prop := {
  ef_params : cvParams s' = cvParams s;
  ef_fractions : evAccounts (wState (cvWorld s')) = evAccounts (wState (cvWorld s));
  ef_contracts : forall d c, cvContracts s !! d = Some c -> cvContracts s' !! d = Some c;
  ef_coin : forall a d, GetBalance (cv_bank s') a d = GetBalance (cv_bank s) a d + coin a d;
  ef_supply : forall d, GetSupply (cv_bank s') d = GetSupply (cv_bank s) d + supply d;
  ef_tok : forall c a, tokens s' c a = tokens s c a + tok c a;
  ef_total : forall c, token_total s' c = token_total s c + total c;
  ef_kinds : kinds (wEvm (cvWorld s)) (wEvm (cvWorld s'))
}.

Lemma kinds_refl w : kinds w w.
Proof. by split. Qed.
Lemma kinds_trans w1 w2 w3 : kinds w1 w2 -> kinds w2 w3 -> kinds w1 w3.
Proof. intros [] []. split; eauto. Qed.

#[export] Instance kinds_preorder : PreOrder (@kinds B W evm view).
Proof. split; [exact kinds_refl|exact kinds_trans]. Qed.

Lemma effect_trans c1 p1 t1 m1 c2 p2 t2 m2 s1 s2 s3 :
  effect c1 p1 t1 m1 s1 s2 -> effect c2 p2 t2 m2 s2 s3 ->
  effect (fun a d => c1 a d + c2 a d) (fun d => p1 d + p2 d) (fun c a => t1 c a + t2 c a)
    (fun c => m1 c + m2 c) s1 s3.
Proof.
  intros [P1 F1 C1 B1 S1 T1 M1 K1] [P2 F2 C2 B2 S2 T2 M2 K2]. split.
  - congruence.
  - congruence.
  - eauto.
  - intros a d. rewrite B2, B1. lia.
  - intros d. rewrite S2, S1. lia.
  - intros c a. rewrite T2, T1. lia.
  - intros c. rewrite M2, M1. lia.
  - by etransitivity.
Qed.

Lemma effect_eq c1 p1 t1 m1 c2 p2 t2 m2 s s' :
  effect c1 p1 t1 m1 s s' -> (forall a d, c1 a d = c2 a d) -> (forall d, p1 d = p2 d) ->
  (forall c a, t1 c a = t2 c a) -> (forall c, m1 c = m2 c) -> effect c2 p2 t2 m2 s s'.
Proof.
  intros [P F C Bc S T M K] Ec Ep Et Em. split; try done; intros; by rewrite <- ?Ec, <- ?Ep, <- ?Et, <- ?Em.
Qed.

(** An executed call of the token [c]. *)
Lemma token_step_effect c delta sigma x s :
  token_step c delta sigma (cvWorld s) x ->
  effect (fun _ => no_change) no_change (fun c' a => pay c (delta a) c') (pay c sigma) s (set_world x s).
Proof.
  intros [St Hb Hs Hk]. split; try done.
  - simpl. by rewrite St.
  - intros a d. unfold cv_bank; simpl. rewrite St. lia.
  - intros d. unfold cv_bank; simpl. rewrite St. lia.
Qed.

(** A bank operation sees and changes the bank only. *)
Lemma bank_effect coin supply f s s' :
  conv_bank f s = Ok s' ->
  (forall b b', f b = Ok b' ->
     (forall a d, GetBalance b' a d = GetBalance b a d + coin a d)
     /\ forall d, GetSupply b' d = GetSupply b d + supply d) ->
  effect coin supply (fun _ => no_change) no_change s s'.
Proof.
  unfold conv_bank. intros Hx Hf. go_inv Hx. subst. destruct (Hf _ _ Hcall) as [Hb Hs].
  split; try done; intros; unfold tokens, token_total; simpl; lia.
Qed.

Definition still : ConvState B W -> ConvState B W -> Prop :=
  effect (fun _ => no_change) no_change (fun _ => no_change) no_change.

Lemma still_l coin supply tok total s1 s2 s3 :
  still s1 s2 -> effect coin supply tok total s2 s3 -> effect coin supply tok total s1 s3.
Proof. intros H1 H2. eapply effect_eq; [exact (effect_trans _ _ _ _ _ _ _ _ _ _ _ H1 H2)|..]; amounts. Qed.

Lemma still_r coin supply tok total s1 s2 s3 :
  effect coin supply tok total s1 s2 -> still s2 s3 -> effect coin supply tok total s1 s3.
Proof. intros H1 H2. eapply effect_eq; [exact (effect_trans _ _ _ _ _ _ _ _ _ _ _ H1 H2)|..]; amounts. Qed.

(** ** keeper/evm.go *)
Lemma rewrap_Ok {A} e (o : outcome A) a : rewrap e o = Ok a <-> o = Ok a.
Proof. by destruct o. Qed.

Lemma CallEVMWithData_Ok from to data s res s' :
  CallEVMWithData from to data s = Ok (res, s') <->
  exists x, runs (cvWorld s) from to data res x /\ s' = set_world x s.
Proof.
  unfold CallEVMWithData, runs. split.
  - intros Hx. go_inv Hx. subst. rewrite rewrap_Ok in Hcall0. simplify_eq. eauto 10.
  - intros (x & (n & g & Hn & Hg & Ha & Hf) & ->). rewrite Hn; simpl. rewrite Hg; simpl. by rewrite Ha; simpl; rewrite Hf.
Qed.

Lemma CallEVM_Ok abi from c method args s res s' :
  CallEVM abi from c method args s = Ok (res, s') <->
  exists data x, ABI_Pack abi method args = Ok data
    /\ runs (cvWorld s) from (Some c) data res x /\ s' = set_world x s.
Proof.
  unfold CallEVM. rewrite obind_Ok. setoid_rewrite rewrap_Ok. setoid_rewrite CallEVMWithData_Ok. naive_solver.
Qed.

(** A response is read as the integer it encodes. *)
Lemma unpack_Ok res method z :
  Failed res = false -> Ret res <> [] ->
  ABI_Unpack ERC20MintableBurnableContract method (Ret res) = Ok [AInt z] ->
  unpackERC20ResToBigInt res method = Ok z.
Proof.
  intros Hf Hr Hu. unfold unpackERC20ResToBigInt. rewrite Hf, Hu. by destruct (Ret res).
Qed.

Lemma runs_not_failed x from to data res x' : runs (B := B) (W := W) x from to data res x' -> Failed res = false.
Proof. by intros (? & ? & ? & ? & ? & ?). Qed.

(** No [Approval] event and no log without topics. *)
Lemma monitor_logs_Ok logs :
  monitor_logs logs = Ok tt <-> Forall (fun l => exists t ts, Topics l = t :: ts /\ t <> logApprovalSigHash) logs.
Proof.
  induction logs as [|l logs IH]; simpl; [by split; [constructor|]|].
  rewrite Forall_cons, <- IH. destruct (Topics l) as [|t ts].
  - split; [done|]. by intros [(? & ? & ? & _) _].
  - case_bool_decide as Ht; [|naive_solver]. split; [done|].
    intros [(t' & ts' & E & Hne) _]. injection E as <- <-. done.
Qed.

Lemma monitor_Ok res u : monitorApprovalEvent res = Ok u <-> clean_logs res.
Proof.
  destruct u. unfold clean_logs, monitorApprovalEvent. rewrite <- monitor_logs_Ok. by destruct (Logs res).
Qed.

(** ** keeper/erc20.go *)
Lemma QueryERC20BalanceOf_Ok c a s z s' :
  standard (wEvm (cvWorld s)) c -> QueryERC20BalanceOf c a s = Ok (z, s') ->
  z = tokens s c a /\ still s s'.
Proof.
  intros Hc Hx. unfold QueryERC20BalanceOf in Hx. go_inv Hx. simplify_eq.
  apply CallEVM_Ok in Hcall as (data & x & Hp & Hr & ->).
  destruct (balanceOf_effect _ _ _ _ _ _ _ Hc Hp Hr) as (Hs & Hne & Hu).
  rewrite (unpack_Ok _ _ _ (runs_not_failed _ _ _ _ _ _ Hr) Hne Hu) in Hcall0. injection Hcall0 as <-.
  split; [done|]. eapply effect_eq; [by apply token_step_effect|..]; amounts.
Qed.

Lemma QueryERC20TotalSupply_Ok c s z s' :
  standard (wEvm (cvWorld s)) c -> QueryERC20TotalSupply c s = Ok (z, s') ->
  z = token_total s c /\ still s s'.
Proof.
  intros Hc Hx. unfold QueryERC20TotalSupply in Hx. go_inv Hx. simplify_eq.
  apply CallEVM_Ok in Hcall as (data & x & Hp & Hr & ->).
  destruct (totalSupply_effect _ _ _ _ _ _ Hc Hp Hr) as (Hs & Hne & Hu).
  rewrite (unpack_Ok _ _ _ (runs_not_failed _ _ _ _ _ _ Hr) Hne Hu) in Hcall0. injection Hcall0 as <-.
  split; [done|]. eapply effect_eq; [by apply token_step_effect|..]; amounts.
Qed.

Lemma transfer_Ok c from to amt s res s' :
  standard (wEvm (cvWorld s)) c -> 0 <= amt < 2 ^ 256 ->
  CallEVM ERC20MintableBurnableContract from c "transfer" [AAddress to; AInt amt] s = Ok (res, s') ->
  amt <= tokens s c from
  /\ effect (fun _ => no_change) no_change (on_token c (transfer_delta from to amt)) no_change s s'.
Proof.
  intros Hc Ha Hx. apply CallEVM_Ok in Hx as (data & x & Hp & Hr & ->).
  destruct (transfer_effect _ _ _ _ _ _ _ _ Hc Ha Hp Hr) as [Hle Hs]. split; [done|].
  eapply effect_eq; [by apply token_step_effect|..]; amounts.
Qed.

Lemma MintERC20_Ok c to amt s s' :
  module_owned (wEvm (cvWorld s)) c -> 0 <= amt < 2 ^ 256 -> MintERC20 c to amt s = Ok s' ->
  effect (fun _ => no_change) no_change (on_token c (pay to amt)) (pay c amt) s s'.
Proof.
  intros Hc Ha Hx. unfold MintERC20 in Hx. go_inv Hx. subst.
  apply CallEVM_Ok in Hcall as (data & x & Hp & Hr & ->).
  by apply token_step_effect, (mint_tokens _ _ _ _ _ _ _ Hc Ha Hp Hr).
Qed.

Lemma BurnERC20_Ok c from amt s s' :
  module_owned (wEvm (cvWorld s)) c -> 0 <= amt < 2 ^ 256 -> BurnERC20 c from amt s = Ok s' ->
  effect (fun _ => no_change) no_change (on_token c (pay from (- amt))) (pay c (- amt)) s s'.
Proof.
  intros Hc Ha Hx. unfold BurnERC20 in Hx. go_inv Hx. subst.
  apply CallEVM_Ok in Hcall as (data & x & Hp & Hr & ->).
  by apply token_step_effect, (burn_tokens _ _ _ _ _ _ _ Hc Ha Hp Hr).
Qed.

(** ** keeper/conversion_evm_native.go *)
Lemma NewCoins1_at coin cs : NewCoins1 coin = Ok cs ->
  0 <= Amount coin /\ forall d, AmountOf cs d = at_denom (Denom coin) (Amount coin) d.
Proof. intros [H1 H2]%NewCoins1_Ok. split; [done|]. intros d. rewrite H2. by destruct coin. Qed.

Lemma send_to_evmutil x cs s s' :
  conv_bank (SendCoinsFromAccountToModule x EvmutilName cs) s = Ok s' ->
  effect (fun a d => pay x (- AmountOf cs d) a + pay U (AmountOf cs d) a) no_change
    (fun _ => no_change) no_change s s'.
Proof.
  intros Hx. eapply bank_effect; [exact Hx|]. intros b b' (y & Hy & Hm & Hs & _)%send_to_module.
  rewrite evmutil_account in Hy. injection Hy as <-. split; intros; rewrite ?Hm, ?Hs; unfold credit; amounts.
Qed.

Lemma send_from_evmutil y cs s s' :
  conv_bank (SendCoinsFromModuleToAccount EvmutilName y cs) s = Ok s' ->
  effect (fun a d => pay U (- AmountOf cs d) a + pay y (AmountOf cs d) a) no_change
    (fun _ => no_change) no_change s s'.
Proof.
  intros Hx. eapply bank_effect; [exact Hx|]. intros b b' (x & Hy & Hm & Hs & _)%send_from_module.
  rewrite evmutil_account in Hy. injection Hy as <-. split; intros; rewrite ?Hm, ?Hs; unfold credit; amounts.
Qed.

Lemma MintConversionPairCoin_Ok p n y s c s' :
  MintConversionPairCoin p n y s = Ok (c, s') ->
  0 <= n < 2 ^ 256 /\ cvContracts s' = cvContracts s
  /\ effect (fun a d => pay y (at_denom (cpDenom p) n d) a) (at_denom (cpDenom p) n)
       (fun _ => no_change) no_change s s'.
Proof.
  intros Hx. unfold MintConversionPairCoin in Hx. go_inv Hx. simplify_eq. coin_inv.
  apply NewCoins1_at in Hcall1 as [_ Ha]; cbn [Denom Amount] in Ha.
  split; [lia|]. split.
  { unfold conv_bank in Hcall2, Hcall3. go_inv Hcall2. go_inv Hcall3. by subst. }
  apply send_from_evmutil in Hcall3.
  eapply bank_effect in Hcall2; cycle 1.
  { intros b b' (x & Hy & Hm & Hs)%mint_effect. rewrite evmutil_account in Hy. injection Hy as <-.
    unfold credit in Hm. split; [exact Hm|exact Hs]. }
  eapply effect_eq; [exact (effect_trans _ _ _ _ _ _ _ _ _ _ _ Hcall2 Hcall3)|..]; intros; cbv beta;
    rewrite ?Ha; amounts.
Qed.

Lemma BurnConversionPairCoin_Ok p coin x s s' :
  BurnConversionPairCoin p coin x s = Ok s' ->
  0 <= Amount coin /\ cvContracts s' = cvContracts s
  /\ effect (fun a d => pay x (at_denom (Denom coin) (- Amount coin) d) a)
       (at_denom (Denom coin) (- Amount coin)) (fun _ => no_change) no_change s s'.
Proof.
  intros Hx. unfold BurnConversionPairCoin in Hx. go_inv Hx.
  apply NewCoins1_at in Hcall as [Hpos Ha]. split; [done|]. split.
  { unfold conv_bank in Hcall0, Hx. go_inv Hcall0. go_inv Hx. by subst. }
  apply send_to_evmutil in Hcall0.
  eapply (bank_effect (fun a d => - credit U a r d) (fun d => - AmountOf r d)) in Hx; cycle 1.
  { intros b b' (u & Hy & Hm & Hs)%burn_effect. rewrite evmutil_account in Hy. injection Hy as <-.
    split; intros; rewrite ?Hm, ?Hs; lia. }
  eapply effect_eq; [exact (effect_trans _ _ _ _ _ _ _ _ _ _ _ Hcall0 Hx)|..]; intros; cbv beta;
    unfold credit; rewrite ?Ha; amounts.
Qed.

Lemma still_standard s s' c : still s s' -> standard (wEvm (cvWorld s)) c -> standard (wEvm (cvWorld s')) c.
Proof. intros Hs. apply (ef_kinds _ _ _ _ _ _ Hs). Qed.
Lemma still_tokens s s' c a : still s s' -> tokens s' c a = tokens s c a.
Proof. intros Hs. rewrite (ef_tok _ _ _ _ _ _ Hs). lia. Qed.

Lemma call_contracts abi from c method args s res s' :
  CallEVM abi from c method args s = Ok (res, s') -> cvContracts s' = cvContracts s.
Proof. intros (? & ? & _ & _ & ->)%CallEVM_Ok. done. Qed.
Lemma query_contracts c a s z s' : QueryERC20BalanceOf c a s = Ok (z, s') -> cvContracts s' = cvContracts s.
Proof. unfold QueryERC20BalanceOf. intros Hx. go_inv Hx. simplify_eq. by eapply call_contracts. Qed.

(** The two checks of the code: the initiator pays, the receiver is paid. *)
Lemma UnlockERC20Tokens_Ok p n y s s' :
  standard (wEvm (cvWorld s)) (GetAddress p) -> 0 <= n < 2 ^ 256 -> UnlockERC20Tokens p n y s = Ok s' ->
  tokens s' (GetAddress p) y = tokens s (GetAddress p) y + n /\ n <= tokens s (GetAddress p) ModuleEVMAddress
  /\ cvContracts s' = cvContracts s
  /\ effect (fun _ => no_change) no_change (on_token (GetAddress p) (transfer_delta ModuleEVMAddress y n))
       no_change s s'.
Proof.
  intros Hc Hn Hx. unfold UnlockERC20Tokens in Hx. go_inv Hx. subst.
  rewrite rewrap_Ok in *. pose proof (query_contracts _ _ _ _ _ Hcall) as C1.
  pose proof (call_contracts _ _ _ _ _ _ _ _ Hcall0) as C2. pose proof (query_contracts _ _ _ _ _ Hcall1) as C3.
  apply QueryERC20BalanceOf_Ok in Hcall as [-> S1]; [|done].
  apply transfer_Ok in Hcall0 as [Hle E]; [|by eapply still_standard|done].
  assert (standard (wEvm (cvWorld c0)) (GetAddress p)) as Hc' by (apply (ef_kinds _ _ _ _ _ _ E); by eapply still_standard).
  apply QueryERC20BalanceOf_Ok in Hcall1 as [-> S2]; [|done].
  gobool. rewrite (still_tokens _ _ _ _ S2). rewrite (still_tokens _ _ _ _ S1) in Hle.
  split_and!; [lia|done|congruence|]. by eapply still_l, still_r.
Qed.

Lemma LockERC20Tokens_Ok p n x s s' :
  standard (wEvm (cvWorld s)) (GetAddress p) -> 0 <= n < 2 ^ 256 -> LockERC20Tokens p n x s = Ok s' ->
  tokens s' (GetAddress p) x = tokens s (GetAddress p) x - n /\ n <= tokens s (GetAddress p) x
  /\ cvContracts s' = cvContracts s
  /\ effect (fun _ => no_change) no_change (on_token (GetAddress p) (transfer_delta x ModuleEVMAddress n))
       no_change s s'.
Proof.
  intros Hc Hn Hx. unfold LockERC20Tokens in Hx. go_inv Hx. subst.
  rewrite rewrap_Ok in *. pose proof (query_contracts _ _ _ _ _ Hcall) as C1.
  pose proof (call_contracts _ _ _ _ _ _ _ _ Hcall0) as C2. pose proof (query_contracts _ _ _ _ _ Hcall1) as C3.
  apply QueryERC20BalanceOf_Ok in Hcall as [-> S1]; [|done].
  apply transfer_Ok in Hcall0 as [Hle E]; [|by eapply still_standard|done].
  assert (standard (wEvm (cvWorld c0)) (GetAddress p)) as Hc' by (apply (ef_kinds _ _ _ _ _ _ E); by eapply still_standard).
  apply QueryERC20BalanceOf_Ok in Hcall1 as [-> S2]; [|done].
  gobool. rewrite (still_tokens _ _ _ _ S2). rewrite (still_tokens _ _ _ _ S1) in Hle.
  split_and!; [lia|done|congruence|]. by eapply still_l, still_r.
Qed.

(** ** Contracts of the wrapped coins *)
Definition contracts_ok s : Prop :=
  (forall p, p ∈ EnabledConversionPairs (cvParams s) -> standard (wEvm (cvWorld s)) (GetAddress p))
  /\ (forall d c, cvContracts s !! d = Some c -> length c = AddressLength /\ module_owned (wEvm (cvWorld s)) c).

Lemma GetDeployed_found s d c :
  contracts_ok s -> cvContracts s !! d = Some c -> GetDeployedCosmosCoinContract s d = (c, true).
Proof.
  intros [_ Hc] Hd. destruct (Hc _ _ Hd) as [Hl _]. unfold GetDeployedCosmosCoinContract, BytesToInternalEVMAddress.
  rewrite Hd; simpl. rewrite BytesToAddress_id by done. by rewrite Hl.
Qed.

Lemma GetDeployed_none s d : cvContracts s !! d = None -> (GetDeployedCosmosCoinContract s d).2 = false.
Proof. intros Hd. unfold GetDeployedCosmosCoinContract. by rewrite Hd. Qed.

(** A new contract: registered for the denomination, owned by the module, at an
    address that held no code. *)
Definition fresh_contract (d : string) (c : bytes) s s' : Prop :=
  cvContracts s !! d = None /\ cvContracts s' = <[d := c]> (cvContracts s)
  /\ ~ has_code (wEvm (cvWorld s)) c /\ length c = AddressLength
  /\ module_owned (wEvm (cvWorld s')) c.

Lemma GetOrDeploy_Ok t s c s' :
  contracts_ok s -> GetOrDeployCosmosCoinERC20Contract t s = Ok (c, s') ->
  still s s' /\ cvContracts s' !! CosmosDenom t = Some c
  /\ (s' = s \/ fresh_contract (CosmosDenom t) c s s').
Proof.
  intros Hok Hx. unfold GetOrDeployCosmosCoinERC20Contract in Hx.
  destruct (cvContracts s !! CosmosDenom t) as [c0|] eqn:Hd.
  { rewrite (GetDeployed_found _ _ _ Hok Hd) in Hx. injection Hx as <- <-.
    split; [|by auto]. split; try done; intros; lia. }
  pose proof (GetDeployed_none _ _ Hd) as Hf. destruct (GetDeployedCosmosCoinContract s _) as [? f]; simpl in Hf; subst f.
  apply obind_Ok in Hx as ([c1 s1] & Hdep & Hx). apply obind_Ok in Hx as (s2 & Hset & [= <- <-]).
  unfold DeployZgChainWrappedCosmosCoinERC20Contract in Hdep. go_inv Hdep. simplify_eq.
  rewrite rewrap_Ok, CallEVMWithData_Ok in *. destruct Hcall2 as (x & Hr & ->).
  destruct (deploy_effect _ _ _ _ _ _ _ _ Hcall0 Hcall1 Hr) as (Hnc & Hown & Hs).
  unfold SetDeployedCosmosCoinContract in Hset. go_inv Hset. subst.
  split; [|split; [apply lookup_insert_eq|right]].
  - apply token_step_effect in Hs. destruct Hs as [P F C Bc S T M K].
    split; [exact P|exact F| |exact Bc|exact S| | |exact K].
    + intros d c Hc. simpl. rewrite lookup_insert_ne; [done|congruence].
    + intros c a. etransitivity; [exact (T c a)|amounts].
    + intros c. etransitivity; [exact (M c)|amounts].
  - repeat split; try done. apply CreateAddress_length.
Qed.

(** ** The conversions and their specification *)
Inductive conv_op : Type :=
| CvCoinToERC20 (initiator : AccAddress) (receiver : bytes) (coin : Coin)
| CvERC20ToCoin (initiator : bytes) (receiver : AccAddress) (contract : bytes) (amount : Z)
| CvCosmosToERC20 (initiator : AccAddress) (receiver : bytes) (amount : Coin)
| CvCosmosFromERC20 (initiator : bytes) (receiver : AccAddress) (coin : Coin).

Definition conv_exec (o : conv_op) s : outcome (ConvState B W) :=
  match o with
  | CvCoinToERC20 x y coin => ConvertCoinToERC20 x y coin s
  | CvERC20ToCoin x y c n => ConvertERC20ToCoin x y c n s
  | CvCosmosToERC20 x y coin => ConvertCosmosCoinToERC20 x y coin s
  | CvCosmosFromERC20 x y coin => ConvertCosmosCoinFromERC20 x y coin s
  end.

(** Amounts are [math.Int] values. *)
Definition op_amount (o : conv_op) : Z :=
  match o with
  | CvERC20ToCoin _ _ _ n => n
  | CvCoinToERC20 _ _ coin | CvCosmosToERC20 _ _ coin | CvCosmosFromERC20 _ _ coin => Amount coin
  end.
(** The account that pays. *)
Definition payer (o : conv_op) : bytes :=
  match o with
  | CvCoinToERC20 x _ _ | CvERC20ToCoin x _ _ _ | CvCosmosToERC20 x _ _ | CvCosmosFromERC20 x _ _ => x
  end.

(** What a conversion is: coins leave the supply against tokens of the module and
    back; coins of the module account against minted tokens and back. *)
Definition conv_spec (o : conv_op) s s' : Prop :=
  let n := op_amount o in
  0 <= n /\
  match o with
  | CvCoinToERC20 x y (mkCoin d _) =>
      exists p, p ∈ EnabledConversionPairs (cvParams s) /\ cpDenom p = d /\ cvContracts s' = cvContracts s
      /\ effect (fun a d' => pay x (at_denom d (- n) d') a) (at_denom d (- n))
           (on_token (GetAddress p) (transfer_delta ModuleEVMAddress y n)) no_change s s'
  | CvERC20ToCoin x y c _ =>
      exists p, p ∈ EnabledConversionPairs (cvParams s) /\ ZgChainERC20Address p = c /\ cvContracts s' = cvContracts s
      /\ effect (fun a d' => pay y (at_denom (cpDenom p) n d') a) (at_denom (cpDenom p) n)
           (on_token (GetAddress p) (transfer_delta x ModuleEVMAddress n)) no_change s s'
  | CvCosmosToERC20 x y (mkCoin d _) =>
      exists c, d ∈ (CosmosDenom <$> AllowedCosmosDenoms (cvParams s)) /\ cvContracts s' !! d = Some c
      /\ (cvContracts s' = cvContracts s \/ fresh_contract d c s s')
      /\ effect (fun a d' => pay x (at_denom d (- n) d') a + pay U (at_denom d n d') a) no_change
           (on_token c (pay y n)) (pay c n) s s'
  | CvCosmosFromERC20 x y (mkCoin d _) =>
      exists c, cvContracts s !! d = Some c /\ cvContracts s' = cvContracts s
      /\ effect (fun a d' => pay U (at_denom d (- n) d') a + pay y (at_denom d n d') a) no_change
           (on_token c (pay x (- n))) (pay c (- n)) s s'
  end.
End Effects.
