(* ===== verification/EvmConvertTheorems.v ===== *)
(** * x/evmutil: the conversions keep everything backed

    The conversions refine their specification ([conv_refines]); in every run of
    conversions, EVM bank operations, parameter changes and foreign activity the
    coins of the conversion pairs are backed by the module's tokens and the wrapped
    coins by the module's coins ([conv_run_backed]); the module's invariants test
    exactly that ([backing_checks]); what was converted can be converted back
    ([pair_round_trip], [cosmos_round_trip]). *)

From S2P Require Import Prelude Sdk GoStd Bank Evmutil EvmutilTheorems EvmConvert EvmConvertSpec.

Section Params.
  Context {cfg : SdkConfig}.

Definition pair_ok (p : ConversionPair) : Prop :=
  ValidateDenom (cpDenom p) = true /\ length (ZgChainERC20Address p) = AddressLength
  /\ ZgChainERC20Address p <> zero_address.
Definition token_ok (t : AllowedCosmosCoinERC20Token) : Prop :=
  ValidateDenom (CosmosDenom t) = true /\ Name t <> "" /\ Symbol t <> "" /\ Decimals t <= 255.

Lemma ConversionPair_Validate_Ok p u : ConversionPair_Validate p = Ok u <-> pair_ok p.
Proof.
  destruct u. unfold ConversionPair_Validate, pair_ok.
  destruct (ValidateDenom _); simpl; [|by split; [|intros [? _]]].
  destruct (Nat.eqb_spec (length (ZgChainERC20Address p)) AddressLength); simpl; [|naive_solver].
  case_bool_decide; naive_solver.
Qed.

Lemma Token_Validate_Ok t u : Token_Validate t = Ok u <-> token_ok t.
Proof.
  destruct u. unfold Token_Validate, token_ok.
  destruct (ValidateDenom _); simpl; [|by split; [|intros [? _]]].
  repeat case_bool_decide; [naive_solver..|]. rewrite Z.gtb_ltb.
  destruct (Z.ltb_spec 255 (Decimals t)); naive_solver lia.
Qed.

(** The hexadecimal form identifies a byte string. *)
Lemma ConversionPairs_Validate_from_Ok addrs denoms ps u :
  Forall (fun p => Forall is_byte (ZgChainERC20Address p)) ps ->
  ConversionPairs_Validate_from addrs denoms ps = Ok u <->
  Forall pair_ok ps /\ NoDup (ZgChainERC20Address <$> ps) /\ NoDup (cpDenom <$> ps)
  /\ Forall (fun p => (hex_EncodeToString (ZgChainERC20Address p) ∉ addrs) /\ (cpDenom p ∉ denoms)) ps.
Proof.
  destruct u. intros Hb. revert addrs denoms.
  induction Hb as [|p ps Hp Hps IH]; intros addrs denoms; simpl.
  { split; [|done]. intros _. repeat split; constructor. }
  rewrite !NoDup_cons, !Forall_cons. case_bool_decide as H1; [naive_solver|].
  case_bool_decide as H2; [naive_solver|]. rewrite obind_Ok.
  assert (forall l : list ConversionPair, Forall (fun q => Forall is_byte (ZgChainERC20Address q)) l ->
    Forall (fun q => (hex_EncodeToString (ZgChainERC20Address q) ∉ {[hex_EncodeToString (ZgChainERC20Address p)]} ∪ addrs)
                     /\ (cpDenom q ∉ {[cpDenom p]} ∪ denoms)) l
    <-> (ZgChainERC20Address p ∉ (ZgChainERC20Address <$> l)) /\ (cpDenom p ∉ (cpDenom <$> l))
        /\ Forall (fun q => (hex_EncodeToString (ZgChainERC20Address q) ∉ addrs) /\ (cpDenom q ∉ denoms)) l) as Hall.
  { clear -Hp. induction 1 as [|q l Hq Hl IHl]; simpl.
    - rewrite !Forall_nil. split; [|done]. intros _. split_and!; [apply not_elem_of_nil..|done].
    - rewrite !Forall_cons, IHl, !not_elem_of_cons, !not_elem_of_union, !not_elem_of_singleton.
      assert (hex_EncodeToString (ZgChainERC20Address q) = hex_EncodeToString (ZgChainERC20Address p)
              <-> ZgChainERC20Address p = ZgChainERC20Address q) as Hhex.
      { split; [|by intros ->]. intros E. symmetry. by apply hex_EncodeToString_inj. }
      rewrite Hhex. naive_solver. }
  split.
  - intros ([] & Hv%ConversionPair_Validate_Ok & (Hok & Ha & Hd & Hf)%IH). rewrite (Hall ps Hps) in Hf. naive_solver.
  - intros ([Hv Hok] & [Hna Ha] & [Hnd Hd] & [_ Hf]). exists tt. rewrite ConversionPair_Validate_Ok, IH, (Hall ps Hps).
    naive_solver.
Qed.

Lemma Tokens_Validate_from_Ok denoms symbols ts u :
  Tokens_Validate_from denoms symbols ts = Ok u <->
  Forall token_ok ts /\ NoDup (CosmosDenom <$> ts) /\ NoDup (Symbol <$> ts)
  /\ Forall (fun t => (CosmosDenom t ∉ denoms) /\ (Symbol t ∉ symbols)) ts.
Proof.
  destruct u. revert denoms symbols. induction ts as [|t ts IH]; intros denoms symbols; simpl.
  { split; [|done]. intros _. repeat split; constructor. }
  rewrite !NoDup_cons, !Forall_cons.
  assert (Token_Validate t = Ok tt <-> token_ok t) as Ht by apply Token_Validate_Ok.
  destruct (Token_Validate t) as [[]|e|w].
  2, 3: split; [done|]; intros [[Hok _] _]; by apply Ht in Hok.
  case_bool_decide as H1; [naive_solver|]. case_bool_decide as H2; [naive_solver|]. rewrite IH.
  assert (forall l : list AllowedCosmosCoinERC20Token,
    Forall (fun q => (CosmosDenom q ∉ {[CosmosDenom t]} ∪ denoms) /\ (Symbol q ∉ {[Symbol t]} ∪ symbols)) l
    <-> (CosmosDenom t ∉ (CosmosDenom <$> l)) /\ (Symbol t ∉ (Symbol <$> l))
        /\ Forall (fun q => (CosmosDenom q ∉ denoms) /\ (Symbol q ∉ symbols)) l) as Hall.
  { induction l as [|q l IHl]; simpl.
    - rewrite !Forall_nil. split; [|done]. intros _. split_and!; [apply not_elem_of_nil..|done].
    - rewrite !Forall_cons, IHl, !not_elem_of_cons, !not_elem_of_union, !not_elem_of_singleton. naive_solver. }
  rewrite Hall. naive_solver.
Qed.

(** Well-formed parameters. *)
Record params_ok (p : Params) : Prop := {
  pk_pairs : Forall pair_ok (EnabledConversionPairs p);
  pk_addresses : NoDup (ZgChainERC20Address <$> EnabledConversionPairs p);
  pk_denoms : NoDup (cpDenom <$> EnabledConversionPairs p);
  pk_tokens : Forall token_ok (AllowedCosmosDenoms p);
  pk_coins : NoDup (CosmosDenom <$> AllowedCosmosDenoms p);
  pk_symbols : NoDup (Symbol <$> AllowedCosmosDenoms p)
}.
Definition byte_addresses (p : Params) : Prop :=
  Forall (fun q => Forall is_byte (ZgChainERC20Address q)) (EnabledConversionPairs p).

Lemma Pairs_Validate_Ok ps u : Forall (fun q => Forall is_byte (ZgChainERC20Address q)) ps ->
  ConversionPairs_Validate ps = Ok u <->
  Forall pair_ok ps /\ NoDup (ZgChainERC20Address <$> ps) /\ NoDup (cpDenom <$> ps).
Proof.
  intros Hb. unfold ConversionPairs_Validate. rewrite ConversionPairs_Validate_from_Ok by done.
  assert (forall l : list ConversionPair,
    Forall (fun p => (hex_EncodeToString (ZgChainERC20Address p) ∉ (∅ : gset string))
                     /\ (cpDenom p ∉ (∅ : gset string))) l) as He
    by (intros l; apply Forall_forall; intros; split; apply not_elem_of_empty).
  specialize (He ps). naive_solver.
Qed.

Lemma Toks_Validate_Ok ts u : Tokens_Validate ts = Ok u <->
  Forall token_ok ts /\ NoDup (CosmosDenom <$> ts) /\ NoDup (Symbol <$> ts).
Proof.
  unfold Tokens_Validate. rewrite Tokens_Validate_from_Ok.
  assert (forall l : list AllowedCosmosCoinERC20Token,
    Forall (fun t => (CosmosDenom t ∉ (∅ : gset string)) /\ (Symbol t ∉ (∅ : gset string))) l) as He
    by (intros l; apply Forall_forall; intros; split; apply not_elem_of_empty).
  specialize (He ts). naive_solver.
Qed.

Lemma params_validated p : byte_addresses p -> Params_Validate p = Ok tt <-> params_ok p.
Proof.
  intros Hb. unfold Params_Validate. rewrite obind_Ok. split.
  - intros (u & (H1 & H2 & H3)%Pairs_Validate_Ok & (H4 & H5 & H6)%Toks_Validate_Ok); [|exact Hb]. by split.
  - intros [H1 H2 H3 H4 H5 H6]. exists tt. rewrite Pairs_Validate_Ok by exact Hb. by rewrite Toks_Validate_Ok.
Qed.

(** A list without repetition in the key is searched by key. *)
Lemma find_key {A} `{EqDecision K} (key : A -> K) (l : list A) x k :
  NoDup (key <$> l) ->
  List.find (fun y => bool_decide (key y = k)) l = Some x <-> x ∈ l /\ key x = k.
Proof.
  induction l as [|y l IH]; simpl; [rewrite elem_of_nil; naive_solver|].
  rewrite NoDup_cons, elem_of_cons. intros [Hy Hl]. case_bool_decide as Hk.
  - split; [intros [= <-]; auto|]. intros [[->|Hx] E]; [done|].
    destruct Hy. rewrite Hk, <- E. by apply list_elem_of_fmap_2.
  - rewrite (IH Hl). naive_solver.
Qed.
End Params.

Section Conversions.
  Context {cfg : SdkConfig} {sdk : SdkLaws} {eth : EthConfig} {B W : Type} {bk : BankKeeper B}
    {bankl : BankLaws B} {ethl : EthLaws B} {blocks : BankBlocks B} {evm : EvmKeeper B W}
    {view : Erc20View W} {laws : Erc20Laws B W}.
  Implicit Types s : ConvState B W.

Abbreviation U := (NewModuleAddress EvmutilName).

(** The module's EVM address is its account address. *)
Lemma ModuleEVMAddress_U : ModuleEVMAddress = U.
Proof. unfold ModuleEVMAddress. apply BytesToAddress_id, NewModuleAddress_length. Qed.

(** ** The conversions refine their specification *)
Lemma FromDenom_Ok s d p : GetEnabledConversionPairFromDenom s d = Ok p ->
  p ∈ EnabledConversionPairs (cvParams s) /\ cpDenom p = d.
Proof.
  unfold GetEnabledConversionPairFromDenom. destruct (List.find _ _) as [q|] eqn:Hq; [|done]. intros [= <-].
  apply List.find_some in Hq as [Hin Hk]. gobool. by rewrite list_elem_of_In.
Qed.

Lemma FromAddress_Ok s a p : GetEnabledConversionPairFromERC20Address s a = Ok p ->
  p ∈ EnabledConversionPairs (cvParams s) /\ ZgChainERC20Address p = a.
Proof.
  unfold GetEnabledConversionPairFromERC20Address. destruct (List.find _ _) as [q|] eqn:Hq; [|done]. intros [= <-].
  apply List.find_some in Hq as [Hin Hk]. gobool. by rewrite list_elem_of_In.
Qed.

Lemma GetAllowed_Some s d t : GetAllowedTokenMetadata s d = Some t ->
  t ∈ AllowedCosmosDenoms (cvParams s) /\ CosmosDenom t = d.
Proof. unfold GetAllowedTokenMetadata. intros [Hin Hk]%List.find_some. gobool. by rewrite list_elem_of_In. Qed.

(** What an effect keeps of the contracts. *)
Lemma effect_contracts_ok c p t m s s' :
  effect c p t m s s' -> cvContracts s' = cvContracts s -> contracts_ok s -> contracts_ok s'.
Proof.
  intros [P F _ _ _ _ _ K] C [H1 H2]. split.
  - rewrite P. intros q Hq. by apply (kd_standard _ _ K), H1.
  - rewrite C. intros d a Hd. destruct (H2 _ _ Hd). split; [done|]. by apply (kd_owned _ _ K).
Qed.

Lemma coin_to_erc20_spec x y coin s s' :
  contracts_ok s -> Amount coin < 2 ^ 256 -> ConvertCoinToERC20 x y coin s = Ok s' ->
  conv_spec (CvCoinToERC20 x y coin) s s'.
Proof.
  intros Hok Hn Hx. unfold ConvertCoinToERC20 in Hx. go_inv Hx. destruct coin as [d n]; cbn [Amount Denom] in *.
  apply FromDenom_Ok in Hcall as [Hp Hd].
  apply BurnConversionPairCoin_Ok in Hcall0 as (Hpos & C1 & E1); cbn [Amount Denom] in *.
  pose proof (effect_contracts_ok _ _ _ _ _ _ E1 C1 Hok) as [Hok1 _].
  apply UnlockERC20Tokens_Ok in Hx as (_ & _ & C2 & E2); [|apply Hok1; by rewrite (ef_params _ _ _ _ _ _ E1)|lia].
  split; [done|]. exists r. split_and!; [done|done|congruence|].
  eapply effect_eq; [exact (effect_trans _ _ _ _ _ _ _ _ _ _ _ E1 E2)|..]; simpl; amounts.
Qed.

Lemma erc20_to_coin_spec x y c n s s' :
  contracts_ok s -> ConvertERC20ToCoin x y c n s = Ok s' -> conv_spec (CvERC20ToCoin x y c n) s s'.
Proof.
  intros Hok Hx. unfold ConvertERC20ToCoin in Hx. go_inv Hx. subst.
  apply FromAddress_Ok in Hcall as [Hp Ha].
  apply MintConversionPairCoin_Ok in Hcall1 as (Hn & C2 & E2).
  apply LockERC20Tokens_Ok in Hcall0 as (_ & _ & C1 & E1); [|by apply Hok|done].
  split; [simpl; lia|]. exists r. split_and!; [done|done|congruence|].
  eapply effect_eq; [exact (effect_trans _ _ _ _ _ _ _ _ _ _ _ E1 E2)|..]; simpl; amounts.
Qed.

Lemma cosmos_to_erc20_spec x y coin s s' :
  contracts_ok s -> Amount coin < 2 ^ 256 -> ConvertCosmosCoinToERC20 x y coin s = Ok s' ->
  conv_spec (CvCosmosToERC20 x y coin) s s'.
Proof.
  intros Hok Hn Hx. unfold ConvertCosmosCoinToERC20 in Hx. destruct coin as [d n]; cbn [Amount Denom] in *.
  destruct (GetAllowedTokenMetadata s d) as [t|] eqn:Heqo; [|done]. apply GetAllowed_Some in Heqo as [Hin Ht].
  apply (list_elem_of_fmap_2 CosmosDenom) in Hin. rewrite Ht in Hin.
  apply obind_Ok in Hx as (cs & Hcall & Hx). apply obind_Ok in Hx as (r0 & Hcall0 & Hx).
  apply obind_Ok in Hx as ([b c] & Hcall1 & Hx).
  apply NewCoins1_at in Hcall as [Hpos Ha]; cbn [Amount Denom] in *.
  assert (cvContracts r0 = cvContracts s /\ wEvm (cvWorld r0) = wEvm (cvWorld s)) as [C1 W1]
    by (unfold conv_bank in Hcall0; go_inv Hcall0; by subst).
  apply send_to_evmutil in Hcall0 as E1.
  pose proof (effect_contracts_ok _ _ _ _ _ _ E1 C1 Hok) as Hok1.
  apply GetOrDeploy_Ok in Hcall1 as (S2 & Hc & Hnew); [|done]. rewrite Ht in *.
  assert (module_owned (wEvm (cvWorld c)) b) as Hown.
  { destruct Hnew as [->|(_ & _ & _ & _ & Hown)]; [|done]. by apply (proj2 Hok1 d). }
  unfold MintERC20 in Hx. pose proof Hx as Hx'. go_inv Hx'. subst. pose proof (call_contracts _ _ _ _ _ _ _ _ Hcall) as C3.
  apply MintERC20_Ok in Hx as E3; [|done|lia].
  split; [done|]. exists b. split_and!.
  - done.
  - by rewrite C3.
  - rewrite C3. destruct Hnew as [->|(N1 & N2 & N3 & N4 & N5)]; [by left|right].
    rewrite C1, W1 in *. repeat split; try done; [by rewrite C3|]. by apply (kd_owned _ _ (ef_kinds _ _ _ _ _ _ E3)).
  - pose proof (still_r _ _ _ _ _ _ _ E1 S2) as E12.
    eapply effect_eq; [exact (effect_trans _ _ _ _ _ _ _ _ _ _ _ E12 E3)|..]; intros; cbv beta; simpl; rewrite ?Ha; amounts.
Qed.

Lemma cosmos_from_erc20_spec x y coin s s' :
  contracts_ok s -> Amount coin < 2 ^ 256 -> ConvertCosmosCoinFromERC20 x y coin s = Ok s' ->
  conv_spec (CvCosmosFromERC20 x y coin) s s'.
Proof.
  intros Hok Hn Hx. unfold ConvertCosmosCoinFromERC20 in Hx. destruct coin as [d n]; cbn [Amount Denom] in *.
  destruct (cvContracts s !! d) as [c|] eqn:Hd.
  2: { pose proof (GetDeployed_none _ _ Hd) as Hf. destruct (GetDeployedCosmosCoinContract s d); simpl in *. by subst. }
  rewrite (GetDeployed_found _ _ _ Hok Hd) in Hx. cbn [negb] in Hx. go_inv Hx. rewrite rewrap_Ok in *.
  destruct (proj2 Hok _ _ Hd) as [Hl Hown].
  pose proof (query_contracts _ _ _ _ _ Hcall) as C1.
  apply QueryERC20BalanceOf_Ok in Hcall as [-> S1]; [|by apply (owned_standard (bk := bk) (B := B))].
  apply NewCoins1_at in Hcall1 as [Hpos Ha]; cbn [Amount Denom] in *.
  assert (cvContracts r0 = cvContracts c0) as C2 by (unfold BurnERC20 in Hcall0; go_inv Hcall0; subst; by eapply call_contracts).
  assert (cvContracts s' = cvContracts r0) as C3 by (unfold conv_bank in Hx; go_inv Hx; by subst).
  apply BurnERC20_Ok in Hcall0 as E2; [|by apply (kd_owned _ _ (ef_kinds _ _ _ _ _ _ S1))|lia].
  apply send_from_evmutil in Hx as E3.
  split; [done|]. exists c. split_and!; [done|congruence|].
  pose proof (still_l _ _ _ _ _ _ _ S1 E2) as E12.
  eapply effect_eq; [exact (effect_trans _ _ _ _ _ _ _ _ _ _ _ E12 E3)|..]; intros; cbv beta; simpl; rewrite ?Ha; amounts.
Qed.

Lemma conv_exec_spec o s s' :
  contracts_ok s -> op_amount o < 2 ^ 256 -> conv_exec o s = Ok s' -> conv_spec o s s'.
Proof.
  destruct o; simpl; intros Hok Hn Hx; [by apply coin_to_erc20_spec|by apply erc20_to_coin_spec|
    by apply cosmos_to_erc20_spec|by apply cosmos_from_erc20_spec].
Qed.

(** ** The invariant *)
Record conv_inv s : Prop := {
  ci_params : params_ok (cvParams s);
  ci_contracts : contracts_ok s;
  ci_account : has_account (wEvm (cvWorld s)) ModuleEVMAddress;
  (** Every denomination has a contract of its own. *)
  ci_distinct : forall d1 d2 c, cvContracts s !! d1 = Some c -> cvContracts s !! d2 = Some c -> d1 = d2;
  (** The coins of a conversion pair are backed by the module's tokens. *)
  ci_pairs : forall p, p ∈ EnabledConversionPairs (cvParams s) ->
    GetSupply (cv_bank s) (cpDenom p) <= tokens s (GetAddress p) ModuleEVMAddress;
  (** The supply of a wrapped coin is the module account's balance of the coin. *)
  ci_coins : forall d c, cvContracts s !! d = Some c -> token_total s c = GetBalance (cv_bank s) U d;
  ci_unheld : forall d, d ∈ (CosmosDenom <$> AllowedCosmosDenoms (cvParams s)) -> cvContracts s !! d = None ->
    GetBalance (cv_bank s) U d = 0;
  (** The coin of the stored fractions is not converted. *)
  ci_gas_pairs : GasDenom ∉ (cpDenom <$> EnabledConversionPairs (cvParams s));
  ci_gas_coins : GasDenom ∉ (CosmosDenom <$> AllowedCosmosDenoms (cvParams s));
  ci_gas_contracts : cvContracts s !! GasDenom = None;
  ci_fractions : accounts_ok (wState (cvWorld s)) /\ small (wState (cvWorld s))
}.

Lemma NoDup_key {A K} (key : A -> K) (l : list A) x y :
  NoDup (key <$> l) -> x ∈ l -> y ∈ l -> key x = key y -> x = y.
Proof.
  induction l as [|z l IH]; simpl; [by rewrite elem_of_nil|]. rewrite NoDup_cons, !elem_of_cons.
  intros [Hz Hl] Hx Hy E.
  destruct Hx as [->|Hx], Hy as [->|Hy]; [done| | |by apply IH];
    destruct Hz; [rewrite E|rewrite <- E]; by apply list_elem_of_fmap_2.
Qed.

Lemma pair_address p ps : Forall pair_ok ps -> p ∈ ps -> GetAddress p = ZgChainERC20Address p.
Proof. intros Hf Hp. rewrite Forall_forall in Hf. by apply BytesToAddress_id, Hf. Qed.

(** Two pairs with the same denomination, or the same contract, are one. *)
Lemma pair_unique ps p q : Forall pair_ok ps -> NoDup (ZgChainERC20Address <$> ps) -> NoDup (cpDenom <$> ps) ->
  p ∈ ps -> q ∈ ps -> cpDenom p = cpDenom q \/ GetAddress p = GetAddress q -> p = q.
Proof.
  intros Hf Ha Hd Hp Hq [E|E]; [by eapply (NoDup_key cpDenom)|].
  rewrite !(pair_address _ ps) in E by done. by eapply (NoDup_key ZgChainERC20Address).
Qed.

(** The receiver of coins is not the module account. *)
Lemma receiver_not_module o s s' : conv_exec o s = Ok s' ->
  match o with CvERC20ToCoin _ y _ _ | CvCosmosFromERC20 _ y _ => y <> U | _ => True end.
Proof.
  destruct o as [| x y c n| | x y coin]; [done| |done|]; simpl; intros Hx ->.
  - unfold ConvertERC20ToCoin, MintConversionPairCoin, conv_bank in Hx. go_inv Hx. subst.
    repeat match goal with Hc : obind _ _ = Ok _ |- _ => go_inv Hc end. by_call evmutil_blocked as [].
  - unfold ConvertCosmosCoinFromERC20, conv_bank in Hx. go_inv Hx. by_call evmutil_blocked as [].
Qed.

(** Backing of the pairs, by the effect on each pair. *)
Lemma conv_pairs o s s' : conv_inv s -> payer o <> U -> conv_spec o s s' ->
  forall p, p ∈ EnabledConversionPairs (cvParams s) ->
  GetSupply (cv_bank s') (cpDenom p) <= tokens s' (GetAddress p) ModuleEVMAddress.
Proof.
  intros I Hx [Hn Ho] p Hp. pose proof (ci_pairs _ I p Hp) as Hb. destruct (ci_params _ I) as [P1 P2 P3 _ _ _].
  assert (forall q, q ∈ EnabledConversionPairs (cvParams s) ->
    (cpDenom q = cpDenom p \/ GetAddress q = GetAddress p) -> q = p) as Hu
    by (intros q Hq ?; by eapply pair_unique).
  rewrite <- ModuleEVMAddress_U in Hx.
  destruct o as [x y [d n]|x y c n|x y [d n]|x y [d n]]; simpl in Hn, Ho, Hx.
  - destruct Ho as (q & Hq & <- & _ & E). rewrite (ef_supply _ _ _ _ _ _ E), (ef_tok _ _ _ _ _ _ E).
    destruct (decide (q = p)) as [->|Hne]; [amounts|].
    assert (cpDenom q <> cpDenom p /\ GetAddress q <> GetAddress p) as [? ?] by naive_solver. amounts.
  - destruct Ho as (q & Hq & _ & _ & E). rewrite (ef_supply _ _ _ _ _ _ E), (ef_tok _ _ _ _ _ _ E).
    destruct (decide (q = p)) as [->|Hne]; [amounts|].
    assert (cpDenom q <> cpDenom p /\ GetAddress q <> GetAddress p) as [? ?] by naive_solver. amounts.
  - destruct Ho as (c & _ & _ & _ & E). rewrite (ef_supply _ _ _ _ _ _ E), (ef_tok _ _ _ _ _ _ E). amounts.
  - destruct Ho as (c & _ & _ & E). rewrite (ef_supply _ _ _ _ _ _ E), (ef_tok _ _ _ _ _ _ E). amounts.
Qed.

(** Where a contract is registered after a conversion. *)
Lemma conv_registered o s s' d c : conv_spec o s s' -> cvContracts s' !! d = Some c ->
  cvContracts s !! d = Some c
  \/ exists x y n, o = CvCosmosToERC20 x y (mkCoin d n) /\ fresh_contract d c s s'.
Proof.
  intros [_ Ho] Hd. destruct o as [x y [d1 n]|x y a n|x y [d1 n]|x y [d1 n]]; simpl in Ho.
  - destruct Ho as (q & _ & _ & C & _). rewrite C in Hd. by left.
  - destruct Ho as (q & _ & _ & C & _). rewrite C in Hd. by left.
  - destruct Ho as (c1 & _ & H1 & [C|Hf] & _); [rewrite C in Hd; by left|].
    destruct Hf as (N & C & Hrest). destruct (decide (d = d1)) as [->|Hne].
    + right. assert (c1 = c) as -> by congruence. exists x, y, n. split; [done|]. by split.
    + left. by rewrite C, lookup_insert_ne in Hd by congruence.
  - destruct Ho as (q & _ & C & _). rewrite C in Hd. by left.
Qed.

Lemma registered_has_code s d c : contracts_ok s -> cvContracts s !! d = Some c -> has_code (wEvm (cvWorld s)) c.
Proof.
  intros [_ Hc] Hd. apply (standard_code (bk := bk) (B := B)), (owned_standard (bk := bk) (B := B)). by apply (Hc d).
Qed.

Lemma conv_distinct o s s' : conv_inv s -> conv_spec o s s' ->
  forall d1 d2 c, cvContracts s' !! d1 = Some c -> cvContracts s' !! d2 = Some c -> d1 = d2.
Proof.
  intros I Ho d1 d2 c H1 H2.
  apply (conv_registered _ _ _ _ _ Ho) in H1 as [H1|(x1 & y1 & n1 & E1 & F1)];
    apply (conv_registered _ _ _ _ _ Ho) in H2 as [H2|(x2 & y2 & n2 & E2 & F2)].
  - by eapply (ci_distinct _ I).
  - destruct F2 as (_ & _ & Hnc & _). destruct Hnc. by apply (registered_has_code _ d1), H1; apply I.
  - destruct F1 as (_ & _ & Hnc & _). destruct Hnc. by apply (registered_has_code _ d2), H2; apply I.
  - by simplify_eq.
Qed.

Lemma conv_contracts_ok o s s' : contracts_ok s -> conv_spec o s s' -> contracts_ok s'.
Proof.
  intros Hok Ho. assert (cvParams s' = cvParams s /\ kinds (wEvm (cvWorld s)) (wEvm (cvWorld s'))) as [P K].
  { destruct Ho as [_ Ho]. destruct o as [x y [d1 n]|x y a n|x y [d1 n]|x y [d1 n]]; simpl in Ho;
      [destruct Ho as (? & _ & _ & _ & [])|destruct Ho as (? & _ & _ & _ & [])|
       destruct Ho as (? & _ & _ & _ & [])|destruct Ho as (? & _ & _ & [])]; done. }
  split.
  - rewrite P. intros p Hp. by apply (kd_standard _ _ K), Hok.
  - intros d c Hd. apply (conv_registered _ _ _ _ _ Ho) in Hd as [Hd|(x & y & n & _ & _ & _ & _ & Hl & Hown)]; [|done].
    destruct (proj2 Hok _ _ Hd). split; [done|]. by apply (kd_owned _ _ K).
Qed.

(** Backing of the wrapped coins, by the effect on each denomination. *)
Lemma conv_coins o s s' : conv_inv s -> payer o <> U -> conv_exec o s = Ok s' -> conv_spec o s s' ->
  forall d c, cvContracts s' !! d = Some c -> token_total s' c = GetBalance (cv_bank s') U d.
Proof.
  intros I Hx He Ho d c Hd. pose proof (receiver_not_module _ _ _ He) as Hr.
  pose proof (conv_distinct _ _ _ I Ho) as Hdist.
  assert (token_total s c = GetBalance (cv_bank s) U d) as Hb.
  { destruct (conv_registered _ _ _ _ _ Ho Hd) as [Hd0|(x & y & n & -> & N & _ & Hnc & _)]; [by apply I|].
    destruct (no_code (bk := bk) (B := B) _ _ Hnc) as [Ht _]. unfold token_total. rewrite Ht. symmetry.
    destruct Ho as [_ (c1 & Hin & _)]. by apply I. }
  destruct Ho as [Hn Ho]. destruct o as [x y [d1 n]|x y a n|x y [d1 n]|x y [d1 n]]; simpl in Hn, Ho, Hx, Hr.
  - destruct Ho as (q & Hq & <- & _ & E). rewrite (ef_total _ _ _ _ _ _ E), (ef_coin _ _ _ _ _ _ E). amounts.
  - destruct Ho as (q & Hq & _ & _ & E). rewrite (ef_total _ _ _ _ _ _ E), (ef_coin _ _ _ _ _ _ E). amounts.
  - destruct Ho as (c1 & _ & H1 & _ & E). rewrite (ef_total _ _ _ _ _ _ E), (ef_coin _ _ _ _ _ _ E).
    specialize (Hdist d d1 c Hd). amounts; naive_solver.
  - destruct Ho as (c1 & H1 & C & E). rewrite (ef_total _ _ _ _ _ _ E), (ef_coin _ _ _ _ _ _ E).
    rewrite <- C in H1. specialize (Hdist d d1 c Hd). amounts; naive_solver.
Qed.

Lemma conv_unheld o s s' : conv_inv s -> payer o <> U -> conv_exec o s = Ok s' -> conv_spec o s s' ->
  forall d, d ∈ (CosmosDenom <$> AllowedCosmosDenoms (cvParams s)) -> cvContracts s' !! d = None ->
  GetBalance (cv_bank s') U d = 0.
Proof.
  intros I Hx He [_ Ho] d Hin Hd. pose proof (receiver_not_module _ _ _ He) as Hr.
  pose proof (ci_unheld _ I d Hin) as Hz.
  destruct o as [x y [d1 n]|x y a n|x y [d1 n]|x y [d1 n]]; simpl in Ho, Hx, Hr.
  - destruct Ho as (q & Hq & <- & C & E). rewrite C in Hd. rewrite (ef_coin _ _ _ _ _ _ E), Hz by done. amounts.
  - destruct Ho as (q & Hq & _ & C & E). rewrite C in Hd. rewrite (ef_coin _ _ _ _ _ _ E), Hz by done. amounts.
  - destruct Ho as (c1 & _ & H1 & Hc & E).
    assert (cvContracts s !! d = None) as Hd0.
    { destruct (cvContracts s !! d) as [c|] eqn:Ec; [|done]. by rewrite (ef_contracts _ _ _ _ _ _ E d c Ec) in Hd. }
    rewrite (ef_coin _ _ _ _ _ _ E), Hz by done. amounts.
  - destruct Ho as (c1 & H1 & C & E). rewrite C in Hd. rewrite (ef_coin _ _ _ _ _ _ E), Hz by done. amounts.
Qed.

Lemma conv_inv_exec o s s' :
  conv_inv s -> payer o <> U -> op_amount o < 2 ^ 256 -> conv_exec o s = Ok s' -> conv_inv s'.
Proof.
  intros I Hx Hn He. pose proof (conv_exec_spec _ _ _ (ci_contracts _ I) Hn He) as Ho.
  assert (cvParams s' = cvParams s /\ evAccounts (wState (cvWorld s')) = evAccounts (wState (cvWorld s))
          /\ kinds (wEvm (cvWorld s)) (wEvm (cvWorld s'))) as (P & F & K).
  { destruct Ho as [_ Ho]. destruct o as [x y [d1 n]|x y a n|x y [d1 n]|x y [d1 n]]; simpl in Ho;
      [destruct Ho as (? & _ & _ & _ & [])|destruct Ho as (? & _ & _ & _ & [])|
       destruct Ho as (? & _ & _ & _ & [])|destruct Ho as (? & _ & _ & [])]; done. }
  split; rewrite ?P.
  - apply I.
  - by eapply conv_contracts_ok, Ho; apply I.
  - apply (kd_account _ _ K), I.
  - by eapply conv_distinct.
  - by eapply conv_pairs.
  - by eapply conv_coins.
  - by eapply conv_unheld.
  - apply I.
  - apply I.
  - destruct (cvContracts s' !! GasDenom) as [c|] eqn:Hg; [|done].
    apply (conv_registered _ _ _ _ _ Ho) in Hg as [Hg|(x & y & n & -> & _)]; [by rewrite (ci_gas_contracts _ I) in Hg|].
    destruct Ho as [_ (c1 & Hin & _)]. by destruct (ci_gas_coins _ I).
  - destruct (ci_fractions _ I). split; [by eapply same_accounts_ok|by eapply same_accounts_small].
Qed.

(** ** Runs

    Besides the conversions, the EVM's bank keeper works on the same state, the
    parameters may change, and the rest of the chain acts. *)

(** A pair may be enabled when its contract is a standard token that backs the
    coins in circulation; a coin may be allowed when the module account holds none
    of it without a contract. *)
Definition listable (p : Params) s : Prop :=
  byte_addresses p
  /\ (forall q, q ∈ EnabledConversionPairs p -> standard (wEvm (cvWorld s)) (GetAddress q) /\ cpDenom q <> GasDenom
       /\ GetSupply (cv_bank s) (cpDenom q) <= tokens s (GetAddress q) ModuleEVMAddress)
  /\ (forall t, t ∈ AllowedCosmosDenoms p -> CosmosDenom t <> GasDenom
       /\ (cvContracts s !! CosmosDenom t = None -> GetBalance (cv_bank s) U (CosmosDenom t) = 0)).

(** Others cannot spend the module's coins and tokens, mint coins of the pairs, or
    mint and burn wrapped coins. *)
Record foreign s s' : Prop := {
  fo_params : cvParams s' = cvParams s;
  fo_contracts : cvContracts s' = cvContracts s;
  fo_fractions : evAccounts (wState (cvWorld s')) = evAccounts (wState (cvWorld s));
  fo_kinds : kinds (wEvm (cvWorld s)) (wEvm (cvWorld s'));
  fo_coins : forall d, d <> GasDenom -> GetBalance (cv_bank s') U d = GetBalance (cv_bank s) U d;
  fo_supply : forall p, p ∈ EnabledConversionPairs (cvParams s) -> GetSupply (cv_bank s') (cpDenom p) <= GetSupply (cv_bank s) (cpDenom p);
  fo_tokens : forall c, tokens s c ModuleEVMAddress <= tokens s' c ModuleEVMAddress;
  fo_total : forall c, module_owned (wEvm (cvWorld s)) c -> token_total s' c = token_total s c
}.

Inductive conv_step s : ConvState B W -> Prop :=
| step_convert o s' : payer o <> U -> op_amount o < 2 ^ 256 -> conv_exec o s = Ok s' -> conv_step s s'
| step_evm_bank o e : outside U o -> evm_exec o (wState (cvWorld s)) = Ok e ->
    conv_step s (set_world (mkWorld e (wEvm (cvWorld s))) s)
| step_params p s' : listable p s -> SetParams p s = Ok s' -> conv_step s s'
| step_foreign s' : foreign s s' -> conv_step s s'.

Lemma conv_inv_evm_bank o s e :
  conv_inv s -> outside U o -> evm_exec o (wState (cvWorld s)) = Ok e ->
  conv_inv (set_world (mkWorld e (wEvm (cvWorld s))) s).
Proof.
  intros I Ho He. pose proof (evm_exec_gas_only _ _ _ He) as Hg. destruct (ci_fractions _ I) as [Hok Hsm].
  pose proof (evm_exec_shift U evmutil_account _ _ _ Ho Hok He) as [Hok' _ _].
  pose proof (evm_exec_small U evmutil_account _ _ _ Hok Hsm He) as Hsm'.
  split; simpl; try apply I.
  - intros p Hp. assert (cpDenom p <> GasDenom) as Hd.
    { intros E. apply (ci_gas_pairs _ I). rewrite <- E. by apply list_elem_of_fmap_2. }
    unfold cv_bank, tokens; simpl. rewrite (proj2 (Hg _ Hd)). by apply (ci_pairs _ I).
  - intros d c Hc. assert (d <> GasDenom) as Hd by (intros ->; by rewrite (ci_gas_contracts _ I) in Hc).
    unfold cv_bank, token_total; simpl. rewrite (proj1 (Hg _ Hd)). by apply (ci_coins _ I).
  - intros d Hin Hc. assert (d <> GasDenom) as Hd by (intros ->; by destruct (ci_gas_coins _ I)).
    unfold cv_bank; simpl. rewrite (proj1 (Hg _ Hd)). by apply (ci_unheld _ I).
  - done.
Qed.

Lemma conv_inv_params p s s' : conv_inv s -> listable p s -> SetParams p s = Ok s' -> conv_inv s'.
Proof.
  intros I (Hb & Hps & Hts) Hx. unfold SetParams in Hx. go_inv Hx. subst.
  assert (params_ok p) as Hp.
  { apply params_validated; [done|]. unfold Params_Validate.
    destruct (ConversionPairs_Validate _) as [[]| |]; [|done..]. by destruct (Tokens_Validate _) as [[]| |]. }
  split; simpl.
  - done.
  - split; [|apply (ci_contracts _ I)]. intros q Hq. by apply (Hps q Hq).
  - apply I.
  - apply I.
  - intros q Hq. by apply (Hps q Hq).
  - apply I.
  - intros d (t & -> & Ht)%list_elem_of_fmap Hd. by apply (Hts t Ht).
  - intros (q & E & Hq)%list_elem_of_fmap. destruct (Hps q Hq) as (_ & Hne & _). congruence.
  - intros (t & E & Ht)%list_elem_of_fmap. destruct (Hts t Ht) as [Hne _]. congruence.
  - apply I.
  - apply I.
Qed.

Lemma conv_inv_foreign s s' : conv_inv s -> foreign s s' -> conv_inv s'.
Proof.
  intros I [P C F K Hc Hsu Ht Hm]. split; rewrite ?P, ?C; try apply I.
  - destruct (ci_contracts _ I) as [H1 H2]. split; rewrite ?P, ?C.
    + intros p Hp. by apply (kd_standard _ _ K), H1.
    + intros d c Hd. destruct (H2 _ _ Hd). split; [done|by apply (kd_owned _ _ K)].
  - apply (kd_account _ _ K), I.
  - intros p Hp. pose proof (ci_pairs _ I p Hp). specialize (Hsu _ Hp). specialize (Ht (GetAddress p)). lia.
  - intros d c Hd. assert (d <> GasDenom) as Hg by (intros ->; by rewrite (ci_gas_contracts _ I) in Hd).
    rewrite Hc, Hm by (try done; by apply (proj2 (ci_contracts _ I) d)). by apply (ci_coins _ I).
  - intros d Hin Hd. assert (d <> GasDenom) as Hg by (intros ->; by destruct (ci_gas_coins _ I)).
    rewrite Hc by done. by apply (ci_unheld _ I).
  - destruct (ci_fractions _ I). split; [by eapply same_accounts_ok|by eapply same_accounts_small].
Qed.

Lemma conv_inv_step s s' : conv_inv s -> conv_step s s' -> conv_inv s'.
Proof.
  intros I []; [by eapply conv_inv_exec|by eapply conv_inv_evm_bank|by eapply conv_inv_params|
    by eapply conv_inv_foreign].
Qed.

(** ** What the invariants of the code test *)
Section Checks.
  Context {run : Erc20Runs B W}.

Lemma query_balance_total c a s :
  standard (wEvm (cvWorld s)) c -> has_account (wEvm (cvWorld s)) ModuleEVMAddress ->
  exists s', QueryERC20BalanceOf c a s = Ok (tokens s c a, s') /\ still s s'.
Proof.
  intros Hc Ha. destruct (balanceOf_runs (bk := bk) _ c a Hc Ha) as (data & res & x & Hp & Hr).
  destruct (balanceOf_effect _ _ _ _ _ _ _ Hc Hp Hr) as (_ & Hne & Hu).
  assert (QueryERC20BalanceOf c a s = Ok (tokens s c a, set_world x s)) as Hq.
  { unfold QueryERC20BalanceOf. rewrite (proj2 (CallEVM_Ok _ _ _ _ _ _ res (set_world x s))) by eauto. simpl.
    by rewrite (unpack_Ok _ _ _ (runs_not_failed _ _ _ _ _ _ Hr) Hne Hu). }
  eexists. split; [exact Hq|]. by apply (QueryERC20BalanceOf_Ok _ _ _ _ _ Hc) in Hq as [_ ?].
Qed.

Lemma query_supply_total c s :
  standard (wEvm (cvWorld s)) c -> has_account (wEvm (cvWorld s)) ModuleEVMAddress ->
  exists s', QueryERC20TotalSupply c s = Ok (token_total s c, s') /\ still s s'.
Proof.
  intros Hc Ha. destruct (totalSupply_runs (bk := bk) _ c Hc Ha) as (data & res & x & Hp & Hr).
  destruct (totalSupply_effect _ _ _ _ _ _ Hc Hp Hr) as (_ & Hne & Hu).
  assert (QueryERC20TotalSupply c s = Ok (token_total s c, set_world x s)) as Hq.
  { unfold QueryERC20TotalSupply. rewrite (proj2 (CallEVM_Ok _ _ _ _ _ _ res (set_world x s))) by eauto. simpl.
    by rewrite (unpack_Ok _ _ _ (runs_not_failed _ _ _ _ _ _ Hr) Hne Hu). }
  eexists. split; [exact Hq|]. by apply (QueryERC20TotalSupply_Ok _ _ _ _ Hc) in Hq as [_ ?].
Qed.

Lemma still_refl s : still s s.
Proof. split; try done; intros; lia. Qed.
Lemma still_trans s1 s2 s3 : still s1 s2 -> still s2 s3 -> still s1 s3.
Proof. intros H1 H2. by eapply still_l. Qed.

Definition pair_backed s (p : ConversionPair) : Prop :=
  GetSupply (cv_bank s) (cpDenom p) <= tokens s (GetAddress p) ModuleEVMAddress.
Definition coin_backed s (dc : string * bytes) : Prop :=
  token_total s dc.2 = GetBalance (cv_bank s) U dc.1.

Lemma still_pair_backed s s' p : still s s' -> pair_backed s' p <-> pair_backed s p.
Proof.
  intros [_ _ _ _ S T _ _]. unfold pair_backed. rewrite S, T. split; lia.
Qed.
Lemma still_coin_backed s s' dc : still s s' -> coin_backed s' dc <-> coin_backed s dc.
Proof. intros [_ _ _ C _ _ T _]. unfold coin_backed. rewrite C, T. split; lia. Qed.

Lemma backed_coins_loop_correct ps b s :
  (forall p, p ∈ ps -> standard (wEvm (cvWorld s)) (GetAddress p)) ->
  has_account (wEvm (cvWorld s)) ModuleEVMAddress ->
  exists r s', backed_coins_loop ps b s = Ok (r, s') /\ still s s'
  /\ (r = false <-> b = false /\ Forall (pair_backed s) ps).
Proof.
  revert s. induction ps as [|p ps IH]; intros s Hs Ha; simpl.
  { exists b, s. split_and!; [done|apply still_refl|]. rewrite Forall_nil. naive_solver. }
  destruct (query_balance_total (GetAddress p) ModuleEVMAddress s) as (s1 & Hq & St); [apply Hs; left|done|].
  rewrite Hq; simpl. setoid_rewrite Forall_cons. rewrite Z.gtb_ltb.
  assert (pair_backed s p <-> GetSupply (cv_bank s1) (cpDenom p) <= tokens s (GetAddress p) ModuleEVMAddress) as Hp
    by (rewrite <- (still_pair_backed _ _ _ St); unfold pair_backed; by rewrite (still_tokens _ _ _ _ St)).
  setoid_rewrite Hp.
  destruct (Z.ltb_spec (tokens s (GetAddress p) ModuleEVMAddress) (GetSupply (cv_bank s1) (cpDenom p))).
  { exists true, s1. split_and!; [done|done|]. split; [done|]. lia. }
  destruct (IH s1) as (r & s2 & Hl & St2 & Hr).
  { intros q Hq'. apply (ef_kinds _ _ _ _ _ _ St), Hs. by right. }
  { by apply (ef_kinds _ _ _ _ _ _ St). }
  exists r, s2. split_and!; [done|by eapply still_trans|]. rewrite Hr.
  assert (Forall (pair_backed s1) ps <-> Forall (pair_backed s) ps) as ->.
  { rewrite !Forall_forall. setoid_rewrite (still_pair_backed _ _ _ St). done. }
  naive_solver.
Qed.

Lemma fully_backed_loop_correct cs b s :
  (forall dc, dc ∈ cs -> standard (wEvm (cvWorld s)) dc.2) ->
  has_account (wEvm (cvWorld s)) ModuleEVMAddress ->
  exists r s', fully_backed_loop cs b s = Ok (r, s') /\ still s s'
  /\ (r = false <-> b = false /\ Forall (coin_backed s) cs).
Proof.
  revert s. induction cs as [|dc cs IH]; intros s Hs Ha; simpl.
  { exists b, s. split_and!; [done|apply still_refl|]. rewrite Forall_nil. naive_solver. }
  destruct (query_supply_total dc.2 s) as (s1 & Hq & St); [apply Hs; left|done|].
  rewrite Hq; simpl. setoid_rewrite Forall_cons. unfold coin_backed at 1.
  destruct b; simpl; [exists true, s1; split_and!; naive_solver|].
  destruct (Z.eqb_spec (token_total s dc.2) (GetBalance (cv_bank s) U dc.1)); simpl.
  2: { exists true, s1. split_and!; [done|done|]. split; [done|]. naive_solver. }
  destruct (IH s1) as (r & s2 & Hl & St2 & Hr).
  { intros q Hq'. apply (ef_kinds _ _ _ _ _ _ St), Hs. by right. }
  { by apply (ef_kinds _ _ _ _ _ _ St). }
  exists r, s2. split_and!; [done|by eapply still_trans|]. rewrite Hr.
  assert (Forall (coin_backed s1) cs <-> Forall (coin_backed s) cs) as ->.
  { rewrite !Forall_forall. setoid_rewrite (still_coin_backed _ _ _ St). done. }
  naive_solver.
Qed.

Lemma elem_of_deployed s d c : contracts_ok s ->
  (d, c) ∈ deployed_contracts s <-> cvContracts s !! d = Some c.
Proof.
  intros [_ Hok]. unfold deployed_contracts. rewrite list_elem_of_fmap.
  setoid_rewrite string_iterator_Permutation. unfold BytesToInternalEVMAddress. split.
  - intros ([d' c'] & [= -> ->] & Hin). apply elem_of_map_to_list in Hin. simpl.
    rewrite BytesToAddress_id by (by apply (Hok d')). done.
  - intros Hd. exists (d, c). simpl. rewrite BytesToAddress_id by (by apply (Hok d)).
    split; [done|]. by apply elem_of_map_to_list.
Qed.

Lemma checks_correct b s :
  contracts_ok s -> has_account (wEvm (cvWorld s)) ModuleEVMAddress ->
  (exists r s', BackedCoinsInvariant b s = Ok (r, s') /\ still s s'
     /\ (r = false <-> b = false /\ forall p, p ∈ EnabledConversionPairs (cvParams s) -> pair_backed s p))
  /\ (exists r s', CosmosCoinsFullyBackedInvariant b s = Ok (r, s') /\ still s s'
     /\ (r = false <-> b = false /\ forall d c, cvContracts s !! d = Some c -> coin_backed s (d, c))).
Proof.
  intros Hok Ha. split.
  - destruct (backed_coins_loop_correct (EnabledConversionPairs (cvParams s)) b s) as (r & s' & Hl & St & Hr);
      [apply Hok|done|]. exists r, s'. rewrite Forall_forall in Hr. done.
  - destruct (fully_backed_loop_correct (deployed_contracts s) b s) as (r & s' & Hl & St & Hr).
    { intros [d c] Hin. apply elem_of_deployed in Hin; [|done]. apply (owned_standard (bk := bk) (B := B)).
      by apply (proj2 Hok d). }
    { done. }
    exists r, s'. split_and!; [done|done|]. rewrite Hr, Forall_forall. split.
    + intros [H1 H2]. split; [done|]. intros d c Hd. by apply H2, elem_of_deployed.
    + intros [H1 H2]. split; [done|]. intros [d c] Hin. apply H2, elem_of_deployed; done.
Qed.

(** ** Solvency *)
Lemma conv_bank_total f s b :
  f (cv_bank s) = Ok b -> exists s', conv_bank f s = Ok s' /\ cv_bank s' = b /\ wEvm (cvWorld s') = wEvm (cvWorld s)
  /\ cvParams s' = cvParams s /\ cvContracts s' = cvContracts s.
Proof. intros Hb. unfold conv_bank. rewrite Hb. simpl. eauto 10. Qed.

Lemma UnlockERC20Tokens_total p n y s :
  standard (wEvm (cvWorld s)) (GetAddress p) -> has_account (wEvm (cvWorld s)) ModuleEVMAddress ->
  y <> zero_address -> y <> U -> 0 <= n < 2 ^ 256 -> n <= tokens s (GetAddress p) ModuleEVMAddress ->
  exists s', UnlockERC20Tokens p n y s = Ok s'.
Proof.
  intros Hc Ha Hy HyU Hn Hle. unfold UnlockERC20Tokens.
  destruct (query_balance_total (GetAddress p) y s Hc Ha) as (s1 & -> & S1). simpl.
  destruct (transfer_runs (bk := bk) (cvWorld s1) (GetAddress p) ModuleEVMAddress y n) as (data & res & x & Hp & Hr & Hlogs).
  { by eapply still_standard. }
  { by apply (ef_kinds _ _ _ _ _ _ S1). }
  { rewrite ModuleEVMAddress_U. apply evmutil_nonzero. }
  { done. }
  { pose proof (still_tokens _ _ (GetAddress p) ModuleEVMAddress S1) as E. unfold tokens in E at 1. lia. }
  assert (CallEVM ERC20MintableBurnableContract ModuleEVMAddress (GetAddress p) "transfer" [AAddress y; AInt n] s1
          = Ok (res, set_world x s1)) as Hcall by (apply CallEVM_Ok; eauto).
  rewrite Hcall. simpl.
  apply transfer_Ok in Hcall as [_ E]; [|by eapply still_standard|done].
  destruct (query_balance_total (GetAddress p) y (set_world x s1)) as (s3 & -> & S3).
  { by apply (ef_kinds _ _ _ _ _ _ E), (still_standard s). }
  { by apply (ef_kinds _ _ _ _ _ _ E), (ef_kinds _ _ _ _ _ _ S1). }
  simpl. rewrite (ef_tok _ _ _ _ _ _ E), (still_tokens _ _ _ _ S1).
  replace (on_token (GetAddress p) (transfer_delta ModuleEVMAddress y n) (GetAddress p) y) with n
    by (rewrite ModuleEVMAddress_U; amounts).
  rewrite Z.eqb_refl. simpl. rewrite (proj2 (monitor_Ok res tt) Hlogs). simpl. eauto.
Qed.

Section Solvent.
  Context {total : BankTotal B}.

Lemma coins_redeem y x n p s :
  conv_inv s -> p ∈ EnabledConversionPairs (cvParams s) -> x <> zero_address -> x <> U ->
  0 <= n < 2 ^ 256 -> n <= Spendable (cv_bank s) y (cpDenom p) -> n <= GetSupply (cv_bank s) (cpDenom p) ->
  exists s', ConvertCoinToERC20 y x (mkCoin (cpDenom p) n) s = Ok s'.
Proof.
  intros I Hp Hx HxU Hn Hsp Hsu. destruct (ci_params _ I) as [P1 _ P3 _ _ _].
  unfold ConvertCoinToERC20, GetEnabledConversionPairFromDenom, BurnConversionPairCoin; cbn [Denom Amount].
  rewrite (proj2 (find_key cpDenom _ p (cpDenom p) P3)) by done. cbn [obind].
  assert (Coin_IsValid (mkCoin (cpDenom p) n) = true) as Hv.
  { apply Coin_IsValid_iff. rewrite Forall_forall in P1. split; [by apply P1|simpl; lia]. }
  apply NewCoins1_total in Hv as [cs Hcs]. rewrite Hcs. cbn [obind].
  destruct (to_evmutil_total (cv_bank s) y _ _ Hcs Hsp) as [b1 Hb1].
  destruct (conv_bank_total _ s b1 Hb1) as (s1 & Hs1 & Eb1 & Ew1 & Ep1 & _). rewrite Hs1. cbn [obind].
  pose proof (send_to_evmutil _ _ _ _ Hs1) as E1.
  assert (n <= GetBalance (cv_bank s1) U (cpDenom p)) as HU.
  { pose proof (proj2 (NewCoins1_at _ _ Hcs) (cpDenom p)) as Ha. rewrite (ef_coin _ _ _ _ _ _ E1), Ha.
    pose proof (spendable_range (cv_bank s) y (cpDenom p)) as Hy. pose proof (spendable_range (cv_bank s) U (cpDenom p)).
    simpl in *. amounts; subst; lia. }
  destruct (evmutil_burn_total (cv_bank s1) _ _ Hcs HU) as [b2 Hb2].
  destruct (conv_bank_total _ s1 b2 Hb2) as (s2 & Hs2 & Eb2 & Ew2 & Ep2 & _). rewrite Hs2. cbn [obind].
  apply UnlockERC20Tokens_total; try done; unfold tokens; rewrite ?Ew2, ?Ew1.
  - by apply (ci_contracts _ I).
  - apply I.
  - pose proof (ci_pairs _ I p Hp) as Hb. unfold tokens in Hb. lia.
Qed.

Lemma wrapped_redeem x y n d c s :
  conv_inv s -> cvContracts s !! d = Some c -> ValidateDenom d = true -> x <> zero_address ->
  BlockedAddr y = false -> 0 <= n < 2 ^ 256 -> n <= tokens s c x ->
  exists s', ConvertCosmosCoinFromERC20 x y (mkCoin d n) s = Ok s'.
Proof.
  intros I Hd Hv Hx Hy Hn Hle. destruct (proj2 (ci_contracts _ I) d c Hd) as [Hl Hown].
  pose proof (owned_standard (bk := bk) (B := B) _ _ Hown) as Hstd.
  unfold ConvertCosmosCoinFromERC20; cbn [Denom Amount].
  rewrite (GetDeployed_found _ _ _ (ci_contracts _ I) Hd). cbn [negb].
  destruct (query_balance_total c x s Hstd (ci_account _ I)) as (s1 & -> & S1). cbn [rewrap obind].
  destruct (Z.ltb_spec (tokens s c x) n) as [?|_]; [lia|].
  destruct (burn_runs (bk := bk) (cvWorld s1) c x n) as (data & res & w & Hp & Hr).
  { by apply (ef_kinds _ _ _ _ _ _ S1). }
  { apply (ef_kinds _ _ _ _ _ _ S1), I. }
  { done. }
  { pose proof (still_tokens _ _ c x S1) as E. unfold tokens in E at 1. lia. }
  assert (BurnERC20 c x n s1 = Ok (set_world w s1)) as Hburn.
  { unfold BurnERC20. by rewrite (proj2 (CallEVM_Ok _ _ _ _ _ _ res (set_world w s1))) by eauto. }
  rewrite Hburn. cbn [obind].
  apply BurnERC20_Ok in Hburn as E2; [|by apply (ef_kinds _ _ _ _ _ _ S1)|done].
  assert (Coin_IsValid (mkCoin d n) = true) as Hcv by (apply Coin_IsValid_iff; simpl; split; [done|lia]).
  apply NewCoins1_total in Hcv as [cs Hcs]. rewrite Hcs. cbn [obind].
  destruct (from_evmutil_total (cv_bank (set_world w s1)) y _ _ Hcs Hy) as [b Hb].
  - cbn [Denom Amount]. rewrite (ef_coin _ _ _ _ _ _ E2), (ef_coin _ _ _ _ _ _ S1), <- (ci_coins _ I d c Hd).
    pose proof (tok_balance_total (bk := bk) (B := B) _ _ x Hstd) as Ht. unfold token_total, tokens in *. lia.
  - destruct (conv_bank_total _ (set_world w s1) b Hb) as (s2 & Hs2 & _). eauto.
Qed.
End Solvent.
End Checks.

(** ** There and back *)

(** The conversion in the other direction. *)
Definition undo s (o : conv_op) : option conv_op :=
  match o with
  | CvCoinToERC20 x y coin =>
      match GetEnabledConversionPairFromDenom s (Denom coin) with
      | Ok p => Some (CvERC20ToCoin y x (ZgChainERC20Address p) (Amount coin))
      | _ => None
      end
  | CvERC20ToCoin x y c n =>
      match GetEnabledConversionPairFromERC20Address s c with
      | Ok p => Some (CvCoinToERC20 y x (mkCoin (cpDenom p) n))
      | _ => None
      end
  | CvCosmosToERC20 x y coin => Some (CvCosmosFromERC20 y x coin)
  | CvCosmosFromERC20 x y coin => Some (CvCosmosToERC20 y x coin)
  end.

(** Two pairs that one search by a key may return. *)
Lemma same_pair s p q : params_ok (cvParams s) ->
  p ∈ EnabledConversionPairs (cvParams s) -> q ∈ EnabledConversionPairs (cvParams s) ->
  cpDenom p = cpDenom q \/ ZgChainERC20Address p = ZgChainERC20Address q -> p = q.
Proof.
  intros [P1 P2 P3 _ _ _] Hp Hq E. apply (pair_unique (EnabledConversionPairs (cvParams s))); try done.
  destruct E as [E|E]; [by left|right]. unfold GetAddress. by rewrite E.
Qed.

Lemma undo_amount s o o' : undo s o = Some o' -> op_amount o' = op_amount o.
Proof. destruct o; simpl; repeat case_match; by intros [= <-]. Qed.

Lemma cancel o o' s s1 s2 :
  conv_inv s -> payer o <> U -> op_amount o < 2 ^ 256 ->
  conv_exec o s = Ok s1 -> undo s o = Some o' -> conv_exec o' s1 = Ok s2 -> still s s2.
Proof.
  intros I Hx Hn H1 Hu H2. pose proof (conv_inv_exec _ _ _ I Hx Hn H1) as I1.
  apply conv_exec_spec in H1 as [_ Ho1]; [|apply I|done].
  apply conv_exec_spec in H2 as [_ Ho2]; [|apply I1|by rewrite (undo_amount _ _ _ Hu)].
  pose proof (ci_params _ I) as HP.
  destruct o as [x y [d n]|x y c n|x y [d n]|x y [d n]]; simpl in Hu, Ho1, Hn.
  - destruct (GetEnabledConversionPairFromDenom s d) as [p| |] eqn:Hp; [|done..]. injection Hu as <-.
    apply FromDenom_Ok in Hp as [Hp Hd]. simpl in Ho2.
    destruct Ho1 as (p1 & Hp1 & Hd1 & _ & E1), Ho2 as (p2 & Hp2 & Ha2 & _ & E2).
    rewrite (ef_params _ _ _ _ _ _ E1) in Hp2.
    assert (p1 = p) as -> by (apply (same_pair s); try done; left; congruence).
    assert (p2 = p) as -> by (apply (same_pair s); try done; by right).
    eapply effect_eq; [exact (effect_trans _ _ _ _ _ _ _ _ _ _ _ E1 E2)|..]; subst; amounts.
  - destruct (GetEnabledConversionPairFromERC20Address s c) as [p| |] eqn:Hp; [|done..]. injection Hu as <-.
    apply FromAddress_Ok in Hp as [Hp Hd]. simpl in Ho2.
    destruct Ho1 as (p1 & Hp1 & Ha1 & _ & E1), Ho2 as (p2 & Hp2 & Hd2 & _ & E2).
    rewrite (ef_params _ _ _ _ _ _ E1) in Hp2.
    assert (p1 = p) as -> by (apply (same_pair s); try done; right; congruence).
    assert (p2 = p) as -> by (apply (same_pair s); try done; by left).
    eapply effect_eq; [exact (effect_trans _ _ _ _ _ _ _ _ _ _ _ E1 E2)|..]; amounts.
  - injection Hu as <-. simpl in Ho2. destruct Ho1 as (c1 & _ & Hc1 & _ & E1), Ho2 as (c2 & Hc2 & _ & E2).
    assert (c2 = c1) as -> by congruence.
    eapply effect_eq; [exact (effect_trans _ _ _ _ _ _ _ _ _ _ _ E1 E2)|..]; amounts.
  - injection Hu as <-. simpl in Ho2. destruct Ho1 as (c1 & Hc1 & _ & E1), Ho2 as (c2 & _ & Hc2 & _ & E2).
    apply (ef_contracts _ _ _ _ _ _ E1), (ef_contracts _ _ _ _ _ _ E2) in Hc1.
    assert (c2 = c1) as -> by congruence.
    eapply effect_eq; [exact (effect_trans _ _ _ _ _ _ _ _ _ _ _ E1 E2)|..]; amounts.
Qed.

Lemma conv_inv_run s s' : conv_inv s -> rtc conv_step s s' -> conv_inv s'.
Proof. intros I Hr. induction Hr; eauto using conv_inv_step. Qed.

Lemma inv_checks {run : Erc20Runs B W} s : conv_inv s ->
  (exists s1, BackedCoinsInvariant false s = Ok (false, s1))
  /\ (exists s1, CosmosCoinsFullyBackedInvariant false s = Ok (false, s1))
  /\ SmallBalancesInvariant false (wState (cvWorld s)) = false.
Proof.
  intros I. destruct (checks_correct false s (ci_contracts _ I) (ci_account _ I)) as [(r & s1 & H1 & _ & E1) (r2 & s2 & H2 & _ & E2)].
  destruct (ci_fractions _ I) as [Hok Hsm]. split_and!.
  - exists s1. rewrite (proj2 E1) in H1; [done|]. split; [done|]. apply I.
  - exists s2. rewrite (proj2 E2) in H2; [done|]. split; [done|]. apply I.
  - by apply small_check.
Qed.

(** ** Theorems *)

(** C6: when every enabled pair names a standard ERC20 contract, whose transfers move exactly
    the amount asked for, and the registered contracts are the module's own, a successful
    conversion of less than 2^256 does exactly what its specification says: coins of
    a pair leave (enter) the supply against the module's tokens, coins go to (come
    from) the module account against minted (burned) wrapped tokens, every other
    balance, supply, parameter and stored fraction stays, and a contract is
    registered only for an allowed denomination, at an address that held no code. *)
Theorem conv_refines o s s' :
  contracts_ok s -> op_amount o < 2 ^ 256 -> conv_exec o s = Ok s' -> conv_spec o s s'.
Proof. apply conv_exec_spec. Qed.

(** C5: conversions stay backed, under these conditions: the enabled tokens are standard
    ERC20 contracts; a change of the parameters enables a pair only when the module's tokens
    already cover the coins in circulation, allows a coin only when the module account holds
    none of it without a contract, and converts the gas coin in neither way; nobody else
    mints coins of the pairs, mints or burns wrapped coins or spends what the module holds.
    Then in every state reached by conversions of users, operations of the EVM's bank keeper,
    such parameter changes and other activity, the coins of each pair are at most the
    module's tokens, each wrapped coin's supply is the module account's balance, the
    fractions are small, and the three checks of these facts run and report nothing.  (The
    check of the pairs is in the code, but its registration is commented out.  The registered
    check that the fractions are backed by coins is not part of this claim.) *)
Theorem conv_run_backed {run : Erc20Runs B W} s s' :
  conv_inv s -> rtc conv_step s s' ->
  conv_inv s'
  /\ (exists s1, BackedCoinsInvariant false s' = Ok (false, s1))
  /\ (exists s1, CosmosCoinsFullyBackedInvariant false s' = Ok (false, s1))
  /\ SmallBalancesInvariant false (wState (cvWorld s')) = false.
Proof.
  intros I Hr. assert (conv_inv s') as I' by by eapply conv_inv_run. split; [done|by apply inv_checks].
Qed.

(** The two invariants decide exactly the backing of all pairs and of all
    wrapped coins, whatever order the contracts are visited in, change no balance,
    and stay broken once the closure has seen a violation. *)
Theorem backing_checks {run : Erc20Runs B W} b s :
  contracts_ok s -> has_account (wEvm (cvWorld s)) ModuleEVMAddress ->
  (exists r s', BackedCoinsInvariant b s = Ok (r, s') /\ still s s'
     /\ (r = false <-> b = false /\ forall p, p ∈ EnabledConversionPairs (cvParams s) -> pair_backed s p))
  /\ (exists r s', CosmosCoinsFullyBackedInvariant b s = Ok (r, s') /\ still s s'
     /\ (r = false <-> b = false /\ forall d c, cvContracts s !! d = Some c -> coin_backed s (d, c))).
Proof. apply checks_correct. Qed.

(** C7: the module is solvent under the same conditions (standard tokens; parameter changes
    that enable only pairs whose coins are covered by the module's tokens; nobody else mints
    coins of the pairs or wrapped coins or spends what the module holds): in every state
    reached by conversions, EVM bank operations, such changes and other activity, whoever can
    spend coins of an enabled pair can convert them to tokens, and whoever holds wrapped
    tokens can convert them back to coins, up to the full amount. *)
Theorem always_redeemable {run : Erc20Runs B W} {total : BankTotal B} s s' :
  conv_inv s -> rtc conv_step s s' ->
  (forall y x n p, p ∈ EnabledConversionPairs (cvParams s') -> x <> zero_address -> x <> U -> 0 <= n < 2 ^ 256 ->
     n <= Spendable (cv_bank s') y (cpDenom p) -> n <= GetSupply (cv_bank s') (cpDenom p) ->
     exists s1, ConvertCoinToERC20 y x (mkCoin (cpDenom p) n) s' = Ok s1)
  /\ (forall x y n d c, cvContracts s' !! d = Some c -> ValidateDenom d = true -> x <> zero_address ->
     BlockedAddr y = false -> 0 <= n < 2 ^ 256 -> n <= tokens s' c x ->
     exists s1, ConvertCosmosCoinFromERC20 x y (mkCoin d n) s' = Ok s1).
Proof.
  intros I Hr. assert (conv_inv s') as I' by by eapply conv_inv_run.
  split; intros; [by apply coins_redeem|by eapply wrapped_redeem].
Qed.

(** A conversion and the conversion in the other direction cancel: no coin
    balance, token balance or supply is changed by the two together. *)
Theorem conversions_cancel o o' s s1 s2 :
  conv_inv s -> payer o <> U -> op_amount o < 2 ^ 256 ->
  conv_exec o s = Ok s1 -> undo s o = Some o' -> conv_exec o' s1 = Ok s2 -> still s s2.
Proof. apply cancel. Qed.

(** C31: parameters pass validation exactly when every pair and token is
    well-formed and no address, denomination or symbol repeats; then the two
    lookups of pairs and the lookup of tokens are exact, so that a pair found by
    its denomination is the pair found by its contract. *)
Theorem valid_params_lookup s :
  byte_addresses (cvParams s) ->
  (Params_Validate (cvParams s) = Ok tt <-> params_ok (cvParams s))
  /\ (params_ok (cvParams s) -> forall p,
      (forall d, GetEnabledConversionPairFromDenom s d = Ok p
         <-> p ∈ EnabledConversionPairs (cvParams s) /\ cpDenom p = d)
      /\ (forall a, GetEnabledConversionPairFromERC20Address s a = Ok p
         <-> p ∈ EnabledConversionPairs (cvParams s) /\ ZgChainERC20Address p = a)
      /\ (forall t d, GetAllowedTokenMetadata s d = Some t
         <-> t ∈ AllowedCosmosDenoms (cvParams s) /\ CosmosDenom t = d)).
Proof.
  intros Hb. split; [by apply params_validated|]. intros [P1 P2 P3 P4 P5 P6] p. split_and!.
  - intros d. unfold GetEnabledConversionPairFromDenom. rewrite <- (find_key cpDenom _ p d P3).
    destruct (List.find _ _); naive_solver.
  - intros a. unfold GetEnabledConversionPairFromERC20Address. rewrite <- (find_key ZgChainERC20Address _ p a P2).
    destruct (List.find _ _); naive_solver.
  - intros t d. apply (find_key CosmosDenom _ t d P5).
Qed.

(** The parameters may allow [ua0gi] itself to be converted, and then the
    reserve of the stored fractions, which is in the same module account, breaks the
    invariant of the wrapped coins: as soon as the EVM takes one [ua0gi] to pay a
    fraction, the check reports the coin as not backed. *)
Theorem gas_coin_breaks_check {run : Erc20Runs B W} s a n c e :
  contracts_ok s -> has_account (wEvm (cvWorld s)) ModuleEVMAddress ->
  cvContracts s !! GasDenom = Some c -> coin_backed s (GasDenom, c) -> a <> U ->
  evm_GetBalance (wState (cvWorld s)) a < n ->
  ConvertOneGasDenomToEvmDenomIfNeeded a n (wState (cvWorld s)) = Ok e ->
  exists s1, CosmosCoinsFullyBackedInvariant false (set_world (mkWorld e (wEvm (cvWorld s))) s) = Ok (true, s1).
Proof.
  intros Hok Ha Hc Hb HaU Hlt Hx.
  destruct (checks_correct false (set_world (mkWorld e (wEvm (cvWorld s))) s) Hok Ha) as [_ (r & s1 & Hr & _ & E)].
  exists s1. rewrite Hr. destruct r; [done|]. exfalso. destruct (proj1 E eq_refl) as [_ Hall].
  specialize (Hall _ _ Hc). unfold coin_backed, token_total, cv_bank in *; simpl in *.
  enough (GetBalance (evBank e) U GasDenom = GetBalance (evBank (wState (cvWorld s))) U GasDenom + 1) by lia.
  clear -Hlt Hx HaU sdk bankl ethl. unfold ConvertOneGasDenomToEvmDenomIfNeeded in Hx. go_inv Hx; [gobool; lia|].
  coin_inv. by_call evm_bank_Ok as (b & Hs & ->). apply AddBalance_Ok, SetBalance_bank in Hx. rewrite Hx.
  apply send_to_module in Hs as (u & Hu & Hm & _). rewrite evmutil_account in Hu. injection Hu as <-. simpl.
  rewrite Hm. unfold credit. rewrite (NewCoins1_gas _ _ Hcall0). repeat case_bool_decide; congruence || lia.
Qed.
End Conversions.
