(* ===== verification/EvmConvertMsg.v ===== *)
(** * x/evmutil: messages and genesis of the conversions

    [types/msg.go] and [keeper/msg_server.go]: every message that passes validation
    is one conversion, paid by its signer ([signer_pays]).  The export and import of
    the module's state ([export_import_conversions]). *)

From S2P Require Import Prelude Sdk GoStd Bank Evmutil EvmutilTheorems EvmConvert EvmConvertSpec.

Definition ErrInvalidRequest : error := Registered "sdk" 18.

(** The coin of a decoded message: the amount is nil when the field is absent, and
    the message holds a pointer to the coin. *)
Record MsgCoin : Type := mkMsgCoin { mcDenom : string; mcAmount : option Z }.

Record MsgConvertCoinToERC20 : Type := NewMsgConvertCoinToERC20 {
  cteInitiator : string; cteReceiver : string; cteAmount : option MsgCoin }.
Record MsgConvertERC20ToCoin : Type := mkMsgConvertERC20ToCoin {
  etcInitiator : string; etcReceiver : string; etcZgChainERC20Address : string; etcAmount : option Z }.
Record MsgConvertCosmosCoinToERC20 : Type := NewMsgConvertCosmosCoinToERC20 {
  cctInitiator : string; cctReceiver : string; cctAmount : option MsgCoin }.
Record MsgConvertCosmosCoinFromERC20 : Type := NewMsgConvertCosmosCoinFromERC20 {
  ccfInitiator : string; ccfReceiver : string; ccfAmount : option MsgCoin }.

Section Messages.
  Context {cfg : SdkConfig} {eth : EthConfig} {B W : Type} {bk : BankKeeper B} {evm : EvmKeeper B W}.
  Implicit Types s : ConvState B W.

(** A nil pointer, or a nil integer, is dereferenced.  (Validation excludes both for
    the messages that reach a handler.) *)
Definition deref {A} (p : option A) : outcome A :=
  match p with Some a => Ok a | None => Panic "invalid memory address or nil pointer dereference" end.
Definition deref_coin (p : option MsgCoin) : outcome Coin :=
  let! c := deref p in let! n := deref (mcAmount c) in Ok (mkCoin (mcDenom c) n).

Definition NewMsgConvertERC20ToCoin (initiator : bytes) (receiver : AccAddress) (contractAddr : bytes) (amount : Z)
    : MsgConvertERC20ToCoin :=
  mkMsgConvertERC20ToCoin (Address_Hex initiator) (AccAddress_String receiver) (Address_Hex contractAddr) (Some amount).

Definition CoinToERC20_GetSigners (msg : MsgConvertCoinToERC20) : outcome (list AccAddress) :=
  let! sender := must (AccAddressFromBech32 (cteInitiator msg)) in Ok [sender].

Definition CoinToERC20_ValidateBasic (msg : MsgConvertCoinToERC20) : outcome unit :=
  let! _ := rewrap ErrInvalidAddress (AccAddressFromBech32 (cteInitiator msg)) in
  if negb (IsHexAddress (cteReceiver msg)) then Err ErrInvalidAddress else
  let! coin := deref_coin (cteAmount msg) in
  if Amount coin =? 0 then Err ErrInvalidRequest else
  if Coin_IsValid coin then Ok tt else Err (Plain "invalid coin").

Definition ERC20ToCoin_GetSigners (msg : MsgConvertERC20ToCoin) : outcome (list AccAddress) :=
  Ok [HexToAddress (etcInitiator msg)].

Definition ERC20ToCoin_ValidateBasic (msg : MsgConvertERC20ToCoin) : outcome unit :=
  if negb (IsHexAddress (etcInitiator msg)) then Err ErrInvalidAddress else
  if negb (IsHexAddress (etcZgChainERC20Address msg)) then Err ErrInvalidAddress else
  let! _ := rewrap ErrInvalidAddress (AccAddressFromBech32 (etcReceiver msg)) in
  match etcAmount msg with
  | None => Err ErrInvalidRequest
  | Some n => if n <=? 0 then Err ErrInvalidRequest else Ok tt
  end.

(** [IsNil], [IsValid] and [IsZero] of the coin. *)
Definition validate_cosmos_coin (p : option MsgCoin) : outcome unit :=
  let! c := deref p in
  match mcAmount c with
  | None => Err ErrInvalidCoins
  | Some n => if negb (Coin_IsValid (mkCoin (mcDenom c) n)) || (n =? 0) then Err ErrInvalidCoins else Ok tt
  end.

Definition CosmosToERC20_GetSigners (msg : MsgConvertCosmosCoinToERC20) : outcome (list AccAddress) :=
  let! sender := must (AccAddressFromBech32 (cctInitiator msg)) in Ok [sender].

Definition CosmosToERC20_ValidateBasic (msg : MsgConvertCosmosCoinToERC20) : outcome unit :=
  let! _ := rewrap ErrInvalidAddress (AccAddressFromBech32 (cctInitiator msg)) in
  if negb (IsHexAddress (cctReceiver msg)) then Err ErrInvalidAddress else
  validate_cosmos_coin (cctAmount msg).

Definition CosmosFromERC20_GetSigners (msg : MsgConvertCosmosCoinFromERC20) : outcome (list AccAddress) :=
  let! sender0x := must (NewInternalEVMAddressFromString (ccfInitiator msg)) in Ok [sender0x].

Definition CosmosFromERC20_ValidateBasic (msg : MsgConvertCosmosCoinFromERC20) : outcome unit :=
  if negb (IsHexAddress (ccfInitiator msg)) then Err ErrInvalidAddress else
  let! _ := rewrap ErrInvalidAddress (AccAddressFromBech32 (ccfReceiver msg)) in
  validate_cosmos_coin (ccfAmount msg).

(** ** keeper/msg_server.go *)
Definition invalid_address {A} (o : outcome A) : outcome A := rewrap (Plain "invalid address") o.

Definition msgServer_ConvertCoinToERC20 (msg : MsgConvertCoinToERC20) s : outcome (ConvState B W) :=
  let! initiator := invalid_address (AccAddressFromBech32 (cteInitiator msg)) in
  let! receiver := invalid_address (NewInternalEVMAddressFromString (cteReceiver msg)) in
  let! amount := deref_coin (cteAmount msg) in
  ConvertCoinToERC20 initiator receiver amount s.

Definition msgServer_ConvertERC20ToCoin (msg : MsgConvertERC20ToCoin) s : outcome (ConvState B W) :=
  let! initiator := invalid_address (NewInternalEVMAddressFromString (etcInitiator msg)) in
  let! receiver := invalid_address (AccAddressFromBech32 (etcReceiver msg)) in
  let! contractAddr := invalid_address (NewInternalEVMAddressFromString (etcZgChainERC20Address msg)) in
  let! amount := deref (etcAmount msg) in
  ConvertERC20ToCoin initiator receiver contractAddr amount s.

Definition msgServer_ConvertCosmosCoinToERC20 (msg : MsgConvertCosmosCoinToERC20) s : outcome (ConvState B W) :=
  let! initiator := invalid_address (AccAddressFromBech32 (cctInitiator msg)) in
  let! receiver := invalid_address (NewInternalEVMAddressFromString (cctReceiver msg)) in
  let! amount := deref_coin (cctAmount msg) in
  ConvertCosmosCoinToERC20 initiator receiver amount s.

Definition msgServer_ConvertCosmosCoinFromERC20 (msg : MsgConvertCosmosCoinFromERC20) s : outcome (ConvState B W) :=
  let! initiator := invalid_address (NewInternalEVMAddressFromString (ccfInitiator msg)) in
  let! receiver := invalid_address (AccAddressFromBech32 (ccfReceiver msg)) in
  let! amount := deref_coin (ccfAmount msg) in
  ConvertCosmosCoinFromERC20 initiator receiver amount s.

Inductive evmutil_msg : Type :=
| MCoinToERC20 (m : MsgConvertCoinToERC20)
| MERC20ToCoin (m : MsgConvertERC20ToCoin)
| MCosmosToERC20 (m : MsgConvertCosmosCoinToERC20)
| MCosmosFromERC20 (m : MsgConvertCosmosCoinFromERC20).

Definition ValidateBasic (m : evmutil_msg) : outcome unit :=
  match m with
  | MCoinToERC20 m => CoinToERC20_ValidateBasic m
  | MERC20ToCoin m => ERC20ToCoin_ValidateBasic m
  | MCosmosToERC20 m => CosmosToERC20_ValidateBasic m
  | MCosmosFromERC20 m => CosmosFromERC20_ValidateBasic m
  end.
Definition GetSigners (m : evmutil_msg) : outcome (list AccAddress) :=
  match m with
  | MCoinToERC20 m => CoinToERC20_GetSigners m
  | MERC20ToCoin m => ERC20ToCoin_GetSigners m
  | MCosmosToERC20 m => CosmosToERC20_GetSigners m
  | MCosmosFromERC20 m => CosmosFromERC20_GetSigners m
  end.
Definition handle (m : evmutil_msg) s : outcome (ConvState B W) :=
  match m with
  | MCoinToERC20 m => msgServer_ConvertCoinToERC20 m s
  | MERC20ToCoin m => msgServer_ConvertERC20ToCoin m s
  | MCosmosToERC20 m => msgServer_ConvertCosmosCoinToERC20 m s
  | MCosmosFromERC20 m => msgServer_ConvertCosmosCoinFromERC20 m s
  end.

(** The amount of a message, if it is set. *)
Definition msg_amount (m : evmutil_msg) : option Z :=
  match m with
  | MCoinToERC20 m => cteAmount m ≫= mcAmount
  | MERC20ToCoin m => etcAmount m
  | MCosmosToERC20 m => cctAmount m ≫= mcAmount
  | MCosmosFromERC20 m => ccfAmount m ≫= mcAmount
  end.
Lemma deref_coin_amount p c : deref_coin p = Ok c -> p ≫= mcAmount = Some (Amount c).
Proof. unfold deref_coin, deref. destruct p as [[d [n|]]|]; simpl; intros [= <-]; done. Qed.

Lemma validate_cosmos_coin_Ok {sdk : SdkLaws} p u :
  validate_cosmos_coin p = Ok u -> exists c, deref_coin p = Ok c /\ 0 < Amount c.
Proof.
  unfold validate_cosmos_coin, deref_coin. intros Hx. go_inv Hx. rewrite Hcall. simpl. rewrite Heqo. simpl.
  eexists. split; [done|]. gobool. destruct Heqb as [[_ ?]%Coin_IsValid_iff ?]. simpl in *. lia.
Qed.

Lemma hex_address h : IsHexAddress h = true -> NewInternalEVMAddressFromString h = Ok (HexToAddress h).
Proof. unfold NewInternalEVMAddressFromString. by intros ->. Qed.

(** A message that passes [ValidateBasic] is handled as exactly one conversion,
    of its positive amount, and the account that pays for it is the message's only
    signer. *)
Theorem signer_pays {sdk : SdkLaws} m :
  ValidateBasic m = Ok tt ->
  exists o, GetSigners m = Ok [payer o] /\ (0 < op_amount o /\ msg_amount m = Some (op_amount o))
  /\ forall s, handle m s = conv_exec o s.
Proof.
  destruct m as [m|m|m|m]; simpl; intros Hx.
  - unfold CoinToERC20_ValidateBasic in Hx. go_inv Hx. rewrite rewrap_Ok in Hcall. gobool.
    apply Coin_IsValid_iff in Heqb1 as [_ ?].
    exists (CvCoinToERC20 r (HexToAddress (cteReceiver m)) r0).
    unfold CoinToERC20_GetSigners, msgServer_ConvertCoinToERC20. rewrite Hcall, Hcall0, hex_address by done.
    simpl. split_and!; [done|lia|by apply deref_coin_amount|done].
  - unfold ERC20ToCoin_ValidateBasic in Hx. go_inv Hx. rewrite rewrap_Ok in Hcall. gobool.
    exists (CvERC20ToCoin (HexToAddress (etcInitiator m)) r (HexToAddress (etcZgChainERC20Address m)) z).
    unfold ERC20ToCoin_GetSigners, msgServer_ConvertERC20ToCoin. rewrite Hcall, !hex_address by done.
    simpl. split_and!; [done|lia|done|]. intros s. by rewrite Heqo.
  - unfold CosmosToERC20_ValidateBasic in Hx. go_inv Hx. rewrite rewrap_Ok in Hcall. gobool.
    apply validate_cosmos_coin_Ok in Hx as (c & Hc & Hpos).
    exists (CvCosmosToERC20 r (HexToAddress (cctReceiver m)) c).
    unfold CosmosToERC20_GetSigners, msgServer_ConvertCosmosCoinToERC20. rewrite Hcall, Hc, hex_address by done.
    simpl. split_and!; [done|done|by apply deref_coin_amount|done].
  - unfold CosmosFromERC20_ValidateBasic in Hx. go_inv Hx. rewrite rewrap_Ok in Hcall. gobool.
    apply validate_cosmos_coin_Ok in Hx as (c & Hc & Hpos).
    exists (CvCosmosFromERC20 (HexToAddress (ccfInitiator m)) r c).
    unfold CosmosFromERC20_GetSigners, msgServer_ConvertCosmosCoinFromERC20. rewrite Hcall, Hc, hex_address by done.
    simpl. split_and!; [done|done|by apply deref_coin_amount|done].
Qed.
End Messages.

(** ** Export and import *)
Section Genesis.
  Context {cfg : SdkConfig} {bech : Bech32Laws} {eth : EthConfig} {B W : Type} {bk : BankKeeper B}
    {evm : EvmKeeper B W}.
  Implicit Types s : ConvState B W.

Definition address_ok (a : AccAddress) : Prop := Forall is_byte a /\ a <> [].

Lemma address_string_inj a b : address_ok a -> address_ok b -> AccAddress_String a = AccAddress_String b -> a = b.
Proof.
  intros [Ba Ha] [Bb Hb] E. pose proof (bech32_roundtrip a Ba Ha) as Ea. rewrite E, bech32_roundtrip in Ea by done.
  by injection Ea.
Qed.

(** The accounts that an export lists: each once, each valid. *)
Lemma validate_accounts_Ok (seen : gset string) l :
  Forall (fun a => Account_Validate a = Ok tt /\ address_ok (acAddress a)) l -> NoDup (acAddress <$> l) ->
  Forall (fun a => not (AccAddress_String (acAddress a) ∈ seen)) l -> validate_accounts seen l = Ok tt.
Proof.
  intros Hv. revert seen. induction Hv as [|a l [Ha Hab] Hl IH]; intros seen Hnd Hs; simpl; [done|].
  simpl in Hnd. apply NoDup_cons in Hnd as [Hna Hnd]. apply Forall_cons_1 in Hs as [Hsa Hs].
  rewrite bool_decide_eq_false_2 by done. rewrite Ha. simpl. apply IH; [done|].
  apply Forall_forall. intros b Hb. rewrite not_elem_of_union, not_elem_of_singleton. rewrite !Forall_forall in *.
  split; [|by apply Hs]. intros E. apply Hna. destruct (Hl b Hb) as [_ Hvb].
  rewrite <- (address_string_inj _ _ Hvb Hab E). by apply list_elem_of_fmap_2.
Qed.

Lemma set_accounts_Ok (l : list (bytes * Account)) (e : EvmState B) :
  (forall k v, (k, v) ∈ l -> acAddress v = k /\ address_ok k /\ 0 < acBalance v) -> NoDup l.*1 ->
  ofold set_genesis_account l.*2 e = Ok (mkEvmState (list_to_map l ∪ evAccounts e) (evBank e)).
Proof.
  revert e. induction l as [|[k v] l IH]; intros e Hl Hnd; simpl.
  { rewrite map_empty_union. by destruct e. }
  simpl in Hnd. apply NoDup_cons in Hnd as [Hk Hnd].
  destruct (Hl k v) as (E & [_ Hne] & Hpos); [left|].
  unfold set_genesis_account, SetAccount, Account_Validate. rewrite E, bool_decide_eq_false_2 by done.
  rewrite (proj2 (Z.ltb_ge (acBalance v) 0)), (proj2 (Z.ltb_lt 0 (acBalance v))) by lia. simpl.
  rewrite IH; [|intros; apply Hl; by right|done]. simpl. do 2 f_equal.
  rewrite <- insert_union_l. symmetry. apply insert_union_r. by apply not_elem_of_list_to_map_1.
Qed.

Lemma iterator_all {V} (m : gmap bytes V) : iterator m None ≡ₚ map_to_list m.
Proof.
  unfold iterator. rewrite merge_sort_Permutation. induction (map_to_list m) as [|kv l IH]; [done|].
  rewrite filter_cons_True by done. by constructor.
Qed.

Lemma exported_accounts (e : EvmState B) :
  accounts_ok e -> (forall a acc, evAccounts e !! a = Some acc -> address_ok a) ->
  Forall (fun a => Account_Validate a = Ok tt /\ address_ok (acAddress a)) (GetAllAccounts e)
  /\ NoDup (acAddress <$> GetAllAccounts e)
  /\ (forall k v, (k, v) ∈ iterator (evAccounts e) None -> acAddress v = k /\ address_ok k /\ 0 < acBalance v)
  /\ list_to_map (iterator (evAccounts e) None) = evAccounts e.
Proof.
  intros Hok Hne. set (l := iterator (evAccounts e) None).
  assert (forall k v, (k, v) ∈ l -> acAddress v = k /\ address_ok k /\ 0 < acBalance v) as Hl.
  { intros k v [Hin _]%elem_of_iterator. destruct (Hok _ _ Hin). split_and!; [done|by eapply Hne|done]. }
  assert (acAddress <$> l.*2 = l.*1) as Ek.
  { clear -Hl. induction l as [|[k v] l IH]; [done|]. simpl. f_equal.
    - apply (Hl k v). left.
    - apply IH. intros; apply Hl; by right. }
  split_and!; [| |done|].
  - apply Forall_forall. intros v ([k v'] & -> & Hin)%list_elem_of_fmap. destruct (Hl k v' Hin) as (E & Hk & Hpos).
    simpl. unfold Account_Validate. rewrite E, bool_decide_eq_false_2 by apply Hk.
    by rewrite (proj2 (Z.ltb_ge _ _)) by lia.
  - unfold GetAllAccounts. fold l. rewrite Ek. apply iterator_NoDup.
  - etrans; [|apply (list_to_map_to_list (evAccounts e))]. apply list_to_map_proper; [|apply iterator_all].
    apply iterator_NoDup.
Qed.

(** Importing an export into an empty store never fails and restores the
    parameters and all stored fractions, but not the registered contracts of the
    wrapped coins: holders of wrapped tokens cannot convert them back afterwards,
    although the module account still holds the coins. *)
Theorem export_import_conversions s s0 :
  accounts_ok (wState (cvWorld s)) -> (forall a acc, evAccounts (wState (cvWorld s)) !! a = Some acc -> address_ok a) ->
  Params_Validate (cvParams s) = Ok tt ->
  evAccounts (wState (cvWorld s0)) = ∅ -> cvContracts s0 = ∅ ->
  exists s1, InitGenesis true (ExportGenesis s) s0 = Ok s1
  /\ cvParams s1 = cvParams s /\ evAccounts (wState (cvWorld s1)) = evAccounts (wState (cvWorld s))
  /\ cvContracts s1 = ∅
  /\ forall x y coin, ConvertCosmosCoinFromERC20 x y coin s1 = Err ErrInvalidCosmosDenom.
Proof.
  intros Hok Hne Hp He Hc. destruct (exported_accounts _ Hok Hne) as (Hv & Hnd & Hl & Hm).
  unfold InitGenesis, GenesisState_Validate, ExportGenesis, SetParams; simpl.
  rewrite validate_accounts_Ok; [|done|done|apply Forall_forall; intros; apply not_elem_of_empty].
  simpl. rewrite Hp. simpl. unfold Params_Validate in Hp. apply obind_Ok in Hp as ([] & Hp1 & Hp2).
  rewrite Hp1; simpl. rewrite Hp2; simpl. unfold GetAllAccounts.
  rewrite set_accounts_Ok; [|done|apply iterator_NoDup]. simpl.
  rewrite Hm, He, (right_id_L ∅ (∪)). eexists. split; [done|]. split_and!; [done|done|done|].
  intros x y coin. unfold ConvertCosmosCoinFromERC20, GetDeployedCosmosCoinContract; simpl.
  by rewrite Hc, lookup_empty.
Qed.
End Genesis.
