(* ===== verification/EvmConvertWitness.v ===== *)
(** * x/evmutil: the conversions on a concrete chain

    [Vault] is a bank whose module addresses have 20 bytes and that blocks the
    module account.  [Machine] is an EVM whose accounts hold token contracts: the
    wrapped-coin contract as modelled in [Contracts], on a map of balances, and a
    token that keeps a tenth of every transfer.  It satisfies the laws the theorems
    rely on, by the theorems on the contract. *)

From S2P Require Import Prelude Sdk SdkModel GoStd Bank Evmutil EvmutilTheorems Contracts.
From S2P Require Import EvmConvert EvmConvertSpec EvmConvertTheorems EvmConvertMsg.
Import Token.

(** ** Addresses and the ABI *)
Module Vault.
#[export] Existing Instances SdkModel.model SdkModel.laws SdkModel.bech32_laws.

Definition pad (b : bytes) : bytes :=
  if Nat.leb AddressLength (length b) then drop (length b - AddressLength) b
  else repeat 0 (AddressLength - length b) ++ b.

Lemma pad_length b : length (pad b) = AddressLength.
Proof.
  unfold pad. destruct (Nat.leb_spec AddressLength (length b)).
  - rewrite length_drop. lia.
  - rewrite length_app, repeat_length. lia.
Qed.
Lemma pad_id b : length b = AddressLength -> pad b = b.
Proof. unfold pad. intros E. rewrite E. simpl. by rewrite drop_0. Qed.

Definition maddr (m : string) : AccAddress := pad (string_bytes m).

Definition mint (m : string) (cs : Coins) (b : Ledger.t) : outcome Ledger.t :=
  match cs with
  | [] => Ok b
  | [c] => if Amount c <? 0 then Err ErrInvalidCoins else Ok (Ledger.adjust (maddr m) (Denom c) (Amount c) b)
  | _ => Err ErrInvalidCoins
  end.
Definition burn (m : string) (cs : Coins) (b : Ledger.t) : outcome Ledger.t :=
  match cs with
  | [] => Ok b
  | [c] => if (Amount c <? 0) || (Ledger.balance b (maddr m) (Denom c) <? Amount c) then Err ErrInsufficientFunds
           else Ok (Ledger.adjust (maddr m) (Denom c) (- Amount c) b)
  | _ => Err ErrInvalidCoins
  end.
Definition blocked (y : AccAddress) : bool := bool_decide (y = maddr EvmutilName).

#[export] Instance keeper : BankKeeper Ledger.t := {|
  GetModuleAddress m := Some (maddr m);
  GetBalance := Ledger.balance;
  GetSupply := Ledger.supply;
  Spendable := Ledger.balance;
  SendCoins := Ledger.move;
  SendCoinsFromAccountToModule x m cs b := Ledger.move x (maddr m) cs b;
  SendCoinsFromModuleToAccount m y cs b :=
    if blocked y then Err ErrUnauthorized else Ledger.move (maddr m) y cs b;
  MintCoins := mint;
  BurnCoins := burn
|}.

Lemma move_ok (b b' : Ledger.t) x y cs : Ledger.move x y cs b = Ok b' -> moved x y cs b b'.
Proof. exact (Ledger.move_moved b b' x y cs). Qed.

Lemma adjust_credit m d n (b : Ledger.t) : 0 <= Ledger.balance b (maddr m) d + n ->
  (forall y e, GetBalance (Ledger.adjust (maddr m) d n b) y e = GetBalance b y e + credit (maddr m) y [mkCoin d n] e)
  /\ (forall e, GetSupply (Ledger.adjust (maddr m) d n b) e = GetSupply b e + AmountOf [mkCoin d n] e).
Proof. exact (Ledger.adjust_effect b (maddr m) d n). Qed.

#[export] Instance bank_laws : BankLaws Ledger.t.
Proof.
  split.
  - intros b a d. simpl. pose proof (Ledger.balance_nonneg b a d). lia.
  - intros b b' x y cs. apply move_ok.
  - intros b b' x m cs Hm. exists (maddr m). split; [done|]. by apply move_ok.
  - intros b b' m y cs Hm. exists (maddr m). split; [done|]. simpl in Hm. destruct (blocked y); [done|]. by apply move_ok.
  - intros b b' m cs Hm. exists (maddr m). split; [done|]. simpl in Hm. unfold mint in Hm.
    destruct cs as [|[d n] [|??]]; simpl in Hm; [| |done].
    + injection Hm as <-. unfold credit; simpl. split; intros; repeat case_bool_decide; lia.
    + destruct (n <? 0) eqn:Hn; [done|]. injection Hm as <-. gobool.
      apply adjust_credit. pose proof (Ledger.balance_nonneg b (maddr m) d). lia.
  - intros b b' m cs Hm. exists (maddr m). split; [done|]. simpl in Hm. unfold burn in Hm.
    destruct cs as [|[d n] [|??]]; simpl in Hm; [| |done].
    + injection Hm as <-. unfold credit; simpl. split; intros; repeat case_bool_decide; lia.
    + destruct (_ || _) eqn:Hn; [done|]. injection Hm as <-. gobool.
      destruct (adjust_credit m d (- n) b) as [H1 H2]; [lia|].
      split; intros; rewrite ?H1, ?H2; unfold credit; simpl; repeat case_bool_decide; lia.
Qed.
End Vault.

(** ** Token contracts *)
Module Machine.
Export Vault.

Record book : Type := mkBook { bkOwner : bytes; bkBal : gmap bytes Z }.
Definition bal (b : book) (a : bytes) : Z := Z.max 0 (default 0 (bkBal b !! a)).
Definition sup (b : book) : Z := map_sum (Z.max 0) (bkBal b).
Definition set (a : bytes) (z : Z) (b : book) : book := mkBook (bkOwner b) (<[a := z]> (bkBal b)).

Lemma bal_set a z b x : 0 <= z -> bal (set a z b) x = if bool_decide (a = x) then z else bal b x.
Proof.
  intros Hz. unfold bal, set; simpl. case_bool_decide as E; [subst|].
  - rewrite lookup_insert_eq. simpl. lia.
  - by rewrite lookup_insert_ne.
Qed.
Lemma sup_set a z b : 0 <= z -> sup (set a z b) = sup b + z - bal b a.
Proof.
  intros Hz. unfold sup, set, bal; simpl. rewrite map_sum_insert. generalize (map_sum (Z.max 0) (bkBal b)). intros q. destruct (bkBal b !! a); simpl; lia.
Qed.
Lemma bal_nonneg b a : 0 <= bal b a.
Proof. unfold bal. lia. Qed.
Lemma bal_le_sup b a : bal b a <= sup b.
Proof.
  unfold bal, sup. destruct (bkBal b !! a) as [z|] eqn:E; simpl.
  - apply (map_sum_lookup_le (Z.max 0) (bkBal b) a z); [|done]. intros; lia.
  - apply map_sum_nonneg. intros; lia.
Qed.

Definition token_mint (to : bytes) (n : Z) (b : book) : option book :=
  if (n <? 0) || bool_decide (to = zero_address) || (2 ^ 256 <=? sup b + n) then None
  else Some (set to (bal b to + n) b).
Definition token_burn (from : bytes) (n : Z) (b : book) : option book :=
  if (n <? 0) || bool_decide (from = zero_address) || (bal b from <? n) then None
  else Some (set from (bal b from - n) b).
Definition token_transfer (from to : bytes) (n : Z) (b : book) : option book :=
  if (n <? 0) || bool_decide (from = zero_address) || bool_decide (to = zero_address) || (bal b from <? n) then None
  else let b := set from (bal b from - n) b in Some (set to (bal b to + n) b).

(** Call data: the method, then the arguments. *)
Definition pack (c : CompiledContract) (method : string) (args : list AbiValue) : outcome bytes :=
  match args with
  | [AAddress a] => if bool_decide (method = "balanceOf") then Ok (1 :: a) else Err (Plain "abi")
  | [] => if bool_decide (method = "totalSupply") then Ok [2] else Err (Plain "abi")
  | [AAddress a; AInt n] =>
      if bool_decide (method = "transfer") then Ok (3 :: n :: a) else
      if bool_decide (method = "mint") then Ok (4 :: n :: a) else
      if bool_decide (method = "burn") then Ok (5 :: n :: a) else Err (Plain "abi")
  | [AString _; AString _; AUint8 d] => if bool_decide (method = "") then Ok [d] else Err (Plain "abi")
  | _ => Err (Plain "abi")
  end.
Definition unpack (c : CompiledContract) (method : string) (ret : bytes) : outcome (list AbiValue) :=
  Ok (map AInt ret).

#[export] Instance eth : EthConfig := {|
  ABI_Pack := pack;
  ABI_Unpack := unpack;
  Bin _ := [6];
  BytesToAddress := pad;
  IsHexAddress h := match hex_DecodeString h with Ok b => Nat.eqb (length b) AddressLength | _ => false end;
  HexToAddress h := match hex_DecodeString h with Ok b => pad b | _ => zero_address end;
  Address_Hex := hex_EncodeToString;
  CreateAddress _ n := repeat 9 19 ++ [n];
  Keccak256Hash_Hex b := hex_EncodeToString b;
  NewModuleAddress := maddr;
  ErrVMExecution := Registered "evm" 10
|}.

#[export] Instance oz : OpenZeppelin book := {|
  oz_init _ _ d := mkBook d ∅;
  owner := bkOwner;
  _mint := token_mint;
  _burn := token_burn;
  balanceOf := bal;
  totalSupply := sup;
  inherited sender data b := match data with 3 :: n :: to => token_transfer sender to n b | _ => None end
|}.

Lemma transfer_balances from to n b b' : token_transfer from to n b = Some b' ->
  0 <= n <= bal b from /\ bkOwner b' = bkOwner b /\ sup b' = sup b
  /\ forall a, bal b' a = bal b a + (pay from (- n) a + pay to n a).
Proof.
  unfold token_transfer. destruct (_ || _) eqn:E; [done|]. intros [= <-]. gobool. destruct E as [[[? ?] ?] ?].
  pose proof (bal_nonneg b to). pose proof (bal_nonneg b from).
  assert (0 <= bal (set from (bal b from - n) b) to + n) by (rewrite bal_set by lia; case_bool_decide; lia).
  split_and!; [lia|lia|done| |].
  - rewrite !sup_set, !bal_set by lia. case_bool_decide; lia.
  - intros a. rewrite !bal_set by lia. unfold pay. repeat case_bool_decide; subst; try congruence; lia.
Qed.

#[export] Instance oz_laws : OpenZeppelinLaws book.
Proof.
  split; simpl; try done.
  - unfold token_mint. intros s s' to n H. by case_match; simplify_eq.
  - unfold token_burn. intros s s' to n H. by case_match; simplify_eq.
  - unfold token_mint. intros s s' to n H. destruct (_ || _) eqn:E; [done|]. injection H as <-. gobool.
    pose proof (bal_nonneg s to). rewrite sup_set by lia. split; [lia|].
    intros a. rewrite bal_set by lia. case_bool_decide; subst; lia.
  - unfold token_burn. intros s s' from n H. destruct (_ || _) eqn:E; [done|]. injection H as <-. gobool.
    rewrite sup_set by lia. split_and!; [lia|lia|].
    intros a. rewrite bal_set by lia. case_bool_decide; subst; lia.
  - intros s s' sender data H. destruct data as [|m [|n to]]; try done; repeat (case_match; try done).
    all: by apply transfer_balances in H as (_ & _ & -> & _).
Qed.

(** A token that keeps a tenth of every transfer. *)
Definition skim_transfer (from to : bytes) (n : Z) (b : book) : option book :=
  if (n <? 0) || (bal b from <? n) then None
  else let b := set from (bal b from - n) b in Some (set to (bal b to + (n - n / 10)) b).

Inductive code : Type :=
| Wrapped (t : @ERC20 book)
| Skimming (b : book).

Record machine : Type := mkMachine { accounts : gmap bytes Z; contracts : gmap bytes code }.
Abbreviation world := (EvmWorld Ledger.t machine).

Definition transferTopic : string := "Transfer".
Definition success (ret : bytes) (logs : list EthLog) : MsgEthereumTxResponse := mkResponse "" ret logs.
Definition reverted : MsgEthereumTxResponse := mkResponse "execution reverted" [] [].
Definition set_contract (c : bytes) (k : code) (w : machine) : machine :=
  mkMachine (accounts w) (<[c := k]> (contracts w)).

(** The state changes of the wrapped-coin contract are the model's. *)
Definition run_wrapped (sender : bytes) (data : bytes) (t : @ERC20 book) : option (bytes * ERC20) :=
  match data with
  | 1 :: a => Some ([balanceOf (base t) a], t)
  | [2] => Some ([totalSupply (base t)], t)
  | 3 :: n :: a => (fun t => ([1], t)) <$> apply sender (TxInherited data) t
  | 4 :: n :: a => (fun t => ([], t)) <$> apply sender (TxMint a n) t
  | 5 :: n :: a => (fun t => ([], t)) <$> apply sender (TxBurn a n) t
  | _ => None
  end.
Definition run_skimming (sender : bytes) (data : bytes) (b : book) : option (bytes * book) :=
  match data with
  | 1 :: a => Some ([bal b a], b)
  | 3 :: n :: a => (fun b => ([1], b)) <$> skim_transfer sender a n b
  | _ => None
  end.

Definition call (from c data : bytes) (w : machine) : MsgEthereumTxResponse * machine :=
  match contracts w !! c with
  | None => (success [] [], w)
  | Some (Wrapped t) =>
      match run_wrapped from data t with
      | Some (ret, t) => (success ret [mkLog [transferTopic]], set_contract c (Wrapped t) w)
      | None => (reverted, w)
      end
  | Some (Skimming b) =>
      match run_skimming from data b with
      | Some (ret, b) => (success ret [mkLog [transferTopic]], set_contract c (Skimming b) w)
      | None => (reverted, w)
      end
  end.
Definition create (from data : bytes) (nonce : Z) (w : machine) : MsgEthereumTxResponse * machine :=
  let c := CreateAddress from nonce in
  match contracts w !! c, data with
  | None, [6; d] =>
      (success [] [], mkMachine (<[from := nonce + 1]> (accounts w))
                        (<[c := Wrapped (constructor "" "" d from)]> (contracts w)))
  | _, _ => (mkResponse "contract address collision" [] [], w)
  end.

#[export] Instance evm : EvmKeeper Ledger.t machine := {|
  GetSequence a w := match accounts w !! a with Some n => Ok n | None => Err (Plain "account does not exist") end;
  EstimateGas _ _ _ _ := Ok 21000;
  ApplyMessage m x :=
    let '(res, w) := match mTo m with
                     | Some c => call (mFrom m) c (mData m) (wEvm x)
                     | None => create (mFrom m) (mData m) (mNonce m) (wEvm x)
                     end in
    Ok (res, mkWorld (wState x) w)
|}.

Definition book_of (k : code) : book := match k with Wrapped t => base t | Skimming b => b end.
#[export] Instance view : Erc20View machine := {|
  tok_balance w c a := match contracts w !! c with Some k => bal (book_of k) a | None => 0 end;
  tok_supply w c := match contracts w !! c with Some k => sup (book_of k) | None => 0 end;
  has_code w c := is_Some (contracts w !! c);
  standard w c := exists t, contracts w !! c = Some (Wrapped t);
  module_owned w c := exists t, contracts w !! c = Some (Wrapped t) /\ owner (base t) = ModuleEVMAddress
|}.

#[export] Instance eth_laws : EthLaws Ledger.t.
Proof.
  split; simpl.
  - apply pad_length.
  - apply pad_id.
  - done.
  - intros h. destruct (hex_DecodeString h); [apply pad_length|done..].
  - intros a Hb Hl. rewrite hex_roundtrip by done. by apply pad_id.
  - intros a Hb Hl. rewrite hex_roundtrip by done. by apply Nat.eqb_eq.
  - vm_compute. discriminate.
  - intros m. apply pad_length.
  - done.
Qed.

#[export] Instance blocks : BankBlocks Ledger.t.
Proof. by split. Qed.

Lemma new_coins_shape coin cs : NewCoins1 coin = Ok cs -> cs = [] \/ (cs = [coin] /\ 0 <= Amount coin).
Proof.
  simpl. unfold SdkModel.new_coins, SdkModel.valid_coin. intros H. case_match; [|done]. gobool. case_match; simplify_eq; auto.
  right. split; [done|]. naive_solver.
Qed.

#[export] Instance total : BankTotal Ledger.t.
Proof.
  refine {| BlockedAddr := blocked |}; simpl.
  - intros b x coin cs [->|[-> Hp]]%new_coins_shape Hle; simpl; [eauto|].
    by rewrite (proj2 (Z.ltb_ge _ _) Hp), (proj2 (Z.ltb_ge _ _) Hle); eauto.
  - intros b coin cs [->|[-> Hp]]%new_coins_shape Hle; simpl; [eauto|].
    by rewrite (proj2 (Z.ltb_ge _ _) Hp), (proj2 (Z.ltb_ge _ _) Hle); eauto.
  - intros b y coin cs [->|[-> Hp]]%new_coins_shape Hy Hle; rewrite Hy; simpl; [eauto|].
    by rewrite (proj2 (Z.ltb_ge _ _) Hp), (proj2 (Z.ltb_ge _ _) Hle); eauto.
Defined.

(** A message that runs, on this machine. *)
Lemma runs_call (x x' : world) from c data res :
  runs x from (Some c) data res x' <->
  has_account (wEvm x) from /\ (call from c data (wEvm x)).1 = res /\ x' = mkWorld (wState x) (call from c data (wEvm x)).2
  /\ Failed res = false.
Proof.
  unfold runs, has_account; simpl. destruct (call from c data (wEvm x)) as [r w]; simpl. split.
  - intros (n & g & Hn & _ & [= <- <-] & Hf). eauto.
  - intros ([n Hn] & -> & -> & Hf). eauto 10.
Qed.

(** Replacing the state of a wrapped-coin contract, with the same owner. *)
Lemma set_wrapped_step (x : world) c t t' (delta : bytes -> Z) sigma :
  contracts (wEvm x) !! c = Some (Wrapped t) -> owner (base t') = owner (base t) ->
  (forall a, balanceOf (base t') a = balanceOf (base t) a + delta a) ->
  totalSupply (base t') = totalSupply (base t) + sigma ->
  token_step c delta sigma x (mkWorld (wState x) (set_contract c (Wrapped t') (wEvm x))).
Proof.
  intros Hc Ho Hb Hs. destruct x as [e w]; simpl in *. split; simpl.
  - done.
  - intros c' a. unfold pay. case_bool_decide as E; [subst c'|].
    + rewrite lookup_insert_eq, Hc. apply Hb.
    + rewrite lookup_insert_ne by done. lia.
  - intros c'. unfold pay. case_bool_decide as E; [subst c'|].
    + rewrite lookup_insert_eq, Hc. apply Hs.
    + rewrite lookup_insert_ne by done. lia.
  - split; simpl.
    + intros c' H'. destruct (decide (c = c')) as [->|Hne]; [rewrite lookup_insert_eq; eauto|by rewrite lookup_insert_ne].
    + intros c' [t1 H']. destruct (decide (c = c')) as [->|Hne]; [rewrite lookup_insert_eq; eauto|].
      rewrite lookup_insert_ne by done. eauto.
    + intros c' (t1 & H' & Ho1). destruct (decide (c = c')) as [->|Hne].
      * rewrite lookup_insert_eq. exists t'. split; [done|]. by simplify_eq; rewrite Ho.
      * rewrite lookup_insert_ne by done. eauto.
    + done.
Qed.

(** A call of a wrapped-coin contract that runs. *)
Lemma runs_wrapped (x x' : world) from c data res t :
  contracts (wEvm x) !! c = Some (Wrapped t) -> runs x from (Some c) data res x' ->
  exists ret t', run_wrapped from data t = Some (ret, t') /\ Ret res = ret
  /\ x' = mkWorld (wState x) (set_contract c (Wrapped t') (wEvm x)).
Proof.
  intros Hc (_ & Hr & -> & Hf)%runs_call. unfold call in *. rewrite Hc in *.
  destruct (run_wrapped from data t) as [[ret t']|]; simpl in *; [subst; eauto|]. by subst.
Qed.

Lemma wrapped_runs (x : world) from c data ret t t' :
  has_account (wEvm x) from -> contracts (wEvm x) !! c = Some (Wrapped t) -> run_wrapped from data t = Some (ret, t') ->
  exists res x', runs x from (Some c) data res x' /\ clean_logs res.
Proof.
  intros Ha Hc Hr. exists (success ret [mkLog [transferTopic]]). eexists. split.
  - apply runs_call. unfold call. rewrite Hc, Hr. by split_and!.
  - repeat constructor. eexists _, _. split; [done|]. vm_compute. discriminate.
Qed.

Lemma balanceOf_step (x x' : world) c a from data res : standard (wEvm x) c ->
  ABI_Pack ERC20MintableBurnableContract "balanceOf" [AAddress a] = Ok data ->
  runs x from (Some c) data res x' ->
  token_step c no_change 0 x x' /\ Ret res <> []
  /\ ABI_Unpack ERC20MintableBurnableContract "balanceOf" (Ret res) = Ok [AInt (tok_balance (wEvm x) c a)].
Proof.
  intros [t Hc] [= <-] (ret & t' & [= <- <-] & Hret & ->)%(runs_wrapped _ _ _ _ _ _ _ Hc).
  split_and!; [|by rewrite Hret|by rewrite Hret; simpl; rewrite Hc].
  apply (set_wrapped_step _ _ t); try done; intros; lia.
Qed.

Lemma totalSupply_step (x x' : world) c from data res : standard (wEvm x) c ->
  ABI_Pack ERC20ZgChainWrappedCosmosCoinContract "totalSupply" [] = Ok data ->
  runs x from (Some c) data res x' ->
  token_step c no_change 0 x x' /\ Ret res <> []
  /\ ABI_Unpack ERC20MintableBurnableContract "totalSupply" (Ret res) = Ok [AInt (tok_supply (wEvm x) c)].
Proof.
  intros [t Hc] [= <-] (ret & t' & [= <- <-] & Hret & ->)%(runs_wrapped _ _ _ _ _ _ _ Hc).
  split_and!; [|by rewrite Hret|by rewrite Hret; simpl; rewrite Hc].
  apply (set_wrapped_step _ _ t); try done; intros; lia.
Qed.

Lemma transfer_step (x x' : world) c from to n data res : standard (wEvm x) c ->
  ABI_Pack ERC20MintableBurnableContract "transfer" [AAddress to; AInt n] = Ok data ->
  runs x from (Some c) data res x' ->
  n <= tok_balance (wEvm x) c from /\ token_step c (fun a => pay from (- n) a + pay to n a) 0 x x'.
Proof.
  intros [t Hc] [= <-] (ret & t' & Hr & _ & ->)%(runs_wrapped _ _ _ _ _ _ _ Hc).
  simpl in Hr. destruct (token_transfer from to n (base t)) as [b|] eqn:Ht; simpl in Hr; [|done]. injection Hr as _ <-.
  apply transfer_balances in Ht as (Hn & Ho & Hs & Hb). split; [simpl; rewrite Hc; simpl; lia|].
  apply (set_wrapped_step _ _ t); try done. simpl. lia.
Qed.

Lemma mint_step (x x' : world) c to n data res : module_owned (wEvm x) c ->
  ABI_Pack ERC20MintableBurnableContract "mint" [AAddress to; AInt n] = Ok data ->
  runs x ModuleEVMAddress (Some c) data res x' -> token_step c (pay to n) n x x'.
Proof.
  intros (t & Hc & Ho) [= <-] (ret & t' & Hr & _ & ->)%(runs_wrapped _ _ _ _ _ _ _ Hc).
  simpl in Hr. unfold Token.mint, onlyOwner in Hr. rewrite bool_decide_eq_true_2 in Hr by exact Ho.
  destruct (_mint to n (base t)) as [b|] eqn:Ht; simpl in Hr; [|done]. injection Hr as _ <-.
  pose proof (mint_owner _ _ _ _ Ht) as Hown. apply mint_supply in Ht as [Hs Hb].
  by apply (set_wrapped_step _ _ t).
Qed.

Lemma burn_step (x x' : world) c from n data res : module_owned (wEvm x) c ->
  ABI_Pack ERC20ZgChainWrappedCosmosCoinContract "burn" [AAddress from; AInt n] = Ok data ->
  runs x ModuleEVMAddress (Some c) data res x' ->
  n <= tok_balance (wEvm x) c from /\ token_step c (pay from (- n)) (- n) x x'.
Proof.
  intros (t & Hc & Ho) [= <-] (ret & t' & Hr & _ & ->)%(runs_wrapped _ _ _ _ _ _ _ Hc).
  simpl in Hr. unfold Token.burn, onlyOwner in Hr. rewrite bool_decide_eq_true_2 in Hr by exact Ho.
  destruct (_burn from n (base t)) as [b|] eqn:Ht; simpl in Hr; [|done]. injection Hr as _ <-.
  pose proof (burn_owner _ _ _ _ Ht) as Hown. apply burn_supply in Ht as (Hs & Hle & Hb).
  split; [simpl; by rewrite Hc|]. apply (set_wrapped_step _ _ t); try done.
  intros a. cbn [base]. rewrite Hb. unfold pay. case_bool_decide; lia.
Qed.

Lemma deploy_step (x x' : world) n name symbol dec packed res :
  ABI_Pack ERC20ZgChainWrappedCosmosCoinContract "" [AString name; AString symbol; AUint8 dec] = Ok packed ->
  GetSequence ModuleEVMAddress (wEvm x) = Ok n ->
  runs x ModuleEVMAddress None (Bin ERC20ZgChainWrappedCosmosCoinContract ++ packed) res x' ->
  ~ has_code (wEvm x) (CreateAddress ModuleEVMAddress n)
  /\ module_owned (wEvm x') (CreateAddress ModuleEVMAddress n)
  /\ token_step (CreateAddress ModuleEVMAddress n) no_change 0 x x'.
Proof.
  intros [= <-] Hn (n' & g & Hn' & _ & Hap & Hf). assert (n' = n) as -> by congruence. clear Hn'.
  unfold ApplyMessage, evm in Hap. cbn [mTo mFrom mData mNonce] in Hap. unfold create in Hap.
  remember (CreateAddress ModuleEVMAddress n) as c eqn:Ec in *. cbn [Bin eth app] in Hap.
  destruct (contracts (wEvm x) !! c) as [k|] eqn:Hc; [by injection Hap as <- <-|].
  injection Hap as <- <-. simpl. rewrite Hc. split_and!.
  - by intros [].
  - eexists. split; [apply lookup_insert_eq|]. done.
  - split; simpl.
    + done.
    + intros c' a. unfold pay. destruct (decide (c = c')) as [<-|Hne].
      * rewrite lookup_insert_eq, Hc. case_bool_decide; [|done]. unfold bal; simpl. by rewrite lookup_empty.
      * rewrite lookup_insert_ne by done. case_bool_decide; lia.
    + intros c'. unfold pay. destruct (decide (c = c')) as [<-|Hne].
      * rewrite lookup_insert_eq, Hc. case_bool_decide; done.
      * rewrite lookup_insert_ne by done. case_bool_decide; lia.
    + split; simpl.
      * intros c' [k Hk]. rewrite lookup_insert_ne by congruence. eauto.
      * intros c' [t Ht]. rewrite lookup_insert_ne by congruence. eauto.
      * intros c' (t & Ht & Ho). rewrite lookup_insert_ne by congruence. eauto.
      * intros a [m Hm]. unfold has_account in *; simpl in *. destruct (decide (ModuleEVMAddress = a)) as [<-|Hne].
        -- rewrite lookup_insert_eq. eauto.
        -- rewrite lookup_insert_ne by done. eauto.
Qed.

#[export] Instance laws : Erc20Laws Ledger.t machine.
Proof.
  split.
  - intros w c (t & Ht & _). by exists t.
  - intros w c [t Ht]. by exists (Wrapped t).
  - intros w c a. simpl. destruct (contracts w !! c); [apply bal_nonneg|done].
  - intros w c a [t Ht]. simpl. rewrite Ht. apply bal_le_sup.
  - intros w c Hn. simpl in *. destruct (contracts w !! c) eqn:E; [destruct Hn; eauto|done].
  - exact balanceOf_step.
  - exact totalSupply_step.
  - intros x x' c from to n data res Hs _. by apply transfer_step.
  - intros x x' c to n data res Hs _. by apply mint_step.
  - intros x x' c from n data res Hs _. by apply burn_step.
  - exact deploy_step.
Qed.

Lemma transfer_total from to n b : from <> zero_address -> to <> zero_address -> 0 <= n <= bal b from ->
  exists b', token_transfer from to n b = Some b'.
Proof.
  intros Hf Ht [Hn Hle]. unfold token_transfer.
  rewrite (proj2 (Z.ltb_ge n 0)), (proj2 (Z.ltb_ge (bal b from) n)) by lia.
  rewrite !bool_decide_eq_false_2 by done. simpl. eauto.
Qed.

#[export] Instance executes : Erc20Runs Ledger.t machine.
Proof.
  split.
  - intros x c a [t Hc] Ha. destruct (wrapped_runs x ModuleEVMAddress c (1 :: a) [bal (base t) a] t t Ha Hc eq_refl)
      as (res & x' & Hr & _). by exists (1 :: a), res, x'.
  - intros x c [t Hc] Ha. destruct (wrapped_runs x ModuleEVMAddress c [2] [sup (base t)] t t Ha Hc eq_refl)
      as (res & x' & Hr & _). by exists [2], res, x'.
  - intros x c from to n [t Hc] Ha Hf Ht Hn. simpl in Hn. rewrite Hc in Hn. simpl in Hn.
    destruct (transfer_total from to n (base t) Hf Ht Hn) as [b Hb].
    destruct (wrapped_runs x from c (3 :: n :: to) [1] t (mkERC20 b (_decimals t)) Ha Hc) as (res & x' & Hr & Hl).
    { simpl. by rewrite Hb. }
    by exists (3 :: n :: to), res, x'.
  - intros x c to n (t & Hc & Ho) Ha Ht Hn Hs. simpl in Hs. rewrite Hc in Hs. simpl in Hs.
    destruct (wrapped_runs x ModuleEVMAddress c (4 :: n :: to) [] t
                (mkERC20 (set to (bal (base t) to + n) (base t)) (_decimals t)) Ha Hc) as (res & x' & Hr & Hl).
    { simpl. unfold Token.mint, onlyOwner. rewrite bool_decide_eq_true_2 by exact Ho. simpl. unfold token_mint.
      rewrite bool_decide_eq_false_2 by done. rewrite (proj2 (Z.ltb_ge n 0)) by lia.
      rewrite (proj2 (Z.leb_gt (2 ^ 256) (sup (base t) + n))) by lia. done. }
    by exists (4 :: n :: to), res, x'.
  - intros x c from n (t & Hc & Ho) Ha Hf Hn. simpl in Hn. rewrite Hc in Hn. simpl in Hn.
    destruct (wrapped_runs x ModuleEVMAddress c (5 :: n :: from) [] t
                (mkERC20 (set from (bal (base t) from - n) (base t)) (_decimals t)) Ha Hc) as (res & x' & Hr & Hl).
    { simpl. unfold Token.burn, onlyOwner. rewrite bool_decide_eq_true_2 by exact Ho. simpl. unfold token_burn.
      rewrite bool_decide_eq_false_2 by done. rewrite (proj2 (Z.ltb_ge n 0)) by lia.
      rewrite (proj2 (Z.ltb_ge (bal (base t) from) n)) by lia. done. }
    by exists (5 :: n :: from), res, x'.
Qed.
End Machine.

(** ** A chain with one pair and one allowed coin *)
Module Bridge.
Export Machine.

Definition M : bytes := NewModuleAddress EvmutilName.
Definition user : bytes := repeat 2 20.
Definition usdc : bytes := repeat 3 20.
Definition skim : bytes := repeat 4 20.
Definition pair_usdc : ConversionPair := mkPair usdc "usdc".
Definition atom : AllowedCosmosCoinERC20Token := NewAllowedCosmosCoinERC20Token "uatom" "ATOM" "kATOM" 6.
Definition gas : AllowedCosmosCoinERC20Token := NewAllowedCosmosCoinERC20Token GasDenom "A0GI" "kA0GI" 6.
Definition params : Params := NewParams [pair_usdc] [atom].

Definition ledger : Ledger.t :=
  Ledger.set_supply "uatom" 50 (Ledger.set_balance user "uatom" 50 (Ledger.set_balance user GasDenom 5 (Ledger.mk ∅ ∅))).
Definition holdings : book := mkBook (repeat 5 20) {[user := 100]}.
Definition evm0 : machine :=
  mkMachine {[M := 0; user := 0]} {[usdc := Wrapped (mkERC20 holdings 6); skim := Skimming holdings]}.
Definition start : ConvState Ledger.t machine :=
  mkConv params ∅ (mkWorld (mkEvmState ∅ ledger) evm0).

Definition step (o : conv_op) (s : ConvState Ledger.t machine) : ConvState Ledger.t machine :=
  match conv_exec o s with Ok s => s | _ => s end.
Definition o1 : conv_op := CvERC20ToCoin user user usdc 30.
Definition o2 : conv_op := CvCosmosToERC20 user user (mkCoin "uatom" 20).
Definition o3 : conv_op := CvCoinToERC20 user user (mkCoin "usdc" 10).
Definition o4 : conv_op := CvCosmosFromERC20 user user (mkCoin "uatom" 5).
Definition s1 := step o1 start.
Definition s2 := step o2 s1.
Definition s3 := step o3 s2.
Definition s4 := step o4 s3.

Lemma run1 : conv_exec o1 start = Ok s1.
Proof. vm_compute. reflexivity. Qed.
Lemma run2 : conv_exec o2 s1 = Ok s2.
Proof. vm_compute. reflexivity. Qed.
Lemma run3 : conv_exec o3 s2 = Ok s3.
Proof. vm_compute. reflexivity. Qed.
Lemma run4 : conv_exec o4 s3 = Ok s4.
Proof. vm_compute. reflexivity. Qed.

Lemma bytes_ok : byte_addresses params.
Proof. repeat constructor; unfold is_byte; lia. Qed.
Lemma params_fine : params_ok params.
Proof. apply params_validated; [exact bytes_ok|vm_compute; reflexivity]. Qed.

(** Nothing converted yet, on any ledger. *)
Definition fresh (l : Ledger.t) : ConvState Ledger.t machine := mkConv params ∅ (mkWorld (mkEvmState ∅ l) evm0).
Lemma fresh_contracts l : contracts_ok (fresh l).
Proof.
  split.
  - intros p Hp. apply list_elem_of_singleton in Hp as ->. eexists. vm_compute. reflexivity.
  - intros d c. simpl. by rewrite lookup_empty.
Qed.
Lemma start_contracts : contracts_ok start.
Proof. exact (fresh_contracts ledger). Qed.

Lemma fresh_inv l : Ledger.supply l "usdc" = 0 -> Ledger.balance l M "uatom" = 0 -> conv_inv (fresh l).
Proof.
  intros Hs Hb. split.
  - exact params_fine.
  - apply fresh_contracts.
  - eexists. vm_compute. reflexivity.
  - intros d1 d2 c. simpl. by rewrite lookup_empty.
  - intros p Hp. apply list_elem_of_singleton in Hp as ->. unfold cv_bank. simpl. rewrite Hs. vm_compute. discriminate.
  - intros d c. simpl. by rewrite lookup_empty.
  - intros d Hd _. apply list_elem_of_singleton in Hd as ->. exact Hb.
  - intros Hd. by apply list_elem_of_singleton in Hd.
  - intros Hd. by apply list_elem_of_singleton in Hd.
  - reflexivity.
  - split; [intros a acc|intros a; unfold evm_GetBalance, GetAccount]; simpl; by rewrite lookup_empty.
Qed.
Lemma bridge_start_inv : conv_inv start.
Proof. apply (fresh_inv ledger); vm_compute; reflexivity. Qed.

Lemma user_pays : user <> NewModuleAddress EvmutilName.
Proof. vm_compute. discriminate. Qed.

Lemma bridge_run : rtc conv_step start s4.
Proof.
  eapply rtc_l; [apply (step_convert _ o1 s1 user_pays); [done|exact run1]|].
  eapply rtc_l; [apply (step_convert _ o2 s2 user_pays); [done|exact run2]|].
  eapply rtc_l; [apply (step_convert _ o3 s3 user_pays); [done|exact run3]|].
  eapply rtc_l; [apply (step_convert _ o4 s4 user_pays); [done|exact run4]|]. apply rtc_refl.
Qed.

Lemma conv_refines_witness : conv_spec o1 start s1.
Proof. apply (conv_refines o1 start s1 start_contracts); [done|exact run1]. Defined.

Lemma conv_run_backed_witness :
  conv_inv s4
  /\ (exists s, BackedCoinsInvariant false s4 = Ok (false, s))
  /\ (exists s, CosmosCoinsFullyBackedInvariant false s4 = Ok (false, s))
  /\ SmallBalancesInvariant false (wState (cvWorld s4)) = false.
Proof. exact (conv_run_backed start s4 bridge_start_inv bridge_run). Defined.

Lemma backing_checks_witness :
  (exists r s', BackedCoinsInvariant false start = Ok (r, s') /\ still start s'
     /\ (r = false <-> false = false /\ forall p, p ∈ EnabledConversionPairs (cvParams start) -> pair_backed start p))
  /\ (exists r s', CosmosCoinsFullyBackedInvariant false start = Ok (r, s') /\ still start s'
     /\ (r = false <-> false = false /\ forall d c, cvContracts start !! d = Some c -> coin_backed start (d, c))).
Proof. exact (backing_checks false start start_contracts (ci_account _ bridge_start_inv)). Defined.

Lemma always_redeemable_witness :
  exists s, ConvertCoinToERC20 user user (mkCoin "usdc" 20) s4 = Ok s.
Proof.
  destruct (always_redeemable start s4 bridge_start_inv bridge_run) as [H _].
  apply (H user user 20 pair_usdc).
  - change (EnabledConversionPairs (cvParams s4)) with [pair_usdc]. left.
  - vm_compute. discriminate.
  - exact user_pays.
  - done.
  - vm_compute. discriminate.
  - vm_compute. discriminate.
Defined.

Lemma conversions_cancel_witness :
  still start (step (CvCoinToERC20 user user (mkCoin "usdc" 30)) s1).
Proof.
  apply (conversions_cancel o1 (CvCoinToERC20 user user (mkCoin "usdc" 30)) start s1); try exact user_pays.
  - exact bridge_start_inv.
  - done.
  - exact run1.
  - vm_compute. reflexivity.
  - vm_compute. reflexivity.
Defined.

Lemma valid_params_lookup_witness :
  (Params_Validate (cvParams start) = Ok tt <-> params_ok (cvParams start))
  /\ GetEnabledConversionPairFromDenom start "usdc" = Ok pair_usdc.
Proof.
  destruct (valid_params_lookup start bytes_ok) as [Hv Hl]. split; [exact Hv|].
  destruct (Hl params_fine pair_usdc) as [Hd _]. apply Hd. split; [left|reflexivity].
Defined.

(** The gas coin allowed and converted; then the EVM borrows one [ua0gi]. *)
Definition gas_start : ConvState Ledger.t machine :=
  mkConv (NewParams [] [gas]) ∅ (mkWorld (mkEvmState ∅ ledger) evm0).
Definition gas1 := step (CvCosmosToERC20 user user (mkCoin GasDenom 2)) gas_start.
Definition wrapped_gas : bytes := repeat 9 19 ++ [0].
Definition borrowed : EvmState Ledger.t :=
  match ConvertOneGasDenomToEvmDenomIfNeeded user 7 (wState (cvWorld gas1)) with Ok e => e | _ => wState (cvWorld gas1) end.

Lemma gas_contracts : contracts_ok gas1.
Proof.
  split; [intros p Hp; by apply elem_of_nil in Hp|]. intros d c Hd.
  change (cvContracts gas1) with (<[GasDenom := wrapped_gas]> (∅ : gmap string bytes)) in Hd.
  apply lookup_insert_Some in Hd as [[<- <-]|[_ Hd]]; [|by rewrite lookup_empty in Hd].
  split; [reflexivity|]. eexists. split; [vm_compute; reflexivity|vm_compute; reflexivity].
Qed.

Lemma gas_coin_breaks_check_witness :
  Params_Validate (cvParams gas_start) = Ok tt
  /\ exists s, CosmosCoinsFullyBackedInvariant false (set_world (mkWorld borrowed (wEvm (cvWorld gas1))) gas1) = Ok (true, s).
Proof.
  split; [vm_compute; reflexivity|].
  apply (gas_coin_breaks_check gas1 user 7 wrapped_gas borrowed gas_contracts);
    [eexists; vm_compute; reflexivity|vm_compute; reflexivity|vm_compute; reflexivity|exact user_pays|
     vm_compute; reflexivity|vm_compute; reflexivity].
Defined.

(** A pair whose token keeps a tenth of every transfer. *)
Definition skim_start : ConvState Ledger.t machine :=
  mkConv (NewParams [mkPair skim "skim"] []) ∅ (mkWorld (mkEvmState ∅ ledger) evm0).

(** The check after a lock looks at the payer's balance only, not at what the
    module received: for a token that keeps a fee of transfers the conversion
    succeeds, mints coins for the full amount, and leaves them unbacked; not all of
    them can be converted back. *)
Theorem fee_token_unbacked :
  exists s, ConvertERC20ToCoin user user skim 50 skim_start = Ok s
  /\ GetSupply (cv_bank s) "skim" = 50 /\ tokens s skim ModuleEVMAddress = 45
  /\ (exists s', BackedCoinsInvariant false s = Ok (true, s'))
  /\ ConvertCoinToERC20 user user (mkCoin "skim" 50) s = Err ErrVMExecution.
Proof.
  eexists. split; [vm_compute; reflexivity|]. split; [vm_compute; reflexivity|]. split; [vm_compute; reflexivity|].
  split; [eexists; vm_compute; reflexivity|vm_compute; reflexivity].
Qed.

(** A message as a wallet would make it. *)
Definition user_hex : string := hex_EncodeToString user.
Definition msg : evmutil_msg :=
  MERC20ToCoin (NewMsgConvertERC20ToCoin user user usdc 30).

Lemma signer_pays_witness :
  exists o, GetSigners msg = Ok [payer o]
  /\ (0 < op_amount o /\ msg_amount msg = Some (op_amount o))
  /\ forall s : ConvState Ledger.t machine, handle msg s = conv_exec o s.
Proof. apply (signer_pays msg). vm_compute. reflexivity. Defined.

Definition empty_store : ConvState Ledger.t machine :=
  mkConv (NewParams [] []) ∅ (mkWorld (mkEvmState ∅ ledger) evm0).

Lemma export_import_conversions_witness :
  exists s, InitGenesis true (ExportGenesis s2) empty_store = Ok s
  /\ cvParams s = cvParams s2 /\ evAccounts (wState (cvWorld s)) = evAccounts (wState (cvWorld s2))
  /\ cvContracts s = ∅
  /\ forall x y coin, ConvertCosmosCoinFromERC20 x y coin s = Err ErrInvalidCosmosDenom.
Proof.
  apply (export_import_conversions s2 empty_store); [| |vm_compute; reflexivity|reflexivity|reflexivity];
    intros a acc; change (evAccounts (wState (cvWorld s2))) with (∅ : gmap bytes Account); by rewrite lookup_empty.
Defined.
End Bridge.
