(* ===== verification/Pricefeed.v ===== *)
(** * x/pricefeed: oracle prices

    [types/market.go], [types/key.go], [types/params.go], [types/msgs.go],
    [types/genesis.go], [keeper/keeper.go], [keeper/params.go],
    [keeper/msg_server.go], [keeper/grpc_query.go], [abci.go], [genesis.go].  Oracles post prices that
    expire; at the end of a block the current price of every active market becomes
    the median of the prices that have not expired.

    [sort.Slice], which is not stable, is an argument. *)

From S2P Require Import Prelude Sdk SdkDec GoStd.

Definition PricefeedName : string := "pricefeed".
Definition ErrExpired : error := Registered PricefeedName 3.
Definition ErrNoValidPrice : error := Registered PricefeedName 4.
Definition ErrInvalidMarket : error := Registered PricefeedName 5.
Definition ErrInvalidOracle : error := Registered PricefeedName 6.

Record Market : Type := NewMarket {
  mkMarketID : string;
  mkBaseAsset : string;
  mkQuoteAsset : string;
  mkOracles : list AccAddress;
  mkActive : bool
}.
Record PostedPrice : Type := NewPostedPrice {
  ppMarketID : string;
  ppOracleAddress : AccAddress;
  ppPrice : Dec;
  ppExpiry : Z
}.
Record CurrentPrice : Type := NewCurrentPrice { cpMarketID : string; cpPrice : Dec }.

#[export] Instance PostedPrice_eq_dec : EqDecision PostedPrice.
Proof. solve_decision. Defined.
#[export] Instance CurrentPrice_eq_dec : EqDecision CurrentPrice.
Proof. solve_decision. Defined.

(** [sort.Slice] with the comparison of prices *)
Class PriceConfig : Type := { sort_prices : list CurrentPrice -> list CurrentPrice }.

(** The parameters (the markets) and the store of the keeper. *)
Record PfState : Type := mkPf {
  pfMarkets : list Market;
  pfRawPrices : gmap bytes PostedPrice;
  pfCurrentPrices : gmap string CurrentPrice
}.

(** ** types/key.go *)
Definition lengthPrefixWithByte (bz : bytes) : outcome bytes :=
  if Nat.ltb 255 (length bz) then Panic "cannot length prefix more than 255 bytes with single byte"
  else Ok (Z.of_nat (length bz) :: bz).
Definition RawPriceFeedPrefix : bytes := [1].
Definition RawPriceIteratorKey (marketID : string) : outcome bytes :=
  let! p := lengthPrefixWithByte (string_bytes marketID) in Ok (RawPriceFeedPrefix ++ p).
Definition RawPriceKey (marketID : string) (oracleAddr : AccAddress) : outcome bytes :=
  let! p := RawPriceIteratorKey marketID in
  let! q := lengthPrefixWithByte oracleAddr in Ok (p ++ q).

Section Pricefeed.
  Context {cfg : SdkConfig} {str : GoStrings} {dc : DecConfig} {pc : PriceConfig}.
  Implicit Types s : PfState.

(** ** types/market.go, types/params.go *)
Fixpoint validate_oracles (seenOracles : gset string) (oracles : list AccAddress) : outcome unit :=
  match oracles with
  | [] => Ok tt
  | oracle :: oracles =>
      if Nat.eqb (length oracle) 0 then Err (Plain "oracle is empty") else
      if bool_decide (AccAddress_String oracle ∈ seenOracles) then Err (Plain "duplicated oracle") else
      validate_oracles ({[AccAddress_String oracle]} ∪ seenOracles) oracles
  end.
Definition Market_Validate (m : Market) : outcome unit :=
  if bool_decide (TrimSpace (mkMarketID m) = "") then Err (Plain "market id cannot be blank") else
  if negb (ValidateDenom (mkBaseAsset m)) then Err (Plain "invalid base asset") else
  if negb (ValidateDenom (mkQuoteAsset m)) then Err (Plain "invalid quote asset") else
  validate_oracles ∅ (mkOracles m).

Fixpoint validate_markets (seenMarkets : gset string) (ms : list Market) : outcome unit :=
  match ms with
  | [] => Ok tt
  | m :: ms =>
      if bool_decide (mkMarketID m ∈ seenMarkets) then Err (Plain "duplicated market") else
      let! _ := Market_Validate m in
      validate_markets ({[mkMarketID m]} ∪ seenMarkets) ms
  end.
Definition Markets_Validate (ms : list Market) : outcome unit := validate_markets ∅ ms.

Definition PostedPrice_Validate (pp : PostedPrice) : outcome unit :=
  if bool_decide (TrimSpace (ppMarketID pp) = "") then Err (Plain "market id cannot be blank") else
  if Nat.eqb (length (ppOracleAddress pp)) 0 then Err (Plain "oracle address cannot be empty") else
  if ppPrice pp <? 0 then Err (Plain "posted price cannot be negative") else
  if Unix (ppExpiry pp) <=? 0 then Err (Plain "expiry time cannot be zero") else Ok tt.

Fixpoint validate_posted (seenPrices : gset string) (pps : list PostedPrice) : outcome unit :=
  match pps with
  | [] => Ok tt
  | pp :: pps =>
      let key := (ppMarketID pp ++ AccAddress_String (ppOracleAddress pp))%string in
      if negb (Nat.eqb (length (ppOracleAddress pp)) 0) && bool_decide (key ∈ seenPrices)
      then Err (Plain "duplicated posted price") else
      let! _ := PostedPrice_Validate pp in
      validate_posted ({[key]} ∪ seenPrices) pps
  end.
Definition PostedPrices_Validate (pps : list PostedPrice) : outcome unit := validate_posted ∅ pps.

(** ** keeper/params.go *)
Definition SetParams (markets : list Market) s : outcome PfState :=
  let! _ := must (Markets_Validate markets) in
  Ok (mkPf markets (pfRawPrices s) (pfCurrentPrices s)).

Definition GetMarket s (marketID : string) : option Market :=
  List.find (fun m => bool_decide (mkMarketID m = marketID)) (pfMarkets s).

Definition GetOracles s (marketID : string) : outcome (list AccAddress) :=
  match List.find (fun m => bool_decide (marketID = mkMarketID m)) (pfMarkets s) with
  | Some m => Ok (mkOracles m)
  | None => Err ErrInvalidMarket
  end.

Definition GetOracle s (marketID : string) (address : AccAddress) : outcome AccAddress :=
  let! oracles := GetOracles s marketID in
  match List.find (fun addr => bool_decide (addr = address)) oracles with
  | Some addr => Ok addr
  | None => Err ErrInvalidOracle
  end.

(** The first occurrence of every oracle, by the text of its address. *)
Fixpoint authorized_from (uniqueOracles : gset string) (oracles : list AccAddress) : list AccAddress :=
  match oracles with
  | [] => []
  | o :: oracles =>
      let rest := authorized_from ({[AccAddress_String o]} ∪ uniqueOracles) oracles in
      if bool_decide (AccAddress_String o ∈ uniqueOracles) then rest else o :: rest
  end.
Definition GetAuthorizedAddresses s : list AccAddress := authorized_from ∅ (mjoin (mkOracles <$> pfMarkets s)).

(** ** keeper/keeper.go *)
Definition SetPrice (ctx : Ctx) (oracle : AccAddress) (marketID : string) (price : Dec) (expiry : Z) s
    : outcome (PostedPrice * PfState) :=
  if negb (BlockTime ctx <? expiry) then Err ErrExpired else
  let newRawPrice := NewPostedPrice marketID oracle price expiry in
  let! key := RawPriceKey marketID oracle in
  Ok (newRawPrice, mkPf (pfMarkets s) (<[key := newRawPrice]> (pfRawPrices s)) (pfCurrentPrices s)).

Definition GetRawPrices s (marketId : string) : outcome (list PostedPrice) :=
  let! prefix := RawPriceIteratorKey marketId in
  Ok (prefix_iterator (pfRawPrices s) prefix).*2.

Definition setCurrentPrice (marketID : string) (currentPrice : CurrentPrice) s : PfState :=
  mkPf (pfMarkets s) (pfRawPrices s) (<[marketID := currentPrice]> (pfCurrentPrices s)).

Definition calculateMeanPrice (priceA priceB : CurrentPrice) : outcome Dec :=
  let! sum := Dec_Add (cpPrice priceA) (cpPrice priceB) in
  Dec_Quo sum (NewDec 2).

(** [prices[i]] *)
Definition price_at (prices : list CurrentPrice) (i : nat) : outcome CurrentPrice :=
  match prices !! i with Some p => Ok p | None => Panic "index out of range" end.

Definition CalculateMedianPrice (prices : list CurrentPrice) : outcome Dec :=
  let l := length prices in
  if Nat.eqb l 1 then let! p := price_at prices 0 in Ok (cpPrice p) else
  let prices := sort_prices prices in
  if Nat.eqb (l mod 2) 0 then
    if Nat.eqb l 0 then Panic "index out of range" else
    let! a := price_at prices (l / 2 - 1) in
    let! b := price_at prices (l / 2) in
    calculateMeanPrice a b
  else let! p := price_at prices (l / 2) in Ok (cpPrice p).

(** A stored zero value counts as no price. *)
Definition GetCurrentPrice s (marketID : string) : outcome CurrentPrice :=
  match pfCurrentPrices s !! marketID with
  | None => Err ErrNoValidPrice
  | Some price => if cpPrice price =? 0 then Err ErrNoValidPrice else Ok price
  end.

Definition GetCurrentPrices s : list CurrentPrice := (string_iterator (pfCurrentPrices s)).*2.

Definition not_expired (ctx : Ctx) (prices : list PostedPrice) : list CurrentPrice :=
  map (fun v => NewCurrentPrice (ppMarketID v) (ppPrice v)) (filter (fun v => BlockTime ctx < ppExpiry v) prices).

(** The error is returned after a change of the state: the result is both.  (The
    previous price is read for an event only.) *)
Definition SetCurrentPrices (ctx : Ctx) (marketID : string) s : outcome (option error * PfState) :=
  match GetMarket s marketID with
  | None => Ok (Some ErrInvalidMarket, s)
  | Some _ =>
      let! prices := GetRawPrices s marketID in
      let notExpiredPrices := not_expired ctx prices in
      match notExpiredPrices with
      | [] => Ok (Some ErrNoValidPrice, setCurrentPrice marketID (NewCurrentPrice "" 0) s)
      | _ =>
          let! medianPrice := CalculateMedianPrice notExpiredPrices in
          Ok (None, setCurrentPrice marketID (NewCurrentPrice marketID medianPrice) s)
      end
  end.

(** ** abci.go *)
Definition end_market (ctx : Ctx) (market : Market) s : outcome PfState :=
  if negb (mkActive market) then Ok s else
  let! '(err, s) := SetCurrentPrices ctx (mkMarketID market) s in
  match err with
  | None => Ok s
  | Some e => if bool_decide (e = ErrNoValidPrice) then Ok s else Panic "unexpected error"
  end.
Definition EndBlocker (ctx : Ctx) s : outcome PfState := ofold (end_market ctx) (pfMarkets s) s.

(** ** types/msgs.go, keeper/msg_server.go *)
Record MsgPostPrice : Type := NewMsgPostPrice {
  mpFrom : string; mpMarketID : string; mpPrice : Dec; mpExpiry : Z }.

Definition MsgPostPrice_ValidateBasic (msg : MsgPostPrice) : outcome unit :=
  if bool_decide (mpFrom msg = "") then Err ErrInvalidAddress else
  if bool_decide (TrimSpace (mpMarketID msg) = "") then Err (Plain "market id cannot be blank") else
  if mpPrice msg <? 0 then Err (Plain "price cannot be negative") else
  if Unix (mpExpiry msg) <=? 0 then Err (Plain "must set an expiration time") else Ok tt.

Definition MsgPostPrice_GetSigners (msg : MsgPostPrice) : outcome (list AccAddress) :=
  let! from := must (AccAddressFromBech32 (mpFrom msg)) in Ok [from].

Definition PostPrice (ctx : Ctx) (msg : MsgPostPrice) s : outcome PfState :=
  let! from := AccAddressFromBech32 (mpFrom msg) in
  let! _ := GetOracle s (mpMarketID msg) from in
  let! '(_, s) := SetPrice ctx from (mpMarketID msg) (mpPrice msg) (mpExpiry msg) s in
  Ok s.

(** ** types/genesis.go, genesis.go *)
Record GenesisState : Type := NewGenesisState { gsMarkets : list Market; gsPostedPrices : list PostedPrice }.
Definition GenesisState_Validate (gs : GenesisState) : outcome unit :=
  let! _ := Markets_Validate (gsMarkets gs) in
  PostedPrices_Validate (gsPostedPrices gs).

Definition init_price (ctx : Ctx) (pp : PostedPrice) s : outcome PfState :=
  if BlockTime ctx <? ppExpiry pp then
    let! '(_, s) := must (SetPrice ctx (ppOracleAddress pp) (ppMarketID pp) (ppPrice pp) (ppExpiry pp) s) in Ok s
  else Ok s.
Definition init_market (ctx : Ctx) (market : Market) s : outcome PfState :=
  if negb (mkActive market) then Ok s else
  let! rps := GetRawPrices s (mkMarketID market) in
  if Nat.eqb (length rps) 0 then Ok s else
  let! '(err, s) := SetCurrentPrices ctx (mkMarketID market) s in
  match err with None => Ok s | Some _ => Panic "unexpected error" end.
Definition InitGenesis (ctx : Ctx) (gs : GenesisState) s : outcome PfState :=
  let! s := SetParams (gsMarkets gs) s in
  let! s := ofold (init_price ctx) (gsPostedPrices gs) s in
  ofold (init_market ctx) (pfMarkets s) s.

Definition ExportGenesis s : outcome GenesisState :=
  let! postedPrices := omap_list (fun market => GetRawPrices s (mkMarketID market)) (pfMarkets s) in
  Ok (NewGenesisState (pfMarkets s) (mjoin postedPrices)).

(** ** keeper/grpc_query.go *)
Record MarketResponse : Type := mkMarketResponse {
  mrMarketID : string; mrBaseAsset : string; mrQuoteAsset : string; mrOracles : list string; mrActive : bool }.
Definition NewMarketResponse (id base quote : string) (oracles : list AccAddress) (active : bool) : MarketResponse :=
  mkMarketResponse id base quote (map AccAddress_String oracles) active.
Definition ToMarketResponse (m : Market) : MarketResponse :=
  NewMarketResponse (mkMarketID m) (mkBaseAsset m) (mkQuoteAsset m) (mkOracles m) (mkActive m).
Record PostedPriceResponse : Type := mkPostedPriceResponse {
  prMarketID : string; prOracleAddress : string; prPrice : Dec; prExpiry : Z }.

Definition Query_Price s (marketId : string) : outcome CurrentPrice :=
  match GetMarket s marketId with
  | None => Err (Plain "invalid market ID")
  | Some _ => GetCurrentPrice s marketId
  end.
Definition Query_Prices s : list CurrentPrice :=
  filter (fun cp => cpMarketID cp <> "") (GetCurrentPrices s).
Definition Query_RawPrices s (marketId : string) : outcome (list PostedPriceResponse) :=
  match GetMarket s marketId with
  | None => Err (Plain "invalid market ID")
  | Some _ =>
      let! rps := GetRawPrices s marketId in
      Ok (map (fun rp => mkPostedPriceResponse (ppMarketID rp) (AccAddress_String (ppOracleAddress rp))
                           (ppPrice rp) (ppExpiry rp)) rps)
  end.
Definition Query_Oracles s (marketId : string) : outcome (list string) :=
  match GetOracles s marketId with
  | Ok oracles => Ok (map AccAddress_String oracles)
  | Err _ => Err (Plain "invalid market ID")
  | Panic w => Panic w
  end.
Definition Query_Markets s : list MarketResponse := map ToMarketResponse (pfMarkets s).
End Pricefeed.

(** ** What sorting promises *)
Class PriceLaws {pc : PriceConfig} : Prop := {
  sort_prices_Permutation l : sort_prices l ≡ₚ l;
  sort_prices_Sorted l : StronglySorted (fun a b => cpPrice a <= cpPrice b) (sort_prices l)
}.
