(* ===== verification/PricefeedTheorems.v ===== *)
(** * x/pricefeed: the price is the median of the unexpired prices

    The keys separate markets and oracles; the median is bounded by every majority
    of the prices; the end blocker gives every active market the median, and ends
    for every store whose prices do not overflow; export and import keep the
    unexpired prices. *)

From S2P Require Import Prelude Sdk SdkDec GoStd Pricefeed.

(** ** Keys *)
Lemma string_bytes_inj a b : string_bytes a = string_bytes b -> a = b.
Proof.
  unfold string_bytes. intros E.
  assert (String.list_ascii_of_string a = String.list_ascii_of_string b) as E'.
  { revert E. generalize (String.list_ascii_of_string a) (String.list_ascii_of_string b).
    induction l as [|x l IH]; intros [|y l']; simpl; try done. intros [= Hx Hl]. f_equal; [|by apply IH].
    apply N2Z.inj in Hx. rewrite <- (Ascii.ascii_N_embedding x), <- (Ascii.ascii_N_embedding y). by rewrite Hx. }
  rewrite <- (String.string_of_list_ascii_of_string a), <- (String.string_of_list_ascii_of_string b).
  by rewrite E'.
Qed.

Lemma RawPriceIteratorKey_Ok m p :
  RawPriceIteratorKey m = Ok p <->
  (length (string_bytes m) <= 255)%nat /\ p = 1 :: Z.of_nat (length (string_bytes m)) :: string_bytes m.
Proof.
  unfold RawPriceIteratorKey, lengthPrefixWithByte. destruct (Nat.ltb_spec 255 (length (string_bytes m))); simpl.
  - split; [done|lia].
  - split; [intros [= <-]; done|by intros [_ ->]].
Qed.

Lemma RawPriceKey_Ok m o k :
  RawPriceKey m o = Ok k <->
  (length (string_bytes m) <= 255)%nat /\ (length o <= 255)%nat
  /\ k = (1 :: Z.of_nat (length (string_bytes m)) :: string_bytes m) ++ Z.of_nat (length o) :: o.
Proof.
  unfold RawPriceKey. rewrite obind_Ok. setoid_rewrite RawPriceIteratorKey_Ok.
  unfold lengthPrefixWithByte. destruct (Nat.ltb_spec 255 (length o)); simpl.
  - split; [naive_solver|lia].
  - split; [intros (a & [? ->] & [= <-]); done|]. intros (? & ? & ->). eauto.
Qed.

Lemma length_prefix_inj (a b r q : bytes) :
  Z.of_nat (length a) :: a ++ r = Z.of_nat (length b) :: b ++ q -> a = b /\ r = q.
Proof. intros E. simplify_eq. by apply app_inj_1. Qed.

(** The keys of a market are those with its prefix. *)
Lemma market_prefix m m' o p k :
  RawPriceIteratorKey m = Ok p -> RawPriceKey m' o = Ok k -> p `prefix_of` k <-> m = m'.
Proof.
  intros [_ ->]%RawPriceIteratorKey_Ok (_ & _ & ->)%RawPriceKey_Ok. split.
  - intros [r E]. simpl in E. injection E as E1 E2.
    destruct (length_prefix_inj (string_bytes m') (string_bytes m) (Z.of_nat (length o) :: o) r) as [E _].
    { by rewrite E1, E2. }
    by apply string_bytes_inj in E.
  - intros ->. eexists. reflexivity.
Qed.

Lemma RawPriceKey_inj m o m' o' k : RawPriceKey m o = Ok k -> RawPriceKey m' o' = Ok k -> m = m' /\ o = o'.
Proof.
  intros (_ & _ & ->)%RawPriceKey_Ok (_ & _ & E)%RawPriceKey_Ok. simpl in E. injection E as E1 E2.
  destruct (length_prefix_inj (string_bytes m) (string_bytes m') (Z.of_nat (length o) :: o)
              (Z.of_nat (length o') :: o')) as [Em Eo]; [by rewrite E1, E2|].
  split; [by apply string_bytes_inj|]. by injection Eo.
Qed.

(** ** The median *)
Section Median.
  Context {dc : DecConfig} {dlaws : DecLaws} {pc : PriceConfig} {laws : PriceLaws}.

(** The prices of [l] between [lo] and [hi]. *)
Definition within (lo hi : Z) (l : list CurrentPrice) : nat :=
  length (filter (fun p => lo <= cpPrice p <= hi) l).

#[export] Instance within_Permutation lo hi : Proper ((≡ₚ) ==> (=)) (within lo hi).
Proof. intros a b E. unfold within. by rewrite E. Qed.

Lemma within_le lo hi l : (within lo hi l <= length l)%nat.
Proof. apply length_filter. Qed.

Lemma within_none lo hi l : Forall (fun p => ~ (lo <= cpPrice p <= hi)) l -> within lo hi l = 0%nat.
Proof.
  unfold within. induction 1 as [|p l Hp Hl IH]; [done|]. by rewrite filter_cons_False.
Qed.

Lemma within_app lo hi a b : within lo hi (a ++ b) = (within lo hi a + within lo hi b)%nat.
Proof. unfold within. by rewrite filter_app, length_app. Qed.

Lemma sorted_nth l i j p q : StronglySorted (fun a b => cpPrice a <= cpPrice b) l ->
  l !! i = Some p -> l !! j = Some q -> (i <= j)%nat -> cpPrice p <= cpPrice q.
Proof.
  intros Hs. revert i j. induction Hs as [|x l Hl IH Hx]; intros i j Hi Hj Hle; [done|].
  destruct i as [|i], j as [|j]; simpl in *; try lia.
  - simplify_eq. lia.
  - simplify_eq. rewrite List.Forall_forall in Hx. apply Hx. apply list_elem_of_In. by eapply list_elem_of_lookup_2.
  - apply (IH i j); [done|done|lia].
Qed.

(** An element below (above) the range leaves at most the elements after (before)
    it inside. *)
Lemma below_range lo hi l i p : StronglySorted (fun a b => cpPrice a <= cpPrice b) l -> l !! i = Some p ->
  cpPrice p < lo -> (within lo hi l <= length l - S i)%nat.
Proof.
  intros Hs Hi Hp. rewrite <- (take_drop (S i) l) at 1. rewrite within_app.
  rewrite (within_none lo hi (take (S i) l)).
  - pose proof (within_le lo hi (drop (S i) l)) as H. rewrite length_drop in H. lia.
  - apply Forall_forall. intros q (j & Hq)%list_elem_of_lookup.
    apply lookup_take_Some in Hq as [Hq Hj]. pose proof (sorted_nth l j i q p Hs Hq Hi). lia.
Qed.

Lemma above_range lo hi l i p : StronglySorted (fun a b => cpPrice a <= cpPrice b) l -> l !! i = Some p ->
  hi < cpPrice p -> (within lo hi l <= i)%nat.
Proof.
  intros Hs Hi Hp. rewrite <- (take_drop i l) at 1. rewrite within_app.
  rewrite (within_none lo hi (drop i l)).
  - pose proof (within_le lo hi (take i l)) as H. rewrite length_take in H. lia.
  - apply Forall_forall. intros q (j & Hq)%list_elem_of_lookup. rewrite lookup_drop in Hq.
    pose proof (sorted_nth l i (i + j) p q Hs Hi Hq). lia.
Qed.

(** An order statistic between the outer ones is in the range of every majority. *)
Lemma majority_range lo hi l i p : StronglySorted (fun a b => cpPrice a <= cpPrice b) l -> l !! i = Some p ->
  (length l < 2 * within lo hi l)%nat -> (length l <= 2 * (i + 1))%nat -> (2 * i <= length l)%nat ->
  lo <= cpPrice p <= hi.
Proof.
  intros Hs Hi Hm H1 H2.
  destruct (Z.lt_ge_cases (cpPrice p) lo) as [Hlo|Hlo].
  { pose proof (below_range lo hi l i p Hs Hi Hlo). lia. }
  destruct (Z.lt_ge_cases hi (cpPrice p)) as [Hhi|Hhi]; [|lia].
  pose proof (above_range lo hi l i p Hs Hi Hhi). lia.
Qed.

Lemma price_at_Ok l i p : price_at l i = Ok p <-> l !! i = Some p.
Proof. unfold price_at. destruct (l !! i); naive_solver. Qed.

Definition middle_fits (l : list CurrentPrice) : Prop :=
  forall a b, a ∈ l -> b ∈ l -> dec_fits (cpPrice a + cpPrice b).

(** The median exists, and lies where more than half of the prices lie. *)
Lemma median_total l : l <> [] -> middle_fits l -> exists m, CalculateMedianPrice l = Ok m.
Proof.
  intros Hne Hfit. unfold CalculateMedianPrice.
  assert (length l <> 0)%nat as Hl0 by (by destruct l).
  destruct (Nat.eqb_spec (length l) 1) as [E|E].
  { destruct l as [|p [|??]]; try done. simpl. eauto. }
  assert (length (sort_prices l) = length l) as Hlen by (by rewrite sort_prices_Permutation).
  pose proof (Nat.div_mod_eq (length l) 2) as Hdm. pose proof (Nat.mod_upper_bound (length l) 2 ltac:(lia)) as Hmod.
  assert (forall i, (i < length l)%nat -> exists p, sort_prices l !! i = Some p /\ p ∈ l) as Hat.
  { intros i Hi. rewrite <- Hlen in Hi. apply lookup_lt_is_Some in Hi as [p Hp]. exists p. split; [done|].
    rewrite <- sort_prices_Permutation. by eapply list_elem_of_lookup_2. }
  destruct (Nat.eqb_spec (length l mod 2) 0) as [E2|E2].
  - destruct (Nat.eqb_spec (length l) 0); [lia|].
    destruct (Hat (length l / 2 - 1)%nat) as (a & Ha & Hal); [lia|].
    destruct (Hat (length l / 2)%nat) as (b & Hb & Hbl); [lia|].
    rewrite (proj2 (price_at_Ok _ _ _) Ha). cbn [obind]. rewrite (proj2 (price_at_Ok _ _ _) Hb). cbn [obind].
    unfold calculateMeanPrice. rewrite Dec_Add_Ok by (by apply Hfit). cbn [obind].
    destruct (Dec_half (cpPrice a + cpPrice b)) as (m & -> & _); [by apply Hfit|]. eauto.
  - destruct (Hat (length l / 2)%nat) as (b & Hb & _); [lia|].
    rewrite (proj2 (price_at_Ok _ _ _) Hb). cbn [obind]. eauto.
Qed.

Lemma mean_range lo hi a b m :
  lo <= cpPrice a <= hi -> lo <= cpPrice b <= hi -> calculateMeanPrice a b = Ok m -> lo <= m <= hi.
Proof.
  intros Ha Hb Hx. unfold calculateMeanPrice in Hx.
  destruct (decide (dec_fits (cpPrice a + cpPrice b))) as [Hlt|Hge].
  - rewrite Dec_Add_Ok in Hx by done. simpl in Hx.
    destruct (Dec_half _ Hlt) as (m' & Hm & Hr). rewrite Hm in Hx. injection Hx as <-. lia.
  - destruct (Dec_Add_overflow _ _ Hge) as [w Hw]. by rewrite Hw in Hx.
Qed.

Lemma median_within lo hi l m :
  CalculateMedianPrice l = Ok m -> (length l < 2 * within lo hi l)%nat -> lo <= m <= hi.
Proof.
  intros Hx Hm. unfold CalculateMedianPrice in Hx.
  destruct (Nat.eqb_spec (length l) 1) as [E|E].
  { destruct l as [|p [|??]]; try done. simpl in Hx. injection Hx as <-. unfold within in Hm.
    destruct (decide (lo <= cpPrice p <= hi)) as [Hp|Hp]; [done|]. rewrite filter_cons_False in Hm by done. simpl in Hm. lia. }
  assert (length (sort_prices l) = length l) as Hlen by (by rewrite sort_prices_Permutation).
  rewrite <- (sort_prices_Permutation l) in Hm at 2. rewrite <- Hlen in Hm.
  pose proof (sort_prices_Sorted l) as Hs.
  pose proof (Nat.div_mod_eq (length l) 2) as Hdm. pose proof (Nat.mod_upper_bound (length l) 2 ltac:(lia)) as Hmod.
  destruct (Nat.eqb_spec (length l mod 2) 0) as [E2|E2]; go_inv Hx; rewrite ?price_at_Ok in *.
  - gobool. apply Nat.eqb_neq in Heqb.
    eapply mean_range; [eapply majority_range; [exact Hs|exact Hcall|exact Hm|lia|lia]|
      eapply majority_range; [exact Hs|exact Hcall0|exact Hm|lia|lia]|exact Hx].
  - subst. eapply majority_range; [exact Hs|exact Hcall|exact Hm|lia|lia].
Qed.

(** Only the collection of the prices matters, not the order in which they are
    stored nor how ties are sorted. *)
Lemma sorted_prices_unique (a b : list CurrentPrice) : a ≡ₚ b ->
  StronglySorted (fun p q => cpPrice p <= cpPrice q) a -> StronglySorted (fun p q => cpPrice p <= cpPrice q) b ->
  cpPrice <$> a = cpPrice <$> b.
Proof.
  intros Hp Ha Hb. apply (StronglySorted_unique Z.le); [| |by rewrite Hp].
  all: by eapply StronglySorted_fmap; [|eassumption].
Qed.

Lemma price_at_fmap (a b : list CurrentPrice) i : cpPrice <$> a = cpPrice <$> b ->
  (let! p := price_at a i in Ok (cpPrice p)) = (let! p := price_at b i in Ok (cpPrice p)).
Proof.
  intros E. apply (f_equal (fun l => l !! i)) in E. rewrite !list_lookup_fmap in E. unfold price_at.
  destruct (a !! i), (b !! i); simplify_eq/=; congruence.
Qed.

#[export] Instance CalculateMedianPrice_Permutation : Proper ((≡ₚ) ==> (=)) CalculateMedianPrice.
Proof.
  intros a b E. unfold CalculateMedianPrice. rewrite <- (Permutation_length E).
  assert (cpPrice <$> sort_prices a = cpPrice <$> sort_prices b) as Hs.
  { apply sorted_prices_unique; [by rewrite !sort_prices_Permutation|apply sort_prices_Sorted..]. }
  destruct (Nat.eqb_spec (length a) 1) as [E1|_].
  { destruct a as [|x [|??]]; try done. by apply Permutation_singleton_l in E as ->. }
  destruct (Nat.eqb (length a mod 2) 0); [|by apply price_at_fmap].
  destruct (Nat.eqb (length a) 0); [done|].
  pose proof (price_at_fmap _ _ (length a / 2 - 1) Hs) as H1. pose proof (price_at_fmap _ _ (length a / 2) Hs) as H2.
  destruct (price_at (sort_prices a) (length a / 2 - 1)), (price_at (sort_prices b) (length a / 2 - 1));
    cbn [obind] in *; try congruence.
  destruct (price_at (sort_prices a) (length a / 2)), (price_at (sort_prices b) (length a / 2));
    cbn [obind] in *; try congruence.
  unfold calculateMeanPrice. congruence.
Qed.
End Median.

(** ** The store *)
Section Store.
  Context {cfg : SdkConfig} {str : GoStrings} {dc : DecConfig} {dlaws : DecLaws} {pc : PriceConfig} {laws : PriceLaws}.
  Implicit Types s : PfState.

(** Every price is stored under the key of its market and oracle. *)
Definition raw_ok s : Prop := forall k pp, pfRawPrices s !! k = Some pp ->
  RawPriceKey (ppMarketID pp) (ppOracleAddress pp) = Ok k.

(** The price that an oracle has posted for a market. *)
Definition posted s (m : string) (o : AccAddress) : option PostedPrice :=
  match RawPriceKey m o with Ok k => pfRawPrices s !! k | _ => None end.

Definition short (m : string) : Prop := (length (string_bytes m) <= 255)%nat.

Lemma posted_Some s m o pp : raw_ok s ->
  posted s m o = Some pp -> ppMarketID pp = m /\ ppOracleAddress pp = o.
Proof.
  intros Hok. unfold posted. destruct (RawPriceKey m o) as [k| |] eqn:Hk; [|done..]. intros Hpp.
  destruct (RawPriceKey_inj _ _ _ _ _ Hk (Hok _ _ Hpp)). done.
Qed.

Lemma GetRawPrices_spec s m : raw_ok s -> short m -> exists l, GetRawPrices s m = Ok l /\ NoDup l
  /\ forall pp, pp ∈ l <-> ppMarketID pp = m /\ posted s m (ppOracleAddress pp) = Some pp.
Proof.
  intros Hok Hm. unfold GetRawPrices.
  assert (RawPriceIteratorKey m = Ok (1 :: Z.of_nat (length (string_bytes m)) :: string_bytes m)) as Hp
    by (by apply RawPriceIteratorKey_Ok).
  rewrite Hp. cbn [obind]. eexists. split; [done|]. unfold prefix_iterator.
  set (p := 1 :: _) in *. set (l := filter _ _).
  assert (forall k pp, (k, pp) ∈ l <-> pfRawPrices s !! k = Some pp /\ ppMarketID pp = m) as Hl.
  { intros k pp. unfold l. rewrite list_elem_of_filter, elem_of_iterator. simpl. split.
    - intros (Hpre & Hk & _). split; [done|]. symmetry. by apply (market_prefix _ _ _ _ _ Hp (Hok _ _ Hk)).
    - intros [Hk Hmk]. split_and!; [|done|done]. by apply (market_prefix _ _ _ _ _ Hp (Hok _ _ Hk)). }
  split.
  - assert (NoDup l.*1) as Hnd.
    { apply (sublist_NoDup _ (iterator (pfRawPrices s) None).*1); [apply iterator_NoDup|]. apply fmap_sublist, sublist_filter. }
    assert (forall k k' pp, (k, pp) ∈ l -> (k', pp) ∈ l -> k = k') as Hf.
    { intros k k' pp [H1 _]%Hl [H2 _]%Hl. apply Hok in H1, H2. congruence. }
    clear -Hnd Hf. induction l as [|[k pp] l IH]; simpl in *; [constructor|].
    apply NoDup_cons in Hnd as [Hk Hnd]. constructor.
    + intros ([k' pp'] & -> & Hin)%list_elem_of_fmap. simpl in *. apply Hk.
      rewrite (Hf k k' pp'); [|left|by right]. by apply (list_elem_of_fmap_2 fst l (k', pp')).
    + apply IH; [done|]. intros k1 k2 pp1 H1 H2. apply (Hf k1 k2 pp1); by right.
  - intros pp. rewrite list_elem_of_fmap. split.
    + intros ([k pp'] & -> & Hin). apply Hl in Hin as [Hk Hmk]. simpl. split; [done|].
      unfold posted. rewrite <- Hmk. by rewrite (Hok _ _ Hk).
    + intros [Hmk Hpp]. unfold posted in Hpp. destruct (RawPriceKey m _) as [k| |] eqn:Hk; [|done..].
      exists (k, pp). split; [done|]. by apply Hl.
Qed.

Lemma GetRawPrices_long s m : ~ short m -> exists w, GetRawPrices s m = Panic w.
Proof.
  unfold short, GetRawPrices, RawPriceIteratorKey, lengthPrefixWithByte. intros Hm.
  destruct (Nat.ltb_spec 255 (length (string_bytes m))); [simpl; eauto|lia].
Qed.

(** ** Posting *)
Lemma SetPrice_Ok ctx o m price expiry s pp s' :
  SetPrice ctx o m price expiry s = Ok (pp, s') ->
  BlockTime ctx < expiry /\ pp = NewPostedPrice m o price expiry
  /\ pfMarkets s' = pfMarkets s /\ pfCurrentPrices s' = pfCurrentPrices s
  /\ exists k, RawPriceKey m o = Ok k /\ pfRawPrices s' = <[k := pp]> (pfRawPrices s).
Proof. unfold SetPrice. intros Hx. go_inv Hx. simplify_eq. gobool. simpl. eauto 10. Qed.

Lemma SetPrice_raw_ok ctx o m price expiry s pp s' :
  raw_ok s -> SetPrice ctx o m price expiry s = Ok (pp, s') -> raw_ok s'.
Proof.
  intros Hok (_ & -> & _ & _ & k & Hk & Er)%SetPrice_Ok k' pp'. rewrite Er.
  intros [[<- <-]|[_ ?]]%lookup_insert_Some; [done|by apply Hok].
Qed.

Lemma SetPrice_posted ctx o m price expiry s pp s' m' o' :
  SetPrice ctx o m price expiry s = Ok (pp, s') ->
  posted s' m' o' = if bool_decide (m' = m /\ o' = o) then Some (NewPostedPrice m o price expiry) else posted s m' o'.
Proof.
  intros (_ & -> & _ & _ & k & Hk & Er)%SetPrice_Ok. unfold posted. case_bool_decide as E.
  - destruct E as [-> ->]. rewrite Hk, Er. apply lookup_insert_eq.
  - destruct (RawPriceKey m' o') as [k'| |] eqn:Hk'; [|done..]. rewrite Er. apply lookup_insert_ne.
    intros <-. apply E. by destruct (RawPriceKey_inj _ _ _ _ _ Hk Hk').
Qed.

(** ** The end blocker *)
Lemma SetCurrentPrices_frame ctx m s e s' : SetCurrentPrices ctx m s = Ok (e, s') ->
  pfMarkets s' = pfMarkets s /\ pfRawPrices s' = pfRawPrices s
  /\ forall m', m' <> m -> pfCurrentPrices s' !! m' = pfCurrentPrices s !! m'.
Proof.
  unfold SetCurrentPrices. intros Hx. go_inv Hx; simplify_eq; try done; simpl; split_and!; try done;
    intros m' Hm'; by rewrite lookup_insert_ne by done.
Qed.

(** What a market gets at the end of a block. *)
Definition priced ctx s (m : string) s' : Prop :=
  exists l, GetRawPrices s m = Ok l
  /\ match not_expired ctx l with
     | [] => GetCurrentPrice s' m = Err ErrNoValidPrice
     | prices => exists median, CalculateMedianPrice prices = Ok median
                 /\ pfCurrentPrices s' !! m = Some (NewCurrentPrice m median)
     end.

Lemma end_market_Ok ctx m s s' : m ∈ pfMarkets s -> end_market ctx m s = Ok s' ->
  pfMarkets s' = pfMarkets s /\ pfRawPrices s' = pfRawPrices s
  /\ (forall m', m' <> mkMarketID m -> pfCurrentPrices s' !! m' = pfCurrentPrices s !! m')
  /\ (if mkActive m then priced ctx s (mkMarketID m) s' else s' = s).
Proof.
  intros Hin Hx. unfold end_market in Hx. destruct (mkActive m); simpl in Hx; [|by injection Hx as <-].
  apply obind_Ok in Hx as ([e s1] & Hset & Hx).
  assert (s1 = s') as -> by (go_inv Hx; done).
  pose proof (SetCurrentPrices_frame _ _ _ _ _ Hset) as (F1 & F2 & F3). split_and!; [done|done|done|].
  unfold SetCurrentPrices in Hset. destruct (GetMarket s _) as [m0|] eqn:Hm.
  - apply obind_Ok in Hset as (l & Hl & Hset). exists l. split; [done|]. destruct (not_expired ctx l) as [|p ps] eqn:En.
    + injection Hset as <- <-. unfold GetCurrentPrice; simpl. by rewrite lookup_insert_eq.
    + apply obind_Ok in Hset as (med & Hmed & [= <- <-]). exists med. split; [done|]. apply lookup_insert_eq.
  - exfalso. unfold GetMarket in Hm. pose proof (List.find_none _ _ Hm m) as Hn.
    rewrite <- list_elem_of_In in Hn. specialize (Hn Hin). gobool. done.
Qed.

Lemma priced_frame ctx s s1 m s' : pfRawPrices s1 = pfRawPrices s -> priced ctx s1 m s' -> priced ctx s m s'.
Proof. intros E (l & Hl & H). exists l. split; [|done]. unfold GetRawPrices in *. by rewrite E in Hl. Qed.

Lemma priced_later ctx s m s1 s2 : pfCurrentPrices s2 !! m = pfCurrentPrices s1 !! m ->
  priced ctx s m s1 -> priced ctx s m s2.
Proof.
  intros E (l & Hl & H). exists l. split; [done|]. destruct (not_expired ctx l).
  - unfold GetCurrentPrice in *. by rewrite E.
  - destruct H as (med & ? & ?). exists med. by rewrite E.
Qed.

Lemma end_markets ctx ms s s' : NoDup (mkMarketID <$> ms) -> (forall m, m ∈ ms -> m ∈ pfMarkets s) ->
  ofold (end_market ctx) ms s = Ok s' ->
  pfMarkets s' = pfMarkets s /\ pfRawPrices s' = pfRawPrices s
  /\ (forall m, m ∈ ms -> mkActive m = true -> priced ctx s (mkMarketID m) s')
  /\ (forall id, (forall m, m ∈ ms -> mkActive m = true -> mkMarketID m <> id) ->
        pfCurrentPrices s' !! id = pfCurrentPrices s !! id).
Proof.
  revert s. induction ms as [|m ms IH]; intros s Hnd Hin Hx; simpl in Hx.
  { injection Hx as <-. split_and!; try done. intros m Hm. by apply elem_of_nil in Hm. }
  simpl in Hnd. apply NoDup_cons in Hnd as [Hm Hnd]. apply obind_Ok in Hx as (s1 & H1 & Hx).
  apply end_market_Ok in H1 as (M1 & R1 & C1 & P1); [|apply Hin; left].
  apply IH in Hx as (M2 & R2 & P2 & C2); [|done|intros; rewrite M1; apply Hin; by right].
  split_and!; [congruence|congruence| |].
  - intros q [->|Hq]%elem_of_cons Ha.
    + rewrite Ha in P1. eapply priced_later; [|exact P1]. apply C2. intros q Hq _ E. apply Hm.
      rewrite <- E. by apply list_elem_of_fmap_2.
    + eapply priced_frame; [exact R1|]. by apply P2.
  - intros id Hid. rewrite C2 by (intros; apply Hid; [by right|done]).
    destruct (mkActive m) eqn:Ha; [|by rewrite P1]. apply C1. intros ->. apply (Hid m); [left|done|done].
Qed.

(** No two stored prices overflow when they are added. *)
Definition prices_fit s : Prop := forall k1 p1 k2 p2,
  pfRawPrices s !! k1 = Some p1 -> pfRawPrices s !! k2 = Some p2 -> dec_fits (ppPrice p1 + ppPrice p2).

Lemma stored_fits ctx s m l : raw_ok s -> prices_fit s -> GetRawPrices s m = Ok l -> middle_fits (not_expired ctx l).
Proof.
  intros Hok Hfit Hl a b (pa & -> & [_ Ha]%list_elem_of_filter)%list_elem_of_fmap
    (pb & -> & [_ Hb]%list_elem_of_filter)%list_elem_of_fmap. simpl.
  assert (short m) as Hm.
  { unfold GetRawPrices in Hl. apply obind_Ok in Hl as (p & Hp & _). by apply RawPriceIteratorKey_Ok in Hp as [? _]. }
  destruct (GetRawPrices_spec s m Hok Hm) as (l' & Hl' & _ & Hin). rewrite Hl in Hl'. injection Hl' as <-.
  apply Hin in Ha as [_ Ha], Hb as [_ Hb]. unfold posted in Ha, Hb.
  destruct (RawPriceKey m (ppOracleAddress pa)) as [ka| |]; [|done..].
  destruct (RawPriceKey m (ppOracleAddress pb)) as [kb| |]; [|done..]. by eapply Hfit.
Qed.

Lemma SetCurrentPrices_total ctx m s : raw_ok s -> prices_fit s -> short (mkMarketID m) -> m ∈ pfMarkets s ->
  exists l s', GetRawPrices s (mkMarketID m) = Ok l
  /\ SetCurrentPrices ctx (mkMarketID m) s
     = Ok (match not_expired ctx l with [] => Some ErrNoValidPrice | _ => None end, s').
Proof.
  intros Hok Hfit Hsh Hin. destruct (GetRawPrices_spec s (mkMarketID m) Hok Hsh) as (l & Hl & _).
  exists l. unfold SetCurrentPrices. destruct (GetMarket s _) as [m0|] eqn:Hm.
  2: { exfalso. unfold GetMarket in Hm. pose proof (List.find_none _ _ Hm m) as Hn.
       rewrite <- list_elem_of_In in Hn. specialize (Hn Hin). gobool. done. }
  rewrite Hl. cbn [obind]. destruct (not_expired ctx l) as [|p ps] eqn:En; [eauto|].
  destruct (median_total (p :: ps)) as [med Hmed]; [done|rewrite <- En; by eapply stored_fits|].
  rewrite Hmed. simpl. eauto.
Qed.

(** The conditions under which a block ends. *)
Definition workable s : Prop :=
  raw_ok s /\ prices_fit s /\ forall m, m ∈ pfMarkets s -> mkActive m = true -> short (mkMarketID m).

Lemma end_blocker_ok ctx s : workable s -> exists s', EndBlocker ctx s = Ok s'.
Proof.
  intros (Hok & Hfit & Hsh). unfold EndBlocker.
  destruct (ofold_total (fun s1 => pfMarkets s1 = pfMarkets s /\ pfRawPrices s1 = pfRawPrices s)
              (end_market ctx) (pfMarkets s) s) as (s' & Hs' & _); [|done|eauto].
  intros m s1 Hm [Em Er]. assert (raw_ok s1 /\ prices_fit s1) as [Hok1 Hfit1].
  { unfold raw_ok, prices_fit in *. by rewrite Er. }
  unfold end_market. destruct (mkActive m) eqn:Ha; simpl; [|eauto].
  destruct (SetCurrentPrices_total ctx m s1) as (l & s2 & _ & Hset); [done|done|by apply Hsh|by rewrite Em|].
  rewrite Hset. cbn [obind]. destruct (SetCurrentPrices_frame _ _ _ _ _ Hset) as (F1 & F2 & _).
  exists s2. split; [by destruct (not_expired ctx l)|]. split; congruence.
Qed.

(** ** Import *)
Lemma init_price_Ok ctx pp s : (exists k, RawPriceKey (ppMarketID pp) (ppOracleAddress pp) = Ok k) ->
  exists s', init_price ctx pp s = Ok s' /\ pfMarkets s' = pfMarkets s /\ pfCurrentPrices s' = pfCurrentPrices s
  /\ (raw_ok s -> raw_ok s')
  /\ forall m o, posted s' m o
     = if bool_decide (BlockTime ctx < ppExpiry pp /\ m = ppMarketID pp /\ o = ppOracleAddress pp)
       then Some pp else posted s m o.
Proof.
  intros [k Hk]. unfold init_price. destruct (Z.ltb_spec (BlockTime ctx) (ppExpiry pp)) as [Hlt|Hge].
  - assert (exists p s1, SetPrice ctx (ppOracleAddress pp) (ppMarketID pp) (ppPrice pp) (ppExpiry pp) s = Ok (p, s1)) as (p & s1 & Hs).
    { unfold SetPrice. rewrite (proj2 (Z.ltb_lt _ _) Hlt), Hk. simpl. eauto. }
    rewrite Hs. simpl. exists s1. pose proof (SetPrice_Ok _ _ _ _ _ _ _ _ Hs) as (_ & -> & M & C & _).
    split_and!; [done|done|done|by intros Hok; eapply SetPrice_raw_ok|].
    intros m o. rewrite (SetPrice_posted _ _ _ _ _ _ _ _ m o Hs). destruct pp; simpl in *.
    repeat case_bool_decide; naive_solver.
  - exists s. split_and!; try done. intros m o. case_bool_decide; [lia|done].
Qed.

Lemma import_prices ctx l s :
  (forall pp, pp ∈ l -> exists k, RawPriceKey (ppMarketID pp) (ppOracleAddress pp) = Ok k) ->
  (forall p q, p ∈ l -> q ∈ l -> ppMarketID p = ppMarketID q -> ppOracleAddress p = ppOracleAddress q -> p = q) ->
  exists s', ofold (init_price ctx) l s = Ok s' /\ pfMarkets s' = pfMarkets s
  /\ pfCurrentPrices s' = pfCurrentPrices s /\ (raw_ok s -> raw_ok s')
  /\ (forall pp, pp ∈ l -> BlockTime ctx < ppExpiry pp -> posted s' (ppMarketID pp) (ppOracleAddress pp) = Some pp)
  /\ (forall m o, (forall pp, pp ∈ l -> BlockTime ctx < ppExpiry pp ->
         ~ (ppMarketID pp = m /\ ppOracleAddress pp = o)) -> posted s' m o = posted s m o).
Proof.
  induction l as [|x l IH] using rev_ind; intros Hk Hu.
  { exists s. simpl. split_and!; try done. intros pp Hpp. by apply elem_of_nil in Hpp. }
  destruct IH as (s1 & H1 & M1 & C1 & K1 & P1 & N1).
  { intros pp Hpp. apply Hk, elem_of_app. by left. }
  { intros p q Hp Hq. apply Hu; apply elem_of_app; by left. }
  assert (x ∈ l ++ [x]) as Hx by (apply elem_of_app; right; left).
  destruct (init_price_Ok ctx x s1 (Hk x Hx)) as (s2 & H2 & M2 & C2 & K2 & P2).
  exists s2. rewrite ofold_app, H1. simpl. rewrite H2. simpl.
  split_and!; [done|congruence|congruence|auto| |].
  - intros pp [Hpp|Hpp%list_elem_of_singleton]%elem_of_app Ht.
    + rewrite P2. case_bool_decide as E; [|by apply P1]. destruct E as (_ & Em & Eo).
      f_equal. symmetry. apply Hu; [apply elem_of_app; by left|done|done|done].
    + subst pp. rewrite P2. by rewrite bool_decide_eq_true_2.
  - intros m o Hno. rewrite P2, bool_decide_eq_false_2.
    + apply N1. intros pp Hpp. apply Hno, elem_of_app. by left.
    + intros (Ht & -> & ->). by apply (Hno x Hx Ht).
Qed.

Lemma init_market_Ok ctx m s : raw_ok s -> prices_fit s -> m ∈ pfMarkets s -> short (mkMarketID m) ->
  (forall k pp, pfRawPrices s !! k = Some pp -> BlockTime ctx < ppExpiry pp) ->
  exists s', init_market ctx m s = Ok s' /\ pfMarkets s' = pfMarkets s /\ pfRawPrices s' = pfRawPrices s.
Proof.
  intros Hok Hfit Hin Hsh Hun. unfold init_market. destruct (mkActive m); simpl; [|eauto].
  destruct (SetCurrentPrices_total ctx m s Hok Hfit Hsh Hin) as (l & s2 & Hl & Hset).
  rewrite Hl. cbn [obind]. destruct (Nat.eqb_spec (length l) 0) as [E|E]; [eauto|].
  rewrite Hset. cbn [obind]. destruct (SetCurrentPrices_frame _ _ _ _ _ Hset) as (F1 & F2 & _).
  assert (not_expired ctx l <> []) as Hne.
  { destruct l as [|p l]; [done|]. unfold not_expired. rewrite filter_cons_True; [done|].
    destruct (GetRawPrices_spec s (mkMarketID m) Hok Hsh) as (l' & Hl' & _ & Hp). rewrite Hl in Hl'. injection Hl' as <-.
    destruct (proj1 (Hp p) (list_elem_of_here _ _)) as [_ Hpo]. unfold posted in Hpo.
    destruct (RawPriceKey _ _) as [k| |]; [|done..]. by eapply Hun. }
  exists s2. destruct (not_expired ctx l); [done|]. split_and!; congruence.
Qed.

(** ** The export *)
Lemma markets_unique ms : Markets_Validate ms = Ok tt -> NoDup (mkMarketID <$> ms).
Proof.
  unfold Markets_Validate.
  assert (forall seen, validate_markets seen ms = Ok tt ->
            NoDup (mkMarketID <$> ms) /\ forall m, m ∈ ms -> mkMarketID m ∉ seen) as H.
  { induction ms as [|m ms IH]; intros seen Hx; simpl in Hx.
    { split; [constructor|]. intros m Hm. by apply elem_of_nil in Hm. }
    go_inv Hx. gobool. apply IH in Hx as [Hnd Hs]. split.
    - simpl. constructor; [|done]. intros (q & Eq & Hq)%list_elem_of_fmap. apply (Hs q Hq). set_solver.
    - intros q [->|Hq]%elem_of_cons; [done|]. specialize (Hs q Hq). set_solver. }
  intros Hx. by apply (H ∅).
Qed.

(** The unexpired price of an oracle. *)
Definition live ctx s (m : string) (o : AccAddress) : option PostedPrice :=
  match posted s m o with
  | Some pp => if BlockTime ctx <? ppExpiry pp then Some pp else None
  | None => None
  end.

(** Equal unexpired prices give equal medians. *)
Lemma live_prices ctx s s' m l l' : raw_ok s -> raw_ok s' -> short m ->
  (forall o, live ctx s m o = live ctx s' m o) ->
  GetRawPrices s m = Ok l -> GetRawPrices s' m = Ok l' -> not_expired ctx l ≡ₚ not_expired ctx l'.
Proof.
  intros Hok Hok' Hsh Hlive Hl Hl'.
  destruct (GetRawPrices_spec s m Hok Hsh) as (a & Ea & Nd & Ha).
  destruct (GetRawPrices_spec s' m Hok' Hsh) as (b & Eb & Nd' & Hb).
  rewrite Hl in Ea. rewrite Hl' in Eb. injection Ea as <-. injection Eb as <-.
  assert (forall t (k : list PostedPrice) (pp : PostedPrice), (forall pp : PostedPrice, pp ∈ k <-> ppMarketID pp = m /\ posted t m (ppOracleAddress pp) = Some pp) ->
    pp ∈ filter (fun v => BlockTime ctx < ppExpiry v) k
    <-> ppMarketID pp = m /\ live ctx t m (ppOracleAddress pp) = Some pp) as Hin.
  { intros t k pp Hk. rewrite list_elem_of_filter, Hk. unfold live.
    destruct (posted t m (ppOracleAddress pp)) as [q|]; [|naive_solver].
    destruct (Z.ltb_spec (BlockTime ctx) (ppExpiry q)); naive_solver lia. }
  unfold not_expired. apply Permutation_map, NoDup_Permutation; [by apply NoDup_filter..|].
  intros pp. rewrite (Hin s l pp Ha), (Hin s' l' pp Hb). by rewrite Hlive.
Qed.

Lemma omap_list_elems {A B} (f : A -> outcome B) l :
  (forall x, x ∈ l -> exists y, f x = Ok y) ->
  exists r, omap_list f l = Ok r /\ forall y, y ∈ r <-> exists x, x ∈ l /\ f x = Ok y.
Proof.
  induction l as [|x l IH]; intros Hf; simpl.
  { exists []. split; [done|]. intros y. split; [by intros ?%elem_of_nil|by intros (? & ?%elem_of_nil & _)]. }
  destruct (Hf x) as [y Hy]; [left|]. destruct IH as (r & Hr & Hin); [intros; apply Hf; by right|].
  rewrite Hy, Hr. simpl. exists (y :: r). split; [done|]. intros z. rewrite elem_of_cons, Hin. split.
  - intros [->|(q & Hq & Hz)]; [exists x; split; [left|done]|exists q; split; [by right|done]].
  - intros (q & [->|Hq]%elem_of_cons & Hz); [left; congruence|right; eauto].
Qed.

Definition listed s (m : string) : Prop := m ∈ mkMarketID <$> pfMarkets s.

Lemma export_spec s : raw_ok s -> (forall m, m ∈ pfMarkets s -> short (mkMarketID m)) ->
  exists l, ExportGenesis s = Ok (NewGenesisState (pfMarkets s) l)
  /\ forall pp, pp ∈ l <-> listed s (ppMarketID pp) /\ posted s (ppMarketID pp) (ppOracleAddress pp) = Some pp.
Proof.
  intros Hok Hsh. unfold ExportGenesis.
  destruct (omap_list_elems (fun market => GetRawPrices s (mkMarketID market)) (pfMarkets s)) as (r & Hr & Hin).
  { intros m Hm. destruct (GetRawPrices_spec s (mkMarketID m) Hok (Hsh m Hm)) as (l & ? & _). eauto. }
  rewrite Hr. cbn [obind]. eexists. split; [done|]. intros pp. rewrite list_elem_of_join. unfold listed. split.
  - intros (l & Hpp & Hl). apply Hin in Hl as (m & Hm & Hl).
    destruct (GetRawPrices_spec s (mkMarketID m) Hok (Hsh m Hm)) as (l' & Hl' & _ & Hs). rewrite Hl in Hl'. injection Hl' as <-.
    destruct (proj1 (Hs pp) Hpp) as [Em Hpo]. rewrite Em. split; [by apply list_elem_of_fmap_2|done].
  - intros [Hli Hpp]. apply list_elem_of_fmap in Hli as (m & Em & Hm).
    destruct (GetRawPrices_spec s (mkMarketID m) Hok (Hsh m Hm)) as (l & Hl & _ & Hs).
    exists l. split; [|apply Hin; eauto]. apply Hs. by rewrite <- Em.
Qed.

(** ** The current prices after an import *)
Definition unexpired ctx s : Prop := forall k pp, pfRawPrices s !! k = Some pp -> BlockTime ctx < ppExpiry pp.

Lemma init_market_priced ctx m s : raw_ok s -> prices_fit s -> m ∈ pfMarkets s -> short (mkMarketID m) ->
  unexpired ctx s -> pfCurrentPrices s !! mkMarketID m = None ->
  exists s', init_market ctx m s = Ok s' /\ pfMarkets s' = pfMarkets s /\ pfRawPrices s' = pfRawPrices s
  /\ (forall id, id <> mkMarketID m -> pfCurrentPrices s' !! id = pfCurrentPrices s !! id)
  /\ (mkActive m = true -> priced ctx s (mkMarketID m) s').
Proof.
  intros Hok Hfit Hin Hsh Hun Hnone.
  destruct (init_market_Ok ctx m s Hok Hfit Hin Hsh Hun) as (s' & Hx & M & R). exists s'. split_and!; try done.
  all: unfold init_market in Hx; destruct (mkActive m) eqn:Ha; simpl in Hx; [|by simplify_eq].
  all: apply obind_Ok in Hx as (l & Hl & Hx); destruct (Nat.eqb_spec (length l) 0) as [E|E].
  - by simplify_eq.
  - apply obind_Ok in Hx as ([e s2] & Hset & Hx). destruct e; [done|]. simplify_eq.
    by apply SetCurrentPrices_frame in Hset as (_ & _ & ?).
  - simplify_eq. intros _. exists l. split; [done|]. destruct l; [|done]. simpl. unfold GetCurrentPrice. by rewrite Hnone.
  - intros _. destruct (end_market_Ok ctx m s s') as (_ & _ & _ & P); [done| |by rewrite Ha in P].
    unfold end_market. rewrite Ha. cbn [negb]. apply obind_Ok in Hx as ([e s2] & Hset & Hx). rewrite Hset. cbn [obind].
    by destruct e.
Qed.

Lemma init_markets ctx ms s : raw_ok s -> prices_fit s -> unexpired ctx s -> NoDup (mkMarketID <$> ms) ->
  (forall m, m ∈ ms -> m ∈ pfMarkets s /\ short (mkMarketID m) /\ pfCurrentPrices s !! mkMarketID m = None) ->
  exists s', ofold (init_market ctx) ms s = Ok s' /\ pfMarkets s' = pfMarkets s /\ pfRawPrices s' = pfRawPrices s
  /\ (forall id, (forall m, m ∈ ms -> id <> mkMarketID m) -> pfCurrentPrices s' !! id = pfCurrentPrices s !! id)
  /\ (forall m, m ∈ ms -> mkActive m = true -> priced ctx s (mkMarketID m) s').
Proof.
  revert s. induction ms as [|m ms IH]; intros s Hok Hfit Hun Hnd Hin.
  { exists s. split_and!; try done. intros m Hm. by apply elem_of_nil in Hm. }
  simpl in Hnd. apply NoDup_cons in Hnd as [Hm Hnd]. destruct (Hin m) as (Hmm & Hsh & Hnone); [left|].
  destruct (init_market_priced ctx m s) as (s1 & H1 & M1 & R1 & C1 & P1); try done.
  destruct (IH s1) as (s2 & H2 & M2 & R2 & C2 & P2).
  1-3: unfold raw_ok, prices_fit, unexpired in *; by rewrite R1.
  { done. }
  { intros q Hq. destruct (Hin q) as (? & ? & ?); [by right|]. rewrite M1, C1; [done|].
    intros E. apply Hm. rewrite <- E. by apply list_elem_of_fmap_2. }
  exists s2. simpl. rewrite H1. simpl. split_and!; [done|congruence|congruence| |].
  - intros id Hid. rewrite C2 by (intros; apply Hid; by right). apply C1. apply Hid. left.
  - intros q [->|Hq]%elem_of_cons Ha; [|by eapply priced_frame; [exact R1|apply P2]].
    eapply priced_later; [|by apply P1]. apply C2. intros q Hq E. apply Hm. rewrite E. by apply list_elem_of_fmap_2.
Qed.

Lemma priced_same ctx s s' m t t' : raw_ok s -> raw_ok s' -> short m ->
  (forall o, live ctx s m o = live ctx s' m o) ->
  priced ctx s m t -> priced ctx s' m t' -> GetCurrentPrice t m = GetCurrentPrice t' m.
Proof.
  intros Hok Hok' Hsh Hlive (l & Hl & H) (l' & Hl' & H').
  pose proof (live_prices ctx s s' m l l' Hok Hok' Hsh Hlive Hl Hl') as E.
  destruct (not_expired ctx l) as [|p ps].
  { apply Permutation_nil_l in E. rewrite <- E in H'. congruence. }
  destruct (not_expired ctx l') as [|q qs]; [by apply Permutation_nil_r in E|].
  destruct H as (a & Ha & Hp), H' as (b & Hb & Hq). rewrite E, Hb in Ha. simplify_eq.
  unfold GetCurrentPrice. by rewrite Hp, Hq.
Qed.

(** ** The properties *)
Lemma listed_short s m : (forall q, q ∈ pfMarkets s -> short (mkMarketID q)) -> listed s m -> short m.
Proof. intros Hsh (q & -> & Hq)%list_elem_of_fmap. by apply Hsh. Qed.

Lemma live_posted ctx s m o pp :
  live ctx s m o = Some pp <-> posted s m o = Some pp /\ BlockTime ctx < ppExpiry pp.
Proof.
  unfold live. destruct (posted s m o) as [q|]; [|naive_solver].
  destruct (Z.ltb_spec (BlockTime ctx) (ppExpiry q)); naive_solver lia.
Qed.

(** A price that can be queried is listed with the prices, when its market has a name. *)
Lemma queried_price_listed s m p : cpMarketID p <> "" -> Query_Price s m = Ok p -> p ∈ Query_Prices s.
Proof.
  intros Hne Hx. unfold Query_Price, GetCurrentPrice in Hx.
  destruct (GetMarket s m); [|done]. destruct (pfCurrentPrices s !! m) as [q|] eqn:Hq; [|done].
  destruct (cpPrice q =? 0); [done|]. injection Hx as ->. apply list_elem_of_filter. split; [done|].
  unfold GetCurrentPrices. apply (list_elem_of_fmap_2 snd _ (m, p)). rewrite string_iterator_Permutation.
  by apply elem_of_map_to_list.
Qed.

Definition empty_store : PfState := mkPf [] ∅ ∅.

Lemma raw_posted s k pp : raw_ok s -> pfRawPrices s !! k = Some pp ->
  posted s (ppMarketID pp) (ppOracleAddress pp) = Some pp.
Proof. intros Hok Hk. unfold posted. by rewrite (Hok _ _ Hk). Qed.

Lemma posted_raw s m o pp : posted s m o = Some pp -> exists k, RawPriceKey m o = Ok k /\ pfRawPrices s !! k = Some pp.
Proof. unfold posted. destruct (RawPriceKey m o) as [k| |]; [|done..]. eauto. Qed.

(** The prices that the import of an export stores. *)
Lemma import_spec ctx s l ms : raw_ok s ->
  (forall pp, pp ∈ l <-> listed s (ppMarketID pp) /\ posted s (ppMarketID pp) (ppOracleAddress pp) = Some pp) ->
  exists s', ofold (init_price ctx) l (mkPf ms ∅ ∅) = Ok s' /\ raw_ok s' /\ pfMarkets s' = ms /\ pfCurrentPrices s' = ∅
  /\ (forall m o, listed s m -> posted s' m o = live ctx s m o)
  /\ (forall k pp, pfRawPrices s' !! k = Some pp -> pfRawPrices s !! k = Some pp /\ BlockTime ctx < ppExpiry pp).
Proof.
  intros Hok Hin. destruct (import_prices ctx l (mkPf ms ∅ ∅)) as (s' & Hx & M & C & K & P & N).
  { intros pp [_ (k & Hk & _)%posted_raw]%Hin. eauto. }
  { intros p q [_ Hp]%Hin [_ Hq]%Hin Em Eo. rewrite Em, Eo in Hp. congruence. }
  assert (raw_ok s') as Hok'. { apply K. intros k pp Hk. simpl in Hk. by rewrite lookup_empty in Hk. }
  assert (forall m o, posted (mkPf ms ∅ ∅) m o = None) as Hnone by (intros; unfold posted; by destruct (RawPriceKey m o)).
  assert (forall m o pp, posted s' m o = Some pp -> pp ∈ l /\ BlockTime ctx < ppExpiry pp) as Hfrom.
  { intros m o pp Hpp. pose proof (posted_Some _ _ _ _ Hok' Hpp) as [<- <-].
    destruct (decide (Exists (fun q => BlockTime ctx < ppExpiry q /\ ppMarketID q = ppMarketID pp
                                     /\ ppOracleAddress q = ppOracleAddress pp) l)) as [He|Hne].
    - apply Exists_exists in He as (q & Hq & Ht & Em & Eo). specialize (P q Hq Ht). rewrite Em, Eo in P.
      rewrite P in Hpp. by injection Hpp as <-.
    - rewrite N, Hnone in Hpp; [done|]. intros q Hq Ht E. apply Hne, Exists_exists. eauto. }
  exists s'. split_and!; try done.
  - intros m o Hm. destruct (live ctx s m o) as [pp|] eqn:Hl.
    + apply live_posted in Hl as [Hp Ht]. destruct (posted_Some _ _ _ _ Hok Hp) as [<- <-]. apply P; [by apply Hin|done].
    + destruct (posted s' m o) as [pp|] eqn:Hp; [|done]. exfalso. destruct (Hfrom _ _ _ Hp) as [[_ Hs]%Hin Ht].
      destruct (posted_Some _ _ _ _ Hok' Hp) as [Em Eo]. rewrite Em, Eo in Hs.
      by rewrite (proj2 (live_posted ctx s m o pp) (conj Hs Ht)) in Hl.
  - intros k pp Hk. destruct (Hfrom _ _ _ (raw_posted _ _ _ Hok' Hk)) as [[_ Hs]%Hin Ht]. split; [|done].
    apply posted_raw in Hs as (k' & Hk' & Hs). rewrite (Hok' _ _ Hk) in Hk'. by injection Hk' as <-.
Qed.

(** A block ends when the names of the active markets have at most 255 bytes and no
    two posted prices overflow a decimal when they are added; then the current price of
    every active market is the median of its prices that have not expired (without such a
    price reading it gives the error that there is none), and the inactive markets, the
    posted prices and the markets are as before. *)
Theorem end_block_prices ctx s : workable s -> Markets_Validate (pfMarkets s) = Ok tt ->
  exists s', EndBlocker ctx s = Ok s' /\ pfMarkets s' = pfMarkets s /\ pfRawPrices s' = pfRawPrices s
  /\ (forall m, m ∈ pfMarkets s -> mkActive m = true -> priced ctx s (mkMarketID m) s')
  /\ (forall id, (forall m, m ∈ pfMarkets s -> mkActive m = true -> mkMarketID m <> id) ->
        pfCurrentPrices s' !! id = pfCurrentPrices s !! id).
Proof.
  intros Hw Hv%markets_unique. destruct (end_blocker_ok ctx s Hw) as [s' Hx]. exists s'. split; [done|].
  apply end_markets; [done|auto|exact Hx].
Qed.

(** C18: when more than half of the unexpired prices of an active market lie between two
    positive bounds, so does the current price after the block: oracles in the
    minority, whatever they post, cannot move it out. *)
Theorem majority_price ctx s s' m l lo hi :
  Markets_Validate (pfMarkets s) = Ok tt -> m ∈ pfMarkets s -> mkActive m = true -> 0 < lo ->
  GetRawPrices s (mkMarketID m) = Ok l ->
  (length (not_expired ctx l) < 2 * within lo hi (not_expired ctx l))%nat ->
  EndBlocker ctx s = Ok s' ->
  exists p, GetCurrentPrice s' (mkMarketID m) = Ok p /\ cpMarketID p = mkMarketID m /\ lo <= cpPrice p <= hi.
Proof.
  intros Hv%markets_unique Hm Ha Hlo Hl Hmaj Hx.
  apply end_markets in Hx as (_ & _ & P & _); [|done|auto].
  destruct (P m Hm Ha) as (l' & Hl' & H). rewrite Hl in Hl'. injection Hl' as <-.
  destruct (not_expired ctx l) as [|p ps] eqn:En; [simpl in Hmaj; lia|]. destruct H as (med & Hmed & Hc).
  pose proof (median_within lo hi _ med Hmed Hmaj) as Hr. exists (NewCurrentPrice (mkMarketID m) med).
  unfold GetCurrentPrice. rewrite Hc. simpl. destruct (Z.eqb_spec med 0); [lia|done].
Qed.

(** A price is posted only by an oracle that a market of that name lists, with an
    expiry after the block; it replaces the price of that oracle for that market and no
    other. *)
Theorem post_price_correct ctx msg s s' : raw_ok s -> PostPrice ctx msg s = Ok s' ->
  exists from market, AccAddressFromBech32 (mpFrom msg) = Ok from
  /\ market ∈ pfMarkets s /\ mkMarketID market = mpMarketID msg /\ from ∈ mkOracles market
  /\ BlockTime ctx < mpExpiry msg
  /\ raw_ok s' /\ pfMarkets s' = pfMarkets s /\ pfCurrentPrices s' = pfCurrentPrices s
  /\ forall m o, posted s' m o
     = if bool_decide (m = mpMarketID msg /\ o = from)
       then Some (NewPostedPrice m o (mpPrice msg) (mpExpiry msg)) else posted s m o.
Proof.
  intros Hok Hx. unfold PostPrice in Hx. apply obind_Ok in Hx as (from & Hfrom & Hx).
  apply obind_Ok in Hx as (a & Ho & Hx). apply obind_Ok in Hx as ([pp s1] & Hset & [= <-]).
  unfold GetOracle, GetOracles in Ho. destruct (List.find _ (pfMarkets s)) as [market|] eqn:Hm; [|done]. cbn [obind] in Ho.
  destruct (List.find _ (mkOracles market)) as [a'|] eqn:Ha; [|done].
  apply List.find_some in Hm as [Hm Em], Ha as [Ha Ea]. gobool. subst a'.
  apply list_elem_of_In in Hm. apply list_elem_of_In in Ha.
  exists from, market. pose proof (SetPrice_Ok _ _ _ _ _ _ _ _ Hset) as (Ht & _ & M & C & _).
  split_and!; try done; [by eapply SetPrice_raw_ok|]. intros m o.
  rewrite (SetPrice_posted _ _ _ _ _ _ _ _ m o Hset). by repeat case_bool_decide; destruct_and?; subst.
Qed.

(** Exporting a store and importing it into an empty one keeps the markets and exactly
    the unexpired prices of the listed markets, and gives every active market the
    current price that the end blocker of the exported store would give it. *)
Theorem prices_export_import ctx s : workable s -> Markets_Validate (pfMarkets s) = Ok tt ->
  (forall m, m ∈ pfMarkets s -> short (mkMarketID m)) ->
  exists gs s1 s2, ExportGenesis s = Ok gs /\ EndBlocker ctx s = Ok s1 /\ InitGenesis ctx gs empty_store = Ok s2
  /\ pfMarkets s2 = pfMarkets s
  /\ (forall m o, listed s m -> posted s2 m o = live ctx s m o)
  /\ (forall m, m ∈ pfMarkets s -> mkActive m = true ->
        GetCurrentPrice s2 (mkMarketID m) = GetCurrentPrice s1 (mkMarketID m)).
Proof.
  intros (Hok & Hfit & Hsh') Hv Hsh. destruct (end_blocker_ok ctx s) as [s1 H1]; [done|].
  destruct (export_spec s Hok Hsh) as (l & Hex & Hin).
  destruct (import_spec ctx s l (pfMarkets s) Hok Hin) as (t & Ht & Hok' & M & C & P & R).
  destruct (init_markets ctx (pfMarkets s) t) as (s2 & H2 & M2 & R2 & _ & P2); [done| | | | |].
  { intros k1 p1 k2 p2 [? _]%R [? _]%R. by eapply Hfit. }
  { by intros k pp [_ ?]%R. }
  { by apply markets_unique. }
  { intros m Hm. rewrite M, C. split_and!; [done|by apply Hsh|done]. }
  eexists _, s1, s2. split_and!; [exact Hex|done| |congruence| |].
  - unfold InitGenesis, SetParams. simpl. rewrite Hv. simpl. rewrite Ht. simpl. by rewrite M.
  - intros m o Hm. rewrite <- P by done. unfold posted. by rewrite R2.
  - intros m Hm Ha. apply end_markets in H1 as (_ & _ & P1 & _); [|by apply markets_unique|auto].
    apply (priced_same ctx t s (mkMarketID m)); [done|done|by apply Hsh| |by apply P2|by apply P1].
    intros o. rewrite <- (P (mkMarketID m) o) by (by apply list_elem_of_fmap_2).
    unfold live at 1. destruct (posted t (mkMarketID m) o) as [pp|] eqn:Hp; [|done].
    apply posted_raw in Hp as (k & _ & [_ Hk]%R). by rewrite (proj2 (Z.ltb_lt _ _) Hk).
Qed.

Lemma median_overflow a b : ~ dec_fits (cpPrice a + cpPrice b) -> exists w, CalculateMedianPrice [a; b] = Panic w.
Proof.
  intros Hge. unfold CalculateMedianPrice. change (length [a; b]) with 2%nat. cbn [Nat.eqb].
  change (2 mod 2 =? 0)%nat with true. change (2 / 2)%nat with 1%nat. cbn [Nat.sub].
  pose proof (sort_prices_Permutation [a; b]) as E. pose proof (Permutation_length E) as El.
  destruct (sort_prices [a; b]) as [|x [|y [|??]]]; try done.
  unfold price_at. cbn [lookup list_lookup obind]. unfold calculateMeanPrice.
  destruct (Dec_Add_overflow (cpPrice x) (cpPrice y)) as [w Hw]; [|rewrite Hw; simpl; eauto].
  apply (Permutation_map cpPrice) in E. simpl in E.
  apply Permutation_length_2 in E as [[-> ->]|[-> ->]]; [done|by rewrite Z.add_comm].
Qed.

(** C34: markets that pass the validation can still make every block end in a panic: an
    active one whose name has more than 255 bytes, or one with two unexpired prices whose
    sum does not fit a decimal. *)
Theorem end_block_halts ctx s m : Markets_Validate (pfMarkets s) = Ok tt -> m ∈ pfMarkets s -> mkActive m = true ->
  ~ short (mkMarketID m)
  \/ (exists l a b, GetRawPrices s (mkMarketID m) = Ok l /\ not_expired ctx l = [a; b]
                   /\ ~ dec_fits (cpPrice a + cpPrice b)) ->
  forall s', EndBlocker ctx s <> Ok s'.
Proof.
  intros Hv%markets_unique Hm Ha Hbad s' Hx. apply end_markets in Hx as (_ & _ & P & _); [|done|auto].
  destruct (P m Hm Ha) as (l & Hl & H). destruct Hbad as [Hlong|(l' & a & b & Hl' & En & Hge)].
  - destruct (GetRawPrices_long s _ Hlong) as [w Hw]. congruence.
  - rewrite Hl in Hl'. injection Hl' as <-. rewrite En in H. destruct H as (med & Hmed & _).
    destruct (median_overflow a b Hge) as [w Hw]. congruence.
Qed.
End Store.
