(* ===== verification/PricefeedWitness.v ===== *)
(** * x/pricefeed: the theorems at work on a concrete store

    Two markets, one of them inactive; three oracles of which one posts an absurd price
    and one an expired price. *)

From S2P Require Import Prelude Sdk SdkDec SdkModel GoStd Pricefeed PricefeedTheorems.

Module PriceChain.
#[export] Existing Instances SdkModel.model SdkModel.laws SdkModel.bech32_laws DecModel.dec DecModel.dec_laws.
#[export] Instance strings : GoStrings := {| ToLower := id; TrimSpace := id |}.

Definition price_le (a b : CurrentPrice) : Prop := cpPrice a <= cpPrice b.
#[export] Instance price_le_dec : RelDecision price_le.
Proof. unfold price_le. intros a b. apply _. Defined.
#[export] Instance price_le_trans : Transitive price_le.
Proof. unfold price_le. intros a b c. lia. Qed.
#[export] Instance price_le_total : Total price_le.
Proof. unfold price_le. intros a b. lia. Qed.

#[export] Instance prices : PriceConfig := {| sort_prices := merge_sort price_le |}.
#[export] Instance price_laws : PriceLaws.
Proof. split; intros l; [apply merge_sort_Permutation|apply (StronglySorted_merge_sort price_le)]. Qed.

Definition alice : AccAddress := [65].
Definition bob : AccAddress := [66].
Definition mallory : AccAddress := [77].
Definition late : AccAddress := [76].
Definition bnb : Market := NewMarket "bnb:usd" "bnb" "usd" [alice; bob; mallory; late] true.
Definition old : Market := NewMarket "old:usd" "old" "usd" [alice] false.
Definition block : Ctx := mkCtx 7 1000.
Definition run (o : outcome PfState) : PfState := match o with Ok s => s | _ => empty_store end.
Definition post (o : AccAddress) (price expiry : Z) (s : PfState) : PfState :=
  run (PostPrice (mkCtx 6 500) (NewMsgPostPrice (AccAddress_String o) "bnb:usd" price expiry) s).
Definition genesis : PfState := mkPf [bnb; old] ∅ {["old:usd" := NewCurrentPrice "old:usd" 9]}.
Definition start : PfState :=
  post late 1 900 (post mallory (10 ^ 60) 5000 (post bob (301 * 10 ^ 18) 5000 (post alice (300 * 10 ^ 18) 5000 genesis))).
Definition ended : PfState := run (EndBlocker block start).

Example ended_price : GetCurrentPrice ended "bnb:usd" = Ok (NewCurrentPrice "bnb:usd" (301 * 10 ^ 18)).
Proof. vm_compute. reflexivity. Qed.

(** The store after the posts, by its entries. *)
Lemma start_entries k pp : pfRawPrices start !! k = Some pp ->
  (k, pp) ∈ map_to_list (pfRawPrices start).
Proof. apply elem_of_map_to_list. Qed.

Lemma start_all (P : bytes -> PostedPrice -> Prop) :
  Forall (fun kv => P kv.1 kv.2) (map_to_list (pfRawPrices start)) ->
  forall k pp, pfRawPrices start !! k = Some pp -> P k pp.
Proof. intros H k pp Hk%start_entries. by apply (proj1 (Forall_forall _ _) H (k, pp)). Qed.

Lemma start_raw_ok : raw_ok start.
Proof.
  intros k pp. apply (start_all (fun k pp => RawPriceKey (ppMarketID pp) (ppOracleAddress pp) = Ok k)).
  vm_compute. repeat constructor.
Qed.

Lemma start_markets m : m ∈ pfMarkets start -> short (mkMarketID m).
Proof.
  assert (pfMarkets start = [bnb; old]) as -> by reflexivity.
  intros [->|[->|?%elem_of_nil]%elem_of_cons]%elem_of_cons; [vm_compute; lia..|done].
Qed.

Lemma start_fits : prices_fit start.
Proof.
  assert (forall k pp, pfRawPrices start !! k = Some pp -> 0 <= ppPrice pp <= 10 ^ 60) as H.
  { apply (start_all (fun _ pp => 0 <= ppPrice pp <= 10 ^ 60)).
    apply Forall_forall. intros kv Hkv.
    assert (forallb (fun kv => (0 <=? ppPrice kv.2) && (ppPrice kv.2 <=? 10 ^ 60)) (map_to_list (pfRawPrices start)) = true) as Hb
      by (vm_compute; reflexivity).
    rewrite forallb_forall in Hb. apply list_elem_of_In in Hkv. specialize (Hb kv Hkv). gobool. lia. }
  intros k1 p1 k2 p2 H1%H H2%H. assert (10 ^ 60 + 10 ^ 60 < 2 ^ 315) by (vm_compute; reflexivity). unfold dec_fits. lia.
Qed.

Lemma start_workable : workable start.
Proof. split_and!; [apply start_raw_ok|apply start_fits|intros m Hm _; by apply start_markets]. Qed.

Lemma end_block_prices_witness :
  exists s', EndBlocker block start = Ok s' /\ pfMarkets s' = pfMarkets start /\ pfRawPrices s' = pfRawPrices start
  /\ (forall m, m ∈ pfMarkets start -> mkActive m = true -> priced block start (mkMarketID m) s')
  /\ (forall id, (forall m, m ∈ pfMarkets start -> mkActive m = true -> mkMarketID m <> id) ->
        pfCurrentPrices s' !! id = pfCurrentPrices start !! id).
Proof. apply (end_block_prices block start); [exact start_workable|vm_compute; reflexivity]. Defined.

Lemma majority_price_witness :
  exists p, GetCurrentPrice ended "bnb:usd" = Ok p /\ cpMarketID p = "bnb:usd"
  /\ 300 * 10 ^ 18 <= cpPrice p <= 301 * 10 ^ 18.
Proof.
  assert (exists l, GetRawPrices start "bnb:usd" = Ok l
    /\ (length (not_expired block l) < 2 * within (300 * 10 ^ 18) (301 * 10 ^ 18) (not_expired block l))%nat) as (l & Hl & Hm).
  { eexists. split; [vm_compute; reflexivity|]. vm_compute. lia. }
  apply (majority_price block start ended bnb l (300 * 10 ^ 18) (301 * 10 ^ 18)).
  - vm_compute. reflexivity.
  - apply list_elem_of_In. left. reflexivity.
  - reflexivity.
  - lia.
  - exact Hl.
  - exact Hm.
  - vm_compute. reflexivity.
Defined.

Definition repost : MsgPostPrice := NewMsgPostPrice (AccAddress_String alice) "bnb:usd" 7 6000.
Definition reposted : PfState := run (PostPrice block repost start).

Lemma post_price_correct_witness :
  exists from market, AccAddressFromBech32 (mpFrom repost) = Ok from
  /\ market ∈ pfMarkets start /\ mkMarketID market = mpMarketID repost /\ from ∈ mkOracles market
  /\ BlockTime block < mpExpiry repost
  /\ raw_ok reposted /\ pfMarkets reposted = pfMarkets start /\ pfCurrentPrices reposted = pfCurrentPrices start
  /\ forall m o, posted reposted m o
     = if bool_decide (m = mpMarketID repost /\ o = from)
       then Some (NewPostedPrice m o (mpPrice repost) (mpExpiry repost)) else posted start m o.
Proof. apply (post_price_correct block repost start reposted); [exact start_raw_ok|vm_compute; reflexivity]. Defined.

Lemma prices_export_import_witness :
  exists gs s1 s2, ExportGenesis start = Ok gs /\ EndBlocker block start = Ok s1 /\ InitGenesis block gs empty_store = Ok s2
  /\ pfMarkets s2 = pfMarkets start
  /\ (forall m o, listed start m -> posted s2 m o = live block start m o)
  /\ (forall m, m ∈ pfMarkets start -> mkActive m = true ->
        GetCurrentPrice s2 (mkMarketID m) = GetCurrentPrice s1 (mkMarketID m)).
Proof.
  apply (prices_export_import block start); [exact start_workable|vm_compute; reflexivity|exact start_markets].
Defined.

(** A market name of 256 bytes is valid. *)
Fixpoint letters (n : nat) : string := match n with O => "" | S n => String (Ascii.ascii_of_nat 97) (letters n) end.
Definition wide : Market := NewMarket (letters 256) "bnb" "usd" [alice] true.
Definition halted : PfState := mkPf [wide] ∅ ∅.

Lemma end_block_halts_witness :
  Markets_Validate (pfMarkets halted) = Ok tt /\ forall s', EndBlocker block halted <> Ok s'.
Proof.
  split; [vm_compute; reflexivity|]. apply (end_block_halts block halted wide).
  - vm_compute. reflexivity.
  - apply list_elem_of_In. left. reflexivity.
  - reflexivity.
  - left. unfold short. vm_compute. lia.
Defined.
End PriceChain.
