(* ===== verification/CommitteePerm.v ===== *)
(** * x/committee: permissions

    [types/permissions.go].  A committee may enact a proposal when one of its
    permissions allows it.  A permission for parameter changes lists the parameters
    that may change and, for parameters that are JSON objects or arrays of objects,
    which attributes of them.

    The decoder of JSON is an argument of the model; decoded values are modelled, since
    they are what the permissions compare. *)

From S2P Require Import Prelude Sdk.

(** ** Decoded JSON

    What [json.Unmarshal] stores in an [interface{}].  A number is a finite float64 in
    units of 2^-1074; the fields of an object are in key order, without duplicates. *)
Inductive Json : Type :=
| JNull
| JBool (b : bool)
| JNumber (n : Z)
| JString (s : string)
| JArray (l : list Json)
| JObject (l : list (string * Json)).

(** [reflect.DeepEqual] *)
Fixpoint DeepEqual (a b : Json) {struct a} : bool :=
  match a, b with
  | JNull, JNull => true
  | JBool x, JBool y => Bool.eqb x y
  | JNumber x, JNumber y => x =? y
  | JString x, JString y => bool_decide (x = y)
  | JArray x, JArray y =>
      (fix go (x y : list Json) : bool :=
         match x, y with
         | [], [] => true
         | a :: x, b :: y => DeepEqual a b && go x y
         | _, _ => false
         end) x y
  | JObject x, JObject y =>
      (fix go (x y : list (string * Json)) : bool :=
         match x, y with
         | [], [] => true
         | (k, a) :: x, (j, b) :: y => bool_decide (k = j) && DeepEqual a b && go x y
         | _, _ => false
         end) x y
  | _, _ => false
  end.

Lemma DeepEqual_iff : forall a b, DeepEqual a b = true <-> a = b.
Proof.
  fix IH 1. intros [|x|x|x|l|l] [|y|y|y|m|m]; cbn [DeepEqual]; try (split; congruence).
  - rewrite Bool.eqb_true_iff. split; congruence.
  - rewrite Z.eqb_eq. split; congruence.
  - rewrite bool_decide_eq_true. split; congruence.
  - revert m. induction l as [|a l IHl]; intros [|b m]; try (split; congruence).
    rewrite andb_true_iff, IH, IHl. split; [intros [-> [= ->]]|intros [= -> ->]]; done.
  - revert m. induction l as [|[k a] l IHl]; intros [|[j b] m]; try (split; congruence).
    rewrite !andb_true_iff, bool_decide_eq_true, IH, IHl.
    split; [intros [[-> ->] [= ->]]|intros [= -> -> ->]]; done.
Qed.

(** ** The data *)
Record SubparamRequirement : Type := mkReq {
  rqKey : string; rqVal : string; AllowedSubparamAttrChanges : list string }.
Record AllowedParamsChange : Type := mkAllowed {
  apSubspace : string;
  apKey : string;
  SingleSubparamAllowedAttrs : list string;
  MultiSubparamsRequirements : list SubparamRequirement
}.
Inductive Permission : Type :=
| GodPermission
| TextPermission
| SoftwareUpgradePermission
| ParamsChangePermission (AllowedParamsChanges : list AllowedParamsChange).

Record ParamChange : Type := mkParamChange { chSubspace : string; chKey : string; chValue : string }.

(** The decoder, and the parameter keeper: the raw value of a parameter of a
    subspace, if the subspace exists. *)
Abbreviation SubparamChanges := (gmap string Json).
Class JsonDecoder : Type := {
  Unmarshal_object : string -> option SubparamChanges;
  Unmarshal_array : string -> option (list SubparamChanges)
}.
Class ParamKeeper (W : Type) : Type := { GetSubspace : W -> string -> option (string -> string) }.

(** [m[k]]: nil when there is no such key *)
Definition attr (m : SubparamChanges) (k : string) : Json := default JNull (m !! k).

(** ** The rules *)
Definition validateParamChangesAreAllowed (current incoming : SubparamChanges) (allowList : list string) : bool :=
  if negb (Nat.eqb (size current) (size incoming)) then false else
  forallb (fun kv => let isAllowed := existsb (fun allowedKey => bool_decide (kv.1 = allowedKey)) allowList in
             isAllowed || DeepEqual kv.2 (attr incoming kv.1)) (map_to_list current).

Definition record_is (r : SubparamChanges) (v : SubparamRequirement) : bool :=
  DeepEqual (attr r (rqKey v)) (JString (rqVal v)).

Definition allows_record (allowed : AllowedParamsChange) (incomingRecords : list SubparamChanges)
    (current : SubparamChanges) : bool :=
  match List.find (fun v => record_is current v) (MultiSubparamsRequirements allowed) with
  | None => false
  | Some req =>
      match List.find (fun v => record_is v req) incomingRecords with
      | None => false
      | Some incoming => validateParamChangesAreAllowed current incoming (AllowedSubparamAttrChanges req)
      end
  end.
Definition allowsMultiParamsChange (allowed : AllowedParamsChange) (currentRecords incomingRecords : list SubparamChanges)
    : bool :=
  if negb (Nat.eqb (length currentRecords) (length incomingRecords)) then false else
  forallb (allows_record allowed incomingRecords) currentRecords.

Definition allowsSingleParamsChange (allowed : AllowedParamsChange) (current incoming : SubparamChanges) : bool :=
  validateParamChangesAreAllowed current incoming (SingleSubparamAllowedAttrs allowed).

(** [strings.TrimLeft(s, "\t\r\n")] *)
Fixpoint TrimLeft (s : string) : string :=
  match s with
  | String c s' =>
      let n := Ascii.nat_of_ascii c in
      if (Nat.eqb n 9 || Nat.eqb n 13 || Nat.eqb n 10)%bool then TrimLeft s' else s
  | EmptyString => EmptyString
  end.
Definition is_array (raw : string) : bool :=
  match TrimLeft raw with String c _ => Nat.eqb (Ascii.nat_of_ascii c) 91 | EmptyString => false end.

Section Permissions.
  Context {W : Type} {dec : JsonDecoder} {pk : ParamKeeper W}.

Definition allowsParamChange (allowed : AllowedParamsChange) (paramsChange : ParamChange) (w : W) : outcome bool :=
  if bool_decide (apSubspace allowed <> chSubspace paramsChange) && bool_decide (apKey allowed <> chKey paramsChange)
  then Ok false else
  if Nat.eqb (length (SingleSubparamAllowedAttrs allowed)) 0 && Nat.eqb (length (MultiSubparamsRequirements allowed)) 0
  then Ok true else
  match GetSubspace w (chSubspace paramsChange) with
  | None => Ok false
  | Some subspace =>
      let currentRaw := subspace (chKey paramsChange) in
      if is_array currentRaw then
        match Unmarshal_array (chValue paramsChange) with
        | None => Ok false
        | Some changeValue =>
            match Unmarshal_array currentRaw with
            | None => Panic "json"
            | Some currentValue => Ok (allowsMultiParamsChange allowed currentValue changeValue)
            end
        end
      else
        match Unmarshal_object (chValue paramsChange) with
        | None => Ok false
        | Some changeValue =>
            match Unmarshal_object currentRaw with
            | None => Panic "json"
            | Some currentValue => Ok (allowsSingleParamsChange allowed currentValue changeValue)
            end
        end
  end.

Definition filterByParamChange (changes : list AllowedParamsChange) (paramChange : ParamChange) : list AllowedParamsChange :=
  filter (fun p => chSubspace paramChange = apSubspace p /\ chKey paramChange = apKey p) changes.

(** Is there a rule that allows the change?  The loop stops at the first. *)
Fixpoint any_allows (rules : list AllowedParamsChange) (change : ParamChange) (w : W) : outcome bool :=
  match rules with
  | [] => Ok false
  | pc :: rules =>
      let! b := allowsParamChange pc change w in
      if b then Ok true else any_allows rules change w
  end.
Fixpoint all_allowed (perm : list AllowedParamsChange) (changes : list ParamChange) (w : W) : outcome bool :=
  match changes with
  | [] => Ok true
  | change :: changes =>
      let! allowed := any_allows (filterByParamChange perm change) change w in
      if negb allowed then Ok false else all_allowed perm changes w
  end.
End Permissions.

(** ** The maintenance of the rules: [Get], [Set], [Delete] *)
Definition matches (subspace key : string) (apc : AllowedParamsChange) : bool :=
  bool_decide (apSubspace apc = subspace) && bool_decide (apKey apc = key).
Definition AllowedParamsChanges_Get (changes : list AllowedParamsChange) (subspace key : string)
    : option AllowedParamsChange := List.find (matches subspace key) changes.
Fixpoint AllowedParamsChanges_Set (newChange : AllowedParamsChange) (changes : list AllowedParamsChange)
    : list AllowedParamsChange :=
  match changes with
  | [] => [newChange]
  | apc :: changes =>
      if matches (apSubspace newChange) (apKey newChange) apc then newChange :: changes
      else apc :: AllowedParamsChanges_Set newChange changes
  end.
Fixpoint AllowedParamsChanges_Delete (subspace key : string) (changes : list AllowedParamsChange)
    : list AllowedParamsChange :=
  match changes with
  | [] => []
  | apc :: changes =>
      if matches subspace key apc then changes else apc :: AllowedParamsChanges_Delete subspace key changes
  end.

(** ** What the rules allow *)

(** Outside of the allowed attributes the new object has the values of the old one. *)
Definition changes_only (allowList : list string) (current incoming : SubparamChanges) : Prop :=
  size current = size incoming
  /\ forall k v, current !! k = Some v -> k ∉ allowList -> attr incoming k = v.

Lemma allow_list_spec (k : string) allowList :
  existsb (fun allowedKey => bool_decide (k = allowedKey)) allowList = true <-> k ∈ allowList.
Proof.
  rewrite existsb_exists. setoid_rewrite bool_decide_eq_true. rewrite list_elem_of_In.
  split; [by intros (x & ? & ->)|eauto].
Qed.

Lemma validate_spec current incoming allowList :
  validateParamChangesAreAllowed current incoming allowList = true <-> changes_only allowList current incoming.
Proof.
  unfold validateParamChangesAreAllowed, changes_only.
  destruct (Nat.eqb_spec (size current) (size incoming)) as [E|E]; simpl; [|by split; [|intros []]].
  rewrite forallb_forall. split.
  - intros H. split; [done|]. intros k v Hk Hn. specialize (H (k, v)). simpl in H.
    rewrite orb_true_iff, allow_list_spec, DeepEqual_iff in H.
    destruct H as [?|<-]; [|done|done]. by apply list_elem_of_In, elem_of_map_to_list.
  - intros [_ H] [k v] Hkv%list_elem_of_In%elem_of_map_to_list. simpl.
    rewrite orb_true_iff, allow_list_spec, DeepEqual_iff.
    destruct (decide (k ∈ allowList)) as [?|Hn]; [by left|right]. symmetry. by apply H.
Qed.

Lemma record_is_spec r v : record_is r v = true <-> attr r (rqKey v) = JString (rqVal v).
Proof. apply DeepEqual_iff. Qed.

(** A record and its successor under a requirement. *)
Definition revises (req : SubparamRequirement) (current incoming : SubparamChanges) : Prop :=
  attr current (rqKey req) = JString (rqVal req) /\ attr incoming (rqKey req) = JString (rqVal req)
  /\ changes_only (AllowedSubparamAttrChanges req) current incoming.

Lemma allows_record_spec allowed incomingRecords current : allows_record allowed incomingRecords current = true ->
  exists req incoming, req ∈ MultiSubparamsRequirements allowed /\ incoming ∈ incomingRecords
  /\ revises req current incoming.
Proof.
  unfold allows_record. destruct (List.find _ (MultiSubparamsRequirements allowed)) as [req|] eqn:Hr; [|done].
  destruct (List.find _ incomingRecords) as [inc|] eqn:Hi; [|done]. intros Hv%validate_spec.
  apply List.find_some in Hr as [Hr Er%record_is_spec], Hi as [Hi Ei%record_is_spec].
  exists req, inc. rewrite !list_elem_of_In. done.
Qed.

Lemma allowsMulti_spec allowed cur inc : allowsMultiParamsChange allowed cur inc = true ->
  length cur = length inc
  /\ forall r, r ∈ cur -> exists req r', req ∈ MultiSubparamsRequirements allowed /\ r' ∈ inc /\ revises req r r'.
Proof.
  unfold allowsMultiParamsChange. destruct (Nat.eqb_spec (length cur) (length inc)) as [E|]; simpl; [|done].
  rewrite forallb_forall. intros H. split; [done|]. intros r Hr%list_elem_of_In. by apply allows_record_spec, H.
Qed.

(** With one identifying attribute whose values differ between the records, every new
    record is the successor of an old one. *)
Lemma records_covered allowed key cur inc :
  Forall (fun req => rqKey req = key) (MultiSubparamsRequirements allowed) ->
  NoDup ((fun r => attr r key) <$> cur) -> allowsMultiParamsChange allowed cur inc = true ->
  forall r', r' ∈ inc -> exists req r, req ∈ MultiSubparamsRequirements allowed /\ r ∈ cur /\ revises req r r'.
Proof.
  intros Hkey Hnd [Hlen Hrec]%allowsMulti_spec.
  assert (exists l, Forall2 (fun r r' => r' ∈ inc /\ exists req, req ∈ MultiSubparamsRequirements allowed /\ revises req r r')
            cur l) as [l Hl].
  { clear Hnd Hlen. induction cur as [|r cur IH]; [by exists []|].
    destruct (Hrec r) as (req & r' & ? & ? & ?); [left|]. destruct IH as [l Hl]; [intros; apply Hrec; by right|].
    exists (r' :: l). constructor; eauto. }
  assert ((fun r => attr r key) <$> l = (fun r => attr r key) <$> cur) as Hvals.
  { clear -Hl Hkey. induction Hl as [|r r' cur l (_ & req & Hreq & H1 & H2 & _) _ IH]; [done|]. simpl. f_equal; [|done].
    rewrite Forall_forall in Hkey. rewrite <- (Hkey req Hreq). congruence. }
  assert (NoDup l) as Hndl. { rewrite <- Hvals in Hnd. by eapply NoDup_fmap_1. }
  assert (l ≡ₚ inc) as Hperm.
  { apply submseteq_length_Permutation; [|rewrite <- (Forall2_length _ _ _ Hl); lia].
    apply NoDup_submseteq; [done|]. intros r' (i & Hi)%list_elem_of_lookup.
    by destruct (Forall2_lookup_r _ _ _ _ _ Hl Hi) as (r & _ & ? & _). }
  intros r'. rewrite <- Hperm. intros (i & Hi)%list_elem_of_lookup.
  destruct (Forall2_lookup_r _ _ _ _ _ Hl Hi) as (r & Hr & _ & req & Hreq & Hrev).
  exists req, r. split_and!; [done|by eapply list_elem_of_lookup_2|done].
Qed.

Section PermissionTheorems.
  Context {W : Type} {dec : JsonDecoder} {pk : ParamKeeper W}.

Lemma any_allows_spec rules change (w : W) : any_allows rules change w = Ok true ->
  exists rule, rule ∈ rules /\ allowsParamChange rule change w = Ok true.
Proof.
  induction rules as [|rule rules IH]; simpl; [done|]. intros (b & Hb & Hx)%obind_Ok.
  destruct b; [exists rule; split; [left|done]|]. destruct (IH Hx) as (r & ? & ?). exists r. split; [by right|done].
Qed.

Lemma all_allowed_spec perm changes (w : W) : all_allowed perm changes w = Ok true ->
  forall change, change ∈ changes -> exists rule, rule ∈ perm
  /\ apSubspace rule = chSubspace change /\ apKey rule = chKey change /\ allowsParamChange rule change w = Ok true.
Proof.
  induction changes as [|c changes IH]; intros Hx change Hc; [by apply elem_of_nil in Hc|].
  simpl in Hx. apply obind_Ok in Hx as (b & Hb & Hx). destruct b; [|done]. simpl in Hx.
  apply elem_of_cons in Hc as [->|Hc]; [|by apply IH].
  apply any_allows_spec in Hb as (rule & [[-> ->] Hin]%list_elem_of_filter & Hr). eauto.
Qed.

(** What the rule says of a change of the parameter. *)
Definition complies (rule : AllowedParamsChange) (change : ParamChange) (w : W) : Prop :=
  (SingleSubparamAllowedAttrs rule = [] /\ MultiSubparamsRequirements rule = [])
  \/ exists subspace, GetSubspace w (chSubspace change) = Some subspace
     /\ if is_array (subspace (chKey change))
        then exists cur inc, Unmarshal_array (subspace (chKey change)) = Some cur
             /\ Unmarshal_array (chValue change) = Some inc /\ length cur = length inc
             /\ (forall r, r ∈ cur -> exists req r', req ∈ MultiSubparamsRequirements rule /\ r' ∈ inc /\ revises req r r')
             /\ (forall key, Forall (fun req => rqKey req = key) (MultiSubparamsRequirements rule) ->
                   NoDup ((fun r => attr r key) <$> cur) -> forall r', r' ∈ inc ->
                   exists req r, req ∈ MultiSubparamsRequirements rule /\ r ∈ cur /\ revises req r r')
        else exists cur inc, Unmarshal_object (subspace (chKey change)) = Some cur
             /\ Unmarshal_object (chValue change) = Some inc /\ changes_only (SingleSubparamAllowedAttrs rule) cur inc.

Lemma allowsParamChange_complies rule change (w : W) :
  allowsParamChange rule change w = Ok true -> complies rule change w.
Proof.
  unfold allowsParamChange, complies. intros Hx. destruct (_ && _); [done|].
  destruct (Nat.eqb_spec (length (SingleSubparamAllowedAttrs rule)) 0) as [E1%nil_length_inv|];
    [destruct (Nat.eqb_spec (length (MultiSubparamsRequirements rule)) 0) as [E2%nil_length_inv|]; [by left|]|]; simpl in Hx.
  all: right; destruct (GetSubspace w _) as [subspace|]; [|done]; exists subspace; split; [done|].
  all: destruct (is_array _).
  all: try (destruct (Unmarshal_array (chValue change)) as [inc|]; [|done];
            destruct (Unmarshal_array (subspace _)) as [cur|]; [|done]; injection Hx as Hx; exists cur, inc;
            destruct (allowsMulti_spec _ _ _ Hx); split_and!; try done; intros; by eapply records_covered).
  all: destruct (Unmarshal_object (chValue change)) as [inc|]; [|done];
       destruct (Unmarshal_object (subspace _)) as [cur|]; [|done]; injection Hx as Hx; exists cur, inc;
       split_and!; try done; by apply validate_spec.
Qed.
End PermissionTheorems.

(** ** What slips through *)

Lemma size_replace (m : SubparamChanges) k v c x : m !! k = Some v -> m !! c = None ->
  size (<[c := x]> (delete k m)) = size m.
Proof.
  intros Hk Hc. assert (k <> c) by congruence. rewrite map_size_insert, lookup_delete_ne, Hc by done.
  rewrite map_size_delete, Hk. assert (size m <> 0%nat) by (apply map_size_non_empty_iff; intros ->; by rewrite lookup_empty in Hk). lia.
Qed.

(** C39: an allowed attribute can be removed and an attribute of any other name be added in
    its place, with any value, although the check is there so that no attributes are
    added or removed. *)
Theorem attribute_replaced (current : SubparamChanges) allowList k v c x :
  current !! k = Some v -> k ∈ allowList -> current !! c = None ->
  validateParamChangesAreAllowed current (<[c := x]> (delete k current)) allowList = true.
Proof.
  intros Hk Hin Hc. apply validate_spec. split; [by erewrite size_replace|].
  intros j w Hj Hn. unfold attr. assert (j <> k) by congruence. assert (j <> c) by congruence.
  by rewrite lookup_insert_ne, lookup_delete_ne, Hj by done.
Qed.

(** When two records of an array have the same identifying attribute, the second can be
    replaced by any record whatever: both are compared with the first new record. *)
Theorem record_replaced allowed req r1 r2 x : MultiSubparamsRequirements allowed = [req] ->
  attr r1 (rqKey req) = JString (rqVal req) -> attr r2 (rqKey req) = JString (rqVal req) ->
  changes_only (AllowedSubparamAttrChanges req) r2 r1 ->
  allowsMultiParamsChange allowed [r1; r2] [r1; x] = true.
Proof.
  intros Hreq H1%record_is_spec H2%record_is_spec Hc%validate_spec.
  assert (validateParamChangesAreAllowed r1 r1 (AllowedSubparamAttrChanges req) = true) as Hself.
  { apply validate_spec. split; [done|]. intros k v Hk _. unfold attr. by rewrite Hk. }
  unfold allowsMultiParamsChange, allows_record. rewrite Hreq. simpl. by rewrite H1, H2, H1, Hself, Hc.
Qed.
