(* ===== verification/Committee.v ===== *)
(** * x/committee: committees, proposals and votes

    [types/committee.go], [types/proposal.go], [types/msg.go], [types/keys.go],
    [types/genesis.go], [keeper/keeper.go], [keeper/proposal.go],
    [keeper/msg_server.go], [abci.go], [genesis.go], [proposal_handler.go].

    A committee is a list of members (one member, one vote) or the holders of a token
    (one token, one vote).  Proposals that pass are enacted at the beginning of a block
    by the handler that the committee router has for them; the handlers, the accounts,
    the balances and the parameters belong to other modules, whose state is [W].  The
    committee router has no handler for the proposals of this module ([app.go]), so its
    handlers change [W] only. *)

From S2P Require Import Prelude Sdk SdkDec CommitteePerm.

Definition CommitteeName : string := "committee".
Definition ErrUnknownCommittee : error := Registered CommitteeName 2.
Definition ErrInvalidCommittee : error := Registered CommitteeName 3.
Definition ErrUnknownProposal : error := Registered CommitteeName 4.
Definition ErrProposalExpired : error := Registered CommitteeName 5.
Definition ErrInvalidPubProposal : error := Registered CommitteeName 6.
Definition ErrInvalidGenesis : error := Registered CommitteeName 8.
Definition ErrNoProposalHandlerExists : error := Registered CommitteeName 9.
Definition ErrInvalidVoteType : error := Registered CommitteeName 11.
Definition ErrUnknownRequest : error := Registered "sdk" 6.

(** ** Data *)
(** [TallyOption] and [VoteType] are int32. *)
Definition TALLY_OPTION_FIRST_PAST_THE_POST : Z := 1.
Definition TALLY_OPTION_DEADLINE : Z := 2.
Definition VOTE_TYPE_YES : Z := 1.
Definition VOTE_TYPE_NO : Z := 2.
Definition VOTE_TYPE_ABSTAIN : Z := 3.

(** A permission that cannot be unpacked, and a decimal that is not set, are [None]. *)
Record BaseCommittee : Type := mkBase {
  coID : Z;
  coDescription : string;
  coMembers : list AccAddress;
  coPermissions : list (option Permission);
  coVoteThreshold : option Dec;
  coProposalDuration : Z;
  coTallyOption : Z
}.
Inductive Committee : Type :=
| Base (b : BaseCommittee)
| MemberCommittee (b : BaseCommittee)
| TokenCommittee (b : BaseCommittee) (Quorum : option Dec) (TallyDenom : string).
Definition base (c : Committee) : BaseCommittee :=
  match c with Base b | MemberCommittee b | TokenCommittee b _ _ => b end.

(** The contents of proposals; those of other modules with the data that this module
    does not read as one string. *)
Inductive PubProposal : Type :=
| TextProposal (body : string)
| SoftwareUpgradeProposal (body : string)
| ParameterChangeProposal (body : string) (Changes : list ParamChange)
| CommitteeChangeProposal (Title Description : string) (NewCommittee : option Committee)
| CommitteeDeleteProposal (Title Description : string) (CommitteeID : Z)
| OtherProposal (body : string).

Record Proposal : Type := mkProposal {
  prContent : option PubProposal;
  prID : Z;
  prCommitteeID : Z;
  prDeadline : Z
}.
Record Vote : Type := NewVote { vtProposalID : Z; vtVoter : AccAddress; vtVoteType : Z }.
#[export] Instance Vote_eq_dec : EqDecision Vote.
Proof. solve_decision. Defined.
Inductive ProposalOutcome : Type := Passed | Failed | Invalid.
Record QueryTallyResponse : Type := mkTally {
  taProposalID : Z; taYesVotes : Dec; taNoVotes : Dec; taCurrentVotes : Dec; taPossibleVotes : Dec;
  taVoteThreshold : option Dec; taQuorum : option Dec }.
(** The event of a closed proposal. *)
Record ProposalClose : Type := mkClose {
  evCommitteeID : Z; evProposalID : Z; evTally : option QueryTallyResponse; evOutcome : ProposalOutcome }.

(** The store, and the events of the module. *)
Record State (W : Type) : Type := mkState {
  Committees : gmap bytes Committee;
  Proposals : gmap bytes Proposal;
  Votes : gmap bytes Vote;
  NextProposalID : option Z;
  Closed : list ProposalClose;
  World : W
}.
Arguments mkState {W}.
Arguments Committees {W}.
Arguments Proposals {W}.
Arguments Votes {W}.
Arguments NextProposalID {W}.
Arguments Closed {W}.
Arguments World {W}.

(** The rest of the chain. *)
Class ChainEnv (W : Type) : Type := {
  (** the address of the account, if there is one *)
  GetAccount : W -> AccAddress -> option AccAddress;
  GetBalance : W -> AccAddress -> string -> Z;
  GetSupply : W -> string -> Z;
  (** [ValidateBasic] and [ProposalRoute] of the contents of other modules, and the
      check of title and description that all contents share *)
  content_ValidateBasic : PubProposal -> outcome unit;
  content_Route : PubProposal -> string;
  ValidateAbstract : string -> string -> outcome unit;
  (** the handlers of the committee router *)
  GetRoute : string -> option (Ctx -> PubProposal -> W -> outcome W)
}.

(** ** types/keys.go *)
Definition GetKeyFromID (id : Z) : bytes := Uint64ToBigEndian id.
Definition GetVoteKey (proposalID : Z) (voter : AccAddress) : bytes := GetKeyFromID proposalID ++ voter.

Definition MaxCommitteeDescriptionLength : nat := 512.
Definition BondDenom : string := "neuron".

Section Committees.
  Context {W : Type} {cfg : SdkConfig} {dc : DecConfig} {jd : JsonDecoder} {pk : ParamKeeper W} {env : ChainEnv W}.
  Implicit Types s : State W.

(** ** types/committee.go *)
Definition HasMember (c : Committee) (addr : AccAddress) : bool :=
  existsb (fun m => bool_decide (m = addr)) (coMembers (base c)).

Fixpoint UnpackPermissions (l : list (option Permission)) : outcome (list Permission) :=
  match l with
  | [] => Ok []
  | None :: _ => Err (Plain "expected base committee permission")
  | Some p :: l => let! ps := UnpackPermissions l in Ok (p :: ps)
  end.
Definition GetPermissions (c : Committee) : outcome (list Permission) := must (UnpackPermissions (coPermissions (base c))).

Definition Allows (p : Permission) (w : W) (proposal : option PubProposal) : outcome bool :=
  match p, proposal with
  | GodPermission, _ => Ok true
  | TextPermission, Some (TextProposal _) => Ok true
  | SoftwareUpgradePermission, Some (SoftwareUpgradeProposal _) => Ok true
  | ParamsChangePermission perm, Some (ParameterChangeProposal _ changes) => all_allowed perm changes w
  | _, _ => Ok false
  end.
Fixpoint any_permission (ps : list Permission) (w : W) (proposal : option PubProposal) : outcome bool :=
  match ps with
  | [] => Ok false
  | p :: ps => let! b := Allows p w proposal in if b then Ok true else any_permission ps w proposal
  end.
Definition HasPermissionsFor (c : Committee) (w : W) (proposal : option PubProposal) : outcome bool :=
  let! ps := GetPermissions c in any_permission ps w proposal.

Fixpoint validate_members (addressMap : gset string) (members : list AccAddress) : outcome unit :=
  match members with
  | [] => Ok tt
  | m :: members =>
      if bool_decide (AccAddress_String m ∈ addressMap) then Err (Plain "committee cannot have duplicate members") else
      if Nat.eqb (length m) 0 then Err (Plain "committee cannot have empty member address") else
      validate_members ({[AccAddress_String m]} ∪ addressMap) members
  end.
(** An unpacked permission is never nil. *)
Definition BaseCommittee_Validate (c : BaseCommittee) : outcome unit :=
  if Nat.ltb MaxCommitteeDescriptionLength (String.length (coDescription c)) then Err (Plain "description too long") else
  if Nat.eqb (length (coMembers c)) 0 then Err (Plain "committee must have members") else
  let! _ := validate_members ∅ (coMembers c) in
  let! _ := UnpackPermissions (coPermissions c) in
  if coProposalDuration c <? 0 then Err (Plain "invalid proposal duration") else
  match coVoteThreshold c with
  | None => Err (Plain "invalid threshold")
  | Some t =>
      if (t <=? 0) || (NewDec 1 <? t) then Err (Plain "invalid threshold") else
      if (coTallyOption c <=? 0) || (2 <? coTallyOption c) then Err (Plain "invalid tally option") else Ok tt
  end.
Definition TokenCommittee_Validate (b : BaseCommittee) (Quorum : option Dec) (TallyDenom : string) : outcome unit :=
  if bool_decide (TallyDenom = BondDenom) then Err (Plain "invalid tally denom") else
  if negb (ValidateDenom TallyDenom) then Err (Plain "invalid denom") else
  match Quorum with
  | None => Err (Plain "invalid quorum")
  | Some q => if (q <? 0) || (NewDec 1 <? q) then Err (Plain "invalid quorum") else BaseCommittee_Validate b
  end.
Definition Committee_Validate (c : Committee) : outcome unit :=
  match c with
  | Base b | MemberCommittee b => BaseCommittee_Validate b
  | TokenCommittee b q d => TokenCommittee_Validate b q d
  end.

Definition HasExpiredBy (p : Proposal) (time : Z) : bool := negb (time <? prDeadline p).

Definition VoteType_Validate (vt : Z) : outcome unit :=
  if (vt <=? 0) || (3 <? vt) then Err (Plain "invalid vote type") else Ok tt.
Definition Vote_Validate (v : Vote) : outcome unit :=
  if Nat.eqb (length (vtVoter v)) 0 then Err (Plain "voter address cannot be empty") else VoteType_Validate (vtVoteType v).

(** ** types/proposal.go *)
Definition CommitteeChangeProposal_ValidateBasic (title description : string) (newCommittee : option Committee) : outcome unit :=
  let! _ := ValidateAbstract title description in
  match newCommittee with
  | None => Err ErrInvalidCommittee
  | Some committee => match Committee_Validate committee with Err _ => Err ErrInvalidCommittee | o => o end
  end.
Definition PubProposal_ValidateBasic (p : PubProposal) : outcome unit :=
  match p with
  | CommitteeChangeProposal t d c => CommitteeChangeProposal_ValidateBasic t d c
  | CommitteeDeleteProposal t d _ => ValidateAbstract t d
  | _ => content_ValidateBasic p
  end.
Definition ProposalRoute (p : PubProposal) : string :=
  match p with
  | CommitteeChangeProposal _ _ _ | CommitteeDeleteProposal _ _ _ => CommitteeName
  | _ => content_Route p
  end.
Definition Proposal_ValidateBasic (p : Proposal) : outcome unit :=
  match prContent p with None => Ok tt | Some content => PubProposal_ValidateBasic content end.

(** ** keeper/keeper.go *)
Definition GetCommittee s (committeeID : Z) : option Committee := Committees s !! GetKeyFromID committeeID.
Definition SetCommittee (committee : Committee) s : State W :=
  mkState (<[GetKeyFromID (coID (base committee)) := committee]> (Committees s)) (Proposals s) (Votes s)
    (NextProposalID s) (Closed s) (World s).
Definition DeleteCommittee (committeeID : Z) s : State W :=
  mkState (delete (GetKeyFromID committeeID) (Committees s)) (Proposals s) (Votes s)
    (NextProposalID s) (Closed s) (World s).
Definition GetCommittees s : list Committee := (iterator (Committees s) None).*2.

Definition SetNextProposalID (id : Z) s : State W :=
  mkState (Committees s) (Proposals s) (Votes s) (Some id) (Closed s) (World s).
Definition GetNextProposalID s : outcome Z :=
  match NextProposalID s with None => Err ErrInvalidGenesis | Some id => Ok id end.
Definition IncrementNextProposalID s : outcome (State W) :=
  let! id := GetNextProposalID s in Ok (SetNextProposalID (u64 (id + 1)) s).

Definition SetProposal (proposal : Proposal) s : State W :=
  mkState (Committees s) (<[GetKeyFromID (prID proposal) := proposal]> (Proposals s)) (Votes s)
    (NextProposalID s) (Closed s) (World s).
Definition GetProposal s (proposalID : Z) : option Proposal := Proposals s !! GetKeyFromID proposalID.
Definition DeleteProposal (proposalID : Z) s : State W :=
  mkState (Committees s) (delete (GetKeyFromID proposalID) (Proposals s)) (Votes s)
    (NextProposalID s) (Closed s) (World s).
Definition GetProposals s : list Proposal := (iterator (Proposals s) None).*2.
Definition GetProposalsByCommittee s (committeeID : Z) : list Proposal :=
  filter (fun prop => prCommitteeID prop = committeeID) (GetProposals s).

Definition StoreNewProposal (pubProposal : option PubProposal) (committeeID deadline : Z) s : outcome (Z * State W) :=
  let! newProposalID := GetNextProposalID s in
  match pubProposal with
  | None => Err (Plain "does not implement proto.Message")
  | Some _ =>
      let s := SetProposal (mkProposal pubProposal newProposalID committeeID deadline) s in
      let! s := IncrementNextProposalID s in
      Ok (newProposalID, s)
  end.

Definition GetVote s (proposalID : Z) (voter : AccAddress) : option Vote := Votes s !! GetVoteKey proposalID voter.
Definition SetVote (vote : Vote) s : State W :=
  mkState (Committees s) (Proposals s) (<[GetVoteKey (vtProposalID vote) (vtVoter vote) := vote]> (Votes s))
    (NextProposalID s) (Closed s) (World s).
Definition DeleteVote (proposalID : Z) (voter : AccAddress) s : State W :=
  mkState (Committees s) (Proposals s) (delete (GetVoteKey proposalID voter) (Votes s))
    (NextProposalID s) (Closed s) (World s).
Definition GetVotes s : list Vote := (iterator (Votes s) None).*2.
Definition GetVotesByProposal s (proposalID : Z) : list Vote :=
  (prefix_iterator (Votes s) (GetKeyFromID proposalID)).*2.
Definition DeleteProposalAndVotes (proposalID : Z) s : State W :=
  let votes := GetVotesByProposal s proposalID in
  let s := DeleteProposal proposalID s in
  foldl (fun s v => DeleteVote (vtProposalID v) (vtVoter v) s) s votes.

(** ** keeper/proposal.go *)

(** The handler runs on a cached copy of the state, and its panics are errors. *)
Definition ValidatePubProposal (ctx : Ctx) (pubProposal : option PubProposal) s : outcome unit :=
  match pubProposal with
  | None => Err ErrInvalidPubProposal
  | Some p =>
      let! _ := PubProposal_ValidateBasic p in
      match GetRoute (ProposalRoute p) with
      | None => Err ErrNoProposalHandlerExists
      | Some handler =>
          match handler ctx p (World s) with
          | Ok _ => Ok tt
          | Err e => Err e
          | Panic _ => Err ErrInvalidPubProposal
          end
      end
  end.

Definition SubmitProposal (ctx : Ctx) (proposer : AccAddress) (committeeID : Z) (pubProposal : option PubProposal) s
    : outcome (Z * State W) :=
  match GetCommittee s committeeID with
  | None => Err ErrUnknownCommittee
  | Some com =>
      if negb (HasMember com proposer) then Err ErrUnauthorized else
      let! permitted := HasPermissionsFor com (World s) pubProposal in
      if negb permitted then Err ErrUnauthorized else
      let! _ := ValidatePubProposal ctx pubProposal s in
      let deadline := BlockTime ctx + coProposalDuration (base com) in
      StoreNewProposal pubProposal committeeID deadline s
  end.

Definition AddVote (ctx : Ctx) (proposalID : Z) (voter : AccAddress) (voteType : Z) s : outcome (State W) :=
  match GetProposal s proposalID with
  | None => Err ErrUnknownProposal
  | Some pr =>
      if HasExpiredBy pr (BlockTime ctx) then Err ErrProposalExpired else
      match GetCommittee s (prCommitteeID pr) with
      | None => Err ErrUnknownCommittee
      | Some com =>
          let! _ := match com with
                    | MemberCommittee _ =>
                        if negb (HasMember com voter) then Err ErrUnauthorized else
                        if negb (voteType =? VOTE_TYPE_YES) then Err ErrInvalidVoteType else Ok tt
                    | _ => Ok tt
                    end in
          Ok (SetVote (NewVote proposalID voter voteType) s)
      end
  end.

(** The operations on a decimal that is not set dereference nil. *)
Definition set_dec (d : option Dec) : outcome Dec :=
  match d with Some d => Ok d | None => Panic "nil pointer dereference" end.

Definition TallyMemberCommitteeVotes s (proposalID : Z) : Dec :=
  NewDec (Z.of_nat (length (GetVotesByProposal s proposalID))).
Definition GetMemberCommitteeProposalResult s (proposalID : Z) (committee : Committee) : outcome bool :=
  let currVotes := TallyMemberCommitteeVotes s proposalID in
  let possibleVotes := NewDec (Z.of_nat (length (coMembers (base committee)))) in
  let! threshold := set_dec (coVoteThreshold (base committee)) in
  let! needed := Dec_Mul threshold possibleVotes in
  Ok (needed <=? currVotes).

(** One vote: yes, no and total votes so far. *)
Definition tally_vote (w : W) (tallyDenom : string) (vote : Vote) (t : Dec * Dec * Dec) : outcome (Dec * Dec * Dec) :=
  let '(yesVotes, noVotes, totalVotes) := t in
  match GetAccount w (vtVoter vote) with
  | None => Panic "nil pointer dereference"
  | Some address =>
      let accNumCoins := GetBalance w address tallyDenom in
      let! totalVotes := Dec_Add totalVotes (NewDec accNumCoins) in
      if vtVoteType vote =? VOTE_TYPE_YES then
        let! yesVotes := Dec_Add yesVotes (NewDec accNumCoins) in Ok (yesVotes, noVotes, totalVotes)
      else if vtVoteType vote =? VOTE_TYPE_NO then
        let! noVotes := Dec_Add noVotes (NewDec accNumCoins) in Ok (yesVotes, noVotes, totalVotes)
      else Ok (yesVotes, noVotes, totalVotes)
  end.
Definition TallyTokenCommitteeVotes s (proposalID : Z) (tallyDenom : string) : outcome (Dec * Dec * Dec * Dec) :=
  let! '(yesVotes, noVotes, totalVotes) :=
    ofold (tally_vote (World s) tallyDenom) (GetVotesByProposal s proposalID) (0, 0, 0) in
  Ok (yesVotes, noVotes, totalVotes, NewDec (GetSupply (World s) tallyDenom)).
Definition GetTokenCommitteeProposalResult s (proposalID : Z) (b : BaseCommittee) (Quorum : option Dec) (TallyDenom : string)
    : outcome bool :=
  let! '(yesVotes, noVotes, totalVotes, possibleVotes) := TallyTokenCommitteeVotes s proposalID TallyDenom in
  let! quorum := set_dec Quorum in
  let! needed := Dec_Mul quorum possibleVotes in
  if needed <=? totalVotes then
    let! nonAbstainVotes := Dec_Add yesVotes noVotes in
    let! threshold := set_dec (coVoteThreshold b) in
    let! neededYes := Dec_Mul nonAbstainVotes threshold in
    Ok (neededYes <=? yesVotes)
  else Ok false.
Definition GetProposalResult s (proposalID : Z) (committee : Committee) : outcome bool :=
  match committee with
  | MemberCommittee _ => GetMemberCommitteeProposalResult s proposalID committee
  | TokenCommittee b q d => GetTokenCommitteeProposalResult s proposalID b q d
  | Base _ => Ok false
  end.

Definition set_world (w : W) s : State W :=
  mkState (Committees s) (Proposals s) (Votes s) (NextProposalID s) (Closed s) w.

Definition enactProposal (ctx : Ctx) (proposal : Proposal) s : outcome (State W) :=
  match GetCommittee s (prCommitteeID proposal) with
  | None => Err ErrUnknownCommittee
  | Some com =>
      let! permitted := HasPermissionsFor com (World s) (prContent proposal) in
      if negb permitted then Err ErrUnauthorized else
      let! _ := ValidatePubProposal ctx (prContent proposal) s in
      match prContent proposal with
      | None => Panic "nil pointer dereference"
      | Some content =>
          match GetRoute (ProposalRoute content) with
          | None => Panic "route does not exist"
          | Some handler =>
              match handler ctx content (World s) with
              | Ok w => Ok (set_world w s)
              | Err _ => Panic "unexpected handler error"
              | Panic x => Panic x
              end
          end
      end
  end.
Definition attemptEnactProposal (ctx : Ctx) (proposal : Proposal) s : outcome (ProposalOutcome * State W) :=
  match enactProposal ctx proposal s with
  | Ok s => Ok (Passed, s)
  | Err _ => Ok (Invalid, s)
  | Panic x => Panic x
  end.

Definition GetProposalTallyResponse s (proposalID : Z) : outcome (option QueryTallyResponse) :=
  match GetProposal s proposalID with
  | None => Ok None
  | Some proposal =>
      match GetCommittee s (prCommitteeID proposal) with
      | None => Ok None
      | Some (MemberCommittee b) =>
          let currVotes := TallyMemberCommitteeVotes s (prID proposal) in
          Ok (Some (mkTally (prID proposal) currVotes 0 currVotes (NewDec (Z.of_nat (length (coMembers b))))
                      (coVoteThreshold b) (Some 0)))
      | Some (TokenCommittee b q d) =>
          let! '(yesVotes, noVotes, currVotes, possibleVotes) := TallyTokenCommitteeVotes s (prID proposal) d in
          Ok (Some (mkTally (prID proposal) yesVotes noVotes currVotes possibleVotes (coVoteThreshold b) q))
      | Some (Base _) => Ok (Some (mkTally 0 0 0 0 0 None None))
      end
  end.

Definition emit (e : ProposalClose) s : State W :=
  mkState (Committees s) (Proposals s) (Votes s) (NextProposalID s) (Closed s ++ [e]) (World s).
Definition CloseProposal (proposal : Proposal) (o : ProposalOutcome) s : outcome (State W) :=
  let! tally := GetProposalTallyResponse s (prID proposal) in
  let s := DeleteProposalAndVotes (prID proposal) s in
  Ok (emit (mkClose (prCommitteeID proposal) (prID proposal) tally o) s).

(** The body of the loop of [ProcessProposals]. *)
Definition process_proposal (ctx : Ctx) (proposal : Proposal) s : outcome (State W) :=
  match GetCommittee s (prCommitteeID proposal) with
  | None => CloseProposal proposal Failed s
  | Some committee =>
      if negb (HasExpiredBy proposal (BlockTime ctx)) then
        if coTallyOption (base committee) =? TALLY_OPTION_FIRST_PAST_THE_POST then
          let! passed := GetProposalResult s (prID proposal) committee in
          if passed : bool then
            let! '(o, s) := attemptEnactProposal ctx proposal s in
            CloseProposal proposal o s
          else Ok s
        else Ok s
      else
        let! passed := GetProposalResult s (prID proposal) committee in
        let! '(o, s) := if passed : bool then attemptEnactProposal ctx proposal s else Ok (Failed, s) in
        CloseProposal proposal o s
  end.
Definition ProcessProposals (ctx : Ctx) s : outcome (State W) := ofold (process_proposal ctx) (GetProposals s) s.
Definition BeginBlocker (ctx : Ctx) s : outcome (State W) := ProcessProposals ctx s.

(** ** proposal_handler.go: the handler on the router of x/gov *)
Definition close_all (l : list Proposal) s : outcome (State W) := ofold (fun p => CloseProposal p Failed) l s.
Definition handleCommitteeChangeProposal (title description : string) (newCommittee : option Committee) s : outcome (State W) :=
  match CommitteeChangeProposal_ValidateBasic title description newCommittee with
  | Ok _ =>
      match newCommittee with
      | None => Panic "unexpected committee when unpacking"
      | Some committee =>
          let! s := close_all (GetProposalsByCommittee s (coID (base committee))) s in
          Ok (SetCommittee committee s)
      end
  | Err _ => Err ErrInvalidPubProposal
  | Panic x => Panic x
  end.
Definition handleCommitteeDeleteProposal (title description : string) (committeeID : Z) s : outcome (State W) :=
  match ValidateAbstract title description with
  | Ok _ =>
      let! s := close_all (GetProposalsByCommittee s committeeID) s in
      Ok (DeleteCommittee committeeID s)
  | Err _ => Err ErrInvalidPubProposal
  | Panic x => Panic x
  end.
Definition ProposalHandler (content : PubProposal) s : outcome (State W) :=
  match content with
  | CommitteeChangeProposal t d c => handleCommitteeChangeProposal t d c s
  | CommitteeDeleteProposal t d id => handleCommitteeDeleteProposal t d id s
  | _ => Err ErrUnknownRequest
  end.

(** ** types/msg.go, keeper/msg_server.go *)
Record MsgSubmitProposal : Type := mkMsgSubmit { msPubProposal : option PubProposal; msProposer : string; msCommitteeID : Z }.
Record MsgVote : Type := mkMsgVote { mvProposalID : Z; mvVoter : string; mvVoteType : Z }.

Definition MsgSubmitProposal_ValidateBasic (msg : MsgSubmitProposal) : outcome unit :=
  match msPubProposal msg with
  | None => Err ErrInvalidPubProposal
  | Some p => let! _ := AccAddressFromBech32 (msProposer msg) in PubProposal_ValidateBasic p
  end.
Definition MsgSubmitProposal_GetSigners (msg : MsgSubmitProposal) : list AccAddress :=
  [match AccAddressFromBech32 (msProposer msg) with Ok a => a | _ => [] end].
Definition MsgVote_ValidateBasic (msg : MsgVote) : outcome unit :=
  let! _ := AccAddressFromBech32 (mvVoter msg) in VoteType_Validate (mvVoteType msg).
Definition MsgVote_GetSigners (msg : MsgVote) : list AccAddress :=
  [match AccAddressFromBech32 (mvVoter msg) with Ok a => a | _ => [] end].

Definition msgServer_SubmitProposal (ctx : Ctx) (msg : MsgSubmitProposal) s : outcome (Z * State W) :=
  let! proposer := AccAddressFromBech32 (msProposer msg) in
  SubmitProposal ctx proposer (msCommitteeID msg) (msPubProposal msg) s.
Definition msgServer_Vote (ctx : Ctx) (msg : MsgVote) s : outcome (State W) :=
  let! voter := AccAddressFromBech32 (mvVoter msg) in
  AddVote ctx (mvProposalID msg) voter (mvVoteType msg) s.

(** ** types/genesis.go, genesis.go *)
Record GenesisState : Type := NewGenesisState {
  gsNextProposalID : Z;
  gsCommittees : list (option Committee);
  gsProposals : list Proposal;
  gsVotes : list Vote
}.
Fixpoint UnpackCommittees (l : list (option Committee)) : outcome (list Committee) :=
  match l with
  | [] => Ok []
  | None :: _ => Err (Plain "unexpected committee when unpacking")
  | Some c :: l => let! cs := UnpackCommittees l in Ok (c :: cs)
  end.
(** The loops of [Validate]; the sets are the keys of its maps. *)
Fixpoint validate_committees (committeeMap : gset Z) (cs : list Committee) : outcome (gset Z) :=
  match cs with
  | [] => Ok committeeMap
  | com :: cs =>
      if bool_decide (coID (base com) ∈ committeeMap) then Err (Plain "duplicate committee ID found in genesis state") else
      let! _ := Committee_Validate com in
      validate_committees ({[coID (base com)]} ∪ committeeMap) cs
  end.
Fixpoint validate_proposals (nextProposalID : Z) (committeeMap proposalMap : gset Z) (ps : list Proposal) : outcome (gset Z) :=
  match ps with
  | [] => Ok proposalMap
  | p :: ps =>
      if bool_decide (prID p ∈ proposalMap) then Err (Plain "duplicate proposal ID found in genesis state") else
      if nextProposalID <=? prID p then Err (Plain "NextProposalID is not greater than all proposal IDs") else
      if negb (bool_decide (prCommitteeID p ∈ committeeMap)) then Err (Plain "proposal refers to non existent committee") else
      match Proposal_ValidateBasic p with
      | Ok _ => validate_proposals nextProposalID committeeMap ({[prID p]} ∪ proposalMap) ps
      | Err _ => Err (Plain "proposal invalid")
      | Panic x => Panic x
      end
  end.
Fixpoint validate_votes (proposalMap : gset Z) (vs : list Vote) : outcome unit :=
  match vs with
  | [] => Ok tt
  | v :: vs =>
      let! _ := Vote_Validate v in
      if negb (bool_decide (vtProposalID v ∈ proposalMap)) then Err (Plain "vote refers to non existent proposal") else
      validate_votes proposalMap vs
  end.
Definition GenesisState_Validate (gs : GenesisState) : outcome unit :=
  let! committees := UnpackCommittees (gsCommittees gs) in
  let! committeeMap := validate_committees ∅ committees in
  let! proposalMap := validate_proposals (gsNextProposalID gs) committeeMap ∅ (gsProposals gs) in
  validate_votes proposalMap (gsVotes gs).

Definition InitGenesis (gs : GenesisState) s : outcome (State W) :=
  let! _ := must (GenesisState_Validate gs) in
  let s := SetNextProposalID (gsNextProposalID gs) s in
  let! committees := must (UnpackCommittees (gsCommittees gs)) in
  let s := foldl (fun s com => SetCommittee com s) s committees in
  let s := foldl (fun s p => SetProposal p s) s (gsProposals gs) in
  Ok (foldl (fun s v => SetVote v s) s (gsVotes gs)).
Definition ExportGenesis s : outcome GenesisState :=
  let! nextID := must (GetNextProposalID s) in
  Ok (NewGenesisState nextID (Some <$> GetCommittees s) (GetProposals s) (GetVotes s)).
End Committees.
