(* ===== verification/CommitteeTheorems.v ===== *)
(** * x/committee: proposals are enacted with support, and only then

    The store keeps committees, proposals and votes consistent; the votes that are
    counted for a committee of members are the votes of its members; a block settles
    every proposal as its votes, its deadline and its permissions say; export and
    import keep the store. *)

From S2P Require Import Prelude Sdk SdkDec CommitteePerm Committee.

(** ** Keys *)
Lemma GetKeyFromID_length id : length (GetKeyFromID id) = 8%nat.
Proof. reflexivity. Qed.

Lemma GetKeyFromID_inj a b : is_u64 a -> is_u64 b -> GetKeyFromID a = GetKeyFromID b -> a = b.
Proof. apply Uint64ToBigEndian_inj. Qed.

Lemma GetVoteKey_inj a v b w : is_u64 a -> is_u64 b -> GetVoteKey a v = GetVoteKey b w -> a = b /\ v = w.
Proof.
  unfold GetVoteKey. intros Ha Hb E. apply app_inj_1 in E as [E ->]; [|reflexivity].
  split; [by apply GetKeyFromID_inj|done].
Qed.

Lemma vote_prefix a b w : is_u64 a -> is_u64 b -> GetKeyFromID a `prefix_of` GetVoteKey b w <-> a = b.
Proof.
  intros Ha Hb. unfold GetVoteKey. split; [|intros ->; by eexists].
  intros [r E]. apply app_inj_1 in E as [E _]; [|reflexivity]. symmetry. by apply GetKeyFromID_inj.
Qed.

#[global] Opaque GetKeyFromID.

Section Store.
  Context {W : Type} {cfg : SdkConfig} {dc : DecConfig} {jd : JsonDecoder} {pk : ParamKeeper W} {env : ChainEnv W}.
  Implicit Types s : State W.

(** ** The invariant *)
Definition votes_keyed s : Prop := forall k v, Votes s !! k = Some v ->
  k = GetVoteKey (vtProposalID v) (vtVoter v) /\ is_u64 (vtProposalID v).

(** A vote that the committee accepts. *)
Definition acceptable (c : Committee) (v : Vote) : Prop :=
  match c with
  | MemberCommittee b => vtVoter v ∈ coMembers b /\ vtVoteType v = VOTE_TYPE_YES
  | _ => True
  end.

Record committee_ok s (k : bytes) (c : Committee) : Prop := {
  cok_key : k = GetKeyFromID (coID (base c));
  cok_u64 : is_u64 (coID (base c));
  cok_valid : Committee_Validate c = Ok tt
}.
Record proposal_ok s (k : bytes) (p : Proposal) : Prop := {
  pok_key : k = GetKeyFromID (prID p);
  pok_u64 : is_u64 (prID p) /\ is_u64 (prCommitteeID p);
  pok_committee : exists c, GetCommittee s (prCommitteeID p) = Some c;
  pok_content : exists content, prContent p = Some content /\ PubProposal_ValidateBasic content = Ok tt;
  pok_next : exists n, NextProposalID s = Some n /\ prID p < n
}.
Record vote_ok s (k : bytes) (v : Vote) : Prop := {
  vok_key : k = GetVoteKey (vtProposalID v) (vtVoter v);
  vok_u64 : is_u64 (vtProposalID v);
  vok_valid : Vote_Validate v = Ok tt;
  vok_proposal : exists p c, GetProposal s (vtProposalID v) = Some p
                 /\ GetCommittee s (prCommitteeID p) = Some c /\ acceptable c v
}.
Record inv s : Prop := {
  inv_committees : forall k c, Committees s !! k = Some c -> committee_ok s k c;
  inv_proposals : forall k p, Proposals s !! k = Some p -> proposal_ok s k p;
  inv_votes : forall k v, Votes s !! k = Some v -> vote_ok s k v;
  inv_next : exists n, NextProposalID s = Some n /\ is_u64 n
}.

Lemma inv_keyed s : inv s -> votes_keyed s.
Proof. intros Hi k v Hk. destruct (inv_votes s Hi k v Hk). done. Qed.

Lemma GetCommittee_ok s id c : inv s -> is_u64 id -> GetCommittee s id = Some c ->
  coID (base c) = id /\ Committee_Validate c = Ok tt.
Proof.
  intros Hi Hid Hc. destruct (inv_committees s Hi _ _ Hc) as [Ek Hu Hv]. split; [|done].
  symmetry. by apply GetKeyFromID_inj.
Qed.

Lemma GetProposal_ok s id p : inv s -> is_u64 id -> GetProposal s id = Some p -> prID p = id.
Proof. intros Hi Hid Hp. destruct (inv_proposals s Hi _ _ Hp) as [Ek [Hu _] _ _]. symmetry. by apply GetKeyFromID_inj. Qed.

(** ** The votes of a proposal *)
Lemma elem_of_votes s id v : votes_keyed s -> is_u64 id ->
  v ∈ GetVotesByProposal s id <-> vtProposalID v = id /\ GetVote s id (vtVoter v) = Some v.
Proof.
  intros Hk Hid. unfold GetVotesByProposal, GetVote. rewrite list_elem_of_fmap. split.
  - intros ([k v'] & -> & Hin). apply elem_of_prefix_iterator in Hin as [Hpre Hl]. simpl.
    destruct (Hk _ _ Hl) as [-> Hu]. apply vote_prefix in Hpre; [|done|done]. subst id. done.
  - intros [Hv Hl]. exists (GetVoteKey id (vtVoter v), v). split; [done|].
    apply elem_of_prefix_iterator. split; [|done]. by apply vote_prefix.
Qed.

Lemma voters_NoDup s id : votes_keyed s -> is_u64 id -> NoDup (vtVoter <$> GetVotesByProposal s id).
Proof.
  intros Hk Hid. unfold GetVotesByProposal.
  assert (forall k v, (k, v) ∈ prefix_iterator (Votes s) (GetKeyFromID id) -> k = GetVoteKey id (vtVoter v)) as Hin.
  { intros k v [Hpre Hl]%elem_of_prefix_iterator. destruct (Hk _ _ Hl) as [-> Hu].
    by apply vote_prefix in Hpre as ->. }
  apply (keyed_NoDup vtVoter (GetVoteKey id)); [apply prefix_iterator_NoDup|done].
Qed.

Lemma DeleteVotes_lookup (l : list Vote) s k :
  Votes (foldl (fun s v => DeleteVote (vtProposalID v) (vtVoter v) s) s l) !! k
  = if bool_decide (k ∈ (fun v => GetVoteKey (vtProposalID v) (vtVoter v)) <$> l) then None else Votes s !! k.
Proof.
  revert s. induction l as [|v l IH]; intros s; [done|]. simpl. rewrite IH. unfold DeleteVote; simpl.
  case_bool_decide as H1; case_bool_decide as H2; try done.
  - destruct H2. by right.
  - apply elem_of_cons in H2 as [->|]; [|done]. by rewrite lookup_delete_eq.
  - rewrite lookup_delete_ne; [done|]. intros <-. apply H2. left.
Qed.

Lemma DeleteVotes_frame (l : list Vote) s :
  let s' := foldl (fun s v => DeleteVote (vtProposalID v) (vtVoter v) s) s l in
  Committees s' = Committees s /\ Proposals s' = Proposals s /\ NextProposalID s' = NextProposalID s
  /\ Closed s' = Closed s /\ World s' = World s.
Proof. revert s. induction l as [|v l IH]; intros s; [done|]. simpl. apply (IH (DeleteVote (vtProposalID v) (vtVoter v) s)). Qed.

(** What closing a proposal does to the store. *)
Record closed_with (p : Proposal) (o : ProposalOutcome) s s' : Prop := {
  cw_committees : Committees s' = Committees s;
  cw_proposals : Proposals s' = delete (GetKeyFromID (prID p)) (Proposals s);
  cw_votes : forall k v, Votes s' !! k = Some v <-> Votes s !! k = Some v /\ vtProposalID v <> prID p;
  cw_next : NextProposalID s' = NextProposalID s;
  cw_closed : exists tally, Closed s' = Closed s ++ [mkClose (prCommitteeID p) (prID p) tally o];
  cw_world : World s' = World s
}.

Lemma CloseProposal_spec p o s s' : votes_keyed s -> is_u64 (prID p) ->
  CloseProposal p o s = Ok s' -> closed_with p o s s'.
Proof.
  intros Hk Hid (tally & _ & [= <-])%obind_Ok. unfold DeleteProposalAndVotes.
  set (l := GetVotesByProposal s (prID p)).
  pose proof (DeleteVotes_frame l (DeleteProposal (prID p) s)) as (F1 & F2 & F3 & F4 & F5).
  pose proof (DeleteVotes_lookup l (DeleteProposal (prID p) s)) as HL. revert F1 F2 F3 F4 F5 HL.
  generalize (foldl (fun s v => DeleteVote (vtProposalID v) (vtVoter v) s) (DeleteProposal (prID p) s) l).
  intros t F1 F2 F3 F4 F5 HL. split; simpl; [done|done| |done|rewrite F4; eauto|done].
  intros k v. rewrite HL. simpl. case_bool_decide as Hin.
  - split; [done|]. intros [Hv Hne]. exfalso. apply list_elem_of_fmap in Hin as (v' & -> & Hv').
    apply (elem_of_votes s (prID p) v' Hk Hid) in Hv' as [E Hl]. unfold GetVote in Hl. rewrite E in Hv. congruence.
  - split; [|by intros []]. intros Hv. split; [done|]. intros E. apply Hin.
    destruct (Hk _ _ Hv) as [-> Hu]. apply list_elem_of_fmap. exists v. split; [done|].
    apply elem_of_votes; [done|done|]. split; [done|]. unfold GetVote. by rewrite <- E.
Qed.

Lemma closed_with_keyed p o s s' : votes_keyed s -> closed_with p o s s' -> votes_keyed s'.
Proof. intros Hk [_ _ Hv _ _ _] k v [Hl _]%Hv. by apply Hk. Qed.

Lemma lookup_closed p o s s' id : is_u64 id -> is_u64 (prID p) -> closed_with p o s s' ->
  GetProposal s' id = if bool_decide (id = prID p) then None else GetProposal s id.
Proof.
  intros H1 H2 [_ Hp _ _ _ _]. unfold GetProposal. rewrite Hp. case_bool_decide as E.
  - subst. apply lookup_delete_eq.
  - apply lookup_delete_ne. intros E'. apply E. symmetry. by apply GetKeyFromID_inj.
Qed.

(** Closing keeps the invariant. *)
Lemma closed_with_inv p o s s' : inv s -> is_u64 (prID p) -> closed_with p o s s' -> inv s'.
Proof.
  intros Hi Hu Hc. pose proof (cw_committees _ _ _ _ Hc) as EC. pose proof (cw_next _ _ _ _ Hc) as EN.
  assert (forall id, GetCommittee s' id = GetCommittee s id) as EG by (intros; unfold GetCommittee; by rewrite EC).
  split.
  - intros k c Hk. rewrite EC in Hk. by destruct (inv_committees s Hi k c Hk).
  - intros k q Hk. rewrite (cw_proposals _ _ _ _ Hc) in Hk. apply lookup_delete_Some in Hk as [_ Hk].
    destruct (inv_proposals s Hi k q Hk). split; rewrite ?EG, ?EN; done.
  - intros k v [Hk Hne]%(cw_votes _ _ _ _ Hc). destruct (inv_votes s Hi k v Hk) as [? ? ? (q & c & Hq & Hcc & Ha)].
    split; try done. exists q, c. rewrite (lookup_closed p o s s'), bool_decide_eq_false_2 by done. by rewrite EG.
  - rewrite EN. apply (inv_next s Hi).
Qed.
End Store.

(** ** Counting votes *)

(** What the account keeper promises. *)
Class ChainLaws (W : Type) `{ChainEnv W} : Prop := {
  account_address (w : W) a b : GetAccount w a = Some b -> b = a;
  balance_nonneg (w : W) a d : 0 <= GetBalance w a d
}.

Section Tally.
  Context {W : Type} {cfg : SdkConfig} {dc : DecConfig} {dl : DecLaws} {jd : JsonDecoder} {pk : ParamKeeper W}
    {env : ChainEnv W} {laws : ChainLaws W}.
  Implicit Types s : State W.

(** The members of a committee that have voted for a proposal. *)
Definition yes_members s (id : Z) (b : BaseCommittee) : nat :=
  length (filter (fun m => GetVote s id m = Some (NewVote id m VOTE_TYPE_YES)) (coMembers b)).

(** The tokens behind the votes of one kind, and behind all votes. *)
Definition stake (w : W) (d : string) (l : list Vote) : Z := list_sum (fun v => GetBalance w (vtVoter v) d) l.
Definition votes_of (t : Z) (l : list Vote) : list Vote := filter (fun v => vtVoteType v = t) l.

(** The proposal has the support that the committee asks for. *)
Definition supported s (w : W) (id : Z) (c : Committee) : Prop :=
  match c with
  | MemberCommittee b =>
      exists t, coVoteThreshold b = Some t
      /\ t * Z.of_nat (length (coMembers b)) <= NewDec (Z.of_nat (yes_members s id b))
  | TokenCommittee b quorum d =>
      let votes := GetVotesByProposal s id in
      exists t q, coVoteThreshold b = Some t /\ quorum = Some q
      /\ q * GetSupply w d <= NewDec (stake w d votes)
      /\ t * (stake w d (votes_of VOTE_TYPE_YES votes) + stake w d (votes_of VOTE_TYPE_NO votes))
         <= NewDec (stake w d (votes_of VOTE_TYPE_YES votes))
  | Base _ => False
  end.

Lemma votes_same s s' id : votes_keyed s -> votes_keyed s' -> is_u64 id ->
  (forall a, GetVote s id a = GetVote s' id a) -> GetVotesByProposal s id ≡ₚ GetVotesByProposal s' id.
Proof.
  intros Hk Hk' Hid Hv. apply NoDup_Permutation.
  - eapply NoDup_fmap_1, voters_NoDup; done.
  - eapply NoDup_fmap_1, voters_NoDup; done.
  - intros v. rewrite !elem_of_votes by done. by rewrite Hv.
Qed.

Lemma supported_same s s' w id c : votes_keyed s -> votes_keyed s' -> is_u64 id ->
  (forall a, GetVote s id a = GetVote s' id a) -> supported s w id c <-> supported s' w id c.
Proof.
  intros Hk Hk' Hid Hv. destruct c as [b|b|b q d]; [done| |]; simpl.
  - unfold yes_members. rewrite (filter_ext_elem _ (fun m => GetVote s' id m = Some (NewVote id m VOTE_TYPE_YES))).
    + done.
    + intros m _. by rewrite Hv.
  - pose proof (votes_same s s' id Hk Hk' Hid Hv) as E. unfold stake, votes_of.
    setoid_rewrite (list_sum_Permutation _ _ _ E).
    setoid_rewrite (list_sum_Permutation _ _ _ (filter_Permutation _ _ _ E)). done.
Qed.

Lemma members_unique b : BaseCommittee_Validate b = Ok tt -> NoDup (coMembers b).
Proof.
  unfold BaseCommittee_Validate. intros Hx. destruct (Nat.ltb _ _); [done|]. destruct (Nat.eqb _ _); [done|].
  apply obind_Ok in Hx as ([] & Hcall & _). revert Hcall.
  assert (forall seen l, validate_members seen l = Ok tt ->
            NoDup l /\ forall m, m ∈ l -> AccAddress_String m ∉ seen) as H; [|intros Hm; by apply (H ∅)].
  intros seen l. revert seen. induction l as [|m l IH]; intros seen Hx.
  { split; [constructor|]. intros m Hm. by apply elem_of_nil in Hm. }
  simpl in Hx. go_inv Hx. gobool. apply IH in Hx as [Hnd Hs]. split.
  - constructor; [|done]. intros Hm. specialize (Hs m Hm). set_solver.
  - intros q [->|Hq]%elem_of_cons; [done|]. specialize (Hs q Hq). set_solver.
Qed.

(** The counted votes of a committee of members are the votes of its members. *)
Lemma member_votes s id p b : inv s -> is_u64 id -> GetProposal s id = Some p ->
  GetCommittee s (prCommitteeID p) = Some (MemberCommittee b) ->
  length (GetVotesByProposal s id) = yes_members s id b.
Proof.
  intros Hi Hid Hp Hc. pose proof (inv_keyed s Hi) as Hk.
  assert (BaseCommittee_Validate b = Ok tt) as Hb by apply (cok_valid _ _ _ (inv_committees s Hi _ _ Hc)).
  rewrite <- (length_fmap vtVoter). unfold yes_members. apply Permutation_length, NoDup_Permutation.
  - by apply voters_NoDup.
  - by apply NoDup_filter, members_unique.
  - intros a. rewrite list_elem_of_fmap, list_elem_of_filter. split.
    + intros (v & -> & Hv). apply elem_of_votes in Hv as [Ev Hv]; [|done|done].
      destruct (inv_votes s Hi _ _ Hv) as [_ _ _ (p' & c' & Hp' & Hc' & Ha)].
      rewrite Ev in Hp'. assert (p' = p) as -> by congruence. assert (c' = MemberCommittee b) as -> by congruence.
      destruct Ha as [Hm Ht]. split; [|done]. rewrite Hv. destruct v; simpl in *. by subst.
    + intros [Hv _]. exists (NewVote id a VOTE_TYPE_YES). split; [done|]. by apply elem_of_votes.
Qed.

Lemma stake_cons w d v l : stake w d (v :: l) = GetBalance w (vtVoter v) d + stake w d l.
Proof. reflexivity. Qed.

(** The tally of a committee of token holders. *)
Lemma tally_Ok w d l y n t r : ofold (tally_vote w d) l (y, n, t) = Ok r ->
  r = (y + NewDec (stake w d (votes_of VOTE_TYPE_YES l)), n + NewDec (stake w d (votes_of VOTE_TYPE_NO l)),
       t + NewDec (stake w d l)).
Proof.
  unfold NewDec. revert y n t. induction l as [|v l IH]; intros y n t Hx; simpl in Hx.
  { injection Hx as <-. unfold stake, votes_of; simpl. f_equal; [f_equal|]; lia. }
  apply obind_Ok in Hx as ([[y1 n1] t1] & Hv & Hx). apply IH in Hx as ->. clear IH.
  unfold tally_vote, NewDec in Hv. destruct (GetAccount w (vtVoter v)) as [a|] eqn:Ha; [|done].
  apply account_address in Ha as ->. apply obind_Ok in Hv as (t2 & Ht%Dec_Add_inv & Hv).
  unfold votes_of. destruct (Z.eqb_spec (vtVoteType v) VOTE_TYPE_YES) as [E|E].
  - apply obind_Ok in Hv as (y2 & Hy%Dec_Add_inv & [= -> -> ->]).
    rewrite filter_cons_True by done. rewrite filter_cons_False by (rewrite E; vm_compute; discriminate).
    rewrite !stake_cons. subst. f_equal; [f_equal|]; lia.
  - rewrite filter_cons_False by done. destruct (Z.eqb_spec (vtVoteType v) VOTE_TYPE_NO) as [E'|E'].
    + apply obind_Ok in Hv as (y2 & Hy%Dec_Add_inv & [= -> -> ->]). rewrite filter_cons_True by done.
      rewrite stake_cons, ?stake_cons. subst. f_equal; [f_equal|]; lia.
    + injection Hv as -> -> ->. rewrite filter_cons_False by done.
      rewrite stake_cons, ?stake_cons. subst. f_equal; lia.
Qed.

Lemma result_supported s p c r : inv s -> is_u64 (prID p) -> GetProposal s (prID p) = Some p ->
  GetCommittee s (prCommitteeID p) = Some c ->
  GetProposalResult s (prID p) c = Ok r -> r = true <-> supported s (World s) (prID p) c.
Proof.
  intros Hi Hid Hp Hc Hx. destruct c as [b|b|b q d]; simpl in Hx |- *.
  - injection Hx as <-. done.
  - unfold GetMemberCommitteeProposalResult, TallyMemberCommitteeVotes in Hx. simpl in Hx.
    rewrite (member_votes s (prID p) p b Hi Hid Hp Hc) in Hx.
    destruct (coVoteThreshold b) as [t|]; [|done]. simpl in Hx.
    apply obind_Ok in Hx as (needed & ->%Dec_Mul_whole_inv & [= <-]). rewrite Z.leb_le.
    split; [eauto|]. by intros (t' & [= <-] & ?).
  - unfold GetTokenCommitteeProposalResult, TallyTokenCommitteeVotes in Hx.
    apply obind_Ok in Hx as ([[[y n] t] sup] & Ht & Hx).
    apply obind_Ok in Ht as ([[y' n'] t'] & Hf & [= <- <- <- <-]). apply tally_Ok in Hf as [= -> -> ->].
    set (l := GetVotesByProposal s (prID p)) in *. rewrite !Z.add_0_l in Hx.
    destruct q as [q|]; [|done]. cbn [set_dec obind] in Hx.
    apply obind_Ok in Hx as (needed & ->%Dec_Mul_whole_inv & Hx).
    destruct (Z.leb_spec (q * GetSupply (World s) d) (NewDec (stake (World s) d l))) as [Hq|Hq].
    2: { injection Hx as <-. split; [done|]. intros (? & ? & _ & [= <-] & ? & _). lia. }
    apply obind_Ok in Hx as (na & ->%Dec_Add_inv & Hx).
    destruct (coVoteThreshold b) as [th|]; [|done]. cbn [set_dec obind] in Hx.
    unfold NewDec in Hx. rewrite <- Z.mul_add_distr_r in Hx. fold (NewDec (stake (World s) d (votes_of VOTE_TYPE_YES l) + stake (World s) d (votes_of VOTE_TYPE_NO l))) in Hx.
    apply obind_Ok in Hx as (ny & ->%Dec_whole_Mul_inv & [= <-]). rewrite Z.leb_le.
    fold (NewDec (stake (World s) d (votes_of VOTE_TYPE_YES l))).
    split; [eauto 10|]. by intros (? & ? & [= <-] & [= <-] & _ & ?).
Qed.
End Tally.
