(* ===== verification/CommitteeBlock.v ===== *)
(** * x/committee: what a block does to the proposals

    [settles] says, without stores and decimals, how a list of proposals is settled;
    the begin blocker implements it.  It ends for every consistent store, unless a
    tally or a permission check panics, and leaves no overdue proposal. *)

From S2P Require Import Prelude Sdk SdkDec CommitteePerm Committee CommitteeTheorems.

Section Block.
  Context {W : Type} {cfg : SdkConfig} {dc : DecConfig} {dl : DecLaws} {jd : JsonDecoder} {pk : ParamKeeper W}
    {env : ChainEnv W} {laws : ChainLaws W}.
  Implicit Types s : State W.

(** ** The specification *)

(** The committee may enact the proposal, and its handler succeeds. *)
Definition enactable ctx (p : Proposal) (c : Committee) (w w' : W) : Prop :=
  exists content h, prContent p = Some content /\ HasPermissionsFor c w (Some content) = Ok true
  /\ PubProposal_ValidateBasic content = Ok tt /\ GetRoute (ProposalRoute content) = Some h /\ h ctx content w = Ok w'.

(** The votes are counted: at the deadline, or in every block. *)
Definition due ctx (p : Proposal) (c : Committee) : Prop :=
  HasExpiredBy p (BlockTime ctx) = true \/ coTallyOption (base c) = TALLY_OPTION_FIRST_PAST_THE_POST.

Inductive settles (ctx : Ctx) (s : State W) : list Proposal -> W -> list (Z * ProposalOutcome) -> W -> Prop :=
| settles_nil w : settles ctx s [] w [] w
| settles_open p c ps w evs w' :
    GetCommittee s (prCommitteeID p) = Some c -> HasExpiredBy p (BlockTime ctx) = false ->
    ~ (due ctx p c /\ supported s w (prID p) c) ->
    settles ctx s ps w evs w' -> settles ctx s (p :: ps) w evs w'
| settles_failed p c ps w evs w' :
    GetCommittee s (prCommitteeID p) = Some c -> HasExpiredBy p (BlockTime ctx) = true ->
    ~ supported s w (prID p) c ->
    settles ctx s ps w evs w' -> settles ctx s (p :: ps) w ((prID p, Failed) :: evs) w'
| settles_invalid p c ps w evs w' :
    GetCommittee s (prCommitteeID p) = Some c -> due ctx p c -> supported s w (prID p) c ->
    (forall w1, ~ enactable ctx p c w w1) ->
    settles ctx s ps w evs w' -> settles ctx s (p :: ps) w ((prID p, Invalid) :: evs) w'
| settles_passed p c ps w w1 evs w' :
    GetCommittee s (prCommitteeID p) = Some c -> due ctx p c -> supported s w (prID p) c ->
    enactable ctx p c w w1 ->
    settles ctx s ps w1 evs w' -> settles ctx s (p :: ps) w ((prID p, Passed) :: evs) w'.

(** ** One proposal *)
Lemma enactProposal_Ok ctx p c s s' : GetCommittee s (prCommitteeID p) = Some c ->
  enactProposal ctx p s = Ok s' -> exists w, s' = set_world w s /\ enactable ctx p c (World s) w.
Proof.
  intros Hc Hx. unfold enactProposal in Hx. rewrite Hc in Hx.
  apply obind_Ok in Hx as (b & Hb & Hx). destruct b; [|done]. simpl in Hx.
  apply obind_Ok in Hx as ([] & Hv & Hx). destruct (prContent p) as [content|] eqn:Hp; [|done].
  simpl in Hv. apply obind_Ok in Hv as ([] & Hvb & _).
  destruct (GetRoute (ProposalRoute content)) as [h|] eqn:Hr; [|done].
  destruct (h ctx content (World s)) as [w| |] eqn:Hh; [|done..]. injection Hx as <-.
  exists w. split; [done|]. exists content, h. by rewrite Hp.
Qed.

Lemma enactProposal_Err ctx p c s e : GetCommittee s (prCommitteeID p) = Some c ->
  enactProposal ctx p s = Err e -> forall w, ~ enactable ctx p c (World s) w.
Proof.
  intros Hc Hx w (content & h & Hp & Hperm & Hvb & Hr & Hh). unfold enactProposal in Hx.
  rewrite Hc, Hp, Hperm in Hx. simpl in Hx. by rewrite Hvb, Hr, Hh in Hx; simpl in Hx; rewrite ?Hr, ?Hh in Hx.
Qed.

(** The handler that has succeeded on the copy succeeds on the state. *)
Lemma enactProposal_total ctx p c s b : GetCommittee s (prCommitteeID p) = Some c ->
  (exists content, prContent p = Some content /\ PubProposal_ValidateBasic content = Ok tt) ->
  HasPermissionsFor c (World s) (prContent p) = Ok b ->
  exists o s', attemptEnactProposal ctx p s = Ok (o, s').
Proof.
  intros Hc (content & Hp & Hvb) Hperm. unfold attemptEnactProposal, enactProposal. rewrite Hc, Hp in *. rewrite Hperm.
  cbn [obind]. destruct b; simpl; [|eauto]. rewrite Hvb. simpl.
  destruct (GetRoute (ProposalRoute content)) as [h|]; simpl; [|eauto].
  destruct (h ctx content (World s)); simpl; eauto.
Qed.

(** The two ways in which a proposal leaves the loop. *)
Definition kept ctx (p : Proposal) (c : Committee) s s' : Prop :=
  s' = s /\ HasExpiredBy p (BlockTime ctx) = false /\ ~ (due ctx p c /\ supported s (World s) (prID p) c).
Definition settled ctx (p : Proposal) (c : Committee) (o : ProposalOutcome) s s' : Prop :=
  exists w1, closed_with p o (set_world w1 s) s'
  /\ match o with
     | Failed => HasExpiredBy p (BlockTime ctx) = true /\ ~ supported s (World s) (prID p) c /\ w1 = World s
     | Invalid => due ctx p c /\ supported s (World s) (prID p) c /\ w1 = World s
                  /\ forall w, ~ enactable ctx p c (World s) w
     | Passed => due ctx p c /\ supported s (World s) (prID p) c /\ enactable ctx p c (World s) w1
     end.

Lemma set_world_same s : set_world (World s) s = s.
Proof. by destruct s. Qed.

Lemma set_world_inv w s : inv s -> inv (set_world w s).
Proof.
  intros [H1 H2 H3 H4]. split; try done.
  - intros k c Hk. by destruct (H1 k c Hk).
  - intros k p Hk. by destruct (H2 k p Hk).
  - intros k v Hk. by destruct (H3 k v Hk).
Qed.

(** A proposal of the store, as the loop meets it. *)
Definition stored s (p : Proposal) : Prop := is_u64 (prID p) /\ GetProposal s (prID p) = Some p.

Lemma attempt_settled ctx p c o s s1 s' : inv s -> stored s p -> GetCommittee s (prCommitteeID p) = Some c ->
  due ctx p c -> supported s (World s) (prID p) c -> attemptEnactProposal ctx p s = Ok (o, s1) ->
  CloseProposal p o s1 = Ok s' -> settled ctx p c o s s'.
Proof.
  intros Hi [Hu Hp] Hc Hdue Hsup Hx Hcl. unfold attemptEnactProposal in Hx.
  destruct (enactProposal ctx p s) as [s2|e|] eqn:He; [|injection Hx as <- <-|done].
  - injection Hx as <- <-. destruct (enactProposal_Ok _ _ _ _ _ Hc He) as (w & -> & Hw).
    exists w. split; [|done]. apply CloseProposal_spec; [|done|done]. by apply inv_keyed, set_world_inv.
  - exists (World s). rewrite set_world_same. split; [apply CloseProposal_spec; [by apply inv_keyed|done|done]|].
    split_and!; try done. by eapply enactProposal_Err.
Qed.

Lemma process_spec ctx p s s' : inv s -> stored s p -> process_proposal ctx p s = Ok s' ->
  exists c, GetCommittee s (prCommitteeID p) = Some c /\ (kept ctx p c s s' \/ exists o, settled ctx p c o s s').
Proof.
  intros Hi Hst Hx. pose proof Hst as [Hu Hp]. destruct (inv_proposals s Hi _ _ Hp) as [_ _ [c Hc] _ _].
  exists c. split; [done|]. unfold process_proposal in Hx. rewrite Hc in Hx.
  destruct (HasExpiredBy p (BlockTime ctx)) eqn:Hexp; cbn [negb] in Hx.
  - apply obind_Ok in Hx as (b & Hb & Hx). pose proof (result_supported s p c b Hi Hu Hp Hc Hb) as Hs.
    apply obind_Ok in Hx as ([o s1] & Ho & Hcl). right. exists o. destruct b.
    + eapply attempt_settled; try done; [by left|by apply Hs].
    + injection Ho as <- <-. exists (World s). rewrite set_world_same.
      split; [apply CloseProposal_spec; [by apply inv_keyed|done|done]|]. split_and!; [done|by intros H%Hs|done].
  - destruct (Z.eqb_spec (coTallyOption (base c)) TALLY_OPTION_FIRST_PAST_THE_POST) as [Ht|Ht].
    + apply obind_Ok in Hx as (b & Hb & Hx). pose proof (result_supported s p c b Hi Hu Hp Hc Hb) as Hs. destruct b.
      * apply obind_Ok in Hx as ([o s1] & Ho & Hcl). right. exists o.
        eapply attempt_settled; try done; [by right|by apply Hs].
      * injection Hx as <-. left. split_and!; [done|done|]. intros [_ H%Hs]. done.
    + injection Hx as <-. left. split_and!; [done|done|]. intros [[?|?] _]; congruence.
Qed.

(** ** All proposals *)

(** The rest of the loop sees the proposals and votes of the beginning. *)
Record loop_inv s0 (ps : list Proposal) s : Prop := {
  li_inv : inv s;
  li_committees : Committees s = Committees s0;
  li_stored : forall p, p ∈ ps -> stored s p /\ forall a, GetVote s (prID p) a = GetVote s0 (prID p) a
}.

Lemma set_world_closed_inv p o w s s' : inv s -> is_u64 (prID p) -> closed_with p o (set_world w s) s' -> inv s'.
Proof. intros Hi. apply closed_with_inv. by apply set_world_inv. Qed.

Lemma GetVote_closed p o w s s' id a : votes_keyed s -> is_u64 id -> id <> prID p ->
  closed_with p o (set_world w s) s' -> GetVote s' id a = GetVote s id a.
Proof.
  intros Hk Hid Hne Hc. unfold GetVote. pose proof (cw_votes _ _ _ _ Hc) as Hv.
  apply option_eq. intros v. rewrite Hv. simpl. split; [by intros []|]. intros Hl. split; [done|].
  destruct (Hk _ _ Hl) as [E Hu]. apply GetVoteKey_inj in E as [<- _]; done.
Qed.

Lemma loop_closed s0 p o w ps s s' : NoDup (prID <$> p :: ps) -> loop_inv s0 (p :: ps) s ->
  closed_with p o (set_world w s) s' -> loop_inv s0 ps s'.
Proof.
  intros Hnd [Hi HC Hst] Hc. simpl in Hnd. apply NoDup_cons in Hnd as [Hn _].
  destruct (Hst p) as [[Hu _] _]; [left|].
  split; [by eapply set_world_closed_inv|by rewrite (cw_committees _ _ _ _ Hc)|].
  intros q Hq. destruct (Hst q) as [[Huq Hsq] Hvq]; [by right|].
  assert (prID q <> prID p) as Hne. { intros E. apply Hn. rewrite <- E. by apply list_elem_of_fmap_2. }
  split; [split; [done|]|].
  - rewrite (lookup_closed p o (set_world w s) s') by done. by rewrite bool_decide_eq_false_2.
  - intros a. rewrite (GetVote_closed p o w s s') by (done || by apply inv_keyed). apply Hvq.
Qed.

Definition outcomes s : list (Z * ProposalOutcome) := (fun e => (evProposalID e, evOutcome e)) <$> Closed s.

(** The state after the proposals [closed] are closed. *)
Record after (closed : list (Z * ProposalOutcome)) s s' : Prop := {
  af_outcomes : outcomes s' = outcomes s ++ closed;
  af_committees : Committees s' = Committees s;
  af_next : NextProposalID s' = NextProposalID s;
  af_proposals : forall k p, Proposals s' !! k = Some p <-> Proposals s !! k = Some p /\ prID p ∉ closed.*1;
  af_votes : forall k v, Votes s' !! k = Some v <-> Votes s !! k = Some v /\ vtProposalID v ∉ closed.*1
}.

Lemma after_refl s : after [] s s.
Proof.
  split; try done; [by rewrite app_nil_r|..]; intros k x; (split; [intros H; split; [done|]|by intros []]); by apply not_elem_of_nil.
Qed.

Lemma after_closed p o w s s1 evs s' : inv s -> is_u64 (prID p) -> closed_with p o (set_world w s) s1 ->
  after evs s1 s' -> after ((prID p, o) :: evs) s s'.
Proof.
  intros Hi Hu [C P V N [tally E] _] [O' C' N' P' V']. simpl in *. split.
  - rewrite O'. unfold outcomes. rewrite E. simpl. by rewrite fmap_app, <- app_assoc.
  - congruence.
  - congruence.
  - intros k q. rewrite P', P, lookup_delete_Some. simpl. rewrite not_elem_of_cons. split.
    + intros [[Hne Hq] Hn]. split; [done|]. split; [|done]. intros Eq. apply Hne.
      by rewrite (pok_key _ _ _ (inv_proposals s Hi _ _ Hq)), Eq.
    + intros [Hq [Hne Hn]]. split; [|done]. split; [|done]. intros Ek. apply Hne.
      destruct (inv_proposals s Hi _ _ Hq) as [Ek' [Huq _] _ _ _]. apply GetKeyFromID_inj; [done|done|congruence].
  - intros k v. rewrite V', V. simpl. rewrite not_elem_of_cons. naive_solver.
Qed.

Lemma loop_settles ctx s0 ps s s' : votes_keyed s0 -> NoDup (prID <$> ps) -> loop_inv s0 ps s ->
  ofold (process_proposal ctx) ps s = Ok s' ->
  exists evs, settles ctx s0 ps (World s) evs (World s') /\ after evs s s' /\ inv s'.
Proof.
  intros Hk0. revert s. induction ps as [|p ps IH]; intros s Hnd Hl Hx; simpl in Hx.
  { injection Hx as <-. exists []. split_and!; [constructor|apply after_refl|apply Hl]. }
  apply obind_Ok in Hx as (s1 & Hp & Hx). destruct (li_stored _ _ _ Hl p) as [Hst Hv]; [left|].
  pose proof (li_inv _ _ _ Hl) as Hi.
  assert (forall c, supported s (World s) (prID p) c <-> supported s0 (World s) (prID p) c) as Hsup.
  { intros c. apply supported_same; [by apply inv_keyed|done|apply Hst|done]. }
  destruct (process_spec ctx p s s1 Hi Hst Hp) as (c & Hc & Hcase).
  assert (GetCommittee s0 (prCommitteeID p) = Some c) as Hc0.
  { unfold GetCommittee in *. by rewrite <- (li_committees _ _ _ Hl). }
  destruct Hcase as [(-> & Hexp & Hn)|(o & w1 & Hcl & Ho)].
  - destruct (IH s) as (evs & Hs & Ha & Hi'); [by apply NoDup_cons in Hnd as []| |done|].
    { split; [done|apply Hl|]. intros q Hq. apply Hl. by right. }
    exists evs. split_and!; [|done|done]. eapply settles_open; try done. by rewrite <- Hsup.
  - destruct (IH s1) as (evs & Hs & Ha & Hi'); [by apply NoDup_cons in Hnd as []|by eapply loop_closed|done|].
    exists ((prID p, o) :: evs). rewrite (cw_world _ _ _ _ Hcl) in Hs. simpl in Hs.
    split_and!; [|eapply after_closed; try done; apply Hst|done].
    destruct o; rewrite Hsup in Ho; destruct_and!; subst;
      [eapply settles_passed|eapply settles_failed|eapply settles_invalid]; eauto.
Qed.

Lemma proposals_stored s : inv s -> loop_inv s (GetProposals s) s /\ NoDup (prID <$> GetProposals s).
Proof.
  intros Hi. unfold GetProposals. split.
  - split; [done|done|]. intros p ([k q] & -> & Hin)%list_elem_of_fmap. apply elem_of_iterator in Hin as [Hk _]. simpl.
    destruct (inv_proposals s Hi _ _ Hk) as [-> [Hu _] _ _ _]. split; [|done]. split; [done|exact Hk].
  - assert (forall k p, (k, p) ∈ iterator (Proposals s) None -> k = GetKeyFromID (prID p)) as Hin.
    { intros k p [Hk _]%elem_of_iterator. by destruct (inv_proposals s Hi _ _ Hk). }
    apply (keyed_NoDup prID GetKeyFromID); [apply iterator_NoDup|done].
Qed.

Lemma block_settles ctx s s' : inv s -> BeginBlocker ctx s = Ok s' ->
  exists evs, settles ctx s (GetProposals s) (World s) evs (World s') /\ after evs s s' /\ inv s'.
Proof.
  intros Hi Hx. destruct (proposals_stored s Hi) as [Hl Hnd]. eapply loop_settles; try done. by apply inv_keyed.
Qed.

(** ** The block ends *)

(** What the rest of the chain has to provide for the proposals and votes of [s0]: accounts
    of the voters, balances that add up to at most the supply, permission checks that
    do not meet a parameter they cannot decode; and the handlers of the proposals keep
    it so. *)
Record provides ctx s0 (Good : W -> Prop) : Prop := {
  pv_handlers : forall k p content h w w', Proposals s0 !! k = Some p -> prContent p = Some content ->
    GetRoute (ProposalRoute content) = Some h -> h ctx content w = Ok w' -> Good w -> Good w';
  pv_accounts : forall w k v, Good w -> Votes s0 !! k = Some v -> GetAccount w (vtVoter v) <> None;
  pv_supply : forall w d accounts, Good w -> NoDup accounts ->
    list_sum (fun a => GetBalance w a d) accounts <= GetSupply w d;
  pv_fits : forall w d, Good w -> dec_fits (NewDec (GetSupply w d));
  pv_permissions : forall w k p c, Good w -> Proposals s0 !! k = Some p ->
    GetCommittee s0 (prCommitteeID p) = Some c -> exists b, HasPermissionsFor c w (prContent p) = Ok b;
  pv_members : forall k c, Committees s0 !! k = Some c -> Z.of_nat (length (coMembers (base c))) < 2 ^ 64
}.

Lemma stake_voters (w : W) d l : stake w d l = list_sum (fun a => GetBalance w a d) (vtVoter <$> l).
Proof. induction l as [|v l IH]; [done|]. rewrite stake_cons, IH. reflexivity. Qed.

Lemma stake_nonneg (w : W) d l : 0 <= stake w d l.
Proof. apply list_sum_nonneg. intros v _. apply balance_nonneg. Qed.

Lemma stake_split (w : W) d l :
  stake w d (votes_of VOTE_TYPE_YES l) + stake w d (votes_of VOTE_TYPE_NO l) <= stake w d l.
Proof.
  induction l as [|v l IH]; [done|]. unfold votes_of in *. rewrite !filter_cons. pose proof (balance_nonneg w (vtVoter v) d).
  repeat case_decide; rewrite ?stake_cons; try lia. rewrite H0 in H1. by vm_compute in H1.
Qed.

Lemma tally_total (w : W) d B l y n t : dec_fits B -> (forall v, v ∈ l -> GetAccount w (vtVoter v) <> None) ->
  0 <= y -> 0 <= n -> 0 <= t -> y + NewDec (stake w d l) <= B -> n + NewDec (stake w d l) <= B ->
  t + NewDec (stake w d l) <= B -> exists r, ofold (tally_vote w d) l (y, n, t) = Ok r.
Proof.
  intros HB Hacc. revert y n t. induction l as [|v l IH]; intros y n t Hy Hn Ht By Bn Bt; [eexists; reflexivity|].
  cbn [ofold]. unfold tally_vote. destruct (GetAccount w (vtVoter v)) as [a|] eqn:Ha; [|exfalso; by apply (Hacc v); [left|]].
  apply account_address in Ha as ->. rewrite stake_cons in By, Bn, Bt. unfold NewDec in *.
  pose proof (balance_nonneg w (vtVoter v) d) as Hb. pose proof (stake_nonneg w d l) as Hs. unfold dec_fits in HB.
  assert (forall x, 0 <= x -> x + (GetBalance w (vtVoter v) d + stake w d l) * 10 ^ 18 <= B ->
            dec_fits (x + GetBalance w (vtVoter v) d * 10 ^ 18)) as Hf by (intros; unfold dec_fits; lia).
  rewrite (Dec_Add_Ok t) by (by apply Hf). cbn [obind].
  destruct (vtVoteType v =? VOTE_TYPE_YES); [rewrite (Dec_Add_Ok y) by (by apply Hf)|
    destruct (vtVoteType v =? VOTE_TYPE_NO); [rewrite (Dec_Add_Ok n) by (by apply Hf)|]]; cbn [obind];
  apply IH; try lia; intros; apply Hacc; by right.
Qed.

(** The votes of [s] are among those of [s0], which the rest of the chain provides for. *)
Definition votes_within s s0 : Prop := forall k v, Votes s !! k = Some v -> Votes s0 !! k = Some v.

Lemma token_tally_total ctx s0 Good s id d : provides ctx s0 Good -> Good (World s) -> votes_keyed s -> is_u64 id ->
  votes_within s s0 ->
  exists y n t, TallyTokenCommitteeVotes s id d = Ok (y, n, t, NewDec (GetSupply (World s) d)).
Proof.
  intros Hpv Hg Hk Hid Hsub. unfold TallyTokenCommitteeVotes.
  assert (0 <= NewDec (stake (World s) d (GetVotesByProposal s id)) <= NewDec (GetSupply (World s) d)) as Hb.
  { pose proof (stake_nonneg (World s) d (GetVotesByProposal s id)). unfold NewDec. split; [lia|].
    apply Z.mul_le_mono_nonneg_r; [lia|]. rewrite stake_voters. by apply (pv_supply _ _ _ Hpv), voters_NoDup. }
  destruct (tally_total (World s) d (NewDec (GetSupply (World s) d)) (GetVotesByProposal s id) 0 0 0) as [[[y n] t] Hr];
    [by apply (pv_fits _ _ _ Hpv)| |lia..|].
  - intros v [_ Hv]%elem_of_votes; [|done|done]. by eapply (pv_accounts _ _ _ Hpv), Hsub.
  - rewrite Hr. simpl. eauto.
Qed.

Lemma valid_threshold c : Committee_Validate c = Ok tt ->
  exists t, coVoteThreshold (base c) = Some t /\ 0 < t <= NewDec 1.
Proof.
  assert (forall b, BaseCommittee_Validate b = Ok tt -> exists t, coVoteThreshold b = Some t /\ 0 < t <= NewDec 1) as H.
  { intros b Hb. unfold BaseCommittee_Validate in Hb. go_inv Hb. gobool. eauto. }
  intros Hv. destruct c as [b|b|b q d]; simpl in Hv |- *; [by apply H..|].
  unfold TokenCommittee_Validate in Hv. go_inv Hv. by apply H.
Qed.

Lemma result_total ctx s0 Good s id c : provides ctx s0 Good -> Good (World s) -> inv s -> is_u64 id ->
  votes_within s s0 -> (exists k, Committees s0 !! k = Some c) -> Committee_Validate c = Ok tt ->
  exists r, GetProposalResult s id c = Ok r.
Proof.
  intros Hpv Hg Hi Hid Hsub [k Hc0] Hv. destruct (valid_threshold c Hv) as (t & Ht & Hr). unfold NewDec in Hr.
  destruct c as [b|b|b q d]; simpl in *; [eauto| |].
  - unfold GetMemberCommitteeProposalResult. simpl. rewrite Ht. simpl.
    rewrite Dec_Mul_whole; [simpl; eauto|]. pose proof (pv_members _ _ _ Hpv _ _ Hc0) as Hm. simpl in Hm.
    assert (10 ^ 18 * 2 ^ 64 < 2 ^ 315) by (vm_compute; reflexivity). unfold dec_fits. nia.
  - unfold GetTokenCommitteeProposalResult.
    destruct (token_tally_total ctx s0 Good s id d) as (y & n & tt & Htally); [done..|by apply inv_keyed|done|done|].
    rewrite Htally. cbn [obind].
    pose proof (pv_fits _ _ _ Hpv (World s) d Hg) as Hf.
    pose proof (pv_supply _ _ _ Hpv (World s) d (vtVoter <$> GetVotesByProposal s id) Hg
                  (voters_NoDup _ _ (inv_keyed _ Hi) Hid)) as Hsup. rewrite <- stake_voters in Hsup.
    pose proof (stake_nonneg (World s) d (GetVotesByProposal s id)) as Hnn.
    unfold TokenCommittee_Validate in Hv. destruct q as [q|]; [|by go_inv Hv].
    assert (0 <= q <= 10 ^ 18) as Hq by (go_inv Hv; gobool; unfold NewDec in *; lia). clear Hv.
    cbn [set_dec obind]. unfold dec_fits, NewDec in Hf.
    rewrite Dec_Mul_whole by (unfold dec_fits; nia). cbn [obind].
    destruct (_ <=? tt); [|eauto].
    unfold TallyTokenCommitteeVotes in Htally. apply obind_Ok in Htally as ([[y' n'] t'] & Hfold & [= -> -> ->]).
    apply tally_Ok in Hfold as [= -> -> _]. rewrite !Z.add_0_l. set (l := GetVotesByProposal s id) in *.
    pose proof (stake_split (World s) d l). pose proof (stake_nonneg (World s) d (votes_of VOTE_TYPE_YES l)).
    pose proof (stake_nonneg (World s) d (votes_of VOTE_TYPE_NO l)).
    rewrite Dec_Add_Ok by (unfold dec_fits, NewDec; lia). rewrite Ht. cbn [set_dec obind].
    replace (NewDec (stake (World s) d (votes_of VOTE_TYPE_YES l)) + NewDec (stake (World s) d (votes_of VOTE_TYPE_NO l)))
      with (NewDec (stake (World s) d (votes_of VOTE_TYPE_YES l) + stake (World s) d (votes_of VOTE_TYPE_NO l)))
      by (unfold NewDec; lia).
    rewrite Dec_whole_Mul by (unfold dec_fits; nia). simpl. eauto.
Qed.

Lemma CloseProposal_total ctx s0 Good s p o : provides ctx s0 Good -> Good (World s) -> inv s ->
  is_u64 (prID p) -> votes_within s s0 -> exists s', CloseProposal p o s = Ok s'.
Proof.
  intros Hpv Hg Hi Hid Hsub. unfold CloseProposal, GetProposalTallyResponse.
  destruct (GetProposal s (prID p)) as [q|] eqn:Hq; [|simpl; eauto].
  rewrite (GetProposal_ok s (prID p) q Hi Hid Hq).
  destruct (GetCommittee s (prCommitteeID q)) as [[b|b|b qu d]|]; simpl; try by eauto.
  destruct (token_tally_total ctx s0 Good s (prID p) d) as (y & n & t & ->); [done..|by apply inv_keyed|done|done|].
  simpl. eauto.
Qed.

Lemma process_total ctx s0 Good s p ps : provides ctx s0 Good -> Good (World s) -> loop_inv s0 (p :: ps) s ->
  votes_within s s0 -> (exists k, Proposals s0 !! k = Some p) -> exists s', process_proposal ctx p s = Ok s'.
Proof.
  intros Hpv Hg Hl Hsub [k Hp0]. destruct (li_stored _ _ _ Hl p) as [[Hu Hp] _]; [left|]. pose proof (li_inv _ _ _ Hl) as Hi.
  destruct (inv_proposals s Hi _ _ Hp) as [_ [_ Huc] [c Hc] Hcontent _]. unfold process_proposal. rewrite Hc.
  destruct (GetCommittee_ok s _ c Hi Huc Hc) as [_ Hv].
  assert (GetCommittee s0 (prCommitteeID p) = Some c) as Hc0 by (unfold GetCommittee in *; by rewrite <- (li_committees _ _ _ Hl)).
  destruct (result_total ctx s0 Good s (prID p) c) as [r Hr]; [done..|by exists (GetKeyFromID (prCommitteeID p))|done|].
  destruct (pv_permissions _ _ _ Hpv (World s) k p c Hg Hp0 Hc0) as [b Hb].
  assert (forall o w, Good w -> exists s', CloseProposal p o (set_world w s) = Ok s') as Hclose.
  { intros o w Hw. eapply CloseProposal_total; try done. by apply set_world_inv. }
  assert (exists s', (let! '(o, s1) := attemptEnactProposal ctx p s in CloseProposal p o s1) = Ok s') as Hatt.
  { destruct (enactProposal_total ctx p c s b Hc Hcontent Hb) as (o & s1 & Ho). rewrite Ho. cbn [obind].
    unfold attemptEnactProposal in Ho. destruct (enactProposal ctx p s) as [s2|e|] eqn:He; [|injection Ho as <- <-|done].
    - injection Ho as <- <-. destruct (enactProposal_Ok _ _ _ _ _ Hc He) as (w & -> & (content & h & Hpc & _ & _ & Hh & Hw)).
      apply Hclose. by eapply (pv_handlers _ _ _ Hpv).
    - rewrite <- (set_world_same s). by apply Hclose. }
  rewrite Hr. cbn [obind]. destruct (HasExpiredBy p (BlockTime ctx)); simpl.
  - destruct r; [done|]. cbn [obind]. rewrite <- (set_world_same s). by apply Hclose.
  - destruct (_ =? _); [|eauto]. destruct r; [done|eauto].
Qed.

Lemma loop_total ctx s0 Good ps s : provides ctx s0 Good -> NoDup (prID <$> ps) ->
  (forall p, p ∈ ps -> exists k, Proposals s0 !! k = Some p) ->
  Good (World s) -> loop_inv s0 ps s -> votes_within s s0 -> exists s', ofold (process_proposal ctx) ps s = Ok s'.
Proof.
  intros Hpv. revert s. induction ps as [|p ps IH]; intros s Hnd Hin Hg Hl Hsub; [eexists; reflexivity|]. simpl.
  destruct (process_total ctx s0 Good s p ps) as [s1 H1]; [done..|apply Hin; left|]. rewrite H1. simpl.
  assert (NoDup (prID <$> ps)) as Hnd' by (by apply NoDup_cons in Hnd as []).
  destruct (li_stored _ _ _ Hl p) as [Hst _]; [left|].
  destruct (process_spec ctx p s s1 (li_inv _ _ _ Hl) Hst H1) as (c & _ & [(-> & _)|(o & w1 & Hcl & Ho)]).
  - apply IH; try done; [intros; apply Hin; by right|]. split; [apply Hl|apply Hl|]. intros q Hq. apply Hl. by right.
  - destruct (Hin p) as [kp Hkp]; [left|]. apply IH; [done|intros; apply Hin; by right| |by eapply loop_closed|].
    + rewrite (cw_world _ _ _ _ Hcl). simpl. destruct o; destruct_and!; subst; try done.
      destruct H3 as (content & h & Hpc & _ & _ & Hr & Hh). by eapply (pv_handlers _ _ _ Hpv).
    + intros k v [Hv _]%(cw_votes _ _ _ _ Hcl). by apply Hsub.
Qed.

Lemma settles_overdue ctx s ps w evs w' p : settles ctx s ps w evs w' -> p ∈ ps ->
  HasExpiredBy p (BlockTime ctx) = true -> prID p ∈ evs.*1.
Proof.
  intros Hs Hp Hexp. induction Hs; simpl; [by apply elem_of_nil in Hp|..]; apply elem_of_cons in Hp as [->|Hp];
    rewrite ?elem_of_cons; auto; congruence.
Qed.
End Block.
