(* ===== verification/CommitteeGov.v ===== *)
(** * x/committee: the life of the module

    The messages, the begin blocker, the proposals of x/gov that change committees and
    everything that other modules do keep the store consistent; the properties of the
    module follow. *)

From S2P Require Import Prelude Sdk SdkDec CommitteePerm Committee CommitteeTheorems CommitteeBlock.

Section Gov.
  Context {W : Type} {cfg : SdkConfig} {b32 : Bech32Laws} {dc : DecConfig} {dl : DecLaws} {jd : JsonDecoder}
    {pk : ParamKeeper W} {env : ChainEnv W} {laws : ChainLaws W}.
  Implicit Types s : State W.

(** ** The messages *)
Lemma HasMember_spec c a : HasMember c a = true <-> a ∈ coMembers (base c).
Proof.
  unfold HasMember. rewrite existsb_exists, list_elem_of_In. setoid_rewrite bool_decide_eq_true.
  split; [by intros (x & ? & <-)|eauto].
Qed.

Lemma SubmitProposal_Ok ctx proposer committeeID p s id s' : SubmitProposal ctx proposer committeeID p s = Ok (id, s') ->
  exists com content, GetCommittee s committeeID = Some com /\ proposer ∈ coMembers (base com) /\ p = Some content
  /\ HasPermissionsFor com (World s) p = Ok true /\ PubProposal_ValidateBasic content = Ok tt
  /\ NextProposalID s = Some id
  /\ s' = SetNextProposalID (u64 (id + 1))
            (SetProposal (mkProposal p id committeeID (BlockTime ctx + coProposalDuration (base com))) s).
Proof.
  intros Hx. unfold SubmitProposal in Hx. destruct (GetCommittee s committeeID) as [com|] eqn:Hc; [|done].
  destruct (HasMember com proposer) eqn:Hm; [|done]. cbn [negb] in Hx.
  apply obind_Ok in Hx as (b & Hb & Hx). destruct b; [|done]. cbn [negb] in Hx.
  apply obind_Ok in Hx as ([] & Hv & Hx). destruct p as [content|]; [|done]. simpl in Hv.
  apply obind_Ok in Hv as ([] & Hvb & _). unfold StoreNewProposal, IncrementNextProposalID, GetNextProposalID in Hx. cbn in Hx.
  destruct (NextProposalID s) as [n|] eqn:Hn; [|done]. cbn in Hx. injection Hx as <- <-.
  exists com, content. apply HasMember_spec in Hm. split_and!; done.
Qed.

Lemma submit_inv ctx proposer committeeID p s id s' : inv s -> is_u64 committeeID -> NextProposalID s <> Some (2 ^ 64 - 1) ->
  SubmitProposal ctx proposer committeeID p s = Ok (id, s') -> inv s'.
Proof.
  intros Hi Hcid Hmax (com & content & Hc & _ & -> & _ & Hvb & Hn & ->)%SubmitProposal_Ok.
  destruct (inv_next s Hi) as (n & Hn' & Hnu). rewrite Hn in Hn'. injection Hn' as <-.
  assert (u64 (id + 1) = id + 1) as Eu. { apply u64_id. unfold is_u64 in *. assert (id <> 2 ^ 64 - 1) by congruence. lia. }
  assert (forall q, is_u64 q -> q < id -> forall pr, GetProposal (SetProposal pr s) q = GetProposal s q \/ prID pr <> id) as Hother.
  { intros q Hq Hlt pr. destruct (decide (prID pr = id)) as [E|E]; [left|by right]. unfold GetProposal, SetProposal; simpl.
    apply lookup_insert_ne. rewrite E. intros Ek. apply GetKeyFromID_inj in Ek; [lia|done|done]. }
  split; simpl.
  - intros k c Hk. by destruct (inv_committees s Hi k c Hk).
  - intros k q [[<- <-]|[_ Hq]]%lookup_insert_Some.
    + split; simpl; [done|done|eauto|eauto|]. exists (u64 (id + 1)). split; [done|lia].
    + destruct (inv_proposals s Hi k q Hq) as [? ? ? ? (m & Hm & Hlt)]. split; try done. simpl.
      exists (u64 (id + 1)). split; [done|]. rewrite Hn in Hm. injection Hm as <-. lia.
  - intros k v Hk. destruct (inv_votes s Hi k v Hk) as [? Hu ? (q & c & Hq & Hcc & Ha)]. split; try done.
    exists q, c. destruct (inv_proposals s Hi _ _ Hq) as [_ _ _ _ (m & Hm & Hlt)]. rewrite Hn in Hm. injection Hm as <-.
    rewrite (GetProposal_ok s _ q Hi Hu Hq) in Hlt.
    destruct (Hother (vtProposalID v) Hu Hlt (mkProposal (Some content) id committeeID
      (BlockTime ctx + coProposalDuration (base com)))) as [E|E]; [|done].
    split_and!; [by rewrite <- Hq|done|done].
  - exists (u64 (id + 1)). split; [done|]. rewrite Eu. unfold is_u64 in *. assert (id <> 2 ^ 64 - 1) by congruence. lia.
Qed.

Lemma AddVote_Ok ctx id voter t s s' : AddVote ctx id voter t s = Ok s' ->
  exists p c, GetProposal s id = Some p /\ HasExpiredBy p (BlockTime ctx) = false
  /\ GetCommittee s (prCommitteeID p) = Some c /\ acceptable c (NewVote id voter t) /\ s' = SetVote (NewVote id voter t) s.
Proof.
  intros Hx. unfold AddVote in Hx. destruct (GetProposal s id) as [p|] eqn:Hp; [|done].
  destruct (HasExpiredBy p (BlockTime ctx)) eqn:He; [done|]. destruct (GetCommittee s (prCommitteeID p)) as [c|] eqn:Hc; [|done].
  apply obind_Ok in Hx as ([] & Ha & [= <-]). exists p, c. split_and!; try done.
  destruct c as [b|b|b q d]; simpl; [done| |done].
  destruct (HasMember _ voter) eqn:Hm; [|done]. cbn [negb] in Ha. apply HasMember_spec in Hm.
  destruct (Z.eqb_spec t VOTE_TYPE_YES); [|done]. done.
Qed.

Lemma vote_inv ctx id voter t s s' : inv s -> is_u64 id -> voter <> [] -> VoteType_Validate t = Ok tt ->
  AddVote ctx id voter t s = Ok s' -> inv s'.
Proof.
  intros Hi Hid Hne Hty (p & c & Hp & _ & Hc & Ha & ->)%AddVote_Ok. split; simpl.
  - intros k q Hk. by destruct (inv_committees s Hi k q Hk).
  - intros k q Hk. by destruct (inv_proposals s Hi k q Hk).
  - intros k v [[<- <-]|[_ Hk]]%lookup_insert_Some.
    + split; simpl; [done|done| |eauto]. unfold Vote_Validate; simpl. by destruct voter.
    + by destruct (inv_votes s Hi k v Hk).
  - apply (inv_next s Hi).
Qed.

(** ** The proposals of x/gov *)
Lemma close_all_after l s s' : inv s -> (forall p, p ∈ l -> is_u64 (prID p)) -> close_all l s = Ok s' ->
  after ((fun p => (prID p, Failed)) <$> l) s s' /\ inv s' /\ World s' = World s.
Proof.
  revert s. induction l as [|p l IH]; intros s Hi Hu Hx; simpl in Hx.
  { injection Hx as <-. split_and!; [apply after_refl|done|done]. }
  apply obind_Ok in Hx as (s1 & H1 & Hx). assert (is_u64 (prID p)) as Hp by (apply Hu; left).
  pose proof (CloseProposal_spec p Failed s s1 (inv_keyed _ Hi) Hp H1) as Hcl.
  rewrite <- (set_world_same s) in Hcl.
  destruct (IH s1) as (Ha & Hi' & Hw); [by eapply set_world_closed_inv|intros; apply Hu; by right|done|].
  split_and!; [by eapply after_closed|done|]. rewrite Hw. apply (cw_world _ _ _ _ Hcl).
Qed.

Lemma elem_of_by_committee s id p : inv s ->
  p ∈ GetProposalsByCommittee s id <-> prCommitteeID p = id /\ exists k, Proposals s !! k = Some p.
Proof.
  intros Hi. unfold GetProposalsByCommittee, GetProposals. rewrite list_elem_of_filter, list_elem_of_fmap.
  split.
  - intros [E ([k q] & -> & [Hk _]%elem_of_iterator)]. simpl. eauto.
  - intros [E [k Hk]]. split; [done|]. exists (k, p). split; [done|]. by apply elem_of_iterator.
Qed.

(** What remains after all proposals of a committee are closed. *)
Lemma close_committee s id s' : inv s -> close_all (GetProposalsByCommittee s id) s = Ok s' ->
  inv s' /\ World s' = World s /\ Committees s' = Committees s /\ NextProposalID s' = NextProposalID s
  /\ (forall k p, Proposals s' !! k = Some p <-> Proposals s !! k = Some p /\ prCommitteeID p <> id)
  /\ outcomes s' = outcomes s ++ ((fun p => (prID p, Failed)) <$> GetProposalsByCommittee s id).
Proof.
  intros Hi Hx. apply close_all_after in Hx as ([O C N P V] & Hi' & Hw); [|done|].
  2: { intros p [_ [k Hk]]%elem_of_by_committee; [|done]. by destruct (inv_proposals s Hi _ _ Hk) as [_ [? _]]. }
  split_and!; try done. intros k p. rewrite P. split; intros [Hk Hn]; (split; [done|]).
  - intros E. apply Hn. apply list_elem_of_fmap. exists (prID p, Failed). split; [done|].
    apply list_elem_of_fmap. exists p. split; [done|]. apply elem_of_by_committee; eauto.
  - intros ([i o] & Ei & Hin)%list_elem_of_fmap. apply list_elem_of_fmap in Hin as (q & [= -> ->] & Hq).
    apply elem_of_by_committee in Hq as [Eid [k' Hk']]; [|done]. simpl in Ei.
    destruct (inv_proposals s Hi _ _ Hk) as [Ek _ _ _ _], (inv_proposals s Hi _ _ Hk') as [Ek' _ _ _ _].
    assert (p = q) as -> by congruence. done.
Qed.

(** A change of the committee [id] that has no open proposals keeps the invariant. *)
Lemma committee_change_inv s s' id : inv s -> is_u64 id ->
  (forall k p, Proposals s !! k = Some p -> prCommitteeID p <> id) ->
  (forall k c, Committees s' !! k = Some c -> committee_ok s' k c) ->
  (forall i, is_u64 i -> i <> id -> GetCommittee s' i = GetCommittee s i) ->
  Proposals s' = Proposals s -> Votes s' = Votes s -> NextProposalID s' = NextProposalID s -> inv s'.
Proof.
  intros Hi Hid Hno HC Hg EP EV EN. split; [done|..].
  - rewrite EP. intros k p Hk. pose proof (Hno k p Hk). destruct (inv_proposals s Hi k p Hk) as [? [? ?] ? ? ?].
    split; try done; [by rewrite Hg|by rewrite EN].
  - rewrite EV. intros k v Hk. destruct (inv_votes s Hi k v Hk) as [? ? ? (p & c & Hp & Hc & Ha)]. split; try done.
    exists p, c. destruct (inv_proposals s Hi _ _ Hp) as [_ [_ Hu] _ _ _].
    rewrite Hg by (done || by eapply Hno). split_and!; try done. unfold GetProposal in *. by rewrite EP.
  - rewrite EN. apply (inv_next s Hi).
Qed.

Lemma change_inv t d new s s' : inv s -> is_u64 (coID (base new)) ->
  handleCommitteeChangeProposal t d (Some new) s = Ok s' -> inv s'.
Proof.
  intros Hi Hu Hx. unfold handleCommitteeChangeProposal in Hx.
  destruct (CommitteeChangeProposal_ValidateBasic t d (Some new)) as [[]| |] eqn:Hv; [|done..].
  apply obind_Ok in Hx as (s1 & H1 & [= <-]). apply close_committee in H1 as (Hi1 & Hw & _ & _ & P & _); [|done].
  apply (committee_change_inv s1 _ (coID (base new))); try done.
  - by intros k p [_ ?]%P.
  - intros k c Hk. simpl in Hk. apply lookup_insert_Some in Hk as [[<- <-]|[_ Hk]]; [|by destruct (inv_committees s1 Hi1 k c Hk)].
    split; [done|done|]. unfold CommitteeChangeProposal_ValidateBasic in Hv. apply obind_Ok in Hv as (_ & _ & Hv).
    destruct (Committee_Validate new) as [[]| |]; done.
  - intros i Hui Hne. unfold GetCommittee. simpl. apply lookup_insert_ne. intros E%GetKeyFromID_inj; congruence || done.
Qed.

Lemma delete_inv t d id s s' : inv s -> is_u64 id -> handleCommitteeDeleteProposal t d id s = Ok s' -> inv s'.
Proof.
  intros Hi Hu Hx. unfold handleCommitteeDeleteProposal in Hx. destruct (ValidateAbstract t d); [|done..].
  apply obind_Ok in Hx as (s1 & H1 & [= <-]). apply close_committee in H1 as (Hi1 & Hw & _ & _ & P & _); [|done].
  apply (committee_change_inv s1 _ id); try done.
  - by intros k p [_ ?]%P.
  - intros k c Hk. simpl in Hk. apply lookup_delete_Some in Hk as [_ Hk]. by destruct (inv_committees s1 Hi1 k c Hk).
  - intros i Hui Hne. unfold GetCommittee. simpl. apply lookup_delete_ne. intros E%GetKeyFromID_inj; congruence || done.
Qed.

(** ** The life of the module *)

(** The identifiers in messages and proposals are uint64. *)
Definition content_u64 (content : PubProposal) : Prop :=
  match content with
  | CommitteeChangeProposal _ _ (Some c) => is_u64 (coID (base c))
  | CommitteeDeleteProposal _ _ id => is_u64 id
  | _ => True
  end.

Inductive ct_step : State W -> State W -> Prop :=
| step_submit ctx msg id s s' :
    MsgSubmitProposal_ValidateBasic msg = Ok tt -> is_u64 (msCommitteeID msg) -> NextProposalID s <> Some (2 ^ 64 - 1) ->
    msgServer_SubmitProposal ctx msg s = Ok (id, s') -> ct_step s s'
| step_vote ctx msg s s' :
    MsgVote_ValidateBasic msg = Ok tt -> is_u64 (mvProposalID msg) -> msgServer_Vote ctx msg s = Ok s' -> ct_step s s'
| step_block ctx s s' : BeginBlocker ctx s = Ok s' -> ct_step s s'
| step_gov content s s' : content_u64 content -> ProposalHandler content s = Ok s' -> ct_step s s'
| step_world s w : ct_step s (set_world w s).

Lemma ct_step_inv s s' : ct_step s s' -> inv s -> inv s'.
Proof.
  intros [ctx msg id s1 s2 Hv Hu Hmax Hx|ctx msg s1 s2 Hv Hu Hx|ctx s1 s2 Hx|content s1 s2 Hu Hx|s1 w] Hi.
  - unfold msgServer_SubmitProposal in Hx. apply obind_Ok in Hx as (a & _ & Hx). by eapply submit_inv.
  - unfold msgServer_Vote in Hx. apply obind_Ok in Hx as (a & Ha & Hx).
    unfold MsgVote_ValidateBasic in Hv. apply obind_Ok in Hv as (_ & _ & Hv). eapply vote_inv; try done. by eapply bech32_nonempty.
  - by apply block_settles in Hx as (evs & _ & _ & ?).
  - destruct content as [| | |t d [c|]|t d i|]; simpl in Hx; try done.
    + by eapply change_inv.
    + unfold handleCommitteeChangeProposal in Hx. by destruct (CommitteeChangeProposal_ValidateBasic t d None).
    + by eapply delete_inv.
  - by apply set_world_inv.
Qed.

Lemma ct_run_inv s s' : rtc ct_step s s' -> inv s -> inv s'.
Proof. induction 1; eauto using ct_step_inv. Qed.

(** ** Permissions *)

(** What a permission says of the content that it allows. *)
Definition covers (p : Permission) (content : PubProposal) (w : W) : Prop :=
  match p with
  | GodPermission => True
  | TextPermission => exists body, content = TextProposal body
  | SoftwareUpgradePermission => exists body, content = SoftwareUpgradeProposal body
  | ParamsChangePermission rules =>
      exists body changes, content = ParameterChangeProposal body changes
      /\ forall change, change ∈ changes -> exists rule, rule ∈ rules /\ apSubspace rule = chSubspace change
         /\ apKey rule = chKey change /\ complies rule change w
  end.

Lemma any_permission_covers ps content (w : W) : any_permission ps w (Some content) = Ok true ->
  exists p, p ∈ ps /\ covers p content w.
Proof.
  induction ps as [|p ps IH]; simpl; [done|]. intros (b & Hb & Hx)%obind_Ok. destruct b.
  - exists p. split; [left|]. destruct p, content; simpl in Hb |- *; try done; eauto.
    do 2 eexists. split; [done|]. intros change Hch. apply (all_allowed_spec _ _ _ Hb) in Hch as (r & ? & ? & ? & ?).
    exists r. split_and!; try done. by apply allowsParamChange_complies.
  - destruct (IH Hx) as (q & ? & ?). exists q. split; [by right|done].
Qed.

Lemma UnpackPermissions_Ok l ps : UnpackPermissions l = Ok ps -> l = Some <$> ps.
Proof.
  revert ps. induction l as [|[p|] l IH]; intros ps Hx; simpl in Hx; [by injection Hx as <-| |done].
  apply obind_Ok in Hx as (qs & ->%IH & [= <-]). done.
Qed.

(** ** Genesis *)
Lemma foldl_insert {V} (key : V -> bytes) (l : list V) (m : gmap bytes V) k v : NoDup (key <$> l) ->
  foldl (fun m v => <[key v := v]> m) m l !! k = Some v
  <-> (v ∈ l /\ key v = k) \/ ((k ∉ (key <$> l)) /\ m !! k = Some v).
Proof.
  revert m. induction l as [|x l IH]; intros m Hnd; simpl.
  { rewrite elem_of_nil. pose proof (not_elem_of_nil k). naive_solver. }
  simpl in Hnd. apply NoDup_cons in Hnd as [Hx Hnd]. rewrite IH by done. rewrite lookup_insert_Some, !elem_of_cons. split.
  - intros [[Hv Hk]|[Hn [[Hk Hv]|[Hk Hm]]]]; [left; auto|left; subst; auto|]. right. split; [|done]. intros [->|?]; auto.
  - intros [[[->|Hv] Hk]|[Hn Hm]]; [|by left|].
    + right. subst k. split; [done|by left].
    + right. split; [by intros ?; apply Hn; right|]. right. split; [|done]. intros E. apply Hn. by left.
Qed.

Lemma rebuild {V} (key : V -> bytes) (m : gmap bytes V) : (forall k v, m !! k = Some v -> k = key v) ->
  foldl (fun m v => <[key v := v]> m) ∅ (iterator m None).*2 = m.
Proof.
  intros Hkey. apply map_eq. intros k. apply option_eq. intros v.
  assert (NoDup (key <$> (iterator m None).*2)) as Hnd.
  { apply (keyed_NoDup key id); [apply iterator_NoDup|]. intros j x [Hx _]%elem_of_iterator. by apply Hkey. }
  rewrite (foldl_insert key _ ∅ k v Hnd). rewrite lookup_empty. rewrite list_elem_of_fmap. split.
  - intros [[([j x] & -> & [Hx _]%elem_of_iterator) Hk]|[_ [=]]]. simpl in Hk. by rewrite <- Hk, <- (Hkey _ _ Hx).
  - intros Hk. left. split; [|symmetry; by apply Hkey]. exists (k, v). split; [done|]. by apply elem_of_iterator.
Qed.

Lemma foldl_SetCommittee l s : foldl (fun s com => SetCommittee com s) s l
  = mkState (foldl (fun m c => <[GetKeyFromID (coID (base c)) := c]> m) (Committees s) l) (Proposals s) (Votes s)
      (NextProposalID s) (Closed s) (World s).
Proof. revert s. induction l as [|c l IH]; intros s; simpl; [by destruct s|]. by rewrite IH. Qed.

Lemma foldl_SetProposal l s : foldl (fun s p => SetProposal p s) s l
  = mkState (Committees s) (foldl (fun m p => <[GetKeyFromID (prID p) := p]> m) (Proposals s) l) (Votes s)
      (NextProposalID s) (Closed s) (World s).
Proof. revert s. induction l as [|c l IH]; intros s; simpl; [by destruct s|]. by rewrite IH. Qed.

Lemma foldl_SetVote l s : foldl (fun s v => SetVote v s) s l
  = mkState (Committees s) (Proposals s) (foldl (fun m v => <[GetVoteKey (vtProposalID v) (vtVoter v) := v]> m) (Votes s) l)
      (NextProposalID s) (Closed s) (World s).
Proof. revert s. induction l as [|c l IH]; intros s; simpl; [by destruct s|]. by rewrite IH. Qed.

Lemma UnpackCommittees_Some l : UnpackCommittees (Some <$> l) = Ok l.
Proof. induction l as [|c l IH]; [done|]. rewrite fmap_cons. cbn [UnpackCommittees]. by rewrite IH. Qed.

Lemma validate_committees_total l : forall seen, NoDup ((fun c => coID (base c)) <$> l) ->
  (forall c, c ∈ l -> (coID (base c) ∉ seen) /\ Committee_Validate c = Ok tt) ->
  exists m, validate_committees seen l = Ok m /\ forall i, i ∈ m <-> i ∈ seen \/ i ∈ (fun c => coID (base c)) <$> l.
Proof.
  induction l as [|c l IH]; intros seen Hnd Hc; simpl.
  { exists seen. split; [done|]. intros i. pose proof (not_elem_of_nil i). naive_solver. }
  simpl in Hnd. apply NoDup_cons in Hnd as [Hn Hnd]. destruct (Hc c) as [Hs ->]; [left|].
  rewrite bool_decide_eq_false_2 by done. simpl. destruct (IH ({[coID (base c)]} ∪ seen)) as (m & Hm & Hi); [done| |].
  - intros q Hq. destruct (Hc q) as [Hqs Hqv]; [by right|]. split; [|done].
    apply not_elem_of_union. split; [|done]. apply not_elem_of_singleton. intros E. apply Hn. rewrite <- E.
    by apply (list_elem_of_fmap_2 (fun c => coID (base c))).
  - exists m. split; [done|]. intros i. rewrite Hi, elem_of_union, elem_of_singleton, elem_of_cons. naive_solver.
Qed.

Lemma validate_proposals_total next cm l : forall seen, NoDup (prID <$> l) ->
  (forall p, p ∈ l -> (prID p ∉ seen) /\ prID p < next /\ prCommitteeID p ∈ cm /\ Proposal_ValidateBasic p = Ok tt) ->
  exists m, validate_proposals next cm seen l = Ok m /\ forall i, i ∈ m <-> i ∈ seen \/ i ∈ prID <$> l.
Proof.
  induction l as [|p l IH]; intros seen Hnd Hc; simpl.
  { exists seen. split; [done|]. intros i. pose proof (not_elem_of_nil i). naive_solver. }
  simpl in Hnd. apply NoDup_cons in Hnd as [Hn Hnd]. destruct (Hc p) as (Hs & Hlt & Hcm & ->); [left|].
  rewrite bool_decide_eq_false_2 by done. rewrite (proj2 (Z.leb_gt _ _) Hlt), bool_decide_eq_true_2 by done. simpl.
  destruct (IH ({[prID p]} ∪ seen)) as (m & Hm & Hi); [done| |].
  - intros q Hq. destruct (Hc q) as (Hqs & Hrest); [by right|]. split; [|done].
    apply not_elem_of_union. split; [|done]. apply not_elem_of_singleton. intros E. apply Hn. rewrite <- E. by apply list_elem_of_fmap_2.
  - exists m. split; [done|]. intros i. rewrite Hi, elem_of_union, elem_of_singleton, elem_of_cons. naive_solver.
Qed.

Lemma validate_votes_total pm l : (forall v, v ∈ l -> Vote_Validate v = Ok tt /\ vtProposalID v ∈ pm) ->
  validate_votes pm l = Ok tt.
Proof.
  induction l as [|v l IH]; intros Hv; [done|]. simpl. destruct (Hv v) as [-> Hp]; [left|]. simpl.
  rewrite bool_decide_eq_true_2 by done. simpl. apply IH. intros q Hq. apply Hv. by right.
Qed.

Lemma elem_of_values {V} (m : gmap bytes V) v : v ∈ (iterator m None).*2 <-> exists k, m !! k = Some v.
Proof.
  rewrite list_elem_of_fmap. split.
  - intros ([k x] & -> & [Hk _]%elem_of_iterator). eauto.
  - intros [k Hk]. exists (k, v). split; [done|]. by apply elem_of_iterator.
Qed.

Lemma export_validates s n : inv s -> NextProposalID s = Some n ->
  GenesisState_Validate (NewGenesisState n (Some <$> GetCommittees s) (GetProposals s) (GetVotes s)) = Ok tt.
Proof.
  intros Hi Hn. unfold GenesisState_Validate. simpl. rewrite UnpackCommittees_Some. cbn [obind].
  destruct (validate_committees_total (GetCommittees s) ∅) as (cm & -> & Hcm).
  { apply (keyed_NoDup (fun c => coID (base c)) GetKeyFromID); [apply iterator_NoDup|].
    intros k c [Hk _]%elem_of_iterator. by destruct (inv_committees s Hi _ _ Hk). }
  { intros c [k Hk]%elem_of_values. split; [set_solver|]. by destruct (inv_committees s Hi _ _ Hk). }
  cbn [obind]. destruct (validate_proposals_total n cm (GetProposals s) ∅) as (pm & -> & Hpm).
  { by apply proposals_stored. }
  { intros p [k Hk]%elem_of_values. destruct (inv_proposals s Hi _ _ Hk) as [_ [_ Hu] [c Hc] (content & E & Hv) (m & Hm & Hlt)].
    split_and!; [set_solver| | |]; [congruence||(rewrite Hn in Hm; injection Hm as <-; done)| |by unfold Proposal_ValidateBasic; rewrite E].
    apply Hcm. right. apply list_elem_of_fmap. exists c. split; [symmetry; by apply (GetCommittee_ok s)|].
    apply elem_of_values. eauto. }
  cbn [obind]. apply validate_votes_total. intros v [k Hk]%elem_of_values.
  destruct (inv_votes s Hi _ _ Hk) as [_ Hu Hv (p & c & Hp & _)]. split; [done|]. apply Hpm. right.
  apply list_elem_of_fmap. exists p. split; [symmetry; by apply (GetProposal_ok s)|]. apply elem_of_values. eauto.
Qed.

(** ** The properties *)

(** C9: whatever messages, blocks, proposals of x/gov and actions of other modules happen,
    the store stays consistent: valid committees, proposals of existing committees with
    identifiers below the next one, votes only on open proposals, in a committee of
    members only yes votes of members; so the number of votes that is counted for such
    a committee is the number of its members that have voted yes. *)
Theorem committee_run_inv s s' : rtc ct_step s s' -> inv s ->
  inv s' /\ forall p b, is_u64 (prID p) -> GetProposal s' (prID p) = Some p ->
    GetCommittee s' (prCommitteeID p) = Some (MemberCommittee b) ->
    TallyMemberCommitteeVotes s' (prID p) = NewDec (Z.of_nat (yes_members s' (prID p) b)).
Proof.
  intros Hr Hi. pose proof (ct_run_inv s s' Hr Hi) as Hi'. split; [done|]. intros p b Hu Hp Hc.
  unfold TallyMemberCommitteeVotes. by rewrite (member_votes s' (prID p) p b).
Qed.

(** C8: a block settles the proposals as the specification says: one is enacted only when
    it is due, its committee supports it with the required share of votes, has the
    permission for it and the handler succeeds; the state of other modules changes by
    the handlers of these proposals only; every closed proposal disappears with its
    votes, and nothing else of the store changes. *)
Theorem begin_block_refines ctx s s' : inv s -> BeginBlocker ctx s = Ok s' ->
  exists evs, settles ctx s (GetProposals s) (World s) evs (World s') /\ after evs s s'.
Proof. intros Hi Hx. destruct (block_settles ctx s s' Hi Hx) as (evs & ? & ? & _). eauto. Qed.

(** The begin blocker ends whenever the voters have accounts, the balances add up to at
    most a supply that fits a decimal and the permission checks can decode the
    parameters; after it no proposal is past its deadline. *)
Theorem begin_block_ends ctx s (Good : W -> Prop) : inv s -> provides ctx s Good -> Good (World s) ->
  exists s', BeginBlocker ctx s = Ok s'
  /\ forall k p, Proposals s' !! k = Some p -> HasExpiredBy p (BlockTime ctx) = false.
Proof.
  intros Hi Hpv Hg. destruct (proposals_stored s Hi) as [Hl Hnd].
  destruct (loop_total ctx s Good (GetProposals s) s) as [s' Hs']; [done|done| |done|done|by intros k v|].
  { intros p Hp. by apply elem_of_values. }
  exists s'. split; [done|]. intros k p Hk.
  destruct (block_settles ctx s s' Hi Hs') as (evs & Hset & [_ _ _ P _] & _).
  destruct (proj1 (P k p) Hk) as [Hk0 Hn]. destruct (HasExpiredBy p (BlockTime ctx)) eqn:He; [|done]. exfalso.
  apply Hn. eapply settles_overdue; try done. apply elem_of_values. eauto.
Qed.

(** C29: a committee has permission for a proposal only through one of its permissions whose
    rules the proposal satisfies: every changed parameter has a rule of its own, and
    where the rule names attributes all other attributes keep their values, in arrays
    record by record. *)
Theorem permission_sound c content (w : W) : HasPermissionsFor c w (Some content) = Ok true ->
  exists p, Some p ∈ coPermissions (base c) /\ covers p content w.
Proof.
  unfold HasPermissionsFor, GetPermissions. intros (ps & Hps & Hx)%obind_Ok.
  destruct (UnpackPermissions (coPermissions (base c))) as [qs| |] eqn:E; [|done..]. injection Hps as <-.
  apply UnpackPermissions_Ok in E as ->. apply any_permission_covers in Hx as (p & Hp & Hc).
  exists p. split; [|done]. by apply list_elem_of_fmap_2.
Qed.

(** A proposal that changes a committee closes all open proposals of that committee as
    failed, with their votes, before the committee is replaced; the other proposals stay. *)
Theorem committee_change_closes t d new s s' : inv s -> is_u64 (coID (base new)) ->
  handleCommitteeChangeProposal t d (Some new) s = Ok s' ->
  inv s' /\ GetCommittee s' (coID (base new)) = Some new /\ World s' = World s
  /\ (forall k p, Proposals s' !! k = Some p <-> Proposals s !! k = Some p /\ prCommitteeID p <> coID (base new))
  /\ outcomes s' = outcomes s ++ ((fun p => (prID p, Failed)) <$> GetProposalsByCommittee s (coID (base new))).
Proof.
  intros Hi Hu Hx. split; [by eapply change_inv|]. unfold handleCommitteeChangeProposal in Hx.
  destruct (CommitteeChangeProposal_ValidateBasic t d (Some new)); [|done..].
  apply obind_Ok in Hx as (s1 & H1 & [= <-]). apply close_committee in H1 as (_ & Hw & _ & _ & P & O); [|done].
  split_and!; [apply lookup_insert_eq|done|exact P|exact O].
Qed.

(** C38: a proposal to a committee of token holders passes without a single yes vote: when
    all votes abstain and reach the quorum, and for the quorum zero without any vote. *)
Theorem abstentions_pass s id b q d : votes_keyed s -> is_u64 id -> TokenCommittee_Validate b (Some q) d = Ok tt ->
  (forall v, v ∈ GetVotesByProposal s id -> vtVoteType v = VOTE_TYPE_ABSTAIN /\ GetAccount (World s) (vtVoter v) <> None) ->
  stake (World s) d (GetVotesByProposal s id) <= GetSupply (World s) d -> dec_fits (NewDec (GetSupply (World s) d)) ->
  q * GetSupply (World s) d <= NewDec (stake (World s) d (GetVotesByProposal s id)) ->
  GetProposalResult s id (TokenCommittee b (Some q) d) = Ok true.
Proof.
  intros Hk Hid Hv Hall Hle Hfit Hq. set (l := GetVotesByProposal s id) in *.
  pose proof (stake_nonneg (World s) d l) as Hnn.
  destruct (valid_threshold (TokenCommittee b (Some q) d) Hv) as (t & Ht & _). simpl in Ht.
  assert (forall ty, ty <> VOTE_TYPE_ABSTAIN -> votes_of ty l = []) as Hnone.
  { intros ty Hty. unfold votes_of. clear -Hall Hty.
    induction l as [|v l IH]; [done|]. rewrite filter_cons_False.
    - apply IH. intros v' Hv'. apply Hall. by right.
    - destruct (Hall v) as [-> _]; [left|congruence]. }
  destruct (tally_total (World s) d (NewDec (GetSupply (World s) d)) l 0 0 0) as [r Hr];
    [done|intros v Hv'; by destruct (Hall v Hv')|lia|lia|lia|unfold NewDec; lia..|].
  pose proof (tally_Ok _ _ _ _ _ _ _ Hr) as ->. rewrite !Hnone in Hr by (vm_compute; discriminate). rewrite !Z.add_0_l in Hr.
  simpl. unfold GetTokenCommitteeProposalResult, TallyTokenCommitteeVotes. fold l. rewrite Hr. cbn [obind set_dec].
  unfold TokenCommittee_Validate in Hv. assert (0 <= q <= 10 ^ 18) as Hqr by (go_inv Hv; gobool; unfold NewDec in *; lia).
  unfold dec_fits, NewDec in Hfit.
  rewrite Dec_Mul_whole by (unfold dec_fits; nia). cbn [obind]. rewrite (proj2 (Z.leb_le _ _) Hq).
  change (NewDec (stake (World s) d [])) with 0. rewrite Dec_Add_Ok by (vm_compute; reflexivity). rewrite Ht. cbn [obind set_dec].
  change (0 + 0) with (NewDec 0). rewrite Dec_whole_Mul by (rewrite Z.mul_0_r; vm_compute; reflexivity). rewrite Z.mul_0_r. reflexivity.
Qed.

(** An exported store passes the validation, and its import into any chain restores the
    committees, the proposals, the votes and the next identifier. *)
Theorem committee_export_import s (w : W) : inv s ->
  exists gs s', ExportGenesis s = Ok gs /\ GenesisState_Validate gs = Ok tt
  /\ InitGenesis gs (mkState ∅ ∅ ∅ None [] w) = Ok s'
  /\ Committees s' = Committees s /\ Proposals s' = Proposals s /\ Votes s' = Votes s
  /\ NextProposalID s' = NextProposalID s /\ World s' = w.
Proof.
  intros Hi. destruct (inv_next s Hi) as (n & Hn & _). pose proof (export_validates s n Hi Hn) as Hv.
  eexists _, _. split_and!.
  - unfold ExportGenesis, GetNextProposalID. rewrite Hn. reflexivity.
  - exact Hv.
  - unfold InitGenesis. rewrite Hv. simpl. rewrite UnpackCommittees_Some. simpl.
    rewrite foldl_SetCommittee, foldl_SetProposal, foldl_SetVote. reflexivity.
  - simpl. apply rebuild. intros k c Hk. by destruct (inv_committees s Hi k c Hk).
  - simpl. apply rebuild. intros k p Hk. by destruct (inv_proposals s Hi k p Hk).
  - simpl. apply rebuild. intros k v Hk. by destruct (inv_votes s Hi k v Hk).
  - done.
  - done.
Qed.
End Gov.
