(* ===== verification/CommitteeWitness.v ===== *)
(** * x/committee: the theorems at work on a concrete chain

    One parameter, which is the state of the rest of the chain; a committee of two
    members that may change one attribute of it; a committee of token holders. *)

From S2P Require Import Prelude Sdk SdkDec SdkModel CommitteePerm Committee CommitteeTheorems CommitteeBlock CommitteeGov.

Module CommitteeChain.
#[export] Existing Instances SdkModel.model SdkModel.laws SdkModel.bech32_laws DecModel.dec DecModel.dec_laws.

Definition world : Type := string.
Definition alice : AccAddress := [65].
Definition bob : AccAddress := [66].

(** A decoder for the values of this chain. *)
Definition limits (n : Z) : SubparamChanges := {["limit" := JNumber n; "active" := JBool true]}.
Definition market (n : Z) : SubparamChanges := {["denom" := JString "bnb"; "limit" := JNumber n]}.
#[export] Instance decoder : JsonDecoder := {|
  Unmarshal_object raw :=
    if bool_decide (raw = "{1}") then Some (limits 1) else if bool_decide (raw = "{2}") then Some (limits 2) else None;
  Unmarshal_array raw := None
|}.
#[export] Instance params : ParamKeeper world := {|
  GetSubspace w subspace := if bool_decide (subspace = "cdp") then Some (fun _ => w) else None
|}.

Definition set_param (ctx : Ctx) (p : PubProposal) (w : world) : outcome world :=
  match p with
  | ParameterChangeProposal _ [change] => Ok (chValue change)
  | _ => Err ErrUnknownRequest
  end.
#[export] Instance chain : ChainEnv world := {|
  GetAccount w a := if bool_decide (a = alice \/ a = bob) then Some a else None;
  GetBalance w a d := if bool_decide (a = alice /\ d = "hard") then 30 else 0;
  GetSupply w d := if bool_decide (d = "hard") then 100 else 0;
  content_ValidateBasic p := Ok tt;
  content_Route p := match p with ParameterChangeProposal _ _ => "params" | _ => "gov" end;
  ValidateAbstract t d := Ok tt;
  GetRoute r :=
    if bool_decide (r = "params") then Some set_param else if bool_decide (r = "gov") then Some (fun _ _ w => Ok w) else None
|}.
#[export] Instance chain_laws : ChainLaws world.
Proof.
  split; simpl.
  - intros w a b H. case_bool_decide; naive_solver.
  - intros w a d. case_bool_decide; lia.
Qed.

Definition half : Z := 5 * 10 ^ 17.
Definition council : Committee :=
  MemberCommittee (mkBase 1 "council" [alice; bob]
    [Some (ParamsChangePermission [mkAllowed "cdp" "Params" ["limit"] []])] (Some half) 100 TALLY_OPTION_FIRST_PAST_THE_POST).
Definition holders_base : BaseCommittee :=
  mkBase 2 "holders" [alice] [Some GodPermission] (Some half) 100 TALLY_OPTION_DEADLINE.
Definition holders : Committee := TokenCommittee holders_base (Some (2 * 10 ^ 17)) "hard".
Definition empty : State world := mkState ∅ ∅ ∅ None [] "{1}".
Definition run (o : outcome (State world)) : State world := match o with Ok s => s | _ => empty end.
Definition run2 (o : outcome (Z * State world)) : State world := match o with Ok (_, s) => s | _ => empty end.

Definition start : State world := run (InitGenesis (NewGenesisState 1 [Some council; Some holders] [] []) empty).
Definition now : Ctx := mkCtx 5 1000.
Definition later : Ctx := mkCtx 6 1050.
Definition late : Ctx := mkCtx 7 2000.
Definition raise : MsgSubmitProposal :=
  mkMsgSubmit (Some (ParameterChangeProposal "raise" [mkParamChange "cdp" "Params" "{2}"])) (AccAddress_String alice) 1.
Definition text : MsgSubmitProposal := mkMsgSubmit (Some (TextProposal "text")) (AccAddress_String alice) 2.
Definition s1 : State world := run2 (msgServer_SubmitProposal now raise start).
Definition s2 : State world := run2 (msgServer_SubmitProposal now text s1).
Definition s3 : State world := run (msgServer_Vote now (mkMsgVote 1 (AccAddress_String alice) VOTE_TYPE_YES) s2).
Definition s4 : State world := run (msgServer_Vote now (mkMsgVote 2 (AccAddress_String alice) VOTE_TYPE_ABSTAIN) s3).
Definition s5 : State world := run (BeginBlocker later s4).

Lemma genesis_inv : inv start.
Proof.
  split.
  - intros k c Hk. assert (Committees start = {[GetKeyFromID 2 := holders; GetKeyFromID 1 := council]}) as E by (vm_compute; reflexivity).
    rewrite E in Hk. apply lookup_insert_Some in Hk as [[<- <-]|[_ Hk]].
    + split; [reflexivity|split; vm_compute; congruence|vm_compute; reflexivity].
    + apply lookup_singleton_Some in Hk as [<- <-].
      split; [reflexivity|split; vm_compute; congruence|vm_compute; reflexivity].
  - intros k p Hk. exfalso. assert (Proposals start = ∅) as E by (vm_compute; reflexivity). rewrite E in Hk. exact (lookup_empty_Some _ _ Hk).
  - intros k v Hk. exfalso. assert (Votes start = ∅) as E by (vm_compute; reflexivity). rewrite E in Hk. exact (lookup_empty_Some _ _ Hk).
  - exists 1. split; [vm_compute; reflexivity|split; vm_compute; congruence].
Qed.

Lemma start_s4 : rtc ct_step start s4.
Proof.
  eapply rtc_l; [apply (step_submit now raise 1 start s1); [vm_compute; reflexivity|split; vm_compute; congruence|vm_compute; congruence|vm_compute; reflexivity]|].
  eapply rtc_l; [apply (step_submit now text 2 s1 s2); [vm_compute; reflexivity|split; vm_compute; congruence|vm_compute; congruence|vm_compute; reflexivity]|].
  eapply rtc_l; [apply (step_vote now (mkMsgVote 1 (AccAddress_String alice) VOTE_TYPE_YES) s2 s3);
    [vm_compute; reflexivity|split; vm_compute; congruence|vm_compute; reflexivity]|].
  eapply rtc_l; [apply (step_vote now (mkMsgVote 2 (AccAddress_String alice) VOTE_TYPE_ABSTAIN) s3 s4);
    [vm_compute; reflexivity|split; vm_compute; congruence|vm_compute; reflexivity]|].
  apply rtc_refl.
Qed.

Lemma s4_inv : inv s4.
Proof. exact (ct_run_inv start s4 start_s4 genesis_inv). Qed.

(** The parameter has changed, and one proposal is open. *)
Example enacted : World s5 = "{2}" /\ outcomes s5 = [(1, Passed)] /\ (prID <$> GetProposals s5) = [2].
Proof. vm_compute. split_and!; reflexivity. Qed.

Lemma committee_run_inv_witness :
  inv s4 /\ forall p b, is_u64 (prID p) -> GetProposal s4 (prID p) = Some p ->
    GetCommittee s4 (prCommitteeID p) = Some (MemberCommittee b) ->
    TallyMemberCommitteeVotes s4 (prID p) = NewDec (Z.of_nat (yes_members s4 (prID p) b)).
Proof. apply (committee_run_inv start s4); [exact start_s4|exact genesis_inv]. Defined.

Lemma begin_block_refines_witness :
  exists evs, settles later s4 (GetProposals s4) (World s4) evs (World s5) /\ after evs s4 s5.
Proof. apply (begin_block_refines later s4 s5); [exact s4_inv|vm_compute; reflexivity]. Defined.

(** The parameter always has one of the two values that can be decoded. *)
Definition decodable (w : world) : Prop := w = "{1}" \/ w = "{2}".

Lemma sum_one (l : list AccAddress) d : NoDup l ->
  list_sum (fun a => GetBalance "" a d) l <= GetSupply "" d.
Proof.
  assert (forall l : list AccAddress, alice ∉ l -> list_sum (fun a => GetBalance "" a d) l = 0) as H0.
  { clear l. induction l as [|a l IH]; intros Ha; [reflexivity|]. apply not_elem_of_cons in Ha as [Hne Hl].
    change (list_sum _ (a :: l)) with (GetBalance "" a d + list_sum (fun a => GetBalance "" a d) l). rewrite IH by done.
    simpl. rewrite bool_decide_eq_false_2; [done|]. intros [-> _]. done. }
  induction 1 as [|a l Ha Hl IH]; [simpl; case_bool_decide; lia|].
  change (list_sum _ (a :: l)) with (GetBalance "" a d + list_sum (fun a => GetBalance "" a d) l).
  destruct (decide (a = alice)) as [->|Hne].
  - rewrite H0 by done. simpl. repeat case_bool_decide; destruct_and?; try done; lia.
  - simpl. simpl in IH. rewrite (bool_decide_eq_false_2 (a = alice /\ _)) by (by intros [? _]). exact IH.
Qed.

Lemma s4_votes k v : Votes s4 !! k = Some v -> vtVoter v = alice.
Proof.
  intros Hk. assert (v ∈ GetVotes s4) as Hv by (apply elem_of_values; eauto).
  assert (Forall (fun v => vtVoter v = alice) (GetVotes s4)) as Hall by (vm_compute; repeat constructor).
  by apply (proj1 (Forall_forall _ _) Hall v).
Qed.

(** The two open proposals, with their committees. *)
Lemma s4_proposals k p c : Proposals s4 !! k = Some p -> GetCommittee s4 (prCommitteeID p) = Some c ->
  (prContent p = msPubProposal raise /\ c = council) \/ (prContent p = msPubProposal text /\ c = holders).
Proof.
  intros Hk Hc. assert (p ∈ GetProposals s4) as Hp by (apply elem_of_values; eauto).
  assert (GetProposals s4 = [mkProposal (msPubProposal raise) 1 1 1100; mkProposal (msPubProposal text) 2 2 1100]) as E
    by (vm_compute; reflexivity).
  rewrite E in Hp. apply elem_of_cons in Hp as [->|Hp]; [|apply list_elem_of_singleton in Hp as ->]; [left|right];
    (split; [reflexivity|]).
  - assert (GetCommittee s4 1 = Some council) as E1 by (vm_compute; reflexivity).
    simpl in Hc. rewrite E1 in Hc. by injection Hc as <-.
  - assert (GetCommittee s4 2 = Some holders) as E1 by (vm_compute; reflexivity).
    simpl in Hc. rewrite E1 in Hc. by injection Hc as <-.
Qed.

Lemma s4_provided : provides later s4 decodable.
Proof.
  split.
  - intros k p content h w w' Hp Hc Hr Hh Hw. pose proof (elem_of_values (Proposals s4) p) as Hin.
    assert (p ∈ GetProposals s4) as Hpin by (apply Hin; eauto). clear Hin.
    assert (GetProposals s4 = [mkProposal (msPubProposal raise) 1 1 1100; mkProposal (msPubProposal text) 2 2 1100]) as E
      by (vm_compute; reflexivity).
    rewrite E in Hpin. apply elem_of_cons in Hpin as [->|Hpin]; [|apply list_elem_of_singleton in Hpin as ->].
    + injection Hc as <-. injection Hr as <-. injection Hh as <-. by right.
    + injection Hc as <-. injection Hr as <-. by injection Hh as <-.
  - intros w k v _ Hv. rewrite (s4_votes k v Hv). vm_compute. discriminate.
  - intros w d l _ Hl. exact (sum_one l d Hl).
  - intros w d _. simpl. case_bool_decide; vm_compute; reflexivity.
  - intros w k p c Hw Hp Hc. destruct (s4_proposals k p c Hp Hc) as [[-> ->]|[-> ->]].
    + exists true. destruct Hw as [-> | ->]; vm_compute; reflexivity.
    + exists true. reflexivity.
  - intros k c Hk. assert (c ∈ GetCommittees s4) as Hc by (apply elem_of_values; eauto).
    assert (forallb (fun c => Z.of_nat (length (coMembers (base c))) <? 2 ^ 64) (GetCommittees s4) = true) as Hall
      by (vm_compute; reflexivity).
    rewrite forallb_forall in Hall. apply list_elem_of_In in Hc. by apply Z.ltb_lt, Hall.
Qed.

Lemma begin_block_ends_witness :
  exists s', BeginBlocker later s4 = Ok s'
  /\ forall k p, Proposals s' !! k = Some p -> HasExpiredBy p (BlockTime later) = false.
Proof. apply (begin_block_ends later s4 decodable); [exact s4_inv|exact s4_provided|left; reflexivity]. Defined.

Lemma permission_sound_witness :
  exists p, Some p ∈ coPermissions (base council)
  /\ covers p (ParameterChangeProposal "raise" [mkParamChange "cdp" "Params" "{2}"]) ("{1}" : world).
Proof.
  apply (permission_sound council (ParameterChangeProposal "raise" [mkParamChange "cdp" "Params" "{2}"]) ("{1}" : world)).
  vm_compute. reflexivity.
Defined.

Definition newcomers : Committee :=
  MemberCommittee (mkBase 1 "newcomers" [bob] [Some TextPermission] (Some half) 100 TALLY_OPTION_DEADLINE).
Definition replaced : State world := run (handleCommitteeChangeProposal "t" "d" (Some newcomers) s4).

Lemma committee_change_closes_witness :
  inv replaced /\ GetCommittee replaced 1 = Some newcomers /\ World replaced = World s4
  /\ (forall k p, Proposals replaced !! k = Some p <-> Proposals s4 !! k = Some p /\ prCommitteeID p <> 1)
  /\ outcomes replaced = outcomes s4 ++ ((fun p => (prID p, Failed)) <$> GetProposalsByCommittee s4 1).
Proof.
  apply (committee_change_closes "t" "d" newcomers s4 replaced); [exact s4_inv|split; vm_compute; congruence|].
  vm_compute. reflexivity.
Defined.

(** Alice abstains, and the proposal passes. *)
Lemma abstentions_pass_witness : GetProposalResult s4 2 holders = Ok true.
Proof.
  apply (abstentions_pass s4 2 holders_base (2 * 10 ^ 17) "hard").
  - exact (inv_keyed s4 s4_inv).
  - split; vm_compute; congruence.
  - vm_compute. reflexivity.
  - assert (GetVotesByProposal s4 2 = [NewVote 2 alice VOTE_TYPE_ABSTAIN]) as -> by (vm_compute; reflexivity).
    intros v ->%list_elem_of_singleton. split; [reflexivity|vm_compute; discriminate].
  - vm_compute. discriminate.
  - vm_compute. reflexivity.
  - vm_compute. discriminate.
Defined.

Lemma committee_export_import_witness :
  exists gs s', ExportGenesis s4 = Ok gs /\ GenesisState_Validate gs = Ok tt
  /\ InitGenesis gs (mkState ∅ ∅ ∅ None [] ("{2}" : world)) = Ok s'
  /\ Committees s' = Committees s4 /\ Proposals s' = Proposals s4 /\ Votes s' = Votes s4
  /\ NextProposalID s' = NextProposalID s4 /\ World s' = "{2}".
Proof. apply (committee_export_import s4 ("{2}" : world)). exact s4_inv. Defined.

Lemma attribute_replaced_witness :
  validateParamChangesAreAllowed (limits 1) (<["owner" := JString "mallory"]> (delete "limit" (limits 1))) ["limit"] = true.
Proof.
  apply (attribute_replaced (limits 1) ["limit"] "limit" (JNumber 1) "owner" (JString "mallory"));
    [vm_compute; reflexivity|left|vm_compute; reflexivity].
Defined.

Definition bnb_rule : SubparamRequirement := mkReq "denom" "bnb" ["limit"].
Lemma record_replaced_witness :
  allowsMultiParamsChange (mkAllowed "cdp" "Markets" [] [bnb_rule]) [market 1; market 2] [market 1; ∅] = true.
Proof.
  apply (record_replaced (mkAllowed "cdp" "Markets" [] [bnb_rule]) bnb_rule (market 1) (market 2) ∅);
    [reflexivity|vm_compute; reflexivity|vm_compute; reflexivity|].
  apply validate_spec. vm_compute. reflexivity.
Defined.
End CommitteeChain.
