(* ===== verification/Ante.v ===== *)
(** * app/ante: the checks before a transaction runs

    [authorized.go], [authz.go], [vesting.go], [min_gas_filter.go], [ante.go].  The
    decorators of this repository are modelled; those of the SDK, of ethermint and of
    IBC, the composition of decorators and the coins of minimum gas prices are
    arguments ([AnteEnv]). *)

From S2P Require Import Prelude Sdk SdkDec.

Definition ErrTxDecode : error := Registered "sdk" 2.
Definition ErrLogic : error := Registered "sdk" 35.
Definition ErrInvalidRequest : error := Registered "sdk" 18.
Definition ErrUnknownExtensionOptions : error := Registered "sdk" 31.
Definition ErrPanic : error := Registered "undefined" 111222.

(** ** Messages and transactions

    A message by its type URL; a grant with the type URL that its authorization is for, an
    execution with the messages it wraps, [None] when they cannot be unpacked. *)
Inductive Msg : Type :=
| OtherMsg (typeURL : string)
| MsgGrant (authorization : option string)
| MsgExec (msgs : option (list Msg)).

Definition MsgGrantURL : string := "/cosmos.authz.v1beta1.MsgGrant".
Definition MsgExecURL : string := "/cosmos.authz.v1beta1.MsgExec".
Definition MsgTypeURL (m : Msg) : string :=
  match m with OtherMsg u => u | MsgGrant _ => MsgGrantURL | MsgExec _ => MsgExecURL end.

(** A transaction without signatures to verify, or that has no extension options by its
    type, has [None] there. *)
Record Tx : Type := mkTx {
  GetMsgs : list Msg;
  GetSigners : option (list AccAddress);
  GetExtensionOptions : option (list string)
}.
Record DecCoin : Type := mkDecCoin { dcDenom : string; dcAmount : Dec }.

(** ** authz.go *)
Definition isDisabled (disabledMsgTypes : list string) (msgTypeURL : string) : bool :=
  existsb (fun disabledType => bool_decide (msgTypeURL = disabledType)) disabledMsgTypes.

(** One message of the loop, and the loop. *)
Fixpoint check_msg (disabled : list string) (searchOnlyInAuthzMsgs : bool) (msg : Msg) : outcome unit :=
  if negb searchOnlyInAuthzMsgs && isDisabled disabled (MsgTypeURL msg) then Err (Plain "found disabled msg type") else
  match msg with
  | MsgGrant None => Err (Plain "cannot unpack authorization")
  | MsgGrant (Some url) => if isDisabled disabled url then Err (Plain "found disabled msg type in MsgGrant") else Ok tt
  | MsgExec None => Err (Plain "messages contains a type that is not a message")
  | MsgExec (Some inner) =>
      (fix go (l : list Msg) : outcome unit :=
         match l with
         | [] => Ok tt
         | m :: l => let! _ := check_msg disabled false m in go l
         end) inner
  | OtherMsg url =>
      if bool_decide (url = MsgGrantURL) || bool_decide (url = MsgExecURL) then Panic "unexpected msg type" else Ok tt
  end.
Fixpoint checkForDisabledMsg (disabled : list string) (msgs : list Msg) (searchOnlyInAuthzMsgs : bool) : outcome unit :=
  match msgs with
  | [] => Ok tt
  | m :: msgs =>
      let! _ := check_msg disabled searchOnlyInAuthzMsgs m in
      checkForDisabledMsg disabled msgs searchOnlyInAuthzMsgs
  end.

(** ** The context and the other decorators *)
Definition AnteHandler (C : Type) : Type := C -> Tx -> bool -> outcome C.
Definition AnteDecorator (C : Type) : Type := C -> Tx -> bool -> AnteHandler C -> outcome C.

Class AnteEnv (C St : Type) : Type := {
  IsCheckTx : C -> bool;
  Store : C -> St;
  MinGasPrices : C -> list DecCoin;
  WithMinGasPrices : list DecCoin -> C -> C;
  EvmParamsDenom : St -> string;
  DecCoins_AmountOf : list DecCoin -> string -> outcome Dec;
  DecCoins_Add : list DecCoin -> DecCoin -> outcome (list DecCoin);
  ChainAnteDecorators : list (AnteDecorator C) -> AnteHandler C;
  RejectMessages : AnteDecorator C;
  SetUpContext : AnteDecorator C;
  ExtensionOptions : AnteDecorator C;
  ValidateBasicDecorator : AnteDecorator C;
  TxTimeoutHeight : AnteDecorator C;
  ValidateMemo : AnteDecorator C;
  ConsumeGasForTxSize : AnteDecorator C;
  DeductFee : AnteDecorator C;
  SetPubKey : AnteDecorator C;
  ValidateSigCount : AnteDecorator C;
  SigGasConsume : AnteDecorator C;
  SigVerification : AnteDecorator C;
  LegacyEip712SigVerification : AnteDecorator C;
  IncrementSequence : AnteDecorator C;
  RedundantRelay : AnteDecorator C;
  EthSetUpContext : AnteDecorator C;
  EthMempoolFee : AnteDecorator C;
  EthValidateBasic : AnteDecorator C;
  EthSigVerification : AnteDecorator C;
  EthAccountVerification : AnteDecorator C;
  CanTransfer : AnteDecorator C;
  EthGasConsume : AnteDecorator C;
  EthIncrementSenderSequence : AnteDecorator C;
  EthEmitEvent : AnteDecorator C
}.

Section Ante.
  Context {C St : Type} {env : AnteEnv C St}.
  Implicit Types (ctx : C) (tx : Tx) (simulate : bool) (next : AnteHandler C).

Definition AuthzLimiterDecorator (disabledMsgTypes : list string) : AnteDecorator C := fun ctx tx simulate next =>
  match checkForDisabledMsg disabledMsgTypes (GetMsgs tx) true with
  | Ok _ => next ctx tx simulate
  | Err _ => Err ErrUnauthorized
  | Panic w => Panic w
  end.

(** ** authorized.go *)
Definition commonAddressesExist (addresses1 addresses2 : list AccAddress) : bool :=
  existsb (fun a1 => existsb (fun a2 => bool_decide (a1 = a2)) addresses2) addresses1.
Definition fetchAuthorizedAddresses (fetchers : list (St -> list AccAddress)) ctx : list AccAddress :=
  mjoin ((fun fetch => fetch (Store ctx)) <$> fetchers).
Definition AuthenticatedMempoolDecorator (fetchers : list (St -> list AccAddress)) : AnteDecorator C :=
  fun ctx tx simulate next =>
  if IsCheckTx ctx && negb simulate then
    match GetSigners tx with
    | None => Err ErrTxDecode
    | Some signers =>
        if negb (commonAddressesExist signers (fetchAuthorizedAddresses fetchers ctx)) then Err ErrUnauthorized
        else next ctx tx simulate
    end
  else next ctx tx simulate.

(** ** vesting.go *)
Definition vesting_disabledMsgTypeUrls : list string := [].
Definition VestingAccountDecorator (disabledMsgTypeUrls : list string) : AnteDecorator C := fun ctx tx simulate next =>
  if existsb (fun msg => existsb (fun url => bool_decide (MsgTypeURL msg = url)) disabledMsgTypeUrls) (GetMsgs tx)
  then Err ErrUnauthorized else next ctx tx simulate.

(** ** min_gas_filter.go *)
Fixpoint filter_prices (evmDenom : string) (prices filtered : list DecCoin) : outcome (list DecCoin) :=
  match prices with
  | [] => Ok filtered
  | gasPrice :: prices =>
      if bool_decide (dcDenom gasPrice <> evmDenom)
      then let! filtered := DecCoins_Add filtered gasPrice in filter_prices evmDenom prices filtered
      else filter_prices evmDenom prices filtered
  end.
Definition EvmMinGasFilter : AnteDecorator C := fun ctx tx simulate next =>
  let evmDenom := EvmParamsDenom (Store ctx) in
  let! amount := DecCoins_AmountOf (MinGasPrices ctx) evmDenom in
  if 0 <? amount then
    let! filteredMinGasPrices := filter_prices evmDenom (MinGasPrices ctx) [] in
    next (WithMinGasPrices filteredMinGasPrices ctx) tx simulate
  else next ctx tx simulate.

(** ** ante.go *)
Record HandlerOptions : Type := mkOptions {
  hasAccountKeeper : bool; hasBankKeeper : bool; hasSignModeHandler : bool; hasEvmKeeper : bool;
  AddressFetchers : list (St -> list AccAddress)
}.
Definition HandlerOptions_Validate (options : HandlerOptions) : outcome unit :=
  if negb (hasAccountKeeper options) then Err ErrLogic else
  if negb (hasBankKeeper options) then Err ErrLogic else
  if negb (hasSignModeHandler options) then Err ErrLogic else
  if negb (hasEvmKeeper options) then Err ErrLogic else Ok tt.

Definition authz_disabled : list string :=
  ["/ethermint.evm.v1.MsgEthereumTx"; "/cosmos.vesting.v1beta1.MsgCreateVestingAccount";
   "/cosmos.vesting.v1beta1.MsgCreatePermanentLockedAccount"; "/cosmos.vesting.v1beta1.MsgCreatePeriodicVestingAccount"].

Definition newCosmosAnteHandler (options : HandlerOptions) (isEIP712 : bool) : AnteHandler C :=
  ChainAnteDecorators (
    [RejectMessages; SetUpContext]
    ++ (if isEIP712 then [] else [ExtensionOptions])
    ++ (match AddressFetchers options with [] => [] | fetchers => [AuthenticatedMempoolDecorator fetchers] end)
    ++ [EvmMinGasFilter; VestingAccountDecorator vesting_disabledMsgTypeUrls; AuthzLimiterDecorator authz_disabled;
        ValidateBasicDecorator; TxTimeoutHeight; ValidateMemo; ConsumeGasForTxSize; DeductFee; SetPubKey;
        ValidateSigCount; SigGasConsume; if isEIP712 then LegacyEip712SigVerification else SigVerification;
        IncrementSequence; RedundantRelay]).
Definition newEthAnteHandler : AnteHandler C :=
  ChainAnteDecorators [EthSetUpContext; EthMempoolFee; EthValidateBasic; EthSigVerification; EthAccountVerification;
    CanTransfer; EthGasConsume; EthIncrementSenderSequence; EthEmitEvent].

Definition EthereumTxOption : string := "/ethermint.evm.v1.ExtensionOptionsEthereumTx".
Definition Web3TxOption : string := "/ethermint.types.v1.ExtensionOptionsWeb3Tx".

(** [defer Recover(...)] *)
Definition Recover {A} (o : outcome A) : outcome A := match o with Panic _ => Err ErrPanic | o => o end.

Definition AnteHandle (options : HandlerOptions) : AnteHandler C := fun ctx tx sim => Recover
  match GetExtensionOptions tx with
  | Some (_ :: _ :: _) => Err ErrInvalidRequest
  | Some [typeURL] =>
      if bool_decide (typeURL = EthereumTxOption) then newEthAnteHandler ctx tx sim
      else if bool_decide (typeURL = Web3TxOption) then newCosmosAnteHandler options true ctx tx sim
      else Err ErrUnknownExtensionOptions
  | _ => newCosmosAnteHandler options false ctx tx sim
  end.
Definition NewAnteHandler (options : HandlerOptions) : outcome (AnteHandler C) :=
  let! _ := HandlerOptions_Validate options in Ok (AnteHandle options).
End Ante.

(** ** What is inside of an execution *)
Inductive inside : Msg -> Msg -> Prop :=
| inside_here x ms : x ∈ ms -> inside x (MsgExec (Some ms))
| inside_deep x y ms : y ∈ ms -> inside x y -> inside x (MsgExec (Some ms)).
Definition occurs (x m : Msg) : Prop := x = m \/ inside x m.

(** A message that the limiter can read and that grants nothing that is disabled. *)
Definition readable (disabled : list string) (x : Msg) : Prop :=
  match x with
  | MsgGrant a => exists url, a = Some url /\ url ∉ disabled
  | MsgExec ms => exists l, ms = Some l
  | OtherMsg url => url <> MsgGrantURL /\ url <> MsgExecURL
  end.
Definition harmless (disabled : list string) (m : Msg) : Prop :=
  (forall x, occurs x m -> readable disabled x) /\ (forall x, inside x m -> MsgTypeURL x ∉ disabled).

Lemma isDisabled_false disabled url : isDisabled disabled url = false <-> url ∉ disabled.
Proof.
  unfold isDisabled. rewrite <- not_true_iff_false, existsb_exists. setoid_rewrite bool_decide_eq_true.
  setoid_rewrite list_elem_of_In. split; [intros H Hu; apply H; eauto|by intros H (x & ? & ->)].
Qed.

Lemma inside_Exec x ms : inside x (MsgExec (Some ms)) <-> exists m, m ∈ ms /\ occurs x m.
Proof.
  split.
  - inversion 1 as [? ? Hx|? y ? Hy Hi]; subst; [exists x; by split; [|left]|exists y; by split; [|right]].
  - intros (m & Hm & [->|Hi]); [by left|by eapply inside_deep].
Qed.

(** Induction over the messages that executions wrap. *)
Lemma Msg_induction (P : Msg -> Prop) : (forall url, P (OtherMsg url)) -> (forall a, P (MsgGrant a)) ->
  P (MsgExec None) -> (forall l, Forall P l -> P (MsgExec (Some l))) -> forall m, P m.
Proof.
  intros Ho Hg Hn Hs. fix IH 1. intros [url|a|[l|]]; [apply Ho|apply Hg| |apply Hn].
  apply Hs. induction l as [|m l IHl]; constructor; [apply IH|exact IHl].
Qed.

(** One level of the check. *)
Lemma check_msg_step disabled only m : check_msg disabled only m = Ok tt <->
  (only = false -> MsgTypeURL m ∉ disabled)
  /\ match m with
     | MsgExec ms => exists l, ms = Some l /\ forall x, x ∈ l -> check_msg disabled false x = Ok tt
     | _ => readable disabled m
     end.
Proof.
  assert (forall o : outcome unit,
    (if negb only && isDisabled disabled (MsgTypeURL m) then Err (Plain "found disabled msg type") else o) = Ok tt
    <-> (only = false -> MsgTypeURL m ∉ disabled) /\ o = Ok tt) as Hg.
  { intros o. rewrite <- isDisabled_false. destruct only, (isDisabled disabled (MsgTypeURL m)); simpl; naive_solver. }
  destruct m as [url|[url|]|[l|]]; cbn [check_msg]; rewrite Hg; apply and_iff_compat_l; clear Hg; simpl.
  - repeat case_bool_decide; simpl; naive_solver.
  - destruct (isDisabled disabled url) eqn:E; [split; [done|]|].
    + intros (u & [= <-] & Hu%isDisabled_false). congruence.
    + split; [|done]. intros _. exists url. by rewrite <- isDisabled_false.
  - naive_solver.
  - split.
    + intros Hx. exists l. split; [done|]. revert Hx. induction l as [|y l IHl]; [by intros _ x Hx%elem_of_nil|].
      intros ([] & Hy & Hl)%obind_Ok x [->|Hx]%elem_of_cons; [done|by apply IHl].
    + intros (l' & El & Hall). injection El as <-. induction l as [|y l IHl]; [done|].
      rewrite (Hall y) by left. cbn [obind]. apply IHl. intros x Hx. apply Hall. by right.
  - naive_solver.
Qed.

Lemma harmless_leaf disabled m : (forall x, ~ inside x m) -> harmless disabled m <-> readable disabled m.
Proof.
  intros Hn. unfold harmless, occurs. split; [intros [H _]; apply H; by left|].
  intros Hr. split; [by intros x [->|?%Hn]|by intros x ?%Hn].
Qed.

Lemma harmless_Exec disabled ms : harmless disabled (MsgExec ms) <->
  exists l, ms = Some l /\ forall x, x ∈ l -> (MsgTypeURL x ∉ disabled) /\ harmless disabled x.
Proof.
  unfold harmless. split.
  - intros [Hr Hd]. destruct (Hr (MsgExec ms)) as [l ->]; [by left|]. exists l. split; [done|].
    setoid_rewrite inside_Exec in Hd. intros x Hx. split; [apply Hd; exists x; by split; [|left]|]. split.
    + intros z Hz. apply Hr. right. apply inside_Exec. eauto.
    + intros z Hz. apply Hd. exists x. by split; [|right].
  - intros (l & -> & Hl). split.
    + intros x [->|(m & Hm & Ho)%inside_Exec]; [simpl; eauto|]. destruct (Hl m Hm) as [_ [Hr _]]. by apply Hr.
    + intros x (m & Hm & [->|Hi])%inside_Exec; destruct (Hl m Hm) as [Hu [_ Hd]]; [done|by apply Hd].
Qed.

Lemma check_msg_iff disabled m : forall only,
  check_msg disabled only m = Ok tt <-> (only = false -> MsgTypeURL m ∉ disabled) /\ harmless disabled m.
Proof.
  induction m as [url|a| |l IH] using Msg_induction; intros only; rewrite check_msg_step; apply and_iff_compat_l.
  - symmetry. apply harmless_leaf. by inversion 1.
  - symmetry. apply harmless_leaf. by inversion 1.
  - rewrite harmless_Exec. naive_solver.
  - rewrite harmless_Exec. rewrite Forall_forall in IH. split; intros (l' & [= <-] & Hl); exists l; (split; [done|]);
      intros x Hx; specialize (Hl x Hx).
    + apply (IH x Hx) in Hl as [? ?]. auto.
    + apply (IH x Hx). naive_solver.
Qed.

Lemma limiter_iff disabled msgs :
  checkForDisabledMsg disabled msgs true = Ok tt <-> forall m, m ∈ msgs -> harmless disabled m.
Proof.
  induction msgs as [|m msgs IH]; simpl; [split; [by intros _ x Hx%elem_of_nil|done]|].
  setoid_rewrite elem_of_cons. split.
  - intros ([] & Hm & Hx)%obind_Ok x [->|Hin]; [by apply check_msg_iff in Hm as [_ ?]|by apply IH].
  - intros H. rewrite (proj2 (check_msg_iff disabled m true)); [cbn [obind]; apply IH; auto|]. split; [done|auto].
Qed.
