(* ===== verification/AnteTheorems.v ===== *)
(** * app/ante: what an accepted transaction satisfies

    The laws of the other decorators say that they pass the transaction on; then every
    accepted Cosmos transaction has passed the limiter of authz messages and, in the
    mempool, carries an authorized signer.  The filter of gas prices removes exactly the
    price in the denomination of the EVM. *)

From S2P Require Import Prelude Sdk SdkDec Ante.

Section AnteTheorems.
  Context {C St : Type} {env : AnteEnv C St}.
  Implicit Types (ctx : C) (tx : Tx) (sim : bool) (next : AnteHandler C).

(** Coins as [DecCoins.Validate] wants them. *)
Definition valid_prices (l : list DecCoin) : Prop :=
  StronglySorted (fun a b => String.ltb (dcDenom a) (dcDenom b) = true) l /\ Forall (fun c => 0 < dcAmount c) l.

(** A decorator accepts only by calling the next handler, with the same transaction, the
    same kind of run and the same state. *)
Definition reads (d : AnteDecorator C) : Prop := forall ctx tx sim next r, d ctx tx sim next = Ok r ->
  exists ctx', next ctx' tx sim = Ok r /\ IsCheckTx ctx' = IsCheckTx ctx /\ Store ctx' = Store ctx.

Class AnteLaws : Prop := {
  (** each decorator gets the rest of the chain, the last one a handler that accepts *)
  chain_cons d ds ctx tx sim : ChainAnteDecorators (d :: ds) ctx tx sim
    = d ctx tx sim (match ds with [] => fun ctx _ _ => Ok ctx | _ => ChainAnteDecorators ds end);
  RejectMessages_reads : reads RejectMessages;
  SetUpContext_reads : reads SetUpContext;
  ExtensionOptions_reads : reads ExtensionOptions;
  (** of valid coins: sorted by their denominations, no amount zero *)
  AmountOf_positive l d : valid_prices l ->
    exists a, DecCoins_AmountOf l d = Ok a /\ (0 < a <-> exists c, c ∈ l /\ dcDenom c = d);
  DecCoins_Add_last l c : valid_prices (l ++ [c]) -> DecCoins_Add l c = Ok (l ++ [c])
}.
  Context {laws : AnteLaws}.

Lemma chain_next d e ds ctx tx sim : ChainAnteDecorators (d :: e :: ds) ctx tx sim = d ctx tx sim (ChainAnteDecorators (e :: ds)).
Proof. by rewrite chain_cons. Qed.

Lemma chain_reads d e ds ctx tx sim r : reads d -> ChainAnteDecorators (d :: e :: ds) ctx tx sim = Ok r ->
  exists ctx', ChainAnteDecorators (e :: ds) ctx' tx sim = Ok r /\ IsCheckTx ctx' = IsCheckTx ctx /\ Store ctx' = Store ctx.
Proof. rewrite chain_next. eauto. Qed.

(** ** The decorators of the repository *)
Lemma commonAddressesExist_iff a b : commonAddressesExist a b = true <-> exists x, x ∈ a /\ x ∈ b.
Proof.
  unfold commonAddressesExist. rewrite existsb_exists. setoid_rewrite existsb_exists.
  setoid_rewrite bool_decide_eq_true. setoid_rewrite list_elem_of_In. split.
  - intros (x & Hx & y & Hy & <-). eauto.
  - intros (x & Hx & Hy). eauto.
Qed.

(** The transaction has a signer that a fetcher authorizes. *)
Definition authorized (fetchers : list (St -> list AccAddress)) tx (st : St) : Prop :=
  exists signers a fetch, GetSigners tx = Some signers /\ a ∈ signers /\ fetch ∈ fetchers /\ a ∈ fetch st.

Lemma fetched fetchers ctx a :
  a ∈ fetchAuthorizedAddresses fetchers ctx <-> exists fetch, fetch ∈ fetchers /\ a ∈ fetch (Store ctx).
Proof.
  unfold fetchAuthorizedAddresses. rewrite list_elem_of_join. setoid_rewrite list_elem_of_fmap. split.
  - intros (l & Ha & fetch & -> & Hf). eauto.
  - intros (fetch & Hf & Ha). eauto.
Qed.

Lemma mempool_iff fetchers ctx tx next :
  IsCheckTx ctx = true -> authorized fetchers tx (Store ctx) ->
  AuthenticatedMempoolDecorator fetchers ctx tx false next = next ctx tx false.
Proof.
  intros Hc (signers & a & fetch & Hs & Ha & Hf & Hin). unfold AuthenticatedMempoolDecorator. rewrite Hc, Hs. simpl.
  assert (commonAddressesExist signers (fetchAuthorizedAddresses fetchers ctx) = true) as ->; [|done].
  apply commonAddressesExist_iff. exists a. split; [done|]. apply fetched. eauto.
Qed.

Lemma mempool_Ok fetchers ctx tx sim next r : AuthenticatedMempoolDecorator fetchers ctx tx sim next = Ok r ->
  next ctx tx sim = Ok r /\ (IsCheckTx ctx = true -> sim = false -> authorized fetchers tx (Store ctx)).
Proof.
  unfold AuthenticatedMempoolDecorator. intros Hx. destruct (IsCheckTx ctx), sim; simpl in Hx; try (split; [done|done]).
  destruct (GetSigners tx) as [signers|] eqn:Hs; [|done].
  destruct (commonAddressesExist signers _) eqn:Hc; [|done]. simpl in Hx. split; [done|]. intros _ _.
  apply commonAddressesExist_iff in Hc as (a & Ha & (fetch & Hf & Hin)%fetched). exists signers, a, fetch. done.
Qed.

Lemma limiter_Ok disabled ctx tx sim next r : AuthzLimiterDecorator disabled ctx tx sim next = Ok r ->
  next ctx tx sim = Ok r /\ forall m, m ∈ GetMsgs tx -> harmless disabled m.
Proof.
  unfold AuthzLimiterDecorator. destruct (checkForDisabledMsg disabled (GetMsgs tx) true) as [[]| |] eqn:E; [|done..].
  intros Hx. split; [done|]. by apply limiter_iff.
Qed.

Lemma min_gas_Ok ctx tx sim next r : EvmMinGasFilter ctx tx sim next = Ok r -> exists ctx', next ctx' tx sim = Ok r.
Proof. unfold EvmMinGasFilter. intros (amount & _ & Hx)%obind_Ok. destruct (0 <? amount); [|eauto]. apply obind_Ok in Hx as (l & _ & ?). eauto. Qed.

Lemma vesting_passes ctx tx sim next : VestingAccountDecorator vesting_disabledMsgTypeUrls ctx tx sim next = next ctx tx sim.
Proof.
  unfold VestingAccountDecorator, vesting_disabledMsgTypeUrls.
  assert (existsb (fun _ : Msg => false) (GetMsgs tx) = false) as E by (by induction (GetMsgs tx)). simpl. by rewrite E.
Qed.

(** The common end of the chain. *)
Lemma chain_limited d ds ctx tx sim r :
  ChainAnteDecorators (EvmMinGasFilter :: VestingAccountDecorator vesting_disabledMsgTypeUrls
    :: AuthzLimiterDecorator authz_disabled :: d :: ds) ctx tx sim = Ok r ->
  forall m, m ∈ GetMsgs tx -> harmless authz_disabled m.
Proof.
  rewrite chain_next. intros (c1 & H1)%min_gas_Ok. rewrite chain_next, vesting_passes, chain_next in H1.
  by apply limiter_Ok in H1 as [_ ?].
Qed.

Lemma cosmos_checked options eip ctx tx sim r : newCosmosAnteHandler options eip ctx tx sim = Ok r ->
  (forall m, m ∈ GetMsgs tx -> harmless authz_disabled m)
  /\ (AddressFetchers options <> [] -> IsCheckTx ctx = true -> sim = false ->
        authorized (AddressFetchers options) tx (Store ctx)).
Proof.
  unfold newCosmosAnteHandler. intros Hx.
  assert (exists ctx', ChainAnteDecorators
    ((match AddressFetchers options with [] => [] | fetchers => [AuthenticatedMempoolDecorator fetchers] end)
     ++ [EvmMinGasFilter; VestingAccountDecorator vesting_disabledMsgTypeUrls; AuthzLimiterDecorator authz_disabled;
        ValidateBasicDecorator; TxTimeoutHeight; ValidateMemo; ConsumeGasForTxSize; DeductFee; SetPubKey;
        ValidateSigCount; SigGasConsume; if eip then LegacyEip712SigVerification else SigVerification;
        IncrementSequence; RedundantRelay]) ctx' tx sim = Ok r
    /\ IsCheckTx ctx' = IsCheckTx ctx /\ Store ctx' = Store ctx) as (ctx' & Hx' & Hchk & Hst).
  { destruct eip, (AddressFetchers options); simpl in *;
      apply (chain_reads _ _ _ _ _ _ _ RejectMessages_reads) in Hx as (c1 & Hx & E1 & F1);
      apply (chain_reads _ _ _ _ _ _ _ SetUpContext_reads) in Hx as (c2 & Hx & E2 & F2);
      try (apply (chain_reads _ _ _ _ _ _ _ ExtensionOptions_reads) in Hx as (c3 & Hx & E3 & F3));
      eexists; (split; [exact Hx|split; congruence]). }
  clear Hx. destruct (AddressFetchers options) as [|f fs]; simpl in Hx'.
  - split; [by eapply chain_limited|done].
  - rewrite chain_next in Hx'. apply mempool_Ok in Hx' as [Hx' Ha]. split; [by eapply chain_limited|].
    intros _ Hc Hs. rewrite <- Hst. apply Ha; [congruence|done].
Qed.

Lemma Recover_Ok {A} (o : outcome A) r : Recover o = Ok r -> o = Ok r.
Proof. by destruct o. Qed.

Lemma handler_checked options ctx tx sim r :
  AnteHandle options ctx tx sim = Ok r -> GetExtensionOptions tx <> Some [EthereumTxOption] ->
  (forall m, m ∈ GetMsgs tx -> harmless authz_disabled m)
  /\ (AddressFetchers options <> [] -> IsCheckTx ctx = true -> sim = false ->
        authorized (AddressFetchers options) tx (Store ctx)).
Proof.
  intros Hx%Recover_Ok Hne.
  destruct (GetExtensionOptions tx) as [[|url [|??]]|]; [by eapply cosmos_checked| |done|by eapply cosmos_checked].
  case_bool_decide; [congruence|]. case_bool_decide; [by eapply cosmos_checked|done].
Qed.

(** C23: a transaction that the ante handler accepts, other than an Ethereum one, neither
    executes nor grants through authz, at any depth, a message of a disabled type; and
    in the mempool of a node with authorized addresses one of its signers is authorized. *)
Theorem accepted_tx options handler ctx tx sim r : NewAnteHandler options = Ok handler ->
  handler ctx tx sim = Ok r -> GetExtensionOptions tx <> Some [EthereumTxOption] ->
  (forall m, m ∈ GetMsgs tx -> harmless authz_disabled m)
  /\ (AddressFetchers options <> [] -> IsCheckTx ctx = true -> sim = false ->
        authorized (AddressFetchers options) tx (Store ctx)).
Proof. intros (_ & _ & [= <-])%obind_Ok. apply handler_checked. Qed.

(** The recursive search of the limiter is exact: it lets a transaction through to the
    next handler exactly when no message inside of an authz execution, at any depth, has a
    disabled type, and every authz message can be read and grants no disabled type. *)
Theorem authz_limiter_exact disabled ctx tx sim next :
  ((forall m, m ∈ GetMsgs tx -> harmless disabled m) ->
     AuthzLimiterDecorator disabled ctx tx sim next = next ctx tx sim)
  /\ (~ (forall m, m ∈ GetMsgs tx -> harmless disabled m) ->
     forall r, AuthzLimiterDecorator disabled ctx tx sim next <> Ok r).
Proof.
  split.
  - intros H%limiter_iff. unfold AuthzLimiterDecorator. by rewrite H.
  - intros H r Hx. apply H. by apply limiter_Ok in Hx as [_ ?].
Qed.

(** ** The minimum gas prices *)
Lemma valid_prices_sublist l k : l `sublist_of` k -> valid_prices k -> valid_prices l.
Proof.
  assert (forall (P : DecCoin -> Prop) l k, l `sublist_of` k -> Forall P k -> Forall P l) as Hsub.
  { intros P l' k' Hl H. rewrite Forall_forall in *. intros x Hx. apply H. by eapply elem_of_submseteq, sublist_submseteq. }
  intros Hl [Hs Hp]. split; [|by eapply Hsub]. clear Hp.
  induction Hl as [|x l k Hl IH|x l k Hl IH]; [done| |]; apply StronglySorted_inv in Hs as [Hs Hx]; [|by apply IH].
  constructor; [by apply IH|by eapply Hsub].
Qed.

Lemma filter_prices_Ok evmDenom l : forall acc, valid_prices (acc ++ l) ->
  filter_prices evmDenom l acc = Ok (acc ++ filter (fun c => dcDenom c <> evmDenom) l).
Proof.
  induction l as [|c l IH]; intros acc Hv; simpl; [by rewrite app_nil_r|]. rewrite filter_cons. case_bool_decide as Hc.
  - rewrite decide_True by (exact Hc). rewrite cons_middle, app_assoc in Hv. rewrite DecCoins_Add_last.
    + cbn [obind]. rewrite (IH _ Hv). by rewrite <- app_assoc.
    + eapply valid_prices_sublist; [|exact Hv]. by apply sublist_inserts_r.
  - rewrite decide_False by (intros Hne; by apply Hne). apply IH. eapply valid_prices_sublist; [|exact Hv].
    apply sublist_app; [done|]. by apply sublist_cons.
Qed.

(** The filter of minimum gas prices always calls the next handler, with the prices of
    the node in all denominations but the one of the EVM, which the EVM charges itself;
    without a price in that denomination the context is the same. *)
Theorem min_gas_filter_exact ctx tx sim next : valid_prices (MinGasPrices ctx) ->
  EvmMinGasFilter ctx tx sim next
  = next (if bool_decide (EvmParamsDenom (Store ctx) ∈ dcDenom <$> MinGasPrices ctx)
          then WithMinGasPrices (filter (fun c => dcDenom c <> EvmParamsDenom (Store ctx)) (MinGasPrices ctx)) ctx
          else ctx) tx sim.
Proof.
  intros Hv. unfold EvmMinGasFilter. destruct (AmountOf_positive _ (EvmParamsDenom (Store ctx)) Hv) as (a & -> & Ha).
  cbn [obind]. assert (EvmParamsDenom (Store ctx) ∈ dcDenom <$> MinGasPrices ctx <-> 0 < a) as Hin.
  { rewrite Ha, list_elem_of_fmap. naive_solver. }
  destruct (Z.ltb_spec 0 a).
  - rewrite bool_decide_eq_true_2 by (by apply Hin). by rewrite (filter_prices_Ok _ _ []).
  - rewrite bool_decide_eq_false_2 by (rewrite Hin; lia). done.
Qed.
End AnteTheorems.
