(* ===== verification/AnteApp.v ===== *)
(** * app: whose transactions the mempool accepts

    [app.go] gives the ante handler three sources of authorized addresses: the options of
    the node, the deputies of x/bep3 and the oracles of x/pricefeed.  With them the ante
    handler refuses every Cosmos transaction that none of these signs, and treats the
    others, and every Ethereum transaction, as a node without authentication does. *)

From S2P Require Import Prelude Sdk SdkDec GoStd Bank Bep3Types Bep3Keeper Pricefeed Ante AnteTheorems.

Record MempoolOptions : Type := mkMempoolOptions { MempoolEnableAuth : bool; MempoolAuthAddresses : list AccAddress }.

Section App.
  Context {C St B A : Type} {env : AnteEnv C St} {cfg : SdkConfig}.
  (** The stores of the two modules. *)
  Context (bep3 : St -> State B A) (pricefeed : St -> PfState).

(** The [fetchers] of [NewApp]. *)
Definition app_fetchers (options : MempoolOptions) : list (St -> list AccAddress) :=
  if MempoolEnableAuth options then
    [fun _ => MempoolAuthAddresses options;
     fun st => Bep3Keeper.GetAuthorizedAddresses (bep3 st);
     fun st => Pricefeed.GetAuthorizedAddresses (pricefeed st)]
  else [].

(** The addresses meant. *)
Definition privileged (options : MempoolOptions) (st : St) (a : AccAddress) : Prop :=
  a ∈ MempoolAuthAddresses options
  \/ (exists asset, asset ∈ AssetParams (params (bep3 st)) /\ apDeputyAddress asset = a)
  \/ (exists m, m ∈ pfMarkets (pricefeed st) /\ a ∈ mkOracles m).

Definition addresses_ok (st : St) : Prop :=
  (forall asset, asset ∈ AssetParams (params (bep3 st)) -> Forall is_byte (apDeputyAddress asset) /\ apDeputyAddress asset <> [])
  /\ (forall m o, m ∈ pfMarkets (pricefeed st) -> o ∈ mkOracles m -> Forall is_byte o /\ o <> []).

(** ** Both modules drop repeated addresses *)
Lemma deputies_authorized (s : State B A) :
  Bep3Keeper.GetAuthorizedAddresses s = authorized_from ∅ (apDeputyAddress <$> AssetParams (params s)).
Proof.
  unfold Bep3Keeper.GetAuthorizedAddresses. generalize (AssetParams (params (s : State B A))) as l. intros l.
  cut (forall (acc : list AccAddress) (seen : gset string),
    (foldl (fun '(addresses, unique) ap => (if bool_decide (AccAddress_String (apDeputyAddress ap) ∈ (unique : gset string))
       then addresses else addresses ++ [apDeputyAddress ap], {[AccAddress_String (apDeputyAddress ap)]} ∪ unique))
       (acc, seen) l).1 = acc ++ authorized_from seen (apDeputyAddress <$> l)); [intros H; apply (H [] ∅)|].
  induction l as [|ap l IH]; intros acc seen; simpl; [by rewrite app_nil_r|]. rewrite IH.
  case_bool_decide; [done|]. by rewrite <- app_assoc.
Qed.

  Context {b32 : Bech32Laws}.
Definition address_ok (a : AccAddress) : Prop := Forall is_byte a /\ a <> [].

Lemma AccAddress_String_inj a b : address_ok a -> address_ok b -> AccAddress_String a = AccAddress_String b -> a = b.
Proof.
  intros [Ha Na] [Hb Nb] E. pose proof (bech32_roundtrip a Ha Na) as Ra. rewrite E, (bech32_roundtrip b Hb Nb) in Ra. congruence.
Qed.

Lemma authorized_from_sub l o : forall seen, o ∈ authorized_from seen l -> o ∈ l.
Proof.
  induction l as [|a l IH]; intros seen; simpl; [done|]. case_bool_decide; [intros ?%IH; by right|].
  intros [->|?%IH]%elem_of_cons; [left|by right].
Qed.

Lemma authorized_from_elem l o : forall seen, Forall address_ok l -> o ∈ l ->
  AccAddress_String o ∉ seen -> o ∈ authorized_from seen l.
Proof.
  induction l as [|a l IH]; intros seen Hl Ho Hs; [by apply elem_of_nil in Ho|]. simpl.
  apply Forall_cons in Hl as [Ha Hl]. destruct (decide (o = a)) as [->|Hne].
  - rewrite bool_decide_eq_false_2 by done. left.
  - apply elem_of_cons in Ho as [?|Ho]; [done|].
    assert (o ∈ authorized_from ({[AccAddress_String a]} ∪ seen) l) as Hin.
    { apply IH; [done|done|]. apply not_elem_of_union. split; [|done]. apply not_elem_of_singleton. intros E.
      apply Hne. apply AccAddress_String_inj; [|done|done]. rewrite Forall_forall in Hl. by apply Hl. }
    case_bool_decide; [done|by right].
Qed.

Lemma authorized_from_iff l o : Forall address_ok l -> o ∈ authorized_from ∅ l <-> o ∈ l.
Proof. intros Hl. split; [apply authorized_from_sub|intros Ho; apply authorized_from_elem; set_solver]. Qed.

Lemma fetchers_privileged options st a : MempoolEnableAuth options = true -> addresses_ok st ->
  (exists fetch, fetch ∈ app_fetchers options /\ a ∈ fetch st) <-> privileged options st a.
Proof.
  intros He [Hd Ho]. unfold app_fetchers. rewrite He.
  assert (a ∈ Bep3Keeper.GetAuthorizedAddresses (bep3 st)
    <-> exists asset, asset ∈ AssetParams (params (bep3 st)) /\ apDeputyAddress asset = a) as H1.
  { rewrite deputies_authorized, authorized_from_iff, list_elem_of_fmap by (apply Forall_fmap, Forall_forall; exact Hd).
    naive_solver. }
  assert (a ∈ Pricefeed.GetAuthorizedAddresses (pricefeed st)
    <-> exists m, m ∈ pfMarkets (pricefeed st) /\ a ∈ mkOracles m) as H2.
  { unfold Pricefeed.GetAuthorizedAddresses. rewrite authorized_from_iff.
    - rewrite list_elem_of_join. setoid_rewrite list_elem_of_fmap. naive_solver.
    - apply Forall_forall. intros o (l & Hl & (m & -> & Hm)%list_elem_of_fmap)%list_elem_of_join. by eapply Ho. }
  unfold privileged. rewrite <- H1, <- H2. setoid_rewrite elem_of_cons. setoid_rewrite elem_of_cons.
  setoid_rewrite list_elem_of_singleton. naive_solver.
Qed.

(** ** The chain of decorators around the authentication *)

(** What a decorator does depends on the next handler only through what this does on
    contexts with the same state and the same kind of run. *)
Definition forwards (d : AnteDecorator C) : Prop := forall ctx tx sim next next',
  (forall ctx', IsCheckTx ctx' = IsCheckTx ctx -> Store ctx' = Store ctx -> next ctx' tx sim = next' ctx' tx sim) ->
  d ctx tx sim next = d ctx tx sim next'.

Class AnteForwards : Prop := {
  RejectMessages_forwards : forwards RejectMessages;
  SetUpContext_forwards : forwards SetUpContext;
  ExtensionOptions_forwards : forwards ExtensionOptions
}.
  Context {laws : AnteLaws} {fwd : AnteForwards}.

(** The options of a node without authentication of the mempool. *)
Definition unauthenticated (o : @HandlerOptions St) : @HandlerOptions St :=
  mkOptions (hasAccountKeeper o) (hasBankKeeper o) (hasSignModeHandler o) (hasEvmKeeper o) [].

Lemma unauthenticated_valid o : HandlerOptions_Validate (unauthenticated o) = HandlerOptions_Validate o.
Proof. done. Qed.

Lemma chain_forwards d e e' ds ds' ctx tx sim : forwards d ->
  (forall ctx', IsCheckTx ctx' = IsCheckTx ctx -> Store ctx' = Store ctx ->
     ChainAnteDecorators (e :: ds) ctx' tx sim = ChainAnteDecorators (e' :: ds') ctx' tx sim) ->
  ChainAnteDecorators (d :: e :: ds) ctx tx sim = ChainAnteDecorators (d :: e' :: ds') ctx tx sim.
Proof. intros Hd Hnext. rewrite !chain_next. by apply Hd. Qed.

(** An authorized signer makes the authentication invisible. *)
Lemma cosmos_authorized o eip ctx tx : IsCheckTx ctx = true -> authorized (AddressFetchers o) tx (Store ctx) ->
  newCosmosAnteHandler o eip ctx tx false = newCosmosAnteHandler (unauthenticated o) eip ctx tx false.
Proof.
  intros Hc Ha. unfold newCosmosAnteHandler. cbn [unauthenticated AddressFetchers].
  destruct (AddressFetchers o) as [|f fs]; [done|]. cbn [app].
  assert (forall d ds ctx', IsCheckTx ctx' = IsCheckTx ctx -> Store ctx' = Store ctx ->
    ChainAnteDecorators (AuthenticatedMempoolDecorator (f :: fs) :: d :: ds) ctx' tx false
    = ChainAnteDecorators (d :: ds) ctx' tx false) as Hskip.
  { intros d ds ctx' Ec Es. rewrite chain_next. apply mempool_iff; [congruence|by rewrite Es]. }
  destruct eip; cbn [app]; (apply chain_forwards; [exact RejectMessages_forwards|]; intros c1 E1 F1);
    (apply chain_forwards; [exact SetUpContext_forwards|]; intros c2 E2 F2).
  - apply Hskip; congruence.
  - apply chain_forwards; [exact ExtensionOptions_forwards|]. intros c3 E3 F3. apply Hskip; congruence.
Qed.

Lemma AnteHandle_authorized o ctx tx : IsCheckTx ctx = true -> authorized (AddressFetchers o) tx (Store ctx) ->
  AnteHandle o ctx tx false = AnteHandle (unauthenticated o) ctx tx false.
Proof. intros Hc Ha. unfold AnteHandle. by rewrite !(cosmos_authorized o). Qed.

Lemma Recover_total {T} (o : outcome T) : (forall r, o <> Ok r) -> exists e, Recover o = Err e.
Proof. intros Hne. destruct o as [t|e|w]; [by destruct (Hne t)|by exists e|by exists ErrPanic]. Qed.

Definition signed_by_privileged mo (st : St) tx : Prop :=
  exists signers a, GetSigners tx = Some signers /\ a ∈ signers /\ privileged mo st a.

(** C28: the ante handler of a node that authenticates its mempool, on a transaction that
    comes in (CheckTx).  A Cosmos transaction that no configured address, no deputy of an
    asset of x/bep3 and no oracle of a market of x/pricefeed signs is refused with an
    error.  One that such an address signs meets the outcome that a node without
    authentication gives it.  So does every Ethereum transaction, whoever signs it: its
    chain of decorators has no authentication.  (The addresses in the parameters of the two
    modules are not empty; the gas that reading them costs is not modelled.) *)
Theorem mempool_admission mo options handler ctx tx :
  NewAnteHandler options = Ok handler -> AddressFetchers options = app_fetchers mo ->
  MempoolEnableAuth mo = true -> addresses_ok (Store ctx) -> IsCheckTx ctx = true ->
  exists plain, NewAnteHandler (unauthenticated options) = Ok plain
    /\ (GetExtensionOptions tx = Some [EthereumTxOption] -> handler ctx tx false = plain ctx tx false)
    /\ (signed_by_privileged mo (Store ctx) tx -> handler ctx tx false = plain ctx tx false)
    /\ (GetExtensionOptions tx <> Some [EthereumTxOption] -> ~ signed_by_privileged mo (Store ctx) tx ->
          exists e, handler ctx tx false = Err e).
Proof.
  intros (? & Hv & [= <-])%obind_Ok Hf He Hok Hc. exists (AnteHandle (unauthenticated options)).
  assert (authorized (AddressFetchers options) tx (Store ctx) <-> signed_by_privileged mo (Store ctx) tx) as Hiff.
  { unfold authorized, signed_by_privileged. rewrite Hf.
    setoid_rewrite <- (fetchers_privileged mo _ _ He Hok). naive_solver. }
  unfold NewAnteHandler. rewrite unauthenticated_valid, Hv. split_and!; [done|..].
  - intros Ht. unfold AnteHandle. by rewrite Ht.
  - intros Hs. apply AnteHandle_authorized; [done|by apply Hiff].
  - intros Ht Hs. unfold AnteHandle at 1. apply Recover_total. intros r Hr. apply Hs, Hiff.
    apply (handler_checked options ctx tx false r); [|done|by rewrite Hf; unfold app_fetchers; rewrite He|done|done].
    unfold AnteHandle. by rewrite Hr.
Qed.
End App.
