(* ===== verification/AnteWitness.v ===== *)
(** * app/ante: the theorems at work on a concrete chain

    The stores of the x/bep3 and x/pricefeed examples under one context; the decorators of
    the libraries let every transaction pass but Ethereum messages. *)

From S2P Require Import Prelude Sdk SdkDec SdkModel GoStd Bank Bep3Types Bep3Keeper Pricefeed Ante AnteTheorems AnteApp.
From S2P Require Import Bep3Witness PricefeedWitness.

Module AnteChain.
#[export] Existing Instances SdkModel.model SdkModel.laws SdkModel.bech32_laws.

Definition Stores : Type := Bep3Chain.Chain * PfState.
Record Context : Type := mkContext { check : bool; stores : Stores; prices : list DecCoin }.

Definition pass : AnteDecorator Context := fun ctx tx simulate next => next ctx tx simulate.
Definition no_ethereum : AnteDecorator Context := fun ctx tx simulate next =>
  if existsb (fun m => bool_decide (MsgTypeURL m = "/ethermint.evm.v1.MsgEthereumTx")) (GetMsgs tx)
  then Err ErrInvalidRequest else next ctx tx simulate.
Fixpoint chain (ds : list (AnteDecorator Context)) : AnteHandler Context :=
  match ds with [] => fun ctx _ _ => Ok ctx | d :: ds => fun ctx tx simulate => d ctx tx simulate (chain ds) end.
Definition amount_of (l : list DecCoin) (d : string) : Dec :=
  foldr (fun c r => if bool_decide (dcDenom c = d) then dcAmount c else r) 0 l.
Fixpoint add_price (c : DecCoin) (l : list DecCoin) : list DecCoin :=
  match l with
  | [] => [c]
  | x :: l => if String.ltb (dcDenom x) (dcDenom c) then x :: add_price c l
              else if bool_decide (dcDenom x = dcDenom c) then mkDecCoin (dcDenom x) (dcAmount x + dcAmount c) :: l
              else c :: x :: l
  end.

#[export] Instance env : AnteEnv Context Stores := {|
  IsCheckTx := check; Store := stores; MinGasPrices := prices;
  WithMinGasPrices l ctx := mkContext (check ctx) (stores ctx) l;
  EvmParamsDenom _ := "neuron";
  DecCoins_AmountOf l d := Ok (amount_of l d); DecCoins_Add l c := Ok (add_price c l);
  ChainAnteDecorators := chain;
  RejectMessages := no_ethereum; SetUpContext := pass; ExtensionOptions := pass; ValidateBasicDecorator := pass;
  TxTimeoutHeight := pass; ValidateMemo := pass; ConsumeGasForTxSize := pass; DeductFee := pass; SetPubKey := pass;
  ValidateSigCount := pass; SigGasConsume := pass; SigVerification := pass; LegacyEip712SigVerification := pass;
  IncrementSequence := pass; RedundantRelay := pass;
  EthSetUpContext := pass; EthMempoolFee := pass; EthValidateBasic := pass; EthSigVerification := pass;
  EthAccountVerification := pass; CanTransfer := pass; EthGasConsume := pass; EthIncrementSenderSequence := pass;
  EthEmitEvent := pass
|}.

Lemma amount_of_positive l d : Forall (fun c => 0 < dcAmount c) l ->
  0 < amount_of l d <-> exists c, c ∈ l /\ dcDenom c = d.
Proof.
  induction 1 as [|c l Hc Hl IH]; simpl; [split; [lia|by intros (c & ?%elem_of_nil & _)]|].
  setoid_rewrite elem_of_cons. case_bool_decide; naive_solver.
Qed.

Lemma add_price_last l c : Forall (fun x => String.ltb (dcDenom x) (dcDenom c) = true) l -> add_price c l = l ++ [c].
Proof. induction 1 as [|x l Hx Hl IH]; simpl; [done|]. by rewrite Hx, IH. Qed.

Lemma pass_reads : reads pass.
Proof. intros ctx tx sim next r H. exists ctx. done. Qed.
Lemma no_ethereum_reads : reads no_ethereum.
Proof. intros ctx tx sim next r H. exists ctx. unfold no_ethereum in H. by destruct (existsb _ _). Qed.

#[export] Instance ante_laws : AnteLaws.
Proof.
  split.
  - intros d [|e ds] ctx tx sim; reflexivity.
  - exact no_ethereum_reads.
  - exact pass_reads.
  - exact pass_reads.
  - intros l d [_ Hp]. exists (amount_of l d). split; [reflexivity|]. by apply amount_of_positive.
  - intros l c [Hs _]. simpl. f_equal. apply add_price_last. induction l as [|x l IH]; [constructor|].
    apply StronglySorted_inv in Hs as [Hs Hx]. constructor; [|by apply IH].
    rewrite List.Forall_forall in Hx. apply Hx. apply List.in_app_iff. right. by left.
Qed.

Definition operator : AccAddress := [79].
Definition mempool : MempoolOptions := mkMempoolOptions true [operator].
Definition options : @HandlerOptions Stores := mkOptions true true true true (app_fetchers fst snd mempool).
Definition incoming : Context := mkContext true (Bep3Chain.start, PriceChain.start)
  [mkDecCoin "a0gi" 10; mkDecCoin "neuron" 5].
Definition send : Msg := OtherMsg "/cosmos.bank.v1beta1.MsgSend".
Definition hidden : Msg := MsgExec (Some [send; MsgExec (Some [OtherMsg "/cosmos.vesting.v1beta1.MsgCreateVestingAccount"])]).
(** An oracle executes a transfer on behalf of someone else. *)
Definition posted : Tx := mkTx [MsgExec (Some [send])] (Some [PriceChain.alice]) (Some []).

Example nested_refused :
  AnteHandle options incoming (mkTx [hidden] (Some [operator]) (Some [])) false = Err ErrUnauthorized.
Proof. vm_compute. reflexivity. Qed.
Example stranger_refused : AnteHandle options incoming (mkTx [send] (Some [[1; 2; 3]]) (Some [])) false = Err ErrUnauthorized.
Proof. vm_compute. reflexivity. Qed.
Example deputy_admitted : AnteHandle options incoming (mkTx [send] (Some [Bep3Chain.deputy]) None) false
  = Ok (mkContext true (stores incoming) [mkDecCoin "a0gi" 10]).
Proof. vm_compute. reflexivity. Qed.

Lemma accepted_tx_witness :
  (forall m, m ∈ GetMsgs posted -> harmless authz_disabled m)
  /\ (AddressFetchers options <> [] -> IsCheckTx incoming = true -> false = false ->
        authorized (AddressFetchers options) posted (Store incoming)).
Proof.
  apply (accepted_tx options (AnteHandle options) incoming posted false
    (mkContext true (stores incoming) [mkDecCoin "a0gi" 10])).
  - reflexivity.
  - vm_compute. reflexivity.
  - discriminate.
Defined.

Lemma incoming_prices : valid_prices (MinGasPrices incoming).
Proof. split; repeat constructor. Qed.

Lemma min_gas_filter_exact_witness :
  EvmMinGasFilter incoming posted false (fun ctx _ _ => Ok ctx) = Ok (mkContext true (stores incoming) [mkDecCoin "a0gi" 10]).
Proof. rewrite (min_gas_filter_exact incoming posted false (fun ctx _ _ => Ok ctx) incoming_prices). vm_compute. reflexivity. Defined.

Lemma start_pfMarkets : pfMarkets PriceChain.start = [PriceChain.bnb; PriceChain.old].
Proof. vm_compute. reflexivity. Qed.

Lemma incoming_addresses : addresses_ok fst snd (Store incoming).
Proof.
  split.
  - intros asset Ha. simpl in Ha. apply list_elem_of_singleton in Ha as ->. by split; [repeat constructor|].
  - intros m o Hm Ho.
    change (m ∈ pfMarkets PriceChain.start) in Hm. rewrite start_pfMarkets in Hm. rewrite !elem_of_cons in Hm. destruct Hm as [->|[->|?%elem_of_nil]]; [| |done];
      simpl in Ho; rewrite !elem_of_cons in Ho; destruct_or!; try (by apply elem_of_nil in Ho); subst; split;
      (repeat constructor; lia) || discriminate.
Qed.

#[export] Instance ante_forwards : AnteForwards.
Proof. split; intros ctx tx sim next next' H; simpl; unfold no_ethereum, pass; [destruct (existsb _ _); [done|]|..]; by apply H. Qed.

Definition stranger_tx : Tx := mkTx [send] (Some [[1; 2; 3]]) (Some []).

Lemma posted_signed : signed_by_privileged fst snd mempool (Store incoming) posted.
Proof.
  exists [PriceChain.alice], PriceChain.alice. split; [reflexivity|]. split; [left|].
  right. right. exists PriceChain.bnb. split; [|left].
  change (PriceChain.bnb ∈ pfMarkets PriceChain.start). rewrite start_pfMarkets. left.
Qed.

Lemma mempool_admission_witness : signed_by_privileged fst snd mempool (Store incoming) posted
  /\ exists plain, NewAnteHandler (unauthenticated options) = Ok plain
    /\ AnteHandle options incoming posted false = plain incoming posted false
    /\ plain incoming posted false = Ok (mkContext true (stores incoming) [mkDecCoin "a0gi" 10]).
Proof.
  split; [exact posted_signed|].
  destruct (mempool_admission fst snd mempool options (AnteHandle options) incoming posted
    eq_refl eq_refl eq_refl incoming_addresses eq_refl) as (plain & Hp & _ & Hsame & _).
  exists plain. split; [exact Hp|]. split; [exact (Hsame posted_signed)|].
  injection Hp as <-. vm_compute. reflexivity.
Defined.

(** A stranger: refused here, accepted by a node without authentication. *)
Example stranger_plain : isOk (AnteHandle (unauthenticated options) incoming stranger_tx false) = true
  /\ AnteHandle options incoming stranger_tx false = Err ErrUnauthorized.
Proof. vm_compute. done. Qed.
End AnteChain.
