(* ===== verification/Tally.v ===== *)
(** * app/tally_handler.go: how votes on proposals of x/gov are counted

    The handler gives the shares that a voter has delegated to bonded validators to the
    voter's options, and the remaining shares of a validator that votes to the validator's.
    Staking, the votes and the parameters of x/gov, the parsing of decimals and the
    formatting of the result are arguments ([TallyEnv]); so is the order in which Go
    visits a map. *)

From S2P Require Import Prelude Sdk SdkDec.

(** ** Data of x/gov and x/staking *)
Definition OptionYes : Z := 1.
Definition OptionAbstain : Z := 2.
Definition OptionNo : Z := 3.
Definition OptionNoWithVeto : Z := 4.

Record WeightedVoteOption : Type := mkWeighted { woOption : Z; woWeight : string }.
Record GovVote : Type := mkGovVote { gvProposalId : Z; gvVoter : string; gvOptions : list WeightedVoteOption }.
Record StakingValidator : Type := mkStakingValidator { svOperator : bytes; svBondedTokens : Z; svDelegatorShares : Dec }.
Record Delegation : Type := mkDelegation { dlValidator : bytes; dlShares : Dec }.
Record TallyParams : Type := mkTallyParams { tpQuorum : string; tpThreshold : string; tpVetoThreshold : string }.
Record ValidatorGovInfo : Type := NewValidatorGovInfo {
  BondedTokens : Z; DelegatorShares : Dec; DelegatorDeductions : Dec; valVote : list WeightedVoteOption
}.

(** [G]: the state of the chain; [TR]: the formatted result. *)
Class TallyEnv (G TR : Type) : Type := {
  ValAddress_String : bytes -> string;
  NewDecFromStr : string -> option Dec;
  BondedValidatorsByPower : G -> list StakingValidator;
  GetDelegations : G -> AccAddress -> list Delegation;
  TotalBondedTokens : G -> Z;
  GetVotes : G -> Z -> list GovVote;
  DeleteVote : Z -> AccAddress -> G -> G;
  GetTallyParams : G -> TallyParams;
  NewTallyResultFromMap : gmap Z Dec -> TR
}.

Section Tally.
  Context {G TR : Type} {env : TallyEnv G TR} {cfg : SdkConfig} {dc : DecConfig} {dm : DecMore}.
  Implicit Types (g : G) (results : gmap Z Dec).

Definition MustNewDecFromStr (s : string) : outcome Dec :=
  match NewDecFromStr s with Some d => Ok d | None => Panic "failed to parse decimal" end.

(** The variables of [Tally]. *)
Record TallyState : Type := mkTally {
  results : gmap Z Dec; totalVotingPower : Dec; currValidators : gmap string ValidatorGovInfo
}.

Definition zero_results : gmap Z Dec :=
  <[OptionNoWithVeto := 0]> (<[OptionNo := 0]> (<[OptionAbstain := 0]> (<[OptionYes := 0]> ∅))).
Definition bonded_validators g : gmap string ValidatorGovInfo :=
  foldl (fun vals v => <[ValAddress_String (svOperator v) :=
    NewValidatorGovInfo (svBondedTokens v) (svDelegatorShares v) 0 []]> vals) ∅ (BondedValidatorsByPower g).

(** One option of a vote; a decimal that is not in the map has no value to add to. *)
Definition add_option (votingPower : Dec) (option : WeightedVoteOption) results : outcome (gmap Z Dec) :=
  let! weight := MustNewDecFromStr (woWeight option) in
  let! subPower := Dec_Mul votingPower weight in
  match results !! woOption option with
  | None => Panic "nil pointer dereference"
  | Some r => let! r := Dec_Add r subPower in Ok (<[woOption option := r]> results)
  end.
(** The options of a vote, then the total. *)
Definition add_power (votingPower : Dec) (options : list WeightedVoteOption) (t : TallyState) : outcome TallyState :=
  let! rs := ofold (add_option votingPower) options (results t) in
  let! total := Dec_Add (totalVotingPower t) votingPower in
  Ok (mkTally rs total (currValidators t)).

Definition set_validator (key : string) (val : ValidatorGovInfo) (t : TallyState) : TallyState :=
  mkTally (results t) (totalVotingPower t) (<[key := val]> (currValidators t)).

Definition record_vote (key : string) (options : list WeightedVoteOption) (t : TallyState) : TallyState :=
  match currValidators t !! key with
  | Some val => set_validator key (NewValidatorGovInfo (BondedTokens val) (DelegatorShares val) (DelegatorDeductions val) options) t
  | None => t
  end.
Definition tally_delegation (options : list WeightedVoteOption) (delegation : Delegation) (t : TallyState) : outcome TallyState :=
  let key := ValAddress_String (dlValidator delegation) in
  match currValidators t !! key with
  | None => Ok t
  | Some val =>
      let! deductions := Dec_Add (DelegatorDeductions val) (dlShares delegation) in
      let t := set_validator key (NewValidatorGovInfo (BondedTokens val) (DelegatorShares val) deductions (valVote val)) t in
      let! x := Dec_MulInt (dlShares delegation) (BondedTokens val) in
      let! votingPower := Dec_Quo x (DelegatorShares val) in
      add_power votingPower options t
  end.
Definition tally_vote (vote : GovVote) '(g, t) : outcome (G * TallyState) :=
  let! voter := must (AccAddressFromBech32 (gvVoter vote)) in
  let t := record_vote (ValAddress_String voter) (gvOptions vote) t in
  let! t := ofold (tally_delegation (gvOptions vote)) (GetDelegations g voter) t in
  Ok (DeleteVote (gvProposalId vote) voter g, t).
Definition tally_validator (val : ValidatorGovInfo) (t : TallyState) : outcome TallyState :=
  match valVote val with
  | [] => Ok t
  | options =>
      let! sharesAfterDeductions := Dec_Sub (DelegatorShares val) (DelegatorDeductions val) in
      let! x := Dec_MulInt sharesAfterDeductions (BondedTokens val) in
      let! votingPower := Dec_Quo x (DelegatorShares val) in
      add_power votingPower options t
  end.

Definition result_of results (option : Z) : outcome Dec :=
  match results !! option with Some d => Ok d | None => Panic "nil pointer dereference" end.

(** The decision, from [tallyParams := ...] on: whether the proposal passes and whether the
    deposits are burned. *)
Definition decide_tally g (t : TallyState) : outcome (bool * bool) :=
  let tallyParams := GetTallyParams g in
  if TotalBondedTokens g =? 0 then Ok (false, false) else
  let! percentVoting := Dec_Quo (totalVotingPower t) (NewDec (TotalBondedTokens g)) in
  let! quorum := MustNewDecFromStr (tpQuorum tallyParams) in
  if percentVoting <? quorum then Ok (false, true) else
  let! abstain := result_of (results t) OptionAbstain in
  let! voting := Dec_Sub (totalVotingPower t) abstain in
  if voting =? 0 then Ok (false, false) else
  let! veto := result_of (results t) OptionNoWithVeto in
  let! vetoed := Dec_Quo veto (totalVotingPower t) in
  let! vetoThreshold := MustNewDecFromStr (tpVetoThreshold tallyParams) in
  if vetoThreshold <? vetoed then Ok (false, true) else
  let! yes := result_of (results t) OptionYes in
  let! voting := Dec_Sub (totalVotingPower t) abstain in
  let! agreed := Dec_Quo yes voting in
  let! threshold := MustNewDecFromStr (tpThreshold tallyParams) in
  if threshold <? agreed then Ok (true, false) else Ok (false, false).

(** The two loops.  [range]: the validators of the map in the order in which Go visits them. *)
Definition count_votes (range : gmap string ValidatorGovInfo -> list ValidatorGovInfo) (proposalId : Z) g
  : outcome (G * TallyState) :=
  let! '(g, t) := ofold tally_vote (GetVotes g proposalId) (g, mkTally zero_results 0 (bonded_validators g)) in
  let! t := ofold tally_validator (range (currValidators t)) t in
  Ok (g, t).
Definition Tally (range : gmap string ValidatorGovInfo -> list ValidatorGovInfo) (proposalId : Z) g
  : outcome (bool * bool * TR * G) :=
  let! '(g, t) := count_votes range proposalId g in
  let tallyResults := NewTallyResultFromMap (results t) in
  let! '(passes, burnDeposits) := decide_tally g t in
  Ok (passes, burnDeposits, tallyResults, g).

(** ** What is counted

    The votes as a list of events; [pow] is the power of shares, [sub] the part of it that
    an option gets, as the decimals round them. *)
Inductive event : Type :=
| Voted (key : string) (options : list WeightedVoteOption)
| Delegated (key : string) (shares : Dec) (options : list WeightedVoteOption).

Definition value {A} (d : A) (o : outcome A) : A := match o with Ok a => a | _ => d end.
Definition weight_of (w : WeightedVoteOption) : Dec := default 0 (NewDecFromStr (woWeight w)).
Definition pow (i : ValidatorGovInfo) (shares : Dec) : Dec :=
  value 0 (Dec_Quo (shares * BondedTokens i) (DelegatorShares i)).
Definition sub (power : Dec) (w : WeightedVoteOption) : Dec := value 0 (Dec_Mul power (weight_of w)).

Definition voter_of (v : GovVote) : AccAddress := value [] (AccAddressFromBech32 (gvVoter v)).
Definition vote_events g (v : GovVote) : list event :=
  Voted (ValAddress_String (voter_of v)) (gvOptions v)
  :: ((fun d => Delegated (ValAddress_String (dlValidator d)) (dlShares d) (gvOptions v)) <$> GetDelegations g (voter_of v)).
Definition events g (id : Z) : list event := mjoin (vote_events g <$> GetVotes g id).

Definition deducted (es : list event) (key : string) : Dec :=
  list_sum (fun e => match e with Delegated k s _ => if bool_decide (k = key) then s else 0 | Voted _ _ => 0 end) es.
Definition voted (vote : list WeightedVoteOption) (es : list event) (key : string) : list WeightedVoteOption :=
  foldl (fun v e => match e with Voted k o => if bool_decide (k = key) then o else v | Delegated _ _ _ => v end) vote es.
(** The validators after the votes. *)
Definition view (vals : gmap string ValidatorGovInfo) (es : list event) : gmap string ValidatorGovInfo :=
  map_imap (fun key i => Some (NewValidatorGovInfo (BondedTokens i) (DelegatorShares i)
    (DelegatorDeductions i + deducted es key) (voted (valVote i) es key))) vals.

(** A contribution: a power and the options it goes to. *)
Definition contribution : Type := Dec * list WeightedVoteOption.
Definition delegated (vals : gmap string ValidatorGovInfo) (es : list event) : list contribution :=
  omap (fun e => match e with
                 | Delegated k s o => (fun i => (pow i s, o)) <$> vals !! k
                 | Voted _ _ => None
                 end) es.
Definition inherited (l : list ValidatorGovInfo) : list contribution :=
  omap (fun i => match valVote i with [] => None
                 | o => Some (pow i (DelegatorShares i - DelegatorDeductions i), o) end) l.

Definition power (cs : list contribution) : Dec := list_sum fst cs.
Definition part (o : Z) (c : contribution) : Dec :=
  list_sum (fun w => if bool_decide (woOption w = o) then sub c.1 w else 0) c.2.
Definition tallied (o : Z) (cs : list contribution) : Dec := list_sum (part o) cs.
End Tally.
