(* ===== verification/TallyTheorems.v ===== *)
(** * app/tally_handler.go: every share counts once, and the count ends

    For consistent staking data the handler ends, whatever the order in which the map of
    validators is visited, with the same result; a proposal passes only with a majority;
    the counted power is at most the bonded tokens. *)

From S2P Require Import Prelude Sdk SdkDec Tally.

Section Counting.
  Context {G TR : Type} {env : TallyEnv G TR} {cfg : SdkConfig} {dc : DecConfig} {dm : DecMore}.
  Context {dl : DecLaws} {dr : DecRound}.
  Implicit Types (g : G) (i : ValidatorGovInfo) (w : WeightedVoteOption) (cs : list contribution) (es : list event).
  Implicit Types (vals : gmap string ValidatorGovInfo).

(** ** Powers and their parts *)
Definition val_ok i : Prop := 0 <= BondedTokens i < 2 ^ 100 /\ 0 < DelegatorShares i < 2 ^ 160.
Definition options_ok (o : list WeightedVoteOption) : Prop :=
  Forall (fun w => woOption w ∈ [1; 2; 3; 4] /\ exists d, NewDecFromStr (woWeight w) = Some d /\ 0 <= d) o
  /\ list_sum weight_of o <= 10 ^ 18 /\ (length o <= 4)%nat.
Definition contribution_ok (c : contribution) : Prop := 0 <= c.1 < 2 ^ 161 /\ options_ok c.2.

Lemma pow_ok i s : val_ok i -> 0 <= s <= DelegatorShares i ->
  Dec_MulInt s (BondedTokens i) = Ok (s * BondedTokens i)
  /\ Dec_Quo (s * BondedTokens i) (DelegatorShares i) = Ok (pow i s)
  /\ 0 <= pow i s < 2 ^ 161
  /\ pow i s * DelegatorShares i <= s * BondedTokens i * 10 ^ 18 + DelegatorShares i.
Proof.
  intros [HB HS] Hs. set (B := BondedTokens i) in *. set (S := DelegatorShares i) in *.
  assert (0 <= s * B <= S * B) as H1 by (split; [lia|apply Z.mul_le_mono_nonneg_r; lia]).
  assert (S * B < 2 ^ 260) as H2.
  { assert (S * B <= 2 ^ 160 * B) by (apply Z.mul_le_mono_nonneg_r; lia). lia. }
  destruct (Dec_Quo_round (s * B) S) as (r & Hr & Hn); [lia| |].
  { assert (B * 10 ^ 18 < 2 ^ 314) by lia. assert (S * B * 10 ^ 18 < 2 ^ 314 * S).
    { rewrite <- Z.mul_assoc, (Z.mul_comm _ S). apply Z.mul_lt_mono_pos_l; lia. } lia. }
  split; [|split; [|split]].
  - apply Dec_MulInt_Ok. unfold dec_fits. lia.
  - unfold pow. fold B S. by rewrite Hr.
  - unfold pow. fold B S. rewrite Hr. cbn [value]. assert (- S < r * S) as L by lia.
    assert (r * S < (B * 10 ^ 18 + 1) * S) as U by lia.
    assert ((-1) * S < r * S) as L' by lia.
    apply Z.mul_lt_mono_pos_r in U, L'; lia.
  - unfold pow. fold B S. rewrite Hr. cbn [value]. lia.
Qed.

Lemma sub_ok p w : 0 <= p < 2 ^ 161 -> (exists d, NewDecFromStr (woWeight w) = Some d /\ 0 <= d <= 10 ^ 18) ->
  Dec_Mul p (weight_of w) = Ok (sub p w) /\ 0 <= sub p w <= p + 1
  /\ sub p w * 10 ^ 18 <= p * weight_of w + 10 ^ 18 /\ (p = 0 -> sub p w = 0).
Proof.
  intros Hp (d & Ed & Hd). unfold sub, weight_of. rewrite Ed. simpl.
  assert (0 <= p * d <= p * 10 ^ 18) as Hpd by (split; [lia|apply Z.mul_le_mono_nonneg_l; lia]).
  destruct (Dec_Mul_round p d) as (r & -> & Hr); [lia|]. simpl. split; [done|]. split; [lia|]. split; [lia|].
  intros ->. lia.
Qed.

Lemma options_weights o : options_ok o ->
  Forall (fun w => woOption w ∈ [1; 2; 3; 4] /\ exists d, NewDecFromStr (woWeight w) = Some d /\ 0 <= d <= 10 ^ 18) o.
Proof.
  intros (Ho & Hs & _). revert Hs. induction Ho as [|w o (Hw & d & Ed & Hd) Ho IH]; [constructor|].
  intros Hs. unfold list_sum in Hs. simpl in Hs. fold (list_sum weight_of o) in Hs.
  assert (0 <= list_sum weight_of o) as Hn.
  { apply list_sum_nonneg. intros v Hv. rewrite Forall_forall in Ho. destruct (Ho v Hv) as (_ & d' & E' & ?).
    unfold weight_of. by rewrite E'. }
  assert (weight_of w = d) as Ew by (unfold weight_of; by rewrite Ed).
  constructor; [split; [done|]; exists d; split; [done|lia]|apply IH; lia].
Qed.

(** The parts for two different options are at most the whole, up to rounding. *)
Lemma parts_le c k1 k2 : contribution_ok c -> k1 <> k2 ->
  0 <= part k1 c /\ 0 <= part k2 c /\ part k1 c + part k2 c <= c.1 + 4 /\ (c.1 = 0 -> part k1 c = 0).
Proof.
  destruct c as [p o]. intros [Hp Ho] Hk. simpl in *. pose proof (options_weights _ Ho) as Hw.
  destruct Ho as (_ & Hsum & Hlen). unfold part. simpl.
  assert (forall k, 0 <= list_sum (fun w => if bool_decide (woOption w = k) then sub p w else 0) o
    /\ (p = 0 -> list_sum (fun w => if bool_decide (woOption w = k) then sub p w else 0) o = 0)) as H0.
  { intros k. clear Hsum Hlen. induction Hw as [|w o (_ & Hd) Hw IH]; unfold list_sum in *; simpl; [lia|].
    pose proof (sub_ok p w Hp Hd). case_bool_decide; lia. }
  assert ((list_sum (fun w => if bool_decide (woOption w = k1) then sub p w else 0) o
    + list_sum (fun w => if bool_decide (woOption w = k2) then sub p w else 0) o) * 10 ^ 18
    <= p * list_sum weight_of o + Z.of_nat (length o) * 10 ^ 18) as Hle.
  { clear Hsum Hlen H0. induction Hw as [|w o (_ & Hd) Hw IH]; unfold list_sum in *; simpl; [lia|].
    destruct (sub_ok p w Hp Hd) as (_ & Hb & Hs & _). destruct Hd as (d & Ed & Hd).
    assert (0 <= p * weight_of w) by (unfold weight_of; rewrite Ed; simpl; lia).
    rewrite Z.mul_add_distr_l. repeat case_bool_decide; [congruence|lia..]. }
  assert (p * list_sum weight_of o <= p * 10 ^ 18) by (apply Z.mul_le_mono_nonneg_l; lia).
  pose proof (H0 k1). pose proof (H0 k2). split_and!; [tauto|tauto| |tauto]. lia.
Qed.

(** ** The state of the count, by its contributions *)
Definition results_of (f : Z -> Dec) : gmap Z Dec :=
  <[OptionNoWithVeto := f 4]> (<[OptionNo := f 3]> (<[OptionAbstain := f 2]> (<[OptionYes := f 1]> ∅))).
Definition state_of cs vals : TallyState := mkTally (results_of (fun k => tallied k cs)) (power cs) vals.

Lemma results_of_ext f h : (forall k, f k = h k) -> results_of f = results_of h.
Proof. intros H. unfold results_of. by rewrite !H. Qed.
Lemma results_of_lookup f k : k ∈ [1; 2; 3; 4] -> results_of f !! k = Some (f k).
Proof.
  rewrite !elem_of_cons, elem_of_nil. intros [->|[->|[->|[->|[]]]]]; reflexivity.
Qed.
Lemma results_of_insert f k d : k ∈ [1; 2; 3; 4] ->
  <[k := f k + d]> (results_of f) = results_of (fun k' => f k' + if bool_decide (k = k') then d else 0).
Proof.
  intros Hk. apply map_eq. intros j. destruct (decide (j ∈ [1; 2; 3; 4])) as [Hj|Hj].
  - rewrite (results_of_lookup _ j Hj). destruct (decide (k = j)) as [->|Hne].
    + rewrite lookup_insert_eq, bool_decide_eq_true_2 by done. done.
    + rewrite lookup_insert_ne, bool_decide_eq_false_2, results_of_lookup by done. by rewrite Z.add_0_r.
  - rewrite lookup_insert_ne by congruence. unfold results_of.
    rewrite !elem_of_cons, elem_of_nil in Hj.
    rewrite !lookup_insert_ne; [done|vm_compute; naive_solver..].
Qed.

Lemma add_options_ok p o : 0 <= p < 2 ^ 161 ->
  Forall (fun w => woOption w ∈ [1; 2; 3; 4] /\ exists d, NewDecFromStr (woWeight w) = Some d /\ 0 <= d <= 10 ^ 18) o ->
  forall f, (forall k, 0 <= f k /\ f k + Z.of_nat (length o) * 2 ^ 162 < 2 ^ 314) ->
  ofold (add_option p) o (results_of f) = Ok (results_of (fun k => f k + part k (p, o))).
Proof.
  intros Hp Ho. induction Ho as [|w o [Hw Hd] Ho IH]; intros f Hf.
  - simpl. f_equal. apply results_of_ext. intros k. unfold part, list_sum. simpl. lia.
  - destruct (sub_ok p w Hp Hd) as (Hmul & Hsub & _). destruct Hd as (d & Ed & _).
    cbn [ofold]. unfold add_option at 1, MustNewDecFromStr. rewrite Ed. cbn [obind].
    assert (weight_of w = d) as Ew by (unfold weight_of; by rewrite Ed). rewrite <- Ew, Hmul. cbn [obind].
    rewrite results_of_lookup by done. pose proof (Hf (woOption w)) as Hfw. simpl length in *.
    rewrite Dec_Add_Ok by (unfold dec_fits; lia). cbn [obind]. rewrite results_of_insert by done. rewrite IH.
    + f_equal. apply results_of_ext. intros k. unfold part, list_sum. simpl. lia.
    + intros k. specialize (Hf k). case_bool_decide; lia.
Qed.

Lemma counts_bounds cs : Forall contribution_ok cs -> forall k1 k2, k1 <> k2 ->
  0 <= tallied k1 cs /\ 0 <= tallied k2 cs /\ tallied k1 cs + tallied k2 cs <= power cs + 4 * Z.of_nat (length cs)
  /\ 0 <= power cs <= Z.of_nat (length cs) * 2 ^ 161 /\ (power cs = 0 -> tallied k1 cs = 0).
Proof.
  intros H k1 k2 Hk. induction H as [|c cs Hc Hcs IH]; unfold tallied, power, list_sum in *; simpl; [lia|].
  pose proof (parts_le c k1 k2 Hc Hk). destruct Hc as [Hp _]. lia.
Qed.

Lemma add_power_ok p o cs vals : Forall contribution_ok (cs ++ [(p, o)]) -> Z.of_nat (length cs) < 2 ^ 98 ->
  add_power p o (state_of cs vals) = Ok (state_of (cs ++ [(p, o)]) vals).
Proof.
  intros [Hcs [[Hp Ho] _]%Forall_cons]%Forall_app Hlen. simpl in Hp, Ho. unfold add_power, state_of. cbn [results totalVotingPower].
  rewrite (add_options_ok p o Hp (options_weights _ Ho)).
  - cbn [obind]. pose proof (counts_bounds cs Hcs 1 2 ltac:(lia)). rewrite Dec_Add_Ok by (unfold dec_fits; lia).
    cbn [obind currValidators]. f_equal. unfold power. rewrite list_sum_app. f_equal.
    + apply results_of_ext. intros k. unfold tallied. rewrite list_sum_app. unfold list_sum at 3. simpl. lia.
    + unfold list_sum at 3. simpl. lia.
  - intros k. pose proof (counts_bounds cs Hcs k (k + 1) ltac:(lia)). destruct Ho as (_ & _ & ?). lia.
Qed.

(** ** The votes as events *)
Definition run_event (e : event) (t : TallyState) : outcome TallyState :=
  match e with
  | Voted k o => Ok (record_vote k o t)
  | Delegated k s o =>
      match currValidators t !! k with
      | None => Ok t
      | Some val =>
          let! deductions := Dec_Add (DelegatorDeductions val) s in
          let t := set_validator k (NewValidatorGovInfo (BondedTokens val) (DelegatorShares val) deductions (valVote val)) t in
          let! x := Dec_MulInt s (BondedTokens val) in
          let! votingPower := Dec_Quo x (DelegatorShares val) in
          add_power votingPower o t
      end
  end.

Lemma delegations_events o l : forall t,
  ofold (tally_delegation o) l t
  = ofold run_event ((fun d => Delegated (ValAddress_String (dlValidator d)) (dlShares d) o) <$> l) t.
Proof.
  induction l as [|d l IH]; intros t; [done|]. rewrite fmap_cons. cbn [ofold].
  change (run_event (Delegated (ValAddress_String (dlValidator d)) (dlShares d) o) t) with (tally_delegation o d t).
  destruct (tally_delegation o d t); simpl; [apply IH|done..].
Qed.

Class TallyLaws : Prop := {
  DeleteVote_delegations id a g b : GetDelegations (DeleteVote id a g) b = GetDelegations g b;
  DeleteVote_bonded id a g : TotalBondedTokens (DeleteVote id a g) = TotalBondedTokens g;
  DeleteVote_params id a g : GetTallyParams (DeleteVote id a g) = GetTallyParams g;
  DeleteVote_votes id a g v : v ∈ GetVotes (DeleteVote id a g) id ->
    v ∈ GetVotes g id /\ AccAddressFromBech32 (gvVoter v) <> Ok a
}.
  Context {laws : TallyLaws}.

Definition delete_votes (votes : list GovVote) g : G :=
  foldl (fun g v => DeleteVote (gvProposalId v) (voter_of v) g) g votes.

Lemma delete_votes_same votes : forall g, TotalBondedTokens (delete_votes votes g) = TotalBondedTokens g
  /\ GetTallyParams (delete_votes votes g) = GetTallyParams g.
Proof.
  induction votes as [|v votes IH]; intros g; [done|]. simpl. destruct (IH (DeleteVote (gvProposalId v) (voter_of v) g)) as [-> ->].
  by rewrite DeleteVote_bonded, DeleteVote_params.
Qed.

Lemma deleted_votes id votes : forall g, (forall v, v ∈ votes -> gvProposalId v = id) ->
  forall v, v ∈ GetVotes (delete_votes votes g) id ->
  v ∈ GetVotes g id /\ forall u, u ∈ votes -> AccAddressFromBech32 (gvVoter v) <> Ok (voter_of u).
Proof.
  induction votes as [|u votes IH]; intros g Hid v Hv; simpl in Hv; [by split; [|intros u ?%elem_of_nil]|].
  rewrite (Hid u ltac:(left)) in Hv. apply IH in Hv as [Hv Hall]; [|intros w Hw; apply Hid; by right].
  apply DeleteVote_votes in Hv as [Hv Hu]. split; [done|]. intros w [->|Hw]%elem_of_cons; [done|by apply Hall].
Qed.

Lemma votes_events votes : forall g0 g t, (forall v, v ∈ votes -> exists a, AccAddressFromBech32 (gvVoter v) = Ok a) ->
  (forall a, GetDelegations g a = GetDelegations g0 a) ->
  ofold tally_vote votes (g, t)
  = let! t := ofold run_event (mjoin (vote_events g0 <$> votes)) t in Ok (delete_votes votes g, t).
Proof.
  induction votes as [|v votes IH]; intros g0 g t Hp Hd; [done|]. rewrite fmap_cons.
  change (mjoin (vote_events g0 v :: (vote_events g0 <$> votes))) with (vote_events g0 v ++ mjoin (vote_events g0 <$> votes)).
  rewrite ofold_app. cbn [ofold].
  destruct (Hp v ltac:(left)) as [a Ea]. assert (voter_of v = a) as Ev by (unfold voter_of; by rewrite Ea).
  unfold tally_vote at 1, vote_events at 1. rewrite Ea, Ev. cbn [must obind ofold run_event]. rewrite Hd, delegations_events.
  destruct (ofold run_event _ (record_vote _ _ t)) as [t'| |]; cbn [obind]; [|done..].
  rewrite (IH g0).
  - cbn [delete_votes foldl]. unfold delete_votes. cbn [foldl]. by rewrite Ev.
  - intros u Hu. apply Hp. by right.
  - intros b. by rewrite DeleteVote_delegations.
Qed.

(** ** The effect of the events *)
Lemma deducted_snoc es e k : deducted (es ++ [e]) k
  = deducted es k + match e with Delegated k' s _ => if bool_decide (k' = k) then s else 0 | Voted _ _ => 0 end.
Proof. unfold deducted. rewrite list_sum_app. unfold list_sum at 2. simpl. lia. Qed.
Lemma voted_snoc v es e k : voted v (es ++ [e]) k
  = match e with Voted k' o => if bool_decide (k' = k) then o else voted v es k | Delegated _ _ _ => voted v es k end.
Proof. unfold voted. by rewrite foldl_app. Qed.

Lemma view_lookup vals es k : view vals es !! k = (fun i => NewValidatorGovInfo (BondedTokens i) (DelegatorShares i)
    (DelegatorDeductions i + deducted es k) (voted (valVote i) es k)) <$> vals !! k.
Proof. unfold view. rewrite map_lookup_imap. by destruct (vals !! k). Qed.

Lemma view_nil vals : view vals [] = vals.
Proof.
  apply map_eq. intros k. rewrite view_lookup. destruct (vals !! k) as [[b s d v]|]; [|done]. simpl.
  unfold deducted, list_sum. simpl. by rewrite Z.add_0_r.
Qed.

(** An event changes at most one validator. *)
Lemma view_snoc vals es e : view vals (es ++ [e])
  = match e with
    | Voted k o | Delegated k _ o => match view vals es !! k with
        | None => view vals es
        | Some val => <[k := match e with
            | Voted _ o => NewValidatorGovInfo (BondedTokens val) (DelegatorShares val) (DelegatorDeductions val) o
            | Delegated _ s _ => NewValidatorGovInfo (BondedTokens val) (DelegatorShares val) (DelegatorDeductions val + s) (valVote val)
            end]> (view vals es)
        end
    end.
Proof.
  apply map_eq. intros j. rewrite view_lookup. pose proof (view_lookup vals es j) as Hj.
  destruct (vals !! j) as [i|] eqn:Ej; simpl in *.
  - rewrite deducted_snoc, voted_snoc. destruct e as [k o|k s o]; case_bool_decide as Hk; [subst k| |subst k|].
    + rewrite Hj, lookup_insert_eq. simpl. by rewrite Z.add_0_r.
    + destruct (view vals es !! k); rewrite ?lookup_insert_ne, Hj by done; by rewrite Z.add_0_r.
    + rewrite Hj, lookup_insert_eq. simpl. by rewrite Z.add_assoc.
    + destruct (view vals es !! k); rewrite ?lookup_insert_ne, Hj by done; by rewrite Z.add_0_r.
  - destruct e as [k o|k s o]; destruct (view vals es !! k) eqn:Ek; [|done| |done];
      rewrite lookup_insert_ne; (done || congruence).
Qed.

(** Delegations are not negative, and those of voters do not exceed a validator's shares. *)
Record events_ok vals es : Prop := {
  ev_votes : forall k o, Voted k o ∈ es -> options_ok o;
  ev_delegations : forall k s o, Delegated k s o ∈ es -> 0 <= s /\ options_ok o;
  ev_shares : forall k i, vals !! k = Some i -> DelegatorDeductions i + deducted es k <= DelegatorShares i;
  ev_length : Z.of_nat (length es) < 2 ^ 97
}.
Definition vals_ok vals : Prop :=
  forall k i, vals !! k = Some i -> val_ok i /\ 0 <= DelegatorDeductions i /\ options_ok (valVote i).

Lemma deducted_nonneg es k : (forall k s o, Delegated k s o ∈ es -> 0 <= s) -> 0 <= deducted es k.
Proof.
  intros H. apply list_sum_nonneg. intros [|k' s o] He; [done|]. pose proof (H _ _ _ He). case_bool_decide; lia.
Qed.

Lemma events_ok_prefix vals es e : events_ok vals (es ++ [e]) -> events_ok vals es.
Proof.
  intros [Hv Hd Hs Hl]. split.
  - intros k o Hin. apply (Hv k). apply elem_of_app. by left.
  - intros k s o Hin. apply (Hd k). apply elem_of_app. by left.
  - intros k i Hk. pose proof (Hs k i Hk) as Hs'. rewrite deducted_snoc in Hs'. destruct e as [|k' s o]; [lia|].
    pose proof (Hd k' s o ltac:(apply elem_of_app; right; left)). case_bool_decide; lia.
  - rewrite length_app in Hl. lia.
Qed.

Lemma delegated_snoc vals es e : delegated vals (es ++ [e]) = delegated vals es ++ delegated vals [e].
Proof. apply omap_app. Qed.

Lemma delegated_one vals e : delegated vals [e] = match e with
  | Delegated k s o => match vals !! k with Some i => [(pow i s, o)] | None => [] end
  | Voted _ _ => [] end.
Proof. destruct e as [|k s o]; [done|]. unfold delegated. simpl. by destruct (vals !! k). Qed.

Lemma delegated_length vals es : (length (delegated vals es) <= length es)%nat.
Proof.
  induction es as [|e es IH] using rev_ind; [done|]. rewrite delegated_snoc, !length_app.
  rewrite delegated_one. destruct e as [|k s o]; simpl; [lia|]. destruct (vals !! k); simpl; lia.
Qed.

Lemma delegated_ok vals es : vals_ok vals -> events_ok vals es -> Forall contribution_ok (delegated vals es).
Proof.
  intros Hvals. induction es as [|e es IH] using rev_ind; intros Hes; [constructor|].
  rewrite delegated_snoc. apply Forall_app. split; [apply IH; by eapply events_ok_prefix|].
  rewrite delegated_one. destruct e as [|k s o]; [constructor|]. destruct (vals !! k) as [i|] eqn:Ek; [|constructor].
  constructor; [|constructor]. destruct (Hvals k i Ek) as (Hi & Hd & _).
  destruct (ev_delegations _ _ Hes k s o) as [Hs Ho]; [apply elem_of_app; right; left|].
  pose proof (ev_shares _ _ Hes k i Ek) as Hk. rewrite deducted_snoc, bool_decide_eq_true_2 in Hk by done.
  pose proof (deducted_nonneg es k) as Hn. assert (0 <= deducted es k).
  { apply Hn. intros k' s' o' Hin. apply (ev_delegations _ _ Hes k' s' o'). apply elem_of_app. by left. }
  split; [|done]. apply (pow_ok i s Hi). lia.
Qed.

Lemma events_run vals es : vals_ok vals -> events_ok vals es ->
  ofold run_event es (state_of [] vals) = Ok (state_of (delegated vals es) (view vals es)).
Proof.
  intros Hvals. induction es as [|e es IH] using rev_ind; intros Hes; [by rewrite view_nil|].
  pose proof (events_ok_prefix _ _ _ Hes) as Hes'. rewrite ofold_app, (IH Hes'). cbn [obind ofold]. rewrite obind_ret.
  pose proof (delegated_ok _ _ Hvals Hes) as Hok. rewrite view_snoc. rewrite delegated_snoc, delegated_one in *.
  destruct e as [k o|k s o]; cbn [run_event].
  - rewrite app_nil_r. unfold record_vote, state_of. cbn [currValidators].
    by destruct (view vals es !! k).
  - cbn [currValidators state_of]. rewrite view_lookup.
    destruct (vals !! k) as [i|] eqn:Ek; cbn [fmap option_fmap option_map]; [|by rewrite app_nil_r].
    cbn [BondedTokens DelegatorShares DelegatorDeductions valVote].
    destruct (Hvals k i Ek) as (Hi & Hd & _).
    destruct (ev_delegations _ _ Hes k s o) as [Hs Ho]; [apply elem_of_app; right; left|].
    pose proof (ev_shares _ _ Hes k i Ek) as Hk. rewrite deducted_snoc, bool_decide_eq_true_2 in Hk by done.
    assert (0 <= deducted es k).
    { apply deducted_nonneg. intros k' s' o' Hin. apply (ev_delegations _ _ Hes' k' s' o' Hin). }
    destruct (pow_ok i s Hi ltac:(lia)) as (Hm & Hq & _). destruct Hi as [_ HS].
    rewrite Dec_Add_Ok by (unfold dec_fits; lia). cbn [obind BondedTokens DelegatorShares]. rewrite Hm. cbn [obind]. rewrite Hq. cbn [obind].
    apply (add_power_ok (pow i s) o (delegated vals es) _ Hok).
    pose proof (delegated_length vals es). pose proof (ev_length _ _ Hes'). lia.
Qed.

(** ** The validators that vote *)
Definition voter_ok i : Prop := val_ok i /\ 0 <= DelegatorDeductions i <= DelegatorShares i /\ options_ok (valVote i).

Lemma inherited_cons i l : inherited (i :: l) = match valVote i with [] => inherited l
  | o => (pow i (DelegatorShares i - DelegatorDeductions i), o) :: inherited l end.
Proof. unfold inherited. simpl. by destruct (valVote i). Qed.

Lemma inherited_ok l : Forall voter_ok l -> Forall contribution_ok (inherited l).
Proof.
  induction 1 as [|i l (Hi & Hd & Ho) Hl IH]; [constructor|]. rewrite inherited_cons.
  destruct (valVote i) as [|w o] eqn:Ev; [exact IH|]. constructor; [|exact IH]. split; [|done].
  apply (pow_ok i _ Hi). lia.
Qed.

Lemma validators_run l vals : Forall voter_ok l -> forall cs, Forall contribution_ok cs ->
  Z.of_nat (length cs + length l) < 2 ^ 98 ->
  ofold tally_validator l (state_of cs vals) = Ok (state_of (cs ++ inherited l) vals).
Proof.
  intros Hl. induction l as [|i l IH]; intros cs Hcs Hlen; [by rewrite app_nil_r|]. cbn [ofold]. simpl length in Hlen.
  pose proof (inherited_ok (i :: l) Hl) as Hall. apply Forall_cons in Hl as [(Hi & Hd & Ho) Hl].
  unfold tally_validator at 1. rewrite inherited_cons in *. destruct (valVote i) as [|w o] eqn:Ev; cbn [obind].
  - apply IH; [done|done|lia].
  - destruct (pow_ok i (DelegatorShares i - DelegatorDeductions i) Hi ltac:(lia)) as (Hm & Hq & _). destruct Hi as [_ HS].
    rewrite Dec_Sub_Ok by (unfold dec_fits; lia). cbn [obind]. rewrite Hm. cbn [obind]. rewrite Hq. cbn [obind].
    assert (Forall contribution_ok (cs ++ [(pow i (DelegatorShares i - DelegatorDeductions i), w :: o)])) as Hcs'
      by (apply Forall_app; split; [done|apply Forall_cons in Hall as [? _]; by constructor]).
    rewrite (add_power_ok _ _ cs vals Hcs') by lia. cbn [obind].
    rewrite IH; [by rewrite <- app_assoc|done|done|]. rewrite length_app. simpl. lia.
Qed.

(** The count does not depend on the order of the contributions. *)
Lemma state_of_perm cs cs' vals : cs ≡ₚ cs' -> state_of cs vals = state_of cs' vals.
Proof.
  intros H. unfold state_of, power, tallied. rewrite (list_sum_Permutation _ _ _ H). f_equal. apply results_of_ext.
  intros k. by apply list_sum_Permutation.
Qed.
End Counting.
