(* ===== verification/TallyDecision.v ===== *)
(** * app/tally_handler.go: the decision

    A consistent state has one result, which does not depend on the order in which Go
    visits the map of validators, and the votes are deleted; a proposal passes only with
    the quorum, a majority and without a veto; every share counts at most once. *)

From S2P Require Import Prelude Sdk SdkDec Tally TallyTheorems.

Section Decision.
  Context {G TR : Type} {env : TallyEnv G TR} {cfg : SdkConfig} {dc : DecConfig} {dm : DecMore}.
  Context {dl : DecLaws} {dr : DecRound} {laws : TallyLaws}.
  Implicit Types (g : G) (i : ValidatorGovInfo) (cs : list contribution) (es : list event).
  Implicit Types (vals : gmap string ValidatorGovInfo).

(** ** Consistent states *)
Record params_ok g (quorum threshold veto : Dec) : Prop := {
  po_quorum : NewDecFromStr (tpQuorum (GetTallyParams g)) = Some quorum;
  po_threshold : NewDecFromStr (tpThreshold (GetTallyParams g)) = Some threshold;
  po_veto : NewDecFromStr (tpVetoThreshold (GetTallyParams g)) = Some veto;
  po_positive : 0 <= threshold
}.
(** The votes are well formed, the validators have shares, and the delegations of the
    voters are among them; the numbers are far from the limits of the decimals. *)
Record countable g (id : Z) : Prop := {
  co_votes : forall v, v ∈ GetVotes g id -> (exists a, AccAddressFromBech32 (gvVoter v) = Ok a) /\ gvProposalId v = id;
  co_validators : forall k i, bonded_validators g !! k = Some i -> val_ok i;
  co_events : events_ok (bonded_validators g) (events g id);
  co_size : Z.of_nat (size (bonded_validators g)) < 2 ^ 97;
  co_bonded : 0 <= TotalBondedTokens g;
  co_params : exists quorum threshold veto, params_ok g quorum threshold veto
}.

(** All contributions: of the voters' delegations, then of the validators' other shares. *)
Definition counted g (id : Z) : list contribution :=
  delegated (bonded_validators g) (events g id)
  ++ inherited ((map_to_list (view (bonded_validators g) (events g id))).*2).

Lemma options_ok_nil : options_ok [].
Proof. split; [constructor|]. unfold list_sum. simpl. split; lia. Qed.

Lemma bonded_fresh g k i : bonded_validators g !! k = Some i -> DelegatorDeductions i = 0 /\ valVote i = [].
Proof.
  unfold bonded_validators.
  cut (forall l (m : gmap string ValidatorGovInfo),
    (forall j, m !! k = Some j -> DelegatorDeductions j = 0 /\ valVote j = []) ->
    foldl (fun vals v => <[ValAddress_String (svOperator v) :=
      NewValidatorGovInfo (svBondedTokens v) (svDelegatorShares v) 0 []]> vals) m l !! k = Some i ->
    DelegatorDeductions i = 0 /\ valVote i = []).
  { intros H. apply H. intros j Hj. by rewrite lookup_empty in Hj. }
  induction l as [|v l IH]; intros m Hm; simpl; [apply Hm|]. apply IH. intros j.
  rewrite lookup_insert_Some. intros [[_ <-]|[_ Hj]]; [done|by apply Hm].
Qed.

Lemma bonded_ok g id : countable g id -> vals_ok (bonded_validators g).
Proof.
  intros Hc k i Hk. destruct (bonded_fresh g k i Hk) as [-> ->].
  split; [by eapply (co_validators _ _ Hc)|]. split; [done|apply options_ok_nil].
Qed.

Lemma voted_ok v es k : options_ok v -> (forall k o, Voted k o ∈ es -> options_ok o) -> options_ok (voted v es k).
Proof.
  intros Hv. induction es as [|e es IH] using rev_ind; intros H; [done|]. rewrite voted_snoc.
  assert (options_ok (voted v es k)) by (apply IH; intros k' o Ho; apply (H k'); apply elem_of_app; by left).
  destruct e as [k' o|]; [|done]. case_bool_decide; [|done]. apply (H k'). apply elem_of_app. right. left.
Qed.

Lemma view_ok vals es : vals_ok vals -> events_ok vals es -> Forall voter_ok ((map_to_list (view vals es)).*2).
Proof.
  intros Hv He. apply Forall_forall. intros i ((k & j) & -> & Hin%elem_of_map_to_list)%list_elem_of_fmap. simpl.
  rewrite view_lookup in Hin. destruct (vals !! k) as [i|] eqn:Ek; [|done]. injection Hin as <-.
  destruct (Hv k i Ek) as (Hi & Hd & Ho). pose proof (ev_shares _ _ He k i Ek).
  pose proof (deducted_nonneg es k (fun k s o H => proj1 (ev_delegations _ _ He k s o H))).
  split; [exact Hi|]. split; [simpl; lia|]. simpl. apply voted_ok; [done|]. intros k' o Ho'. by eapply (ev_votes _ _ He).
Qed.

Lemma view_size vals es : length ((map_to_list (view vals es)).*2) = size vals.
Proof.
  rewrite length_fmap, length_map_to_list. rewrite <- !size_dom. f_equal. apply set_eq. intros k.
  rewrite !elem_of_dom, view_lookup. by rewrite fmap_is_Some.
Qed.

Lemma inherited_perm l l' : l ≡ₚ l' -> inherited l ≡ₚ inherited l'.
Proof. intros H. unfold inherited. by rewrite H. Qed.

Lemma counted_ok g id : countable g id ->
  Forall contribution_ok (counted g id) /\ Z.of_nat (length (counted g id)) < 2 ^ 98.
Proof.
  intros Hc. pose proof (bonded_ok _ _ Hc) as Hv. pose proof (co_events _ _ Hc) as He. unfold counted. split.
  - apply Forall_app. split; [by apply delegated_ok|by apply inherited_ok, view_ok].
  - rewrite length_app. pose proof (delegated_length (bonded_validators g) (events g id)). pose proof (ev_length _ _ He).
    assert (forall l, (length (inherited l) <= length l)%nat) as Hi.
    { induction l as [|i l IH]; [done|]. rewrite inherited_cons. destruct (valVote i); simpl; lia. }
    pose proof (Hi ((map_to_list (view (bonded_validators g) (events g id))).*2)) as Hs. rewrite view_size in Hs.
    pose proof (co_size _ _ Hc). lia.
Qed.

(** ** The decision on a count *)
Definition passes_with g cs (quorum threshold veto : Dec) : Prop :=
  (quorum - 1) * TotalBondedTokens g < power cs
  /\ 0 < power cs - tallied OptionAbstain cs
  /\ threshold * (power cs - tallied OptionAbstain cs) < tallied OptionYes cs * 10 ^ 18
  /\ tallied OptionNoWithVeto cs * 10 ^ 18 < (veto + 1) * power cs.

Lemma decide_ok g cs vals quorum threshold veto : Forall contribution_ok cs -> Z.of_nat (length cs) < 2 ^ 98 ->
  0 <= TotalBondedTokens g -> params_ok g quorum threshold veto ->
  exists passes burn, decide_tally g (state_of cs vals) = Ok (passes, burn)
    /\ (passes = true -> burn = false /\ passes_with g cs quorum threshold veto).
Proof.
  intros Hcs Hlen HT [Eq Et Ev Hpos]. unfold decide_tally, MustNewDecFromStr. rewrite Eq, Et, Ev. cbn [state_of results totalVotingPower].
  pose proof (counts_bounds cs Hcs OptionAbstain OptionYes ltac:(done)) as (Ha & Hy & Hay & Hp & Hp0).
  pose proof (counts_bounds cs Hcs OptionNoWithVeto OptionYes ltac:(done)) as (Hv & _ & Hvy & _ & _).
  destruct (Z.eqb_spec (TotalBondedTokens g) 0) as [HT0|HT0]; [by do 2 eexists|].
  destruct (Dec_Quo_round (power cs) (NewDec (TotalBondedTokens g))) as (r1 & E1 & R1); [unfold NewDec; lia..|].
  rewrite E1. cbn [obind]. destruct (Z.ltb_spec r1 quorum) as [|Hr1]; [by do 2 eexists|].
  unfold result_of. rewrite !results_of_lookup by (rewrite !elem_of_cons; vm_compute; tauto). cbn [obind].
  rewrite Dec_Sub_Ok by (unfold dec_fits; lia). cbn [obind].
  destruct (Z.eqb_spec (power cs - tallied OptionAbstain cs) 0) as [|Hna]; [by do 2 eexists|].
  assert (0 < power cs) by lia.
  destruct (Dec_Quo_round (tallied OptionNoWithVeto cs) (power cs)) as (r2 & E2 & R2); [lia..|].
  rewrite E2. cbn [obind]. destruct (Z.ltb_spec veto r2) as [|Hr2]; [by do 2 eexists|].
  destruct (Dec_Quo_round (tallied OptionYes cs) (power cs - tallied OptionAbstain cs)) as (r3 & E3 & R3); [lia..|].
  rewrite E3. cbn [obind]. destruct (Z.ltb_spec threshold r3) as [Hr3|]; [|by do 2 eexists].
  do 2 eexists. split; [reflexivity|]. intros _. split; [done|]. unfold NewDec in R1. unfold passes_with.
  set (na := power cs - tallied OptionAbstain cs) in *. set (T := TotalBondedTokens g) in *.
  assert (0 < na) as Hpn.
  { destruct (Z.lt_trichotomy na 0) as [Hneg|[?|?]]; [|done|done]. exfalso.
    assert (r3 * na <= na) by nia. lia. }
  split; [|split; [done|split]].
  - assert (quorum * T <= r1 * T) by (apply Z.mul_le_mono_nonneg_r; lia). lia.
  - assert ((threshold + 1) * na <= r3 * na) by (apply Z.mul_le_mono_nonneg_r; lia). lia.
  - assert (r2 * power cs <= veto * power cs) by (apply Z.mul_le_mono_nonneg_r; lia). lia.
Qed.

(** The loops and the whole handler in terms of the contributions. *)
Lemma count_votes_counted range id g : countable g id -> (forall m, range m ≡ₚ (map_to_list m).*2) ->
  count_votes range id g
  = Ok (delete_votes (GetVotes g id) g, state_of (counted g id) (view (bonded_validators g) (events g id))).
Proof.
  intros Hc Hr. unfold count_votes. pose proof (bonded_ok _ _ Hc) as Hv. pose proof (co_events _ _ Hc) as He.
  rewrite (votes_events _ g) by (done || (intros v Hin; by apply (co_votes _ _ Hc v Hin))).
  change (mkTally zero_results 0 (bonded_validators g)) with (state_of [] (bonded_validators g)).
  fold (events g id). rewrite (events_run _ _ Hv He). cbn [obind currValidators state_of].
  fold (state_of (delegated (bonded_validators g) (events g id)) (view (bonded_validators g) (events g id))).
  pose proof (Hr (view (bonded_validators g) (events g id))) as Hperm. pose proof (view_ok _ _ Hv He) as Hok.
  rewrite validators_run.
  - cbn [obind]. rewrite (state_of_perm _ (counted g id)); [done|].
    unfold counted. apply Permutation_app_head. by apply inherited_perm.
  - by rewrite Hperm.
  - by apply delegated_ok.
  - rewrite Hperm, view_size. pose proof (delegated_length (bonded_validators g) (events g id)).
    pose proof (ev_length _ _ He). pose proof (co_size _ _ Hc). lia.
Qed.

Lemma Tally_counted range id g : countable g id -> (forall m, range m ≡ₚ (map_to_list m).*2) ->
  Tally range id g
  = let! '(passes, burn) := decide_tally g (state_of (counted g id) ∅) in
    Ok (passes, burn, NewTallyResultFromMap (results_of (fun k => tallied k (counted g id))), delete_votes (GetVotes g id) g).
Proof.
  intros Hc Hr. unfold Tally. rewrite (count_votes_counted range id g Hc Hr). cbn [obind].
  unfold decide_tally. cbn [state_of results totalVotingPower].
  by destruct (delete_votes_same (GetVotes g id) g) as [-> ->].
Qed.

(** C21: a consistent proposal is tallied without a panic, and with the same verdict and
    counts in whatever order Go visits the map of validators, so that all nodes agree;
    afterwards the proposal has no votes. *)
Theorem tally_deterministic g id : countable g id ->
  exists passes burn g', GetVotes g' id = []
    /\ forall range, (forall m, range m ≡ₚ (map_to_list m).*2) ->
       Tally range id g = Ok (passes, burn, NewTallyResultFromMap (results_of (fun k => tallied k (counted g id))), g').
Proof.
  intros Hc. destruct (co_params _ _ Hc) as (quorum & threshold & veto & Hp). destruct (counted_ok _ _ Hc) as [Hok Hl].
  destruct (decide_ok g (counted g id) ∅ _ _ _ Hok Hl (co_bonded _ _ Hc) Hp) as (passes & burn & Hd & _).
  exists passes, burn, (delete_votes (GetVotes g id) g). split.
  - apply elem_of_nil_inv. intros v Hv. apply deleted_votes in Hv as [Hv Hall]; [|intros u Hu; by apply (co_votes _ _ Hc)].
    destruct (co_votes _ _ Hc v Hv) as [[a Ha] _]. apply (Hall v Hv). unfold voter_of. by rewrite Ha.
  - intros range Hr. rewrite (Tally_counted range id g Hc Hr), Hd. reflexivity.
Qed.

(** C22: a proposal passes only when the votes reach the quorum of the bonded tokens, more
    than the threshold of the power that does not abstain says yes, and the veto stays
    within its threshold (quorum and veto up to 10^-18); its deposits are kept. *)
Theorem passed_has_majority range id g burn r g' quorum threshold veto :
  countable g id -> (forall m, range m ≡ₚ (map_to_list m).*2) -> params_ok g quorum threshold veto ->
  Tally range id g = Ok (true, burn, r, g') ->
  burn = false /\ passes_with g (counted g id) quorum threshold veto.
Proof.
  intros Hc Hr Hp Hx. rewrite (Tally_counted range id g Hc Hr) in Hx. destruct (counted_ok _ _ Hc) as [Hok Hl].
  destruct (decide_ok g (counted g id) ∅ _ _ _ Hok Hl (co_bonded _ _ Hc) Hp) as (passes & b & Hd & Himp).
  rewrite Hd in Hx. cbn [obind] in Hx. injection Hx as -> -> _ _. by apply Himp.
Qed.

(** ** Every share counts at most once *)
Definition by_validator (h : ValidatorGovInfo -> Dec -> Z) es (x : string * ValidatorGovInfo) : Z :=
  list_sum (fun e => match e with Delegated k s _ => if bool_decide (k = x.1) then h x.2 s else 0 | Voted _ _ => 0 end) es.

Lemma by_validator_snoc h es e x : by_validator h (es ++ [e]) x = by_validator h es x
  + match e with Delegated k s _ => if bool_decide (k = x.1) then h x.2 s else 0 | Voted _ _ => 0 end.
Proof. unfold by_validator. rewrite list_sum_app. unfold list_sum at 2. simpl. lia. Qed.

Lemma list_sum_at (l : list (string * ValidatorGovInfo)) k (h : ValidatorGovInfo -> Z) : NoDup l.*1 ->
  (forall i, (k, i) ∈ l -> list_sum (fun x => if bool_decide (k = x.1) then h x.2 else 0) l = h i)
  /\ (k ∉ l.*1 -> list_sum (fun x => if bool_decide (k = x.1) then h x.2 else 0) l = 0).
Proof.
  unfold list_sum. induction l as [|[k' i'] l IH]; intros Hd; simpl; [by split; [intros i ?%elem_of_nil|]|].
  apply NoDup_cons in Hd as [Hk Hd]. destruct (IH Hd) as [IHin IHout]. split.
  - intros i [[= -> ->]|Hin]%elem_of_cons; [rewrite bool_decide_eq_true_2, IHout by done; lia|].
    rewrite (IHin i Hin), bool_decide_eq_false_2; [lia|]. intros ->. apply Hk. apply list_elem_of_fmap. by exists (k', i).
  - rewrite not_elem_of_cons. intros [Hne Hl]. rewrite bool_decide_eq_false_2, IHout by done. lia.
Qed.

Lemma delegated_sum (f : contribution -> Z) (h : ValidatorGovInfo -> Dec -> Z) vals es :
  (forall i s o, f (pow i s, o) = h i s) ->
  list_sum f (delegated vals es) = list_sum (by_validator h es) (map_to_list vals).
Proof.
  intros Hf. assert (NoDup (map_to_list vals).*1) as Hd by apply NoDup_fst_map_to_list.
  induction es as [|e es IH] using rev_ind; [symmetry; apply list_sum_zero|].
  rewrite delegated_snoc, list_sum_app, IH, (list_sum_ext _ _ _ (fun x _ => by_validator_snoc h es e x)), list_sum_add.
  f_equal. rewrite delegated_one. destruct e as [k o|k s o]; [symmetry; apply list_sum_zero|].
  destruct (list_sum_at (map_to_list vals) k (fun i => h i s) Hd) as [Hin Hout]. destruct (vals !! k) as [i|] eqn:Ek.
  - rewrite (Hin i) by (by apply elem_of_map_to_list). unfold list_sum. simpl. rewrite Hf. lia.
  - rewrite Hout; [done|]. intros ((k' & i) & -> & Hx%elem_of_map_to_list)%list_elem_of_fmap. simpl in Ek. congruence.
Qed.

Definition viewed es (x : string * ValidatorGovInfo) : ValidatorGovInfo :=
  NewValidatorGovInfo (BondedTokens x.2) (DelegatorShares x.2) (DelegatorDeductions x.2 + deducted es x.1) (voted (valVote x.2) es x.1).

Lemma view_list vals es : (map_to_list (view vals es)).*2 ≡ₚ viewed es <$> map_to_list vals.
Proof.
  assert (map_to_list (view vals es) ≡ₚ (fun x => (x.1, viewed es x)) <$> map_to_list vals) as ->.
  - apply NoDup_Permutation; [apply NoDup_map_to_list| |].
    + apply (NoDup_fmap_1 fst). rewrite <- list_fmap_compose. apply NoDup_fst_map_to_list.
    + intros [k j]. rewrite elem_of_map_to_list, view_lookup, list_elem_of_fmap, fmap_Some. split.
      * intros (i & Hi & ->). exists (k, i). by rewrite elem_of_map_to_list.
      * intros ([k' i] & [= -> ->] & Hi%elem_of_map_to_list). by exists i.
  - by rewrite <- list_fmap_compose.
Qed.

Lemma inherited_sum (f : contribution -> Z) l : list_sum f (inherited l)
  = list_sum (fun i => match valVote i with [] => 0 | o => f (pow i (DelegatorShares i - DelegatorDeductions i), o) end) l.
Proof.
  induction l as [|i l IH]; [done|]. rewrite inherited_cons. unfold list_sum in *. destruct (valVote i) eqn:E; simpl; rewrite E, IH; lia.
Qed.

(** One validator: the powers of its shares, with one unit for the rounding of each. *)
Lemma validator_share vals es k i : vals_ok vals -> events_ok vals es -> vals !! k = Some i -> DelegatorDeductions i = 0 ->
  by_validator pow es (k, i) * DelegatorShares i
  <= deducted es k * BondedTokens i * 10 ^ 18 + by_validator (fun _ _ => 1) es (k, i) * DelegatorShares i.
Proof.
  intros Hv He Hk H0. destruct (Hv k i Hk) as (Hi & _ & _). induction es as [|e es IH] using rev_ind.
  - unfold by_validator, deducted, list_sum. simpl. lia.
  - pose proof (events_ok_prefix _ _ _ He) as He'. specialize (IH He'). rewrite !by_validator_snoc, deducted_snoc.
    destruct e as [|k' s o]; [lia|]. cbn [fst snd]. case_bool_decide as Hkk; [|lia]. subst k'.
    pose proof (ev_shares _ _ He k i Hk) as Hs. rewrite deducted_snoc, bool_decide_eq_true_2 in Hs by done.
    pose proof (deducted_nonneg es k (fun k s o H => proj1 (ev_delegations _ _ He' k s o H))).
    destruct (ev_delegations _ _ He k s o) as [Hs0 _]; [apply elem_of_app; right; left|].
    destruct (pow_ok i s Hi ltac:(lia)) as (_ & _ & _ & Hp). lia.
Qed.

Lemma counted_power g id : countable g id ->
  power (counted g id) <= 10 ^ 18 * map_sum BondedTokens (bonded_validators g) + Z.of_nat (length (counted g id)).
Proof.
  intros Hc. pose proof (bonded_ok _ _ Hc) as Hv. pose proof (co_events _ _ Hc) as He.
  set (vals := bonded_validators g) in *. set (es := events g id) in *.
  assert (Z.of_nat (length (counted g id)) = list_sum (fun _ => 1) (counted g id)) as ->.
  { generalize (counted g id). unfold list_sum. induction l as [|c l IH]; simpl; lia. }
  unfold power, counted. fold vals es.
  rewrite !list_sum_app, (delegated_sum fst pow), (delegated_sum (fun _ => 1) (fun _ _ => 1)), !inherited_sum by done.
  rewrite view_list, !list_sum_fmap, map_sum_list_sum, list_sum_fmap, <- list_sum_scale, <- !list_sum_add.
  apply list_sum_le. intros [k i] Hk%elem_of_map_to_list. cbn [snd fst viewed valVote].
  destruct (bonded_fresh g k i Hk) as [H0 _]. destruct (Hv k i Hk) as (Hi & _ & _).
  pose proof (validator_share vals es k i Hv He Hk H0) as Hsh. pose proof (ev_shares _ _ He k i Hk) as Hs.
  pose proof (deducted_nonneg es k (fun k s o H => proj1 (ev_delegations _ _ He k s o H))) as Hn. rewrite H0, Z.add_0_l in Hs.
  change (pow (viewed es (k, i))) with (pow i).
  change (DelegatorDeductions (viewed es (k, i))) with (DelegatorDeductions i + deducted es k).
  change (DelegatorShares (viewed es (k, i))) with (DelegatorShares i). rewrite H0, Z.add_0_l.
  destruct (pow_ok i (DelegatorShares i - deducted es k) Hi ltac:(lia)) as (_ & _ & [Hp0 _] & Hp). destruct Hi as [HB HS].
  assert (deducted es k * BondedTokens i <= DelegatorShares i * BondedTokens i) by (apply Z.mul_le_mono_nonneg_r; lia).
  set (S := DelegatorShares i) in *. set (B := BondedTokens i) in *. apply (Z.mul_le_mono_pos_r _ _ S); [lia|].
  set (P := by_validator pow es (k, i)) in *. set (N := by_validator (fun _ _ => 1) es (k, i)) in *.
  set (D := deducted es k) in *. set (W := pow i (S - D)) in *. clearbody P N W D S B.
  destruct (voted (valVote i) es k); lia.
Qed.

(** Every share counts at most once, for the delegator that votes or else for the
    validator: the counted power is at most the tokens of the bonded validators, up to a
    rounding of 10^-18 for each contribution. *)
Theorem shares_count_once range id g : countable g id -> (forall m, range m ≡ₚ (map_to_list m).*2) ->
  exists g' t, count_votes range id g = Ok (g', t)
    /\ totalVotingPower t <= 10 ^ 18 * map_sum BondedTokens (bonded_validators g) + Z.of_nat (length (counted g id)).
Proof.
  intros Hc Hr. do 2 eexists. split; [by apply count_votes_counted|]. by apply counted_power.
Qed.
End Decision.
