(* ===== verification/TallyWitness.v ===== *)
(** * app/tally_handler.go: the theorems at work on a concrete chain

    Two bonded validators; the first one votes yes, one of its delegators votes no with two
    thirds of the weight and abstains with the rest of it. *)

From S2P Require Import Prelude Sdk SdkDec SdkModel Tally TallyTheorems TallyDecision.

Module TallyChain.
#[export] Existing Instances SdkModel.model SdkModel.laws SdkModel.bech32_laws DecModel.dec DecModel.dec_laws
  DecModel.more DecModel.dec_round.

Record Gov : Type := mkGov { ballots : list GovVote }.
Definition first : AccAddress := [1].
Definition second : AccAddress := [2].
Definition alice : AccAddress := [65].

Definition parse (s : string) : option Dec :=
  if bool_decide (s = "1") then Some (10 ^ 18) else if bool_decide (s = "0.5") then Some (5 * 10 ^ 17)
  else if bool_decide (s = "0.334") then Some (334 * 10 ^ 15) else if bool_decide (s = "0.666") then Some (666 * 10 ^ 15) else None.
(** The first validator has delegated to itself, alice to it and to one that is not bonded. *)
Definition delegations (a : AccAddress) : list Delegation :=
  if bool_decide (a = first) then [mkDelegation first (NewDec 20)]
  else if bool_decide (a = alice) then [mkDelegation first (NewDec 30); mkDelegation [9] (NewDec 5)] else [].
Definition vote_of (id : Z) (a : AccAddress) (v : GovVote) : bool :=
  (gvProposalId v =? id) && match AccAddressFromBech32 (gvVoter v) with Ok b => bool_decide (b = a) | _ => false end.
Definition remove (id : Z) (a : AccAddress) (g : Gov) : Gov :=
  mkGov (filter (fun v => vote_of id a v = false) (ballots g)).

#[export] Instance env : TallyEnv Gov (list Dec) := {|
  ValAddress_String a := AccAddress_String a;
  NewDecFromStr := parse;
  BondedValidatorsByPower _ := [mkStakingValidator first 100 (NewDec 100); mkStakingValidator second 50 (NewDec 50)];
  GetDelegations _ := delegations;
  TotalBondedTokens _ := 150;
  GetVotes g id := filter (fun v => gvProposalId v = id) (ballots g);
  DeleteVote := remove;
  GetTallyParams _ := mkTallyParams "0.334" "0.5" "0.334";
  NewTallyResultFromMap m := (fun k => default 0 (m !! k)) <$> [1; 2; 3; 4]
|}.

#[export] Instance laws : TallyLaws.
Proof.
  split; [reflexivity..|]. intros id a g v. cbn [GetVotes DeleteVote env remove ballots]. rewrite !list_elem_of_filter. intros (Hid & Hn & Hin). split; [done|]. intros E.
  unfold vote_of in Hn. rewrite E, Hid, Z.eqb_refl, bool_decide_eq_true_2 in Hn by done. done.
Qed.

Definition gov : Gov := mkGov
  [mkGovVote 7 (AccAddress_String first) [mkWeighted OptionYes "1"];
   mkGovVote 7 (AccAddress_String alice) [mkWeighted OptionNo "0.666"; mkWeighted OptionAbstain "0.334"]].
Definition by_key (m : gmap string ValidatorGovInfo) : list ValidatorGovInfo := (map_to_list m).*2.

Example tally_passes : Tally by_key 7 gov
  = Ok (true, false, [NewDec 70; 30 * (334 * 10 ^ 15); 30 * (666 * 10 ^ 15); 0], mkGov []).
Proof. vm_compute. reflexivity. Qed.

Definition option_okb (w : WeightedVoteOption) : bool :=
  bool_decide (woOption w ∈ [1; 2; 3; 4]) && match NewDecFromStr (woWeight w) with Some d => 0 <=? d | None => false end.
Lemma options_okb o : forallb option_okb o = true -> (list_sum weight_of o <=? 10 ^ 18) = true ->
  (length o <=? 4)%nat = true -> options_ok o.
Proof.
  intros H Hs Hl. split; [|split; [by apply Z.leb_le|by apply Nat.leb_le]]. apply Forall_forall. intros w Hw.
  rewrite forallb_forall in H. apply list_elem_of_In in Hw. specialize (H w Hw). unfold option_okb in H.
  apply andb_prop in H as [H1 H2]. split; [by apply bool_decide_eq_true in H1|].
  destruct (NewDecFromStr (woWeight w)) as [d|]; [|done]. exists d. by apply Z.leb_le in H2.
Qed.

Definition event_okb (e : event) : bool :=
  match e with
  | Voted _ o => forallb option_okb o && (list_sum weight_of o <=? 10 ^ 18) && (length o <=? 4)%nat
  | Delegated _ s o => (0 <=? s) && (forallb option_okb o && (list_sum weight_of o <=? 10 ^ 18) && (length o <=? 4)%nat)
  end.
Lemma events_okb es : forallb event_okb es = true -> forall e, e ∈ es -> event_okb e = true.
Proof. rewrite forallb_forall. intros H e He. apply H. by apply list_elem_of_In. Qed.

Lemma gov_events e : e ∈ events gov 7 -> event_okb e = true.
Proof. apply events_okb. vm_compute. reflexivity. Qed.

Lemma bonded_entries k i : bonded_validators gov !! k = Some i ->
  (k = AccAddress_String first /\ i = NewValidatorGovInfo 100 (NewDec 100) 0 [])
  \/ (k = AccAddress_String second /\ i = NewValidatorGovInfo 50 (NewDec 50) 0 []).
Proof.
  unfold bonded_validators. cbn [BondedValidatorsByPower env foldl].
  rewrite lookup_insert_Some. intros [[<- <-]|[_ H]]; [by right|]. apply lookup_insert_Some in H as [[<- <-]|[_ H]]; [by left|].
  exact (False_ind _ (lookup_empty_Some _ _ H)).
Qed.

Lemma gov_events_ok : events_ok (bonded_validators gov) (events gov 7).
Proof.
  split.
  - intros k o H%gov_events. simpl in H. apply andb_prop in H as [[H1 H2]%andb_prop H3]. by apply options_okb.
  - intros k s o H%gov_events. simpl in H. apply andb_prop in H as [H0 [[H1 H2]%andb_prop H3]%andb_prop].
    split; [by apply Z.leb_le|by apply options_okb].
  - intros k i [[-> ->]|[-> ->]]%bonded_entries; apply Z.leb_le; vm_compute; reflexivity.
  - apply Z.ltb_lt. vm_compute. reflexivity.
Qed.

Lemma gov_params : params_ok gov (334 * 10 ^ 15) (5 * 10 ^ 17) (334 * 10 ^ 15).
Proof. split; [reflexivity..|lia]. Qed.

Lemma gov_countable : countable gov 7.
Proof.
  split.
  - intros v Hv. apply list_elem_of_filter in Hv as [Hid Hv]. split; [|done]. cbn [ballots gov] in Hv.
    rewrite !elem_of_cons, elem_of_nil in Hv. destruct Hv as [->|[->|[]]];
      (eexists; cbn [gvVoter]; apply bech32_roundtrip; [repeat constructor; lia|discriminate]).
  - intros k i [[_ ->]|[_ ->]]%bonded_entries; repeat split; apply Z.ltb_lt || apply Z.leb_le; vm_compute; reflexivity.
  - exact gov_events_ok.
  - apply Z.ltb_lt. vm_compute. reflexivity.
  - apply Z.leb_le. reflexivity.
  - exists (334 * 10 ^ 15), (5 * 10 ^ 17), (334 * 10 ^ 15). exact gov_params.
Qed.

Lemma tally_deterministic_witness :
  exists passes burn g', GetVotes g' 7 = []
    /\ forall range, (forall m, range m ≡ₚ (map_to_list m).*2) ->
       Tally range 7 gov = Ok (passes, burn, NewTallyResultFromMap (results_of (fun k => tallied k (counted gov 7))), g').
Proof. exact (tally_deterministic gov 7 gov_countable). Defined.

Lemma passed_has_majority_witness :
  false = false /\ passes_with gov (counted gov 7) (334 * 10 ^ 15) (5 * 10 ^ 17) (334 * 10 ^ 15).
Proof.
  apply (passed_has_majority by_key 7 gov false
    [NewDec 70; 30 * (334 * 10 ^ 15); 30 * (666 * 10 ^ 15); 0] (mkGov []) _ _ _ gov_countable).
  - intros m. reflexivity.
  - exact gov_params.
  - vm_compute. reflexivity.
Defined.

Lemma shares_count_once_witness : exists g' t, count_votes by_key 7 gov = Ok (g', t)
  /\ totalVotingPower t <= 10 ^ 18 * map_sum BondedTokens (bonded_validators gov) + Z.of_nat (length (counted gov 7)).
Proof. apply (shares_count_once by_key 7 gov gov_countable). intros m. reflexivity. Defined.
End TallyChain.
