(* ===== verification/Council.v ===== *)
(** * x/council/v1: the council of validators

    A council is voted on in one period, sits in the next one and is replaced at the end
    of it ([keeper/abci.go]); validators register a key and vote ([keeper/msg_server.go]).
    Addresses of validators, the staking keeper, the size of a VRF key and the sorting
    routine are arguments ([CouncilEnv]). *)

From S2P Require Import Prelude Sdk GoStd.

(** ** Errors ([types/errors.go]) *)
Definition ErrUnknownCouncil : error := Registered "council" 2.
Definition ErrProposalExpired : error := Registered "council" 5.
Definition ErrInvalidGenesis : error := Registered "council" 8.
Definition ErrInvalidPublicKey : error := Registered "council" 13.
Definition ErrInvalidValidatorAddress : error := Registered "council" 14.
Definition ErrNoValidatorFound : error := Registered "staking" 3.

(** ** Data *)
Record Ballot : Type := mkBallot { blID : Z; blContent : bytes }.
Record Vote : Type := mkVote { vtCouncilID : Z; vtVoter : bytes; vtBallots : list Ballot }.
Record Council : Type := mkCouncil {
  cnID : Z;
  cnVotingStartHeight : Z;
  cnStartHeight : Z;
  cnEndHeight : Z;
  cnVotes : list Vote;
  cnMembers : list bytes
}.
Record Params : Type := mkParams { CouncilSize : Z }.
Record GenesisState : Type := mkGenesisState {
  gsParams : Params;
  gsVotingStartHeight : Z;
  gsVotingPeriod : Z;
  gsCurrentCouncilID : Z;
  gsCouncils : list Council
}.
Record MsgRegister : Type := mkMsgRegister { mrVoter : string; mrKey : bytes }.
Record MsgVote : Type := mkMsgVote { mvCouncilID : Z; mvVoter : string; mvBallots : list Ballot }.
(** [Ballot] of [keeper/abci.go] *)
Record Cast : Type := mkCast { castVoter : bytes; castContent : bytes }.

Class CouncilEnv (K : Type) : Type := {
  ValAddressFromBech32 : string -> outcome bytes;
  ValAddress_String : bytes -> string;
  AccAddressFromHexUnsafe : string -> outcome AccAddress;
  (** [stakingKeeper.GetValidator], whether there is one *)
  has_validator : K -> bytes -> bool;
  PublicKeySize : nat;
  (** [sort.Slice] with the comparison of contents *)
  sort_Slice : list Cast -> list Cast
}.

(** ** State

    The sub-stores of the module, keyed by the bytes that follow the prefix. *)
Record State (K : Type) : Type := mkState {
  councils : gmap bytes Council;
  votes : gmap bytes Vote;
  voters : gmap bytes bytes;
  params : option Params;
  votingStartHeight : option Z;
  votingPeriod : option Z;
  currentCouncilID : option Z;
  staking : K
}.
Arguments mkState {K}.
Arguments councils {K}.
Arguments votes {K}.
Arguments voters {K}.
Arguments params {K}.
Arguments votingStartHeight {K}.
Arguments votingPeriod {K}.
Arguments currentCouncilID {K}.
Arguments staking {K}.

(** ** Keys ([types/keys.go]) *)
Definition Uint64ToBytes (id : Z) : bytes := Uint64ToBigEndian id.
(** [binary.BigEndian.Uint64], which panics on fewer than eight bytes *)
Definition Uint64FromBytes (bz : bytes) : outcome Z :=
  if (length bz <? 8)%nat then Panic "index out of range" else Ok (be_val (take 8 bz)).
Definition GetKeyFromID (id : Z) : bytes := Uint64ToBytes id.
Definition GetVoteKey (councilID : Z) (voter : bytes) : bytes := GetKeyFromID councilID ++ voter.
Definition GetVoterKey (voter : bytes) : bytes := voter.

(** ** Councils ([types/council.go]) *)
Definition HasVotingEndedBy (c : Council) (height : Z) : bool := i64 (cnStartHeight c) <=? height.
Definition NewVote (councilID : Z) (voter : bytes) (ballots : list Ballot) : Vote := mkVote councilID voter ballots.

Section Council.
  Context {K : Type} {env : CouncilEnv K}.
  Implicit Types s : State K.

(** ** Store ([keeper/keeper.go], [keeper/params.go]) *)
Definition GetParams s : Params := default (mkParams 0) (params s).
Definition SetParams (p : Params) s : State K :=
  mkState (councils s) (votes s) (voters s) (Some p) (votingStartHeight s) (votingPeriod s) (currentCouncilID s) (staking s).

Definition SetCurrentCouncilID (id : Z) s : State K :=
  mkState (councils s) (votes s) (voters s) (params s) (votingStartHeight s) (votingPeriod s) (Some id) (staking s).
Definition GetCurrentCouncilID s : outcome Z :=
  match currentCouncilID s with Some id => Ok id | None => Err ErrInvalidGenesis end.
Definition IncrementCurrentCouncilID s : outcome (State K) :=
  let! id := GetCurrentCouncilID s in Ok (SetCurrentCouncilID (u64 (id + 1)) s).

Definition SetVotingStartHeight (h : Z) s : State K :=
  mkState (councils s) (votes s) (voters s) (params s) (Some h) (votingPeriod s) (currentCouncilID s) (staking s).
Definition GetVotingStartHeight s : outcome Z :=
  match votingStartHeight s with Some h => Ok h | None => Err ErrInvalidGenesis end.
Definition SetVotingPeriod (period : Z) s : State K :=
  mkState (councils s) (votes s) (voters s) (params s) (votingStartHeight s) (Some period) (currentCouncilID s) (staking s).
Definition GetVotingPeriod s : outcome Z :=
  match votingPeriod s with Some p => Ok p | None => Err ErrInvalidGenesis end.

Definition GetCouncil s (councilID : Z) : option Council := councils s !! GetKeyFromID councilID.
Definition SetCouncil (c : Council) s : State K :=
  mkState (<[GetKeyFromID (cnID c) := c]> (councils s)) (votes s) (voters s) (params s) (votingStartHeight s)
    (votingPeriod s) (currentCouncilID s) (staking s).

Definition StoreNewCouncil (votingStartHeight : Z) s : outcome (State K) :=
  let! currentCouncilID := GetCurrentCouncilID s in
  let! votingPeriod := GetVotingPeriod s in
  Ok (SetCouncil (mkCouncil (u64 (currentCouncilID + 1)) votingStartHeight (u64 (votingStartHeight + votingPeriod))
        (u64 (votingStartHeight + u64 (votingPeriod * 2))) [] []) s).

(** [IterateCouncil], [IterateVotes] and [IterateVoters] with callbacks that collect all. *)
Definition GetCouncils s : list Council := (iterator (councils s) None).*2.

Definition GetVote s (epochID : Z) (voter : bytes) : option Vote := votes s !! GetVoteKey epochID voter.
Definition SetVote (v : Vote) s : State K :=
  mkState (councils s) (<[GetVoteKey (vtCouncilID v) (vtVoter v) := v]> (votes s)) (voters s) (params s)
    (votingStartHeight s) (votingPeriod s) (currentCouncilID s) (staking s).
Definition DeleteVote (councilID : Z) (voter : bytes) s : State K :=
  mkState (councils s) (delete (GetVoteKey councilID voter) (votes s)) (voters s) (params s)
    (votingStartHeight s) (votingPeriod s) (currentCouncilID s) (staking s).
Definition GetVotes s : list Vote := (iterator (votes s) None).*2.
Definition GetVotesByCouncil s (councilID : Z) : list Vote := (prefix_iterator (votes s) (GetKeyFromID councilID)).*2.

Definition SetVoter (voter : bytes) (pk : bytes) s : State K :=
  mkState (councils s) (votes s) (<[GetVoterKey voter := pk]> (voters s)) (params s) (votingStartHeight s)
    (votingPeriod s) (currentCouncilID s) (staking s).
Definition GetVoters s : list bytes := (iterator (voters s) None).*1.

Definition AddVoter (voter key : bytes) s : outcome (State K) :=
  if negb (length key =? PublicKeySize)%nat then Err ErrInvalidPublicKey else Ok (SetVoter voter key s).
Definition AddVote (ctx : Ctx) (councilID : Z) (voter : bytes) (ballots : list Ballot) s : outcome (State K) :=
  match GetCouncil s councilID with
  | None => Err ErrUnknownCouncil
  | Some com =>
      if HasVotingEndedBy com (BlockHeight ctx) then Err ErrProposalExpired else
      Ok (SetVote (NewVote councilID voter ballots) s)
  end.

(** ** Messages ([types/msg.go], [keeper/msg_server.go]) *)
(** [GetSigners] of both messages *)
Definition GetSigners (voter : string) : outcome (list AccAddress) :=
  let! valAddr := must (ValAddressFromBech32 voter) in
  let! accAddr := must (AccAddressFromHexUnsafe (hex_EncodeToString valAddr)) in
  Ok [accAddr].
Definition MsgRegister_ValidateBasic (msg : MsgRegister) : outcome unit :=
  match ValAddressFromBech32 (mrVoter msg) with
  | Err _ => Err ErrInvalidValidatorAddress
  | Panic w => Panic w
  | Ok _ => if negb (length (mrKey msg) =? PublicKeySize)%nat then Err ErrInvalidPublicKey else Ok tt
  end.
Definition MsgVote_ValidateBasic (msg : MsgVote) : outcome unit :=
  match ValAddressFromBech32 (mvVoter msg) with
  | Err _ => Err ErrInvalidValidatorAddress
  | Panic w => Panic w
  | Ok _ => Ok tt
  end.
Definition msg_Register (msg : MsgRegister) s : outcome (State K) :=
  let! valAddr := ValAddressFromBech32 (mrVoter msg) in
  if negb (has_validator (staking s) valAddr) then Err ErrNoValidatorFound else
  AddVoter valAddr (mrKey msg) s.
Definition msg_Vote (ctx : Ctx) (msg : MsgVote) s : outcome (State K) :=
  let! voter := ValAddressFromBech32 (mvVoter msg) in
  AddVote ctx (mvCouncilID msg) voter (mvBallots msg) s.

(** ** The begin blocker ([keeper/abci.go]) *)
(** The ballots of all votes, without those whose content was there before. *)
Definition collect_ballot (voter : bytes) '(ballots, seen) (b : Ballot) : list Cast * gset bytes :=
  if bool_decide (blContent b ∈ seen) then (ballots, seen)
  else (ballots ++ [mkCast voter (blContent b)], {[blContent b]} ∪ seen).
Definition collect_ballots (vs : list Vote) : list Cast :=
  (foldl (fun st v => foldl (collect_ballot (vtVoter v)) st (vtBallots v)) ([], ∅) vs).1.

(** [ballots[i].voter] *)
Definition ballot_voter (ballots : list Cast) (i : Z) : outcome bytes :=
  match ballots !! Z.to_nat i with Some b => Ok (castVoter b) | None => Panic "index out of range" end.
Definition elect (councilSize : Z) (vs : list Vote) : outcome (list bytes) :=
  let ballots := sort_Slice (collect_ballots vs) in
  let! _ := make_check 24 councilSize in
  omap_list (ballot_voter ballots) (seqZ 0 (i64 councilSize)).

(** From the new current council on. *)
Definition elect_council (councilID : Z) s : outcome (State K) :=
  match GetCouncil s (u64 (councilID + 1)) with
  | None => Ok s
  | Some c =>
      let! members := elect (CouncilSize (GetParams s)) (cnVotes c) in
      Ok (SetCouncil (mkCouncil (cnID c) (cnVotingStartHeight c) (cnStartHeight c) (cnEndHeight c) (cnVotes c) members) s)
  end.
(** An error ends the function without effect; that of [IncrementCurrentCouncilID] is
    dropped. *)
Definition BeginBlock (ctx : Ctx) s : outcome (State K) :=
  match GetCurrentCouncilID s with
  | Err _ => Ok s
  | Panic w => Panic w
  | Ok councilID =>
      match GetCouncil s councilID with
      | None => Ok s
      | Some council =>
          match (if i64 (cnStartHeight council) <=? BlockHeight ctx
                 then StoreNewCouncil (cnStartHeight council) s else Ok s) with
          | Err _ => Ok s
          | Panic w => Panic w
          | Ok s =>
              if BlockHeight ctx <? i64 (cnEndHeight council) then Ok s else
              let s := match IncrementCurrentCouncilID s with Ok s => s | _ => s end in
              elect_council councilID s
          end
      end
  end.

(** ** Genesis ([genesis.go], [types/genesis.go]) *)
Definition DefaultVotingStartHeight : Z := 1.
Definition DefaultVotingPeriod : Z := 200.
Definition NewGenesisState (p : Params) (votingStartHeight votingPeriod currentCouncilID : Z) (l : list Council) : GenesisState :=
  mkGenesisState p votingStartHeight votingPeriod currentCouncilID l.
Definition DefaultGenesisState : GenesisState :=
  NewGenesisState (mkParams 1) DefaultVotingStartHeight DefaultVotingPeriod 1
    [mkCouncil 1 DefaultVotingStartHeight (DefaultVotingStartHeight + DefaultVotingPeriod)
       (DefaultVotingStartHeight + DefaultVotingPeriod * 2) [] []].
Definition GenesisState_Validate (gs : GenesisState) : outcome unit := Ok tt.
Definition InitGenesis (gs : GenesisState) s : outcome (State K) :=
  let! _ := must (GenesisState_Validate gs) in
  let s := SetParams (gsParams gs) s in
  let s := SetCurrentCouncilID (gsCurrentCouncilID gs) s in
  Ok (foldl (fun s c => SetCouncil c s) s (gsCouncils gs)).
Definition ExportGenesis s : outcome GenesisState :=
  let! startHeight := must (GetVotingStartHeight s) in
  let! period := must (GetVotingPeriod s) in
  let! currentID := must (GetCurrentCouncilID s) in
  Ok (NewGenesisState (GetParams s) startHeight period currentID (GetCouncils s)).

(** ** Queries ([keeper/grpc_query.go]) *)
Definition query_CurrentCouncilID s : outcome Z := GetCurrentCouncilID s.
Definition query_RegisteredVoters s : list string := ValAddress_String <$> GetVoters s.
End Council.
