(* ===== verification/CouncilTheorems.v ===== *)
(** * x/council/v1: what the voting can and cannot do

    The votes in the store are found by their council; the election rule takes the least
    contents of the ballots.  No genesis sets the voting period, so the council never
    changes; with a period the first change finds no ballots and panics. *)

From S2P Require Import Prelude Sdk GoStd Council.

(** [sort.Slice] and the round trip of validator addresses through hexadecimal. *)
Class CouncilLaws (K : Type) `{CouncilEnv K} : Prop := {
  sort_Permutation l : sort_Slice l ≡ₚ l;
  sort_Sorted l : StronglySorted (fun a b => bytes_le (castContent a) (castContent b)) (sort_Slice l)
}.

Section CouncilTheorems.
  Context {K : Type} {env : CouncilEnv K} {laws : CouncilLaws K}.
  Implicit Types s : State K.

(** ** The steps of the module *)
Inductive council_step : State K -> State K -> Prop :=
| step_register msg s s' : msg_Register msg s = Ok s' -> council_step s s'
| step_vote ctx msg s s' : is_u64 (mvCouncilID msg) -> msg_Vote ctx msg s = Ok s' -> council_step s s'
| step_block ctx s s' : BeginBlock ctx s = Ok s' -> council_step s s'
| step_staking k s :
    council_step s (mkState (councils s) (votes s) (voters s) (params s) (votingStartHeight s) (votingPeriod s) (currentCouncilID s) k).

(** ** Votes *)
Definition votes_ok s : Prop :=
  map_Forall (fun k v => k = GetVoteKey (vtCouncilID v) (vtVoter v) /\ is_u64 (vtCouncilID v)) (votes s).

Lemma council_AddVote_Ok ctx id voter ballots s s' : AddVote ctx id voter ballots s = Ok s' ->
  s' = SetVote (NewVote id voter ballots) s
  /\ exists c, GetCouncil s id = Some c /\ HasVotingEndedBy c (BlockHeight ctx) = false.
Proof.
  unfold AddVote. destruct (GetCouncil s id) as [c|]; [|done]. destruct (HasVotingEndedBy c _) eqn:E; [done|].
  intros [= <-]. eauto.
Qed.

Lemma SetVote_votes_ok v s : votes_ok s -> is_u64 (vtCouncilID v) -> votes_ok (SetVote v s).
Proof. intros H Hv. by apply map_Forall_insert_2. Qed.

Lemma elect_council_votes id s s' : elect_council id s = Ok s' -> votes s' = votes s.
Proof.
  unfold elect_council. destruct (GetCouncil s _) as [c|]; [|by intros [= <-]].
  intros (m & _ & [= <-])%obind_Ok. done.
Qed.

Lemma BeginBlock_votes ctx s s' : BeginBlock ctx s = Ok s' -> votes s' = votes s.
Proof.
  unfold BeginBlock. destruct (GetCurrentCouncilID s) as [id| |]; [|by intros [= <-]|done].
  destruct (GetCouncil s id) as [c|]; [|by intros [= <-]].
  assert (forall r, (if i64 (cnStartHeight c) <=? BlockHeight ctx then StoreNewCouncil (cnStartHeight c) s else Ok s) = Ok r ->
    votes r = votes s) as Hr.
  { intros r. destruct (i64 (cnStartHeight c) <=? BlockHeight ctx); [|by intros [= <-]].
    intros (i & _ & (p & _ & [= <-])%obind_Ok)%obind_Ok. done. }
  destruct (if _ <=? _ then _ else _) as [r| |]; [|by intros [= <-]|done]. specialize (Hr r eq_refl).
  destruct (BlockHeight ctx <? _); [by intros [= <-]|]. intros Hx%elect_council_votes.
  rewrite Hx. unfold IncrementCurrentCouncilID. by destruct (GetCurrentCouncilID r).
Qed.

Lemma votes_ok_step s s' : council_step s s' -> votes_ok s -> votes_ok s'.
Proof.
  intros Hs Hv. destruct Hs as [msg s s' H|ctx msg s s' Hid H|ctx s s' H|k s].
  - apply obind_Ok in H as (a & _ & H). destruct (has_validator (staking s) a); [|done]. simpl in H.
    unfold AddVoter in H. destruct (_ =? _)%nat; [|done]. by injection H as <-.
  - apply obind_Ok in H as (a & _ & H). apply council_AddVote_Ok in H as [-> _]. by apply SetVote_votes_ok.
  - unfold votes_ok. by rewrite (BeginBlock_votes _ _ _ H).
  - done.
Qed.

Lemma votes_ok_run s s' : rtc council_step s s' -> votes_ok s -> votes_ok s'.
Proof. induction 1; eauto using votes_ok_step. Qed.

Lemma GetVoteKey_prefix id id' voter : is_u64 id -> is_u64 id' -> GetKeyFromID id `prefix_of` GetVoteKey id' voter -> id = id'.
Proof.
  intros H H' [t Ht]. unfold GetVoteKey, GetKeyFromID, Uint64ToBytes in Ht.
  apply app_inj_1 in Ht as [Ht _]; [|done]. symmetry. by apply Uint64ToBigEndian_inj.
Qed.

(** In every state that the module reaches from an empty store, the votes listed for a
    council are exactly the votes that can be looked up for it: each voter's last vote, and
    none of another council. *)
Theorem votes_by_council s0 s id v : votes s0 = ∅ -> rtc council_step s0 s -> is_u64 id ->
  v ∈ GetVotesByCouncil s id <-> vtCouncilID v = id /\ GetVote s id (vtVoter v) = Some v.
Proof.
  intros H0 Hs Hid. assert (votes_ok s) as Hok.
  { eapply votes_ok_run; [done|]. unfold votes_ok. rewrite H0. apply map_Forall_empty. }
  unfold GetVotesByCouncil, GetVote. rewrite list_elem_of_fmap. split.
  - intros ((k & v') & -> & [Hp Hk]%elem_of_prefix_iterator). simpl in *.
    destruct (Hok k v' ltac:(assumption)) as [-> Hv]. apply GetVoteKey_prefix in Hp; [|done..]. by subst id.
  - intros [<- Hv]. exists (GetVoteKey (vtCouncilID v) (vtVoter v), v). split; [done|].
    apply elem_of_prefix_iterator. split; [by exists (vtVoter v)|done].
Qed.

(** ** The election rule *)
Definition all_casts (vs : list Vote) : list Cast :=
  mjoin ((fun v => (fun b => mkCast (vtVoter v) (blContent b)) <$> vtBallots v) <$> vs).
(** The first cast of each content. *)
Definition keep (st : list Cast * gset bytes) (c : Cast) : list Cast * gset bytes :=
  if bool_decide (castContent c ∈ st.2) then st else (st.1 ++ [c], {[castContent c]} ∪ st.2).

Lemma collect_ballots_keep vs : collect_ballots vs = (foldl keep ([], ∅) (all_casts vs)).1.
Proof.
  unfold collect_ballots, all_casts. f_equal. generalize (@nil Cast, ∅ : gset bytes). induction vs as [|v vs IH]; intros st; [done|].
  simpl. rewrite foldl_app, IH. f_equal. clear IH. revert st. induction (vtBallots v) as [|b l IH]; intros [a seen]; [done|].
  simpl. rewrite <- IH. reflexivity.
Qed.

(** [c] is the first of the casts with its content. *)
Definition first_cast (l : list Cast) (c : Cast) : Prop :=
  exists l1 l2, l = l1 ++ c :: l2 /\ castContent c ∉ castContent <$> l1.

Lemma first_cast_snoc l c c' : first_cast (l ++ [c']) c <-> first_cast l c \/ (c = c' /\ castContent c ∉ castContent <$> l).
Proof.
  split.
  - intros (l1 & l2 & E & Hn). destruct l2 as [|x l2 _] using rev_ind.
    + apply app_inj_tail in E as [-> ->]. by right.
    + left. exists l1, l2. rewrite app_comm_cons, app_assoc in E. apply app_inj_tail in E as [-> _]. done.
  - intros [(l1 & l2 & -> & Hn)|[-> Hn]].
    + exists l1, (l2 ++ [c']). by rewrite <- app_assoc.
    + exists l, []. done.
Qed.

Lemma keep_spec l : let st := foldl keep ([], ∅) l in
  NoDup (castContent <$> st.1) /\ (forall x, x ∈ st.2 <-> x ∈ castContent <$> l)
  /\ (forall c, c ∈ st.1 <-> first_cast l c).
Proof.
  induction l as [|c' l IH] using rev_ind; simpl.
  - split; [constructor|]. split; [set_solver|]. intros c. split; [by intros ?%elem_of_nil|].
    intros (l1 & l2 & E & _). by destruct l1.
  - rewrite foldl_app. simpl. destruct IH as (Hd & Hs & Hf). set (st := foldl keep ([], ∅) l) in *.
    unfold keep. case_bool_decide as Hc.
    + split; [done|]. setoid_rewrite fmap_app. split; [set_solver|]. intros c. rewrite Hf, first_cast_snoc. split; [by left|].
      intros [?|[-> Hn]]; [done|]. by rewrite Hs in Hc.
    + simpl. split_and!.
      * rewrite fmap_app. apply NoDup_app. split; [done|]. split; [|apply NoDup_singleton].
        intros x (c & -> & Hin)%list_elem_of_fmap E%list_elem_of_singleton. apply Hc. rewrite Hs, <- E.
        apply Hf in Hin as (l1 & l2 & -> & _). apply list_elem_of_fmap. exists c. split; [done|]. set_solver.
      * intros x. rewrite fmap_app. set_solver.
      * intros c. rewrite elem_of_app, list_elem_of_singleton, Hf, first_cast_snoc, <- Hs. split; [|naive_solver].
        intros [?| ->]; [by left|by right].
Qed.

Lemma ballot_voters_Ok (l : list Cast) n : (n <= length l)%nat ->
  omap_list (ballot_voter l) (seqZ 0 (Z.of_nat n)) = Ok (castVoter <$> take n l).
Proof.
  induction n as [|n IH]; intros Hn; [done|].
  assert (seqZ 0 (Z.of_nat (S n)) = seqZ 0 (Z.of_nat n) ++ [Z.of_nat n]) as ->.
  { replace (Z.of_nat (S n)) with (Z.of_nat n + 1) by lia. rewrite seqZ_app by lia. by rewrite Z.add_0_l. }
  destruct (lookup_lt_is_Some_2 l n) as [c Hc]; [lia|]. rewrite (take_S_r _ _ _ Hc), fmap_app.
  assert (forall (f : Z -> outcome bytes) a r b, omap_list f a = Ok r -> f b = Ok (castVoter c) ->
    omap_list f (a ++ [b]) = Ok (r ++ [castVoter c])) as Happ.
  { intros f a. induction a as [|x a IHa]; intros r b Ha Hb; simpl in *; [injection Ha as <-; by rewrite Hb|].
    destruct (f x) as [y| |]; [|done..]. cbn [obind] in *. apply obind_Ok in Ha as (ys & Hys & [= <-]). cbn [obind].
    by rewrite (IHa ys b Hys Hb). }
  apply Happ; [apply IH; lia|]. unfold ballot_voter. by rewrite Nat2Z.id, Hc.
Qed.

(** With enough different ballots the election gives the seats to the voters of the
    least contents: the ballots are those first cast for each content, none twice, in the
    order of their contents, and the council is its prefix of the given size. *)
Theorem elect_correct n vs : 0 <= n -> 24 * n <= maxAlloc -> (Z.to_nat n <= length (collect_ballots vs))%nat ->
  exists ranking, elect n vs = Ok (castVoter <$> take (Z.to_nat n) ranking)
    /\ NoDup (castContent <$> ranking)
    /\ StronglySorted (fun a b => bytes_le (castContent a) (castContent b)) ranking
    /\ forall c, c ∈ ranking <-> first_cast (all_casts vs) c.
Proof.
  intros Hn Hm Hl. exists (sort_Slice (collect_ballots vs)). pose proof (sort_Permutation (collect_ballots vs)) as Hp.
  unfold elect. rewrite make_check_fits by lia. unfold maxAlloc in Hm. rewrite i64_id by (unfold is_i64; lia). cbn [obind].
  split; [|split; [|split; [apply sort_Sorted|]]].
  - rewrite <- (Z2Nat.id n) at 1 by lia. apply ballot_voters_Ok. by rewrite Hp.
  - rewrite Hp, collect_ballots_keep. apply keep_spec.
  - intros c. rewrite Hp, collect_ballots_keep. apply keep_spec.
Qed.

(** ** No voting period *)
Definition orderly (c : Council) : Prop := i64 (cnStartHeight c) <= i64 (cnEndHeight c).
Definition no_period s : Prop := votingPeriod s = None /\ map_Forall (fun _ c => orderly c) (councils s).

(** The begin blocker waits for the start of the council, and then finds no period. *)
Lemma BeginBlock_waits ctx s : no_period s -> BeginBlock ctx s = Ok s.
Proof.
  intros [Hp Hc]. unfold BeginBlock. destruct (GetCurrentCouncilID s) as [id| |w] eqn:Ei; [|done|].
  - destruct (GetCouncil s id) as [c|] eqn:Ec; [|done]. pose proof (Hc _ _ Ec) as Ho. unfold orderly in Ho.
    unfold StoreNewCouncil, GetVotingPeriod. rewrite Ei, Hp. cbn [obind].
    destruct (Z.leb_spec (i64 (cnStartHeight c)) (BlockHeight ctx)); [done|].
    by rewrite (proj2 (Z.ltb_lt (BlockHeight ctx) (i64 (cnEndHeight c)))) by lia.
  - unfold GetCurrentCouncilID in Ei. by destruct (currentCouncilID s).
Qed.

(** What a step leaves alone when there is no period. *)
Definition same_council s s' : Prop :=
  councils s' = councils s /\ votingPeriod s' = votingPeriod s /\ currentCouncilID s' = currentCouncilID s.

Lemma step_same s s' : council_step s s' -> no_period s -> same_council s s'.
Proof.
  intros Hs Hn. destruct Hs as [msg s s' H|ctx msg s s' Hid H|ctx s s' H|k s]; [| | |done].
  - apply obind_Ok in H as (a & _ & H). destruct (has_validator (staking s) a); [|done]. simpl in H.
    unfold AddVoter in H. destruct (_ =? _)%nat; [|done]. by injection H as <-.
  - apply obind_Ok in H as (a & _ & H). by apply council_AddVote_Ok in H as [-> _].
  - rewrite (BeginBlock_waits ctx s Hn) in H. by injection H as <-.
Qed.

Lemma run_same s s' : rtc council_step s s' -> no_period s -> same_council s s' /\ no_period s'.
Proof.
  induction 1 as [s|s1 s2 s3 Hx _ IH]; intros Hn; [done|]. destruct (step_same _ _ Hx Hn) as (E1 & E2 & E3).
  assert (no_period s2) as Hn2 by (unfold no_period in *; by rewrite E1, E2).
  destruct (IH Hn2) as [(F1 & F2 & F3) Hn3]. split; [|done]. split_and!; congruence.
Qed.

Definition empty_store (k : K) : State K := mkState ∅ ∅ ∅ None None None None k.

Lemma council_InitGenesis_Ok gs k s : InitGenesis gs (empty_store k) = Ok s -> Forall orderly (gsCouncils gs) ->
  no_period s /\ currentCouncilID s = Some (gsCurrentCouncilID gs).
Proof.
  intros [= <-] Ho. set (s1 := SetCurrentCouncilID _ _).
  assert (no_period s1 /\ currentCouncilID s1 = Some (gsCurrentCouncilID gs)) as H by (split; [split; [done|apply map_Forall_empty]|done]).
  revert H. generalize s1. clear s1. induction Ho as [|c l Hc Hl IH]; intros s1 H1; [done|]. simpl. apply IH.
  destruct H1 as [[Hp Hm] Hid]. split; [|done]. split; [done|]. by apply map_Forall_insert_2.
Qed.

(** C26: the genesis does not store the voting period: from a genesis whose councils start
    before they end, whatever is registered and voted, the council never changes, the begin
    blocker does nothing at any height, and the state cannot be exported. *)
Theorem council_frozen gs k s0 s : InitGenesis gs (empty_store k) = Ok s0 -> Forall orderly (gsCouncils gs) ->
  rtc council_step s0 s ->
  councils s = councils s0 /\ currentCouncilID s = Some (gsCurrentCouncilID gs)
  /\ (forall ctx, BeginBlock ctx s = Ok s) /\ isPanic (ExportGenesis s) = true.
Proof.
  intros H0 Ho Hs. destruct (council_InitGenesis_Ok _ _ _ H0 Ho) as [Hn Hid].
  destruct (run_same _ _ Hs Hn) as [(E1 & _ & E3) Hn']. split_and!; [done|congruence|intros ctx; by apply BeginBlock_waits|].
  destruct Hn' as [Hp _]. unfold ExportGenesis, GetVotingStartHeight, GetVotingPeriod. rewrite Hp.
  by destruct (votingStartHeight s).
Qed.

(** ** With a voting period *)
Lemma elect_nobody n : is_u64 n -> 0 < n -> isPanic (elect n []) = true.
Proof.
  intros Hu Hn. unfold elect, make_check. pose proof (sort_Permutation (collect_ballots [])) as Hp.
  destruct (Z.ltb_spec (i64 n) 0); [done|]. destruct (maxAlloc <? _); [done|]. cbn [orb obind].
  assert (sort_Slice (collect_ballots []) = []) as -> by (by apply Permutation_nil_r).
  assert (0 < i64 n) as Hi.
  { unfold i64, is_u64 in *. pose proof (Z.div_mod (n + 2 ^ 63) (2 ^ 64) ltac:(lia)). pose proof (Z.mod_pos_bound (n + 2 ^ 63) (2 ^ 64)).
    assert (0 <= (n + 2 ^ 63) / 2 ^ 64 < 2) by (split; [apply Z.div_pos; lia|apply Z.div_lt_upper_bound; lia]). lia. }
  rewrite (seqZ_cons 0 (i64 n)) by lia. done.
Qed.

(** C37: where a voting period is set, the block that ends a council's term panics, whatever
    the votes: the next council is stored anew without votes just before they are counted,
    and the seats are filled without a check that there are enough ballots. *)
Theorem election_halts ctx s id c period : currentCouncilID s = Some id -> GetCouncil s id = Some c ->
  votingPeriod s = Some period -> orderly c -> i64 (cnEndHeight c) <= BlockHeight ctx ->
  is_u64 (CouncilSize (GetParams s)) -> 0 < CouncilSize (GetParams s) ->
  isPanic (BeginBlock ctx s) = true.
Proof.
  intros Hid Hc Hp Ho Hh Hu Hn. unfold orderly in Ho. unfold BeginBlock, StoreNewCouncil, GetCurrentCouncilID, GetVotingPeriod.
  rewrite Hid, Hc, Hp. cbn [obind]. rewrite (proj2 (Z.leb_le _ _)), (proj2 (Z.ltb_ge _ _)) by lia.
  unfold IncrementCurrentCouncilID, GetCurrentCouncilID. cbn [currentCouncilID SetCouncil]. rewrite Hid. cbn [obind].
  unfold elect_council, GetCouncil. cbn [councils SetCouncil SetCurrentCouncilID cnID]. rewrite lookup_insert_eq. cbn [cnVotes].
  pose proof (elect_nobody _ Hu Hn) as He. change (GetParams (SetCurrentCouncilID _ _)) with (GetParams s).
  by destruct (elect (CouncilSize (GetParams s)) []).
Qed.
End CouncilTheorems.
