(* ===== verification/CouncilWitness.v ===== *)
(** * x/council/v1: the theorems at work on the default genesis

    Two validators vote for the first council, one of them for contents that the other one
    has voted for as well. *)

From S2P Require Import Prelude Sdk SdkModel GoStd Council CouncilTheorems.

Module CouncilChain.
Definition cast_le (a b : Cast) : Prop := bytes_le (castContent a) (castContent b).
#[export] Instance cast_le_dec : RelDecision cast_le.
Proof. unfold cast_le. intros a b. apply _. Defined.
#[export] Instance cast_le_trans : Transitive cast_le.
Proof. intros [? a] [? b] [? c]. unfold cast_le. simpl. apply (transitivity (R := bytes_le)). Qed.
#[export] Instance cast_le_total : Total cast_le.
Proof. intros [? a] [? b]. unfold cast_le. simpl. apply (total bytes_le). Qed.

#[export] Instance env : CouncilEnv (list bytes) := {|
  ValAddressFromBech32 := SdkModel.string_address;
  ValAddress_String := SdkModel.address_string;
  AccAddressFromHexUnsafe := hex_DecodeString;
  has_validator k a := bool_decide (a ∈ k);
  PublicKeySize := 3;
  sort_Slice := merge_sort cast_le
|}.
#[export] Instance laws : CouncilLaws (list bytes).
Proof. split; intros l; [apply merge_sort_Permutation|apply (StronglySorted_merge_sort cast_le)]. Qed.

Definition ann : bytes := [65].
Definition bob : bytes := [66].
Definition run (o : outcome (State (list bytes))) : State (list bytes) :=
  match o with Ok s => s | _ => empty_store [] end.
Definition start : State (list bytes) := run (InitGenesis DefaultGenesisState (empty_store [ann; bob])).
Definition by_ann : MsgVote := mkMsgVote 1 (SdkModel.address_string ann) [mkBallot 1 [9]; mkBallot 2 [4]].
Definition by_bob : MsgVote := mkMsgVote 1 (SdkModel.address_string bob) [mkBallot 1 [4]; mkBallot 2 [7]].
Definition registered : State (list bytes) :=
  run (msg_Register (mkMsgRegister (SdkModel.address_string ann) [1; 2; 3]) start).
Definition voted : State (list bytes) :=
  run (msg_Vote (mkCtx 6 0) by_bob (run (msg_Vote (mkCtx 5 0) by_ann registered))).

Lemma start_run : rtc council_step start voted.
Proof.
  apply (rtc_l _ _ registered). { apply (step_register (mkMsgRegister (SdkModel.address_string ann) [1; 2; 3])). vm_compute. reflexivity. }
  apply (rtc_l _ _ (run (msg_Vote (mkCtx 5 0) by_ann registered))).
  { apply (step_vote (mkCtx 5 0) by_ann); [split; reflexivity || discriminate|]. vm_compute. reflexivity. }
  apply rtc_once. apply (step_vote (mkCtx 6 0) by_bob); [split; reflexivity || discriminate|]. vm_compute. reflexivity.
Qed.

Example votes_listed : GetVotesByCouncil voted 1 = [mkVote 1 ann (mvBallots by_ann); mkVote 1 bob (mvBallots by_bob)].
Proof. vm_compute. reflexivity. Qed.
Example elected : elect 3 (GetVotesByCouncil voted 1) = Ok [ann; bob; ann].
Proof. vm_compute. reflexivity. Qed.
Example signers_of_vote : GetSigners (mvVoter by_ann) = Ok [ann].
Proof. vm_compute. reflexivity. Qed.

Lemma votes_by_council_witness : mkVote 1 ann (mvBallots by_ann) ∈ GetVotesByCouncil voted 1
  <-> 1 = 1 /\ GetVote voted 1 ann = Some (mkVote 1 ann (mvBallots by_ann)).
Proof. apply (votes_by_council start voted 1); [reflexivity|apply start_run|split; reflexivity || discriminate]. Defined.

Lemma elect_correct_witness : exists ranking,
  elect 2 [mkVote 1 ann (mvBallots by_ann)] = Ok (castVoter <$> take (Z.to_nat 2) ranking)
  /\ NoDup (castContent <$> ranking)
  /\ StronglySorted (fun a b => bytes_le (castContent a) (castContent b)) ranking
  /\ forall c, c ∈ ranking <-> first_cast (all_casts [mkVote 1 ann (mvBallots by_ann)]) c.
Proof. apply (elect_correct 2); [done|done|]. vm_compute. repeat constructor. Defined.

Lemma default_orderly : Forall orderly (gsCouncils DefaultGenesisState).
Proof. constructor; [|constructor]. unfold orderly. apply Z.leb_le. vm_compute. reflexivity. Qed.

Lemma council_frozen_witness : councils voted = councils start /\ currentCouncilID voted = Some 1
  /\ (forall ctx, BeginBlock ctx voted = Ok voted) /\ isPanic (ExportGenesis voted) = true.
Proof.
  apply (council_frozen DefaultGenesisState [ann; bob] start voted); [vm_compute; reflexivity|apply default_orderly|apply start_run].
Defined.

Lemma election_halts_witness : isPanic (BeginBlock (mkCtx 401 0) (SetVotingPeriod 200 voted)) = true.
Proof.
  apply (election_halts (mkCtx 401 0) (SetVotingPeriod 200 voted) 1
    (mkCouncil 1 1 201 401 [] []) 200).
  - vm_compute. reflexivity.
  - vm_compute. reflexivity.
  - reflexivity.
  - unfold orderly. apply Z.leb_le. vm_compute. reflexivity.
  - apply Z.leb_le. vm_compute. reflexivity.
  - split; [apply Z.leb_le|apply Z.ltb_lt]; vm_compute; reflexivity.
  - apply Z.ltb_lt. vm_compute. reflexivity.
Defined.
End CouncilChain.
