(* ===== verification/DasignersPrecompile.v ===== *)
(** * precompiles/dasigners: the signers of the data availability layer, from the EVM

    A precompiled contract that decodes the arguments of a call, asks or changes the keeper
    of x/dasigners and encodes the answer ([dasigners.go], [query.go], [tx.go],
    [types.go], [events.go]).  The ABI codec and the formatting of addresses belong to
    go-ethereum and are arguments ([PrecompileEnv]). *)

From S2P Require Import Prelude Sdk GoStd Bn254 Dasigners.

(** ** Values of the ABI ([types.go]) *)
Record BN254G1Point : Type := mkPoint1 { ptX : Z; ptY : Z }.
Record BN254G2Point : Type := mkPoint2 { ptX0 : Z; ptX1 : Z; ptY0 : Z; ptY1 : Z }.
(** [common.Address] is its twenty bytes. *)
Record IDASignersSignerDetail : Type := mkDetail {
  dtSigner : bytes; dtSocket : string; dtPkG1 : BN254G1Point; dtPkG2 : BN254G2Point
}.

(** An [interface{}] by the types that the methods of the contract use. *)
Inductive interface : Type :=
| VBig (z : Z) | VUint32 (z : Z) | VBool (b : bool) | VString (s : string) | VBytes (b : bytes)
| VAddress (a : bytes) | VAddresses (l : list bytes)
| VPoint (p : BN254G1Point) | VPoint2 (p : BN254G2Point)
| VSigner (d : IDASignersSignerDetail) | VSigners (l : list IDASignersSignerDetail).

(** [args[i].(T)]: the index and the type assertion panic. *)
Definition arg {A : Type} (assert : interface -> option A) (args : list interface) (i : nat) : outcome A :=
  match args !! i with
  | None => Panic "index out of range"
  | Some v => match assert v with Some a => Ok a | None => Panic "interface conversion" end
  end.
Definition as_big v := match v with VBig z => Some z | _ => None end.
Definition as_uint32 v := match v with VUint32 z => Some z | _ => None end.
Definition as_string v := match v with VString s => Some s | _ => None end.
Definition as_bytes v := match v with VBytes b => Some b | _ => None end.
Definition as_address v := match v with VAddress a => Some a | _ => None end.
Definition as_addresses v := match v with VAddresses l => Some l | _ => None end.
Definition as_point v := match v with VPoint p => Some p | _ => None end.
Definition as_signer v := match v with VSigner d => Some d | _ => None end.

Class PrecompileEnv : Type := {
  (** [abi.MethodById]: the name of the method *)
  MethodById : bytes -> option string;
  (** [method.Inputs.Unpack] and [method.Outputs.Pack] *)
  Unpack : string -> bytes -> outcome (list interface);
  Pack : string -> list interface -> outcome bytes;
  (** [abi.MakeTopics] of an event and an address, and the packed data of an event *)
  MakeTopics : string -> bytes -> outcome (list bytes);
  Pack_event : string -> list interface -> outcome bytes;
  (** [addr.Hex()] *)
  Address_Hex : bytes -> string
}.

(** ** The state: the keeper's and the logs *)
Record Log : Type := mkLog { lgTopics : list bytes; lgData : bytes; lgBlockNumber : Z }.
Record PState (K : Type) : Type := mkPState { keeper : State K; logs : list Log }.
Arguments mkPState {K}.
Arguments keeper {K}.
Arguments logs {K}.

Record Evm : Type := mkEvm { Origin : bytes; has_StateDB : bool }.
Record Contract : Type := mkContract { Input : bytes; Gas : Z }.
Definition ErrExecutionReverted : error := Plain "execution reverted".
Definition ErrOutOfGas : error := Plain "out of gas".
Definition ErrInvalidNumberOfArgs : error := Plain "invalid number of arguments".
Definition ErrGetStateDB : error := Plain "get EVM StateDB failed".
Definition ErrInvalidSender : error := Plain "sender address is not the same as signer address".

(** ** Integers *)
(** [z.Bytes()]: the absolute value, most significant byte first, without leading zeros *)
Definition big_Bytes (z : Z) : bytes :=
  if z =? 0 then [] else be_bytes (Z.to_nat (Z.log2 (Z.abs z) / 8 + 1)) (Z.abs z).
(** [z.Uint64()]: the low 64 bits *)
Definition big_Uint64 (z : Z) : Z := u64 z.
(** [common.LeftPadBytes] *)
Definition LeftPadBytes (b : bytes) (l : nat) : bytes := replicate (l - length b) 0 ++ b.

Definition NewBN254G1Point (b : bytes) : outcome BN254G1Point :=
  let! x := slice b 0 32 in let! y := slice b 32 64 in Ok (mkPoint1 (be_val x) (be_val y)).
Definition SerializeG1 (p : BN254G1Point) : bytes := LeftPadBytes (big_Bytes (ptX p)) 32 ++ LeftPadBytes (big_Bytes (ptY p)) 32.
Definition NewBN254G2Point (b : bytes) : outcome BN254G2Point :=
  let! x0 := slice b 0 32 in let! x1 := slice b 32 64 in
  let! y0 := slice b 64 96 in let! y1 := slice b 96 128 in
  Ok (mkPoint2 (be_val x0) (be_val x1) (be_val y0) (be_val y1)).
Definition SerializeG2 (p : BN254G2Point) : bytes :=
  LeftPadBytes (big_Bytes (ptX0 p)) 32 ++ LeftPadBytes (big_Bytes (ptX1 p)) 32
  ++ LeftPadBytes (big_Bytes (ptY0 p)) 32 ++ LeftPadBytes (big_Bytes (ptY1 p)) 32.

(** [len(args) != n] *)
Definition check_args (args : list interface) (n : nat) : outcome unit :=
  if (length args =? n)%nat then Ok tt else Err ErrInvalidNumberOfArgs.

(** [s[2:]] *)
Definition string_from_2 (s : string) : outcome string :=
  match s with String _ (String _ s) => Ok s | _ => Panic "slice bounds out of range" end.

(** ** Gas ([dasigners.go]) *)
Definition RequiredGasMax : Z := 1000000000.
Definition RequiredGasBasic (method : string) : option Z :=
  if bool_decide (method = "epochNumber") then Some 1000
  else if bool_decide (method = "quorumCount") then Some 1000
  else if bool_decide (method = "getSigner") then Some 100000
  else if bool_decide (method = "getQuorum") then Some 100000
  else if bool_decide (method = "getQuorumRow") then Some 10000
  else if bool_decide (method = "registerSigner") then Some 100000
  else if bool_decide (method = "updateSocket") then Some 50000
  else if bool_decide (method = "registerNextEpoch") then Some 100000
  else if bool_decide (method = "getAggPkG1") then Some 1000000
  else if bool_decide (method = "isSigner") then Some 10000
  else if bool_decide (method = "registeredEpoch") then Some 10000
  else None.

Section Precompile.
  Context {gk : Gnark} {env : DaEnv} {K V : Type} {sk : StakingKeeper K V} {gostr : GoStrings} {pe : PrecompileEnv}.
  Implicit Types (s : State K) (st : PState K) (args : list interface).

Definition ToLowerHexWithoutPrefix (addr : bytes) : outcome string :=
  let! h := string_from_2 (Address_Hex addr) in Ok (ToLower h).

(** ** Requests ([types.go]) *)
Definition NewQueryQuorumCountRequest args : outcome Z :=
  let! _ := check_args args 1 in let! e := arg as_big args 0 in Ok (big_Uint64 e).
Definition NewQuerySignerRequest args : outcome (list string) :=
  let! _ := check_args args 1 in
  let! accounts := arg as_addresses args 0 in
  omap_list ToLowerHexWithoutPrefix accounts.
Definition NewQueryEpochQuorumRequest args : outcome (Z * Z) :=
  let! _ := check_args args 2 in
  let! e := arg as_big args 0 in
  let! q := arg as_big args 1 in
  Ok (big_Uint64 e, big_Uint64 q).
Definition NewQueryEpochQuorumRowRequest args : outcome (Z * Z * Z) :=
  let! _ := check_args args 3 in
  let! e := arg as_big args 0 in
  let! q := arg as_big args 1 in
  let! r := arg as_uint32 args 2 in
  Ok (big_Uint64 e, big_Uint64 q, r).
Definition NewQueryAggregatePubkeyG1Request args : outcome (Z * Z * bytes) :=
  let! _ := check_args args 3 in
  let! e := arg as_big args 0 in
  let! q := arg as_big args 1 in
  let! b := arg as_bytes args 2 in
  Ok (big_Uint64 e, big_Uint64 q, b).
Definition NewIDASignersSignerDetail (signer : Signer) : outcome IDASignersSignerDetail :=
  let! g1 := NewBN254G1Point (sgPubkeyG1 signer) in
  let! g2 := NewBN254G2Point (sgPubkeyG2 signer) in
  Ok (mkDetail (HexToAddress (sgAccount signer)) (sgSocket signer) g1 g2).
Definition NewMsgRegisterSigner args : outcome MsgRegisterSigner :=
  let! _ := check_args args 2 in
  let! signer := arg as_signer args 0 in
  let! account := ToLowerHexWithoutPrefix (dtSigner signer) in
  let! signature := arg as_point args 1 in
  Ok (mkRegisterSigner (mkSigner account (dtSocket signer) (SerializeG1 (dtPkG1 signer)) (SerializeG2 (dtPkG2 signer)))
        (SerializeG1 signature)).
Definition NewMsgRegisterNextEpoch args (account : string) : outcome MsgRegisterNextEpoch :=
  let! _ := check_args args 1 in
  let! signature := arg as_point args 0 in
  Ok (mkRegisterNextEpoch account (SerializeG1 signature)).
Definition NewMsgUpdateSocket args (account : string) : outcome MsgUpdateSocket :=
  let! _ := check_args args 1 in
  let! socket := arg as_string args 0 in
  Ok (mkUpdateSocket account socket).

(** ** Queries ([query.go]) *)
Definition EpochNumber s : outcome bytes :=
  let! epochNumber := GetEpochNumber s in
  Pack "epochNumber" [VBig (i64 epochNumber)].
Definition QuorumCount s args : outcome bytes :=
  let! req := NewQueryQuorumCountRequest args in
  let! count := GetQuorumCount s req in
  Pack "quorumCount" [VBig (i64 count)].
(** The keeper answers nil for an unknown account, and nil is dereferenced. *)
Definition GetSigner s args : outcome bytes :=
  let! req := NewQuerySignerRequest args in
  let! response := query_Signer s req in
  match response with
  | None => Panic "nil pointer dereference"
  | Some l =>
      let! signers := omap_list NewIDASignersSignerDetail l in
      Pack "getSigner" [VSigners signers]
  end.
Definition IsSigner s args : outcome bytes :=
  let! _ := check_args args 1 in
  let! a := arg as_address args 0 in
  let! account := ToLowerHexWithoutPrefix a in
  let! found := Dasigners.GetSigner s account in
  Pack "isSigner" [VBool (match found with Some _ => true | None => false end)].
Definition RegisteredEpoch s args : outcome bytes :=
  let! _ := check_args args 2 in
  let! a := arg as_address args 0 in
  let! account := ToLowerHexWithoutPrefix a in
  let! epoch := arg as_big args 1 in
  let! found := GetRegistration s (big_Uint64 epoch) account in
  Pack "registeredEpoch" [VBool (match found with Some _ => true | None => false end)].
Definition GetQuorum s args : outcome bytes :=
  let! '(e, q) := NewQueryEpochQuorumRequest args in
  let! quorum := GetEpochQuorum s e q in
  Pack "getQuorum" [VAddresses (HexToAddress <$> Signers quorum)].
Definition GetQuorumRow s args : outcome bytes :=
  let! '(e, q, r) := NewQueryEpochQuorumRowRequest args in
  let! signer := EpochQuorumRow s e q r in
  Pack "getQuorumRow" [VAddress (HexToAddress signer)].
Definition GetAggPkG1 s args : outcome bytes :=
  let! '(e, q, b) := NewQueryAggregatePubkeyG1Request args in
  let! '(key, total, hit) := AggregatePubkeyG1 s e q b in
  let! p := NewBN254G1Point key in
  Pack "getAggPkG1" [VPoint p; VBig (i64 total); VBig (i64 hit)].

(** ** Events ([events.go]) *)
Definition AddLog (l : Log) st : PState K := mkPState (keeper st) (logs st ++ [l]).
Definition EmitSocketUpdatedEvent (ctx : Ctx) (signer : bytes) (socket : string) st : outcome (PState K) :=
  let! topics := MakeTopics "SocketUpdated" signer in
  let! b := Pack_event "SocketUpdated" [VString socket] in
  Ok (AddLog (mkLog topics b (u64 (BlockHeight ctx))) st).
Definition EmitNewSignerEvent (ctx : Ctx) (signer : IDASignersSignerDetail) st : outcome (PState K) :=
  let! topics := MakeTopics "NewSigner" (dtSigner signer) in
  let! b := Pack_event "NewSigner" [VPoint (dtPkG1 signer); VPoint2 (dtPkG2 signer)] in
  EmitSocketUpdatedEvent ctx (dtSigner signer) (dtSocket signer) (AddLog (mkLog topics b (u64 (BlockHeight ctx))) st).

(** ** Transactions ([tx.go]) *)
Definition with_keeper s st : PState K := mkPState s (logs st).
Definition RegisterSigner (chain : string) (ctx : Ctx) (evm : Evm) args st : outcome (bytes * PState K) :=
  let! msg := NewMsgRegisterSigner args in
  let! sender := ToLowerHexWithoutPrefix (Origin evm) in
  if bool_decide (sender <> sgAccount (mrSigner msg)) then Err ErrInvalidSender else
  let! s := Dasigners.RegisterSigner chain msg (keeper st) in
  let! signer := arg as_signer args 0 in
  let! st := EmitNewSignerEvent ctx signer (with_keeper s st) in
  let! bz := Pack "registerSigner" [] in
  Ok (bz, st).
Definition RegisterNextEpoch (chain : string) (evm : Evm) args st : outcome (bytes * PState K) :=
  let! account := ToLowerHexWithoutPrefix (Origin evm) in
  let! msg := NewMsgRegisterNextEpoch args account in
  let! s := Dasigners.RegisterNextEpoch chain msg (keeper st) in
  let! bz := Pack "registerNextEpoch" [] in
  Ok (bz, with_keeper s st).
Definition UpdateSocket (ctx : Ctx) (evm : Evm) args st : outcome (bytes * PState K) :=
  let! account := ToLowerHexWithoutPrefix (Origin evm) in
  let! msg := NewMsgUpdateSocket args account in
  let! s := Dasigners.UpdateSocket msg (keeper st) in
  let! socket := arg as_string args 0 in
  let! st := EmitSocketUpdatedEvent ctx (Origin evm) socket (with_keeper s st) in
  let! bz := Pack "updateSocket" [] in
  Ok (bz, st).

(** ** The contract ([dasigners.go]) *)
Definition RequiredGas (input : bytes) : outcome Z :=
  let! id := slice input 0 4 in
  match MethodById id with
  | None => Ok RequiredGasMax
  | Some method => Ok (default RequiredGasMax (RequiredGasBasic method))
  end.

Definition dispatch (chain : string) (ctx : Ctx) (evm : Evm) (method : string) args st : outcome (bytes * PState K) :=
  let s := keeper st in
  let query (o : outcome bytes) := let! bz := o in Ok (bz, st) in
  if bool_decide (method = "epochNumber") then query (EpochNumber s)
  else if bool_decide (method = "quorumCount") then query (QuorumCount s args)
  else if bool_decide (method = "getSigner") then query (GetSigner s args)
  else if bool_decide (method = "getQuorum") then query (GetQuorum s args)
  else if bool_decide (method = "getQuorumRow") then query (GetQuorumRow s args)
  else if bool_decide (method = "getAggPkG1") then query (GetAggPkG1 s args)
  else if bool_decide (method = "isSigner") then query (IsSigner s args)
  else if bool_decide (method = "registeredEpoch") then query (RegisteredEpoch s args)
  else if bool_decide (method = "registerSigner") then RegisterSigner chain ctx evm args st
  else if bool_decide (method = "registerNextEpoch") then RegisterNextEpoch chain evm args st
  else if bool_decide (method = "updateSocket") then UpdateSocket ctx evm args st
  else Ok ([], st).

(** [cost]: the gas that the store accesses of the keeper consumed; [KVGasConfig] sets the
    price of each of them to zero. *)
Definition Run (chain : string) (ctx : Ctx) (evm : Evm) (contract : Contract) (readonly : bool) (cost : Z) st
  : outcome (bytes * PState K) :=
  if (length (Input contract) <? 4)%nat then Err ErrExecutionReverted else
  match MethodById (take 4 (Input contract)) with
  | None => Err ErrExecutionReverted
  | Some method =>
      let! args := Unpack method (drop 4 (Input contract)) in
      if negb (has_StateDB evm) then Err ErrGetStateDB else
      let! '(bz, st) := dispatch chain ctx evm method args st in
      if Gas contract <? cost then Err ErrOutOfGas else Ok (bz, st)
  end.
End Precompile.
