(* ===== verification/PrecompileTheorems.v ===== *)
(** * precompiles/dasigners: what a call can do

    A call changes only what belongs to the account that signed the transaction; a
    registered signer reads back as it was given; the query for an unknown account
    panics. *)

From S2P Require Import Prelude Sdk GoStd Bn254 Dasigners DasignersPrecompile.

(** ** Fixed-width encodings of integers *)
Lemma be_bytes_zero n m v : 0 <= v < 256 ^ Z.of_nat m -> (m <= n)%nat -> be_bytes n v = replicate (n - m) 0 ++ be_bytes m v.
Proof.
  intros Hv. induction n as [|n IH]; intros Hm; [by replace m with 0%nat by lia|].
  destruct (decide (m = S n)) as [->|Hne]; [by rewrite Nat.sub_diag|].
  replace (S n - m)%nat with (S (n - m)) by lia. cbn [be_bytes replicate app]. rewrite <- IH by lia. f_equal.
  rewrite byte_mod, Z.shiftr_div_pow2 by lia. rewrite Z.div_small; [done|].
  split; [lia|]. replace (2 ^ (8 * Z.of_nat n)) with (256 ^ Z.of_nat n) by (rewrite Z.pow_mul_r by lia; done).
  apply (Z.lt_le_trans _ (256 ^ Z.of_nat m)); [lia|]. apply Z.pow_le_mono_r; lia.
Qed.

Lemma LeftPadBytes_big z : 0 <= z < 2 ^ 256 -> LeftPadBytes (big_Bytes z) 32 = be_bytes 32 z.
Proof.
  intros Hz. unfold LeftPadBytes, big_Bytes. destruct (Z.eqb_spec z 0) as [->|Hne]; [reflexivity|].
  rewrite Z.abs_eq by lia. set (m := Z.to_nat (Z.log2 z / 8 + 1)). rewrite length_be_bytes.
  pose proof (Z.log2_nonneg z). pose proof (Z.log2_spec z ltac:(lia)) as [_ Hlog].
  assert (Z.log2 z < 256) as Hl by (apply Z.log2_lt_pow2; lia).
  assert (Z.of_nat m = Z.log2 z / 8 + 1) as Hm by (subst m; rewrite Z2Nat.id; [done|]; pose proof (Z.div_pos (Z.log2 z) 8); lia).
  assert (Z.log2 z / 8 < 32) by (apply Z.div_lt_upper_bound; lia).
  symmetry. apply be_bytes_zero; [|lia]. split; [lia|]. rewrite Hm. change 256 with (2 ^ 8). rewrite <- Z.pow_mul_r by lia.
  eapply Z.lt_le_trans; [exact Hlog|]. apply Z.pow_le_mono_r; [lia|]. pose proof (Z.mul_succ_div_gt (Z.log2 z) 8 ltac:(lia)). lia.
Qed.

Definition coordinate (z : Z) : Prop := 0 <= z < 2 ^ 256.
Lemma be_val_coordinate z : coordinate z -> be_val (be_bytes 32 z) = z.
Proof.
  intros Hz. rewrite be_val_be_bytes by apply Hz. change (256 ^ Z.of_nat 32) with (2 ^ 256). by apply Z.mod_small.
Qed.

Lemma slice_words (a b c : bytes) : length b = 32%nat -> slice (a ++ b ++ c) (length a) (length a + 32) = Ok b.
Proof.
  intros Hb. unfold slice. rewrite !length_app, Hb. rewrite (proj2 (Nat.leb_le _ _)) by lia.
  rewrite drop_app_length. f_equal. replace (length a + 32 - length a)%nat with (length b) by lia. apply take_app_length.
Qed.

Lemma G1Point_roundtrip p : coordinate (ptX p) -> coordinate (ptY p) -> NewBN254G1Point (SerializeG1 p) = Ok p.
Proof.
  intros Hx Hy. unfold NewBN254G1Point, SerializeG1. rewrite !LeftPadBytes_big by done.
  set (a := be_bytes 32 (ptX p)). set (b := be_bytes 32 (ptY p)).
  assert (slice (a ++ b) 0 32 = Ok a) as -> by (apply (slice_words []); done).
  assert (slice (a ++ b) 32 64 = Ok b) as -> by (rewrite <- (app_nil_r (a ++ b)), <- app_assoc; apply (slice_words a b []); done).
  cbn [obind]. unfold a, b.
  rewrite !be_val_coordinate by done. by destruct p.
Qed.

Lemma G2Point_roundtrip p : coordinate (ptX0 p) -> coordinate (ptX1 p) -> coordinate (ptY0 p) -> coordinate (ptY1 p) ->
  NewBN254G2Point (SerializeG2 p) = Ok p.
Proof.
  intros H0 H1 H2 H3. unfold NewBN254G2Point, SerializeG2. rewrite !LeftPadBytes_big by done.
  set (a := be_bytes 32 (ptX0 p)). set (b := be_bytes 32 (ptX1 p)). set (c := be_bytes 32 (ptY0 p)). set (d := be_bytes 32 (ptY1 p)).
  assert (slice (a ++ b ++ c ++ d) 0 32 = Ok a) as -> by (apply (slice_words []); done).
  assert (slice (a ++ b ++ c ++ d) 32 64 = Ok b) as -> by (apply (slice_words a); done).
  assert (slice (a ++ b ++ c ++ d) 64 96 = Ok c) as -> by (rewrite app_assoc; apply (slice_words (a ++ b)); done).
  assert (slice (a ++ b ++ c ++ d) 96 128 = Ok d) as ->.
  { rewrite !app_assoc. rewrite <- (app_nil_r ((_ ++ c) ++ d)), <- app_assoc. apply (slice_words ((a ++ b) ++ c) d []). done. }
  cbn [obind]. unfold a, b, c, d. rewrite !be_val_coordinate by done. by destruct p.
Qed.

(** ** Addresses *)
Definition address_ok (a : bytes) : Prop := length a = 20%nat /\ Forall is_byte a.

Class PrecompileLaws {env : DaEnv} {gostr : GoStrings} {pe : PrecompileEnv} : Prop := {
  (** [Hex] is "0x" and the digits, some of them in upper case *)
  Address_Hex_digits a : address_ok a ->
    exists c d h, Address_Hex a = String c (String d h) /\ ToLower h = hex_EncodeToString a;
  HexToAddress_hex a : address_ok a -> HexToAddress (hex_EncodeToString a) = a
}.

Section PrecompileTheorems.
  Context {gk : Gnark} {env : DaEnv} {K V : Type} {sk : StakingKeeper K V} {gostr : GoStrings} {pe : PrecompileEnv}.
  Context {laws : PrecompileLaws}.
  Implicit Types (s : State K) (st : PState K) (args : list interface).

Lemma ToLowerHex_hex a : address_ok a -> ToLowerHexWithoutPrefix a = Ok (hex_EncodeToString a).
Proof. intros Ha. destruct (Address_Hex_digits a Ha) as (c & d & h & E & Eh). unfold ToLowerHexWithoutPrefix. rewrite E. simpl. by rewrite Eh. Qed.

Lemma hex_key a : address_ok a -> hex_DecodeString (hex_EncodeToString a) = Ok a.
Proof. intros [_ Ha]. by apply hex_roundtrip. Qed.

(** ** The frame of a call *)
(** Signers are stored under their own account. *)
Definition signers_ok s : Prop := map_Forall (fun k sg => hex_DecodeString (sgAccount sg) = Ok k) (signers s).

(** Only the entry of [a] among the signers, and its registration for the next epoch. *)
Record changes_only (a : bytes) s s' : Prop := {
  ch_params : params s' = params s;
  ch_epoch : epochNumber s' = epochNumber s;
  ch_quorums : epochQuorums s' = epochQuorums s;
  ch_counts : quorumCounts s' = quorumCounts s;
  ch_staking : staking s' = staking s;
  ch_signers k : k <> a -> signers s' !! k = signers s !! k;
  ch_registrations k : (forall e, epochNumber s = Some e -> k <> GetEpochRegistrationKeyPrefix (u64 (e + 1)) ++ a) ->
    registrations s' !! k = registrations s !! k;
  ch_ok : signers_ok s'
}.

Lemma changes_only_refl a s : signers_ok s -> changes_only a s s.
Proof. by split. Qed.

Lemma SetSigner_changes a sg s s' : signers_ok s -> hex_DecodeString (sgAccount sg) = Ok a -> SetSigner sg s = Ok s' ->
  changes_only a s s' /\ signers s' = <[a := sg]> (signers s).
Proof.
  intros Hs Ha. unfold SetSigner, GetSignerKeyFromAccount. rewrite Ha. cbn [obind]. intros [= <-]. split; [|done]. split; try done.
  - intros k Hk. simpl. by rewrite lookup_insert_ne.
  - by apply map_Forall_insert_2.
Qed.

Lemma RegisterSigner_changes chain msg s s' a : signers_ok s -> hex_DecodeString (sgAccount (mrSigner msg)) = Ok a ->
  Dasigners.RegisterSigner chain msg s = Ok s' -> changes_only a s s' /\ signers s' = <[a := mrSigner msg]> (signers s).
Proof.
  intros Hs Ha. unfold Dasigners.RegisterSigner. intros (u & _ & (found & _ & H)%obind_Ok)%obind_Ok.
  destruct found; [done|]. apply obind_Ok in H as (c & _ & (h & _ & (sig & _ & (valid & _ & H)%obind_Ok)%obind_Ok)%obind_Ok).
  destruct valid; [|done]. simpl in H. by apply SetSigner_changes.
Qed.

Lemma RegisterNextEpoch_changes chain msg s s' a : signers_ok s -> hex_DecodeString (mnAccount msg) = Ok a ->
  Dasigners.RegisterNextEpoch chain msg s = Ok s' -> changes_only a s s'.
Proof.
  intros Hs Ha. unfold Dasigners.RegisterNextEpoch. intros (u & _ & (found & _ & H)%obind_Ok)%obind_Ok.
  destruct found as [sg|]; [|done]. apply obind_Ok in H as (e & He & H).
  apply obind_Ok in H as (c & _ & (h & _ & (sig & _ & (valid & _ & H)%obind_Ok)%obind_Ok)%obind_Ok).
  destruct valid; [|done]. simpl in H. unfold SetRegistration, GetRegistrationKey in H. rewrite Ha in H. cbn [obind] in H.
  injection H as <-. unfold GetEpochNumber in He. destruct (epochNumber s) as [e'|] eqn:Ee; [|done]. injection He as ->.
  split; try done. intros k Hk. simpl. rewrite lookup_insert_ne; [done|]. intros <-. by apply (Hk e).
Qed.

Lemma UpdateSocket_changes msg s s' a : signers_ok s -> hex_DecodeString (muAccount msg) = Ok a ->
  Dasigners.UpdateSocket msg s = Ok s' -> changes_only a s s'.
Proof.
  intros Hs Ha. unfold Dasigners.UpdateSocket, Dasigners.GetSigner, GetSignerKeyFromAccount. rewrite Ha. cbn [obind].
  destruct (signers s !! a) as [sg|] eqn:E; [|done]. intros H. pose proof (Hs _ _ E) as Hk.
  eapply SetSigner_changes; [done| |exact H]. exact Hk.
Qed.

Lemma EmitSocketUpdatedEvent_keeper ctx a socket st st' : EmitSocketUpdatedEvent ctx a socket st = Ok st' -> keeper st' = keeper st.
Proof. intros (t & _ & (b & _ & [= <-])%obind_Ok)%obind_Ok. done. Qed.
Lemma EmitNewSignerEvent_keeper ctx d st st' : EmitNewSignerEvent ctx d st = Ok st' -> keeper st' = keeper st.
Proof. intros (t & _ & (b & _ & H%EmitSocketUpdatedEvent_keeper)%obind_Ok)%obind_Ok. exact H. Qed.

Lemma precompile_RegisterSigner chain ctx evm args st bz st' : address_ok (Origin evm) -> signers_ok (keeper st) ->
  RegisterSigner chain ctx evm args st = Ok (bz, st') ->
  changes_only (Origin evm) (keeper st) (keeper st')
  /\ exists msg, NewMsgRegisterSigner args = Ok msg /\ sgAccount (mrSigner msg) = hex_EncodeToString (Origin evm)
     /\ signers (keeper st') = <[Origin evm := mrSigner msg]> (signers (keeper st)).
Proof.
  intros Ho Hs. unfold RegisterSigner. intros (msg & Hm & H)%obind_Ok. rewrite (ToLowerHex_hex _ Ho) in H. cbn [obind] in H.
  case_bool_decide as E; [done|]. assert (sgAccount (mrSigner msg) = hex_EncodeToString (Origin evm)) as Ea.
  { destruct (decide (hex_EncodeToString (Origin evm) = sgAccount (mrSigner msg))); [done|]. by destruct E. }
  apply obind_Ok in H as (s & Hr & (d & _ & (st1 & He & (b & _ & [= <- <-])%obind_Ok)%obind_Ok)%obind_Ok).
  rewrite (EmitNewSignerEvent_keeper _ _ _ _ He). simpl.
  apply (RegisterSigner_changes _ _ _ _ (Origin evm)) in Hr as [Hc Hg]; [|done|rewrite Ea; by apply hex_key]. eauto.
Qed.

Lemma query_same (o : outcome bytes) st bz st' : (let! bz := o in Ok (bz, st)) = Ok (bz, st') -> st' = st.
Proof. intros (b & _ & [= _ <-])%obind_Ok. done. Qed.

Lemma dispatch_changes chain ctx evm method args st bz st' : address_ok (Origin evm) -> signers_ok (keeper st) ->
  dispatch chain ctx evm method args st = Ok (bz, st') -> changes_only (Origin evm) (keeper st) (keeper st').
Proof.
  intros Ho Hs. unfold dispatch.
  repeat (case_bool_decide; [by (intros ->%query_same; apply changes_only_refl)|]).
  case_bool_decide. { intros Hx. by apply precompile_RegisterSigner in Hx as [? _]. }
  case_bool_decide.
  { unfold RegisterNextEpoch. rewrite (ToLowerHex_hex _ Ho). cbn [obind].
    intros (msg & Hm & (s & Hr & (b & _ & [= <- <-])%obind_Ok)%obind_Ok)%obind_Ok. simpl.
    eapply RegisterNextEpoch_changes; [done| |exact Hr]. apply obind_Ok in Hm as (u & _ & (p & _ & [= <-])%obind_Ok). by apply hex_key. }
  case_bool_decide; [|by intros [= _ <-]; apply changes_only_refl].
  unfold UpdateSocket. rewrite (ToLowerHex_hex _ Ho). cbn [obind].
  intros (msg & Hm & (s & Hr & (x & _ & (st1 & He & (b & _ & [= <- <-])%obind_Ok)%obind_Ok)%obind_Ok)%obind_Ok)%obind_Ok.
  rewrite (EmitSocketUpdatedEvent_keeper _ _ _ _ _ He). simpl.
  eapply UpdateSocket_changes; [done| |exact Hr]. apply obind_Ok in Hm as (u & _ & (p & _ & [= <-])%obind_Ok). by apply hex_key.
Qed.

(** C24: a call of the precompiled contract, of any method with any input, changes only the
    entry of the account that signed the transaction among the signers and its registration
    for the next epoch, and keeps the signers stored under their own accounts. *)
Theorem call_touches_origin chain ctx evm contract readonly cost st bz st' :
  address_ok (Origin evm) -> signers_ok (keeper st) -> Run chain ctx evm contract readonly cost st = Ok (bz, st') ->
  changes_only (Origin evm) (keeper st) (keeper st').
Proof.
  intros Ho Hs. unfold Run. destruct (_ <? 4)%nat; [done|]. destruct (MethodById _) as [m|]; [|done].
  intros (args & _ & H)%obind_Ok. destruct (has_StateDB evm); [|done]. simpl in H. apply obind_Ok in H as ([b st1] & Hd & H).
  destruct (Gas contract <? cost); [done|]. injection H as <- <-. by eapply dispatch_changes.
Qed.

(** ** Details of signers *)
Definition detail_ok (d : IDASignersSignerDetail) : Prop :=
  address_ok (dtSigner d) /\ (coordinate (ptX (dtPkG1 d)) /\ coordinate (ptY (dtPkG1 d)))
  /\ coordinate (ptX0 (dtPkG2 d)) /\ coordinate (ptX1 (dtPkG2 d)) /\ coordinate (ptY0 (dtPkG2 d)) /\ coordinate (ptY1 (dtPkG2 d)).

Lemma detail_roundtrip d : detail_ok d ->
  NewIDASignersSignerDetail (mkSigner (hex_EncodeToString (dtSigner d)) (dtSocket d) (SerializeG1 (dtPkG1 d)) (SerializeG2 (dtPkG2 d))) = Ok d.
Proof.
  intros (Ha & (Hx & Hy) & H0 & H1 & H2 & H3). unfold NewIDASignersSignerDetail. cbn [sgPubkeyG1 sgPubkeyG2 sgAccount sgSocket].
  rewrite G1Point_roundtrip, G2Point_roundtrip by done. cbn [obind]. rewrite HexToAddress_hex by done. by destruct d.
Qed.

(** C25: a signer that registers through the contract reads back from it with the address,
    the socket and the points of both keys as they were given. *)
Theorem registered_signer_reads_back chain ctx evm d sig st bz st' : detail_ok d -> address_ok (Origin evm) ->
  signers_ok (keeper st) -> RegisterSigner chain ctx evm [VSigner d; VPoint sig] st = Ok (bz, st') ->
  dtSigner d = Origin evm /\ GetSigner (keeper st') [VAddresses [dtSigner d]] = Pack "getSigner" [VSigners [d]].
Proof.
  intros Hd Ho Hs H. pose proof (proj1 Hd) as Ha. apply precompile_RegisterSigner in H as (_ & msg & Hm & Hacc & Hg); [|done..].
  unfold NewMsgRegisterSigner in Hm. cbn [check_args length Nat.eqb obind arg as_signer as_point lookup list_lookup] in Hm.
  rewrite (ToLowerHex_hex _ Ha) in Hm. cbn [obind] in Hm. injection Hm as <-. cbn [mrSigner sgAccount] in *.
  assert (dtSigner d = Origin evm) as E.
  { pose proof (hex_key _ Ha) as Hk. rewrite Hacc, (hex_key _ Ho) in Hk. congruence. }
  split; [done|]. unfold GetSigner, NewQuerySignerRequest.
  cbn [check_args length Nat.eqb obind arg as_addresses lookup list_lookup omap_list]. rewrite (ToLowerHex_hex _ Ha). cbn [obind].
  unfold query_Signer, query_signers, Dasigners.GetSigner, GetSignerKeyFromAccount. rewrite (hex_key _ Ha). cbn [obind].
  rewrite Hg, E, lookup_insert_eq. cbn [obind omap_list app]. rewrite <- E, (detail_roundtrip d Hd). reflexivity.
Qed.

Lemma query_signers_unknown s (l : list bytes) a : Forall address_ok l -> a ∈ l -> signers s !! a = None -> forall r,
  query_signers s (hex_EncodeToString <$> l) r = Ok None.
Proof.
  intros Hl Hin Hn. induction Hl as [|b l Hb Hl IH]; [by apply elem_of_nil in Hin|]. intros r. cbn [fmap list_fmap query_signers].
  unfold Dasigners.GetSigner, GetSignerKeyFromAccount. rewrite (hex_key _ Hb). cbn [obind].
  apply elem_of_cons in Hin as [->|Hin]; [by rewrite Hn|]. destruct (signers s !! b); [by apply IH|done].
Qed.

(** The query for the details of signers panics, by a nil pointer, as soon as one of the
    accounts is not registered. *)
Theorem unknown_signer_panics s l a : Forall address_ok l -> a ∈ l -> signers s !! a = None ->
  isPanic (GetSigner s [VAddresses l]) = true.
Proof.
  intros Hl Ha Hn. unfold GetSigner, NewQuerySignerRequest.
  cbn [check_args length Nat.eqb obind arg as_addresses lookup list_lookup].
  rewrite (omap_list_Ok _ hex_EncodeToString) by (intros x Hx; apply ToLowerHex_hex; rewrite Forall_forall in Hl; by apply Hl).
  cbn [obind]. unfold query_Signer. change (map hex_EncodeToString l) with (hex_EncodeToString <$> l).
  by rewrite (query_signers_unknown s l a).
Qed.

(** The gas of a call with fewer than four bytes of input cannot be computed. *)
Lemma short_input_panics input : (length input < 4)%nat -> isPanic (RequiredGas input) = true.
Proof. intros H. unfold RequiredGas, slice. by rewrite (proj2 (Nat.leb_gt _ _)) by lia. Qed.

(** Epochs of the EVM's 256 bits are cut to 64 bits. *)
Lemma epoch_cut s e q : GetQuorum s [VBig (e + 2 ^ 64); VBig q] = GetQuorum s [VBig e; VBig q].
Proof.
  unfold GetQuorum, NewQueryEpochQuorumRequest. cbn [check_args length Nat.eqb obind arg as_big lookup list_lookup].
  unfold big_Uint64, u64. by rewrite <- Z.add_mod_idemp_r, Z.mod_same, Z.add_0_r by lia.
Qed.
End PrecompileTheorems.
