(* ===== verification/PrecompileWitness.v ===== *)
(** * precompiles/dasigners: the theorems at work on a concrete chain

    The chain of the x/dasigners examples with an operator whose address has twenty bytes;
    the codec reads the method from the fourth byte and knows two calls. *)

From S2P Require Import Prelude Sdk GoStd Bn254 Dasigners DasignersSigning DasignersPrecompile PrecompileTheorems DasignersWitness.

Module PrecompileChain.
#[export] Existing Instances DaChain.gnark DaChain.env DaChain.staked.
#[export] Instance strings : GoStrings := {| ToLower := id; TrimSpace := id |}.

Definition origin : bytes := replicate 19 0 ++ [10].
Definition account : string := hex_EncodeToString origin.
Definition keys : Signer := operator account "socket" 5.
Definition point1 (b : bytes) : BN254G1Point := match NewBN254G1Point b with Ok p => p | _ => mkPoint1 0 0 end.
Definition point2 (b : bytes) : BN254G2Point := match NewBN254G2Point b with Ok p => p | _ => mkPoint2 0 0 0 0 end.
Definition detail : IDASignersSignerDetail := mkDetail origin "socket" (point1 (sgPubkeyG1 keys)) (point2 (sgPubkeyG2 keys)).
Definition hash : G1Affine :=
  match PubkeyRegistrationHash (HexToAddress account) 16600 with Ok h => h | _ => mkG1 0 0 end.
Definition signature : BN254G1Point := point1 (Bn254.SerializeG1 (G1_ScalarMultiplication hash 5)).

(** The codec: a number for each method, and the arguments of the two calls. *)
Definition methods : list string :=
  ["epochNumber"; "quorumCount"; "getSigner"; "getQuorum"; "getQuorumRow"; "registerSigner"; "updateSocket"].
#[export] Instance codec : PrecompileEnv := {|
  MethodById id := match id with [_; _; _; n] => methods !! Z.to_nat n | _ => None end;
  Unpack m b := if bool_decide (m = "registerSigner") then Ok [VSigner detail; VPoint signature]
                else if bool_decide (m = "updateSocket") then Ok [VString "moved"] else Ok [];
  Pack m l := Ok [Z.of_nat (length l)];
  MakeTopics e a := Ok [string_bytes e; a];
  Pack_event e l := Ok [Z.of_nat (length l)];
  Address_Hex a := String.append "0x" (hex_EncodeToString a)
|}.

#[export] Instance laws : PrecompileLaws.
Proof.
  split.
  - intros a _. exists (Ascii.ascii_of_nat 48), (Ascii.ascii_of_nat 120), (hex_EncodeToString a). split; reflexivity.
  - intros a [_ Ha]. simpl. by rewrite (hex_roundtrip a Ha).
Qed.

Definition stake : gmap bytes Z := {[ origin := 30 * 10 ^ 24 ]}.
Definition fresh : PState (gmap bytes Z) := mkPState (mkState (Some DaChain.config) (Some 0) ∅ ∅ ∅ ∅ stake) [].
Definition evm : Evm := mkEvm origin true.
Definition now : Ctx := mkCtx 3 0.
Definition registered : PState (gmap bytes Z) :=
  match RegisterSigner "chain_16600-1" now evm [VSigner detail; VPoint signature] fresh with Ok (_, st) => st | _ => fresh end.
Definition updated : PState (gmap bytes Z) :=
  match Run "chain_16600-1" now evm (mkContract [0; 0; 0; 6] 0) true 0 registered with Ok (_, st) => st | _ => fresh end.

Example socket_moved : sgSocket <$> signers (keeper updated) !! origin = Some "moved".
Proof. vm_compute. reflexivity. Qed.
Example logged : length (logs updated) = 3%nat.
Proof. vm_compute. reflexivity. Qed.

Lemma origin_ok : address_ok origin.
Proof. split; [reflexivity|]. repeat constructor; done. Qed.
Lemma coordinateb z : (0 <=? z) && (z <? 2 ^ 256) = true -> coordinate z.
Proof. intros [H1 H2]%andb_prop. split; [by apply Z.leb_le|by apply Z.ltb_lt]. Qed.
Lemma detail_good : detail_ok detail.
Proof. split; [exact origin_ok|]. repeat split; apply coordinateb; vm_compute; reflexivity. Qed.

Lemma fresh_ok : signers_ok (keeper fresh).
Proof. apply map_Forall_empty. Qed.
Lemma registered_ok : signers_ok (keeper registered).
Proof.
  unfold signers_ok. assert (signers (keeper registered) = {[ origin := keys ]}) as -> by (vm_compute; reflexivity).
  apply map_Forall_singleton. vm_compute. reflexivity.
Qed.

Lemma call_touches_origin_witness : changes_only origin (keeper registered) (keeper updated).
Proof.
  apply (call_touches_origin "chain_16600-1" now evm (mkContract [0; 0; 0; 6] 0) true 0 registered [0] updated origin_ok registered_ok).
  vm_compute. reflexivity.
Defined.

Lemma registered_signer_reads_back_witness : dtSigner detail = origin
  /\ GetSigner (keeper registered) [VAddresses [dtSigner detail]] = Pack "getSigner" [VSigners [detail]].
Proof.
  apply (registered_signer_reads_back "chain_16600-1" now evm detail signature fresh [0] registered detail_good origin_ok fresh_ok).
  vm_compute. reflexivity.
Defined.

Lemma unknown_signer_panics_witness : isPanic (GetSigner (keeper fresh) [VAddresses [origin]]) = true.
Proof.
  apply (unknown_signer_panics (keeper fresh) [origin] origin); [constructor; [exact origin_ok|constructor]|left|reflexivity].
Defined.
End PrecompileChain.
