(* ===== verification/Vesting.v ===== *)
(** * x/validator-vesting/querier.go: the supplies of the chain's tokens

    The module answers queries only.  Two of them compute the supply from a schedule of
    dates, written out month by month: HARD as one [switch] whose cases name the dates
    by their index, SWP as a loop that adds the months that have passed.  The bank, the
    JSON codec and the decimals of the SDK are arguments. *)

From S2P Require Import Prelude Sdk SdkDec.

(** ** [time.Date(y, m, d, h, 0, 0, 0, time.UTC)], in nanoseconds since 1970 *)
Definition days_from_civil (y m d : Z) : Z :=
  let y := if m <=? 2 then y - 1 else y in
  let era := y / 400 in
  let yoe := y mod 400 in
  let doy := (153 * ((m + 9) mod 12) + 2) / 5 + d - 1 in
  era * 146097 + (yoe * 365 + yoe / 4 - yoe / 100 + doy) - 719468.
Definition time_Date (y m d h : Z) : Z := (days_from_civil y m d * 86400 + h * 3600) * 1000000000.

Definition Before (t u : Z) : bool := t <? u.
Definition After (t u : Z) : bool := u <? t.
Definition Equal (t u : Z) : bool := t =? u.

(** [dates[i]]: an index out of range panics. *)
Definition date_at (dates : list Z) (i : nat) : outcome Z :=
  match dates !! i with
  | Some d => Ok d
  | None => Panic "index out of range"
  end.

(** [t.After(dates[i]) && t.Before(dates[i+1]) || t.Equal(dates[i])]: the second date is
    read only when [t] is after the first. *)
Definition in_window (t : Z) (dates : list Z) (i : nat) : outcome bool :=
  let! d := date_at dates i in
  let! inside := (if After t d then let! e := date_at dates (S i) in Ok (Before t e) else Ok false) in
  Ok (inside || Equal t d).

(** The window [i] with the value of its case. *)
Local Notation "i ~> a" := (i%nat, a) (at level 70, no associativity).

(** The cases of the [switch] after the first, tried in order. *)
Fixpoint switch_windows {A} (t : Z) (dates : list Z) (cases : list (nat * A)) (otherwise : A) : outcome A :=
  match cases with
  | [] => Ok otherwise
  | (i, a) :: cases =>
      let! inside := in_window t dates i in
      if inside then Ok a else switch_windows t dates cases otherwise
  end.

(** [switch { case t.Before(dates[0]): ...; case window: ...; default: ... }] *)
Definition switch_dates {A} (t : Z) (dates : list Z) (first : A) (cases : list (nat * A)) (otherwise : A) : outcome A :=
  let! d := date_at dates 0 in
  if Before t d then Ok first else switch_windows t dates cases otherwise.

Definition GasDenom : string := "ua0gi".
(** [sdk.MustNewDecFromStr("0.000001")] *)
Definition micro : Dec := 10 ^ 12.
Definition ErrUnknownRequest : error := Registered "sdk" 6.
Definition ErrJSONUnmarshal : error := Registered "sdk" 17.

(** What the queries give to [MarshalJSON]: a [math.Int] or an [int64]. *)
Inductive json_value : Type := JsonInt (z : Z) | JsonInt64 (z : Z).

Section Querier.
  (** [G]: the state of the chain. *)
  Context `{sdk : SdkConfig, dc : DecConfig, di : DecInts} {G : Type}.
  Context (bk_GetSupply : G -> string -> Coin) (MarshalJSON : json_value -> option bytes).

Definition marshal (v : json_value) : outcome bytes :=
  match MarshalJSON v with
  | Some bz => Ok bz
  | None => Err ErrJSONUnmarshal
  end.

(** ** The gas coin *)
Definition queryGetTotalSupply (g : G) : outcome bytes :=
  let totalSupply := Amount (bk_GetSupply g GasDenom) in
  let! supply := Dec_Mul (NewDec totalSupply) micro in
  let! supplyInt := Dec_TruncateInt64 supply in
  marshal (JsonInt64 supplyInt).

Definition vestingDates : list Z :=
  [time_Date 2022 2 5 14; time_Date 2022 5 5 14; time_Date 2022 8 5 14; time_Date 2022 11 5 14].

(** The amount a case subtracts; the default subtracts nothing. *)
Definition vestingCases : list (nat * option Z) :=
  [0 ~> Some 7453125000000; 1 ~> Some 4968750000000; 2 ~> Some 2484375000000].

Definition getCirculatingSupply (blockTime totalSupply : Z) : outcome Z :=
  let! locked := switch_dates blockTime vestingDates (Some 9937500000000) vestingCases None in
  let! circulating :=
    match locked with
    | Some l => int_chk (totalSupply - l)
    | None => Ok totalSupply
    end in
  let! supply := Dec_Mul (NewDec circulating) micro in
  Dec_RoundInt supply.

Definition queryGetCirculatingSupply (ctx : Ctx) (g : G) : outcome bytes :=
  let totalSupply := Amount (bk_GetSupply g GasDenom) in
  let! supplyInt := getCirculatingSupply (BlockTime ctx) totalSupply in
  marshal (JsonInt supplyInt).

(** ** HARD *)
Definition hardDates : list Z :=
  [time_Date 2020 10 15 14; time_Date 2020 11 15 14; time_Date 2020 12 15 14; time_Date 2021 1 15 14;
   time_Date 2021 2 15 14; time_Date 2021 3 15 14; time_Date 2021 4 15 14; time_Date 2021 5 15 14;
   time_Date 2021 6 15 14; time_Date 2021 7 15 14; time_Date 2021 8 15 14; time_Date 2021 9 15 14;
   time_Date 2021 10 15 14; time_Date 2021 11 15 14; time_Date 2021 12 15 14; time_Date 2022 1 15 14;
   time_Date 2022 2 15 14; time_Date 2022 3 15 14; time_Date 2022 4 15 14; time_Date 2022 5 15 14;
   time_Date 2022 6 15 14; time_Date 2022 7 15 14; time_Date 2022 8 15 14; time_Date 2022 9 15 14;
   time_Date 2022 10 15 14; time_Date 2022 11 15 14; time_Date 2022 12 15 14; time_Date 2023 1 15 14;
   time_Date 2023 2 15 14; time_Date 2023 3 15 14; time_Date 2023 4 15 14; time_Date 2023 5 15 14;
   time_Date 2023 6 15 14; time_Date 2023 7 15 14; time_Date 2023 8 15 14; time_Date 2023 9 15 14;
   time_Date 2023 10 15 14; time_Date 2023 11 15 14; time_Date 2023 12 15 14; time_Date 2024 1 15 14;
   time_Date 2024 2 15 14; time_Date 2024 3 15 14; time_Date 2024 4 15 14; time_Date 2024 5 15 14;
   time_Date 2024 6 15 14; time_Date 2024 7 15 14; time_Date 2024 8 15 14; time_Date 2024 9 15 14].

Definition hardCases : list (nat * Z) :=
  [0 ~> 30000000; 1 ~> 35000000; 2 ~> 40000000; 3 ~> 47708334; 4 ~> 51041667; 5 ~> 54375000;
   6 ~> 61250000; 7 ~> 63750000; 8 ~> 66250000; 9 ~> 73125000; 10 ~> 75625000; 11 ~> 78125000;
   12 ~> 91666667; 13 ~> 94166667; 14 ~> 96666667; 15 ~> 105208334; 16 ~> 107708334; 17 ~> 110208334;
   18 ~> 118750000; 19 ~> 121250000; 20 ~> 123750000; 21 ~> 132291668; 22 ~> 134791668; 23 ~> 137291668;
   24 ~> 145833335; 25 ~> 148333335; 26 ~> 150833335; 27 ~> 155000000; 28 ~> 157500000; 29 ~> 160000000;
   30 ~> 164166669; 31 ~> 166666669; 32 ~> 169166669; 33 ~> 173333336; 34 ~> 175833336; 35 ~> 178333336;
   36 ~> 181666670; 37 ~> 183333337; 38 ~> 185000000; 39 ~> 186666670; 40 ~> 188333338; 41 ~> 190000000;
   42 ~> 191666670; 43 ~> 193333339; 44 ~> 195000000; 45 ~> 196666670; 46 ~> 198333340; 47 ~> 200000000].

Definition getCirculatingSupplyHARD (ctx : Ctx) : outcome bytes :=
  let! circSupply := switch_dates (BlockTime ctx) hardDates 0 hardCases 200000000 in
  marshal (JsonInt circSupply).

Definition getTotalSupplyHARD (g : G) : outcome bytes :=
  let totalSupply := Amount (bk_GetSupply g "hard") in
  let! supply := Dec_Mul (NewDec totalSupply) micro in
  let! supplyInt := Dec_TruncateInt64 supply in
  marshal (JsonInt64 supplyInt).

(** ** USDX *)
Definition getCirculatingSupplyUSDX (g : G) : outcome bytes :=
  let totalSupply := Amount (bk_GetSupply g "usdx") in
  let! supply := Dec_Mul (NewDec totalSupply) micro in
  let! supplyInt := Dec_TruncateInt64 supply in
  marshal (JsonInt64 supplyInt).

(** ** SWP: the dates are computed, one month after the other *)
Fixpoint swp_dates (n : nat) (year month : Z) : list Z :=
  match n with
  | O => []
  | S n =>
      let day := if month =? 2 then 28 else 30 in
      time_Date year month day 15
      :: (if month =? 12 then swp_dates n (year + 1) 1 else swp_dates n year (month + 1))
  end.

Definition teamSwp : Z := 4687500.
Definition treasurySwp : Z := 5859375.
Definition monthlyStakersSwp : Z := 520833.
Definition monthlyLPIncentivesSwp : Z := 2343750.

(** Ecosystem, team, treasury, stakers, incentives for liquidity. *)
Definition row (ecosystem team treasury : Z) : list Z :=
  [ecosystem; team; treasury; monthlyStakersSwp; monthlyLPIncentivesSwp].
Definition quietMonth : list Z := row 0 0 0.

Definition scheduleAmounts : list (list Z) :=
  [row 12500000 0 15625000; quietMonth; quietMonth;
   row 0 0 treasurySwp; quietMonth; quietMonth;
   row 0 0 treasurySwp; quietMonth; quietMonth;
   row 0 0 treasurySwp; quietMonth; quietMonth;
   row 0 18750000 treasurySwp; quietMonth; quietMonth;
   row 0 teamSwp treasurySwp; quietMonth; quietMonth;
   row 0 teamSwp treasurySwp; quietMonth; quietMonth;
   row 0 teamSwp treasurySwp; quietMonth; quietMonth;
   row 0 teamSwp treasurySwp] ++ replicate 23 quietMonth.

(** [for _, val := range amounts { monthTotal += val }] in [int64]. *)
Definition monthTotal (amounts : list Z) : Z := foldl (fun total val => i64 (total + val)) 0 amounts.

(** The loop over the months [i], [i+1], ...: it stops at the first date in the future. *)
Fixpoint swp_loop (t : Z) (dates : list Z) (amounts : list (list Z)) (i : nat) (circSupply : Z) : outcome Z :=
  match amounts with
  | [] => Ok circSupply
  | month :: amounts =>
      let! d := date_at dates i in
      if Before t d then Ok circSupply else
      let! circSupply := int_chk (circSupply + monthTotal month) in
      swp_loop t dates amounts (S i) circSupply
  end.

Definition getCirculatingSupplySWP (ctx : Ctx) : outcome bytes :=
  let! circSupply := swp_loop (BlockTime ctx) (swp_dates (12 * 4) 2021 8) scheduleAmounts 0 0 in
  marshal (JsonInt circSupply).

(** ** The router *)
Definition QueryCirculatingSupply : string := "circulating-supply".
Definition QueryTotalSupply : string := "total-supply".
Definition QueryCirculatingSupplyHARD : string := "circulating-supply-hard".
Definition QueryCirculatingSupplyUSDX : string := "circulating-supply-usdx".
Definition QueryCirculatingSupplySWP : string := "circulating-supply-swp".
Definition QueryTotalSupplyHARD : string := "total-supply-hard".
Definition QueryTotalSupplyUSDX : string := "total-supply-usdx".

Definition NewQuerier (ctx : Ctx) (g : G) (path : list string) : outcome bytes :=
  match path with
  | [] => Panic "index out of range"
  | p :: _ =>
      if bool_decide (p = QueryCirculatingSupply) then queryGetCirculatingSupply ctx g else
      if bool_decide (p = QueryTotalSupply) then queryGetTotalSupply g else
      if bool_decide (p = QueryCirculatingSupplyHARD) then getCirculatingSupplyHARD ctx else
      if bool_decide (p = QueryCirculatingSupplyUSDX) then getCirculatingSupplyUSDX g else
      if bool_decide (p = QueryCirculatingSupplySWP) then getCirculatingSupplySWP ctx else
      if bool_decide (p = QueryTotalSupplyHARD) then getTotalSupplyHARD g else
      if bool_decide (p = QueryTotalSupplyUSDX) then getCirculatingSupplyUSDX g else
      Err ErrUnknownRequest
  end.
End Querier.
