(* ===== verification/VestingTheorems.v ===== *)
(** * The supplies that x/validator-vesting reports

    The schedules are reference definitions: a list of dates with the value in force from
    that date on.  The [switch] of HARD and of the gas coin and the loop of SWP compute
    what the schedule says, up to the last date of HARD. *)

From S2P Require Import Prelude Sdk SdkDec Vesting.

(** ** Schedules *)
Definition passed {A} (t : Z) (schedule : list (Z * A)) : list (Z * A) :=
  filter (fun e => e.1 <= t) schedule.
(** The value in force at [t]. *)
Definition in_force {A} (before : A) (schedule : list (Z * A)) (t : Z) : A :=
  default before (snd <$> last (passed t schedule)).

Definition hardSchedule : list (Z * Z) := zip hardDates hardCases.*2.
Definition lockedSchedule : list (Z * Z) := zip vestingDates [7453125000000; 4968750000000; 2484375000000; 0].
Definition swpSchedule : list (Z * list Z) := zip (swp_dates 48 2021 8) scheduleAmounts.
Definition swp_released (t : Z) : Z := list_sum (fun e => list_sum id e.2) (passed t swpSchedule).

(** ** The number of dates that have passed *)
Definition counts (t : Z) (dates : list Z) (k : nat) : Prop :=
  (k <= length dates)%nat /\ forall i d, dates !! i = Some d -> (i < k)%nat <-> d <= t.

Lemma counts_exists t dates : StronglySorted Z.lt dates -> exists k, counts t dates k.
Proof.
  intros Hs. induction Hs as [|d dates Hs [k [Hk IH]] Hd].
  - exists 0%nat. split; [done|]. intros i d Hd. by rewrite lookup_nil in Hd.
  - destruct (decide (d <= t)) as [Hle|Hgt].
    + exists (S k). split; [simpl; lia|]. intros [|i] e He; simpl in He; [naive_solver lia|].
      rewrite <- (IH i e He). lia.
    + exists 0%nat. split; [lia|]. intros [|i] e He; simpl in He; [naive_solver lia|].
      pose proof (proj1 (Forall_lookup _ _) Hd i e He) as Hde. simpl in Hde. lia.
Qed.

Lemma sorted_next dates i d e :
  StronglySorted Z.lt dates -> dates !! i = Some d -> dates !! S i = Some e -> d < e.
Proof.
  intros Hs. revert i. induction Hs as [|x dates Hs IH Hx]; intros [|i] Hd He; simpl in *; try done; [|eauto].
  injection Hd as <-. exact (proj1 (Forall_lookup _ _) Hx _ _ He).
Qed.

Lemma filter_none {A} (P : A -> Prop) `{forall x, Decision (P x)} l : Forall (fun x => ~ P x) l -> filter P l = [].
Proof. induction 1; [done|]. by rewrite filter_cons_False. Qed.

Lemma passed_take {A} t (values : list A) dates k :
  counts t dates k -> length values = length dates -> passed t (zip dates values) = take k (zip dates values).
Proof.
  revert values k. induction dates as [|d dates IH]; intros [|v values] k [Hk Hc] Hlen; try done; [by destruct k|].
  injection Hlen as Hlen. pose proof (Hc 0%nat d eq_refl) as H0. unfold passed. destruct k as [|k].
  - simpl take. apply filter_none, Forall_lookup. intros i [e v'] Hi. simpl.
    pose proof (lookup_zip_with_Some pair (d :: dates) (v :: values) i (e, v')) as [Hz _].
    destruct (Hz Hi) as (e' & v'' & [= <- <-] & He & _). rewrite <- (Hc i e He). lia.
  - simpl. rewrite filter_cons_True by (simpl; lia). f_equal. apply IH; [|done].
    split; [simpl in Hk; lia|]. intros i e He. rewrite <- (Hc (S i) e He). lia.
Qed.

(** ** The switch *)
Lemma in_window_counts t dates k i d :
  StronglySorted Z.lt dates -> counts t dates k -> dates !! i = Some d ->
  in_window t dates i =
    if decide (S i = k) then
      if decide (k < length dates)%nat then Ok true
      else if decide (t = d) then Ok true else Panic "index out of range"
    else Ok false.
Proof.
  intros Hs [Hk Hc] Hd. pose proof (Hc i d Hd) as Hi. unfold in_window, date_at. rewrite Hd. cbn [obind].
  unfold After, Before, Equal. destruct (decide (S i = k)) as [E|E].
  - assert (d <= t) by (apply Hi; lia). destruct (dates !! S i) as [e|] eqn:He.
    + pose proof (lookup_lt_Some _ _ _ He). rewrite decide_True by lia.
      pose proof (Hc _ _ He). destruct (Z.ltb_spec d t); cbn [obind].
      * destruct (Z.ltb_spec t e); [done|lia].
      * by rewrite (proj2 (Z.eqb_eq t d)) by lia.
    + apply lookup_ge_None in He. rewrite decide_False by lia.
      destruct (Z.ltb_spec d t); cbn [obind]; [by rewrite decide_False by lia|].
      rewrite decide_True by lia. by rewrite (proj2 (Z.eqb_eq t d)) by lia.
  - destruct (decide (i < k)%nat) as [Hlt|Hge].
    + destruct (lookup_lt_is_Some_2 dates (S i) ltac:(lia)) as [e He]. rewrite He. pose proof (Hc _ _ He).
      assert (d < e) as Hde by (eapply (sorted_next dates i); eauto).
      rewrite (proj2 (Z.ltb_lt d t)) by lia. cbn [obind]. rewrite (proj2 (Z.ltb_ge t e)) by lia.
      by rewrite (proj2 (Z.eqb_neq t d)) by lia.
    + rewrite (proj2 (Z.ltb_ge d t)) by lia. cbn [obind]. by rewrite (proj2 (Z.eqb_neq t d)) by lia.
Qed.

Lemma switch_windows_counts {A} t dates k (values : list A) otherwise i d :
  StronglySorted Z.lt dates -> counts t dates k -> (i < k)%nat -> dates !! pred k = Some d ->
  (i + length values <= length dates)%nat ->
  switch_windows t dates (zip (seq i (length values)) values) otherwise =
    match values !! (pred k - i)%nat with
    | Some v => if decide (k < length dates)%nat then Ok v
                else if decide (t = d) then Ok v else Panic "index out of range"
    | None => Ok otherwise
    end.
Proof.
  intros Hs Hc Hi Hd. revert i Hi. induction values as [|v values IH]; intros i Hi Hlen; simpl; [done|].
  simpl in Hlen. destruct (lookup_lt_is_Some_2 dates i ltac:(lia)) as [di Hdi].
  rewrite (in_window_counts t dates k i di) by done. destruct (decide (S i = k)) as [E|E].
  - subst k. simpl in Hd. replace (pred (S i) - i)%nat with 0%nat by lia. simpl.
    assert (di = d) as -> by congruence. repeat destruct (decide _); simpl; done.
  - cbn [obind]. rewrite IH by lia. by replace (pred k - i)%nat with (S (pred k - S i)) by lia.
Qed.

(** Every window has its case, and possibly the default is the value from the last date on. *)
Lemma switch_dates_counts {A} t dates k first (values : list A) otherwise :
  StronglySorted Z.lt dates -> counts t dates k -> dates <> [] -> (length values <= length dates)%nat ->
  switch_dates t dates first (zip (seq 0 (length values)) values) otherwise =
    match k with
    | O => Ok first
    | S j => match values !! j with
             | Some v => if decide (k < length dates)%nat then Ok v
                         else if decide (dates !! j = Some t) then Ok v else Panic "index out of range"
             | None => Ok otherwise
             end
    end.
Proof.
  intros Hs Hc Hne Hlen. unfold switch_dates. destruct dates as [|d0 dates]; [done|]. unfold date_at at 1.
  cbn [lookup list_lookup obind]. pose proof (proj2 Hc 0%nat d0 eq_refl) as H0. unfold Before. destruct k as [|j].
  - by rewrite (proj2 (Z.ltb_lt _ _)) by lia.
  - rewrite (proj2 (Z.ltb_ge _ _)) by lia. pose proof (proj1 Hc) as Hj.
    destruct (lookup_lt_is_Some_2 (d0 :: dates) j ltac:(lia)) as [d Hd].
    rewrite (switch_windows_counts t _ (S j) values otherwise 0 d) by (done || lia).
    simpl pred. rewrite Nat.sub_0_r. destruct (values !! j); [|done].
    destruct (decide (S j < _)%nat); [done|]. rewrite Hd.
    destruct (decide (t = d)), (decide (Some d = Some t)); congruence.
Qed.

Lemma in_force_counts {A} (before : A) t dates values k :
  counts t dates k -> length values = length dates ->
  in_force before (zip dates values) t = match k with O => before | S j => default before (values !! j) end.
Proof.
  intros Hc Hlen. unfold in_force. rewrite (passed_take t values dates k) by done. destruct k as [|j]; [done|].
  pose proof (proj1 Hc) as Hj. destruct (lookup_lt_is_Some_2 dates j ltac:(lia)) as [d Hd].
  destruct (lookup_lt_is_Some_2 values j ltac:(lia)) as [v Hv].
  assert (zip dates values !! j = Some (d, v)) as Hz by (apply lookup_zip_with_Some; eauto).
  rewrite (take_S_r _ _ _ Hz), last_snoc, Hv. done.
Qed.

(** A list of dates is checked to be increasing by evaluation. *)
Fixpoint increasing (l : list Z) : bool :=
  match l with
  | [] => true
  | x :: l => match l with y :: _ => x <? y | [] => true end && increasing l
  end.

Lemma increasing_sorted l : increasing l = true -> StronglySorted Z.lt l.
Proof.
  intros H. apply Sorted_StronglySorted; [exact Z.lt_trans|]. induction l as [|x l IH]; [constructor|].
  simpl in H. apply andb_true_iff in H as [H1 H2]. constructor; [by apply IH|].
  destruct l; constructor. lia.
Qed.

Lemma hardDates_sorted : StronglySorted Z.lt hardDates.
Proof. apply increasing_sorted. vm_compute. reflexivity. Qed.
Lemma vestingDates_sorted : StronglySorted Z.lt vestingDates.
Proof. apply increasing_sorted. vm_compute. reflexivity. Qed.
Lemma swp_dates_sorted : StronglySorted Z.lt (swp_dates 48 2021 8).
Proof. apply increasing_sorted. vm_compute. reflexivity. Qed.

(** ** SWP *)
Lemma list_sum_filter_mono {A} (f : A -> Z) (P Q : A -> Prop) `{forall x, Decision (P x)} `{forall x, Decision (Q x)} l :
  Forall (fun x => 0 <= f x) l -> (forall x, P x -> Q x) -> 0 <= list_sum f (filter P l) <= list_sum f (filter Q l).
Proof.
  intros Hf HPQ. induction Hf as [|x l Hx Hl IH]; [done|]. rewrite !filter_cons.
  destruct (decide (P x)) as [HP|HP].
  - rewrite decide_True by auto. simpl. lia.
  - destruct (decide (Q x)); simpl; lia.
Qed.

Lemma swpSchedule_nonneg : Forall (fun e => 0 <= list_sum id e.2) swpSchedule.
Proof.
  apply Forall_forall. intros e He. apply Z.leb_le.
  refine (proj1 (forallb_forall (fun e => 0 <=? list_sum id e.2) swpSchedule) _ e _); [vm_compute; reflexivity|].
  by apply list_elem_of_In.
Qed.

Lemma scheduleAmounts_totals :
  Forall (fun m => monthTotal m = list_sum id m /\ 0 <= monthTotal m < 2 ^ 63) scheduleAmounts.
Proof.
  apply Forall_forall. intros m Hm.
  assert ((monthTotal m =? list_sum id m) && (0 <=? monthTotal m) && (monthTotal m <? 2 ^ 63) = true) as H.
  { refine (proj1 (forallb_forall (fun m => (monthTotal m =? list_sum id m) && (0 <=? monthTotal m)
      && (monthTotal m <? 2 ^ 63)) scheduleAmounts) _ m _); [vm_compute; reflexivity|]. by apply list_elem_of_In. }
  lia.
Qed.

Lemma swp_loop_counts `{SdkLaws} t dates k amounts i acc :
  counts t dates k -> (i <= k)%nat -> (i + length amounts <= length dates)%nat ->
  Forall (fun m => monthTotal m = list_sum id m /\ 0 <= monthTotal m < 2 ^ 63) amounts ->
  0 <= acc -> acc + 2 ^ 63 * Z.of_nat (length amounts) < 2 ^ 256 ->
  swp_loop t dates amounts i acc = Ok (acc + list_sum (list_sum id) (take (k - i) amounts)).
Proof.
  intros Hc. revert i acc. induction amounts as [|m amounts IH]; intros i acc Hi Hlen Hm Hacc Hfit.
  - rewrite take_nil. simpl. f_equal. lia.
  - apply Forall_cons in Hm as [[Em Hb] Hm]. simpl in Hlen. simpl.
    destruct (lookup_lt_is_Some_2 dates i ltac:(lia)) as [d Hd]. unfold date_at. rewrite Hd. cbn [obind].
    pose proof (proj2 Hc i d Hd) as Hid. unfold Before. destruct (Z.ltb_spec t d).
    + replace (k - i)%nat with 0%nat by lia. simpl. f_equal. lia.
    + change (length (m :: amounts)) with (S (length amounts)) in Hfit. rewrite Nat2Z.inj_succ in Hfit.
      rewrite int_chk_fits by lia. cbn [obind]. rewrite IH by (done || lia).
      replace (k - i)%nat with (S (k - S i)) by lia. simpl. f_equal. lia.
Qed.

Lemma list_sum_zip_snd {A B} (f : B -> Z) (l : list A) (r : list B) n :
  length l = length r -> list_sum (fun e => f e.2) (take n (zip l r)) = list_sum f (take n r).
Proof.
  revert r n. induction l as [|x l IH]; intros [|y r] [|n] Hlen; try done. injection Hlen as Hlen.
  simpl. by rewrite IH.
Qed.

Section Supplies.
  Context `{sdk : SdkConfig, dc : DecConfig, di : DecInts} {G : Type}.
  Context (bk_GetSupply : G -> string -> Coin) (MarshalJSON : json_value -> option bytes).

(** C36: until the last date of its schedule, the query for the circulating supply of HARD
    reports the amount of the latest date that has passed, 0 before the first; from the
    first nanosecond after the last date on (15 September 2024, 14:00 UTC) it panics, since
    the last case of the switch reads a date that does not exist and the default is never
    reached. *)
Theorem hard_supply_exact (ctx : Ctx) :
  getCirculatingSupplyHARD MarshalJSON ctx =
    if BlockTime ctx <=? time_Date 2024 9 15 14
    then marshal MarshalJSON (JsonInt (in_force 0 hardSchedule (BlockTime ctx)))
    else Panic "index out of range".
Proof.
  unfold getCirculatingSupplyHARD. generalize (BlockTime ctx). intros t.
  destruct (counts_exists t hardDates hardDates_sorted) as [k Hc].
  change hardCases with (zip (seq 0 (length hardCases.*2)) hardCases.*2).
  rewrite (switch_dates_counts t _ k) by (done || apply hardDates_sorted || (vm_compute; lia)).
  unfold hardSchedule. rewrite (in_force_counts 0 t hardDates _ k) by done.
  pose proof (proj1 Hc) as Hk. change (length hardDates) with 48%nat in *.
  pose proof (proj2 Hc 47%nat 1726408800000000000 eq_refl) as Hlast. change (time_Date 2024 9 15 14) with 1726408800000000000.
  destruct k as [|j]; [by rewrite (proj2 (Z.leb_le _ _)) by lia|].
  assert (length hardCases.*2 = 48%nat) as Hlen by reflexivity.
  destruct (lookup_lt_is_Some_2 hardCases.*2 j ltac:(lia)) as [v Hv]. rewrite Hv. simpl default.
  destruct (decide (S j < 48)%nat); [by rewrite (proj2 (Z.leb_le _ _)) by lia|].
  assert (j = 47%nat) as -> by lia. change (hardDates !! 47%nat) with (Some 1726408800000000000).
  destruct (decide _) as [[= <-]|Hne]; [done|]. rewrite (proj2 (Z.leb_gt _ _)); [done|].
  assert (1726408800000000000 <> t) by congruence. lia.
Qed.

(** The query for the circulating supply of SWP never panics: it reports the sum of what
    the schedule releases at the dates that have passed.  That sum never falls as time goes
    on. *)
Theorem swp_supply_exact `{!SdkLaws} (ctx : Ctx) :
  getCirculatingSupplySWP MarshalJSON ctx = marshal MarshalJSON (JsonInt (swp_released (BlockTime ctx)))
  /\ forall t, BlockTime ctx <= t -> 0 <= swp_released (BlockTime ctx) <= swp_released t.
Proof.
  split.
  - unfold getCirculatingSupplySWP. destruct (counts_exists (BlockTime ctx) _ swp_dates_sorted) as [k Hc].
    change (12 * 4)%nat with 48%nat.
    rewrite (swp_loop_counts (BlockTime ctx) _ k) by
      (done || apply scheduleAmounts_totals || (apply Nat.leb_le; reflexivity) || (apply Z.ltb_lt; reflexivity) || lia).
    cbn [obind]. unfold swp_released, swpSchedule. rewrite (passed_take _ _ _ k) by done.
    rewrite (list_sum_zip_snd (list_sum id)) by done. by rewrite Nat.sub_0_r.
  - intros t Ht. apply list_sum_filter_mono; [apply swpSchedule_nonneg|]. intros e. simpl. lia.
Qed.

(** ** The gas coin *)
Lemma micro_exact `{!DecRound (dm := dm)} n : Z.abs n < 2 ^ 257 -> Dec_Mul (NewDec n) micro = Ok (n * micro).
Proof.
  intros Hn. unfold NewDec, micro.
  destruct (Dec_Mul_round (n * 10 ^ 18) (10 ^ 12)) as (r & -> & Hr); [rewrite !Z.abs_mul; lia|]. f_equal. lia.
Qed.

(** The circulating supply of the gas coin is the total supply less what is still locked,
    in whole coins, rounded to the nearest; the locked amount falls in four steps to
    nothing. *)
Theorem circulating_supply_rounds `{!SdkLaws, !DecRound (dm := dm), !DecIntsLaws} (t total : Z) :
  0 <= total < 2 ^ 256 ->
  exists supply, getCirculatingSupply t total = Ok supply
    /\ 2 * Z.abs (supply * 10 ^ 6 - (total - in_force 9937500000000 lockedSchedule t)) <= 10 ^ 6.
Proof.
  intros Ht. unfold getCirculatingSupply. destruct (counts_exists t vestingDates vestingDates_sorted) as [k Hc].
  change vestingCases with (zip (seq 0 (length vestingCases.*2)) vestingCases.*2).
  rewrite (switch_dates_counts t _ k _ vestingCases.*2) by (done || apply vestingDates_sorted || (vm_compute; lia)).
  unfold lockedSchedule. rewrite (in_force_counts _ t vestingDates _ k) by done.
  assert (forall l, 0 <= l < 2 ^ 64 -> exists supply,
    (let! supply := Dec_Mul (NewDec (total - l)) micro in Dec_RoundInt supply) = Ok supply
    /\ 2 * Z.abs (supply * 10 ^ 6 - (total - l)) <= 10 ^ 6) as Hsup.
  { intros l Hl. rewrite micro_exact by lia. cbn [obind].
    destruct (Dec_RoundInt_near ((total - l) * micro)) as (r & Hr & Hn); [unfold micro; lia|].
    exists r. split; [done|]. unfold micro in Hn. lia. }
  pose proof (proj1 Hc) as Hk. change (length vestingDates) with 4%nat in *.
  do 4 (destruct k as [|k]; [simpl; rewrite int_chk_fits by lia; by apply Hsup|]).
  assert (k = 0%nat) as -> by lia. simpl. specialize (Hsup 0 ltac:(lia)). by rewrite Z.sub_0_r in *.
Qed.

(** The total supply in whole coins, rounded down, as long as an [int64] holds it. *)
Lemma total_supply_truncates `{!DecRound (dm := dm), !DecIntsLaws} (g : G) :
  let total := Amount (bk_GetSupply g GasDenom) in
  0 <= total < 2 ^ 256 ->
  if decide (total / 10 ^ 6 < 2 ^ 63)
  then queryGetTotalSupply bk_GetSupply MarshalJSON g = marshal MarshalJSON (JsonInt64 (total / 10 ^ 6))
  else isPanic (queryGetTotalSupply bk_GetSupply MarshalJSON g) = true.
Proof.
  simpl. set (total := Amount _). intros Ht. unfold queryGetTotalSupply. fold total.
  rewrite micro_exact by lia. cbn [obind].
  assert (Z.quot (total * micro) (10 ^ 18) = total / 10 ^ 6) as E.
  { unfold micro. rewrite Z.quot_div_nonneg by lia. change (10 ^ 18) with (10 ^ 6 * 10 ^ 12). by rewrite Z.div_mul_cancel_r. }
  assert (0 <= total / 10 ^ 6) by (apply Z.div_pos; lia). destruct (decide _).
  - rewrite Dec_TruncateInt64_fits; [by rewrite E|]. rewrite E. unfold is_i64. lia.
  - destruct (Dec_TruncateInt64_overflow (total * micro)) as [w ->]; [|done]. rewrite E. unfold is_i64. lia.
Qed.
End Supplies.
