(* ===== verification/VestingWitness.v ===== *)
(** * Concrete queries of x/validator-vesting *)

From stdpp Require Import pretty.
From S2P Require Import Prelude Sdk SdkDec SdkModel GoStd Vesting VestingTheorems.

Module VestingChain.
#[export] Existing Instances SdkModel.model SdkModel.laws DecModel.dec DecModel.dec_round DecModel.ints DecModel.ints_laws.

(** The codec writes the decimal digits, those of an [Int] between quotes. *)
Definition MarshalJSON (v : json_value) : option bytes :=
  match v with
  | JsonInt z => Some ([34] ++ string_bytes (pretty z) ++ [34])
  | JsonInt64 z => Some (string_bytes (pretty z))
  end.
Definition quoted (s : string) : outcome bytes := Ok ([34] ++ string_bytes s ++ [34]).
Definition at_date (y m d h : Z) : Ctx := mkCtx 100 (time_Date y m d h).

(** On 1 January 2023 SWP has 17 of its 48 months behind it. *)
Lemma swp_supply_exact_witness :
  getCirculatingSupplySWP MarshalJSON (at_date 2023 1 1 0) = quoted "129557286".
Proof.
  rewrite (proj1 (swp_supply_exact MarshalJSON (at_date 2023 1 1 0))). vm_compute. reflexivity.
Defined.

(** In March 2022 three quarters of the locked coins are still locked: 7453125 of 10000000.5. *)
Lemma circulating_supply_rounds_witness :
  exists supply, getCirculatingSupply (time_Date 2022 3 1 0) 10000000500000 = Ok supply
    /\ 2 * Z.abs (supply * 10 ^ 6 - (10000000500000 - 7453125000000)) <= 10 ^ 6.
Proof.
  change 7453125000000 with (in_force 9937500000000 lockedSchedule (time_Date 2022 3 1 0)).
  apply (circulating_supply_rounds (dm := DecModel.more)). split; [lia|]. apply Z.ltb_lt. vm_compute. reflexivity.
Defined.

(** HARD: in 2022 and after the end of the schedule. *)
Example hard_2022 : getCirculatingSupplyHARD MarshalJSON (at_date 2022 7 15 14) = quoted "132291668".
Proof. vm_compute. reflexivity. Qed.
Example hard_2025 : getCirculatingSupplyHARD MarshalJSON (at_date 2025 1 1 0) = Panic "index out of range".
Proof. vm_compute. reflexivity. Qed.
End VestingChain.
