(* ===== verification/Chaincfg.v ===== *)
(** * chaincfg: denominations, amounts and the inflation rule

    [NextInflationRate] is the rule that the mint module asks, each block, for the annual
    inflation: the yield of a staked coin falls from 15% (a fifth of the supply staked) to
    5% (all of it staked) along an exponential.  The decimals of the SDK and the library
    that computes the exponential are arguments. *)

From S2P Require Import Prelude Sdk SdkDec.

(** ** Denominations (denoms.go) *)
Definition StandardDenom : string := "a0gi".
Definition GasDenom : string := "ua0gi".
Definition EvmDenom : string := "neuron".
Definition BondDenom : string := EvmDenom.
Definition GasDenomUnit : Z := 6.
Definition EvmDenomUnit : Z := 18.
Definition GasDenomConversionMultiplier : Z := 10 ^ 12.
Definition EvmDenomConversionMultiplier : Z := 10 ^ 18.

(** [NewDecWithPrec(i, prec)] and [NewDecFromBigIntWithPrec]: [i] in units of 10^-prec. *)
Definition NewDecWithPrec (i prec : Z) : Dec := i * 10 ^ (18 - prec).

Section RegisterDenoms.
  (** [R]: the registry of the SDK. *)
  Context {R : Type} (RegisterDenom : string -> Dec -> R -> outcome R).

Definition RegisterDenoms (r : R) : outcome R :=
  let! r := must (RegisterDenom StandardDenom (NewDec 1) r) in
  let! r := must (RegisterDenom GasDenom (NewDecWithPrec 1 GasDenomUnit) r) in
  must (RegisterDenom EvmDenom (NewDecWithPrec 1 EvmDenomUnit) r).
End RegisterDenoms.

(** ** Prefixes of addresses and keys (prefix.go) *)
Definition Bech32Prefix : string := "0g".
Definition PrefixValidator : string := "val".
Definition PrefixConsensus : string := "cons".
Definition PrefixPublic : string := "pub".
Definition PrefixOperator : string := "oper".
Definition Bech32PrefixAccAddr : string := Bech32Prefix.
Definition Bech32PrefixAccPub : string := Bech32Prefix +:+ PrefixPublic.
Definition Bech32PrefixValAddr : string := Bech32Prefix +:+ PrefixValidator +:+ PrefixOperator.
Definition Bech32PrefixValPub : string := Bech32Prefix +:+ PrefixValidator +:+ PrefixOperator +:+ PrefixPublic.
Definition Bech32PrefixConsAddr : string := Bech32Prefix +:+ PrefixValidator +:+ PrefixConsensus.
Definition Bech32PrefixConsPub : string := Bech32Prefix +:+ PrefixValidator +:+ PrefixConsensus +:+ PrefixPublic.
(** coin.go *)
Definition Bip44CoinType : Z := 459.

(** ** The settings of the SDK (config.go)

    [C]: the configuration; its setters are arguments. *)
Class SdkSettings (C : Type) : Type := {
  SetBech32PrefixForAccount : string -> string -> C -> C;
  SetBech32PrefixForValidator : string -> string -> C -> C;
  SetBech32PrefixForConsensusNode : string -> string -> C -> C;
  SetCoinType : Z -> C -> C
}.

Section Settings.
  Context {C : Type} {settings : SdkSettings C}.

Definition setBech32Prefixes (config : C) : C :=
  let config := SetBech32PrefixForAccount Bech32PrefixAccAddr Bech32PrefixAccPub config in
  let config := SetBech32PrefixForValidator Bech32PrefixValAddr Bech32PrefixValPub config in
  SetBech32PrefixForConsensusNode Bech32PrefixConsAddr Bech32PrefixConsPub config.
Definition setBip44CoinType (config : C) : C := SetCoinType Bip44CoinType config.
Definition SetSDKConfig (config : C) : C := setBip44CoinType (setBech32Prefixes config).
End Settings.

(** ** The home directory (homedir.go)

    [os.UserHomeDir] fails where there is none; the error is logged and the empty string
    joined. *)
Definition HomeDirName : string := ".0gchain".
Definition init_DefaultNodeHome (UserHomeDir : outcome string) (filepath_Join : string -> string -> string) : string :=
  let userHomeDir := match UserHomeDir with Ok d => d | _ => "" end in
  filepath_Join userHomeDir HomeDirName.

(** ** Coins (coin_helper.go) *)
Section Coins.
  (** [F]: floating-point numbers.  [big.Int.SetString(s, 0)] fails on a malformed
      number; [decimal.NewFromFloat(f).BigInt()] is the integer part. *)
  Context `{sdk : SdkConfig} {F : Type} (SetString : string -> option Z) (float_BigInt : F -> Z).

(** The values of an argument of type [any]; [None] is a nil pointer. *)
Inductive any_amount : Type :=
| AnyNil
| AnyInt (n : Z) | AnyInt32 (n : Z) | AnyInt64 (n : Z)
| AnyString (s : string)
| AnyMathInt (n : Z)
| AnyBigInt (n : option Z)
| AnyFloat64 (f : F)
| AnyOther.

Definition toBigInt (amount : any_amount) : outcome (option Z) :=
  match amount with
  | AnyNil => Ok (Some 0)
  | AnyInt n | AnyInt32 n | AnyInt64 n => Ok (Some n)
  | AnyString s => match SetString s with Some val => Ok (Some val) | None => Panic "invalid amount string" end
  | AnyMathInt n => Ok (Some n)
  | AnyBigInt n => Ok n
  | AnyFloat64 f => Ok (Some (float_BigInt f))
  | AnyOther => Panic "invalid amount type"
  end.

(** [NewIntFromBigInt] of nil is an [Int] without a value, which [NewCoin] panics on. *)
Definition makeCoin (denom : string) (amount : option Z) : outcome Coin :=
  match amount with
  | None => Panic "amount without a value"
  | Some amount => let! amount := int_chk amount in NewCoin denom amount
  end.

Definition MakeCoinForStandardDenom (amount : any_amount) : outcome Coin :=
  let! val := toBigInt amount in makeCoin StandardDenom val.
Definition MakeCoinForGasDenom (amount : any_amount) : outcome Coin :=
  let! val := toBigInt amount in makeCoin GasDenom val.
Definition MakeCoinForEvmDenom (amount : any_amount) : outcome Coin :=
  let! val := toBigInt amount in makeCoin EvmDenom val.
End Coins.

(** ** The inflation rule (mint.go) *)
Definition Xmax : Dec := 10 ^ 18.
Definition Ymin : Dec := 5 * 10 ^ 16.
Definition Xmin : Dec := 2 * 10 ^ 17.
Definition Ymax : Dec := 15 * 10 ^ 16.
Definition decayRate : Dec := 10 * 10 ^ 18.

(** The library of decimals ([D]) that computes the exponential. *)
Class Decimals (D : Type) : Type := {
  NewFromBigInt : Z -> Z -> D;
  ExpTaylor : D -> Z -> D * option error;
  Shift : D -> Z -> D;
  decimal_BigInt : D -> Z
}.

Section Mint.
  Context `{dc : DecConfig, dm : DecMore, lib : Decimals D}.

Definition decExp (x : Dec) : Dec :=
  let xDec := NewFromBigInt x (-18) in
  let '(expDec, _) := ExpTaylor xDec 18 in
  let expInt := decimal_BigInt (Shift expDec 18) in
  NewDecWithPrec expInt 18.

(** The yield for the staked share [X] of the circulating supply. *)
Definition apy_at (X : Dec) : outcome Dec :=
  if X <? Xmin then Ok Ymax else
  let! range := Dec_Sub Xmax Xmin in
  let! exp := Dec_Mul (- decayRate) range in
  let c := decExp exp in
  let! m := Dec_Mul Ymax c in
  let! n := Dec_Sub Ymin m in
  let! rest := Dec_Sub (NewDec 1) c in
  let! d := Dec_Quo n rest in
  let! excess := Dec_Sub X Xmin in
  let! expBonded := Dec_Mul (- decayRate) excess in
  let cBonded := decExp expBonded in
  let! span := Dec_Sub Ymax d in
  let! e := Dec_Mul span cBonded in
  Dec_Add d e.

Definition NextInflationRate (bondedRatio circulatingRatio : Dec) : outcome Dec :=
  let! X := Dec_Quo bondedRatio circulatingRatio in
  let! apy := apy_at X in
  Dec_Mul apy bondedRatio.
End Mint.
