(* ===== verification/ChaincfgTheorems.v ===== *)
(** * The inflation rule of chaincfg: its bounds, and its end points

    From the laws of the library of decimals ([DecimalLaws]) follows how close [decExp] is
    to the exponential of the real numbers, and from this the yield. *)

From S2P Require Import Prelude Sdk SdkDec Chaincfg.

From Stdlib Require Import Reals Lra.
Local Open Scope Z_scope.

(** ** What the rule relies on of the library of decimals

    A decimal is a coefficient and a power of ten.  [NewFromBigInt] makes one, [Shift] adds
    to its exponent, [BigInt] is its integer part, and [ExpTaylor] of an argument that is
    not positive has at most [p] digits after the point and is less than 10^-p away from
    the exponential. *)
Definition decimal_value (coefficient exponent : Z) : R := (IZR coefficient * powerRZ 10 exponent)%R.

Class DecimalLaws `{lib : Decimals D} : Type := {
  Coefficient : D -> Z;
  Exponent : D -> Z;
  NewFromBigInt_view v e : Coefficient (NewFromBigInt v e) = v /\ Exponent (NewFromBigInt v e) = e;
  Shift_view d n : Coefficient (Shift d n) = Coefficient d /\ Exponent (Shift d n) = Exponent d + n;
  BigInt_view d : decimal_BigInt d = if 0 <=? Exponent d then Coefficient d * 10 ^ Exponent d
                                     else Z.quot (Coefficient d) (10 ^ (- Exponent d));
  ExpTaylor_view d p : Coefficient d <= 0 -> 0 <= p ->
    let r := (ExpTaylor d p).1 in
    - p <= Exponent r
    /\ (Rabs (decimal_value (Coefficient r) (Exponent r) - exp (decimal_value (Coefficient d) (Exponent d)))
         < powerRZ 10 (- p))%R
}.

(** ** The exponential of the rule

    [decExp] works on units of 10^-18: its result is less than one unit away from the
    exponential, and the four facts that the rule needs follow. *)
Section Exponential.
  Context `{ex : DecimalLaws D}.

Definition unit_value (x : Dec) : R := (IZR x / IZR (10 ^ 18))%R.

Lemma powerRZ_10 n : 0 <= n -> powerRZ 10 n = IZR (10 ^ n).
Proof. intros Hn. rewrite <- (Z2Nat.id n Hn). rewrite <- pow_powerRZ, pow_IZR. reflexivity. Qed.

Lemma decimal_value_minus_18 x : decimal_value x (-18) = unit_value x.
Proof. unfold decimal_value, unit_value, Rdiv. f_equal. change (-18) with (- (18)). by rewrite powerRZ_neg', powerRZ_10. Qed.

(** Shifted by 18, a decimal of at most 18 digits after the point is an integer. *)
Lemma decExp_value x : let r := (ExpTaylor (NewFromBigInt x (-18)) 18).1 in
  -18 <= Exponent r -> decimal_value (Coefficient r) (Exponent r) = unit_value (decExp x).
Proof.
  cbv zeta. unfold decExp, NewDecWithPrec. destruct (ExpTaylor _ _) as [r err]. cbn [fst]. intros He.
  destruct (Shift_view r 18) as [Hc Hs]. rewrite BigInt_view, Hc, Hs, (proj2 (Z.leb_le _ _)) by lia.
  change (10 ^ (18 - 18)) with 1. rewrite Z.mul_1_r. unfold unit_value, decimal_value.
  rewrite mult_IZR, <- powerRZ_10 by lia. rewrite powerRZ_add by lra. rewrite (powerRZ_10 18) by lia.
  field. apply not_0_IZR. lia.
Qed.

(** Less than one unit away from the exponential. *)
Lemma decExp_close x : x <= 0 ->
  (Rabs (IZR (decExp x) - exp (unit_value x) * IZR (10 ^ 18)) < 1)%R.
Proof.
  intros Hx. destruct (NewFromBigInt_view x (-18)) as [Hc He].
  destruct (ExpTaylor_view (NewFromBigInt x (-18)) 18) as [Hp Hclose]; [lia|lia|].
  rewrite decExp_value, Hc, He, decimal_value_minus_18, powerRZ_neg', powerRZ_10 in Hclose by lia.
  assert (0 < IZR (10 ^ 18))%R as Hpos by (apply IZR_lt; lia).
  apply (Rmult_lt_compat_r _ _ _ Hpos) in Hclose. rewrite Rinv_l in Hclose by lra.
  rewrite <- (Rabs_pos_eq (IZR (10 ^ 18))) in Hclose by lra. rewrite <- Rabs_mult in Hclose.
  eapply Rle_lt_trans; [|exact Hclose]. apply Req_le. f_equal. unfold unit_value. field. lra.
Qed.

Lemma exp_unit_le x y : x <= y -> (exp (unit_value x) <= exp (unit_value y))%R.
Proof.
  intros [Hlt| ->]%Z.le_lteq; [|lra]. left. apply exp_increasing. unfold unit_value, Rdiv.
  apply Rmult_lt_compat_r; [apply Rinv_0_lt_compat, IZR_lt; lia|by apply IZR_lt].
Qed.

Lemma exp_unit_zero : exp (unit_value 0) = 1%R.
Proof. unfold unit_value, Rdiv. rewrite Rmult_0_l. apply exp_0. Qed.

Lemma decExp_range x : x <= 0 -> 0 <= decExp x <= 10 ^ 18.
Proof.
  intros Hx. pose proof (decExp_close x Hx) as H. apply Rabs_def2 in H as [H1 H2].
  pose proof (exp_pos (unit_value x)) as Hpos. pose proof (exp_unit_le x 0 Hx) as Hle. rewrite exp_unit_zero in Hle.
  assert (0 < IZR (10 ^ 18))%R as H10 by (apply IZR_lt; lia).
  split.
  - assert (IZR (-1) < IZR (decExp x))%R as Hlt by nra. apply lt_IZR in Hlt. lia.
  - assert (IZR (decExp x) < IZR (10 ^ 18 + 1))%R as Hlt by (rewrite plus_IZR; nra). apply lt_IZR in Hlt. lia.
Qed.

Lemma decExp_mono x y : x <= y <= 0 -> decExp x <= decExp y + 2.
Proof.
  intros Hxy. pose proof (decExp_close x ltac:(lia)) as Hx. apply Rabs_def2 in Hx as [Hx _].
  pose proof (decExp_close y ltac:(lia)) as Hy. apply Rabs_def2 in Hy as [_ Hy].
  pose proof (exp_unit_le x y ltac:(lia)) as Hle. assert (0 < IZR (10 ^ 18))%R as H10 by (apply IZR_lt; lia).
  apply le_IZR. rewrite plus_IZR. nra.
Qed.

Lemma decExp_zero : decExp 0 = 10 ^ 18.
Proof.
  pose proof (decExp_close 0 ltac:(lia)) as H. rewrite exp_unit_zero, Rmult_1_l, <- minus_IZR in H.
  rewrite <- abs_IZR in H. apply lt_IZR in H. lia.
Qed.

(** e^8 is above (5/4)^32, so e^-8 is below a thousandth. *)
Lemma exp_minus_8_small : (exp (-8) <= / 1000)%R.
Proof.
  assert (5 / 4 < exp (/ 4))%R as H by (pose proof (exp_ineq1 (/ 4) ltac:(lra)); lra).
  assert (1000 <= exp (/ 4) ^ 32)%R as H32.
  { transitivity ((5 / 4) ^ 32)%R; [lra|]. apply pow_incr. lra. }
  replace (-8)%R with (- (8))%R by lra. rewrite exp_Ropp. apply Rinv_le_contravar; [lra|].
  replace 8%R with (INR 32 * / 4)%R by (simpl; lra). 
  rewrite <- Rpower_pow in H32 by apply exp_pos. unfold Rpower in H32. by rewrite ln_exp in H32.
Qed.

Lemma decExp_minus_8 : decExp (- (8 * 10 ^ 18)) <= 10 ^ 15.
Proof.
  pose proof (decExp_close (- (8 * 10 ^ 18)) ltac:(lia)) as H. apply Rabs_def2 in H as [H _].
  replace (unit_value (- (8 * 10 ^ 18))) with (-8)%R in H by (unfold unit_value; rewrite opp_IZR, mult_IZR; field; apply not_0_IZR; lia).
  pose proof exp_minus_8_small. assert (IZR (decExp (- (8 * 10 ^ 18))) < IZR (10 ^ 15 + 1))%R as Hlt.
  { rewrite plus_IZR. simpl in *. lra. }
  apply lt_IZR in Hlt. lia.
Qed.
End Exponential.

Section Mint.
  Context `{dl : DecLaws, dm : DecMore, dr : !DecRound, ex : DecimalLaws}.

(** The constant part of the yield: [d] of the source, with how it rounds. *)
Lemma floor_yield : let c := decExp (- (8 * 10 ^ 18)) in
  exists m d, Dec_Mul Ymax c = Ok m /\ Dec_Quo (Ymin - m) (10 ^ 18 - c) = Ok d
    /\ 498 * 10 ^ 14 <= d <= Ymin + 1
    /\ Z.abs (d * (10 ^ 18 - c) + Ymax * c - Ymin * 10 ^ 18) <= 2 * 10 ^ 18.
Proof.
  intros c. pose proof (decExp_range (- (8 * 10 ^ 18)) ltac:(lia)) as Hc. pose proof decExp_minus_8 as H8.
  fold c in Hc, H8. unfold Ymax, Ymin.
  destruct (Dec_Mul_round (15 * 10 ^ 16) c) as (m & Em & Hm); [lia|].
  destruct (Dec_Quo_round (5 * 10 ^ 16 - m) (10 ^ 18 - c)) as (d & Ed & Hd); [lia|lia|].
  exists m, d. split; [done|]. split; [done|]. clearbody c. clear - Hc H8 Hm Hd.
  assert (Z.abs (d * (10 ^ 18 - c) - (5 * 10 ^ 16 - m) * 10 ^ 18) < 10 ^ 18 - c) as Hd' by lia. clear Hd.
  assert (0 <= m <= 15 * 10 ^ 13) as Hm0 by lia.
  split; [|lia]. split.
  - apply Z.lt_succ_r. apply (Z.mul_lt_mono_pos_r (10 ^ 18 - c)); lia.
  - apply Z.lt_succ_r. apply (Z.mul_lt_mono_pos_r (10 ^ 18 - c)); [lia|]. lia.
Qed.

(** From [Xmin] on the yield is [d + (Ymax - d) * e^(-10 * (X - Xmin))]. *)
Lemma apy_curve X : Xmin <= X < 2 ^ 200 ->
  let c := decExp (- (8 * 10 ^ 18)) in let cb := decExp (- (10 * (X - Xmin))) in
  exists d e, apy_at X = Ok (d + e) /\ 498 * 10 ^ 14 <= d <= Ymin + 1
    /\ Z.abs (d * (10 ^ 18 - c) + Ymax * c - Ymin * 10 ^ 18) <= 2 * 10 ^ 18
    /\ 2 * Z.abs (e * 10 ^ 18 - (Ymax - d) * cb) <= 10 ^ 18 /\ 0 <= c <= 10 ^ 15 /\ 0 <= cb <= 10 ^ 18.
Proof.
  intros HX c cb. destruct floor_yield as (m & d & Em & Ed & Hd & Hround). fold c in Em, Ed, Hround.
  pose proof (decExp_range (- (8 * 10 ^ 18)) ltac:(lia)) as Hc. fold c in Hc.
  pose proof decExp_minus_8 as H8. fold c in H8.
  assert (0 <= cb <= 10 ^ 18) as Hcb by (apply decExp_range; lia).
  assert (Z.abs (Ymax * c) < 2 ^ 314 * 10 ^ 18) as Hm by (unfold Ymax; lia).
  destruct (Dec_Mul_round _ _ Hm) as (m' & Em' & Hm'). assert (m' = m) as -> by congruence.
  assert (0 <= (Ymax - d) * cb <= Ymax * 10 ^ 18) as Hp.
  { unfold Ymax, Ymin in *. split; [apply Z.mul_nonneg_nonneg|apply Z.mul_le_mono_nonneg]; lia. }
  destruct (Dec_Mul_round (Ymax - d) cb) as (e & Ee & He); [unfold Ymax in *; lia|].
  exists d, e. split; [|naive_solver lia]. unfold apy_at. rewrite (proj2 (Z.ltb_ge _ _)) by lia.
  assert (forall a b, Z.abs (a - b) < 2 ^ 300 -> Dec_Sub a b = Ok (a - b)) as Hsub.
  { intros a b Hab. apply Dec_Sub_Ok. unfold dec_fits. lia. }
  assert (forall a, Z.abs a < 2 ^ 300 -> Dec_Mul (- decayRate) a = Ok (- (10 * a))) as Hmul.
  { intros a Ha. change (- decayRate) with (NewDec (-10)). rewrite Dec_whole_Mul; [f_equal; lia|]. unfold dec_fits. lia. }
  unfold NewDec, Xmin, Xmax, Ymin, Ymax in *.
  rewrite Hsub by lia. cbn [obind]. rewrite Hmul by lia. cbn [obind].
  change (- (10 * (10 ^ 18 - 2 * 10 ^ 17))) with (- (8 * 10 ^ 18)). fold c. rewrite Em. cbn [obind].
  rewrite Hsub by lia. cbn [obind]. rewrite Z.mul_1_l, Hsub by lia. cbn [obind]. rewrite Ed. cbn [obind].
  rewrite Hsub by lia. cbn [obind]. rewrite Hmul by lia. cbn [obind]. rewrite Hsub by lia. cbn [obind].
  fold cb. rewrite Ee. cbn [obind]. apply Dec_Add_Ok. unfold dec_fits. lia.
Qed.

Lemma apy_bounds X : 0 <= X < 2 ^ 200 -> exists apy, apy_at X = Ok apy
  /\ 498 * 10 ^ 14 <= apy <= Ymax /\ (X <= Xmin -> apy = Ymax)
  /\ (X <= Xmax -> Ymin - 3 <= apy) /\ (X = Xmax -> apy <= Ymin + 3).
Proof.
  intros HX. destruct (Z.ltb_spec X Xmin) as [Hlt|Hge].
  - exists Ymax. unfold apy_at. rewrite (proj2 (Z.ltb_lt _ _) Hlt). unfold Xmin, Xmax, Ymin, Ymax in *. naive_solver lia.
  - destruct (apy_curve X) as (d & e & Hapy & Hd & Hround & He & Hc & Hcb); [lia|].
    exists (d + e). split; [done|]. 
    assert (X <= Xmin -> decExp (- (10 * (X - Xmin))) = 10 ^ 18) as Hlow.
    { intros H. replace (- (10 * (X - Xmin))) with 0 by lia. apply decExp_zero. }
    assert (X <= Xmax -> decExp (- (8 * 10 ^ 18)) <= decExp (- (10 * (X - Xmin))) + 2) as Hhigh.
    { intros H. apply decExp_mono. unfold Xmin, Xmax in *. lia. }
    assert (X = Xmax -> decExp (- (10 * (X - Xmin))) = decExp (- (8 * 10 ^ 18))) as Hend by (intros ->; done).
    revert Hround He Hc Hcb Hlow Hhigh Hend.
    generalize (decExp (- (8 * 10 ^ 18))) (decExp (- (10 * (X - Xmin)))). intros c cb Hround He Hc Hcb Hlow Hhigh Hend.
    unfold Ymin, Ymax in *. clear Hapy. split_and!.
    + nia.
    + nia.
    + intros H. rewrite Hlow in He by done. lia.
    + intros H. specialize (Hhigh H). nia.
    + intros H. rewrite (Hend H) in He. nia.
Qed.
(** C27: with some of the supply bonded and circulating, the rule always gives a rate: the
    yield times the bonded ratio, rounded to the nearest 10^-18.  The yield lies between
    4.98% and 15%; it is exactly 15% as long as at most a fifth of the circulating supply
    is staked, at least 5% (up to the rounding) until all of it is, and 5% at that point.  Of
    the library of decimals only its documentation is used: shifts and integer parts, and an
    exponential that is exact to the precision asked for. *)
Theorem inflation_bounds (bondedRatio circulatingRatio : Dec) :
  0 <= bondedRatio <= 10 ^ 18 -> 0 < circulatingRatio <= 10 ^ 18 ->
  exists X apy inflation, Dec_Quo bondedRatio circulatingRatio = Ok X
    /\ NextInflationRate bondedRatio circulatingRatio = Ok inflation
    /\ 2 * Z.abs (inflation * 10 ^ 18 - apy * bondedRatio) <= 10 ^ 18
    /\ 498 * 10 ^ 14 <= apy <= Ymax /\ (X <= Xmin -> apy = Ymax)
    /\ (X <= Xmax -> Ymin - 3 <= apy) /\ (X = Xmax -> apy <= Ymin + 3).
Proof.
  intros Hb Hr. destruct (Dec_Quo_round bondedRatio circulatingRatio) as (X & EX & HX); [lia|lia|].
  assert (-1 < X < 10 ^ 36 + 1) as HX'.
  { split; apply (Z.mul_lt_mono_pos_r circulatingRatio); lia. }
  destruct (apy_bounds X) as (apy & Eapy & Hapy & Hrest); [lia|].
  assert (0 <= apy * bondedRatio <= Ymax * 10 ^ 18) as Hp.
  { split; [apply Z.mul_nonneg_nonneg|apply Z.mul_le_mono_nonneg]; lia. }
  destruct (Dec_Mul_round apy bondedRatio) as (inflation & Ei & Hi); [unfold Ymax in *; lia|].
  exists X, apy, inflation. unfold NextInflationRate. rewrite EX. cbn [obind]. rewrite Eapy. done.
Qed.

(** Without circulating supply the rule panics. *)
Lemma no_circulating_supply bondedRatio : isPanic (NextInflationRate bondedRatio 0) = true.
Proof. unfold NextInflationRate. by destruct (Dec_Quo_zero bondedRatio) as [w ->]. Qed.
End Mint.

(** ** Denominations *)

(** Every denomination is registered with the value of its unit in the standard coin, and
    the multipliers of the source convert between the units. *)
Lemma RegisterDenoms_units {R} (RegisterDenom : string -> Dec -> R -> outcome R) (units : R -> string -> option Dec) r r' :
  (forall d u s s', RegisterDenom d u s = Ok s' -> forall d', units s' d' = if decide (d = d') then Some u else units s d') ->
  RegisterDenoms RegisterDenom r = Ok r' ->
  exists gas evm, units r' StandardDenom = Some (10 ^ 18) /\ units r' GasDenom = Some gas /\ units r' EvmDenom = Some evm
    /\ evm * EvmDenomConversionMultiplier = 10 ^ 18 /\ gas = evm * GasDenomConversionMultiplier.
Proof.
  intros Hreg H. unfold RegisterDenoms, must in H.
  destruct (RegisterDenom StandardDenom _ _) as [r1| |] eqn:E1; [|done..]. cbn [obind] in H.
  destruct (RegisterDenom GasDenom _ _) as [r2| |] eqn:E2; [|done..]. cbn [obind] in H.
  destruct (RegisterDenom EvmDenom _ _) as [r3| |] eqn:E3; [|done..]. injection H as <-.
  exists (NewDecWithPrec 1 GasDenomUnit), (NewDecWithPrec 1 EvmDenomUnit).
  rewrite !(Hreg _ _ _ _ E3), !(Hreg _ _ _ _ E2), !(Hreg _ _ _ _ E1). split_and!; reflexivity.
Qed.

(** ** Prefixes *)

(** What a configuration holds. *)
Record Prefixes : Type := mkPrefixes {
  pxAccount : string * string; pxValidator : string * string; pxConsensus : string * string; pxCoinType : Z }.
#[export] Instance record_settings : SdkSettings Prefixes := {|
  SetBech32PrefixForAccount a p c := mkPrefixes (a, p) (pxValidator c) (pxConsensus c) (pxCoinType c);
  SetBech32PrefixForValidator a p c := mkPrefixes (pxAccount c) (a, p) (pxConsensus c) (pxCoinType c);
  SetBech32PrefixForConsensusNode a p c := mkPrefixes (pxAccount c) (pxValidator c) (a, p) (pxCoinType c);
  SetCoinType n c := mkPrefixes (pxAccount c) (pxValidator c) (pxConsensus c) n
|}.

(** The configuration names six kinds of addresses and keys, with six different prefixes: an
    address of one kind is not read as another. *)
Lemma prefixes_distinct c :
  let c' := SetSDKConfig c in
  NoDup [(pxAccount c').1; (pxAccount c').2; (pxValidator c').1; (pxValidator c').2; (pxConsensus c').1; (pxConsensus c').2]
  /\ pxCoinType c' = Bip44CoinType.
Proof. split; [|reflexivity]. apply (bool_decide_unpack _). vm_compute. exact I. Qed.
