(* ===== verification/ChaincfgWitness.v ===== *)
(** * chaincfg: a library of decimals, and a block's inflation *)

From S2P Require Import Prelude Sdk SdkDec SdkModel Chaincfg ChaincfgTheorems.
From Stdlib Require Import Reals Lra.
Local Open Scope Z_scope.

(** ** Decimals that are evaluated *)
Module MintChain.
#[export] Existing Instances DecModel.dec DecModel.dec_laws DecModel.more DecModel.dec_round.

(** A decimal is a coefficient and an exponent.  The exponential of a number that is not
    positive is one over the sum of the first terms of the series at its absolute value. *)
Definition integer_part (d : Z * Z) : Z :=
  if 0 <=? d.2 then d.1 * 10 ^ d.2 else Z.quot d.1 (10 ^ (- d.2)).
Definition shift (d : Z * Z) (n : Z) : Z * Z := (d.1, d.2 + n).
(** [t + t*a/i + t*a^2/(i*(i+1)) + ...], [n] terms after the first, in units of 10^-p. *)
Fixpoint series_from (p a : Z) (n : nat) (i t : Z) : Z :=
  match n with
  | O => t
  | S n => t + series_from p a n (i + 1) (t * a / (i * 10 ^ p))
  end.
Definition series (p a : Z) : Z := series_from p a 60 1 (10 ^ p).
Definition exp_taylor (d : Z * Z) (p : Z) : (Z * Z) * option error :=
  let x := integer_part (shift d p) in
  let s := series p (Z.abs x) in
  ((if x <=? 0 then 10 ^ (2 * p) / s else s, - p), None).

Definition decimals : Decimals (Z * Z) := {|
  NewFromBigInt v e := (v, e); ExpTaylor := exp_taylor; Shift := shift; decimal_BigInt := integer_part
|}.

#[local] Existing Instance decimals.

(** e^-8 to 18 digits. *)
Example exp_minus_8 : decExp (- (8 * 10 ^ 18)) = 335462627902511.
Proof. vm_compute. reflexivity. Qed.

(** Half of the supply bonded, all of it circulating: about 2.7% of inflation. *)
Example half_bonded : NextInflationRate (5 * 10 ^ 17) (10 ^ 18) = Ok 27473410023624477.
Proof. vm_compute. reflexivity. Qed.
End MintChain.

(** ** Decimals that keep the laws

    The exponential of the real numbers, cut after [p] digits. *)
Module ExactChain.
#[export] Existing Instances DecModel.dec DecModel.dec_laws DecModel.more DecModel.dec_round.

Definition exp_cut (d : Z * Z) (p : Z) : (Z * Z) * option error :=
  ((Int_part (exp (decimal_value d.1 d.2) * powerRZ 10 p), - p), None).

#[export] Instance exact : Decimals (Z * Z) := {|
  NewFromBigInt v e := (v, e); ExpTaylor := exp_cut;
  Shift := MintChain.shift; decimal_BigInt := MintChain.integer_part
|}.

Lemma cut_close r p : (Rabs (decimal_value (Int_part (r * powerRZ 10 p)) (- p) - r) < powerRZ 10 (- p))%R.
Proof.
  assert (0 < powerRZ 10 p)%R as Hp by (apply powerRZ_lt; lra). unfold decimal_value. rewrite powerRZ_neg'.
  destruct (base_Int_part (r * powerRZ 10 p)) as [H1 H2]. set (n := IZR (Int_part _)) in *.
  apply Rabs_def1; apply (Rmult_lt_reg_r (powerRZ 10 p)); try done.
  - replace ((n * / powerRZ 10 p - r) * powerRZ 10 p)%R with (n - r * powerRZ 10 p)%R by (field; lra).
    rewrite Rinv_l; lra.
  - replace ((n * / powerRZ 10 p - r) * powerRZ 10 p)%R with (n - r * powerRZ 10 p)%R by (field; lra).
    rewrite Ropp_mult_distr_l_reverse, Rinv_l; lra.
Qed.

#[export] Instance exact_laws : @DecimalLaws _ exact.
Proof.
  refine (Build_DecimalLaws _ exact fst snd _ _ _ _).
  - done.
  - done.
  - done.
  - intros d p _ _. split; [done|]. apply cut_close.
Defined.

(** Half of the supply bonded, all of it circulating. *)
Lemma inflation_bounds_witness :
  exists X apy inflation, Dec_Quo (5 * 10 ^ 17) (10 ^ 18) = Ok X
    /\ NextInflationRate (5 * 10 ^ 17) (10 ^ 18) = Ok inflation
    /\ 2 * Z.abs (inflation * 10 ^ 18 - apy * (5 * 10 ^ 17)) <= 10 ^ 18
    /\ 498 * 10 ^ 14 <= apy <= Ymax /\ (X <= Xmin -> apy = Ymax)
    /\ (X <= Xmax -> Ymin - 3 <= apy) /\ (X = Xmax -> apy <= Ymin + 3).
Proof. apply (inflation_bounds (5 * 10 ^ 17) (10 ^ 18)); lia. Defined.
End ExactChain.
