(* ===== verification/Paging.v ===== *)
(** * Pages of query results

    The pagination of the SDK is an argument of the queries ([PagingEnv]); [PagingLaws] is
    what its documentation says of requests by offset and by page number. *)

From S2P Require Import Prelude.

Record PageRequest : Type := mkPageRequest { pgKey : list Z; pgOffset : Z; pgLimit : Z }.
Record PageResponse : Type := mkPageResponse { pgNextKey : list Z; pgTotal : Z }.

Class PagingEnv : Type := {
  (** [query.Paginate] over the values of a store. *)
  store_Paginate : forall V : Type, list V -> PageRequest -> outcome (list V * PageResponse);
  (** [query.FilteredPaginate]: those of the page that the callback accepts. *)
  FilteredPaginate : forall V : Type, list V -> PageRequest -> (V -> bool) -> outcome (list V * PageResponse);
  (** [client.Paginate(numObjs, page, limit, defLimit)] *)
  client_Paginate : Z -> Z -> Z -> Z -> Z * Z
}.
Arguments store_Paginate {_ V}.
Arguments FilteredPaginate {_ V}.

(** [limit] values from the offset on. *)
Definition page_from {X : Type} (offset limit : Z) (l : list X) : list X :=
  take (Z.to_nat limit) (drop (Z.to_nat offset) l).
(** The page [page], counted from one. *)
Definition page_of {X : Type} (limit page : Z) (l : list X) : list X := page_from ((page - 1) * limit) limit l.

Class PagingLaws `{PagingEnv} : Prop := {
  store_Paginate_offset V (l : list V) p : pgKey p = [] -> 0 <= pgOffset p -> 0 < pgLimit p ->
    exists info, store_Paginate l p = Ok (page_from (pgOffset p) (pgLimit p) l, info);
  (** Every value of a page is one of the store that the callback accepts. *)
  FilteredPaginate_sound V (l : list V) p hit vs info : FilteredPaginate l p hit = Ok (vs, info) ->
    Forall (fun v => v ∈ l /\ hit v = true) vs;
  FilteredPaginate_offset V (l : list V) p hit : pgKey p = [] -> 0 <= pgOffset p -> 0 < pgLimit p ->
    exists info, FilteredPaginate l p hit =
      Ok (page_from (pgOffset p) (pgLimit p) (filter (fun v => hit v = true) l), info);
  (** A page after the last object is invalid. *)
  client_Paginate_page n page limit def : 0 <= n -> 0 < page -> 0 < limit -> page * limit < 2 ^ 63 ->
    client_Paginate n page limit def =
      if (page - 1) * limit <? n then ((page - 1) * limit, Z.min n (page * limit)) else (-1, -1)
}.

(** [l[start:end]] *)
Definition slice {X : Type} (l : list X) (start fin : Z) : outcome (list X) :=
  if (0 <=? start) && (start <=? fin) && (fin <=? Z.of_nat (length l))
  then Ok (take (Z.to_nat (fin - start)) (drop (Z.to_nat start) l))
  else Panic "slice bounds out of range".

(** The pages together are the whole list. *)
Lemma pages_concat {X : Type} limit (l : list X) (k : nat) : 0 < limit -> (length l <= k * Z.to_nat limit)%nat ->
  concat (map (fun i => page_of limit (Z.of_nat i) l) (seq 1 k)) = l.
Proof.
  intros Hl Hk. transitivity (take (k * Z.to_nat limit) l); [|by apply take_ge]. clear Hk.
  induction k as [|k IH]; [done|]. rewrite seq_S, map_app, concat_app, IH. cbn [map concat].
  rewrite app_nil_r. unfold page_of, page_from.
  replace (Z.to_nat ((Z.of_nat (1 + k) - 1) * limit)) with (k * Z.to_nat limit)%nat by lia.
  by rewrite take_take_drop, Nat.add_comm.
Qed.

Lemma slice_page {X : Type} (l : list X) page limit : 0 < page -> 0 < limit -> (page - 1) * limit < Z.of_nat (length l) ->
  slice l ((page - 1) * limit) (Z.min (Z.of_nat (length l)) (page * limit)) = Ok (page_of limit page l).
Proof.
  intros Hp Hl Hlt. unfold slice, page_of, page_from. rewrite !(proj2 (Z.leb_le _ _)) by nia. simpl. f_equal.
  destruct (Z.le_gt_cases (Z.of_nat (length l)) (page * limit)) as [Hle|Hgt].
  - rewrite Z.min_l by done. rewrite !take_ge; [done|rewrite length_drop; lia..].
  - rewrite Z.min_r by lia. f_equal. lia.
Qed.

(** ** An implementation, for pages by offset *)
Module PagingModel.
Definition paginate {V : Type} (l : list V) (p : PageRequest) : outcome (list V * PageResponse) :=
  Ok (page_from (pgOffset p) (pgLimit p) l, mkPageResponse [] (Z.of_nat (length l))).
Definition client_paginate (n page limit def : Z) : Z * Z :=
  if page <=? 0 then (-1, -1) else
  let limit := if limit <=? 0 then def else limit in
  if (page - 1) * limit <? n then ((page - 1) * limit, Z.min n (page * limit)) else (-1, -1).

#[export] Instance paging : PagingEnv := {|
  store_Paginate V l p := paginate l p;
  FilteredPaginate V l p hit := paginate (filter (fun v => hit v = true) l) p;
  client_Paginate := client_paginate
|}.
#[export] Instance paging_laws : PagingLaws.
Proof.
  split.
  - intros V l p Hk Ho Hl. by eexists.
  - intros V l p hit vs info [= <- <-]. apply Forall_forall. intros v Hv.
    apply (subseteq_take (Z.to_nat (pgLimit p))), (subseteq_drop (Z.to_nat (pgOffset p))), list_elem_of_filter in Hv. tauto.
  - intros V l p hit Hk Ho Hl. by eexists.
  - intros n page limit def Hn Hp Hl Hb. cbn [client_Paginate paging]. unfold client_paginate.
    by rewrite !(proj2 (Z.leb_gt _ 0)) by lia.
Qed.
End PagingModel.
