(* ===== verification/Bep3Query.v ===== *)
(** * x/bep3: the queries (keeper/grpc_query.go, keeper/querier.go)

    Two servers answer the same questions: the gRPC server, and the older router whose
    requests and answers are JSON.  The pagination of the SDK and the JSON codec are
    arguments. *)

From S2P Require Import Prelude Paging Sdk GoStd Bank Bep3Types Bep3Keeper.

(** ** Requests and answers *)
Record AssetSupplyResponse : Type := mkAssetSupplyResponse {
  rsIncomingSupply : Coin; rsOutgoingSupply : Coin; rsCurrentSupply : Coin;
  rsTimeLimitedCurrentSupply : Coin; rsTimeElapsed : Z
}.
Record AtomicSwapResponse : Type := mkAtomicSwapResponse {
  rsId : string; rsAmount : Coins; rsRandomNumberHash : string; rsExpireHeight : Z; rsTimestamp : Z;
  rsSender : string; rsRecipient : string; rsSenderOtherChain : string; rsRecipientOtherChain : string;
  rsClosedBlock : Z; rsStatus : SwapStatus; rsCrossChain : bool; rsDirection : SwapDirection
}.
Record QueryAtomicSwapsRequest : Type := mkSwapsRequest {
  rqInvolve : string; rqExpiration : Z; rqStatus : SwapStatus; rqDirection : SwapDirection; rqPagination : PageRequest
}.
(** The parameters of the older query ([types/querier.go]). *)
Record QueryAtomicSwaps : Type := NewQueryAtomicSwaps {
  qsPage : Z; qsLimit : Z; qsInvolve : AccAddress; qsExpiration : Z; qsStatus : SwapStatus; qsDirection : SwapDirection
}.
Record LegacyAugmentedAtomicSwap : Type := mkAugmented {
  laID : string; laAmount : Coins; laRandomNumberHash : bytes; laExpireHeight : Z; laTimestamp : Z;
  laSender : AccAddress; laRecipient : AccAddress; laSenderOtherChain : string; laRecipientOtherChain : string;
  laClosedBlock : Z; laStatus : SwapStatus; laCrossChain : bool; laDirection : SwapDirection
}.

(** What the older router encodes. *)
Inductive answer : Type :=
| AnsSupply (a : AssetSupply) | AnsSupplies (l : list AssetSupply)
| AnsSwap (a : LegacyAugmentedAtomicSwap) | AnsSwaps (l : list LegacyAugmentedAtomicSwap)
| AnsParams (p : Params).

Definition ErrUnknownRequest : error := Registered "sdk" 6.
Definition ErrJSONUnmarshal : error := Registered "sdk" 17.
Definition ErrJSONMarshal : error := Registered "sdk" 16.
Definition ErrAssetSupplyNotFound : error := Registered "bep3" 7.

Class QueryEnv : Type := {
  (** [HexBytes.String] of tendermint: hexadecimal in capitals. *)
  HexBytes_String : bytes -> string;
  UnmarshalSupplyParams : bytes -> option string;
  UnmarshalSwapParams : bytes -> option bytes;
  UnmarshalSwapsParams : bytes -> option QueryAtomicSwaps;
  MarshalJSONIndent : answer -> option bytes
}.

Section Query.
  Context {cfg : SdkConfig} {gostr : GoStrings} {hash : TmHash} {B A : Type}
    {paging : PagingEnv} {env : QueryEnv}.
  Implicit Types s : State B A.

(** ** gRPC *)
Definition mapAssetSupplyToResponse (a : AssetSupply) : AssetSupplyResponse :=
  mkAssetSupplyResponse (IncomingSupply a) (OutgoingSupply a) (CurrentSupply a) (TimeLimitedCurrentSupply a) (TimeElapsed a).

Definition mapAtomicSwapToResponse (sw : AtomicSwap) : AtomicSwapResponse :=
  mkAtomicSwapResponse (HexBytes_String (GetSwapID sw)) (swAmount sw) (HexBytes_String (swRandomNumberHash sw))
    (swExpireHeight sw) (swTimestamp sw) (AccAddress_String (swSender sw)) (AccAddress_String (swRecipient sw))
    (swSenderOtherChain sw) (swRecipientOtherChain sw) (swClosedBlock sw) (swStatus sw) (swCrossChain sw) (swDirection sw).

(** A request may be nil. *)
Definition with_request {Q R : Type} (req : option Q) (k : Q -> outcome R) : outcome R :=
  match req with
  | None => Err (Plain "empty request")
  | Some q => k q
  end.

Definition grpc_Params s (req : option unit) : outcome Params :=
  with_request req (fun _ => Ok (params s)).

Definition grpc_AssetSupply s (req : option string) : outcome AssetSupplyResponse :=
  with_request req (fun denom =>
    match GetAssetSupply s denom with
    | None => Err (Plain "denom not found")
    | Some a => Ok (mapAssetSupplyToResponse a)
    end).

Definition grpc_AssetSupplies s (req : option unit) : outcome (list AssetSupplyResponse) :=
  with_request req (fun _ => Ok (map mapAssetSupplyToResponse (GetAllAssetSupplies s))).

Definition grpc_AtomicSwap s (req : option string) : outcome AtomicSwapResponse :=
  with_request req (fun swapId =>
    match hex_DecodeString swapId with
    | Panic w => Panic w
    | Err _ => Err (Plain "invalid atomic swap id")
    | Ok id =>
        match GetAtomicSwap s id with
        | None => Err (Plain "invalid atomic swap")
        | Some sw => Ok (mapAtomicSwapToResponse sw)
        end
    end).

(** The conditions of the callback, each of which may reject the swap. *)
Definition grpc_match (req : QueryAtomicSwapsRequest) (sw : AtomicSwap) : bool :=
  if (0 <? String.length (rqInvolve req))%nat
     && (bool_decide (AccAddress_String (swSender sw) <> rqInvolve req)
         && bool_decide (AccAddress_String (swRecipient sw) <> rqInvolve req)) then false else
  if (0 <? rqExpiration req) && (rqExpiration req <? swExpireHeight sw) then false else
  if SwapStatus_IsValid (rqStatus req) && bool_decide (swStatus sw <> rqStatus req) then false else
  if SwapDirection_IsValid (rqDirection req) && bool_decide (swDirection sw <> rqDirection req) then false else
  true.

Definition grpc_AtomicSwaps s (req : option QueryAtomicSwapsRequest) : outcome (list AtomicSwapResponse * PageResponse) :=
  with_request req (fun q =>
    match FilteredPaginate (GetAllAtomicSwaps s) (rqPagination q) (grpc_match q) with
    | Panic w => Panic w
    | Err _ => Err (Plain "paginate")
    | Ok (swaps, page) => Ok (map mapAtomicSwapToResponse swaps, page)
    end).

(** ** The older router *)
Definition NewLegacyAugmentedAtomicSwap (sw : AtomicSwap) : LegacyAugmentedAtomicSwap :=
  mkAugmented (hex_EncodeToString (GetSwapID sw)) (swAmount sw) (swRandomNumberHash sw) (swExpireHeight sw)
    (swTimestamp sw) (swSender sw) (swRecipient sw) (swSenderOtherChain sw) (swRecipientOtherChain sw)
    (swClosedBlock sw) (swStatus sw) (swCrossChain sw) (swDirection sw).

Definition encode_answer (a : answer) : outcome bytes :=
  match MarshalJSONIndent a with Some bz => Ok bz | None => Err ErrJSONMarshal end.
Definition decode_params {Q : Type} (o : option Q) : outcome Q :=
  match o with Some q => Ok q | None => Err ErrJSONUnmarshal end.

Definition queryAssetSupply s (data : bytes) : outcome bytes :=
  let! denom := decode_params (UnmarshalSupplyParams data) in
  match GetAssetSupply s denom with
  | None => Err ErrAssetSupplyNotFound
  | Some a => encode_answer (AnsSupply a)
  end.

Definition queryAssetSupplies s : outcome bytes := encode_answer (AnsSupplies (GetAllAssetSupplies s)).

Definition queryAtomicSwap s (data : bytes) : outcome bytes :=
  let! id := decode_params (UnmarshalSwapParams data) in
  match GetAtomicSwap s id with
  | None => Err ErrAtomicSwapNotFound
  | Some sw => encode_answer (AnsSwap (NewLegacyAugmentedAtomicSwap sw))
  end.

Definition legacyAtomicSwapIsMatch (sw : AtomicSwap) (q : QueryAtomicSwaps) : bool :=
  if (0 <? length (qsInvolve q))%nat
     && (bool_decide (swSender sw <> qsInvolve q) && bool_decide (swRecipient sw <> qsInvolve q)) then false else
  if (0 <? qsExpiration q) && (qsExpiration q <? swExpireHeight sw) then false else
  if SwapStatus_IsValid (qsStatus q) && bool_decide (swStatus sw <> qsStatus q) then false else
  if SwapDirection_IsValid (qsDirection q) && bool_decide (swDirection sw <> qsDirection q) then false else
  true.

Definition filterAtomicSwaps (swaps : list AtomicSwap) (q : QueryAtomicSwaps) : outcome (list AtomicSwap) :=
  let filtered := filter (fun sw => legacyAtomicSwapIsMatch sw q = true) swaps in
  let '(start, fin) := client_Paginate (Z.of_nat (length filtered)) (qsPage q) (qsLimit q) 100 in
  if (start <? 0) || (fin <? 0) then Ok [] else slice filtered start fin.

Definition queryAtomicSwaps s (data : bytes) : outcome bytes :=
  let! q := decode_params (UnmarshalSwapsParams data) in
  let! swaps := filterAtomicSwaps (GetAllAtomicSwaps s) q in
  encode_answer (AnsSwaps (map NewLegacyAugmentedAtomicSwap swaps)).

Definition queryGetParams s : outcome bytes := encode_answer (AnsParams (params s)).

Definition NewQuerier s (path : list string) (data : bytes) : outcome bytes :=
  match path with
  | [] => Panic "index out of range"
  | p :: _ =>
      if bool_decide (p = "supply") then queryAssetSupply s data else
      if bool_decide (p = "supplies") then queryAssetSupplies s else
      if bool_decide (p = "swap") then queryAtomicSwap s data else
      if bool_decide (p = "swaps") then queryAtomicSwaps s data else
      if bool_decide (p = "parameters") then queryGetParams s else
      Err ErrUnknownRequest
  end.
End Query.
