(* ===== verification/Bep3QueryTheorems.v ===== *)
(** * x/bep3: what the queries answer *)

From S2P Require Import Prelude Paging Sdk GoStd Bank Bep3Types Bep3Keeper Bep3Inv Bep3Query.

(** [HexBytes.String] writes hexadecimal. *)
Class QueryLaws `{env : QueryEnv} : Prop := {
  HexBytes_read b : Forall is_byte b -> hex_DecodeString (HexBytes_String b) = Ok b
}.

Section QueryTheorems.
  Context {cfg : SdkConfig} {gostr : GoStrings} {hash : TmHash} {B A : Type}
    {paging : PagingEnv} {pl : PagingLaws} {env : QueryEnv} {ql : QueryLaws}.
  Implicit Types s : State B A.

(** A page of the older query is a page of the matching swaps. *)
Lemma filterAtomicSwaps_page swaps q : 0 < qsPage q -> 0 < qsLimit q -> qsPage q * qsLimit q < 2 ^ 63 ->
  filterAtomicSwaps swaps q =
    Ok (page_of (qsLimit q) (qsPage q) (filter (fun sw => legacyAtomicSwapIsMatch sw q = true) swaps)).
Proof.
  intros Hp Hl Hb. unfold filterAtomicSwaps. set (f := filter _ swaps). rewrite client_Paginate_page by lia.
  destruct (Z.ltb_spec ((qsPage q - 1) * qsLimit q) (Z.of_nat (length f))) as [Hlt|Hge].
  - rewrite !(proj2 (Z.ltb_ge _ 0)) by nia. by apply slice_page.
  - simpl. unfold page_of, page_from. rewrite drop_ge by lia. by rewrite take_nil.
Qed.

(** The two requests ask for the same: the gRPC request names the address by its text. *)
Record same_request (q : QueryAtomicSwaps) (r : QueryAtomicSwapsRequest) : Prop := {
  sr_involve : rqInvolve r = match qsInvolve q with [] => "" | a => AccAddress_String a end;
  sr_text : qsInvolve q <> [] -> rqInvolve r <> "";
  sr_expiration : rqExpiration r = qsExpiration q;
  sr_status : rqStatus r = qsStatus q;
  sr_direction : rqDirection r = qsDirection q
}.

Definition address_ok (a : AccAddress) : Prop := Forall is_byte a /\ a <> [].

Lemma address_text `{!Bech32Laws} a b : address_ok a -> address_ok b -> AccAddress_String a = AccAddress_String b -> a = b.
Proof.
  intros [Ha Ha'] [Hb Hb'] E. pose proof (bech32_roundtrip a Ha Ha') as Hra. rewrite E, bech32_roundtrip in Hra by done.
  by injection Hra.
Qed.

Lemma matches_agree `{!Bech32Laws} q r sw : same_request q r ->
  address_ok (swSender sw) -> address_ok (swRecipient sw) -> (qsInvolve q <> [] -> Forall is_byte (qsInvolve q)) ->
  grpc_match r sw = legacyAtomicSwapIsMatch sw q.
Proof.
  intros [Ei Et Ee Es Ed] Hs Hr Hq. unfold grpc_match, legacyAtomicSwapIsMatch. rewrite Ee, Es, Ed.
  destruct (qsInvolve q) as [|x l] eqn:E; [by rewrite Ei|].
  assert (address_ok (x :: l)) as Ha by (split; [by apply Hq|done]).
  assert ((0 <? String.length (rqInvolve r))%nat = true) as ->.
  { specialize (Et ltac:(done)). destruct (rqInvolve r); [done|reflexivity]. }
  assert (forall a, address_ok a -> bool_decide (AccAddress_String a <> rqInvolve r) = bool_decide (a <> x :: l)) as Hb.
  { intros a Hok. apply bool_decide_ext. rewrite Ei. split; intros Hn E'; apply Hn; [by rewrite E'|by apply address_text]. }
  rewrite !Hb by done. reflexivity.
Qed.

(** The two servers list the same swaps: the page [n] of the older query is the page of
    the gRPC query that starts at the offset [(n - 1) * limit], both are that part of the
    matching swaps in the order of the store, and the pages together are all of them. *)
Theorem swap_queries_agree `{!Bech32Laws} s q r :
  (forall id sw, AtomicSwaps s !! id = Some sw -> address_ok (swSender sw) /\ address_ok (swRecipient sw)) ->
  (qsInvolve q <> [] -> Forall is_byte (qsInvolve q)) -> same_request q r ->
  0 < qsPage q -> 0 < qsLimit q -> qsPage q * qsLimit q < 2 ^ 63 ->
  rqPagination r = mkPageRequest [] ((qsPage q - 1) * qsLimit q) (qsLimit q) ->
  let matching := filter (fun sw => legacyAtomicSwapIsMatch sw q = true) (GetAllAtomicSwaps s) in
  filterAtomicSwaps (GetAllAtomicSwaps s) q = Ok (page_of (qsLimit q) (qsPage q) matching)
  /\ (exists info, grpc_AtomicSwaps s (Some r)
        = Ok (map mapAtomicSwapToResponse (page_of (qsLimit q) (qsPage q) matching), info))
  /\ forall k, (length matching <= k * Z.to_nat (qsLimit q))%nat ->
       concat (map (fun i => page_of (qsLimit q) (Z.of_nat i) matching) (seq 1 k)) = matching.
Proof.
  intros Haddr Hq Hr Hp Hl Hb Hpage matching. split; [by apply filterAtomicSwaps_page|]. split.
  - unfold grpc_AtomicSwaps, with_request. rewrite Hpage.
    destruct (FilteredPaginate_offset _ (GetAllAtomicSwaps s)
      (mkPageRequest [] ((qsPage q - 1) * qsLimit q) (qsLimit q)) (grpc_match r)) as [info ->]; [done|simpl; nia|done|].
    exists info. simpl. f_equal. f_equal. f_equal. unfold page_of, matching. f_equal. apply filter_ext_elem.
    intros sw Hsw. apply list_elem_of_fmap in Hsw as ([id sw'] & -> & Hin). apply elem_of_iterator in Hin.
    destruct (Haddr id sw' (proj1 Hin)). rewrite (matches_agree q r) by done. done.
  - intros k Hk. by apply pages_concat.
Qed.

(** The identifier that a listed swap is shown with finds it again: the query for one
    swap answers exactly what the list showed. *)
Theorem listed_swap_reads_back `{!TmHashLaws} s req swaps info shown :
  store_ok s -> grpc_AtomicSwaps s req = Ok (swaps, info) -> shown ∈ swaps ->
  grpc_AtomicSwap s (Some (rsId shown)) = Ok shown.
Proof.
  intros Hs Hl Hin. destruct req as [q|]; [|done]. simpl in Hl.
  destruct (FilteredPaginate _ _ _) as [[vs page]| |] eqn:E; [|done..]. injection Hl as <- <-.
  apply list_elem_of_fmap in Hin as (sw & -> & Hsw). apply FilteredPaginate_sound in E.
  destruct (proj1 (Forall_forall _ _) E sw Hsw) as [Hall _].
  apply list_elem_of_fmap in Hall as ([id sw'] & -> & Hid). apply elem_of_iterator in Hid as [Hid _].
  pose proof (sok_id _ _ (st_swaps s Hs id sw' Hid)) as Eid.
  unfold grpc_AtomicSwap, with_request, mapAtomicSwapToResponse. cbn [rsId].
  rewrite HexBytes_read by apply tmhash_bytes. unfold GetAtomicSwap. simpl. subst id. by rewrite Hid.
Qed.
End QueryTheorems.

(** ** The queries on the chain of [Bep3Witness] *)
From S2P Require Import SdkModel Bep3Theorems Bep3Witness.
Module SwapQueries.
Import Bep3Chain.
#[export] Existing Instances SdkModel.bech32_laws PagingModel.paging PagingModel.paging_laws.

#[export] Instance env : QueryEnv := {|
  HexBytes_String := hex_EncodeToString;
  UnmarshalSupplyParams _ := None; UnmarshalSwapParams b := Some b; UnmarshalSwapsParams _ := None;
  MarshalJSONIndent _ := Some []
|}.
#[export] Instance query_laws : QueryLaws.
Proof. split. apply hex_roundtrip. Qed.

Definition request : QueryAtomicSwapsRequest :=
  mkSwapsRequest (AccAddress_String user) 0 SWAP_STATUS_OPEN SWAP_DIRECTION_UNSPECIFIED (mkPageRequest [] 0 10).
Definition legacy_request : QueryAtomicSwaps :=
  NewQueryAtomicSwaps 1 10 user 0 SWAP_STATUS_OPEN SWAP_DIRECTION_UNSPECIFIED.

Lemma with_out_swaps : AtomicSwaps with_out = {[outgoing_id := out_swap]}.
Proof. vm_compute. reflexivity. Qed.

(** The user's open swap is on the first page of both servers. *)
Lemma swap_queries_agree_witness :
  filterAtomicSwaps (GetAllAtomicSwaps with_out) legacy_request
    = Ok (page_of 10 1 (filter (fun sw => legacyAtomicSwapIsMatch sw legacy_request = true) (GetAllAtomicSwaps with_out))).
Proof.
  refine (proj1 (swap_queries_agree with_out legacy_request request _ _ _ _ _ _ _)); try reflexivity.
  - intros id sw Hsw. rewrite with_out_swaps in Hsw. apply lookup_singleton_Some in Hsw as [_ <-].
    split; (split; [repeat constructor; lia|done]).
  - intros _. repeat constructor; lia.
  - split; try reflexivity. intros _. vm_compute. discriminate.
Defined.

Lemma listed_swap_reads_back_witness :
  grpc_AtomicSwap with_out (Some (hex_EncodeToString outgoing_id)) = Ok (mapAtomicSwapToResponse out_swap).
Proof.
  refine (listed_swap_reads_back with_out (Some request) [mapAtomicSwapToResponse out_swap] (mkPageResponse [] 1)
    (mapAtomicSwapToResponse out_swap) (inv_store _ with_out_inv) _ _); [vm_compute; reflexivity|left].
Defined.
End SwapQueries.
