(* ===== verification/CommitteeQuery.v ===== *)
(** * x/committee: the queries (keeper/grpc_query.go, keeper/querier.go)

    The pagination of the SDK, the packing of committees and the JSON codec are arguments. *)

From S2P Require Import Prelude Paging Sdk SdkDec CommitteePerm Committee.

Record QueryProposalResponse : Type := mkProposalResponse {
  qpPubProposal : option PubProposal; qpID : Z; qpCommitteeID : Z; qpDeadline : Z
}.
Record QueryVoteResponse : Type := mkVoteResponse { qvProposalID : Z; qvVoter : string; qvVoteType : Z }.

Definition ErrUnknownVote : error := Registered CommitteeName 7.
Definition ErrUnknownSubspace : error := Registered CommitteeName 10.
Definition ErrNotFoundProposalTally : error := Registered CommitteeName 12.
Definition ErrJSONMarshal : error := Registered "sdk" 16.
Definition ErrJSONUnmarshal : error := Registered "sdk" 17.

(** What the older router encodes. *)
Inductive answer : Type :=
| AnsCommittees (l : list Committee) | AnsCommittee (c : Committee)
| AnsProposals (l : list Proposal) | AnsProposal (p : Proposal)
| AnsVotes (l : list Vote) | AnsVote (v : Vote) | AnsTally (t : QueryTallyResponse)
| AnsRaw (s : string).

(** [Any]: packed committees. *)
Class CommitteeCodec (Any : Type) : Type := {
  PackCommittee : Committee -> option Any;
  UnmarshalCommitteeParams : bytes -> option Z;
  UnmarshalProposalParams : bytes -> option Z;
  UnmarshalVoteParams : bytes -> option (Z * AccAddress);
  UnmarshalRawParams : bytes -> option (string * string);
  MarshalJSONIndent : answer -> option bytes;
  MarshalJSON : Z -> option bytes
}.

Section Queries.
  Context {W : Type} {cfg : SdkConfig} {dc : DecConfig} {jd : JsonDecoder} {pk : ParamKeeper W} {chain : ChainEnv W}.
  Context {paging : PagingEnv} {Any : Type} {codec : CommitteeCodec Any}.
  Implicit Types s : State W.

(** A request may be nil. *)
Definition with_request {Q R : Type} (req : option Q) (k : Q -> outcome R) : outcome R :=
  match req with
  | None => Err (Plain "empty request")
  | Some q => k q
  end.

(** ** gRPC *)
Definition proposalResponseFromProposal (p : Proposal) : QueryProposalResponse :=
  mkProposalResponse (prContent p) (prID p) (prCommitteeID p) (prDeadline p).
Definition votesResponseFromVote (v : Vote) : QueryVoteResponse :=
  mkVoteResponse (vtProposalID v) (AccAddress_String (vtVoter v)) (vtVoteType v).

Definition PackCommittees (l : list Committee) : outcome (list Any) :=
  omap_list (fun c => match PackCommittee c with Some a => Ok a | None => Err (Plain "cannot proto marshal") end) l.

Definition grpc_Committees s (req : option unit) : outcome (list Any) :=
  with_request req (fun _ =>
    match PackCommittees (GetCommittees s) with
    | Err _ => Err (Plain "could not pack committees")
    | o => o
    end).
Definition grpc_Committee s (req : option Z) : outcome Any :=
  with_request req (fun id =>
    match GetCommittee s id with
    | None => Err (Plain "could not find committee")
    | Some c => match PackCommittee c with Some a => Ok a | None => Err (Plain "could not pack committees") end
    end).
Definition grpc_Proposals s (req : option Z) : outcome (list QueryProposalResponse) :=
  with_request req (fun id => Ok (map proposalResponseFromProposal (GetProposalsByCommittee s id))).
Definition grpc_Proposal s (req : option Z) : outcome QueryProposalResponse :=
  with_request req (fun id =>
    match GetProposal s id with
    | None => Err (Plain "cannot find proposal")
    | Some p => Ok (proposalResponseFromProposal p)
    end).
Definition grpc_NextProposalID s (req : option unit) : outcome Z :=
  with_request req (fun _ =>
    match GetNextProposalID s with
    | Err _ => Err (Plain "cannot find next proposal id")
    | o => o
    end).
Definition grpc_Votes s (req : option (Z * PageRequest)) : outcome (list QueryVoteResponse * PageResponse) :=
  with_request req (fun '(id, page) =>
    match store_Paginate (GetVotesByProposal s id) page with
    | Panic w => Panic w
    | Err _ => Err (Plain "internal")
    | Ok (votes, info) => Ok (map votesResponseFromVote votes, info)
    end).
Definition grpc_Vote s (req : option (Z * string)) : outcome QueryVoteResponse :=
  with_request req (fun '(id, text) =>
    match AccAddressFromBech32 text with
    | Panic w => Panic w
    | Err _ => Err (Plain "invalid voter address")
    | Ok voter =>
        match GetVote s id voter with
        | None => Err (Plain "not found")
        | Some v => Ok (votesResponseFromVote v)
        end
    end).
Definition grpc_Tally s (req : option Z) : outcome QueryTallyResponse :=
  with_request req (fun id =>
    let! tally := GetProposalTallyResponse s id in
    match tally with
    | None => Err (Plain "not found")
    | Some t => Ok t
    end).
Definition grpc_RawParams s (req : option (string * string)) : outcome string :=
  with_request req (fun '(subspace, key) =>
    match GetSubspace (World s) subspace with
    | None => Err (Plain "subspace not found")
    | Some get => Ok (get key)
    end).

(** ** The older router *)
Definition encode_answer (a : answer) : outcome bytes :=
  match MarshalJSONIndent a with Some bz => Ok bz | None => Err ErrJSONMarshal end.
Definition decode_params {Q : Type} (o : option Q) : outcome Q :=
  match o with Some q => Ok q | None => Err ErrJSONUnmarshal end.
Definition found {X : Type} (o : option X) (e : error) : outcome X :=
  match o with Some x => Ok x | None => Err e end.

Definition queryCommittees s : outcome bytes := encode_answer (AnsCommittees (GetCommittees s)).
Definition queryCommittee s (data : bytes) : outcome bytes :=
  let! id := decode_params (UnmarshalCommitteeParams data) in
  let! c := found (GetCommittee s id) ErrUnknownCommittee in
  encode_answer (AnsCommittee c).
Definition queryProposals s (data : bytes) : outcome bytes :=
  let! id := decode_params (UnmarshalCommitteeParams data) in
  encode_answer (AnsProposals (GetProposalsByCommittee s id)).
Definition queryProposal s (data : bytes) : outcome bytes :=
  let! id := decode_params (UnmarshalProposalParams data) in
  let! p := found (GetProposal s id) ErrUnknownProposal in
  encode_answer (AnsProposal p).
(** An error of [GetNextProposalID] is dropped, and the identifier is then 0. *)
Definition queryNextProposalID s : outcome bytes :=
  let! id := match GetNextProposalID s with Ok id => Ok id | Err _ => Ok 0 | Panic w => Panic w end in
  match MarshalJSON id with Some bz => Ok bz | None => Err ErrJSONUnmarshal end.
Definition queryVotes s (data : bytes) : outcome bytes :=
  let! id := decode_params (UnmarshalProposalParams data) in
  encode_answer (AnsVotes (GetVotesByProposal s id)).
Definition queryVote s (data : bytes) : outcome bytes :=
  let! '(id, voter) := decode_params (UnmarshalVoteParams data) in
  let! v := found (GetVote s id voter) ErrUnknownVote in
  encode_answer (AnsVote v).
Definition queryTally s (data : bytes) : outcome bytes :=
  let! id := decode_params (UnmarshalProposalParams data) in
  let! tally := GetProposalTallyResponse s id in
  let! t := found tally ErrNotFoundProposalTally in
  encode_answer (AnsTally t).
Definition queryRawParams s (data : bytes) : outcome bytes :=
  let! '(subspace, key) := decode_params (UnmarshalRawParams data) in
  let! get := found (GetSubspace (World s) subspace) ErrUnknownSubspace in
  encode_answer (AnsRaw (get key)).

Definition NewQuerier s (path : list string) (data : bytes) : outcome bytes :=
  match path with
  | [] => Panic "index out of range"
  | p :: _ =>
      if bool_decide (p = "committees") then queryCommittees s else
      if bool_decide (p = "committee") then queryCommittee s data else
      if bool_decide (p = "proposals") then queryProposals s data else
      if bool_decide (p = "proposal") then queryProposal s data else
      if bool_decide (p = "votes") then queryVotes s data else
      if bool_decide (p = "vote") then queryVote s data else
      if bool_decide (p = "tally") then queryTally s data else
      if bool_decide (p = "next-proposal-id") then queryNextProposalID s else
      if bool_decide (p = "raw_params") then queryRawParams s data else
      Err ErrUnknownRequest
  end.
End Queries.
