(* ===== verification/CommitteeQueryTheorems.v ===== *)
(** * x/committee: what the queries show of a vote *)

From S2P Require Import Prelude Paging Sdk SdkDec CommitteePerm Committee CommitteeTheorems CommitteeGov CommitteeQuery.

Section QueryTheorems.
  Context {W : Type} {cfg : SdkConfig} {laws : SdkLaws} {dc : DecConfig} {jd : JsonDecoder} {pk : ParamKeeper W} {chain : ChainEnv W}.
  Context {paging : PagingEnv} {pl : PagingLaws}.
  Implicit Types s : State W.

(** The list of votes, page by page. *)
Lemma votes_page s id offset limit : 0 <= offset -> 0 < limit ->
  exists info, grpc_Votes s (Some (id, mkPageRequest [] offset limit))
    = Ok (page_from offset limit (map votesResponseFromVote (GetVotesByProposal s id)), info).
Proof.
  intros Ho Hl. unfold grpc_Votes, with_request.
  destruct (store_Paginate_offset _ (GetVotesByProposal s id) (mkPageRequest [] offset limit)) as [info ->]; [done..|].
  exists info. unfold page_from. cbn [pgOffset pgLimit]. by rewrite <- firstn_map, <- skipn_map.
Qed.

(** A vote that the module accepts is what the query for it answers; the answer for every
    other proposal or voter stays as it was; and the pages of the list of votes, taken
    together, show it exactly once. *)
Theorem cast_vote_shown ctx msg s s' voter :
  inv s -> is_u64 (mvProposalID msg) -> voter <> [] -> MsgVote_ValidateBasic msg = Ok tt ->
  AccAddressFromBech32 (mvVoter msg) = Ok voter -> msgServer_Vote ctx msg s = Ok s' ->
  let shown := mkVoteResponse (mvProposalID msg) (AccAddress_String voter) (mvVoteType msg) in
  grpc_Vote s' (Some (mvProposalID msg, mvVoter msg)) = Ok shown
  /\ (forall id text other, is_u64 id -> AccAddressFromBech32 text = Ok other -> (id, other) <> (mvProposalID msg, voter) ->
        grpc_Vote s' (Some (id, text)) = grpc_Vote s (Some (id, text)))
  /\ forall limit k, 0 < limit -> (length (GetVotesByProposal s' (mvProposalID msg)) <= k * Z.to_nat limit)%nat ->
       exists votes, NoDup (vtVoter <$> votes) /\ NewVote (mvProposalID msg) voter (mvVoteType msg) ∈ votes
         /\ concat (map (fun i => page_of limit (Z.of_nat i) (map votesResponseFromVote votes)) (seq 1 k))
            = map votesResponseFromVote votes
         /\ forall page, 0 < page -> exists info,
              grpc_Votes s' (Some (mvProposalID msg, mkPageRequest [] ((page - 1) * limit) limit))
              = Ok (page_of limit page (map votesResponseFromVote votes), info).
Proof.
  intros Hi Hid Hne Hvb Hv H shown. unfold MsgVote_ValidateBasic in Hvb. rewrite Hv in Hvb. cbn [obind] in Hvb.
  unfold msgServer_Vote in H. rewrite Hv in H. cbn [obind] in H.
  pose proof (vote_inv ctx _ _ _ s s' Hi Hid Hne Hvb H) as Hi'.
  destruct (AddVote_Ok _ _ _ _ _ _ H) as (p & c & _ & _ & _ & _ & Es').
  assert (GetVote s' (mvProposalID msg) voter = Some (NewVote (mvProposalID msg) voter (mvVoteType msg))) as Hg.
  { subst s'. unfold GetVote, SetVote. simpl. by rewrite lookup_insert_eq. }
  split; [unfold grpc_Vote, with_request; by rewrite Hv, Hg|]. split.
  - intros id text other Hu Ht Hd. unfold grpc_Vote, with_request. rewrite Ht. subst s'. unfold GetVote, SetVote. simpl.
    rewrite lookup_insert_ne; [done|]. intros E. apply GetVoteKey_inj in E as [<- <-]; [|done..]. by apply Hd.
  - intros limit k Hl Hk. exists (GetVotesByProposal s' (mvProposalID msg)). split_and!.
    + by apply voters_NoDup; [apply inv_keyed|].
    + apply elem_of_votes; [by apply inv_keyed|done|done].
    + apply pages_concat; [done|]. by rewrite length_map.
    + intros page Hp. apply votes_page; [nia|done].
Qed.
End QueryTheorems.
