(* ===== verification/CommitteeQueryWitness.v ===== *)
(** * x/committee: queries on the chain of [CommitteeWitness] *)

From S2P Require Import Prelude Paging Sdk SdkDec SdkModel CommitteePerm Committee CommitteeTheorems CommitteeGov.
From S2P Require Import CommitteeQuery CommitteeQueryTheorems CommitteeWitness.
Import CommitteeChain.

Module VoteQueries.
#[export] Existing Instances PagingModel.paging PagingModel.paging_laws.

(** Bob votes on the first proposal as well. *)
Definition ballot : MsgVote := mkMsgVote 1 (AccAddress_String bob) VOTE_TYPE_YES.
Definition voted : State world := run (msgServer_Vote now ballot s4).

Lemma cast_vote_shown_witness :
  grpc_Vote voted (Some (1, AccAddress_String bob)) = Ok (mkVoteResponse 1 (AccAddress_String bob) VOTE_TYPE_YES).
Proof.
  refine (proj1 (cast_vote_shown now ballot s4 voted bob s4_inv _ _ _ _ _));
    [split; vm_compute; congruence|discriminate|vm_compute; reflexivity|vm_compute; reflexivity|vm_compute; reflexivity].
Defined.

(** Both votes are on the first page. *)
Example first_page : grpc_Votes voted (Some (1, mkPageRequest [] 0 10)) =
  Ok ([mkVoteResponse 1 (AccAddress_String alice) VOTE_TYPE_YES; mkVoteResponse 1 (AccAddress_String bob) VOTE_TYPE_YES],
      mkPageResponse [] 2).
Proof. vm_compute. reflexivity. Qed.
End VoteQueries.
