(* ===== verification/EvmConvertQuery.v ===== *)
(** * x/evmutil: queries and the migration of the parameters (keeper/grpc_query.go,
    keeper/migrations.go, migrations/v2/store.go) *)

From S2P Require Import Prelude Paging Sdk GoStd Bank Evmutil EvmConvert.

Section Queries.
  Context {cfg : SdkConfig} {eth : EthConfig} {B W : Type} {bk : BankKeeper B} {evm : EvmKeeper B W}.
  Context {paging : PagingEnv}.
  Implicit Types s : ConvState B W.

Definition grpc_Params s (req : option unit) : outcome Params :=
  match req with
  | None => Err (Plain "empty request")
  | Some _ => Ok (cvParams s)
  end.

(** The callback accepts every entry of the store. *)
Definition getAllDeployedCosmosCoinContractsPage s (pagination : PageRequest)
    : outcome (list (string * bytes) * option PageResponse) :=
  let! '(entries, info) := FilteredPaginate (string_iterator (cvContracts s)) pagination (fun _ => true) in
  Ok (map (fun kv => (kv.1, BytesToInternalEVMAddress kv.2)) entries, Some info).

(** The answer to a request for all denominations has pages. *)
Definition grpc_DeployedCosmosCoinContracts s (req : option (list string * PageRequest))
    : outcome (list (string * bytes) * option PageResponse) :=
  match req with
  | None => Err (Plain "empty request")
  | Some (denoms, pagination) =>
      if (0 <? length denoms)%nat
      then let! contracts := getDeployedCosmosCoinContractsByDenoms s denoms in Ok (contracts, None)
      else getAllDeployedCosmosCoinContractsPage s pagination
  end.

(** The parameter subspace validates what it stores; the default passes. *)
Definition migrateParamsStore s : ConvState B W :=
  mkConv (NewParams (EnabledConversionPairs (cvParams s)) (AllowedCosmosDenoms DefaultParams)) (cvContracts s) (cvWorld s).
Definition MigrateStore s : outcome (ConvState B W) := Ok (migrateParamsStore s).
Definition Migrate1to2 s : outcome (ConvState B W) := MigrateStore s.

Lemma all_true_filter {X : Type} (l : list X) : filter (fun _ => true = true) l = l.
Proof. induction l as [|x l IH]; [done|]. rewrite filter_cons_True by done. by rewrite IH. Qed.

(** A page by offset is that part of all contracts. *)
Lemma contracts_page `{!PagingLaws} s offset limit : 0 <= offset -> 0 < limit -> exists info,
  grpc_DeployedCosmosCoinContracts s (Some ([], mkPageRequest [] offset limit))
  = Ok (page_from offset limit (deployed_contracts s), Some info).
Proof.
  intros Ho Hl. cbn [grpc_DeployedCosmosCoinContracts length Nat.ltb Nat.leb].
  unfold getAllDeployedCosmosCoinContractsPage.
  destruct (FilteredPaginate_offset _ (string_iterator (cvContracts s)) (mkPageRequest [] offset limit) (fun _ => true))
    as [info ->]; [done..|].
  exists info. cbn [obind pgOffset pgLimit]. rewrite all_true_filter. unfold page_from, deployed_contracts.
  by rewrite skipn_map, firstn_map.
Qed.

Lemma elem_of_all_contracts s d c : (d, c) ∈ deployed_contracts s <->
  exists bz, cvContracts s !! d = Some bz /\ c = BytesToInternalEVMAddress bz.
Proof.
  unfold deployed_contracts. rewrite list_elem_of_fmap. split.
  - intros ([d' bz] & [= -> ->] & Hin). rewrite string_iterator_Permutation in Hin.
    apply elem_of_map_to_list in Hin. eauto.
  - intros (bz & Hd & ->). exists (d, bz). split; [done|]. rewrite string_iterator_Permutation. by apply elem_of_map_to_list.
Qed.

(** The two ways to ask agree: the contracts for some denominations are, in the order of
    the request, those of the whole list, and the pages together are the whole list. *)
Theorem contract_queries_agree `{!PagingLaws} s denoms :
  (forall d c, cvContracts s !! d = Some c -> c <> []) -> denoms <> [] -> (length denoms <= 100)%nat ->
  exists answer, (forall pagination, grpc_DeployedCosmosCoinContracts s (Some (denoms, pagination)) = Ok (answer, None))
    /\ (forall d c, (d, c) ∈ answer <-> d ∈ denoms /\ (d, c) ∈ deployed_contracts s)
    /\ forall limit k, 0 < limit -> (length (deployed_contracts s) <= k * Z.to_nat limit)%nat ->
         concat (map (fun i => page_of limit (Z.of_nat i) (deployed_contracts s)) (seq 1 k)) = deployed_contracts s.
Proof.
  intros Hok Hne Hlen. unfold grpc_DeployedCosmosCoinContracts, getDeployedCosmosCoinContractsByDenoms.
  assert ((0 <? length denoms)%nat = true) as -> by (destruct denoms; [done|reflexivity]).
  assert (Nat.ltb DefaultLimit (length denoms) = false) as -> by (apply Nat.ltb_ge; exact Hlen).
  eexists. split; [intros; reflexivity|]. split; [|intros; by apply pages_concat].
  intros d c. rewrite list_elem_of_omap. split.
  - intros (d' & Hd & E). destruct (GetDeployedCosmosCoinContract s d') as [a f] eqn:Eg. destruct f; [|done].
    injection E as <- <-. split; [done|]. apply elem_of_all_contracts.
    unfold GetDeployedCosmosCoinContract in Eg. injection Eg as <- Hf.
    destruct (cvContracts s !! d') as [bz|]; [|done]. eauto.
  - intros [Hd (bz & Hb & ->)%elem_of_all_contracts]. exists d. split; [done|].
    unfold GetDeployedCosmosCoinContract. rewrite Hb. simpl.
    specialize (Hok d bz Hb). by destruct bz.
Qed.

(** The migration keeps the conversion pairs, and what it stores is valid. *)
Lemma migration_valid s s' : Migrate1to2 s = Ok s' -> Params_Validate (cvParams s) = Ok tt ->
  Params_Validate (cvParams s') = Ok tt /\ EnabledConversionPairs (cvParams s') = EnabledConversionPairs (cvParams s).
Proof.
  intros [= <-] Hv. split; [|done]. unfold Params_Validate in *. cbn [migrateParamsStore cvParams EnabledConversionPairs AllowedCosmosDenoms].
  apply obind_Ok in Hv as ([] & Hp & _). by rewrite Hp.
Qed.
End Queries.
