(* ===== verification/PeriodicVesting.v ===== *)
(** * migrate/utils/periodic_vesting.go: a vesting account with a new start time

    A periodic vesting account releases its coins period by period.  The reset moves the
    start of the schedule: periods that are over are dropped, the first remaining one is
    shortened, and delegations are booked as free where they exceed what still vests. *)

From S2P Require Import Prelude Sdk.

Record Period : Type := mkPeriod { pdLength : Z; pdAmount : Coins }.
Record PeriodicVestingAccount : Type := mkVestingAccount {
  vaOriginalVesting : Coins; vaDelegatedFree : Coins; vaDelegatedVesting : Coins;
  vaEndTime : Z; vaStartTime : Z; vaVestingPeriods : list Period
}.

(** [Coins.Sub] of one coin, which panics when an amount would be negative. *)
Class CoinsSub : Type := { Coins_Sub1 : Coins -> Coin -> outcome Coins }.

Section Reset.
  Context {cfg : SdkConfig} {cs : CoinsSub}.

(** One round of the loop over the periods: the end of the period, the coins and the periods
    that remain. *)
Definition reset_period (newStartTime : Z) (period : Period) '(currentPeriod, newOriginalVesting, newPeriods)
    : outcome (Z * Coins * list Period) :=
  let currentPeriod := i64 (currentPeriod + pdLength period) in
  if newStartTime <? currentPeriod then
    let period := if (length newPeriods =? 0)%nat
                  then mkPeriod (i64 (currentPeriod - newStartTime)) (pdAmount period) else period in
    let! newOriginalVesting := Coins_Add newOriginalVesting (pdAmount period) in
    Ok (currentPeriod, newOriginalVesting, newPeriods ++ [period])
  else Ok (currentPeriod, newOriginalVesting, newPeriods).

(** One round of the loop over the delegated coins. *)
Definition reset_delegation (newOriginalVesting : Coins) (coin : Coin) '(delegatedVesting, delegatedFree)
    : outcome (Coins * Coins) :=
  let! newCoin := NewCoin (Denom coin) (Z.min (Amount coin) (AmountOf newOriginalVesting (Denom coin))) in
  let! adjustment := Coin_Sub coin newCoin in
  if Amount adjustment =? 0 then Ok (delegatedVesting, delegatedFree) else
  let! delegatedVesting := Coins_Sub1 delegatedVesting adjustment in
  let! delegatedFree := Coins_Add delegatedFree [adjustment] in
  Ok (delegatedVesting, delegatedFree).

Definition ResetPeriodicVestingAccount (vacc : PeriodicVestingAccount) (startTime : Z) : outcome PeriodicVestingAccount :=
  let newStartTime := Unix startTime in
  let! '(_, newOriginalVesting, newPeriods) :=
    ofold (reset_period newStartTime) (vaVestingPeriods vacc) (vaStartTime vacc, [], []) in
  let! '(delegatedVesting, delegatedFree) :=
    ofold (reset_delegation newOriginalVesting) (vaDelegatedVesting vacc) (vaDelegatedVesting vacc, vaDelegatedFree vacc) in
  Ok (mkVestingAccount newOriginalVesting delegatedFree delegatedVesting
        (if vaEndTime vacc <=? newStartTime then newStartTime else vaEndTime vacc) newStartTime newPeriods).
End Reset.

(** ** What an account still has to release *)
(** The coins of the periods that end after [t]. *)
Fixpoint unvested (start : Z) (periods : list Period) (t : Z) (d : string) : Z :=
  match periods with
  | [] => 0
  | p :: periods =>
      (if t <? start + pdLength p then AmountOf (pdAmount p) d else 0) + unvested (start + pdLength p) periods t d
  end.
Definition total_length (periods : list Period) : Z := list_sum pdLength periods.

Lemma unvested_app start a b t d :
  unvested start (a ++ b) t d = unvested start a t d + unvested (start + total_length a) b t d.
Proof.
  revert start. induction a as [|p a IH]; intros start; cbn [app unvested].
  - change (total_length []) with 0. by rewrite Z.add_0_r.
  - change (total_length (p :: a)) with (pdLength p + total_length a). rewrite IH.
    replace (start + (pdLength p + total_length a)) with (start + pdLength p + total_length a) by lia. lia.
Qed.

Lemma total_length_app a b : total_length (a ++ b) = total_length a + total_length b.
Proof. unfold total_length. induction a as [|p a IH]; [done|]. unfold list_sum in *. cbn [app foldr]. lia. Qed.

Class CoinsSubLaws `{SdkConfig, CoinsSub} : Prop := {
  Coins_Sub1_total a c : Coins_IsValid a = true -> 0 < Amount c <= AmountOf a (Denom c) ->
    exists r, Coins_Sub1 a c = Ok r /\ Coins_IsValid r = true /\ forall d, AmountOf r d = AmountOf a d - AmountOf [c] d;
  Coins_single_valid c : ValidateDenom (Denom c) = true -> 0 < Amount c -> Coins_IsValid [c] = true
}.

(** What the schedule has to satisfy: no time overflows, and neither do the coins. *)
Record schedule_ok `{SdkConfig} (start : Z) (periods : list Period) : Prop := {
  so_lengths : Forall (fun p => 0 <= pdLength p /\ Coins_IsValid (pdAmount p) = true) periods;
  so_times : 0 <= start /\ start + total_length periods < 2 ^ 63;
  so_coins : forall d, list_sum (fun p => AmountOf (pdAmount p) d) periods < 2 ^ 256
}.
