(* ===== verification/PeriodicVestingTheorems.v ===== *)
(** * The reset of a vesting account keeps what is still to be released *)

From S2P Require Import Prelude Sdk PeriodicVesting.

Section ResetTheorems.
  Context {cfg : SdkConfig} {cs : CoinsSub} {laws : SdkLaws} {csl : CoinsSubLaws}.

Lemma valid_nonneg a d : Coins_IsValid a = true -> 0 <= AmountOf a d.
Proof.
  intros [Hp _]%Coins_IsValid_Ok. induction Hp as [|c l [_ Hc] Hl IH]; simpl; [done|]. case_bool_decide; lia.
Qed.

Lemma AmountOf_elem a c : NoDup (Denom <$> a) -> c ∈ a -> AmountOf a (Denom c) = Amount c.
Proof.
  induction a as [|x a IH]; intros Hd Hc; [by apply not_elem_of_nil in Hc|]. apply NoDup_cons in Hd as [Hx Hd].
  simpl. apply elem_of_cons in Hc as [->|Hc]; [by rewrite bool_decide_eq_true_2|].
  rewrite bool_decide_eq_false_2; [by apply IH|]. intros E. apply Hx. rewrite E. by apply list_elem_of_fmap_2.
Qed.

(** ** The periods *)
(** After the periods [done]: the end of the last one, the coins that still vest at the new
    start, and a schedule from the new start that releases what the old one does. *)
Record reset_inv (start newStart : Z) (done : list Period) (st : Z * Coins * list Period) : Prop := {
  ri_end : st.1.1 = start + total_length done;
  ri_valid : Coins_IsValid st.1.2 = true;
  ri_coins : forall d, AmountOf st.1.2 d = unvested start done newStart d;
  ri_next : st.2 <> [] -> newStart < st.1.1 /\ newStart + total_length st.2 = st.1.1;
  ri_same : forall t d, newStart <= t -> unvested newStart st.2 t d = unvested start done t d
}.

Lemma unvested_le start l t d : Forall (fun p => 0 <= pdLength p /\ Coins_IsValid (pdAmount p) = true) l ->
  unvested start l t d <= list_sum (fun p => AmountOf (pdAmount p) d) l.
Proof.
  intros Hl. revert start. induction Hl as [|p l [_ Hv] Hl IH]; intros start; cbn [unvested list_sum foldr]; [done|].
  pose proof (valid_nonneg (pdAmount p) d Hv). specialize (IH (start + pdLength p)). unfold list_sum in IH.
  destruct (t <? start + pdLength p); lia.
Qed.

Lemma total_length_nonneg l :
  Forall (fun p => 0 <= pdLength p /\ Coins_IsValid (pdAmount p) = true) l -> 0 <= total_length l.
Proof. unfold total_length, list_sum. induction 1 as [|x l [Hx _] Hl IH]; [done|]. cbn [foldr]. lia. Qed.

Lemma total_length_snoc l p : total_length (l ++ [p]) = total_length l + pdLength p.
Proof. rewrite total_length_app. change (total_length [p]) with (pdLength p + 0). lia. Qed.

Lemma unvested_snoc start l p t d : unvested start (l ++ [p]) t d = unvested start l t d
  + (if t <? start + total_length l + pdLength p then AmountOf (pdAmount p) d else 0).
Proof. rewrite unvested_app. cbn [unvested]. lia. Qed.

(** A period that is over at the new start. *)
Lemma reset_drop start newStart done p cur ov ps :
  reset_inv start newStart done (cur, ov, ps) -> 0 <= pdLength p -> cur + pdLength p <= newStart ->
  reset_inv start newStart (done ++ [p]) (cur + pdLength p, ov, ps).
Proof.
  intros [He Hv Hc Hn Hs] Hp Hle. cbn [fst snd] in *.
  assert (ps = []) as -> by (destruct ps; [done|]; specialize (Hn ltac:(done)); lia).
  split; cbn [fst snd]; try done.
  - rewrite total_length_snoc. lia.
  - intros d. rewrite Hc, unvested_snoc, <- He, (proj2 (Z.ltb_ge _ _)) by lia. lia.
  - intros t d Ht. rewrite (Hs t d Ht), unvested_snoc, <- He, (proj2 (Z.ltb_ge _ _)) by lia. lia.
Qed.

(** A period that remains, with its end where it was. *)
Lemma reset_keep start newStart done p p' cur ov ov' ps :
  reset_inv start newStart done (cur, ov, ps) -> newStart < cur + pdLength p ->
  pdAmount p' = pdAmount p -> newStart + total_length ps + pdLength p' = cur + pdLength p ->
  Coins_IsValid ov' = true -> (forall d, AmountOf ov' d = AmountOf ov d + AmountOf (pdAmount p) d) ->
  reset_inv start newStart (done ++ [p]) (cur + pdLength p, ov', ps ++ [p']).
Proof.
  intros [He Hv Hc Hn Hs] Hlt Ep Elen Hv' Hc'. cbn [fst snd] in *. split; cbn [fst snd].
  - rewrite total_length_snoc. lia.
  - done.
  - intros d. by rewrite Hc', Hc, unvested_snoc, <- He, (proj2 (Z.ltb_lt _ _) Hlt).
  - intros _. rewrite total_length_snoc. lia.
  - intros t d Ht. rewrite !unvested_snoc, Hs, Ep, Elen, <- He by done. reflexivity.
Qed.

Lemma reset_period_inv start newStart done p st :
  reset_inv start newStart done st -> schedule_ok start (done ++ [p]) -> 0 <= newStart ->
  exists st', reset_period newStart p st = Ok st' /\ reset_inv start newStart (done ++ [p]) st'.
Proof.
  intros Hi [Hl Ht Hm] H0. destruct st as [[cur ov] ps]. pose proof Hi as [He Hv Hc Hn _]. cbn [fst snd] in *.
  pose proof Hl as [Hld [[Hp Hpv] _]%Forall_cons]%Forall_app. pose proof (total_length_nonneg _ Hld).
  rewrite total_length_snoc in Ht. unfold reset_period. rewrite (i64_id (cur + pdLength p)) by (unfold is_i64; lia).
  destruct (Z.ltb_spec newStart (cur + pdLength p)) as [Hlt|Hge]; [|eexists; split; [reflexivity|by apply reset_drop]].
  set (p' := if (length ps =? 0)%nat then _ else p).
  assert (pdAmount p' = pdAmount p) as Ep by (unfold p'; by destruct (length ps =? 0)%nat).
  destruct (Coins_Add_total ov (pdAmount p) Hv Hpv) as [ov' Eov].
  { intros d. rewrite Hc. specialize (Hm d). pose proof (unvested_le start (done ++ [p]) newStart d Hl) as Hu.
    rewrite unvested_snoc, <- He, (proj2 (Z.ltb_lt _ _) Hlt) in Hu. lia. }
  rewrite Ep, Eov. cbn [obind]. destruct (Coins_Add_Ok _ _ _ Hv Hpv Eov) as [Hv' Hc'].
  eexists. split; [reflexivity|]. apply (reset_keep start newStart done p p' cur ov ov' ps); try done.
  unfold p'. destruct ps as [|q ps]; cbn [length Nat.eqb].
  - change (total_length []) with 0. cbn [pdLength]. rewrite i64_id by (unfold is_i64; lia). lia.
  - specialize (Hn ltac:(done)). lia.
Qed.

Lemma schedule_ok_prefix start a b : schedule_ok start (a ++ b) -> schedule_ok start a.
Proof.
  intros [Hl Ht Hm]. apply Forall_app in Hl as [Ha Hb]. pose proof (total_length_nonneg b Hb).
  rewrite total_length_app in Ht. split; [done|lia|]. intros d. specialize (Hm d). rewrite list_sum_app in Hm.
  assert (0 <= list_sum (fun p => AmountOf (pdAmount p) d) b); [|lia].
  clear - Hb laws. unfold list_sum. induction Hb as [|p b [_ Hp] Hb IH]; [done|]. cbn [foldr].
  pose proof (valid_nonneg _ d Hp). lia.
Qed.

Lemma reset_periods_inv start newStart periods : schedule_ok start periods -> 0 <= newStart ->
  exists st, ofold (reset_period newStart) periods (start, [], []) = Ok st /\ reset_inv start newStart periods st.
Proof.
  intros Hok H0. induction periods as [|p periods IH] using rev_ind.
  - exists (start, [], []). split; [done|]. split; cbn [fst snd]; try done; [change (total_length []) with 0; lia|apply Coins_IsValid_nil].
  - destruct (IH (schedule_ok_prefix _ _ _ Hok)) as (st & E & Hi). rewrite ofold_app, E. cbn [obind ofold].
    destruct (reset_period_inv start newStart periods p st Hi Hok H0) as (st' & -> & Hi'). by exists st'.
Qed.

(** ** The delegations *)
(** After the coins [done] of the delegated ones [dv0]: what has been moved from vesting to
    free, and what is left to look at. *)
Record delegation_inv (ov dv0 df0 done : Coins) (st : Coins * Coins) : Prop := {
  di_valid : Coins_IsValid st.1 = true /\ Coins_IsValid st.2 = true;
  di_sum : forall d, AmountOf st.1 d + AmountOf st.2 d = AmountOf dv0 d + AmountOf df0 d;
  di_done : forall d, d ∈ (Denom <$> done) -> AmountOf st.1 d = Z.min (AmountOf dv0 d) (AmountOf ov d);
  di_rest : forall d, d ∉ (Denom <$> done) -> AmountOf st.1 d = AmountOf dv0 d
}.

Lemma reset_delegation_inv ov dv0 df0 done c st :
  Coins_IsValid ov = true -> Coins_IsValid dv0 = true -> c ∈ dv0 -> Denom c ∉ (Denom <$> done) ->
  (forall d, AmountOf dv0 d + AmountOf df0 d < 2 ^ 256) -> delegation_inv ov dv0 df0 done st ->
  exists st', reset_delegation ov c st = Ok st' /\ delegation_inv ov dv0 df0 (done ++ [c]) st'.
Proof.
  intros Hov Hdv Hc Hnew Hfit [[Hv1 Hv2] Hsum Hdone Hrest]. destruct st as [dv df]. cbn [fst snd] in *.
  destruct (Coins_IsValid_Ok _ Hdv) as [Hpos Hnd]. destruct (proj1 (Forall_forall _ _) Hpos c Hc) as [Hden Hamt].
  pose proof (AmountOf_elem dv0 c Hnd Hc) as Ec. pose proof (valid_nonneg ov (Denom c) Hov) as Ho.
  pose proof (Hrest _ Hnew) as Er. pose proof (Hfit (Denom c)) as Hf. pose proof (valid_nonneg df (Denom c) Hv2) as Hdf.
  pose proof (Hsum (Denom c)) as Hs. unfold reset_delegation.
  rewrite NewCoin_total by (done || lia). cbn [obind]. rewrite Coin_Sub_total by (simpl; lia || done). cbn [obind Denom Amount].
  assert (forall d, d ∈ (Denom <$> (done ++ [c])) <-> d ∈ (Denom <$> done) \/ d = Denom c) as Hel.
  { intros d. rewrite fmap_app, elem_of_app. cbn. rewrite list_elem_of_singleton. done. }
  set (adj := Amount c - _). destruct (Z.eqb_spec adj 0) as [Hz|Hnz].
  - eexists. split; [reflexivity|]. split; cbn [fst snd]; [done|done| |].
    + intros d [Hd| ->]%Hel; [by apply Hdone|]. rewrite Er, Ec. subst adj. lia.
    + intros d Hd. apply Hrest. intros Hin. apply Hd, Hel. by left.
  - assert (0 < adj <= Amount c) as Hadj by (subst adj; lia).
    destruct (Coins_Sub1_total dv (mkCoin (Denom c) adj) Hv1) as (dv' & -> & Hv1' & Ha'); [cbn [Denom Amount]; lia|].
    cbn [obind]. pose proof (Coins_single_valid (mkCoin (Denom c) adj) Hden (proj1 Hadj)) as Hv3.
    assert (forall d, AmountOf [mkCoin (Denom c) adj] d = if bool_decide (Denom c = d) then adj else 0) as Hone by done.
    assert (forall d, 0 <= AmountOf dv' d) as Hpos' by (intros d; by apply valid_nonneg).
    destruct (Coins_Add_total df [mkCoin (Denom c) adj] Hv2 Hv3) as [df' Edf].
    { intros d. specialize (Hpos' d). rewrite Ha' in Hpos'. specialize (Hsum d). specialize (Hfit d). lia. }
    rewrite Edf. destruct (Coins_Add_Ok _ _ _ Hv2 Hv3 Edf) as [Hv2' Hd']. eexists. split; [reflexivity|].
    split; cbn [fst snd]; [done| | |].
    + intros d. rewrite Ha', Hd'. specialize (Hsum d). lia.
    + intros d [Hd| ->]%Hel.
      * rewrite Ha', Hone, bool_decide_eq_false_2 by (intros E; apply Hnew; by rewrite E). rewrite Hdone by done. lia.
      * rewrite Ha', Hone, bool_decide_eq_true_2, Er, Ec by done. subst adj. lia.
    + intros d Hd. rewrite Ha', Hone, bool_decide_eq_false_2 by (intros E; apply Hd, Hel; by right).
      rewrite Hrest; [lia|]. intros Hin. apply Hd, Hel. by left.
Qed.

Lemma reset_delegations_inv ov dv0 df0 : Coins_IsValid ov = true -> Coins_IsValid dv0 = true -> Coins_IsValid df0 = true ->
  (forall d, AmountOf dv0 d + AmountOf df0 d < 2 ^ 256) ->
  exists st, ofold (reset_delegation ov) dv0 (dv0, df0) = Ok st /\ delegation_inv ov dv0 df0 dv0 st.
Proof.
  intros Hov Hdv Hdf Hfit. destruct (Coins_IsValid_Ok _ Hdv) as [_ Hnd].
  assert (forall l, l `prefix_of` dv0 -> exists st, ofold (reset_delegation ov) l (dv0, df0) = Ok st
    /\ delegation_inv ov dv0 df0 l st) as H; [|by apply H].
  intros l. induction l as [|c l IH] using rev_ind; intros Hl.
  - exists (dv0, df0). split; [done|]. split; cbn [fst snd]; [done|done| |done]. intros d Hd. by apply elem_of_nil in Hd.
  - destruct IH as (st & E & Hi); [etrans; [by apply prefix_app_r|exact Hl]|]. rewrite ofold_app, E. cbn [obind ofold].
    destruct Hl as [k Hk]. assert (c ∈ dv0) as Hc by (rewrite Hk, !elem_of_app; left; right; left).
    assert (Denom c ∉ (Denom <$> l)) as Hnew.
    { rewrite Hk, !fmap_app, <- app_assoc in Hnd. apply NoDup_app in Hnd as (_ & Hd & _).
      intros Hin. apply (Hd _ Hin). left. }
    destruct (reset_delegation_inv ov dv0 df0 l c st) as (st' & -> & Hi'); try done. by exists st'.
Qed.

(** C35: resetting an account to a new start time always succeeds on a sound schedule, and the
    new account releases from then on exactly what the old one would have: at every later
    time the same coins are still to be released, its original vesting is what was unreleased
    at the new start, no delegated coin is lost, and the delegated vesting is cut down to the
    original vesting. *)
Theorem reset_keeps_schedule (vacc : PeriodicVestingAccount) (startTime : Z) :
  schedule_ok (vaStartTime vacc) (vaVestingPeriods vacc) -> 0 <= startTime ->
  Coins_IsValid (vaDelegatedVesting vacc) = true -> Coins_IsValid (vaDelegatedFree vacc) = true ->
  (forall d, AmountOf (vaDelegatedVesting vacc) d + AmountOf (vaDelegatedFree vacc) d < 2 ^ 256) ->
  exists vacc', ResetPeriodicVestingAccount vacc startTime = Ok vacc'
    /\ vaStartTime vacc' = Unix startTime /\ vaEndTime vacc' = Z.max (vaEndTime vacc) (Unix startTime)
    /\ (forall t d, Unix startTime <= t ->
          unvested (vaStartTime vacc') (vaVestingPeriods vacc') t d
          = unvested (vaStartTime vacc) (vaVestingPeriods vacc) t d)
    /\ forall d, AmountOf (vaOriginalVesting vacc') d
                   = unvested (vaStartTime vacc) (vaVestingPeriods vacc) (Unix startTime) d
          /\ AmountOf (vaDelegatedVesting vacc') d + AmountOf (vaDelegatedFree vacc') d
             = AmountOf (vaDelegatedVesting vacc) d + AmountOf (vaDelegatedFree vacc) d
          /\ AmountOf (vaDelegatedVesting vacc') d
             = Z.min (AmountOf (vaDelegatedVesting vacc) d) (AmountOf (vaOriginalVesting vacc') d).
Proof.
  intros Hok H0 Hdv Hdf Hfit. assert (0 <= Unix startTime) as Hu by (apply Z.div_pos; lia).
  destruct (reset_periods_inv _ _ _ Hok Hu) as ([[cur ov] ps] & E1 & [_ Hov Hc _ Hs]). cbn [fst snd] in *.
  destruct (reset_delegations_inv ov _ _ Hov Hdv Hdf Hfit) as ([dv df] & E2 & [_ Hsum Hdone Hrest]). cbn [fst snd] in *.
  eexists. split; [unfold ResetPeriodicVestingAccount; rewrite E1; cbn [obind]; rewrite E2; reflexivity|].
  cbn [vaStartTime vaEndTime vaVestingPeriods vaOriginalVesting vaDelegatedVesting vaDelegatedFree].
  split; [done|]. split; [destruct (Z.leb_spec (vaEndTime vacc) (Unix startTime)); lia|]. split; [exact Hs|].
  intros d. split; [apply Hc|]. split; [apply Hsum|].
  destruct (decide (d ∈ (Denom <$> vaDelegatedVesting vacc))) as [Hd|Hd]; [by apply Hdone|].
  rewrite Hrest by done. pose proof (valid_nonneg ov d Hov).
  assert (AmountOf (vaDelegatedVesting vacc) d = 0); [|lia].
  revert Hd. generalize (vaDelegatedVesting vacc). intros l. induction l as [|c l IH]; intros Hd; [done|].
  apply not_elem_of_cons in Hd as [Hne Hd]. simpl. rewrite bool_decide_eq_false_2 by congruence. by apply IH.
Qed.
End ResetTheorems.
