(* ===== verification/PeriodicVestingWitness.v ===== *)
(** * The reset of a concrete vesting account *)

From S2P Require Import Prelude Sdk SdkModel PeriodicVesting PeriodicVestingTheorems.

Module VestingAccounts.
#[export] Existing Instances SdkModel.model SdkModel.laws.

Fixpoint remove_coin (c : Coin) (l : Coins) : outcome Coins :=
  match l with
  | [] => Panic "negative coin amount"
  | x :: l =>
      if bool_decide (Denom x = Denom c) then
        if Amount x =? Amount c then Ok l
        else if Amount x <? Amount c then Panic "negative coin amount"
        else Ok (mkCoin (Denom x) (Amount x - Amount c) :: l)
      else let! l := remove_coin c l in Ok (x :: l)
  end.
#[export] Instance sub : CoinsSub := {| Coins_Sub1 l c := remove_coin c l |}.

Lemma remove_coin_total c l : NoDup (Denom <$> l) -> Forall (fun x => SdkModel.positive_coin x = true) l ->
  0 < Amount c <= AmountOf l (Denom c) ->
  exists r, remove_coin c l = Ok r /\ NoDup (Denom <$> r) /\ Forall (fun x => SdkModel.positive_coin x = true) r
    /\ (Denom <$> r) ⊆ (Denom <$> l) /\ forall d, AmountOf r d = AmountOf l d - AmountOf [c] d.
Proof.
  intros Hn Hp Hc. induction l as [|x l IH]; simpl in Hc; [lia|]. simpl. simpl in Hn.
  apply NoDup_cons in Hn as [Hx Hn]. apply Forall_cons in Hp as [Hpx Hp]. case_bool_decide as Hd.
  - destruct (Z.eqb_spec (Amount x) (Amount c)).
    + exists l. split_and!; [done..|set_solver|]. intros d. rewrite Hd. case_bool_decide as E; [|lia].
      rewrite SdkModel.AmountOf_absent by (rewrite <- E, <- Hd; done). lia.
    + destruct (Z.ltb_spec (Amount x) (Amount c)); [lia|]. eexists. split; [reflexivity|]. simpl. split_and!.
      * apply NoDup_cons. done.
      * constructor; [|done]. unfold SdkModel.positive_coin in *. cbn [Denom Amount] in *. gobool. split; [naive_solver|lia].
      * done.
      * intros d. rewrite Hd. case_bool_decide; lia.
  - destruct (IH Hn Hp Hc) as (r & -> & Hr & Hr' & Hs & Ha). simpl. exists (x :: r). split; [done|]. simpl. split_and!.
    + apply NoDup_cons. split; [|done]. intros Hin. apply Hx. by apply Hs.
    + by constructor.
    + set_solver.
    + intros d. rewrite Ha. simpl. repeat case_bool_decide; subst; try lia. congruence.
Qed.

Lemma valid_coins_intro l : NoDup (Denom <$> l) -> Forall (fun x => SdkModel.positive_coin x = true) l ->
  SdkModel.valid_coins l = true.
Proof.
  intros Hn Hp. apply andb_true_intro. split; [|by apply bool_decide_eq_true].
  apply forallb_forall. intros x Hx. apply (proj1 (Forall_forall _ _) Hp). by apply list_elem_of_In.
Qed.

#[export] Instance sub_laws : CoinsSubLaws.
Proof.
  split.
  - intros a c Hv Hc. destruct (SdkModel.valid_coins_Ok a Hv) as [Hp Hn].
    destruct (remove_coin_total c a Hn) as (r & Er & Hn' & Hp' & _ & Ha); [|done|].
    { eapply Forall_impl; [exact Hp|]. intros x [H1 H2]. unfold SdkModel.positive_coin. rewrite H1. by apply Z.ltb_lt. }
    exists r. split; [done|]. split; [by apply valid_coins_intro|done].
  - intros c Hd Hc. apply valid_coins_intro; [apply NoDup_singleton|]. constructor; [|done].
    unfold SdkModel.positive_coin. apply andb_true_intro. split; [done|]. by apply Z.ltb_lt.
Qed.

(** Three periods of 100 seconds from 1000 on; reset at 1150. *)
Definition account : PeriodicVestingAccount :=
  mkVestingAccount [mkCoin "a0gi" 60] [] [mkCoin "a0gi" 50] 1300 1000
    [mkPeriod 100 [mkCoin "a0gi" 30]; mkPeriod 100 [mkCoin "a0gi" 20]; mkPeriod 100 [mkCoin "a0gi" 10]].
Definition new_start : Z := 1150 * 1000000000.

Example reset_account : ResetPeriodicVestingAccount account new_start =
  Ok (mkVestingAccount [mkCoin "a0gi" 30] [mkCoin "a0gi" 20] [mkCoin "a0gi" 30] 1300 1150
        [mkPeriod 50 [mkCoin "a0gi" 20]; mkPeriod 100 [mkCoin "a0gi" 10]]).
Proof. vm_compute. reflexivity. Qed.

Lemma reset_keeps_schedule_witness :
  exists vacc', ResetPeriodicVestingAccount account new_start = Ok vacc'
    /\ forall t d, 1150 <= t -> unvested (vaStartTime vacc') (vaVestingPeriods vacc') t d
                              = unvested 1000 (vaVestingPeriods account) t d.
Proof.
  destruct (reset_keeps_schedule account new_start) as (vacc' & E & _ & _ & H & _).
  - split.
    + repeat (constructor; [split; [simpl; lia|reflexivity]|]). constructor.
    + vm_compute. split; [discriminate|reflexivity].
    + intros d. unfold list_sum. cbn [foldr account vaVestingPeriods pdAmount AmountOf Denom Amount].
      case_bool_decide; lia.
  - apply Z.leb_le. reflexivity.
  - reflexivity.
  - reflexivity.
  - intros d. cbn [account vaDelegatedVesting vaDelegatedFree AmountOf Denom Amount]. case_bool_decide; lia.
  - exists vacc'. split; [exact E|]. intros t d Ht. exact (H t d Ht).
Defined.
End VestingAccounts.
