(* ===== verification/Upgrade.v ===== *)
(** * app/upgrades.go: the upgrade handler and the minimum commission

    The handler of an upgrade runs the migrations of the modules, raises the commission of
    the validators to the new minimum, and sets the quorum of the votes of x/gov.  The
    staking and governance keepers, the migrations and the upgrade keeper are arguments. *)

From S2P Require Import Prelude Sdk SdkDec.

Definition UpgradeName_Mainnet : string := "v0.25.0".
Definition UpgradeName_Testnet : string := "v0.25.0-alpha.0".
Definition UpgradeName_E2ETest : string := "v0.25.0-testing".
(** [sdk.NewDecWithPrec(5, 2)] *)
Definition ValidatorMinimumCommission : Dec := 5 * 10 ^ 16.

Record Commission : Type := mkCommission { cmRate : Dec; cmMaxRate : Dec; cmMaxChangeRate : Dec; cmUpdateTime : Z }.
Record Validator : Type := mkValidator { vlOperator : bytes; vlCommission : Commission; vlStatus : Z }.
Record UpgradeInfo : Type := mkUpgradeInfo { uiName : string; uiHeight : Z }.

(** [G]: the state of the chain; [VM]: the versions of the modules. *)
Class UpgradeEnv (G VM : Type) : Type := {
  GetAllValidators : G -> list Validator;
  SetValidator : Validator -> G -> G;
  BeforeValidatorModified : bytes -> G -> outcome G;
  SetMinCommissionRate : Dec -> G -> G;
  SetTallyQuorum : string -> G -> G;
  RunMigrations : VM -> G -> outcome (VM * G);
  ReadUpgradeInfoFromDisk : outcome UpgradeInfo;
  IsSkipHeight : Z -> bool
}.

Section Upgrade.
  Context {G VM : Type} {env : UpgradeEnv G VM}.

(** The new commission of a validator below the minimum. *)
Definition raise_commission (now : Z) (val : Validator) : Validator :=
  let c := vlCommission val in
  mkValidator (vlOperator val)
    (mkCommission ValidatorMinimumCommission
       (if cmMaxRate c <? ValidatorMinimumCommission then ValidatorMinimumCommission else cmMaxRate c)
       (cmMaxChangeRate c) now)
    (vlStatus val).

(** The callback of the loop over the validators; the counts are for the log. *)
Definition update_validator (now : Z) (val : Validator) (g : G) : outcome G :=
  if ValidatorMinimumCommission <=? cmRate (vlCommission val) then Ok g else
  let! g := must (BeforeValidatorModified (vlOperator val) g) in
  Ok (SetValidator (raise_commission now val) g).

Definition UpdateValidatorMinimumCommission (ctx : Ctx) (g : G) : outcome G :=
  let! g := ofold (update_validator (BlockTime ctx)) (GetAllValidators g) g in
  Ok (SetMinCommissionRate ValidatorMinimumCommission g).

(** The body is commented out. *)
Definition UpdateIncentiveParams (g : G) : G := g.

Definition upgradeHandler (ctx : Ctx) (fromVM : VM) (g : G) : outcome (VM * G) :=
  let! '(toVM, g) := RunMigrations fromVM g in
  let! g := UpdateValidatorMinimumCommission ctx g in
  let g := SetTallyQuorum "0.200000000000000000" g in
  Ok (toVM, UpdateIncentiveParams g).

(** The height of the store upgrades that are loaded at the start, if any. *)
Definition RegisterUpgradeHandlers : outcome (option Z) :=
  let! info := must ReadUpgradeInfoFromDisk in
  let doUpgrade := bool_decide (uiName info = UpgradeName_Mainnet) || bool_decide (uiName info = UpgradeName_Testnet)
                   || bool_decide (uiName info = UpgradeName_E2ETest) in
  Ok (if doUpgrade && negb (IsSkipHeight (uiHeight info)) then Some (uiHeight info) else None).
End Upgrade.

(** The staking keeper holds one validator per operator; the hooks and the parameters leave
    the validators alone. *)
Class StakingStore (G VM : Type) {env : UpgradeEnv G VM} : Type := { validator : G -> bytes -> option Validator }.
Class StakingLaws (G VM : Type) {env : UpgradeEnv G VM} {st : StakingStore G VM} : Prop := {
  all_validators g v : v ∈ GetAllValidators g <-> validator g (vlOperator v) = Some v;
  all_operators g : NoDup (vlOperator <$> GetAllValidators g);
  validator_operator g a v : validator g a = Some v -> vlOperator v = a;
  set_validator v g a : validator (SetValidator v g) a = if decide (vlOperator v = a) then Some v else validator g a;
  hook_validators o g g' a : BeforeValidatorModified o g = Ok g' -> validator g' a = validator g a;
  params_validators d g a : validator (SetMinCommissionRate d g) a = validator g a
}.

Section UpgradeTheorems.
  Context {G VM : Type} {env : UpgradeEnv G VM} {st : StakingStore G VM} {laws : StakingLaws G VM}.

(** What the upgrade makes of a validator. *)
Definition upgraded (now : Z) (v : Validator) : Validator :=
  if ValidatorMinimumCommission <=? cmRate (vlCommission v) then v else raise_commission now v.

Lemma update_loop now l g g' : NoDup (vlOperator <$> l) ->
  (forall v, v ∈ l -> validator g (vlOperator v) = Some v) -> ofold (update_validator now) l g = Ok g' ->
  forall a, validator g' a =
    if decide (a ∈ (vlOperator <$> l)) then upgraded now <$> validator g a else validator g a.
Proof.
  revert g. induction l as [|v l IH]; intros g Hn Hl H a; simpl in H.
  - injection H as <-. rewrite decide_False by (apply not_elem_of_nil). done.
  - apply NoDup_cons in Hn as [Hv Hn]. apply obind_Ok in H as (g1 & H1 & H).
    assert (forall b, validator g1 b = if decide (vlOperator v = b) then Some (upgraded now v) else validator g b) as Hg1.
    { intros b. unfold update_validator in H1. unfold upgraded. destruct (_ <=? _).
      - injection H1 as <-. case_decide as E; [subst b; apply Hl; left|done].
      - apply obind_Ok in H1 as (g0 & H0 & [= <-]). unfold must in H0.
        destruct (BeforeValidatorModified _ g) as [g0'| |] eqn:Eh; [|done..]. injection H0 as ->.
        rewrite set_validator. cbn [raise_commission vlOperator]. by rewrite (hook_validators _ _ _ _ Eh). }
    rewrite (IH g1 Hn) with (a := a); [| |done].
    + rewrite Hg1, fmap_cons. destruct (decide (vlOperator v = a)) as [E|E].
      * subst a. rewrite decide_False by done. rewrite decide_True by left. by rewrite (Hl v) by left.
      * destruct (decide (a ∈ (vlOperator <$> l))) as [Hin|Hin].
        -- by rewrite decide_True by (by right).
        -- rewrite decide_False; [done|]. rewrite elem_of_cons. intros [->|?]; done.
    + intros w Hw. rewrite Hg1. destruct (decide (vlOperator v = vlOperator w)) as [E|E]; [|apply Hl; by right].
      exfalso. apply Hv. rewrite E. by apply list_elem_of_fmap_2.
Qed.

(** The update gives every validator exactly the commission that the rule says: at least 5%
    afterwards, the maximum not below the rate, and nothing changed for those that had
    enough. *)
Theorem minimum_commission (ctx : Ctx) g g' :
  UpdateValidatorMinimumCommission ctx g = Ok g' ->
  (forall a, validator g' a = upgraded (BlockTime ctx) <$> validator g a)
  /\ forall a v, validator g' a = Some v -> ValidatorMinimumCommission <= cmRate (vlCommission v)
       /\ (forall v0, validator g a = Some v0 -> cmRate (vlCommission v0) <= cmMaxRate (vlCommission v0) ->
           cmRate (vlCommission v) <= cmMaxRate (vlCommission v)).
Proof.
  intros H. apply obind_Ok in H as (g1 & H1 & [= <-]).
  assert (forall a, validator (SetMinCommissionRate ValidatorMinimumCommission g1) a
    = upgraded (BlockTime ctx) <$> validator g a) as Hall.
  { intros a. rewrite params_validators.
    rewrite (update_loop (BlockTime ctx) (GetAllValidators g) g g1 (all_operators g)); [| |done].
    - case_decide as Hin; [done|]. destruct (validator g a) as [v|] eqn:Hv; [|done]. exfalso. apply Hin.
      rewrite <- (validator_operator _ _ _ Hv). apply list_elem_of_fmap_2, all_validators.
      by rewrite (validator_operator _ _ _ Hv).
    - intros v Hv. by apply all_validators. }
  split; [exact Hall|]. intros a v Hv. rewrite Hall in Hv. destruct (validator g a) as [v0|]; [|done].
  injection Hv as <-. unfold upgraded. destruct (Z.leb_spec ValidatorMinimumCommission (cmRate (vlCommission v0))).
  - split; [done|]. intros v1 [= <-]. done.
  - cbn [raise_commission vlCommission cmRate cmMaxRate]. split; [lia|]. intros v1 [= <-] _.
    destruct (Z.ltb_spec (cmMaxRate (vlCommission v0)) ValidatorMinimumCommission); lia.
Qed.
End UpgradeTheorems.

(** ** The upgrade on a store with two validators *)
Module UpgradeChain.
Abbreviation store := (gmap bytes (Commission * Z)).
Definition to_validator (e : bytes * (Commission * Z)) : Validator := mkValidator e.1 e.2.1 e.2.2.

#[export] Instance env : UpgradeEnv store unit := {|
  GetAllValidators g := to_validator <$> map_to_list g;
  SetValidator v g := <[vlOperator v := (vlCommission v, vlStatus v)]> g;
  BeforeValidatorModified _ g := Ok g;
  SetMinCommissionRate _ g := g; SetTallyQuorum _ g := g;
  RunMigrations vm g := Ok (vm, g);
  ReadUpgradeInfoFromDisk := Ok (mkUpgradeInfo "" 0); IsSkipHeight _ := false
|}.
#[export] Instance staking : StakingStore store unit := {|
  validator g a := (fun e => to_validator (a, e)) <$> g !! a
|}.
#[export] Instance laws : StakingLaws store unit.
Proof.
  split; cbn [GetAllValidators SetValidator BeforeValidatorModified SetMinCommissionRate validator env staking].
  - intros g v. rewrite list_elem_of_fmap. split.
    + intros ([a e] & -> & Hin). apply elem_of_map_to_list in Hin. unfold to_validator. simpl. by rewrite Hin.
    + intros Hv. destruct (g !! vlOperator v) as [e|] eqn:E; [|done]. injection Hv as Hv.
      exists (vlOperator v, e). split; [done|]. by apply elem_of_map_to_list.
  - intros g. rewrite <- list_fmap_compose. apply NoDup_fst_map_to_list.
  - intros g a v Hv. destruct (g !! a); [|done]. by injection Hv as <-.
  - intros v g a. case_decide as E.
    + subst a. rewrite lookup_insert_eq. simpl. by destruct v.
    + by rewrite lookup_insert_ne.
  - intros o g g' a [= <-]. done.
  - done.
Qed.

Definition cheap : Commission := mkCommission (10 ^ 16) (3 * 10 ^ 16) (10 ^ 16) 0.
Definition dear : Commission := mkCommission (10 ^ 17) (2 * 10 ^ 17) (10 ^ 16) 0.
Definition before : store := {[ [1] := (cheap, 3); [2] := (dear, 3) ]}.
Definition after : store :=
  {[ [1] := (mkCommission (5 * 10 ^ 16) (5 * 10 ^ 16) (10 ^ 16) 9, 3); [2] := (dear, 3) ]}.

Lemma minimum_commission_witness :
  UpdateValidatorMinimumCommission (mkCtx 4 9) before = Ok after
  /\ forall a, validator after a = upgraded 9 <$> validator before a.
Proof.
  assert (UpdateValidatorMinimumCommission (mkCtx 4 9) before = Ok after) as E by (vm_compute; reflexivity).
  split; [exact E|]. exact (proj1 (minimum_commission (mkCtx 4 9) before after E)).
Defined.
End UpgradeChain.
