(* ===== verification/PricefeedQuery.v ===== *)
(** * x/pricefeed: the older queries (keeper/querier.go)

    The same questions as those of [keeper/grpc_query.go], with requests and answers in
    JSON; the codec is an argument. *)

From S2P Require Import Prelude Sdk SdkDec GoStd Pricefeed.

(** What the router encodes; the parameters are the markets. *)
Inductive answer : Type :=
| AnsPrice (p : CurrentPrice) | AnsPrices (l : list CurrentPrice) | AnsRawPrices (l : list PostedPrice)
| AnsOracles (l : list AccAddress) | AnsMarkets (l : list Market) | AnsParams (markets : list Market).

Definition ErrUnknownRequest : error := Registered "sdk" 6.
Definition ErrJSONMarshal : error := Registered "sdk" 16.
Definition ErrJSONUnmarshal : error := Registered "sdk" 17.
Definition ErrAssetNotFound : error := Registered PricefeedName 7.

Class PriceCodec : Type := {
  UnmarshalMarketID : bytes -> option string;
  MarshalJSONIndent : answer -> option bytes
}.

Section Querier.
  Context {cfg : SdkConfig} {str : GoStrings} {dc : DecConfig} {pc : PriceConfig} {codec : PriceCodec}.
  Implicit Types s : PfState.

Definition encode_answer (a : answer) : outcome bytes :=
  match MarshalJSONIndent a with Some bz => Ok bz | None => Err ErrJSONMarshal end.
Definition decode_market (data : bytes) : outcome string :=
  match UnmarshalMarketID data with Some id => Ok id | None => Err ErrJSONUnmarshal end.

Definition queryPrice s (data : bytes) : outcome bytes :=
  let! id := decode_market data in
  match GetMarket s id with
  | None => Err ErrAssetNotFound
  | Some _ => let! price := GetCurrentPrice s id in encode_answer (AnsPrice price)
  end.
Definition queryPrices s : outcome bytes :=
  encode_answer (AnsPrices (filter (fun cp => cpMarketID cp <> "") (GetCurrentPrices s))).
Definition queryRawPrices s (data : bytes) : outcome bytes :=
  let! id := decode_market data in
  match GetMarket s id with
  | None => Err ErrAssetNotFound
  | Some _ => let! prices := GetRawPrices s id in encode_answer (AnsRawPrices prices)
  end.
Definition queryOracles s (data : bytes) : outcome bytes :=
  let! id := decode_market data in
  match GetOracles s id with
  | Err _ => Err ErrAssetNotFound
  | Panic w => Panic w
  | Ok oracles => encode_answer (AnsOracles oracles)
  end.
Definition queryMarkets s : outcome bytes := encode_answer (AnsMarkets (pfMarkets s)).
Definition queryGetParams s : outcome bytes := encode_answer (AnsParams (pfMarkets s)).

Definition NewQuerier s (path : list string) (data : bytes) : outcome bytes :=
  match path with
  | [] => Panic "index out of range"
  | p :: _ =>
      if bool_decide (p = "price") then queryPrice s data else
      if bool_decide (p = "prices") then queryPrices s else
      if bool_decide (p = "rawprices") then queryRawPrices s data else
      if bool_decide (p = "oracles") then queryOracles s data else
      if bool_decide (p = "markets") then queryMarkets s else
      if bool_decide (p = "parameters") then queryGetParams s else
      Err ErrUnknownRequest
  end.

(** The older query for a price is the gRPC query behind the codec: a price exactly where
    that has one, and an unknown market or a missing price is an error in both. *)
Theorem price_queries_agree s data id : UnmarshalMarketID data = Some id ->
  match Query_Price s id with
  | Ok price => NewQuerier s ["price"] data = encode_answer (AnsPrice price)
  | Err _ => exists e, NewQuerier s ["price"] data = Err e
  | Panic _ => False
  end.
Proof.
  intros E. assert (NewQuerier s ["price"] data = queryPrice s data) as -> by reflexivity.
  unfold queryPrice, Query_Price, decode_market. rewrite E. cbn [obind]. destruct (GetMarket s id); [|eauto].
  unfold GetCurrentPrice. destruct (pfCurrentPrices s !! id) as [p|]; [|eauto]. destruct (cpPrice p =? 0); cbn [obind]; eauto.
Qed.
End Querier.
