(* ===== verification/Vrf.v ===== *)
(** * crypto/vrf: the keys of the council's random function

    The key types that the keyring and the codec see, over the library that computes the
    function.  The library, [common.BytesToAddress], the printing of bytes and the source of
    randomness are arguments. *)

From S2P Require Import Prelude Sdk GoStd.

Definition PrivKeySize : nat := 64.
Definition PubKeySize : nat := 32.
Definition KeyType : string := "vrf".
Definition ErrInvalidPubKey : error := Registered "sdk" 8.

Record PrivKey : Type := mkPrivKey { privKey_Key : bytes }.
Record PubKey : Type := mkPubKey { pubKey_Key : bytes }.

(** Another key, of any type: what [Equals] reads of it. *)
Record AnyKey : Type := mkAnyKey { any_Type : string; any_Bytes : bytes }.

(** [vrfalgo], with [R] the source of randomness. *)
Class VrfAlgo (R : Type) : Type := {
  vrf_GenerateKey : R -> outcome bytes * R;
  (** the public key, or nil when the private key is not valid *)
  vrf_Public : bytes -> option bytes;
  vrf_Compute : bytes -> bytes -> bytes;
  vrf_BytesToAddress : bytes -> bytes;
  (** [%X] *)
  vrf_Hex : bytes -> string
}.

Section Vrf.
  Context {R : Type} {algo : VrfAlgo R}.

(** ** Private keys *)
Definition GenerateKey (r : R) : outcome PrivKey * R :=
  let '(priv, r) := vrf_GenerateKey r in
  (let! priv := priv in Ok (mkPrivKey priv), r).

Definition PrivKey_Bytes (privKey : PrivKey) : bytes := privKey_Key privKey.
Definition PrivKey_PubKey (privKey : PrivKey) : PubKey := mkPubKey (default [] (vrf_Public (privKey_Key privKey))).
Definition PrivKey_Type (privKey : PrivKey) : string := KeyType.
Definition PrivKey_Equals (privKey : PrivKey) (other : AnyKey) : bool :=
  bool_decide (PrivKey_Type privKey = any_Type other) && bool_decide (PrivKey_Bytes privKey = any_Bytes other).
Definition Sign (privKey : PrivKey) (digestBz : bytes) : outcome bytes := Ok (vrf_Compute (privKey_Key privKey) digestBz).

Definition PrivKey_MarshalAmino (privKey : PrivKey) : outcome bytes := Ok (privKey_Key privKey).
Definition PrivKey_UnmarshalAmino (bz : bytes) (privKey : PrivKey) : outcome PrivKey :=
  if negb (Nat.eqb (length bz) PrivKeySize) then Err (Plain "invalid privkey size") else Ok (mkPrivKey bz).
Definition PrivKey_MarshalAminoJSON (privKey : PrivKey) : outcome bytes := PrivKey_MarshalAmino privKey.
Definition PrivKey_UnmarshalAminoJSON (bz : bytes) (privKey : PrivKey) : outcome PrivKey := PrivKey_UnmarshalAmino bz privKey.

(** ** Public keys *)
Definition Address (pubKey : PubKey) : bytes := vrf_BytesToAddress (pubKey_Key pubKey).
Definition PubKey_Bytes (pubKey : PubKey) : bytes := pubKey_Key pubKey.
Definition PubKey_String (pubKey : PubKey) : string := "vrf{" +:+ vrf_Hex (pubKey_Key pubKey) +:+ "}".
Definition PubKey_Type (pubKey : PubKey) : string := KeyType.
Definition PubKey_Equals (pubKey : PubKey) (other : AnyKey) : bool :=
  bool_decide (PubKey_Type pubKey = any_Type other) && bool_decide (PubKey_Bytes pubKey = any_Bytes other).
Definition VerifySignature (pubKey : PubKey) (msg sig : bytes) : outcome bool := Panic "not implement".

Definition PubKey_MarshalAmino (pubKey : PubKey) : outcome bytes := Ok (pubKey_Key pubKey).
Definition PubKey_UnmarshalAmino (bz : bytes) (pubKey : PubKey) : outcome PubKey :=
  if negb (Nat.eqb (length bz) PubKeySize) then Err ErrInvalidPubKey else Ok (mkPubKey bz).
Definition PubKey_MarshalAminoJSON (pubKey : PubKey) : outcome bytes := PubKey_MarshalAmino pubKey.
Definition PubKey_UnmarshalAminoJSON (bz : bytes) (pubKey : PubKey) : outcome PubKey := PubKey_UnmarshalAmino bz pubKey.

(** ** The algorithm of the keyring (algorithm.go) *)
Definition Derive (mnemonic bip39Passphrase path : string) (r : R) : outcome bytes * R :=
  let '(key, r) := GenerateKey r in
  (let! key := key in Ok (PrivKey_Bytes key), r).
(** The error is dropped: nil is returned. *)
Definition Generate (bz : bytes) (r : R) : option PrivKey * R :=
  let '(key, r) := GenerateKey r in
  (match key with Ok key => Some key | _ => None end, r).

Definition Name : string := KeyType.
Definition SupportedAlgorithms : list string := [Name].
Definition SupportedAlgorithmsLedger : list string := [Name].
(** The options of the keyring that the council's commands use. *)
Record KeyringOptions : Type := mkOptions { SupportedAlgos : list string; SupportedAlgosLedger : list string }.
Definition VrfOption (options : KeyringOptions) : KeyringOptions := mkOptions SupportedAlgorithms SupportedAlgorithmsLedger.

(** ** Theorems *)

(** The encodings are inverse: a key of the right size reads back, and whatever is read
    encodes to the bytes it was read from; bytes of another length are refused. *)
Theorem amino_roundtrip (k : PrivKey) (p : PubKey) (k0 : PrivKey) (p0 : PubKey) bz :
  (length (privKey_Key k) = PrivKeySize -> obind (PrivKey_MarshalAmino k) (fun bz => PrivKey_UnmarshalAmino bz k0) = Ok k)
  /\ (length (pubKey_Key p) = PubKeySize -> obind (PubKey_MarshalAmino p) (fun bz => PubKey_UnmarshalAmino bz p0) = Ok p)
  /\ (PrivKey_UnmarshalAmino bz k0 = Ok k -> PrivKey_MarshalAmino k = Ok bz /\ length bz = PrivKeySize)
  /\ (PubKey_UnmarshalAmino bz p0 = Ok p -> PubKey_MarshalAmino p = Ok bz /\ length bz = PubKeySize).
Proof.
  destruct k as [k], p as [p]. unfold PrivKey_MarshalAmino, PubKey_MarshalAmino, PrivKey_UnmarshalAmino, PubKey_UnmarshalAmino.
  cbn [obind privKey_Key pubKey_Key]. split_and!.
  - intros ->. by rewrite Nat.eqb_refl.
  - intros ->. by rewrite Nat.eqb_refl.
  - destruct (Nat.eqb_spec (length bz) PrivKeySize); [|done]. by intros [= ->].
  - destruct (Nat.eqb_spec (length bz) PubKeySize); [|done]. by intros [= ->].
Qed.

(** [Equals] compares all bytes: on keys of this type it is equality. *)
Theorem key_equality (k k' : PrivKey) (p p' : PubKey) :
  (PrivKey_Equals k (mkAnyKey (PrivKey_Type k') (PrivKey_Bytes k')) = true <-> k = k')
  /\ (PubKey_Equals p (mkAnyKey (PubKey_Type p') (PubKey_Bytes p')) = true <-> p = p').
Proof.
  destruct k as [k], k' as [k'], p as [p], p' as [p']. unfold PrivKey_Equals, PubKey_Equals. simpl.
  rewrite !bool_decide_eq_true. split; split; congruence.
Qed.

(** A key is not a function of its mnemonic: what is derived is a fresh key for every
    mnemonic, passphrase and path, and what is generated from derived bytes is the next fresh
    key, whatever the bytes are; so no mnemonic recovers a key. *)
Theorem mnemonic_ignored mnemonic pass path bz r r1 r2 k1 k2 :
  vrf_GenerateKey r = (Ok k1, r1) -> vrf_GenerateKey r1 = (Ok k2, r2) ->
  Derive mnemonic pass path r = (Ok k1, r1) /\ Generate bz r1 = (Some (mkPrivKey k2), r2).
Proof. intros H1 H2. unfold Derive, Generate, GenerateKey. rewrite H1, H2. done. Qed.
End Vrf.

(** A toy library over a counter as the randomness. *)
Module VrfToy.
#[export] Instance toy : VrfAlgo Z := {|
  vrf_GenerateKey r := (Ok (repeat r PrivKeySize), r + 1);
  vrf_Public k := Some (take PubKeySize k);
  vrf_Compute k m := k ++ m;
  vrf_BytesToAddress b := drop (length b - 20) b;
  vrf_Hex := hex_EncodeToString
|}.
Lemma mnemonic_ignored_witness :
  Derive "abandon ability" "" "m/44" 5 = (Ok (repeat 5 PrivKeySize), 6)
  /\ Generate (repeat 5 PrivKeySize) 6 = (Some (mkPrivKey (repeat 6 PrivKeySize)), 7).
Proof. apply (mnemonic_ignored "abandon ability" "" "m/44" (repeat 5 PrivKeySize) 5 6 7 (repeat 5 64) (repeat 6 64)); reflexivity. Defined.
(** Two keys that agree in the last twenty bytes have one address. *)
Lemma address_collides : Address (mkPubKey (repeat 1 12 ++ repeat 3 20)) = Address (mkPubKey (repeat 2 12 ++ repeat 3 20)).
Proof. vm_compute. reflexivity. Qed.
End VrfToy.
