(* ===== verification/App.v ===== *)
(** * app: the application over its modules

    [app.go] puts the modules together: one bank, one account keeper and one staking
    keeper serve all of them, the module manager runs their begin and end blockers in the
    order that is set there, and the router gives each message to its module.  The state
    of the application is the store of x/committee over the rest of the chain, because a
    proposal that passes acts on the rest; a module sees the chain through a [Part]. *)

From S2P Require Import Prelude Sdk SdkDec GoStd Bank Bep3Types Bep3Keeper Bep3Msg Bep3Genesis Issuance IssuanceMsg.
From S2P Require Import Evmutil EvmConvert EvmConvertMsg Pricefeed CommitteePerm Committee.
From S2P Require Import Council Bn254 Dasigners.

(** ** The names of the modules, in the orders of [app.go] *)
Definition NewManager_modules : list string :=
  ["genutil"; "auth"; "bank"; "capability"; "staking"; "distribution"; "gov"; "params"; "crisis"; "slashing"; "ibc";
   "evm"; "feemarket"; "upgrade"; "evidence"; "transfer"; "vesting"; "authz"; "issuance"; "bep3"; "pricefeed";
   "validatorvesting"; "committee"; "evmutil"; "mint"; "council"; "da-signers"].

Definition OrderBeginBlockers : list string :=
  ["upgrade"; "capability"; "committee"; "mint"; "distribution"; "slashing"; "evidence"; "staking"; "feemarket"; "evm";
   "bep3"; "issuance"; "ibc"; "vesting"; "pricefeed"; "validatorvesting"; "auth"; "bank"; "gov"; "crisis"; "genutil";
   "transfer"; "params"; "authz"; "evmutil"; "council"; "da-signers"].

Definition OrderEndBlockers : list string :=
  ["crisis"; "gov"; "staking"; "evm"; "feemarket"; "pricefeed"; "capability"; "issuance"; "slashing"; "distribution";
   "bep3"; "committee"; "upgrade"; "evidence"; "vesting"; "ibc"; "validatorvesting"; "auth"; "bank"; "genutil";
   "transfer"; "params"; "authz"; "evmutil"; "mint"; "council"; "da-signers"].

Definition OrderInitGenesis : list string :=
  ["capability"; "auth"; "bank"; "distribution"; "staking"; "slashing"; "gov"; "mint"; "ibc"; "evidence"; "authz";
   "transfer"; "evm"; "feemarket"; "issuance"; "bep3"; "pricefeed"; "committee"; "evmutil"; "genutil"; "crisis";
   "vesting"; "params"; "upgrade"; "validatorvesting"; "council"; "da-signers"].

(** ** The module accounts *)
Definition mAccPerms : gmap string (list string) :=
  list_to_map
    [("fee_collector", []); ("distribution", []); ("bonded_tokens_pool", ["burner"; "staking"]);
     ("not_bonded_tokens_pool", ["burner"; "staking"]); ("gov", ["burner"]); ("transfer", ["minter"; "burner"]);
     ("evm", ["minter"; "burner"]); ("evmutil", ["minter"; "burner"]); ("issuance", ["minter"; "burner"]);
     ("bep3", ["burner"; "minter"]); ("mint", ["minter"])].

(** A copy of the permissions. *)
Definition GetMaccPerms : gmap string (list string) := mAccPerms.

(** ** A module and the part of the chain it works on *)
Class Part (C S : Type) : Type := { get : C -> S; put : S -> C -> C }.
Class PartLaws (C S : Type) `{Part C S} : Prop := {
  get_put s c : get (put s c) = s;
  put_get c : put (get c) c = c
}.

Definition on_part {C S : Type} `{Part C S} (f : S -> outcome S) (c : C) : outcome C :=
  let! s := f (get c) in Ok (put s c).

(** The stores of the modules are kept without the keepers they call. *)
Record Chain (B A W K : Type) : Type := mkChain {
  chBep3 : Bep3Keeper.State unit unit;
  chIssuance : Issuance.State unit unit;
  chEvmutil : EvmConvert.ConvState unit W;
  chPricefeed : PfState;
  chCouncil : Council.State unit;
  chDasigners : Dasigners.State unit;
  chBank : B;
  chAccounts : A;
  chStaking : K
}.
Arguments mkChain {B A W K}.
Arguments chBep3 {B A W K}.
Arguments chIssuance {B A W K}.
Arguments chEvmutil {B A W K}.
Arguments chPricefeed {B A W K}.
Arguments chCouncil {B A W K}.
Arguments chDasigners {B A W K}.
Arguments chBank {B A W K}.
Arguments chAccounts {B A W K}.
Arguments chStaking {B A W K}.

Definition rebase_bep3 {B A B' A'} (b : B') (a : A') (s : Bep3Keeper.State B A) : Bep3Keeper.State B' A' :=
  Bep3Keeper.mkState (Bep3Keeper.AtomicSwaps s) (Bep3Keeper.AtomicSwapByBlock s)
    (Bep3Keeper.AtomicSwapLongtermStorage s) (Bep3Keeper.AssetSupplies s) (Bep3Keeper.PreviousBlockTime s)
    (Bep3Keeper.params s) b a.
Definition rebase_issuance {B A B' A'} (b : B') (a : A') (s : Issuance.State B A) : Issuance.State B' A' :=
  Issuance.mkState (Issuance.Assets s) (Issuance.AssetSupplies s) (Issuance.PreviousBlockTime s) b a.
Definition rebase_evmutil {B B' W} (b : B') (s : EvmConvert.ConvState B W) : EvmConvert.ConvState B' W :=
  mkConv (cvParams s) (cvContracts s) (mkWorld (mkEvmState (evAccounts (wState (cvWorld s))) b) (wEvm (cvWorld s))).
Definition rebase_council {K K'} (k : K') (s : Council.State K) : Council.State K' :=
  Council.mkState (Council.councils s) (Council.votes s) (Council.voters s) (Council.params s)
    (Council.votingStartHeight s) (Council.votingPeriod s) (Council.currentCouncilID s) k.
Definition rebase_dasigners {K K'} (k : K') (s : Dasigners.State K) : Dasigners.State K' :=
  Dasigners.mkState (Dasigners.params s) (Dasigners.epochNumber s) (Dasigners.signers s) (Dasigners.epochQuorums s)
    (Dasigners.quorumCounts s) (Dasigners.registrations s) k.

Section Parts.
  Context {B A W K : Type}.
  Implicit Types c : Chain B A W K.

#[export] Instance bep3_part : Part (Chain B A W K) (Bep3Keeper.State B A) := {|
  get c := rebase_bep3 (chBank c) (chAccounts c) (chBep3 c);
  put s c := mkChain (rebase_bep3 tt tt s) (chIssuance c) (chEvmutil c) (chPricefeed c) (chCouncil c) (chDasigners c)
    (Bep3Keeper.bank s) (Bep3Keeper.accounts s) (chStaking c)
|}.
#[export] Instance issuance_part : Part (Chain B A W K) (Issuance.State B A) := {|
  get c := rebase_issuance (chBank c) (chAccounts c) (chIssuance c);
  put s c := mkChain (chBep3 c) (rebase_issuance tt tt s) (chEvmutil c) (chPricefeed c) (chCouncil c) (chDasigners c)
    (Issuance.bank s) (Issuance.accounts s) (chStaking c)
|}.
#[export] Instance evmutil_part : Part (Chain B A W K) (EvmConvert.ConvState B W) := {|
  get c := rebase_evmutil (chBank c) (chEvmutil c);
  put s c := mkChain (chBep3 c) (chIssuance c) (rebase_evmutil tt s) (chPricefeed c) (chCouncil c) (chDasigners c)
    (cv_bank s) (chAccounts c) (chStaking c)
|}.
#[export] Instance pricefeed_part : Part (Chain B A W K) PfState := {|
  get c := chPricefeed c;
  put s c := mkChain (chBep3 c) (chIssuance c) (chEvmutil c) s (chCouncil c) (chDasigners c)
    (chBank c) (chAccounts c) (chStaking c)
|}.
#[export] Instance council_part : Part (Chain B A W K) (Council.State K) := {|
  get c := rebase_council (chStaking c) (chCouncil c);
  put s c := mkChain (chBep3 c) (chIssuance c) (chEvmutil c) (chPricefeed c) (rebase_council tt s) (chDasigners c)
    (chBank c) (chAccounts c) (Council.staking s)
|}.
#[export] Instance dasigners_part : Part (Chain B A W K) (Dasigners.State K) := {|
  get c := rebase_dasigners (chStaking c) (chDasigners c);
  put s c := mkChain (chBep3 c) (chIssuance c) (chEvmutil c) (chPricefeed c) (chCouncil c) (rebase_dasigners tt s)
    (chBank c) (chAccounts c) (Dasigners.staking s)
|}.

#[export] Instance bep3_part_laws : PartLaws (Chain B A W K) (Bep3Keeper.State B A).
Proof. split; [by intros [] []|]. intros [s ????????]; simpl. by destruct s as [?????? [] []]. Qed.
#[export] Instance issuance_part_laws : PartLaws (Chain B A W K) (Issuance.State B A).
Proof. split; [by intros [] []|]. intros [? s ???????]; simpl. by destruct s as [??? [] []]. Qed.
#[export] Instance evmutil_part_laws : PartLaws (Chain B A W K) (EvmConvert.ConvState B W).
Proof. split; [by intros [?? [[] ?]] []|]. intros [?? s ??????]; simpl. by destruct s as [?? [[? []] ?]]. Qed.
#[export] Instance pricefeed_part_laws : PartLaws (Chain B A W K) PfState.
Proof. split; [done|by intros []]. Qed.
#[export] Instance council_part_laws : PartLaws (Chain B A W K) (Council.State K).
Proof. split; [by intros [] []|]. intros [???? s ????]; simpl. by destruct s as [??????? []]. Qed.
#[export] Instance dasigners_part_laws : PartLaws (Chain B A W K) (Dasigners.State K).
Proof. split; [by intros [] []|]. intros [????? s ???]; simpl. by destruct s as [?????? []]. Qed.
End Parts.

(** ** The modules of the SDK

    What the begin and end blockers of the modules that are not in the repository do, by
    the name of the module.  The end blocker of x/gov executes proposals, also those for
    committees: end blockers work on the whole state. *)
Class SdkModules (C : Type) : Type := {
  sdk_BeginBlock : string -> Ctx -> C -> outcome C;
  sdk_EndBlock : string -> Ctx -> Committee.State C -> outcome (Committee.State C);
  sdk_InitGenesis : string -> Ctx -> C -> outcome C;
  (** [app.upgradeKeeper.SetModuleVersionMap(ctx, app.mm.GetVersionMap())] *)
  SetModuleVersionMap : C -> C;
  (** [authtypes.NewModuleAddress] *)
  NewModuleAddress : string -> AccAddress;
  (** [ctx.ChainID()] *)
  ChainID : string
}.

Section App.
  Context {B A W K V : Type}.
  Context {cfg : SdkConfig} {str : GoStrings} {hash : TmHash} {dc : DecConfig} {pc : PriceConfig}
    {bk : BankKeeper B} {ak : AccountKeeper A} {auth : AuthKeeper A} {eth : EthConfig} {evm : EvmKeeper B W}
    {cenv : CouncilEnv K} {gk : Gnark} {denv : DaEnv} {sk : StakingKeeper K V}.
  Context {jd : JsonDecoder} {pk : ParamKeeper (Chain B A W K)} {env : ChainEnv (Chain B A W K)}
    {mods : SdkModules (Chain B A W K)}.

Abbreviation App := (Committee.State (Chain B A W K)).
Implicit Types s : App.

Definition ModuleAccountAddrs : gmap string bool :=
  list_to_map ((fun kv : string * list string => (AccAddress_String (NewModuleAddress kv.1), true)) <$> map_to_list mAccPerms).

Definition allowedMaccs : gmap string bool := ∅.
Definition loadBlockedMaccAddrs : gmap string bool :=
  map_imap (fun addr blocked => Some (if default false (allowedMaccs !! addr) then false else blocked)) ModuleAccountAddrs.

(** ** The begin and end blockers, as the modules' [module.go] gives them to the manager *)
Definition on_chain (f : Chain B A W K -> outcome (Chain B A W K)) s : outcome App :=
  let! c := f (World s) in Ok (Committee.set_world c s).

Definition bep3_BeginBlock (ctx : Ctx) s : outcome App := on_chain (on_part (Bep3Keeper.BeginBlocker ctx)) s.
(** The method of x/issuance has no body: [BeginBlocker] of its abci.go is not called. *)
Definition issuance_BeginBlock (ctx : Ctx) s : outcome App := Ok s.
Definition pricefeed_BeginBlock (ctx : Ctx) s : outcome App := Ok s.
Definition validatorvesting_BeginBlock (ctx : Ctx) s : outcome App := Ok s.
Definition committee_BeginBlock (ctx : Ctx) s : outcome App := Committee.BeginBlocker ctx s.
Definition evmutil_BeginBlock (ctx : Ctx) s : outcome App := Ok s.
Definition council_BeginBlock (ctx : Ctx) s : outcome App := on_chain (on_part (Council.BeginBlock ctx)) s.
Definition dasigners_BeginBlock (ctx : Ctx) s : outcome App := on_chain (on_part (Dasigners.BeginBlock ctx)) s.

Definition bep3_EndBlock (ctx : Ctx) s : outcome App := Ok s.
Definition issuance_EndBlock (ctx : Ctx) s : outcome App := Ok s.
Definition pricefeed_EndBlock (ctx : Ctx) s : outcome App := on_chain (on_part (Pricefeed.EndBlocker ctx)) s.
Definition validatorvesting_EndBlock (ctx : Ctx) s : outcome App := Ok s.
Definition committee_EndBlock (ctx : Ctx) s : outcome App := Ok s.
Definition evmutil_EndBlock (ctx : Ctx) s : outcome App := Ok s.
Definition council_EndBlock (ctx : Ctx) s : outcome App := Ok s.
Definition dasigners_EndBlock (ctx : Ctx) s : outcome App := Ok s.

Definition module_BeginBlock (ctx : Ctx) (name : string) s : outcome App :=
  if bool_decide (name = "bep3") then bep3_BeginBlock ctx s else
  if bool_decide (name = "issuance") then issuance_BeginBlock ctx s else
  if bool_decide (name = "pricefeed") then pricefeed_BeginBlock ctx s else
  if bool_decide (name = "validatorvesting") then validatorvesting_BeginBlock ctx s else
  if bool_decide (name = "committee") then committee_BeginBlock ctx s else
  if bool_decide (name = "evmutil") then evmutil_BeginBlock ctx s else
  if bool_decide (name = "council") then council_BeginBlock ctx s else
  if bool_decide (name = "da-signers") then dasigners_BeginBlock ctx s else
  on_chain (sdk_BeginBlock name ctx) s.
Definition module_EndBlock (ctx : Ctx) (name : string) s : outcome App :=
  if bool_decide (name = "bep3") then bep3_EndBlock ctx s else
  if bool_decide (name = "issuance") then issuance_EndBlock ctx s else
  if bool_decide (name = "pricefeed") then pricefeed_EndBlock ctx s else
  if bool_decide (name = "validatorvesting") then validatorvesting_EndBlock ctx s else
  if bool_decide (name = "committee") then committee_EndBlock ctx s else
  if bool_decide (name = "evmutil") then evmutil_EndBlock ctx s else
  if bool_decide (name = "council") then council_EndBlock ctx s else
  if bool_decide (name = "da-signers") then dasigners_EndBlock ctx s else
  sdk_EndBlock name ctx s.

(** [app.mm.BeginBlock] and [app.mm.EndBlock]: the manager calls the modules in order. *)
Definition BeginBlocker (ctx : Ctx) s : outcome App := ofold (module_BeginBlock ctx) OrderBeginBlockers s.
Definition EndBlocker (ctx : Ctx) s : outcome App := ofold (module_EndBlock ctx) OrderEndBlockers s.

(** ** InitChain

    The genesis of the application has a part for each module, already decoded; a module
    whose part is absent is skipped. *)
Record AppGenesis : Type := mkAppGenesis {
  gnBep3 : option Bep3Genesis.GenesisState;
  gnIssuance : option Issuance.GenesisState;
  gnEvmutil : option EvmConvert.GenesisState;
  gnPricefeed : option Pricefeed.GenesisState;
  gnCommittee : option Committee.GenesisState;
  gnCouncil : option Council.GenesisState;
  gnDasigners : option Dasigners.GenesisState
}.

Definition bep3_InitGenesis (gs : Bep3Genesis.GenesisState) s : outcome App :=
  on_chain (on_part (Bep3Genesis.InitGenesis gs)) s.
Definition issuance_InitGenesis (gs : Issuance.GenesisState) s : outcome App :=
  on_chain (on_part (Issuance.InitGenesis gs)) s.
(** [GetModuleAccount] creates the account of x/evmutil. *)
Definition evmutil_InitGenesis (gs : EvmConvert.GenesisState) s : outcome App :=
  let '(found, acc) := Issuance.GetModuleAccount EvmutilName (chAccounts (World s)) in
  let! c := on_part (EvmConvert.InitGenesis found gs) (World s) in
  Ok (Committee.set_world (mkChain (chBep3 c) (chIssuance c) (chEvmutil c) (chPricefeed c) (chCouncil c) (chDasigners c)
                             (chBank c) acc (chStaking c)) s).
Definition pricefeed_InitGenesis (ctx : Ctx) (gs : Pricefeed.GenesisState) s : outcome App :=
  on_chain (on_part (Pricefeed.InitGenesis ctx gs)) s.
Definition committee_InitGenesis (gs : Committee.GenesisState) s : outcome App := Committee.InitGenesis gs s.
Definition council_InitGenesis (gs : Council.GenesisState) s : outcome App :=
  on_chain (on_part (Council.InitGenesis gs)) s.
Definition dasigners_InitGenesis (gs : Dasigners.GenesisState) s : outcome App :=
  on_chain (on_part (Dasigners.InitGenesis gs)) s.
Definition validatorvesting_InitGenesis s : outcome App := Ok s.

Definition if_present {G} (g : option G) (f : G -> App -> outcome App) s : outcome App :=
  match g with Some g => f g s | None => Ok s end.
Definition module_InitGenesis (ctx : Ctx) (gn : AppGenesis) (name : string) s : outcome App :=
  if bool_decide (name = "bep3") then if_present (gnBep3 gn) bep3_InitGenesis s else
  if bool_decide (name = "issuance") then if_present (gnIssuance gn) issuance_InitGenesis s else
  if bool_decide (name = "evmutil") then if_present (gnEvmutil gn) evmutil_InitGenesis s else
  if bool_decide (name = "pricefeed") then if_present (gnPricefeed gn) (pricefeed_InitGenesis ctx) s else
  if bool_decide (name = "committee") then if_present (gnCommittee gn) committee_InitGenesis s else
  if bool_decide (name = "council") then if_present (gnCouncil gn) council_InitGenesis s else
  if bool_decide (name = "da-signers") then if_present (gnDasigners gn) dasigners_InitGenesis s else
  if bool_decide (name = "validatorvesting") then validatorvesting_InitGenesis s else
  on_chain (sdk_InitGenesis name ctx) s.
Definition InitChainer (ctx : Ctx) (gn : AppGenesis) s : outcome App :=
  let s := Committee.set_world (SetModuleVersionMap (World s)) s in
  ofold (module_InitGenesis ctx gn) OrderInitGenesis s.

(** ** Messages: [RegisterServices] of the modules *)
Inductive AppMsg : Type :=
| CreateSwap (msg : MsgCreateAtomicSwap)
| ClaimSwap (msg : MsgClaimAtomicSwap)
| RefundSwap (msg : MsgRefundAtomicSwap)
| IssuanceMsg (msg : IssuanceMsg.Msg)
| EvmutilMsg (msg : evmutil_msg)
| PostPriceMsg (msg : MsgPostPrice)
| SubmitProposalMsg (msg : MsgSubmitProposal)
| VoteMsg (msg : Committee.MsgVote)
| CouncilRegister (msg : MsgRegister)
| CouncilVote (msg : Council.MsgVote)
| RegisterSignerMsg (msg : MsgRegisterSigner)
| UpdateSocketMsg (msg : MsgUpdateSocket)
| RegisterNextEpochMsg (msg : MsgRegisterNextEpoch).

Definition deliver (ctx : Ctx) (m : AppMsg) s : outcome App :=
  match m with
  | CreateSwap msg => on_chain (on_part (msgServer_CreateAtomicSwap ModuleAccountAddrs ctx msg)) s
  | ClaimSwap msg => on_chain (on_part (msgServer_ClaimAtomicSwap ctx msg)) s
  | RefundSwap msg => on_chain (on_part (msgServer_RefundAtomicSwap ctx msg)) s
  | IssuanceMsg msg => on_chain (on_part (IssuanceMsg.msgServer msg)) s
  | EvmutilMsg msg => on_chain (on_part (EvmConvertMsg.handle msg)) s
  | PostPriceMsg msg => on_chain (on_part (Pricefeed.PostPrice ctx msg)) s
  | SubmitProposalMsg msg => let! '(_, s) := msgServer_SubmitProposal ctx msg s in Ok s
  | VoteMsg msg => msgServer_Vote ctx msg s
  | CouncilRegister msg => on_chain (on_part (msg_Register msg)) s
  | CouncilVote msg => on_chain (on_part (msg_Vote ctx msg)) s
  | RegisterSignerMsg msg => on_chain (on_part (RegisterSigner ChainID msg)) s
  | UpdateSocketMsg msg => on_chain (on_part (UpdateSocket msg)) s
  | RegisterNextEpochMsg msg => on_chain (on_part (RegisterNextEpoch ChainID msg)) s
  end.
End App.
