(* ===== verification/AppTheorems.v ===== *)
(** * app: the modules together

    Every run of the application is, seen from one module, a run of this module: its own
    operations, and activity of others that keeps to what the module assumes.  The
    invariants of the modules therefore hold over every interleaving of their messages and
    of whole blocks.  The wiring also shows what does not happen: no block runs the begin
    blocker of x/issuance. *)

From S2P Require Import Prelude Sdk SdkDec GoStd Bank Bep3Types Bep3Keeper Bep3Inv Bep3Safety Bep3Theorems Bep3Msg.
From S2P Require Import Issuance IssuanceTheorems IssuanceMsg Evmutil EvmConvert EvmConvertSpec EvmConvertMsg.
From S2P Require Import Pricefeed CommitteePerm Committee CommitteeTheorems CommitteeBlock CommitteeGov.
From S2P Require Import Council CouncilTheorems Bn254 Dasigners App.

(** ** The orders of the manager

    The manager refuses to start when an order forgets a module; each of the three lists
    every module once. *)
Lemma same_names (l k : list string) : bool_decide (NoDup l /\ NoDup k /\ (list_to_set l : gset string) = list_to_set k) = true -> l ≡ₚ k.
Proof.
  intros (Hl & Hk & E)%bool_decide_eq_true. apply NoDup_Permutation; [done|done|]. intros x.
  rewrite <- !(elem_of_list_to_set (C := gset string)), E. done.
Qed.
Lemma module_orders : OrderBeginBlockers ≡ₚ NewManager_modules /\ OrderEndBlockers ≡ₚ NewManager_modules
  /\ OrderInitGenesis ≡ₚ NewManager_modules.
Proof. split_and!; apply same_names; vm_compute; reflexivity. Qed.

(** ** Who takes coins out of the escrow of x/bep3 *)
Section Escrow.
  Context {cfg : SdkConfig} {sdk : SdkLaws} {B : Type} {bk : BankKeeper B} {laws : BankLaws B}.
  Implicit Types b : B.

Definition escrow_of (x : AccAddress) : Prop := GetModuleAddress Bep3Types.ModuleName = Some x.
Definition keeps_escrow b b' : Prop :=
  forall x d, escrow_of x -> Bank.GetBalance b x d <= Bank.GetBalance b' x d.

#[export] Instance keeps_escrow_preorder : PreOrder keeps_escrow.
Proof. split; [intros b x d _; lia|]. intros b1 b2 b3 H1 H2 x d Hx. specialize (H1 x d Hx). specialize (H2 x d Hx). lia. Qed.

(** The module accounts of the application have different addresses. *)
Definition module_account (m : string) : Prop := is_Some (mAccPerms !! m).
Definition module_addresses_differ : Prop :=
  forall m m' x, module_account m -> module_account m' ->
    GetModuleAddress m = Some x -> GetModuleAddress m' = Some x -> m = m'.
Definition other_account (m : string) : Prop := module_account m /\ m <> Bep3Types.ModuleName.
Lemma bep3_account : module_account Bep3Types.ModuleName. Proof. by eexists. Qed.
Lemma issuance_account : other_account Issuance.ModuleAccountName. Proof. split; [by eexists|discriminate]. Qed.
Lemma evmutil_module : other_account EvmutilName. Proof. split; [by eexists|discriminate]. Qed.

Lemma credit_nonneg (x y : AccAddress) c cs d : NewCoins1 c = Ok cs -> 0 <= credit x y cs d.
Proof.
  intros [Hn Ha]%NewCoins1_Ok. unfold credit. case_bool_decide; [|done]. rewrite Ha. simpl.
  case_bool_decide; simpl; lia.
Qed.
Lemma credit_other (x y : AccAddress) cs d : x <> y -> credit x y cs d = 0.
Proof. intros H. unfold credit. by rewrite bool_decide_eq_false_2. Qed.

Lemma moved_keeps x y c cs b b' : NewCoins1 c = Ok cs -> ~ escrow_of x -> moved x y cs b b' -> keeps_escrow b b'.
Proof.
  intros Hc Hx (Hm & _ & _) z d Hz. rewrite Hm. pose proof (credit_nonneg y z c cs d Hc).
  rewrite (credit_other x z); [lia|]. by intros ->.
Qed.

Lemma account_to_module_keeps x m c cs b b' : NewCoins1 c = Ok cs -> SendCoinsFromAccountToModule x m cs b = Ok b' ->
  ~ escrow_of x -> keeps_escrow b b'.
Proof. intros Hc (y & _ & Hm)%send_to_module Hx. by eapply moved_keeps. Qed.

Context (distinct : module_addresses_differ).
Lemma module_not_escrow m x : other_account m -> GetModuleAddress m = Some x -> ~ escrow_of x.
Proof. intros [Ha Hm] Hx He. apply Hm. by eapply distinct; [|apply bep3_account|..]. Qed.

Lemma module_to_account_keeps x m c cs b b' : NewCoins1 c = Ok cs -> SendCoinsFromModuleToAccount m x cs b = Ok b' ->
  other_account m -> keeps_escrow b b'.
Proof. intros Hc (y & Hy & Hmv)%send_from_module Hm. eapply moved_keeps; try done. by eapply module_not_escrow. Qed.

Lemma mint_keeps m c cs b b' : NewCoins1 c = Ok cs -> MintCoins m cs b = Ok b' -> keeps_escrow b b'.
Proof.
  intros Hc (x & _ & Hb & _)%mint_effect z d _. rewrite Hb. pose proof (credit_nonneg x z c cs d Hc). lia.
Qed.

Lemma burn_keeps m c cs b b' : NewCoins1 c = Ok cs -> BurnCoins m cs b = Ok b' ->
  other_account m -> keeps_escrow b b'.
Proof.
  intros Hc (x & Hx & Hb & _)%burn_effect Hm z d Hz. rewrite Hb, (credit_other x z); [lia|].
  intros ->. by eapply module_not_escrow.
Qed.

Local Hint Resolve issuance_account evmutil_module : core.

(** *** x/issuance *)
Context {A : Type} {auth : AuthKeeper A}.
Definition iss_actor (o : IssuanceTheorems.op) : option AccAddress :=
  match o with OpRedeem _ x => Some x | _ => None end.
Definition no_block (o : IssuanceTheorems.op) : Prop :=
  match o with IssuanceTheorems.OpBeginBlock _ => False | _ => True end.

Lemma issuance_keeps o (s s' : Issuance.State B A) : no_block o -> (forall x, iss_actor o = Some x -> ~ escrow_of x) ->
  IssuanceTheorems.exec o s = Ok s' -> keeps_escrow (Issuance.bank s) (Issuance.bank s').
Proof.
  intros Hn Ha Hx. destruct o as [c x y|c x|d x y|d x y|x d st|ctx]; simpl in *; [| | | | |done].
  - unfold IssueTokens in Hx. go_inv Hx.
    assert (Issuance.bank r = Issuance.bank s) as <-
      by (clear Hx; go_inv Hcall; [by apply IncrementCurrent_frame in Hcall as (_ & ? & _)|by subst]).
    by_call iss_bank_call_Ok as (b2 & Hsend & ->). by_call iss_bank_call_Ok as (b1 & Hmint & ->). simpl in *.
    etransitivity; [by eapply mint_keeps|by eapply module_to_account_keeps].
  - unfold RedeemTokens in Hx. go_inv Hx.
    by_call iss_bank_call_Ok as (b2 & Hburn & ->). by_call iss_bank_call_Ok as (b1 & Hsend & ->). simpl in *.
    etransitivity; [eapply account_to_module_keeps; [done|done|by apply Ha]|by eapply burn_keeps].
  - unfold BlockAddress in Hx. go_inv Hx. by apply SetAsset_Ok in Hx as [_ ->].
  - unfold UnblockAddress in Hx. go_inv Hx. by apply SetAsset_Ok in Hx as [_ ->].
  - unfold SetPauseStatus in Hx. go_inv Hx; [by subst|]. by apply SetAsset_Ok in Hx as [_ ->].
Qed.

(** *** x/evmutil *)
Context {eth : EthConfig} {W : Type} {evm : EvmKeeper B W}.

(** A message of the EVM does not take coins from the escrow, which has no code, unless it
    comes from there. *)
Definition evm_keeps : Prop := forall m x res x', ApplyMessage m x = Ok (res, x') -> ~ escrow_of (mFrom m) ->
  keeps_escrow (evBank (wState (W := W) x)) (evBank (wState x')).

Context (ekeeps : evm_keeps) (evm_account : ~ escrow_of ModuleEVMAddress).
Implicit Types s : ConvState B W.

Lemma CallEVMWithData_keeps from c data s res s' : CallEVMWithData from c data s = Ok (res, s') ->
  ~ escrow_of from -> keeps_escrow (cv_bank s) (cv_bank s').
Proof.
  intros Hx Hf. unfold CallEVMWithData in Hx. go_inv Hx. simplify_eq. by eapply ekeeps.
Qed.

Lemma CallEVM_keeps abi from c method args s res s' : CallEVM abi from c method args s = Ok (res, s') ->
  ~ escrow_of from -> keeps_escrow (cv_bank s) (cv_bank s').
Proof. intros (data & _ & Hx)%obind_Ok Hf. by eapply CallEVMWithData_keeps. Qed.

Lemma QueryBalance_keeps c a s z s' :
  rewrap ErrEVMCall (QueryERC20BalanceOf c a s) = Ok (z, s') -> keeps_escrow (cv_bank s) (cv_bank s').
Proof. rewrite rewrap_Ok. intros Hx. unfold QueryERC20BalanceOf in Hx. go_inv Hx. simplify_eq. by eapply CallEVM_keeps. Qed.

Lemma conv_bank_Ok f s s' : conv_bank f s = Ok s' -> f (cv_bank s) = Ok (cv_bank s').
Proof. intros (b & Hb & [= <-])%obind_Ok. done. Qed.

Lemma GetOrDeploy_keeps t s c s' : GetOrDeployCosmosCoinERC20Contract t s = Ok (c, s') -> keeps_escrow (cv_bank s) (cv_bank s').
Proof.
  unfold GetOrDeployCosmosCoinERC20Contract. destruct (GetDeployedCosmosCoinContract s _) as [? []]; [by intros [= _ ->]|].
  intros ([c1 s1] & Hd & Hx)%obind_Ok. apply obind_Ok in Hx as (s2 & Hset & [= _ <-]).
  unfold DeployZgChainWrappedCosmosCoinERC20Contract in Hd. go_inv Hd. simplify_eq. rewrite rewrap_Ok in *.
  unfold SetDeployedCosmosCoinContract in Hset. go_inv Hset. subst. by apply CallEVMWithData_keeps in Hcall2.
Qed.

Lemma Lock_keeps p n x s s' : LockERC20Tokens p n x s = Ok s' -> ~ escrow_of x -> keeps_escrow (cv_bank s) (cv_bank s').
Proof.
  intros H Hx. unfold LockERC20Tokens in H. go_inv H. simplify_eq.
  etransitivity; [by eapply QueryBalance_keeps|]. etransitivity; [by eapply CallEVM_keeps|by eapply QueryBalance_keeps].
Qed.
Lemma Unlock_keeps p n x s s' : UnlockERC20Tokens p n x s = Ok s' -> keeps_escrow (cv_bank s) (cv_bank s').
Proof.
  intros H. unfold UnlockERC20Tokens in H. go_inv H. simplify_eq.
  etransitivity; [by eapply QueryBalance_keeps|]. etransitivity; [by eapply CallEVM_keeps|by eapply QueryBalance_keeps].
Qed.

Lemma BurnPair_keeps p c x s s' : BurnConversionPairCoin p c x s = Ok s' -> ~ escrow_of x -> keeps_escrow (cv_bank s) (cv_bank s').
Proof.
  intros H Hx. unfold BurnConversionPairCoin in H. go_inv H. apply conv_bank_Ok in Hcall0. apply conv_bank_Ok in H.
  etransitivity; [by eapply account_to_module_keeps|by eapply burn_keeps].
Qed.
Lemma MintPair_keeps p n x s c s' : MintConversionPairCoin p n x s = Ok (c, s') -> keeps_escrow (cv_bank s) (cv_bank s').
Proof.
  intros H. unfold MintConversionPairCoin in H. go_inv H. simplify_eq. apply conv_bank_Ok in Hcall2. apply conv_bank_Ok in Hcall3.
  etransitivity; [by eapply mint_keeps|by eapply module_to_account_keeps].
Qed.

Lemma conv_keeps o s s' : ~ escrow_of (payer o) -> conv_exec o s = Ok s' -> keeps_escrow (cv_bank s) (cv_bank s').
Proof.
  intros Hp Hx. destruct o as [x y c|x y c n|x y c|x y c]; simpl in *.
  - unfold ConvertCoinToERC20 in Hx. go_inv Hx. etransitivity; [by eapply BurnPair_keeps|by eapply Unlock_keeps].
  - unfold ConvertERC20ToCoin in Hx. go_inv Hx. simplify_eq. etransitivity; [by eapply Lock_keeps|by eapply MintPair_keeps].
  - unfold ConvertCosmosCoinToERC20, MintERC20 in Hx. go_inv Hx. simplify_eq. apply conv_bank_Ok in Hcall0.
    etransitivity; [by eapply account_to_module_keeps|]. etransitivity; [by eapply GetOrDeploy_keeps|by eapply CallEVM_keeps].
  - unfold ConvertCosmosCoinFromERC20, BurnERC20 in Hx. go_inv Hx. go_inv Hcall0. simplify_eq. apply conv_bank_Ok in Hx.
    etransitivity; [by eapply QueryBalance_keeps|]. etransitivity; [by eapply CallEVM_keeps|by eapply module_to_account_keeps].
Qed.
End Escrow.

(** ** Runs of the application *)
Section Runs.
  Context {B A W K V : Type}.
  Context {cfg : SdkConfig} {sdk : SdkLaws} {b32 : Bech32Laws} {str : GoStrings} {hash : TmHash}
    {dc : DecConfig} {dl : DecLaws} {pc : PriceConfig}
    {bk : BankKeeper B} {bank_laws : BankLaws B} {ak : AccountKeeper A} {auth : AuthKeeper A} {eth : EthConfig}
    {evm : EvmKeeper B W} {cenv : CouncilEnv K} {gk : Gnark} {denv : DaEnv} {sk : StakingKeeper K V}.
  Context {jd : JsonDecoder} {pk : ParamKeeper (Chain B A W K)} {env : ChainEnv (Chain B A W K)}
    {chain_laws : ChainLaws (Chain B A W K)} {mods : SdkModules (Chain B A W K)}.
  Implicit Types c : Chain B A W K.
  Abbreviation AppState := (Committee.State (Chain B A W K)).
  Implicit Types s : AppState.

(** Activity of the modules of the SDK and of the EVM.  It does not write to the stores of
    x/bep3, x/issuance, x/pricefeed and x/council, and takes no coins out of the escrow. *)
Record other c c' : Prop := {
  ot_bep3 : chBep3 c' = chBep3 c;
  ot_issuance : chIssuance c' = chIssuance c;
  ot_pricefeed : chPricefeed c' = chPricefeed c;
  ot_council : chCouncil c' = chCouncil c;
  ot_bank : keeps_escrow (chBank c) (chBank c')
}.

(** Both routers of app.go carry the handler of parameter changes: for the four modules with
    a parameter subspace it stores any value that the module's validation accepts. *)
Inductive ParamChange : Type :=
| ChangeBep3 (p : Bep3Types.Params)
| ChangeIssuance (assets : list Asset)
| ChangeEvmutil (p : EvmConvert.Params)
| ChangePricefeed (markets : list Market).
Definition change_params (p : ParamChange) c : outcome (Chain B A W K) :=
  match p with
  | ChangeBep3 p => on_part (Bep3Keeper.SetParams p) c
  | ChangeIssuance assets => on_part (Issuance.SetParams assets) c
  | ChangeEvmutil p => on_part (EvmConvert.SetParams p) c
  | ChangePricefeed markets => on_part (Pricefeed.SetParams markets) c
  end.
(** The limits are values of [sdk.Int]. *)
Definition change_u256 (p : ParamChange) : Prop :=
  match p with ChangeBep3 p => Forall (fun a => Bep3Types.Limit (apSupplyLimit a) < 2 ^ 256) (AssetParams p) | _ => True end.
Definition param_change c c' : Prop := exists p, change_u256 p /\ change_params p c = Ok c'.

(** What happens outside of the messages and blockers of the modules. *)
Definition activity c c' : Prop := other c c' \/ param_change c c'.

(** x/gov also passes proposals about committees. *)
Inductive gov_step (act : Chain B A W K -> Chain B A W K -> Prop) : AppState -> AppState -> Prop :=
| gov_chain s c : act (World s) c -> gov_step act s (Committee.set_world c s)
| gov_committee content s s' : content_u64 content -> Committee.ProposalHandler content s = Ok s' -> gov_step act s s'.

(** What the run of the application relies on: module addresses are different hashes, and
    whatever the blockers of the SDK's modules, the proposals of governance and of the
    committees and the EVM do is activity [act]. *)
Class AppLaws (act : Chain B A W K -> Chain B A W K -> Prop) : Prop := {
  act_sound c c' : act c c' -> activity c c';
  addresses_differ : module_addresses_differ (B := B);
  begin_act n ctx c c' : sdk_BeginBlock n ctx c = Ok c' -> rtc act c c';
  end_act n ctx s s' : sdk_EndBlock n ctx s = Ok s' -> rtc (gov_step act) s s';
  handler_act r h ctx p c c' : GetRoute r = Some h -> h ctx p c = Ok c' -> rtc act c c';
  messages_keep : evm_keeps (B := B) (W := W);
  evm_not_escrow : ~ escrow_of (bk := bk) ModuleEVMAddress
}.

(** Messages that reach their handler: they passed [ValidateBasic], their identifiers are
    uint64, and the escrow account, which has no key, has not signed them. *)
Definition admissible (m : AppMsg) s : Prop :=
  match m with
  | CreateSwap msg => forall x, AccAddressFromBech32 (mcFrom msg) = Ok x -> ~ escrow_of x
  | IssuanceMsg msg => forall x, AccAddressFromBech32 (msg_Sender msg) = Ok x -> ~ escrow_of x
  | EvmutilMsg msg => EvmConvertMsg.ValidateBasic msg = Ok tt
      /\ forall x, EvmConvertMsg.GetSigners msg = Ok [x] -> ~ escrow_of x
  | SubmitProposalMsg msg => MsgSubmitProposal_ValidateBasic msg = Ok tt /\ is_u64 (msCommitteeID msg)
      /\ NextProposalID s <> Some (2 ^ 64 - 1)
  | VoteMsg msg => Committee.MsgVote_ValidateBasic msg = Ok tt /\ is_u64 (mvProposalID msg)
  | CouncilVote msg => is_u64 (mvCouncilID msg)
  | _ => True
  end.

Inductive app_step (act : Chain B A W K -> Chain B A W K -> Prop) : AppState -> AppState -> Prop :=
| app_begin ctx s s' : is_i64 (BlockHeight ctx) -> App.BeginBlocker ctx s = Ok s' -> app_step act s s'
| app_end ctx s s' : App.EndBlocker ctx s = Ok s' -> app_step act s s'
| app_msg ctx m s s' : is_i64 (BlockHeight ctx) -> admissible m s -> deliver ctx m s = Ok s' -> app_step act s s'
| app_gov s s' : gov_step act s s' -> app_step act s s'.

(** The steps of x/issuance without its begin blocker: its messages, changes of the bank and
    the accounts, and parameters set by governance. *)
Inductive live : Issuance.State B A -> Issuance.State B A -> Prop :=
| live_op o t t' : no_block o -> IssuanceTheorems.exec o t = Ok t' -> live t t'
| live_env b acc t : live t (rebase_issuance b acc t)
| live_params assets t t' : Issuance.SetParams assets t = Ok t' -> live t t'.

(** *** What each module sees of a change of the chain *)
Record moves c c' : Prop := {
  mv_bep3 : rtc (Bep3Theorems.step ModuleAccountAddrs) (get c) (get c');
  mv_issuance : rtc live (get c) (get c');
  mv_council : rtc council_step (get c) (get c')
}.
#[export] Instance moves_preorder : PreOrder moves.
Proof. split; [intros c; split; reflexivity|]. intros c1 c2 c3 [] []. split; by etransitivity. Qed.

Lemma bep3_env c c' : chBep3 c' = chBep3 c -> keeps_escrow (chBank c) (chBank c') ->
  rtc (Bep3Theorems.step ModuleAccountAddrs) (get c) (get c').
Proof.
  intros E Hb. apply rtc_once.
  replace (get c') with (with_accounts (chAccounts c') (with_bank (chBank c') (get c : Bep3Keeper.State B A)))
    by (simpl; by rewrite E).
  apply Bep3Theorems.step_env. intros x d Hx. by apply Hb.
Qed.
Lemma issuance_env c c' : chIssuance c' = chIssuance c -> rtc live (get c) (get c').
Proof.
  intros E. apply rtc_once.
  replace (get c') with (rebase_issuance (chBank c') (chAccounts c') (get c : Issuance.State B A)) by (simpl; by rewrite E).
  apply live_env.
Qed.
Lemma council_env c c' : chCouncil c' = chCouncil c -> rtc council_step (get c) (get c').
Proof.
  intros E. apply rtc_once.
  replace (get c') with (rebase_council (chStaking c') (get c : Council.State K)) by (simpl; by rewrite E).
  apply step_staking.
Qed.

Lemma other_moves c c' : other c c' -> moves c c'.
Proof. intros []. split; [by apply bep3_env|by apply issuance_env|by apply council_env]. Qed.
Lemma bep3_moves (t : Bep3Keeper.State B A) c : Bep3Theorems.step ModuleAccountAddrs (get c) t -> moves c (put t c).
Proof. intros Ht. split; [rewrite get_put; by apply rtc_once|by apply issuance_env|by apply council_env]. Qed.
Lemma issuance_moves (t : Issuance.State B A) c : live (get c) t -> keeps_escrow (chBank c) (Issuance.bank t) -> moves c (put t c).
Proof. intros Ht Hb. split; [by apply bep3_env|rewrite get_put; by apply rtc_once|by apply council_env]. Qed.
Lemma council_moves (t : Council.State K) c : council_step (get c) t -> moves c (put t c).
Proof. intros Ht. split; [by apply bep3_env|by apply issuance_env|rewrite get_put; by apply rtc_once]. Qed.
Lemma pricefeed_moves (t : PfState) c : moves c (put t c).
Proof. split; [by apply bep3_env|by apply issuance_env|by apply council_env]. Qed.
Lemma dasigners_moves (t : Dasigners.State K) c : moves c (put t c).
Proof. split; [by apply bep3_env|by apply issuance_env|by apply council_env]. Qed.
Lemma evmutil_moves (t : ConvState B W) c : keeps_escrow (chBank c) (cv_bank t) -> moves c (put t c).
Proof. split; [by apply bep3_env|by apply issuance_env|by apply council_env]. Qed.

Lemma params_bank p (t t' : ConvState B W) : EvmConvert.SetParams p t = Ok t' -> cv_bank t' = cv_bank t.
Proof. intros (_ & _ & (_ & _ & [= <-])%obind_Ok)%obind_Ok. done. Qed.

Lemma on_part_Ok {S} `{Part (Chain B A W K) S} (f : S -> outcome S) c c' :
  on_part f c = Ok c' -> exists t, f (get c) = Ok t /\ c' = put t c.
Proof. intros (t & Ht & [= <-])%obind_Ok. eauto. Qed.

Lemma param_moves c c' : param_change c c' -> moves c c'.
Proof.
  intros ([p|assets|p|markets] & Hu & (t & Ht & ->)%on_part_Ok).
  - apply bep3_moves. by eapply Bep3Theorems.step_params.
  - apply issuance_moves; [by eapply live_params|]. unfold Issuance.SetParams in Ht.
    destruct (ValidateAssets assets); [|done..]. by injection Ht as <-.
  - apply evmutil_moves. by rewrite (params_bank _ _ _ Ht).
  - apply pricefeed_moves.
Qed.
Lemma activity_moves c c' : activity c c' -> moves c c'.
Proof. intros [H|H]; [by apply other_moves|by apply param_moves]. Qed.

(** *** Messages *)
Lemma bep3_op_moves ctx o c c' : is_i64 (BlockHeight ctx) -> signed_by_user o ->
  on_part (Bep3Theorems.exec ModuleAccountAddrs ctx o) c = Ok c' -> moves c c'.
Proof. intros Hh Hu (t & Ht & ->)%on_part_Ok. apply bep3_moves. by eapply Bep3Theorems.step_op. Qed.

Lemma issuance_msg_exec msg (t t' : Issuance.State B A) : IssuanceMsg.msgServer msg t = Ok t' ->
  exists o, no_block o /\ IssuanceTheorems.exec o t = Ok t'
  /\ forall x, iss_actor o = Some x -> AccAddressFromBech32 (msg_Sender msg) = Ok x.
Proof.
  intros Hx. destruct msg as [x c y|x c|x d y|x d y|x d st]; simpl in Hx; go_inv Hx.
  - by exists (OpIssue c r r0).
  - exists (OpRedeem c r). split_and!; [done|done|by intros ? [= <-]].
  - by exists (OpBlock d r r0).
  - by exists (OpUnblock d r r0).
  - by exists (OpPause r d st).
Qed.

Lemma rtc_preorder {S} (Q R : S -> S -> Prop) `{!PreOrder R} x y : (forall a b, Q a b -> R a b) -> rtc Q x y -> R x y.
Proof. intros HQ. induction 1 as [|a b d H _ IH]; [done|]. etransitivity; [by apply HQ|exact IH]. Qed.

Section Laws.
  Context {act : Chain B A W K -> Chain B A W K -> Prop} {laws : AppLaws act}.

Lemma acts_move c c' : rtc act c c' -> moves c c'.
Proof. apply rtc_preorder; [apply _|]. intros a b H. by apply activity_moves, act_sound. Qed.

Lemma issuance_msg_moves msg c c' : (forall x, AccAddressFromBech32 (msg_Sender msg) = Ok x -> ~ escrow_of x) ->
  on_part (IssuanceMsg.msgServer msg) c = Ok c' -> moves c c'.
Proof.
  intros Hs (t & Ht & ->)%on_part_Ok. apply issuance_msg_exec in Ht as (o & Hn & Hx & Ha).
  apply issuance_moves; [by econstructor|]. refine (issuance_keeps addresses_differ o (get c) t Hn _ Hx); auto.
Qed.

Lemma evmutil_msg_moves msg c c' : EvmConvertMsg.ValidateBasic msg = Ok tt ->
  (forall x, EvmConvertMsg.GetSigners msg = Ok [x] -> ~ escrow_of x) ->
  on_part (EvmConvertMsg.handle msg) c = Ok c' -> moves c c'.
Proof.
  intros Hv Hs (t & Ht & ->)%on_part_Ok. destruct (signer_pays msg Hv) as (o & Ho & _ & Hh). rewrite Hh in Ht.
  apply evmutil_moves. refine (conv_keeps addresses_differ messages_keep evm_not_escrow o (get c) t _ Ht); auto.
Qed.

(** *** The committees act on the chain through the handlers only *)
Lemma close_world p o s s' : Committee.CloseProposal p o s = Ok s' -> World s' = World s.
Proof.
  intros (tally & _ & [= <-])%obind_Ok. simpl. unfold DeleteProposalAndVotes.
  apply (DeleteVotes_frame (GetVotesByProposal s (prID p)) (DeleteProposal (prID p) s)).
Qed.
Lemma close_all_world l s s' : close_all l s = Ok s' -> World s' = World s.
Proof.
  intros Hx. refine (ofold_inv (fun t => World t = World s) _ l s s' _ _ Hx); [|done].
  intros p s1 s2 _ E Hc. by rewrite (close_world _ _ _ _ Hc).
Qed.
Lemma gov_world content s s' : Committee.ProposalHandler content s = Ok s' -> World s' = World s.
Proof.
  destruct content as [| | |t d k|t d i|]; simpl; try done; intros Hx.
  - unfold handleCommitteeChangeProposal in Hx. go_inv Hx. subst. by apply close_all_world in Hcall.
  - unfold handleCommitteeDeleteProposal in Hx. go_inv Hx. subst. by apply close_all_world in Hcall.
Qed.

(** *** From the chain to the application

    A preorder on chains that the handlers of proposals, the blockers of the modules and
    the modules of the SDK follow is followed by whole blocks. *)
Section Lift.
  Context (R : Chain B A W K -> Chain B A W K -> Prop) `{!PreOrder R}.
  Context (R_handler : forall r h ctx p c c', GetRoute r = Some h -> h ctx p c = Ok c' -> R c c').
Definition along (f : Chain B A W K -> outcome (Chain B A W K)) : Prop := forall c c', f c = Ok c' -> R c c'.

Lemma on_chain_lifts f s s' : along f -> on_chain f s = Ok s' -> R (World s) (World s').
Proof. intros Hf (c & Hc & [= <-])%obind_Ok. by apply Hf. Qed.

Lemma enact_lifts ctx p s o s' : attemptEnactProposal ctx p s = Ok (o, s') -> R (World s) (World s').
Proof.
  unfold attemptEnactProposal. destruct (enactProposal ctx p s) as [s1| |] eqn:Hx; [|by intros [= _ <-]|done].
  intros [= _ <-]. unfold enactProposal in Hx. go_inv Hx. subst. simpl. by eapply R_handler.
Qed.

Lemma process_lifts ctx p s s' : process_proposal ctx p s = Ok s' -> R (World s) (World s').
Proof.
  intros Hx. unfold process_proposal in Hx. go_inv Hx; try (by subst).
  - apply close_world in Hx as ->. by eapply enact_lifts.
  - apply close_world in Hx as ->. go_inv Hcall0; [by eapply enact_lifts|by simplify_eq].
  - by apply close_world in Hx as ->.
Qed.

Lemma committee_block_lifts ctx s s' : Committee.BeginBlocker ctx s = Ok s' -> R (World s) (World s').
Proof.
  intros Hx. refine (ofold_inv (fun t => R (World s) (World t)) _ _ s s' _ _ Hx); [|done].
  intros p s1 s2 _ H1 H2. etransitivity; [exact H1|by eapply process_lifts].
Qed.

Lemma module_begin_lifts ctx n s s' :
  along (on_part (Bep3Keeper.BeginBlocker ctx)) -> along (on_part (Council.BeginBlock ctx)) ->
  along (on_part (Dasigners.BeginBlock ctx)) -> (forall n, along (sdk_BeginBlock n ctx)) ->
  module_BeginBlock ctx n s = Ok s' -> R (World s) (World s').
Proof.
  intros H1 H2 H3 H4 Hx. unfold module_BeginBlock in Hx. repeat case_bool_decide; try (by injection Hx as <-).
  - exact (on_chain_lifts _ _ _ H1 Hx).
  - by eapply committee_block_lifts.
  - exact (on_chain_lifts _ _ _ H2 Hx).
  - exact (on_chain_lifts _ _ _ H3 Hx).
  - exact (on_chain_lifts _ _ _ (H4 _) Hx).
Qed.

Lemma module_end_lifts ctx n s s' :
  along (on_part (Pricefeed.EndBlocker ctx)) ->
  (forall n t t', sdk_EndBlock n ctx t = Ok t' -> R (World t) (World t')) ->
  module_EndBlock ctx n s = Ok s' -> R (World s) (World s').
Proof.
  intros H1 H2 Hx. unfold module_EndBlock in Hx. repeat case_bool_decide; try (by injection Hx as <-).
  - exact (on_chain_lifts _ _ _ H1 Hx).
  - by eapply H2.
Qed.
End Lift.

(** *** The whole application *)
Record advances s s' : Prop := {
  ad_chain : moves (World s) (World s');
  ad_committee : rtc ct_step s s'
}.
#[export] Instance advances_preorder : PreOrder advances.
Proof. split; [intros s; split; reflexivity|]. intros s1 s2 s3 [] []. split; by etransitivity. Qed.

Lemma on_chain_advances f s s' : (forall c c', f c = Ok c' -> moves c c') -> on_chain f s = Ok s' -> advances s s'.
Proof. intros Hf (c & Hc & [= <-])%obind_Ok. split; [by apply Hf|apply rtc_once, step_world]. Qed.

Lemma gov_advances s s' : gov_step act s s' -> advances s s'.
Proof.
  intros [t c Hc|content t t' Hu Hx].
  - split; [by apply activity_moves, act_sound|apply rtc_once, step_world].
  - split; [by rewrite (gov_world _ _ _ Hx)|]. eapply rtc_once, CommitteeGov.step_gov; eauto.
Qed.
Lemma end_advances n ctx s s' : sdk_EndBlock n ctx s = Ok s' -> advances s s'.
Proof. intros Hx%end_act. revert Hx. apply rtc_preorder; [apply _|apply gov_advances]. Qed.

Lemma on_chain_committee f s s' : on_chain f s = Ok s' -> rtc ct_step s s'.
Proof. intros (c & Hc & [= <-])%obind_Ok. apply rtc_once, step_world. Qed.

Lemma module_begin_advances ctx n s s' : is_i64 (BlockHeight ctx) -> module_BeginBlock ctx n s = Ok s' -> advances s s'.
Proof.
  intros Hh Hx. split.
  - refine (module_begin_lifts moves _ ctx n s s' _ _ _ _ Hx).
    + intros *. intros Hr Hc. by eapply acts_move, handler_act.
    + intros c c'. by apply (bep3_op_moves ctx Bep3Theorems.OpBeginBlock).
    + intros c c' (t & Ht & ->)%on_part_Ok. by eapply council_moves, CouncilTheorems.step_block.
    + intros c c' (t & Ht & ->)%on_part_Ok. apply dasigners_moves.
    + intros m c c' Hc. by eapply acts_move, begin_act.
  - unfold module_BeginBlock in Hx. repeat case_bool_decide; try (by injection Hx as <-); try by eapply on_chain_committee.
    by eapply rtc_once, CommitteeGov.step_block.
Qed.

Lemma module_end_advances ctx n s s' : module_EndBlock ctx n s = Ok s' -> advances s s'.
Proof.
  intros Hx. split.
  - refine (module_end_lifts moves ctx n s s' _ _ Hx).
    + intros c c' (t & Ht & ->)%on_part_Ok. apply pricefeed_moves.
    + intros m t t' Hc. apply (end_advances _ _ _ _ Hc).
  - unfold module_EndBlock in Hx. repeat case_bool_decide; try (by injection Hx as <-); [by eapply on_chain_committee|].
    apply (end_advances _ _ _ _ Hx).
Qed.

Lemma blockers_advance (f : string -> AppState -> outcome AppState) l s s' :
  (forall n t t', f n t = Ok t' -> advances t t') -> ofold f l s = Ok s' -> advances s s'.
Proof.
  intros Hf Hx. refine (ofold_inv (advances s) f l s s' _ _ Hx); [|done].
  intros n s1 s2 _ H1 H2. etransitivity; [exact H1|by eapply Hf].
Qed.

Lemma submit_world ctx msg s i s' : msgServer_SubmitProposal ctx msg s = Ok (i, s') -> World s' = World s.
Proof.
  intros Hx. unfold msgServer_SubmitProposal, SubmitProposal in Hx. go_inv Hx.
  unfold StoreNewProposal in Hx. go_inv Hx. simplify_eq. unfold IncrementNextProposalID in Hcall3. go_inv Hcall3. by simplify_eq.
Qed.

Lemma deliver_advances ctx m s s' : is_i64 (BlockHeight ctx) -> admissible m s -> deliver ctx m s = Ok s' -> advances s s'.
Proof.
  intros Hh Ha Hx. destruct m as [m|m|m|m|m|m|m|m|m|m|m|m|m]; simpl in Ha, Hx;
    try (eapply on_chain_advances; [|exact Hx]; intros c c' Hc).
  - apply on_part_Ok in Hc as (t & Ht & ->). unfold msgServer_CreateAtomicSwap in Ht. go_inv Ht.
    apply bep3_moves. eapply (Bep3Theorems.step_op _ ctx (OpCreate _ _ _ _ _ _ _ _ _)); [done|by apply Ha|exact Ht].
  - apply on_part_Ok in Hc as (t & Ht & ->). unfold msgServer_ClaimAtomicSwap in Ht. go_inv Ht.
    apply bep3_moves. by eapply (Bep3Theorems.step_op _ ctx (OpClaim _ _ _)).
  - apply on_part_Ok in Hc as (t & Ht & ->). unfold msgServer_RefundAtomicSwap in Ht. go_inv Ht.
    apply bep3_moves. by eapply (Bep3Theorems.step_op _ ctx (OpRefund _ _)).
  - by eapply issuance_msg_moves.
  - destruct Ha. by eapply evmutil_msg_moves.
  - apply on_part_Ok in Hc as (t & Ht & ->). apply pricefeed_moves.
  - destruct Ha as (Hv & Hu & Hn). apply obind_Ok in Hx as ([i s1] & Hx & [= <-]). split.
    + by rewrite (submit_world _ _ _ _ _ Hx).
    + eapply rtc_once, step_submit; eauto.
  - destruct Ha as (Hv & Hu). split.
    + unfold msgServer_Vote, Committee.AddVote in Hx. go_inv Hx; by simplify_eq.
    + eapply rtc_once, CommitteeGov.step_vote; eauto.
  - apply on_part_Ok in Hc as (t & Ht & ->). by eapply council_moves, step_register.
  - apply on_part_Ok in Hc as (t & Ht & ->). by eapply council_moves, CouncilTheorems.step_vote.
  - apply on_part_Ok in Hc as (t & Ht & ->). apply dasigners_moves.
  - apply on_part_Ok in Hc as (t & Ht & ->). apply dasigners_moves.
  - apply on_part_Ok in Hc as (t & Ht & ->). apply dasigners_moves.
Qed.

Lemma app_step_advances s s' : app_step act s s' -> advances s s'.
Proof.
  intros [ctx s1 s2 Hh Hx|ctx s1 s2 Hx|ctx m s1 s2 Hh Ha Hx|s1 s2 Hx].
  - eapply blockers_advance; [|exact Hx]. intros n t t'. by apply module_begin_advances.
  - eapply blockers_advance; [|exact Hx]. intros n t t'. apply module_end_advances.
  - by eapply deliver_advances.
  - by apply gov_advances.
Qed.

Lemma app_run_advances s s' : rtc (app_step act) s s' -> advances s s'.
Proof. apply rtc_preorder; [apply _|apply app_step_advances]. Qed.
End Laws.

(** ** The modules of the application behave as they do alone *)
  Context {laws : AppLaws activity}.


(** What x/issuance keeps whatever parameters are set: they are valid, and the issued amount
    of every window is a nonnegative amount of its denomination. *)
Definition supply_sane (d : string) (sup : Issuance.AssetSupply) : Prop :=
  Denom (Issuance.CurrentSupply sup) = d /\ 0 <= Amount (Issuance.CurrentSupply sup).
Definition books_ok (t : Issuance.State B A) : Prop :=
  ValidateAssets (Issuance.Assets t) = Ok tt /\ map_Forall supply_sane (Issuance.AssetSupplies t).




Record app_inv s : Prop := {
  ai_bep3 : Bep3Theorems.inv (get (World s) : Bep3Keeper.State B A);
  ai_issuance : books_ok (get (World s) : Issuance.State B A);
  ai_council : votes_ok (get (World s) : Council.State K);
  ai_committee : CommitteeTheorems.inv s
}.

Lemma rtc_keeps {S} (R : S -> S -> Prop) (P : S -> Prop) x y :
  (forall a b, R a b -> P a -> P b) -> rtc R x y -> P x -> P y.
Proof. intros HR. induction 1; eauto. Qed.


(** ** The begin blocker of x/issuance is not wired *)

(** What happens to the window of a denomination: its time stands still, and its amount never
    goes down. *)
Definition later_window (d : string) (t t' : Issuance.State B A) : Prop :=
  forall sup, Issuance.AssetSupplies t !! d = Some sup ->
     exists sup', Issuance.AssetSupplies t' !! d = Some sup' /\ TimeElapsed sup' = TimeElapsed sup
     /\ Amount (Issuance.CurrentSupply sup) <= Amount (Issuance.CurrentSupply sup').

#[export] Instance later_window_preorder d : PreOrder (later_window d).
Proof.
  split; [intros t sup Hs; exists sup; split_and!; [done|done|lia]|].
  intros t1 t2 t3 H1 H2 sup Hs.
  destruct (H1 _ Hs) as (sup1 & Hs1 & ? & ?). destruct (H2 _ Hs1) as (sup2 & Hs2 & ? & ?).
  exists sup2. split_and!; [done|congruence|lia].
Qed.














(** ** Swaps are not paid to module accounts *)
Lemma loadBlocked_all : loadBlockedMaccAddrs = ModuleAccountAddrs.
Proof.
  apply map_eq. intros k. unfold loadBlockedMaccAddrs, allowedMaccs. rewrite map_lookup_imap, lookup_empty. simpl.
  by destruct (ModuleAccountAddrs !! k).
Qed.

Definition user_recipient (sw : AtomicSwap) : Prop :=
  default false (ModuleAccountAddrs !! AccAddress_String (swRecipient sw)) = false.
Definition recipients_ok (t : Bep3Keeper.State B A) : Prop :=
  map_Forall (fun _ => user_recipient) (Bep3Keeper.AtomicSwaps t).

Lemma step_recipients (t t' : Bep3Keeper.State B A) : Bep3Theorems.step ModuleAccountAddrs t t' ->
  Bep3Theorems.inv t -> recipients_ok t -> recipients_ok t'.
Proof.
  intros Hs Hi Hr. destruct Hs as [ctx o t t' Hh _ Hx|t b acc _|p t t' _ Hx]; [|done|].
  2: { apply SetParams_Ok in Hx as (_ & _ & E & _). unfold recipients_ok. by rewrite E. }
  destruct o as [rnh ts span x y soc roc amt cc|from id' rn|from id'|]; simpl in Hx.
  - pose proof Hx as Hm. unfold CreateAtomicSwap in Hm.
    apply CreateAtomicSwap_Ok in Hx as (c & a & dir & sup & sup' & b' & acc & Hx). cbn zeta in Hx.
    destruct Hx as (_ & _ & _ & _ & _ & _ & _ & ->). simpl. apply map_Forall_insert_2; [|done].
    destruct (GetAtomicSwap t _); [done|]. unfold user_recipient; simpl. by destruct (default false _).
  - apply ClaimAtomicSwap_Ok in Hx as (sw & c & r & sup & sup' & b' & Hsw & Hst & _ & _ & _ & _ & ->).
    simpl. apply map_Forall_insert_2; [|done]. exact (Hr _ _ Hsw).
  - apply RefundAtomicSwap_Ok in Hx as (sw & c & r & sup & sup' & b' & Hsw & Hst & _ & _ & _ & ->).
    simpl. apply map_Forall_insert_2; [|done]. exact (Hr _ _ Hsw).
  - destruct (BeginBlocker_spec ctx t (inv_params _ Hi) (inv_store _ Hi) Hh) as (s1 & s2 & Hb & _ & _ & _ & Hv).
    rewrite Hx in Hb. injection Hb as <-. intros id sw. rewrite Hv. intros (sw0 & Hsw0 & Hb)%bind_Some.
    unfold block_view in Hb. repeat case_match; simplify_eq; exact (Hr _ _ Hsw0).
Qed.

(** With the module accounts that the application gives to x/bep3, the recipient of a swap
    is never an account that the bank refuses to pay: in every reachable state, no stored
    swap is for a blocked address. *)
Theorem recipients_not_blocked s s' id sw :
  app_inv s -> recipients_ok (get (World s)) -> rtc (app_step activity) s s' ->
  Bep3Keeper.AtomicSwaps (get (World s') : Bep3Keeper.State B A) !! id = Some sw ->
  default false (loadBlockedMaccAddrs !! AccAddress_String (swRecipient sw)) = false.
Proof.
  intros [I _ _ _] Hr [[H _ _] _]%app_run_advances Hsw. rewrite loadBlocked_all.
  assert (Bep3Theorems.inv (get (World s') : Bep3Keeper.State B A) /\ recipients_ok (get (World s'))) as [_ Hok].
  { eapply (rtc_keeps _ (fun t => Bep3Theorems.inv t /\ recipients_ok t)); [|exact H|done].
    intros t t' Ht [Hi Ho]. split; [by eapply Bep3Theorems.step_inv|by eapply step_recipients]. }
  by apply (Hok id).
Qed.
End Runs.
