(* ===== verification/AppBridge.v ===== *)
(** * app: the conversions of x/evmutil among the other modules

    x/bep3 and x/issuance mint, burn and move coins of the same bank whose supplies x/evmutil
    backs with tokens.  As long as governance enables only backed pairs of standard tokens,
    none with the denomination of an asset of these modules, every run of the application
    is, seen from x/evmutil, a run of the conversions with foreign activity in between, and
    the backing holds throughout.  When an asset of x/issuance has the denomination of a
    pair, one issue breaks it. *)

From S2P Require Import Prelude Sdk SdkDec GoStd Bank Bep3Types Bep3Keeper Bep3Inv Bep3Safety Bep3Theorems Bep3Msg.
From S2P Require Import Issuance IssuanceTheorems IssuanceMsg Evmutil EvmutilTheorems EvmConvert EvmConvertSpec.
From S2P Require Import EvmConvertTheorems EvmConvertMsg.
From S2P Require Import Pricefeed CommitteePerm Committee CommitteeTheorems CommitteeBlock CommitteeGov.
From S2P Require Import Council CouncilTheorems Bn254 Dasigners App AppTheorems.

(** ** What the other modules do to the account and the coins of x/evmutil *)
Section Spares.
  Context {cfg : SdkConfig} {sdk : SdkLaws} {B A : Type} {bk : BankKeeper B} {bank_laws : BankLaws B}
    {eth : EthConfig} {ethl : EthLaws B}.
  Implicit Types b : B.
  Abbreviation U := (EvmConvert.NewModuleAddress EvmutilName).

(** The account of x/evmutil is left alone, and no coins of the denominations [D] come
    into circulation. *)
Definition spares (D : list string) b b' : Prop :=
  (forall d, Bank.GetBalance b' U d = Bank.GetBalance b U d) /\ (forall d, d ∈ D -> Bank.GetSupply b' d <= Bank.GetSupply b d).

#[export] Instance spares_preorder D : PreOrder (spares D).
Proof.
  split; [by intros b|]. intros b1 b2 b3 [H1 H2] [H3 H4].
  split; [intros d; by rewrite H3|intros d Hd; specialize (H2 d Hd); specialize (H4 d Hd); lia].
Qed.


Context (distinct : module_addresses_differ (B := B))
  (refused : forall m cs b b', SendCoinsFromModuleToAccount m U cs b = Ok b' -> False).







Lemma bep3_foreign : Bep3Types.ModuleName <> EvmutilName. Proof. discriminate. Qed.
Lemma issuance_foreign : Issuance.ModuleAccountName <> EvmutilName. Proof. discriminate. Qed.
Local Hint Resolve bep3_account bep3_foreign issuance_foreign : core.
Local Hint Extern 1 (module_account Issuance.ModuleAccountName) => exact (proj1 issuance_account) : core.

(** *** x/bep3 *)
Context {str : GoStrings} {hash : TmHash} {auth : AccountKeeper A}.
Definition no_swap_asset (D : list string) (t : Bep3Keeper.State B A) : Prop :=
  forall d, d ∈ D -> Bep3Keeper.find_asset d (AssetParams (Bep3Keeper.params t)) = None.


(** *** x/issuance *)
Context {accounts : AuthKeeper A}.
Definition no_asset (D : list string) (t : Issuance.State B A) : Prop := forall d, d ∈ D -> Issuance.GetAsset t d = None.

End Spares.

(** ** Runs of the application *)
Section Bridge.
  Context {B A W K V : Type}.
  Context {cfg : SdkConfig} {sdk : SdkLaws} {b32 : Bech32Laws} {str : GoStrings} {hash : TmHash}
    {dc : DecConfig} {dl : DecLaws} {pc : PriceConfig}
    {bk : BankKeeper B} {bank_laws : BankLaws B} {ak : AccountKeeper A} {auth : AuthKeeper A} {eth : EthConfig}
    {evm : EvmKeeper B W} {cenv : CouncilEnv K} {gk : Gnark} {denv : DaEnv} {sk : StakingKeeper K V}.
  Context {jd : JsonDecoder} {pk : ParamKeeper (Chain B A W K)} {env : ChainEnv (Chain B A W K)}
    {chain_laws : ChainLaws (Chain B A W K)} {mods : SdkModules (Chain B A W K)}.
  Context {ethl : EthLaws B} {blocks : BankBlocks B} {view : Erc20View W} {tokens_laws : Erc20Laws B W}.
  Implicit Types c : Chain B A W K.
  Abbreviation AppState := (Committee.State (Chain B A W K)).
  Implicit Types s : AppState.
  Abbreviation U := (EvmConvert.NewModuleAddress EvmutilName).

(** The denominations of the enabled pairs. *)
Definition paired c : list string := cpDenom <$> EnabledConversionPairs (cvParams (chEvmutil c)).

(** No pair has the denomination of an asset of x/bep3 or x/issuance. *)
Record apart c : Prop := {
  ap_bep3 : no_swap_asset (paired c) (get c : Bep3Keeper.State B A);
  ap_issuance : no_asset (paired c) (get c : Issuance.State B A)
}.
Record bridge_ok c : Prop := {
  bo_apart : apart c;
  bo_bep3 : Bep3Theorems.inv (get c : Bep3Keeper.State B A);
  bo_conv : conv_inv (get c : ConvState B W)
}.

(** Steps of the EVM's bank keeper and foreign activity: what the modules of the SDK and the
    EVM do to the state of x/evmutil. *)
Inductive env_step (t : ConvState B W) : ConvState B W -> Prop :=
| env_evm o e : outside U o -> evm_exec o (wState (cvWorld t)) = Ok e ->
    env_step t (EvmConvert.set_world (mkWorld e (wEvm (cvWorld t))) t)
| env_foreign t' : foreign t t' -> env_step t t'.

(** A prudent change of parameters: it leaves the pairs apart from the assets of x/bep3 and
    x/issuance, and enables only standard tokens that back the coins in circulation
    ([listable]). *)
Definition prudent (p : ParamChange) c c' : Prop :=
  apart c' /\ match p with ChangeEvmutil q => listable q (get c : ConvState B W) | _ => True end.

Inductive bridge_activity c c' : Prop :=
| ba_other : other c c' -> rtc env_step (get c : ConvState B W) (get c') -> bridge_activity c c'
| ba_params p : change_u256 p -> change_params p c = Ok c' -> prudent p c c' -> bridge_activity c c'.

(** The bank refuses to send coins to the account of x/evmutil: no module account is
    unblocked in app.go. *)
Class BridgeLaws : Prop :=
  evmutil_refuses m cs (b b' : B) : SendCoinsFromModuleToAccount m U cs b = Ok b' -> False.

(** What a change of the chain is for x/evmutil. *)
Record joins c c' : Prop := {
  jo_moves : moves c c';
  jo_steps : bridge_ok c -> apart c' /\ rtc conv_step (get c : ConvState B W) (get c')
}.
Lemma joins_ok c c' : joins c c' -> bridge_ok c -> bridge_ok c'.
Proof.
  intros [[Hm _ _] Hs] Hb. destruct (Hs Hb) as [Ha Hr]. split; [done| |by eapply conv_inv_run; [apply Hb|]].
  eapply rtc_keeps; [|exact Hm|apply Hb]. apply Bep3Theorems.step_inv.
Qed.
#[export] Instance joins_preorder : PreOrder joins.
Proof.
  split; [intros c; split; [done|]; intros Hb; split; [apply Hb|done]|].
  intros c1 c2 c3 H12 H23. split; [etransitivity; [apply H12|apply H23]|]. intros Hb.
  pose proof (joins_ok _ _ H12 Hb) as Hb2. destruct (jo_steps _ _ H12 Hb) as [_ H1]. destruct (jo_steps _ _ H23 Hb2) as [Ha H2].
  split; [done|by etransitivity].
Qed.






Context {bridge_laws : BridgeLaws} {laws : AppLaws bridge_activity}.







(** *** The steps

    Messages as before; the account of x/evmutil, which has no key, has not signed them,
    and amounts have at most 256 bits. *)
Definition bridge_admissible (m : AppMsg) s : Prop :=
  admissible m s /\
  match m with
  | CreateSwap msg => forall x, AccAddressFromBech32 (mcFrom msg) = Ok x -> x <> U
  | IssuanceMsg msg => forall x, AccAddressFromBech32 (msg_Sender msg) = Ok x -> x <> U
  | EvmutilMsg msg => (forall x, EvmConvertMsg.GetSigners msg = Ok [x] -> x <> U)
      /\ (forall n, msg_amount msg = Some n -> n < 2 ^ 256)
  | _ => True
  end.

Inductive bridge_step : AppState -> AppState -> Prop :=
| bridge_begin ctx s s' : is_i64 (BlockHeight ctx) -> App.BeginBlocker ctx s = Ok s' -> bridge_step s s'
| bridge_end ctx s s' : App.EndBlocker ctx s = Ok s' -> bridge_step s s'
| bridge_msg ctx m s s' : is_i64 (BlockHeight ctx) -> bridge_admissible m s -> deliver ctx m s = Ok s' -> bridge_step s s'
| bridge_gov s s' : gov_step bridge_activity s s' -> bridge_step s s'.

(** These runs are runs of the application. *)
Lemma bridge_activity_sound c c' : bridge_activity c c' -> activity c c'.
Proof. intros [Ho _|p Hu Hx _]; [by left|right; by exists p]. Qed.
Lemma bridge_app_step s s' : bridge_step s s' -> app_step activity s s'.
Proof.
  intros [ctx s1 s2 Hh Hx|ctx s1 s2 Hx|ctx m s1 s2 Hh [Ha _] Hx|s1 s2 Hx].
  - by eapply app_begin.
  - by eapply app_end.
  - by eapply app_msg.
  - apply app_gov. destruct Hx as [t c Hc|content t t' Hu Hx]; [by apply gov_chain, bridge_activity_sound|by eapply gov_committee].
Qed.

Definition world_joins s s' : Prop := joins (World s) (World s').
#[local] Instance world_joins_preorder : PreOrder world_joins.
Proof. split; [intros s; unfold world_joins; reflexivity|]. unfold world_joins. intros s1 s2 s3 H1 H2. by etransitivity. Qed.





(** ** The backing holds in the application *)


(** Nothing keeps the denominations apart: the owner of an asset of x/issuance with the
    denomination of a pair breaks the backing, and the module's check of it ([BackedCoinsInvariant])
    reports it, by issuing more than the module holds tokens in excess. *)
Theorem issue_unbacks {run : Erc20Runs B W} ctx x y n p s s' :
  conv_inv (get (World s) : ConvState B W) -> p ∈ EnabledConversionPairs (cvParams (chEvmutil (World s))) ->
  tokens (get (World s) : ConvState B W) (GetAddress p) ModuleEVMAddress < Bank.GetSupply (chBank (World s)) (cpDenom p) + n ->
  deliver ctx (IssuanceMsg (MsgIssueTokens x (mkCoin (cpDenom p) n) y)) s = Ok s' ->
  exists t, BackedCoinsInvariant false (get (World s') : ConvState B W) = Ok (true, t).
Proof.
  intros I Hp Hlt Hx. simpl in Hx. apply obind_Ok in Hx as (c & (t & Hx & ->)%on_part_Ok & [= <-]). simpl in Hx. go_inv Hx.
  apply issue_correct in Hx as (_ & _ & Hs). specialize (Hs (cpDenom p)). simpl in Hs. rewrite bool_decide_eq_true_2 in Hs by done.
  destruct (checks_correct false (get (put t (World s)) : ConvState B W)) as [(r' & s1 & Hr & _ & E) _];
    [by destruct (ci_contracts _ I); split|exact (ci_account _ I)|].
  exists s1. destruct r'; [exact Hr|]. exfalso. destruct (proj1 E eq_refl) as [_ Hall].
  specialize (Hall p Hp). unfold pair_backed, tokens, cv_bank in *. simpl in *. rewrite Hs in Hall. lia.
Qed.
End Bridge.
