(* ===== verification/AppGenesis.v ===== *)
(** * app: from the genesis to every later state

    [InitChainer] runs the modules' genesis imports in the order of [app.go].  Between the
    import of x/bep3 and the first block nothing changes its store, so the invariants that
    the import establishes are there when the chain starts, and stay. *)

From S2P Require Import Prelude Sdk SdkDec GoStd Bank Bep3Types Bep3Keeper Bep3Inv Bep3Safety Bep3Theorems Bep3Msg Bep3Genesis.
From S2P Require Import Issuance IssuanceTheorems IssuanceMsg Evmutil EvmConvert EvmConvertSpec EvmConvertMsg.
From S2P Require Import Pricefeed CommitteePerm Committee CommitteeTheorems CommitteeBlock CommitteeGov.
From S2P Require Import Council CouncilTheorems Bn254 Dasigners App AppTheorems.

Section Genesis.
  Context {B A W K V : Type}.
  Context {cfg : SdkConfig} {sdk : SdkLaws} {b32 : Bech32Laws} {str : GoStrings} {hash : TmHash}
    {dc : DecConfig} {dl : DecLaws} {pc : PriceConfig}
    {bk : BankKeeper B} {bank_laws : BankLaws B} {ak : AccountKeeper A} {auth : AuthKeeper A} {eth : EthConfig}
    {evm : EvmKeeper B W} {cenv : CouncilEnv K} {gk : Gnark} {denv : DaEnv} {sk : StakingKeeper K V}.
  Context {jd : JsonDecoder} {pk : ParamKeeper (Chain B A W K)} {env : ChainEnv (Chain B A W K)}
    {chain_laws : ChainLaws (Chain B A W K)} {mods : SdkModules (Chain B A W K)} {laws : AppLaws activity}.
  Implicit Types c : Chain B A W K.
  Abbreviation AppState := (Committee.State (Chain B A W K)).
  Implicit Types s : AppState.

(** The imports of the SDK's modules do not write to the store of x/bep3. *)
Class GenesisLaws : Prop := {
  versions_bep3 c : chBep3 (SetModuleVersionMap c) = chBep3 c;
  init_bep3 n ctx c c' : sdk_InitGenesis n ctx c = Ok c' -> chBep3 c' = chBep3 c
}.
  Context {glaws : GenesisLaws}.









End Genesis.
