(* ===== verification/AppWitness.v ===== *)
(** * app: the theorems at work on a concrete application

    The chains of the witnesses of the modules put together over one ledger: a user starts
    an outgoing swap, a holder of tokens converts some to coins, the owner of an asset issues
    tokens of it, governance lowers the supply limit of the swapped asset, a block passes in
    which the swap expires, the swap is refunded, and a year goes by.  The modules of the SDK are idle. *)

From S2P Require Import Prelude Sdk SdkDec SdkModel GoStd Bank Bep3Types Bep3Keeper Bep3Inv Bep3Safety Bep3Theorems Bep3Msg.
From S2P Require Import Bep3Genesis Bep3Witness Issuance IssuanceTheorems IssuanceMsg IssuanceWitness.
From S2P Require Import Evmutil EvmConvert EvmConvertSpec EvmConvertTheorems EvmConvertMsg EvmConvertWitness.
From S2P Require Import Pricefeed PricefeedWitness.
From S2P Require Import CommitteePerm Committee CommitteeTheorems CommitteeGov CommitteeWitness.
From S2P Require Import Council CouncilTheorems CouncilWitness Bn254 Dasigners DasignersWitness App AppTheorems AppBridge AppGenesis.

Module AppChain.
#[export] Existing Instances SdkModel.model SdkModel.laws SdkModel.bech32_laws DecModel.dec DecModel.dec_laws.
#[export] Existing Instances Vault.keeper Vault.bank_laws Bep3Chain.go_strings Bep3Chain.hash Bep3Chain.auth IssuanceChain.auth.
#[export] Existing Instances Machine.eth Machine.evm Machine.eth_laws Machine.blocks Machine.view Machine.laws Machine.executes.
#[export] Existing Instances PriceChain.prices CouncilChain.env DaChain.gnark DaChain.env CommitteeChain.decoder.

Definition chain : Type := Chain Ledger.t (list AccAddress) Machine.machine (list bytes).
Definition state : Type := Committee.State chain.
#[export] Instance staked : StakingKeeper (list bytes) unit := {|
  DelegatorDelegations k a := [];
  GetValidator k v := if bool_decide (v ∈ k) then Some tt else None;
  TokensFromSharesTruncated _ z := Ok z
|}.
#[export] Instance subspaces : ParamKeeper chain := {| GetSubspace c n := None |}.
#[export] Instance chain_env : ChainEnv chain := {|
  Committee.GetAccount c a := if bool_decide (a ∈ chAccounts c) then Some a else None;
  Committee.GetBalance c a d := Ledger.balance (chBank c) a d;
  Committee.GetSupply c d := Ledger.supply (chBank c) d;
  content_ValidateBasic p := Ok tt;
  content_Route p := "gov";
  ValidateAbstract t d := Ok tt;
  GetRoute r := if bool_decide (r = "gov") then Some (fun _ _ c => Ok c) else None
|}.
#[export] Instance env_laws : ChainLaws chain.
Proof. split; simpl; [intros c a b; by case_bool_decide; intros ?; simplify_eq|intros; apply Ledger.balance_nonneg]. Qed.
#[export] Instance idle_modules : SdkModules chain := {|
  sdk_BeginBlock n ctx c := Ok c;
  sdk_EndBlock n ctx s := Ok s;
  sdk_InitGenesis n ctx c := Ok c;
  SetModuleVersionMap c := c;
  App.NewModuleAddress := Vault.maddr;
  ChainID := "zgtendermint_16600-1"
|}.

(** The addresses of the module accounts are different. *)
Definition account_names : list string := (map_to_list mAccPerms).*1.
Lemma maddr_inj m m' : module_account m -> module_account m' -> Vault.maddr m = Vault.maddr m' -> m = m'.
Proof.
  intros [v Hv] [v' Hv']. apply (NoDup_key Vault.maddr account_names).
  - apply (bool_decide_unpack _). vm_compute. exact I.
  - unfold account_names. apply list_elem_of_fmap. exists (m, v). split; [done|]. by apply elem_of_map_to_list.
  - unfold account_names. apply list_elem_of_fmap. exists (m', v'). split; [done|]. by apply elem_of_map_to_list.
Qed.

Lemma idle_laws (act : chain -> chain -> Prop) : (forall c c', act c c' -> activity c c') -> AppLaws act.
Proof.
  intros Hact. split.
  - exact Hact.
  - intros m m' x Hm Hm' H1 H2. apply maddr_inj; [done|done|]. simpl in *. congruence.
  - by intros n ctx c c' [= <-].
  - by intros n ctx s s' [= <-].
  - intros r h ctx p c c' Hr Hx. simpl in Hr. case_bool_decide; [|done]. injection Hr as <-. by injection Hx as <-.
  - intros m x res x' Hx _. simpl in Hx. destruct (match mTo m with Some _ => _ | None => _ end) as [r w].
    injection Hx as _ <-. done.
  - unfold escrow_of. vm_compute. discriminate.
Qed.
#[export] Instance app_laws : AppLaws (activity (B := Ledger.t) (A := list AccAddress) (W := Machine.machine) (K := list bytes)).
Proof. by apply idle_laws. Qed.
#[export] Instance bridge_app_laws :
  AppLaws (bridge_activity (B := Ledger.t) (A := list AccAddress) (W := Machine.machine) (K := list bytes)).
Proof. apply idle_laws, bridge_activity_sound. Qed.
#[export] Instance bridge_laws : BridgeLaws (B := Ledger.t).
Proof. by intros m cs b b'. Qed.
#[export] Instance genesis_laws : GenesisLaws (B := Ledger.t) (A := list AccAddress) (W := Machine.machine) (K := list bytes).
Proof. split; [done|]. by intros n ctx c c' [= <-]. Qed.

(** ** The run *)
Definition ledger : Ledger.t :=
  Ledger.set_supply "usd" 50 (Ledger.set_balance IssuanceChain.thief "usd" 20 (Ledger.set_balance IssuanceChain.owner "usd" 30
    (Bep3Keeper.bank Bep3Chain.start))).
Definition members : list AccAddress := [IssuanceChain.owner; IssuanceChain.holder; IssuanceChain.thief].
Definition no_conversions : ConvState unit Machine.machine := rebase_evmutil tt (Bridge.fresh ledger).
Definition no_signers : Dasigners.State unit :=
  Dasigners.mkState (Some (mkParams 10 1024 10 5760 3072)) (Some 0) ∅ ∅ ∅ ∅ tt.
Definition start : state :=
  Committee.mkState ∅ ∅ ∅ (Some 1) []
    (mkChain (rebase_bep3 tt tt Bep3Chain.start) (rebase_issuance tt tt IssuanceChain.start) no_conversions
       (mkPf [] ∅ ∅) (rebase_council tt CouncilChain.start) no_signers ledger members [CouncilChain.ann; CouncilChain.bob]).
Definition run (o : outcome state) : state := match o with Ok s => s | _ => start end.

Definition create : AppMsg :=
  CreateSwap (NewMsgCreateAtomicSwap (AccAddress_String Bep3Chain.user) (AccAddress_String Bep3Chain.deputy) "here" "there"
    (hex_EncodeToString Bep3Chain.hashed) Bep3Chain.now [mkCoin "bnb" 30] 20).
Definition issue : AppMsg :=
  IssuanceMsg (MsgIssueTokens (AccAddress_String IssuanceChain.owner) (mkCoin "usd" 40) (AccAddress_String IssuanceChain.holder)).
Definition convert : AppMsg := EvmutilMsg Bridge.msg.
Definition refund : AppMsg :=
  RefundSwap (NewMsgRefundAtomicSwap (AccAddress_String Bep3Chain.user) (hex_EncodeToString Bep3Chain.outgoing_id)).
Definition year_later : Ctx := mkCtx 130 ((Bep3Chain.now + 31536000) * 1000000000).

Definition swapped : state := run (deliver (Bep3Chain.at_height 100) create start).
Definition converted : state := run (deliver (Bep3Chain.at_height 100) convert swapped).
Definition issued : state := run (deliver (Bep3Chain.at_height 101) issue converted).
Definition lower : ParamChange := ChangeBep3 (Bep3Types.NewParams [Bep3Chain.low_asset]).
Definition lowered : state :=
  match change_params lower (World issued) with Ok c => Committee.set_world c issued | _ => issued end.
Definition expired : state := run (App.BeginBlocker (Bep3Chain.at_height 120) lowered).
Definition refunded : state := run (deliver (Bep3Chain.at_height 121) refund expired).
Definition later : state := run (App.BeginBlocker year_later refunded).

Lemma not_escrow x y : AccAddressFromBech32 y = Ok x -> AccAddressFromBech32 y <> Ok (Vault.maddr "bep3") -> ~ escrow_of x.
Proof. intros Hx Hy [= E]. apply Hy. by rewrite Hx, <- E. Qed.
Lemma swapped_step : bridge_step start swapped.
Proof.
  apply (bridge_msg (Bep3Chain.at_height 100) create); [done| |vm_compute; reflexivity]. split.
  - intros x Hx. eapply not_escrow; [exact Hx|vm_compute; discriminate].
  - intros x Hx ->. vm_compute in Hx. discriminate Hx.
Qed.


Lemma app_start_inv : app_inv start.
Proof.
  split.
  - destruct Bep3Chain.start_inv as [P [S1 S2 S3] U _]. split; [exact P|by split|exact U|].
    intros x d _. apply (Z.le_trans _ 0); [|apply Ledger.balance_nonneg].
    change (supply_amount OutgoingSupply (Bep3Keeper.AssetSupplies Bep3Chain.start) d <= 0).
    unfold supply_amount. rewrite Bep3Chain.start_supply. by case_decide.
  - split; [apply IssuanceChain.issuance_start_inv|]. simpl. apply map_Forall_singleton. by split.
  - apply map_Forall_empty.
  - split; simpl; [intros k c; by rewrite lookup_empty..|]. exists 1. split; [done|]. by split.
Qed.

(** Thirty coins are in circulation at the end, and thirty tokens are locked. *)
Example converted_backed : Bank.GetSupply (chBank (World later)) "usdc" = 30
  /\ tokens (get (World later) : ConvState Ledger.t Machine.machine) Bridge.usdc ModuleEVMAddress = 30.
Proof. split; vm_compute; reflexivity. Qed.

(** An asset of x/issuance with the denomination of the pair: seventy coins are issued with
    no tokens locked. *)
Definition usdc_asset : Asset :=
  NewAsset (AccAddress_String IssuanceChain.owner) "usdc" [] false false (NewRateLimit false 0 0).
Definition clash : state :=
  Committee.mkState ∅ ∅ ∅ (Some 1) []
    (mkChain (rebase_bep3 tt tt Bep3Chain.start) (Issuance.mkState [usdc_asset] ∅ (Some 0) tt tt) no_conversions
       (mkPf [] ∅ ∅) (rebase_council tt CouncilChain.start) no_signers ledger members [CouncilChain.ann; CouncilChain.bob]).
Definition unbacked : state :=
  run (deliver (Bep3Chain.at_height 101) (IssuanceMsg (MsgIssueTokens (AccAddress_String IssuanceChain.owner) (mkCoin "usdc" 70)
         (AccAddress_String IssuanceChain.holder))) clash).
Lemma issue_unbacks_witness :
  exists t, BackedCoinsInvariant false (get (World unbacked) : ConvState Ledger.t Machine.machine) = Ok (true, t).
Proof.
  apply (issue_unbacks (Bep3Chain.at_height 101) (AccAddress_String IssuanceChain.owner) (AccAddress_String IssuanceChain.holder)
           70 Bridge.pair_usdc clash).
  - change (conv_inv (Bridge.fresh ledger)). apply Bridge.fresh_inv; vm_compute; reflexivity.
  - left.
  - vm_compute. reflexivity.
  - vm_compute. reflexivity.
Defined.




Lemma recipients_not_blocked_witness :
  default false (loadBlockedMaccAddrs !! AccAddress_String Bep3Chain.deputy) = false.
Proof.
  apply (recipients_not_blocked start swapped Bep3Chain.outgoing_id Bep3Chain.out_swap app_start_inv);
    [apply map_Forall_empty|exact (rtc_once _ _ (bridge_app_step _ _ swapped_step))|vm_compute; reflexivity].
Defined.

End AppChain.
